(* ===== verification/_CoqProject ===== *)
-Q . S2P
Prelude.v
Memory.v
Checksum.v
Ip.v
Icmp.v
TcpHeader.v
Heap.v
Tcb.v
Vector.v
Table.v
Hash.v
Segment.v
Samples.v
Tcp.v
Network.v
Log.v
Server.v
ServerSpec.v
Agree.v
Isolation.v
Format.v
Shutdown.v
CString.v
Actions.v
TunDevice.v
Startup.v
OldList.v
OldNet.v
OldSegment.v
Http.v
OldTcp.v
OldMain.v
OldSession.v
OldDevice.v
Debug.v
OldVerbose.v
ThreadPool.v
