(* ===== verification/Prelude.v ===== *)
(** * Lazy TCP: a verification of the user-space TCP server

    The repository holds two versions of a small TCP/IP stack over a Linux TUN device.  The
    current one is [src/refactor/]: one process reads a packet into a buffer, validates and
    answers it in place, keeps connections in a hash table, and writes the reply back.  The
    first version is the rest of [src/]: the same loop over a linked list of connections with
    an HTTP responder, and a thread pool.  Both are modelled, each function as a Rocq function
    of the same name, and the theorems are about those functions.

    ** How the code is represented

    - A packet buffer is a list of bytes, a pointer into it an offset; packed structs are
      fields with an offset and a width, little-endian ([Memory.v]).  [htons] and the like
      reverse bytes.  Integers are [Z]; [u8], [u16], [u32], [u64] and [s32] are the
      conversions, written where C converts; signed arithmetic that overflows is undefined.
    - Undefined behaviour is [None] of the option monad: an access outside a buffer, of a
      freed or null block, of an array slot never written, a signed overflow.  A theorem that
      a call is [Some] says in particular that the call is memory safe and terminates.
    - A read of a local never assigned, as [tcp_rst] makes on every path, takes a reading
      that may be absent ([Junk]): absent, the call is undefined, as the C standard has it;
      present, it is the word the stack holds, any word.  A theorem that needs such reads to
      give values says so ([settled]).
    - [malloc], [realloc] and [free] act on a heap of live blocks and live arrays ([Heap.v]),
      so that leaks of both can be stated.  Which requests are refused is a parameter.
    - [rand] has a state, the sequence of values it will still give, which is never seeded
      and which all connections share; it is part of the connection table's record.
    - System calls and clocks are readings of the environment: records ([Round], [Env],
      [Log_Env], [Tun_Env], [Log_Init_Env], [Old_Env], [Vd_Env]) the theorems quantify over.
      The constants of the kernel's Netlink headers and [inet_pton] are parameters
      ([Netlink_Api]).

    ** The current version

    - [Checksum.v]: [checksum] of [network/network.c].  RFC 1071 equivalence; a sealed message
      verifies.
    - [Ip.v], [Icmp.v]: [network/ip.c], [network/icmp/icmp.c].  Validation is exact, and does
      not look at the total length; an echo reply and a protocol-unreachable error are valid packets with the right contents.
    - [TcpHeader.v], [Segment.v]: the TCP header and its checksum ([tcp.h], [tcp.c]), and
      [segment.c]: the SYN-ACK and the reset built over the received packet.
    - [Tcb.v]: [tcb.h] and [tcb.c]: identifiers, blocks, modular comparisons.
    - [Vector.v], [Hash.v]: [vector.c], [hash.c], against the contract [Table.v]
      ([ConTable], [ConTableLaws]): any sequence of operations is one on a finite map; a
      failed insertion changes nothing; destruction frees every block and the array of every
      bucket.  Arrays lost when the creation of the buckets fails half-way and is tried again
      are not among them.
    - [Tcp.v]: [tcp_dispatch], [tcp_parse_edge] and [tcb_state_update].  The abstract
      specification is [con_step], the machine of one connection; the handler refines it on
      the map of connections.  From it: the handshake, isolation of connections, resets,
      their window and their fields, the checksum test and the checksum of the answer to a
      SYN with data, the invariant of every block.
    - [Network.v]: [net_demux].  [Log.v]: [log_event], and the round trip with [log.py].
    - [Server.v]: [server_run] of [main.c].  The loop is defined on any input, but for the
      unassigned locals of a reset; every packet written answers the one read, no connection
      is established without a handshake.
    - [ServerSpec.v]: the abstract server on a finite map of connections, a function of the
      packets received, the clock, the generator's values and the words resets take from the
      stack, which the loop refines when no allocation is refused; and the log as a
      transcript of the run.
    - [Agree.v], [Isolation.v]: buffers that agree on the bytes received are answered alike;
      hence what a peer is sent, and what is kept of its connection, depends on its own
      packets, the clock, how far others have moved the generator, and the stack, as long as
      TCP headers lie in their packets.  Behind one that does not, bytes of earlier packets
      leave the host.
    - [Shutdown.v]: the program call by call, from the opening of the log to the end of
      [server_run], interleaved with the signal handler [server_shutdown].  The opening of
      the log's FIFO, its writes, [tun_read] and [tun_write] may block.  A run that ends is a
      run of [server_run], with at most one reading after the signal; it ends if every call
      returns; with [SA_RESTART] a signal makes no call return.
    - [CString.v], [Actions.v], [TunDevice.v], [Startup.v]: string functions; what is done to
      the system as a list of actions, and what is held after them; [tun_device.c]; [log_init]
      and [main].  A device is created whole or not at all; every run of [main] is accounted for,
      down to the descriptors it leaves open and the memory of the table it never destroys.

    ** The first version

    - [OldNet.v]: [network/network.c], [network/ip/ip.c], [network/icmp/icmp.c].
    - [OldList.v]: the linked list of [network/tcp/tcp.c], an instance of the same contract.
    - [OldSegment.v], [OldTcp.v]: segments and [tcp_dispatch], refining a specification per
      connection, and exactly when a call is undefined: a signed overflow, or a response that
      cannot be built.  [Http.v]: [network/http/http.c].
    - [OldMain.v]: [parse_packet] and the loop of [main.c] as a function on the buffer and a
      map of connections, for packets whose length fields are true; and what happens when
      they are not.
    - [OldSession.v]: a client's whole session, from the SYN to the FIN: the three packets the
      program writes, with the file in the second.
    - [OldDevice.v]: [v_device/v_device.c] and [main] around the loop: the commands it runs,
      its failures, the arguments for which it is undefined, and the list it never frees.
    - [Format.v], [Debug.v]: the conversions of [printf], and [debug/debug.c] as the bytes it
      prints: a dump can be read back, and reads too far when a length field lies.
    - [OldVerbose.v]: the handler, the loop and [main] once more, with every call that prints
      to the standard output.  On packets whose lengths are true, dropping the output gives
      the definitions of the other files.
    - [ThreadPool.v]: [thread_pool/thread_pool.c] as interleavings of its threads: first in,
      first out, no lost wake-up, and a shutdown that ends with every job taken, none of which
      rests on a spurious wake-up.

    [Samples.v] holds the packets at which theorems with hypotheses are evaluated.

    ** Bounds and fuel

    - Loops over a length take it as fuel: the summing loop of the checksum and the dump of
      a packet have as much fuel as bytes, the carry loop two turns, enough for any 32-bit
      sum ([checksum_rfc1071] and [raw_packet_print_roundtrip] prove the results, hence that
      the fuel is enough).  Loops over the linked list have one unit
      more than there are live blocks, which a list without cycles cannot exhaust.  Loops with a
      constant bound recurse on it.
    - The theorems on runs assume at most [TABLE_MAX], 2^31 - 1, connections: [int] counters
      and the allocation sizes of a bucket are exact up to there.

    ** Not modelled

    - What is printed to the standard error, and by the current version ([printf] in
      [src/refactor/]); of the latter's banner, the one case that is undefined is kept.
    - The calls that register the signal handlers, and a signal outside the part of [main]
      [Shutdown.v] models.  In [Server.v] and [Startup.v] the sequence of turns ends where the
      shutdown flag is seen.
    - Mutex and condition variable set-up, and the kernel's behaviour beyond what it returns.
    - [tcp_ack], [tcp_write] and [tun_print] are declared without a body; [job_handle]'s body
      is commented out.  The Python scripts and the tests are not part of the program; of
      [log.py] the layout it unpacks is modelled. *)
From stdpp Require Export base list numbers option gmap.
From Stdlib Require Export ZArith Lia.

#[global] Open Scope Z_scope.

(** ** Machine words *)

(** Conversion to [uint8_t], [uint16_t], [uint32_t], [uint64_t]. *)
Definition u8 (z : Z) : Z := z mod 256.
Definition u16 (z : Z) : Z := z mod 65536.
Definition u32 (z : Z) : Z := z mod 4294967296.
Definition u64 (z : Z) : Z := z mod 18446744073709551616.

(** Conversion of any integer to [int32_t] (two's complement, as gcc defines it). *)
Definition s32 (z : Z) : Z := (z + 2147483648) mod 4294967296 - 2147483648.

(** Signed [int] addition: overflow is undefined behaviour. *)
Definition int_ok (z : Z) : bool := (-2147483648 <=? z) && (z <=? 2147483647).
Definition int_add (a b : Z) : option Z :=
  if int_ok (a + b) then Some (a + b) else None.

(** [htons]/[ntohs] and [htonl]/[ntohl] on a little-endian host: the argument is
    converted to the parameter's type, then its bytes are reversed. *)
Definition bswap16 (z : Z) : Z := z mod 256 * 256 + z / 256 mod 256.
Definition bswap32 (z : Z) : Z :=
  z mod 256 * 16777216 + z / 256 mod 256 * 65536 + z / 65536 mod 256 * 256
  + z / 16777216 mod 256.
Abbreviation htons := bswap16 (only parsing).
Abbreviation ntohs := bswap16 (only parsing).
Abbreviation htonl := bswap32 (only parsing).
Abbreviation ntohl := bswap32 (only parsing).

(** C truth value of an integer expression, as in [bool b = e;]. *)
Definition truth (z : Z) : bool := negb (z =? 0).

(** ** Automation *)

Create HintDb words.
Create Rewrite HintDb words_rw.

(** Linear arithmetic with [/] and [mod] by constants. *)
Ltac divlia := Z.div_mod_to_equations; lia.

(** Arithmetic on the word conversions. *)
Ltac words := unfold u8, u16, u32, u64, s32, bswap16, bswap32 in *; divlia.

(** Peel every [option] bind of a hypothesis. *)
Ltac inv_opt :=
  repeat match goal with
  | H : Some _ = Some _ |- _ => injection H as H; subst
  | H : None = Some _ |- _ => discriminate H
  | H : Some _ = None |- _ => discriminate H
  | H : (_ ≫= _) = Some _ |- _ => apply bind_Some in H; destruct H as (?&?&?)
  | H : (_ <$> _) = Some _ |- _ => apply fmap_Some in H; destruct H as (?&?&?)
  | H : (_, _) = (_, _) |- _ => injection H as H; subst
  end.

(** A decidable fact, by evaluation. *)
Ltac by_eval := apply (bool_decide_unpack _); vm_compute; exact I.

(** ** Words: ranges and round trips *)

Lemma u8_range z : 0 <= u8 z < 256.
Proof. words. Qed.

Lemma u16_range z : 0 <= u16 z < 65536.
Proof. words. Qed.

Lemma u32_range z : 0 <= u32 z < 4294967296.
Proof. words. Qed.

Lemma s32_range z : -2147483648 <= s32 z < 2147483648.
Proof. words. Qed.

Lemma bswap16_range z : 0 <= bswap16 z < 65536.
Proof. words. Qed.

Lemma bswap32_range z : 0 <= bswap32 z < 4294967296.
Proof. words. Qed.

Lemma u8_id z : 0 <= z < 256 -> u8 z = z.
Proof. intros; now apply Z.mod_small. Qed.

Lemma u16_id z : 0 <= z < 65536 -> u16 z = z.
Proof. intros; now apply Z.mod_small. Qed.

Lemma u32_id z : 0 <= z < 4294967296 -> u32 z = z.
Proof. intros; now apply Z.mod_small. Qed.

Lemma s32_id z : -2147483648 <= z < 2147483648 -> s32 z = z.
Proof. intros; words. Qed.

Lemma bswap16_u16 z : bswap16 (u16 z) = bswap16 z.
Proof. words. Qed.

Lemma bswap16_bswap16 z : bswap16 (bswap16 z) = u16 z.
Proof. words. Qed.

(** A 32-bit value and its four bytes. *)
Lemma bytes4_unique a b c d z :
  0 <= a < 256 -> 0 <= b < 256 -> 0 <= c < 256 ->
  z = a + 256 * b + 65536 * c + 16777216 * d ->
  z mod 256 = a /\ z / 256 mod 256 = b /\ z / 65536 mod 256 = c /\ z / 16777216 = d.
Proof. intros; subst; repeat split; divlia. Qed.

Lemma bswap32_bytes a b c d :
  0 <= a < 256 -> 0 <= b < 256 -> 0 <= c < 256 -> 0 <= d < 256 ->
  bswap32 (a + 256 * b + 65536 * c + 16777216 * d)
  = d + 256 * c + 65536 * b + 16777216 * a.
Proof.
  intros Ha Hb Hc Hd. unfold bswap32.
  destruct (bytes4_unique a b c d _ Ha Hb Hc eq_refl) as (->&->&->&->).
  rewrite (Z.mod_small d) by lia. lia.
Qed.

Lemma bswap32_bswap32 z : bswap32 (bswap32 z) = u32 z.
Proof.
  set (a := z mod 256). set (b := z / 256 mod 256).
  set (c := z / 65536 mod 256). set (d := z / 16777216 mod 256).
  replace (bswap32 z) with (d + 256 * c + 65536 * b + 16777216 * a)
    by (unfold bswap32; fold a b c d; lia).
  rewrite bswap32_bytes by (subst a b c d; apply Z.mod_pos_bound; lia).
  subst a b c d. unfold u32. divlia.
Qed.

Lemma s32_u32 z : s32 (u32 z) = s32 z.
Proof. words. Qed.

Lemma u32_s32 z : u32 (s32 z) = u32 z.
Proof. words. Qed.

Lemma int_add_Some a b c : int_add a b = Some c <-> c = a + b /\ -2147483648 <= c <= 2147483647.
Proof.
  unfold int_add, int_ok. destruct (_ && _) eqn:E; split; intros H; inv_opt.
  - apply andb_true_iff in E. lia.
  - now destruct H as [-> _].
  - apply andb_false_iff in E. lia.
Qed.

#[export] Hint Resolve u8_range u16_range u32_range s32_range bswap16_range bswap32_range : words.
#[export] Hint Rewrite bswap16_u16 bswap16_bswap16 bswap32_bswap32 s32_u32 u32_s32 : words_rw.
