(* ===== verification/Memory.v ===== *)
(** * Byte buffers

    The packet buffer ([uint8_t *buf] of [refactor/main.c], [char *tu] of
    [main.c]) and the local arrays of the checksum code are lists of bytes.  A
    pointer into a buffer is its offset.  An access outside the buffer is
    undefined behaviour, [None].  Multi-byte accesses go through packed structs
    or casts on a little-endian host. *)
From S2P Require Import Prelude.

Abbreviation bytes := (list Z).

Definition byte_ok (b : Z) : Prop := 0 <= b < 256.
Abbreviation bytes_ok := (Forall byte_ok).

#[export] Instance byte_ok_dec b : Decision (byte_ok b).
Proof. unfold byte_ok. apply _. Defined.

(** ** Little-endian encoding *)

Fixpoint le_encode (n : nat) (z : Z) : bytes :=
  match n with
  | O => []
  | S n => z mod 256 :: le_encode n (z / 256)
  end.

Fixpoint le_decode (l : bytes) : Z :=
  match l with
  | [] => 0
  | b :: l => b + 256 * le_decode l
  end.

(** ** Range accesses *)

(** [n] bytes lie in the buffer from [p] on. *)
Definition in_range (m : bytes) (p n : Z) : bool :=
  (0 <=? p) && (0 <=? n) && (p + n <=? Z.of_nat (length m)).

(** The total counterparts, meaningful in range. *)
Definition rd (m : bytes) (p n : Z) : bytes := take (Z.to_nat n) (drop (Z.to_nat p) m).
Definition upd (m : bytes) (p : Z) (l : bytes) : bytes := list_inserts (Z.to_nat p) l m.

(** Reading and writing a range, as [memcpy] does from and to a buffer. *)
Definition load_bytes (m : bytes) (p n : Z) : option bytes :=
  if in_range m p n then Some (rd m p n) else None.
Definition store_bytes (m : bytes) (p : Z) (l : bytes) : option bytes :=
  if in_range m p (Z.of_nat (length l)) then Some (upd m p l) else None.

(** ** Packed struct fields *)

(** A field of a packed struct: its offset and its width in bytes. *)
Record field := Field { f_off : Z; f_width : nat }.

(** [p->f] and [p->f = v]. *)
Definition get (m : bytes) (p : Z) (f : field) : option Z :=
  le_decode <$> load_bytes m (p + f_off f) (Z.of_nat (f_width f)).
Definition set (m : bytes) (p : Z) (f : field) (v : Z) : option bytes :=
  store_bytes m (p + f_off f) (le_encode (f_width f) v).

(** Total counterparts. *)
Definition getf (m : bytes) (p : Z) (f : field) : Z :=
  le_decode (rd m (p + f_off f) (Z.of_nat (f_width f))).
Definition setf (m : bytes) (p : Z) (f : field) (v : Z) : bytes :=
  upd m (p + f_off f) (le_encode (f_width f) v).

(** ** Encoding lemmas *)

Lemma length_le_encode n z : length (le_encode n z) = n.
Proof. revert z; induction n; intros; simpl; auto. Qed.

Lemma le_encode_ok n z : bytes_ok (le_encode n z).
Proof.
  revert z; induction n; intros; simpl; constructor; auto.
  apply Z.mod_pos_bound; lia.
Qed.

Lemma le_decode_encode n z : le_decode (le_encode n z) = z mod 256 ^ Z.of_nat n.
Proof.
  revert z; induction n as [|n IH]; intros z; simpl.
  - now rewrite Z.mod_1_r.
  - rewrite IH, Nat2Z.inj_succ, Z.pow_succ_r by lia.
    rewrite (Z.rem_mul_r z 256) by lia. lia.
Qed.

Lemma le_encode_decode l n : bytes_ok l -> n = length l -> le_encode n (le_decode l) = l.
Proof.
  intros Hl ->. induction Hl as [|b l Hb Hl IH]; simpl; [done|].
  unfold byte_ok in Hb.
  replace ((b + 256 * le_decode l) mod 256) with b by divlia.
  replace ((b + 256 * le_decode l) / 256) with (le_decode l) by divlia.
  now rewrite IH.
Qed.

Lemma le_decode_range l : bytes_ok l -> 0 <= le_decode l < 256 ^ Z.of_nat (length l).
Proof.
  induction 1 as [|b l Hb Hl IH]; [done|]. cbn [le_decode length].
  rewrite Nat2Z.inj_succ, Z.pow_succ_r by lia. unfold byte_ok in Hb. lia.
Qed.

Lemma le_decode_inj l l' :
  bytes_ok l -> bytes_ok l' -> length l = length l' -> le_decode l = le_decode l' -> l = l'.
Proof.
  intros Hl Hl' Hlen Heq.
  rewrite <- (le_encode_decode l _ Hl eq_refl), Heq, Hlen.
  now apply le_encode_decode.
Qed.

(** ** Range lemmas *)

Lemma in_range_true m p n :
  in_range m p n = true <-> 0 <= p /\ 0 <= n /\ p + n <= Z.of_nat (length m).
Proof. unfold in_range. rewrite !andb_true_iff, !Z.leb_le. lia. Qed.

Lemma length_rd m p n :
  0 <= p -> 0 <= n -> p + n <= Z.of_nat (length m) -> length (rd m p n) = Z.to_nat n.
Proof. intros. unfold rd. rewrite length_take, length_drop. lia. Qed.

Lemma length_upd m p l : length (upd m p l) = length m.
Proof. apply length_inserts. Qed.

Lemma lookup_rd m p n i :
  0 <= p -> (i < Z.to_nat n)%nat -> rd m p n !! i = m !! (Z.to_nat p + i)%nat.
Proof. intros. unfold rd. now rewrite lookup_take_lt, lookup_drop by lia. Qed.

Lemma lookup_upd_in m p l i :
  (Z.to_nat p <= i)%nat -> (i < Z.to_nat p + length l)%nat -> (i < length m)%nat ->
  upd m p l !! i = l !! (i - Z.to_nat p)%nat.
Proof. intros. unfold upd. now rewrite list_lookup_inserts. Qed.

Lemma lookup_upd_out m p l i :
  (i < Z.to_nat p)%nat \/ (Z.to_nat p + length l <= i)%nat -> upd m p l !! i = m !! i.
Proof.
  intros [H|H]; unfold upd; [now rewrite list_lookup_inserts_lt|now rewrite list_lookup_inserts_ge].
Qed.

(** Two ranges of the same length are equal when they agree pointwise. *)
Lemma rd_ext m m' p q n :
  0 <= p -> p + n <= Z.of_nat (length m) -> 0 <= q -> q + n <= Z.of_nat (length m') ->
  (forall i, (i < Z.to_nat n)%nat -> m !! (Z.to_nat p + i)%nat = m' !! (Z.to_nat q + i)%nat) ->
  rd m p n = rd m' q n.
Proof.
  intros ? ? ? ? Hext. apply list_eq_same_length with (Z.to_nat n);
    [unfold rd; rewrite length_take, length_drop; lia ..|].
  intros i x y Hi. rewrite !lookup_rd by lia. rewrite Hext by lia. congruence.
Qed.

Lemma rd_upd_same m p l n :
  0 <= p -> p + Z.of_nat (length l) <= Z.of_nat (length m) ->
  n = Z.of_nat (length l) -> rd (upd m p l) p n = l.
Proof.
  intros ? ? ->. apply list_eq_same_length with (length l);
    [done|rewrite length_rd; rewrite ?length_upd; lia|].
  intros i x y Hi. rewrite lookup_rd, lookup_upd_in by lia.
  replace (Z.to_nat p + i - Z.to_nat p)%nat with i by lia. congruence.
Qed.

Lemma rd_upd_other m p l q n :
  0 <= p -> 0 <= q -> 0 <= n ->
  q + n <= p \/ p + Z.of_nat (length l) <= q ->
  rd (upd m p l) q n = rd m q n.
Proof.
  intros. unfold rd. apply list_eq; intros i.
  destruct (decide (i < Z.to_nat n)%nat).
  - rewrite !lookup_take_lt, !lookup_drop by lia. apply lookup_upd_out. lia.
  - rewrite !lookup_take_ge by lia. done.
Qed.

(** An update inside the range read. *)
Lemma rd_upd_inside m p l q n :
  0 <= q <= p -> p + Z.of_nat (length l) <= q + n -> q + n <= Z.of_nat (length m) ->
  rd (upd m p l) q n = upd (rd m q n) (p - q) l.
Proof.
  intros. apply list_eq_same_length with (Z.to_nat n);
    [rewrite length_upd, length_rd; lia|rewrite length_rd; rewrite ?length_upd; lia|].
  intros i x y Hi. rewrite lookup_rd by lia.
  destruct (decide (Z.to_nat (p - q) <= i < Z.to_nat (p - q) + length l)%nat).
  - rewrite !lookup_upd_in by (rewrite ?length_rd; lia).
    replace (Z.to_nat q + i - Z.to_nat p)%nat with (i - Z.to_nat (p - q))%nat by lia.
    congruence.
  - rewrite !lookup_upd_out, lookup_rd by lia. congruence.
Qed.

Lemma rd_rd m p n q k :
  0 <= p -> 0 <= q -> 0 <= k -> q + k <= n -> rd (rd m p n) q k = rd m (p + q) k.
Proof.
  intros. apply list_eq; intros i. destruct (decide (i < Z.to_nat k)%nat).
  - rewrite !lookup_rd by lia. f_equal. lia.
  - unfold rd. now rewrite !(lookup_take_ge _ (Z.to_nat k)) by lia.
Qed.

Lemma rd_app m p n k :
  0 <= p -> 0 <= n -> 0 <= k -> rd m p (n + k) = rd m p n ++ rd m (p + n) k.
Proof.
  intros. unfold rd. replace (Z.to_nat (n + k)) with (Z.to_nat n + Z.to_nat k)%nat by lia.
  rewrite <- take_take_drop. rewrite drop_drop. do 3 f_equal. lia.
Qed.

Lemma rd_ok m p n : bytes_ok m -> bytes_ok (rd m p n).
Proof. intros. now apply Forall_take, Forall_drop. Qed.

Lemma upd_ok m p l : bytes_ok m -> bytes_ok l -> bytes_ok (upd m p l).
Proof. intros. now apply Forall_inserts. Qed.

(** ** Loads and stores *)

Lemma load_bytes_in m p n :
  0 <= p -> 0 <= n -> p + n <= Z.of_nat (length m) -> load_bytes m p n = Some (rd m p n).
Proof. intros. unfold load_bytes. now rewrite (proj2 (in_range_true _ _ _)). Qed.

Lemma store_bytes_in m p l :
  0 <= p -> p + Z.of_nat (length l) <= Z.of_nat (length m) ->
  store_bytes m p l = Some (upd m p l).
Proof. intros. unfold store_bytes. rewrite (proj2 (in_range_true _ _ _)); [done|lia]. Qed.

Lemma load_bytes_Some m p n l :
  load_bytes m p n = Some l <->
  (0 <= p /\ 0 <= n /\ p + n <= Z.of_nat (length m)) /\ l = rd m p n.
Proof.
  unfold load_bytes. rewrite <- in_range_true.
  destruct (in_range m p n); split; [intros [= <-]; auto|intros [_ ->]; auto|done|intros [? _]; done].
Qed.

Lemma store_bytes_Some m p l m' :
  store_bytes m p l = Some m' <->
  (0 <= p /\ p + Z.of_nat (length l) <= Z.of_nat (length m)) /\ m' = upd m p l.
Proof.
  unfold store_bytes. pose proof (in_range_true m p (Z.of_nat (length l))) as Hr.
  destruct (in_range m p (Z.of_nat (length l))).
  - split; [intros [= <-]; split; [lia|done]|intros [_ ->]; done].
  - split; [done|]. intros [? _]. assert (false = true) by (apply Hr; lia). done.
Qed.

Lemma get_in m p f :
  0 <= p + f_off f -> p + f_off f + Z.of_nat (f_width f) <= Z.of_nat (length m) ->
  get m p f = Some (getf m p f).
Proof. intros. unfold get. now rewrite load_bytes_in by lia. Qed.

Lemma set_in m p f v :
  0 <= p + f_off f -> p + f_off f + Z.of_nat (f_width f) <= Z.of_nat (length m) ->
  set m p f v = Some (setf m p f v).
Proof. intros. unfold set. rewrite store_bytes_in; rewrite ?length_le_encode; try lia. done. Qed.

Lemma length_setf m p f v : length (setf m p f v) = length m.
Proof. apply length_upd. Qed.

Lemma rd_setf_other m p f v q n :
  0 <= p + f_off f -> 0 <= q -> 0 <= n ->
  q + n <= p + f_off f \/ p + f_off f + Z.of_nat (f_width f) <= q ->
  rd (setf m p f v) q n = rd m q n.
Proof. intros. unfold setf. apply rd_upd_other; rewrite ?length_le_encode; lia. Qed.

Lemma getf_setf_same m p f v :
  0 <= p + f_off f -> p + f_off f + Z.of_nat (f_width f) <= Z.of_nat (length m) ->
  getf (setf m p f v) p f = v mod 256 ^ Z.of_nat (f_width f).
Proof.
  intros. unfold getf, setf. rewrite rd_upd_same by (rewrite ?length_le_encode; lia).
  apply le_decode_encode.
Qed.

Lemma getf_setf_other m p f v q g :
  0 <= p + f_off f -> 0 <= q + f_off g ->
  q + f_off g + Z.of_nat (f_width g) <= p + f_off f
  \/ p + f_off f + Z.of_nat (f_width f) <= q + f_off g ->
  getf (setf m p f v) q g = getf m q g.
Proof. intros. unfold getf. rewrite rd_setf_other by lia. done. Qed.

Lemma getf_upd_other m p l q g :
  0 <= p -> 0 <= q + f_off g ->
  q + f_off g + Z.of_nat (f_width g) <= p \/ p + Z.of_nat (length l) <= q + f_off g ->
  getf (upd m p l) q g = getf m q g.
Proof. intros. unfold getf. rewrite rd_upd_other by lia. done. Qed.

Lemma setf_ok m p f v : bytes_ok m -> bytes_ok (setf m p f v).
Proof. intros. apply upd_ok; [done|apply le_encode_ok]. Qed.

Lemma getf_range m p f : bytes_ok m ->
  0 <= p + f_off f -> p + f_off f + Z.of_nat (f_width f) <= Z.of_nat (length m) ->
  0 <= getf m p f < 256 ^ Z.of_nat (f_width f).
Proof.
  intros Hm ? ?. unfold getf.
  pose proof (le_decode_range _ (rd_ok m (p + f_off f) (Z.of_nat (f_width f)) Hm)) as Hr.
  now rewrite length_rd, Nat2Z.id in Hr by lia.
Qed.

Lemma le_encode_mod n z : le_encode n (z mod 256 ^ Z.of_nat n) = le_encode n z.
Proof.
  rewrite <- le_decode_encode. apply le_encode_decode; [apply le_encode_ok|].
  now rewrite length_le_encode.
Qed.

(** Two values with the same low bits are stored alike. *)
Lemma setf_mod m p f v w :
  v mod 256 ^ Z.of_nat (f_width f) = w mod 256 ^ Z.of_nat (f_width f) ->
  setf m p f v = setf m p f w.
Proof. intros H. unfold setf. now rewrite <- le_encode_mod, H, le_encode_mod. Qed.

(** ** Overwriting *)

Lemma upd_upd m p l k : length l = length k -> upd (upd m p l) p k = upd m p k.
Proof.
  intros Hl. apply list_eq. intros i.
  destruct (decide (Z.to_nat p <= i < Z.to_nat p + length k)%nat).
  - destruct (decide (i < length m)%nat).
    + rewrite !lookup_upd_in by (rewrite ?length_upd; lia). done.
    + rewrite !lookup_ge_None_2 by (rewrite ?length_upd; lia). done.
  - rewrite !lookup_upd_out by lia. done.
Qed.

Lemma upd_comm m p q l k :
  0 <= p -> 0 <= q -> p + Z.of_nat (length l) <= q \/ q + Z.of_nat (length k) <= p ->
  upd (upd m p l) q k = upd (upd m q k) p l.
Proof.
  intros Hp Hq Hd. apply list_eq. intros i.
  destruct (decide (Z.to_nat p <= i < Z.to_nat p + length l)%nat) as [Hi|Hi];
    destruct (decide (Z.to_nat q <= i < Z.to_nat q + length k)%nat) as [Hj|Hj]; try lia;
    destruct (decide (i < length m)%nat) as [Hm|Hm];
    try (rewrite !lookup_ge_None_2 by (rewrite ?length_upd; lia); done).
  - rewrite (lookup_upd_out (upd m p l)) by lia. by rewrite !lookup_upd_in by (rewrite ?length_upd; lia).
  - rewrite (lookup_upd_out (upd m q k)) by lia. by rewrite !lookup_upd_in by (rewrite ?length_upd; lia).
  - by rewrite !lookup_upd_out by lia.
Qed.

Lemma upd_rd m p n : 0 <= p -> 0 <= n -> p + n <= Z.of_nat (length m) -> upd m p (rd m p n) = m.
Proof.
  intros. apply list_eq. intros i.
  destruct (decide (Z.to_nat p <= i < Z.to_nat p + Z.to_nat n)%nat).
  - rewrite lookup_upd_in by (rewrite ?length_rd by lia; lia).
    rewrite lookup_rd by lia. f_equal. lia.
  - apply lookup_upd_out. rewrite length_rd by lia. lia.
Qed.

Lemma rd_all m n : n = Z.of_nat (length m) -> rd m 0 n = m.
Proof. intros ->. unfold rd. now rewrite Nat2Z.id, drop_0, firstn_all. Qed.

(** Writing from the start of the buffer. *)
Lemma upd_start m l : (length l <= length m)%nat -> upd m 0 l = l ++ drop (length l) m.
Proof.
  intros Hl. apply list_eq. intros i. destruct (decide (i < length l)%nat).
  - rewrite lookup_upd_in, lookup_app_l by lia. f_equal. lia.
  - rewrite lookup_upd_out, lookup_app_r, lookup_drop by lia. f_equal. lia.
Qed.

Lemma upd_all m l : length l = length m -> upd m 0 l = l.
Proof. intros Hl. rewrite upd_start, Hl, drop_all, app_nil_r by lia. done. Qed.

(** Restoring a field undoes a write to it. *)
Lemma setf_restore m p f v :
  bytes_ok m -> 0 <= p + f_off f -> p + f_off f + Z.of_nat (f_width f) <= Z.of_nat (length m) ->
  setf (setf m p f v) p f (getf m p f) = m.
Proof.
  intros Hm ? ?. unfold setf, getf. rewrite upd_upd by now rewrite !length_le_encode.
  rewrite le_encode_decode; [|now apply rd_ok|rewrite length_rd by lia; lia].
  apply upd_rd; lia.
Qed.

(** ** Automation *)

(** Range and length side conditions; the structs register their fields. *)
Create HintDb fields.
Create Rewrite HintDb lens.
#[export] Hint Rewrite length_setf length_upd length_le_encode (@length_replicate Z) : lens.
#[export] Hint Rewrite length_rd using lia : lens.
Ltac mem :=
  autounfold with fields; cbn [f_off f_width];
  autorewrite with lens; try done; lia.

(** Push reads through writes, at the same field or at a disjoint range. *)
Ltac fields_step :=
  match goal with
  | |- context [getf (setf ?m ?p ?f ?v) ?q ?g] =>
      first [ rewrite (getf_setf_same m p f v) by mem
            | rewrite (getf_setf_other m p f v q g) by mem ]
  | |- context [getf (upd ?m ?p ?l) ?q ?g] => rewrite (getf_upd_other m p l q g) by mem
  | |- context [rd (setf ?m ?p ?f ?v) ?q ?n] => rewrite (rd_setf_other m p f v q n) by mem
  | |- context [rd (upd ?m ?p ?l) ?q ?n] => rewrite (rd_upd_other m p l q n) by mem
  end.
Ltac fields := repeat fields_step.

(** Run the next in-range access of a straight-line body. *)
Ltac run_access e :=
  match e with
  | get ?m ?p ?f => rewrite (get_in m p f) by mem
  | set ?m ?p ?f ?v => rewrite (set_in m p f v) by mem
  | load_bytes ?m ?p ?n => rewrite (load_bytes_in m p n) by mem
  | store_bytes ?m ?p ?l => rewrite (store_bytes_in m p l) by mem
  end.
Ltac run_step :=
  first [ match goal with |- context [mbind _ ?e] => run_access e end
        | match goal with |- ?e = _ => run_access e end ];
  cbn [mbind option_bind].
Ltac run := repeat run_step.
