(* ===== verification/Checksum.v ===== *)
(** * The Internet checksum

    [checksum] of [refactor/network/network.c] and [packet_checksum] of
    [network/network.c]: 16-bit words are summed into a [uint32_t], the carries
    are folded once at the end, the result is complemented.  The reference is
    RFC 1071's end-around-carry addition, folded word by word. *)
From S2P Require Import Prelude Memory.

(** ** The code *)

(** [*ptr] for a [uint16_t *ptr] and for a [uint8_t *]. *)
Definition half : field := Field 0 2.
Definition octet : field := Field 0 1.
#[export] Hint Unfold half octet : fields.

(** [while (len > 1) { sum += *ptr++; len -= 2; }], leaving [ptr], [len], [sum]. *)
Fixpoint sum_shorts (fuel : nat) (m : bytes) (ptr len sum : Z) : option (Z * Z * Z) :=
  if 1 <? len then
    match fuel with
    | O => None
    | S fuel =>
        w ← get m ptr half;
        sum_shorts fuel m (ptr + 2) (len - 2) (u32 (sum + w))
    end
  else Some (ptr, len, sum).

(** [while (sum >> 16) sum = (sum & 0xFFFF) + (sum >> 16);] *)
Fixpoint fold_carry (fuel : nat) (sum : Z) : option Z :=
  if truth (Z.shiftr sum 16) then
    match fuel with
    | O => None
    | S fuel => fold_carry fuel (u32 (Z.land sum 65535 + Z.shiftr sum 16))
    end
  else Some sum.

(** [refactor/network/network.c]: two rounds fold any [uint32_t]. *)
Definition checksum (m : bytes) (buf len : Z) : option Z :=
  '(ptr, len, sum) ← sum_shorts (Z.to_nat len) m buf len 0;
  sum ← (if 0 <? len then b ← get m ptr octet; Some (u32 (sum + b)) else Some sum);
  sum ← fold_carry 2 sum;
  Some (u16 (u32 (Z.lnot sum))).

(** [network/network.c] has the same body. *)
Definition packet_checksum (m : bytes) (raw_pack pack_len : Z) : option Z :=
  '(ptr, pack_len, sum) ← sum_shorts (Z.to_nat pack_len) m raw_pack pack_len 0;
  sum ← (if 0 <? pack_len then b ← get m ptr octet; Some (u32 (sum + b)) else Some sum);
  sum ← fold_carry 2 sum;
  Some (u16 (u32 (Z.lnot sum))).

(** A range, first byte apart. *)
Lemma rd_cons m p n :
  0 <= p -> 0 <= n -> p + 1 + n <= Z.of_nat (length m) -> rd m p (1 + n) = getf m p octet :: rd m (p + 1) n.
Proof.
  intros. rewrite rd_app by lia.
  pose proof (length_rd m p 1 ltac:(lia) ltac:(lia) ltac:(lia)) as Hl.
  unfold getf. cbn [f_off f_width octet]. rewrite Z.add_0_r. change (Z.of_nat 1) with 1.
  destruct (rd m p 1) as [|b [|? ?]]; try discriminate Hl. cbn [le_decode app]. f_equal. lia.
Qed.

(** ** Reference *)

(** The 16-bit words of a message, an odd last byte padded with zero. *)
Fixpoint words16 (l : bytes) : list Z :=
  match l with
  | a :: b :: l => (a + 256 * b) :: words16 l
  | [a] => [a]
  | [] => []
  end.

Definition sum16 (l : bytes) : Z := foldr Z.add 0 (words16 l).

(** Ones' complement addition of two 16-bit words: the carry comes around. *)
Definition oc_add (a b : Z) : Z :=
  let s := a + b in if 65536 <=? s then s - 65535 else s.

Definition rfc1071 (l : bytes) : Z := 65535 - fold_left oc_add (words16 l) 0.

(** The representative of a sum in ones' complement, [0] only for [0]. *)
Definition oc_norm (s : Z) : Z := if s =? 0 then 0 else (s - 1) mod 65535 + 1.

(** A message verifies when its checksum, the checksum field included, is zero. *)
Definition verifies (l : bytes) : Prop := oc_norm (sum16 l) = 65535.

#[export] Instance verifies_dec l : Decision (verifies l).
Proof. unfold verifies. apply _. Defined.

(** ** Sums *)

(** Induction on a message two bytes at a time. *)
Lemma bytes_ind2 (P : bytes -> Prop) :
  P [] -> (forall a, P [a]) -> (forall a b l, P l -> P (a :: b :: l)) -> forall l, P l.
Proof.
  intros H0 H1 H2. assert (forall l, P l /\ forall a, P (a :: l)) as H.
  { induction l as [|b l [IH1 IH2]]; split; auto. }
  intros l. apply H.
Qed.

Lemma sum16_cons2 a b l : sum16 (a :: b :: l) = a + 256 * b + sum16 l.
Proof. reflexivity. Qed.

Lemma sum16_app l k : (exists n, length l = (2 * n)%nat) -> sum16 (l ++ k) = sum16 l + sum16 k.
Proof.
  induction l as [|a|a b l IH] using bytes_ind2; intros [n Hn]; [done|simpl in Hn; lia|].
  cbn [app]. rewrite !sum16_cons2, IH; [lia|]. exists (n - 1)%nat. simpl in Hn. lia.
Qed.

Lemma sum16_range l : bytes_ok l -> 0 <= sum16 l <= 65535 * ((Z.of_nat (length l) + 1) / 2).
Proof.
  induction l as [|a|a b l IH] using bytes_ind2; intros H; [done| |].
  - apply Forall_cons in H as [H _]. unfold byte_ok in H.
    change (0 <= a + 0 <= 65535). lia.
  - apply Forall_cons in H as [Ha [Hb H]%Forall_cons]. specialize (IH H).
    unfold byte_ok in Ha, Hb. rewrite sum16_cons2. cbn [length]. rewrite !Nat2Z.inj_succ.
    replace (Z.succ (Z.succ (Z.of_nat (length l))) + 1) with (Z.of_nat (length l) + 1 + 1 * 2) by lia.
    rewrite Z.div_add by lia. lia.
Qed.

Lemma sum16_half m p :
  0 <= p -> p + 2 <= Z.of_nat (length m) -> sum16 (rd m p 2) = getf m p half.
Proof.
  intros. unfold getf. cbn. change (Z.of_nat 2) with 2. change (Z.of_nat 1) with 1. rewrite Z.add_0_r.
  assert (length (rd m p 2) = 2%nat) as Hl by (now rewrite length_rd by lia).
  destruct (rd m p 2) as [|a [|b [|]]]; try done.
  all: unfold sum16, words16, le_decode, foldr; try lia.
Qed.

Lemma sum16_octet m p :
  0 <= p -> p + 1 <= Z.of_nat (length m) -> sum16 (rd m p 1) = getf m p octet.
Proof.
  intros. unfold getf. cbn. change (Z.of_nat 2) with 2. change (Z.of_nat 1) with 1. rewrite Z.add_0_r.
  assert (length (rd m p 1) = 1%nat) as Hl by (now rewrite length_rd by lia).
  destruct (rd m p 1) as [|a [|]]; try done. all: unfold sum16, words16, le_decode, foldr; try lia.
Qed.

Lemma sum16_rd_app m p n k :
  0 <= p -> 0 <= n -> n mod 2 = 0 -> 0 <= k -> p + n <= Z.of_nat (length m) ->
  sum16 (rd m p (n + k)) = sum16 (rd m p n) + sum16 (rd m (p + n) k).
Proof.
  intros. rewrite rd_app by lia. apply sum16_app. exists (Z.to_nat (n / 2)).
  rewrite length_rd by lia. divlia.
Qed.

Lemma sum16_rd_0 m p : sum16 (rd m p 0) = 0.
Proof. reflexivity. Qed.

Lemma sum16_rd_range m p n :
  bytes_ok m -> 0 <= p -> 0 <= n -> p + n <= Z.of_nat (length m) ->
  0 <= sum16 (rd m p n) <= 65535 * ((n + 1) / 2).
Proof.
  intros Hm ? ? ?. pose proof (sum16_range _ (rd_ok m p n Hm)) as Hr.
  rewrite length_rd, Z2Nat.id in Hr by lia. done.
Qed.

(** A message split around an aligned 16-bit word. *)
Lemma sum16_split l p :
  0 <= p -> p mod 2 = 0 -> p + 2 <= Z.of_nat (length l) ->
  sum16 l = sum16 (rd l 0 p) + sum16 (rd l p 2)
            + sum16 (rd l (p + 2) (Z.of_nat (length l) - p - 2)).
Proof.
  intros. assert (l = rd l 0 (p + (2 + (Z.of_nat (length l) - p - 2)))) as Hl.
  { unfold rd. rewrite drop_0, take_ge by lia. done. }
  rewrite Hl at 1. rewrite !sum16_rd_app by (try done; lia). cbn. rewrite Z.add_0_l. lia.
Qed.

(** Writing an aligned word inside a message replaces its contribution. *)
Lemma sum16_upd l p k :
  0 <= p -> p mod 2 = 0 -> length k = 2%nat -> p + 2 <= Z.of_nat (length l) ->
  sum16 (upd l p k) = sum16 l - sum16 (rd l p 2) + sum16 k.
Proof.
  intros Hp Hpm Hk Hlen.
  rewrite (sum16_split (upd l p k) p), (sum16_split l p) by (rewrite ?length_upd; lia).
  rewrite length_upd, rd_upd_same, !rd_upd_other by lia. lia.
Qed.

(** ** Ones' complement arithmetic *)

Lemma oc_norm_range s : 0 <= s -> 0 <= oc_norm s <= 65535.
Proof. intros. unfold oc_norm. case_match; divlia. Qed.

Lemma oc_norm_small s : 0 <= s <= 65535 -> oc_norm s = s.
Proof. intros. unfold oc_norm. destruct (s =? 0) eqn:E; [lia|]. rewrite Z.mod_small; lia. Qed.

(** The sum of a message that verifies is a multiple of 65535. *)
Lemma oc_norm_full s : 0 < s -> oc_norm s = 65535 <-> s mod 65535 = 0.
Proof. intros. unfold oc_norm. destruct (s =? 0) eqn:E; [lia|]. divlia. Qed.

Lemma oc_norm_cong a b k : 0 < a -> 0 < b -> a = b + k * 65535 -> oc_norm a = oc_norm b.
Proof.
  intros Ha Hb Heq. unfold oc_norm. destruct (a =? 0) eqn:E; [lia|].
  destruct (b =? 0) eqn:E'; [lia|]. f_equal.
  replace (a - 1) with (b - 1 + k * 65535) by lia. now rewrite Z_mod_plus_full.
Qed.

Lemma oc_norm_add_norm a w : 0 <= a -> 0 <= w -> oc_norm (oc_norm a + w) = oc_norm (a + w).
Proof.
  intros. unfold oc_norm. destruct (a =? 0) eqn:E; [by apply Z.eqb_eq in E; subst|].
  assert (0 <= (a - 1) mod 65535) by (apply Z.mod_pos_bound; lia).
  destruct (_ + w =? 0) eqn:E1; [lia|]. destruct (a + w =? 0) eqn:E2; [lia|].
  f_equal. replace ((a - 1) mod 65535 + 1 + w - 1) with ((a - 1) mod 65535 + w) by lia.
  rewrite Zplus_mod_idemp_l. f_equal. lia.
Qed.

Lemma oc_add_norm a w : 0 <= a <= 65535 -> 0 <= w <= 65535 -> oc_add a w = oc_norm (a + w).
Proof.
  intros. unfold oc_add, oc_norm. destruct (65536 <=? a + w) eqn:E, (a + w =? 0) eqn:E0; try lia.
  - replace (a + w - 1) with (a + w - 65536 + 1 * 65535) by lia.
    rewrite Z_mod_plus_full, Z.mod_small; lia.
  - rewrite Z.mod_small; lia.
Qed.

(** A sum that is a positive multiple of 65535 is the negative zero. *)
Lemma oc_norm_complement s : 0 <= s -> oc_norm (s + (65535 - oc_norm s)) = 65535.
Proof.
  intros. unfold oc_norm at 2. destruct (s =? 0) eqn:E.
  - apply Z.eqb_eq in E; subst. reflexivity.
  - assert (0 <= (s - 1) mod 65535 < 65535) by (apply Z.mod_pos_bound; lia).
    set (r := (s - 1) mod 65535) in *.
    assert (s - 1 = 65535 * ((s - 1) / 65535) + r) as Hd by (apply Z.div_mod; lia).
    unfold oc_norm. destruct (s + _ =? 0) eqn:E1; [lia|].
    replace (s + (65535 - (r + 1)) - 1) with (65534 + (s - 1) / 65535 * 65535) by lia.
    rewrite Z_mod_plus_full. reflexivity.
Qed.

Lemma rfc1071_norm l : bytes_ok l -> rfc1071 l = 65535 - oc_norm (sum16 l).
Proof.
  intros Hl. unfold rfc1071. f_equal.
  assert (forall acc, 0 <= acc <= 65535 -> fold_left oc_add (words16 l) acc = oc_norm (acc + sum16 l))
    as H; [|rewrite H by lia; done].
  induction l as [|a|a b l IH] using bytes_ind2; intros acc Hacc.
  - cbn. rewrite Z.add_0_r, oc_norm_small; done.
  - apply Forall_cons in Hl as [Ha _]. unfold byte_ok in Ha.
    change (oc_add acc a = oc_norm (acc + (a + 0))). rewrite Z.add_0_r.
    apply oc_add_norm; lia.
  - apply Forall_cons in Hl as [Ha [Hb Hl]%Forall_cons]. unfold byte_ok in Ha, Hb.
    pose proof (sum16_range l Hl). cbn [words16 fold_left]. rewrite sum16_cons2.
    rewrite oc_add_norm by lia. rewrite IH by (try done; apply oc_norm_range; lia).
    rewrite oc_norm_add_norm by (try lia; divlia). f_equal. lia.
Qed.

(** ** The loops *)

Lemma fold_carry_spec s : 0 <= s < 4294967296 -> fold_carry 2 s = Some (oc_norm s).
Proof.
  intros Hs. assert (forall z, 0 <= z < 4294967296 ->
    u32 (Z.land z 65535 + Z.shiftr z 16) = z mod 65536 + z / 65536
    /\ truth (Z.shiftr z 16) = (65536 <=? z)
    /\ (65536 <= z -> oc_norm (z mod 65536 + z / 65536) = oc_norm z)) as H.
  { intros z Hz. change 65535 with (Z.ones 16) at 1.
    rewrite Z.land_ones, Z.shiftr_div_pow2 by lia. change (2 ^ 16) with 65536.
    split; [unfold u32; divlia|split].
    - unfold truth. destruct (65536 <=? z) eqn:E; [|apply negb_false_iff, Z.eqb_eq; divlia].
      apply negb_true_iff, Z.eqb_neq. divlia.
    - intros. apply (oc_norm_cong _ _ (- (z / 65536))); divlia. }
  destruct (H s Hs) as (Hstep & Htest & Hn). cbn [fold_carry]. rewrite Htest.
  destruct (65536 <=? s) eqn:E; [|rewrite oc_norm_small by lia; done].
  rewrite Hstep. set (t := s mod 65536 + s / 65536) in *.
  assert (0 <= t < 131071) as Ht by (subst t; divlia).
  destruct (H t ltac:(lia)) as (Hstep' & Htest' & Hn').
  rewrite <- Hn by lia. rewrite Htest'.
  destruct (65536 <=? t) eqn:E'; [|rewrite oc_norm_small by lia; done].
  rewrite Hstep'. set (v := t mod 65536 + t / 65536) in *.
  assert (0 <= v < 65536) as Hv by (subst v; divlia).
  destruct (H v ltac:(lia)) as (_ & Htest'' & _). rewrite Htest''.
  destruct (65536 <=? v) eqn:E''; [lia|].
  rewrite <- Hn' by lia. rewrite oc_norm_small by lia. done.
Qed.

Lemma sum_shorts_spec fuel m ptr len sum :
  bytes_ok m -> 0 <= ptr -> 0 <= len <= Z.of_nat fuel -> ptr + len <= Z.of_nat (length m) ->
  0 <= sum -> sum + 65535 * ((len + 1) / 2) < 4294967296 ->
  sum_shorts fuel m ptr len sum
  = Some (ptr + 2 * (len / 2), len mod 2, sum + sum16 (rd m ptr (2 * (len / 2)))).
Proof.
  intros Hm. revert ptr len sum. induction fuel as [|fuel IH]; intros ptr len sum Hp Hl Hr Hs Ho.
  - assert (len = 0) as -> by lia. cbn [sum_shorts]. change (2 * (0 / 2)) with 0.
    change (1 <? 0) with false. change (0 mod 2) with 0. cbn [le_decode].
    rewrite sum16_rd_0, !Z.add_0_r. done.
  - cbn [sum_shorts]. destruct (1 <? len) eqn:E.
    + rewrite get_in by (cbn; lia). cbn [mbind option_bind].
      assert (0 <= getf m ptr half < 65536) as Hw
        by (apply (getf_range m ptr half Hm); cbn; lia).
      assert ((len + 1) / 2 = (len - 2 + 1) / 2 + 1) as Hd by divlia.
      rewrite u32_id by divlia. rewrite IH by divlia.
      replace (2 * (len / 2)) with (2 + 2 * ((len - 2) / 2)) by divlia.
      rewrite sum16_rd_app, sum16_half by (try done; divlia).
      f_equal. f_equal; [f_equal; divlia|lia].
    + replace (2 * (len / 2)) with 0 by divlia. replace (len mod 2) with len by divlia.
      rewrite sum16_rd_0, !Z.add_0_r. done.
Qed.

(** The checksum loop computes the complement of the ones' complement sum; the
    [uint32_t] accumulator cannot overflow up to 131072 bytes. *)
Lemma checksum_sum m p len :
  bytes_ok m -> 0 <= p -> 0 <= len <= 131072 -> p + len <= Z.of_nat (length m) ->
  checksum m p len = Some (65535 - oc_norm (sum16 (rd m p len))).
Proof.
  intros Hm Hp Hlen Hr. unfold checksum.
  assert (65535 * ((len + 1) / 2) <= 65535 * 65536) by divlia.
  rewrite (sum_shorts_spec (Z.to_nat len)) by (try done; lia).
  cbn [mbind option_bind].
  set (h := 2 * (len / 2)). assert (h mod 2 = 0) by (subst h; divlia).
  assert (0 <= sum16 (rd m p len) < 4294967296) as Hsum
    by (pose proof (sum16_rd_range m p len Hm Hp ltac:(lia) Hr); lia).
  assert ((if 0 <? len mod 2 then b ← get m (p + h) octet; Some (u32 (0 + sum16 (rd m p h) + b))
           else Some (0 + sum16 (rd m p h))) = Some (sum16 (rd m p len))) as ->.
  { destruct (0 <? len mod 2) eqn:E.
    - rewrite get_in by (cbn; subst h; divlia). cbn [mbind option_bind].
      rewrite <- sum16_octet by (subst h; divlia).
      assert (sum16 (rd m p len) = sum16 (rd m p h) + sum16 (rd m (p + h) 1)) as Hsp
        by (rewrite <- sum16_rd_app by (try done; subst h; divlia);
            do 2 f_equal; subst h; divlia).
      rewrite Hsp in *. rewrite u32_id by lia. done.
    - replace h with len by (subst h; divlia). done. }
  cbn [mbind option_bind]. rewrite fold_carry_spec by lia. cbn [mbind option_bind].
  pose proof (oc_norm_range (sum16 (rd m p len)) ltac:(lia)).
  unfold Z.lnot, Z.pred. f_equal. words.
Qed.

Lemma checksum_packet_checksum m p len : packet_checksum m p len = checksum m p len.
Proof. reflexivity. Qed.

(** A non-positive length reads nothing. *)
Lemma checksum_nonpos m p len : len <= 0 -> checksum m p len = Some 65535.
Proof.
  intros. unfold checksum. replace (Z.to_nat len) with 0%nat by lia. cbn [sum_shorts].
  destruct (1 <? len) eqn:E; [lia|]. cbn [mbind option_bind].
  destruct (0 <? len) eqn:E'; [lia|]. reflexivity.
Qed.

(** [checksum(...) == 0] is the verification test. *)
Lemma checksum_zero_iff m p len :
  bytes_ok m -> 0 <= p -> 0 <= len <= 131072 -> p + len <= Z.of_nat (length m) ->
  checksum m p len = Some 0 <-> verifies (rd m p len).
Proof.
  intros. rewrite checksum_sum by done. unfold verifies. split; [intros [= ?]; lia|intros ->; done].
Qed.

(** Storing the checksum of a message whose checksum field is zero, at an even
    offset [q] inside it, makes the message verify. *)
Lemma verifies_store l q c :
  bytes_ok l -> 0 <= q -> q mod 2 = 0 -> q + 2 <= Z.of_nat (length l) ->
  sum16 (rd l q 2) = 0 -> c = 65535 - oc_norm (sum16 l) ->
  verifies (upd l q (le_encode 2 c)).
Proof.
  intros Hl Hq Hm Hr Hz ->. unfold verifies.
  pose proof (sum16_range l Hl) as [H0 _]. pose proof (oc_norm_range _ H0) as Hn.
  rewrite sum16_upd by (try done; apply length_le_encode). rewrite Hz, Z.sub_0_r.
  set (c := 65535 - oc_norm (sum16 l)) in *. cbn [le_encode]. rewrite sum16_cons2.
  replace (c mod 256 + 256 * (c / 256 mod 256)) with c by divlia.
  change (sum16 []) with 0. rewrite Z.add_0_r. subst c. now apply oc_norm_complement.
Qed.

(** ** Sealing a message

    Both layers zero the checksum field, sum the message and store the result:
    [ip_checksum], [ip_update_checksum], [icmp_checksum], [icmp_update_checksum]. *)

(** The message of [n] bytes at [p] with the checksum field at offset [q]. *)
Definition sealed (m : bytes) (p q n : Z) : bytes :=
  let m0 := setf m p (Field q 2) 0 in
  setf m0 p (Field q 2) (65535 - oc_norm (sum16 (rd m0 p n))).

Lemma length_sealed m p q n : length (sealed m p q n) = length m.
Proof. unfold sealed. now rewrite !length_setf. Qed.

#[export] Hint Rewrite length_sealed : lens.

Lemma sealed_ok m p q n : bytes_ok m -> bytes_ok (sealed m p q n).
Proof. intros. now do 2 apply setf_ok. Qed.

Lemma rd_sealed_other m p q n r k :
  0 <= p + q -> 0 <= r -> 0 <= k -> r + k <= p + q \/ p + q + 2 <= r ->
  rd (sealed m p q n) r k = rd m r k.
Proof. intros. unfold sealed. fields. done. Qed.

Lemma getf_sealed_other m p q n r g :
  0 <= p + q -> 0 <= r + f_off g ->
  r + f_off g + Z.of_nat (f_width g) <= p + q \/ p + q + 2 <= r + f_off g ->
  getf (sealed m p q n) r g = getf m r g.
Proof. intros. unfold getf. rewrite rd_sealed_other by lia. done. Qed.

Lemma seal_body m p q n :
  bytes_ok m -> 0 <= p -> 0 <= q -> 0 <= n <= 131072 ->
  p + q + 2 <= Z.of_nat (length m) -> p + n <= Z.of_nat (length m) ->
  (m0 ← set m p (Field q 2) 0; c ← checksum m0 p n; set m0 p (Field q 2) c)
  = Some (sealed m p q n).
Proof.
  intros Hm ? ? ? ? ?. run. rewrite checksum_sum by (try apply setf_ok; try done; mem).
  cbn [mbind option_bind]. run. done.
Qed.

Lemma sealed_verifies m p q n :
  bytes_ok m -> 0 <= p -> 0 <= q -> q mod 2 = 0 -> q + 2 <= n ->
  p + n <= Z.of_nat (length m) -> verifies (rd (sealed m p q n) p n).
Proof.
  intros Hm ? ? ? ? ?. unfold sealed. set (m0 := setf m p (Field q 2) 0).
  assert (length m0 = length m) as Hl by apply length_setf.
  assert (bytes_ok m0) as Hm0 by now apply setf_ok.
  assert (sum16 (rd m0 (p + q) 2) = 0) as Hz
    by (subst m0; unfold setf; cbn [f_off f_width]; rewrite rd_upd_same by mem; done).
  clearbody m0. unfold setf. cbn [f_off f_width]. rewrite rd_upd_inside by mem.
  replace (p + q - p) with q by lia.
  apply verifies_store; try done; [now apply rd_ok|rewrite length_rd by lia; lia|].
  rewrite rd_rd by lia. done.
Qed.

(** ** Properties *)

(** C15 The Internet checksum: on any buffer range of at most 128 KiB the routine is
    defined, its loops terminate within their fuel, and it computes the ones' complement
    sum of RFC 1071 (a deferred-carry loop against end-around addition word by word). *)
Theorem checksum_rfc1071 m p len :
  bytes_ok m -> 0 <= p -> 0 <= len <= 131072 -> p + len <= Z.of_nat (length m) ->
  checksum m p len = Some (rfc1071 (rd m p len)).
Proof.
  intros. rewrite checksum_sum, rfc1071_norm by (try done; by apply rd_ok). done.
Qed.

Lemma checksum_rfc1071_witness : checksum [69; 0; 0; 40; 255] 0 5 = Some (rfc1071 [69; 0; 0; 40; 255]).
Proof. apply (checksum_rfc1071 [69; 0; 0; 40; 255] 0 5); [by_eval|lia|lia|vm_compute; discriminate]. Defined.

(** Sealing and checking: zeroing a checksum field at an even offset of a message, summing
    the message and storing the result makes the message verify, and the receiver's
    checksum over it is then zero. *)
Theorem checksum_seal_check m p q n :
  bytes_ok m -> 0 <= p -> 0 <= q -> q mod 2 = 0 -> q + 2 <= n <= 131072 ->
  p + n <= Z.of_nat (length m) ->
  exists m', (m0 ← set m p (Field q 2) 0; c ← checksum m0 p n; set m0 p (Field q 2) c) = Some m' /\
    checksum m' p n = Some 0.
Proof.
  intros Hm ? ? ? ? ?. rewrite seal_body by (try done; lia). eexists. split; [done|].
  apply checksum_zero_iff; [by apply sealed_ok|lia|lia|by rewrite length_sealed; lia|].
  apply sealed_verifies; try done; lia.
Qed.

Lemma checksum_seal_check_witness :
  exists m', (m0 ← set [1; 2; 3; 4; 5; 6] 0 (Field 2 2) 0; c ← checksum m0 0 6; set m0 0 (Field 2 2) c)
    = Some m' /\ checksum m' 0 6 = Some 0.
Proof.
  apply (checksum_seal_check [1; 2; 3; 4; 5; 6] 0 2 6);
    [by_eval|lia|lia|reflexivity|lia|vm_compute; discriminate].
Defined.
