(* ===== verification/Ip.v ===== *)
(** * IPv4 headers

    [refactor/network/ip.h] and [refactor/network/ip.c]: the packed header and
    its validation, the address swap of a reply and the header checksum. *)
From S2P Require Import Prelude Memory Checksum.

(** ** The packed struct [IPv4] *)

Definition ip_version_ihl : field := Field 0 1.
Definition ip_tos : field := Field 1 1.
Definition ip_len : field := Field 2 2.
Definition ip_id : field := Field 4 2.
Definition ip_flags_offset : field := Field 6 2.
Definition ip_ttl : field := Field 8 1.
Definition ip_proto : field := Field 9 1.
Definition ip_csum : field := Field 10 2.
Definition ip_src : field := Field 12 4.
Definition ip_dst : field := Field 16 4.
#[export] Hint Unfold ip_version_ihl ip_tos ip_len ip_id ip_flags_offset ip_ttl ip_proto
  ip_csum ip_src ip_dst : fields.
Definition sizeof_IPv4 : Z := 20.

(** Constants of [refactor/network/network.h]. *)
Definition PROTO_TCP : Z := 6.
Definition PROTO_ICMP : Z := 1.
Definition MTU_SIZE : Z := 1500.

(** ** Operations *)

Definition ip_validate (m : bytes) (ip len : Z) : option Z :=
  if len <? sizeof_IPv4 then Some 0 else
  vi ← get m ip ip_version_ihl;
  let ihl := Z.land vi 15 * 4 in
  if (ihl <? 20) || (len <? ihl) then Some 0 else
  if negb (Z.shiftr vi 4 =? 4) then Some 0 else
  c ← checksum m ip ihl;
  if negb (c =? 0) then Some 0 else Some 1.

(** The address goes through an [int]. *)
Definition ip_swap_dst (m : bytes) (ip : Z) : option bytes :=
  s ← get m ip ip_src;
  let src := s32 s in
  d ← get m ip ip_dst;
  m ← set m ip ip_src d;
  set m ip ip_dst src.

Definition ip_checksum (m : bytes) (ip : Z) : option bytes :=
  vi ← get m ip ip_version_ihl;
  let ihl := Z.land vi 15 * 4 in
  m ← set m ip ip_csum 0;
  c ← checksum m ip ihl;
  set m ip ip_csum c.

(** ** Specification *)

(** The header length the IHL field announces. *)
Definition ihl_of (m : bytes) (ip : Z) : Z := Z.land (getf m ip ip_version_ihl) 15 * 4.

(** A header the stack accepts: IPv4, a complete header, a correct checksum. *)
Definition ip_valid (m : bytes) (ip len : Z) : Prop :=
  20 <= ihl_of m ip <= len /\ Z.shiftr (getf m ip ip_version_ihl) 4 = 4
  /\ verifies (rd m ip (ihl_of m ip)).

(** A packet the network layer accepts: it lies in the buffer, its header is
    valid and [offset] is its header length. *)
Record packet (m : bytes) (len offset : Z) : Prop := {
  pk_bytes : bytes_ok m;
  pk_size : Z.of_nat (length m) = MTU_SIZE;
  pk_len : len <= MTU_SIZE;
  pk_valid : ip_valid m 0 len;
  pk_offset : offset = ihl_of m 0;
}.

#[export] Instance ip_valid_dec m ip len : Decision (ip_valid m ip len).
Proof. unfold ip_valid. apply _. Defined.

#[export] Instance packet_dec m len offset : Decision (packet m len offset).
Proof.
  refine (cast_if (decide (bytes_ok m /\ Z.of_nat (length m) = MTU_SIZE /\ len <= MTU_SIZE
                           /\ ip_valid m 0 len /\ offset = ihl_of m 0)));
    [abstract (by destruct_and!)|abstract (intros []; tauto)].
Defined.

(** What the shape of a packet needs, whatever its checksum: version 4, a header of
    [offset] bytes, [len] bytes in the buffer. *)
Record framed (m : bytes) (len offset : Z) : Prop := {
  fr_bytes : bytes_ok m;
  fr_len : 20 <= offset <= len;
  fr_size : len <= Z.of_nat (length m) <= 2000;
  fr_version : Z.shiftr (getf m 0 ip_version_ihl) 4 = 4;
  fr_offset : offset = ihl_of m 0;
}.

(** The buffer with source and destination exchanged. *)
Definition swapped (m : bytes) (ip : Z) : bytes :=
  setf (setf m ip ip_src (getf m ip ip_dst)) ip ip_dst (getf m ip ip_src).

(** ** Lemmas *)

Lemma ihl_of_range m ip : 0 <= ihl_of m ip <= 60.
Proof.
  unfold ihl_of. change 15 with (Z.ones 4). rewrite Z.land_ones by lia.
  change (2 ^ 4) with 16. divlia.
Qed.

Lemma length_swapped m ip : length (swapped m ip) = length m.
Proof. unfold swapped. now rewrite !length_setf. Qed.

#[export] Hint Rewrite length_swapped : lens.

Lemma swapped_ok m ip : bytes_ok m -> bytes_ok (swapped m ip).
Proof. intros. now do 2 apply setf_ok. Qed.

Lemma ip_swap_dst_in m ip :
  0 <= ip -> ip + 20 <= Z.of_nat (length m) -> ip_swap_dst m ip = Some (swapped m ip).
Proof.
  intros. unfold ip_swap_dst. run. f_equal. apply setf_mod. cbn [f_width ip_dst].
  change (256 ^ Z.of_nat 4) with 4294967296. apply u32_s32.
Qed.

Lemma rd_swapped_other m ip q n :
  0 <= ip -> 0 <= q -> 0 <= n -> q + n <= ip + 12 \/ ip + 20 <= q ->
  rd (swapped m ip) q n = rd m q n.
Proof. intros. unfold swapped. fields. done. Qed.

Lemma getf_swapped_other m ip q g :
  0 <= ip -> 0 <= q + f_off g ->
  q + f_off g + Z.of_nat (f_width g) <= ip + 12 \/ ip + 20 <= q + f_off g ->
  getf (swapped m ip) q g = getf m q g.
Proof. intros. unfold getf. rewrite rd_swapped_other by lia. done. Qed.

Lemma swapped_src m ip :
  bytes_ok m -> 0 <= ip -> ip + 20 <= Z.of_nat (length m) ->
  getf (swapped m ip) ip ip_src = getf m ip ip_dst
  /\ getf (swapped m ip) ip ip_dst = getf m ip ip_src.
Proof.
  intros Hm ? ?. unfold swapped. split; fields; apply Z.mod_small.
  - apply (getf_range m ip ip_dst Hm); mem.
  - apply (getf_range m ip ip_src Hm); mem.
Qed.

Lemma ip_checksum_in m ip :
  bytes_ok m -> 0 <= ip -> ip + 60 <= Z.of_nat (length m) ->
  ip_checksum m ip = Some (sealed m ip 10 (ihl_of m ip)).
Proof.
  intros Hm ? ?. unfold ip_checksum. rewrite get_in by mem. cbn [mbind option_bind].
  pose proof (ihl_of_range m ip). apply seal_body; try done; mem.
Qed.

Lemma ip_validate_total m ip len :
  bytes_ok m -> 0 <= ip -> ip + len <= Z.of_nat (length m) ->
  exists r, ip_validate m ip len = Some r /\ (r = 0 \/ r = 1)
            /\ (r = 1 <-> ip_valid m ip len).
Proof.
  intros Hm ? ?. unfold ip_validate, ip_valid, ihl_of, sizeof_IPv4.
  pose proof (ihl_of_range m ip) as Hr. unfold ihl_of in Hr.
  destruct (len <? 20) eqn:E; [exists 0; repeat split; try lia; auto|].
  run. set (ihl := Z.land _ 15 * 4) in *.
  destruct ((ihl <? 20) || (len <? ihl)) eqn:E1; [exists 0; repeat split; try lia; auto|].
  destruct (_ =? 4) eqn:E2; cbn [negb]; [|exists 0; repeat split; try lia; auto].
  assert (20 <= ihl <= len /\ ip + ihl <= Z.of_nat (length m)) as [??] by lia.
  rewrite checksum_sum by (try done; lia). cbn [mbind option_bind].
  destruct (_ =? 0) eqn:E3; cbn [negb]; eexists; split; try done.
  - split; [auto|]. split; [intros _|done]. unfold verifies. repeat split; lia.
  - split; [auto|]. split; [done|]. unfold verifies. lia.
Qed.

Create HintDb bytes.
#[export] Hint Resolve swapped_ok sealed_ok setf_ok upd_ok rd_ok le_encode_ok : bytes.

(** Reads through every buffer transformer. *)
Ltac pkt_step :=
  first
  [ fields_step
  | match goal with
    | |- context [getf (sealed ?m ?p ?q ?n) ?r ?g] =>
        rewrite (getf_sealed_other m p q n r g) by mem
    | |- context [rd (sealed ?m ?p ?q ?n) ?r ?k] =>
        rewrite (rd_sealed_other m p q n r k) by mem
    | |- context [getf (swapped ?m ?p) ?r ?g] =>
        rewrite (getf_swapped_other m p r g) by mem
    | |- context [rd (swapped ?m ?p) ?r ?k] =>
        rewrite (rd_swapped_other m p r k) by mem
    end ].
Ltac pkt := repeat pkt_step.

Lemma packet_range m len offset : packet m len offset -> 20 <= offset <= 60 /\ offset <= len <= 1500.
Proof.
  intros [Hb Hs Hl [Hv _] ->]. pose proof (ihl_of_range m 0). unfold MTU_SIZE in *. lia.
Qed.

Lemma packet_framed m len offset : packet m len offset -> framed m len offset.
Proof.
  intros Hp. pose proof (packet_range _ _ _ Hp). destruct Hp as [Hb Hs Hl [_ [Hv _]] Ho].
  unfold MTU_SIZE in *. split; try done; lia.
Qed.

Lemma framed_range m len offset : framed m len offset -> 20 <= offset <= 60.
Proof. intros [_ Hl _ _ ->]. pose proof (ihl_of_range m 0). lia. Qed.

Lemma ihl_of_setf m p f v : 1 <= p + f_off f -> ihl_of (setf m p f v) 0 = ihl_of m 0.
Proof. intros. unfold ihl_of. fields. done. Qed.

Lemma ihl_of_upd m p l : 1 <= p -> ihl_of (upd m p l) 0 = ihl_of m 0.
Proof. intros. unfold ihl_of. fields. done. Qed.

Lemma ihl_of_swapped m : ihl_of (swapped m 0) 0 = ihl_of m 0.
Proof. unfold ihl_of. rewrite getf_swapped_other by mem. done. Qed.

Lemma ihl_of_sealed m p q n : 1 <= p + q -> ihl_of (sealed m p q n) 0 = ihl_of m 0.
Proof. intros. unfold ihl_of. rewrite getf_sealed_other by mem. done. Qed.

(** The header length survives every write past the first byte. *)
Ltac ihl :=
  repeat first [rewrite ihl_of_swapped | rewrite ihl_of_setf by mem
               | rewrite ihl_of_upd by mem | rewrite ihl_of_sealed by mem].

(** The total length plays no part in validation: a valid header may be given any total
    length, and once [ip_checksum] has sealed it again it is still accepted. *)
Lemma ip_len_unchecked m ip len L :
  bytes_ok m -> 0 <= ip -> ip + len <= Z.of_nat (length m) ->
  ip + 60 <= Z.of_nat (length m) -> ip_valid m ip len -> 0 <= L < 65536 ->
  exists m', ip_checksum (setf m ip ip_len (htons L)) ip = Some m' /\
    ntohs (getf m' ip ip_len) = L /\ ip_valid m' ip len.
Proof.
  intros Hm ? ? ? (Hi & Hv & _) HL. pose proof (ihl_of_range m ip).
  set (m1 := setf m ip ip_len (htons L)).
  assert (bytes_ok m1) as Hm1 by (by apply setf_ok).
  assert (Z.of_nat (length m1) = Z.of_nat (length m)) as Hl1
    by (unfold m1; by rewrite length_setf).
  assert (getf m1 ip ip_version_ihl = getf m ip ip_version_ihl) as Hg by (unfold m1; fields; done).
  assert (ihl_of m1 ip = ihl_of m ip) as Hi1 by (unfold ihl_of; by rewrite Hg).
  rewrite ip_checksum_in by (try done; lia). rewrite Hi1. eexists. split; [done|].
  assert (getf (sealed m1 ip 10 (ihl_of m ip)) ip ip_version_ihl = getf m ip ip_version_ihl) as Hg'
    by (rewrite getf_sealed_other by mem; done).
  split.
  - pkt. unfold m1. fields. pose proof (bswap16_range L). rewrite Z.mod_small by mem.
    rewrite bswap16_bswap16. by apply u16_id.
  - unfold ip_valid, ihl_of in *. rewrite Hg'. split; [done|]. split; [done|].
    apply sealed_verifies; try done; lia.
Qed.

(** ** Properties *)

(** C17 Validation: for any buffer and any length within it, [ip_validate] is defined and
    answers 1 or 0; it answers 1 exactly when the upper half of the first byte is 4, the
    header length its lower half announces is at least 20 bytes and at most the packet,
    and the ones-complement sum of that header is 0xffff.  The total length of the header
    is not part of it: every header accepted is accepted as well with any other total
    length written into it and the checksum made anew. *)
Theorem ip_validate_correct m ip len :
  bytes_ok m -> 0 <= ip -> ip + len <= Z.of_nat (length m) ->
  (exists r, ip_validate m ip len = Some r /\ (r = 0 \/ r = 1) /\
     (r = 1 <-> let v := getf m ip ip_version_ihl in
                Z.shiftr v 4 = 4 /\ 20 <= Z.land v 15 * 4 <= len /\
                oc_norm (sum16 (rd m ip (Z.land v 15 * 4))) = 65535)) /\
  (ip + 60 <= Z.of_nat (length m) -> ip_validate m ip len = Some 1 ->
   forall L, 0 <= L < 65536 ->
   exists m', ip_checksum (setf m ip ip_len (htons L)) ip = Some m' /\
     ntohs (getf m' ip ip_len) = L /\ ip_validate m' ip len = Some 1).
Proof.
  intros Hm ? ?. destruct (ip_validate_total m ip len) as (r & E & Hr & Hiff); try done.
  split; [exists r; split; [done|]; split; [done|]; rewrite Hiff; unfold ip_valid, ihl_of, verifies;
          cbv zeta; tauto|].
  intros ? E1 L HL. rewrite E in E1. injection E1 as ->.
  destruct (ip_len_unchecked m ip len L) as (m' & Hc & Hn & Hv); try done; [by apply Hiff|].
  exists m'. split; [done|]. split; [done|].
  destruct (ip_validate_total m' ip len) as (r' & -> & _ & Hiff'); [|done| |f_equal; by apply Hiff'].
  - rewrite ip_checksum_in in Hc; [injection Hc as <-; auto with bytes|by apply setf_ok|done|].
    by rewrite length_setf.
  - rewrite ip_checksum_in in Hc; [injection Hc as <-|by apply setf_ok|done|by rewrite length_setf].
    autorewrite with lens. by rewrite ?length_setf.
Qed.

(** A sealed header of 20 bytes is accepted in a packet of 20 bytes, and with a total
    length of 60000 as well. *)
Lemma ip_validate_correct_witness :
  ip_validate (replicate 64 7) 0 64 = Some 0 /\
  exists m m', ip_validate m 0 20 = Some 1 /\ ntohs (getf m' 0 ip_len) = 60000 /\
    ip_validate m' 0 20 = Some 1.
Proof.
  split.
  - destruct (ip_validate_correct (replicate 64 7) 0 64) as [(r & E & _) _];
      [by_eval|lia|by_eval|]. rewrite E. rewrite <- E. vm_compute. reflexivity.
  - set (m := sealed (setf (replicate 64 7) 0 ip_version_ihl 69) 0 10 20).
    assert (ip_validate m 0 20 = Some 1) as E by (vm_compute; reflexivity).
    destruct (proj2 (ip_validate_correct m 0 20 ltac:(by_eval) ltac:(lia) ltac:(by_eval))
      ltac:(by_eval) E 60000 ltac:(lia)) as (m' & _ & Hn & Hv).
    exists m, m'. split; [exact E|]. split; [exact Hn|exact Hv].
Defined.

(** [ip_checksum] leaves a header that verifies, changes no byte but the checksum
    field, and [ip_swap_dst] exchanges the two addresses and nothing else. *)
Theorem ip_header_rewrites m ip :
  bytes_ok m -> 0 <= ip -> ip + 60 <= Z.of_nat (length m) -> 20 <= ihl_of m ip ->
  (exists m', ip_checksum m ip = Some m' /\ verifies (rd m' ip (ihl_of m ip)) /\
     rd m' ip 10 = rd m ip 10 /\ rd m' (ip + 12) 48 = rd m (ip + 12) 48) /\
  (exists m', ip_swap_dst m ip = Some m' /\
     getf m' ip ip_src = getf m ip ip_dst /\ getf m' ip ip_dst = getf m ip ip_src /\
     rd m' ip 12 = rd m ip 12 /\ rd m' (ip + 20) 40 = rd m (ip + 20) 40).
Proof.
  intros Hm ? ? ?. pose proof (ihl_of_range m ip). split.
  - rewrite ip_checksum_in by done. eexists. split; [done|].
    split; [apply sealed_verifies; try done; lia|].
    split; apply rd_sealed_other; lia.
  - rewrite ip_swap_dst_in by lia. eexists. split; [done|].
    destruct (swapped_src m ip Hm) as [? ?]; [lia|lia|]. split_and!; try done;
      apply rd_swapped_other; lia.
Qed.

Lemma ip_header_rewrites_witness :
  exists m', ip_checksum (setf (replicate 64 7) 0 ip_version_ihl 69) 0 = Some m' /\
    verifies (rd m' 0 20).
Proof.
  destruct (proj1 (ip_header_rewrites (setf (replicate 64 7) 0 ip_version_ihl 69) 0
    ltac:(by_eval) ltac:(lia) ltac:(vm_compute; discriminate) ltac:(vm_compute; discriminate)))
    as (m' & H & Hv & _).
  exists m'. split; [exact H|exact Hv].
Defined.
