(* ===== verification/Icmp.v ===== *)
(** * ICMP

    [refactor/network/icmp]: echo replies and protocol-unreachable errors, built
    in place over the received packet. *)
From S2P Require Import Prelude Memory Checksum Ip.

(** ** The packed struct [ICMP] and its constants *)

Definition icmp_type : field := Field 0 1.
Definition icmp_code : field := Field 1 1.
Definition icmp_csum : field := Field 2 2.
Definition icmp_identifier : field := Field 4 2.
Definition icmp_sequence_no : field := Field 6 2.
#[export] Hint Unfold icmp_type icmp_code icmp_csum icmp_identifier icmp_sequence_no : fields.
Definition sizeof_ICMP : Z := 8.

Definition ICMP_ECHO : Z := 8.
Definition ICMP_DST_UNREACHABLE : Z := 3.
Definition ICMP_PROTO_UNREACHABLE : Z := 2.

(** ** Operations *)

Definition icmp_checksum (m : bytes) (icmp len : Z) : option bytes :=
  m ← set m icmp icmp_csum 0;
  c ← checksum m icmp len;
  set m icmp icmp_csum c.

Definition icmp_validate (m : bytes) (icmp len : Z) : option Z :=
  if len <? 8 then Some 0 else
  c ← checksum m icmp len;
  if negb (c =? 0) then Some 0 else Some 1.

(** The local [icmp_pl] is 68 bytes long; its initial contents are never read. *)
Definition icmp_dest_unreachable (m : bytes) (buf len offset : Z) : option (Z * bytes) :=
  let ip := buf in
  let dgram := buf + offset in
  let icmp := dgram in
  let dgram_len := if len - offset <? 8 then len - offset else 8 in
  let icmp_pl_len := offset + dgram_len in
  let ip_len_ := offset + sizeof_ICMP + icmp_pl_len in
  if MTU_SIZE <? ip_len_ then Some (0, m) else
  let icmp_pl := replicate 68 0 in
  hdr ← load_bytes m ip offset;
  icmp_pl ← store_bytes icmp_pl 0 hdr;
  d ← load_bytes m dgram dgram_len;
  icmp_pl ← store_bytes icmp_pl offset d;
  m ← set m ip ip_len (htons ip_len_);
  m ← set m ip ip_id 0;
  m ← set m ip ip_proto PROTO_ICMP;
  m ← ip_swap_dst m ip;
  m ← ip_checksum m ip;
  m ← set m icmp icmp_type ICMP_DST_UNREACHABLE;
  m ← set m icmp icmp_code ICMP_PROTO_UNREACHABLE;
  m ← set m icmp icmp_identifier 0;
  m ← set m icmp icmp_sequence_no 0;
  pl ← load_bytes icmp_pl 0 icmp_pl_len;
  m ← store_bytes m (dgram + sizeof_ICMP) pl;
  m ← icmp_checksum m icmp (sizeof_ICMP + icmp_pl_len);
  Some (ip_len_, m).

Definition icmp_echo_reply (m : bytes) (buf len offset : Z) : option (Z * bytes) :=
  let ip := buf in
  let icmp := buf + offset in
  m ← set m icmp icmp_type 0;
  m ← set m icmp icmp_code 0;
  m ← icmp_checksum m icmp (len - offset);
  m ← ip_swap_dst m ip;
  m ← ip_checksum m ip;
  Some (len, m).

Definition icmp_dispatch (m : bytes) (buf len offset : Z) : option (Z * bytes) :=
  let icmp := buf + offset in
  v ← icmp_validate m icmp (len - offset);
  if negb (truth v) then Some (0, m) else
  t ← get m icmp icmp_type;
  if t =? ICMP_ECHO then icmp_echo_reply m buf len offset
  else Some (0, m).

(** ** Specification *)

(** A well-formed ICMP message at [icmp]. *)
Definition icmp_valid (m : bytes) (icmp len : Z) : Prop := 8 <= len /\ verifies (rd m icmp len).

#[export] Instance icmp_valid_dec m icmp len : Decision (icmp_valid m icmp len).
Proof. unfold icmp_valid. apply _. Defined.

Definition echo_request (m : bytes) (icmp len : Z) : Prop :=
  icmp_valid m icmp len /\ getf m icmp icmp_type = ICMP_ECHO.

#[export] Instance echo_request_dec m icmp len : Decision (echo_request m icmp len).
Proof. unfold echo_request. apply _. Defined.

(** The buffers the two constructors leave. *)
Definition echo_buf (m : bytes) (len offset : Z) : bytes :=
  let m := setf (setf m offset icmp_type 0) offset icmp_code 0 in
  let m := swapped (sealed m offset 2 (len - offset)) 0 in
  sealed m 0 10 offset.

Definition unreach_len (len offset : Z) : Z := offset + 8 + (offset + Z.min (len - offset) 8).

Definition unreach_buf (m : bytes) (len offset : Z) : bytes :=
  let quote := rd m 0 (offset + Z.min (len - offset) 8) in
  let h := setf m 0 ip_len (htons (unreach_len len offset)) in
  let h := setf (setf h 0 ip_id 0) 0 ip_proto PROTO_ICMP in
  let h := sealed (swapped h 0) 0 10 offset in
  let i := setf (setf h offset icmp_type 3) offset icmp_code 2 in
  let i := setf (setf i offset icmp_identifier 0) offset icmp_sequence_no 0 in
  sealed (upd i (offset + 8) quote) offset 2 (8 + (offset + Z.min (len - offset) 8)).

(** What an echo reply must be: the received packet with the addresses exchanged,
    type and code zero, both checksums correct, everything else as received. *)
Record echo_reply_of (m m' : bytes) (len offset : Z) : Prop := {
  er_ip : ip_valid m' 0 len;
  er_src : getf m' 0 ip_src = getf m 0 ip_dst;
  er_dst : getf m' 0 ip_dst = getf m 0 ip_src;
  er_head : rd m' 0 10 = rd m 0 10;
  er_options : rd m' 20 (offset - 20) = rd m 20 (offset - 20);
  er_icmp : icmp_valid m' offset (len - offset);
  er_type : getf m' offset icmp_type = 0;
  er_code : getf m' offset icmp_code = 0;
  er_rest : rd m' (offset + 4) (len - offset - 4) = rd m (offset + 4) (len - offset - 4);
}.

(** What a protocol-unreachable error must be: a valid ICMP packet to the sender,
    type 3 code 2, quoting the received header and the first 8 bytes after it. *)
Record unreachable_of (m m' : bytes) (len offset n : Z) : Prop := {
  un_size : n <= 136;
  un_ip : ip_valid m' 0 n;
  un_len : ntohs (getf m' 0 ip_len) = n;
  un_proto : getf m' 0 ip_proto = PROTO_ICMP;
  un_src : getf m' 0 ip_src = getf m 0 ip_dst;
  un_dst : getf m' 0 ip_dst = getf m 0 ip_src;
  un_icmp : icmp_valid m' offset (n - offset);
  un_type : getf m' offset icmp_type = ICMP_DST_UNREACHABLE;
  un_code : getf m' offset icmp_code = ICMP_PROTO_UNREACHABLE;
  un_quote : rd m' (offset + 8) (n - offset - 8) = rd m 0 (offset + Z.min (len - offset) 8);
}.

(** ** Lemmas *)

Lemma icmp_checksum_in m icmp len :
  bytes_ok m -> 0 <= icmp -> 0 <= len <= 131072 -> icmp + 8 <= Z.of_nat (length m) ->
  icmp + len <= Z.of_nat (length m) ->
  icmp_checksum m icmp len = Some (sealed m icmp 2 len).
Proof. intros. unfold icmp_checksum. apply seal_body; try done; lia. Qed.

Lemma icmp_validate_total m icmp len :
  bytes_ok m -> 0 <= icmp -> len <= 131072 -> icmp + len <= Z.of_nat (length m) ->
  exists r, icmp_validate m icmp len = Some r /\ (r = 0 \/ r = 1)
            /\ (r = 1 <-> icmp_valid m icmp len).
Proof.
  intros. unfold icmp_validate, icmp_valid, verifies.
  destruct (len <? 8) eqn:E; [exists 0; repeat split; auto; lia|].
  rewrite checksum_sum by (try done; lia). cbn [mbind option_bind].
  destruct (_ =? 0) eqn:E1; cbn [negb]; eexists; split; try done; split; auto; split; lia.
Qed.

Lemma icmp_echo_reply_in m len offset :
  packet m len offset -> offset + 8 <= len ->
  icmp_echo_reply m 0 len offset = Some (len, echo_buf m len offset).
Proof.
  intros Hp Hl. pose proof (packet_range _ _ _ Hp) as Hr. destruct Hp as [Hb Hs _ _ Ho].
  unfold MTU_SIZE in Hs. unfold icmp_echo_reply, echo_buf. rewrite !Z.add_0_l. run.
  rewrite icmp_checksum_in by (auto with bytes; mem). cbn [mbind option_bind].
  rewrite ip_swap_dst_in by mem. cbn [mbind option_bind].
  rewrite ip_checksum_in by (auto 6 with bytes; mem).
  cbn [mbind option_bind]. do 4 f_equal. ihl. done.
Qed.

(** The quotation assembled in [icmp_pl] is a prefix of the received packet. *)
Lemma quote_in m offset d :
  0 <= offset -> 0 <= d -> offset + d <= 68 -> offset + d <= Z.of_nat (length m) ->
  rd (upd (upd (replicate 68 0) 0 (rd m 0 offset)) offset (rd m offset d)) 0 (offset + d)
  = rd m 0 (offset + d).
Proof.
  intros. rewrite !rd_app, !Z.add_0_l by lia. f_equal.
  - fields. apply rd_upd_same; mem.
  - apply rd_upd_same; mem.
Qed.

Lemma icmp_dest_unreachable_in m len offset :
  packet m len offset ->
  icmp_dest_unreachable m 0 len offset = Some (unreach_len len offset, unreach_buf m len offset).
Proof.
  intros Hp. pose proof (packet_range _ _ _ Hp) as Hr. destruct Hp as [Hb Hs _ _ Ho].
  unfold MTU_SIZE in Hs. unfold icmp_dest_unreachable, unreach_buf, unreach_len.
  unfold sizeof_ICMP. rewrite !Z.add_0_l.
  replace (if len - offset <? 8 then len - offset else 8) with (Z.min (len - offset) 8)
    by (destruct (_ <? 8) eqn:E; lia).
  assert (0 <= Z.min (len - offset) 8 <= 8) as Hd by lia.
  set (d := Z.min (len - offset) 8) in *. clearbody d.
  destruct (MTU_SIZE <? _) eqn:E; [unfold MTU_SIZE in E; lia|clear E].
  run. rewrite ip_swap_dst_in by mem. cbn [mbind option_bind].
  rewrite ip_checksum_in by (auto 6 with bytes; mem). cbn [mbind option_bind].
  run. rewrite quote_in by lia. run.
  rewrite icmp_checksum_in by (auto 12 with bytes; mem). cbn [mbind option_bind].
  ihl. rewrite <- Ho. done.
Qed.

Lemma echo_buf_spec m len offset :
  framed m len offset -> offset + 8 <= len -> echo_reply_of m (echo_buf m len offset) len offset.
Proof.
  intros Hp Hl. pose proof (framed_range _ _ _ Hp) as Hr.
  destruct Hp as [Hb Hi Hs Hv Ho]. unfold echo_buf.
  set (i := setf (setf m offset icmp_type 0) offset icmp_code 0).
  assert (length i = length m) as Hli by (subst i; mem).
  assert (bytes_ok i) as Hbi by (subst i; auto with bytes).
  assert (bytes_ok (sealed i offset 2 (len - offset))) as Hbs by auto with bytes.
  destruct (swapped_src (sealed i offset 2 (len - offset)) 0 Hbs) as [Hsrc Hdst];
    [lia|rewrite length_sealed; lia|].
  split.
  - split; [|split].
    + ihl. subst i. ihl. lia.
    + subst i. pkt. done.
    + assert (ihl_of (sealed (swapped (sealed i offset 2 (len - offset)) 0) 0 10 offset) 0 = offset)
        as -> by (ihl; subst i; ihl; done).
      apply sealed_verifies; try done; auto with bytes; mem.
  - pkt. rewrite Hsrc. subst i. pkt. done.
  - pkt. rewrite Hdst. subst i. pkt. done.
  - subst i. pkt. done.
  - subst i. pkt. done.
  - split; [lia|]. pkt. apply sealed_verifies; try done; mem.
  - pkt. subst i. fields. done.
  - pkt. subst i. fields. done.
  - subst i. pkt. done.
Qed.

(** The header part of an unreachable error, before the ICMP message is written. *)
Lemma unreach_header m len offset :
  packet m len offset ->
  let h := setf (setf (setf m 0 ip_len (htons (unreach_len len offset))) 0 ip_id 0)
             0 ip_proto PROTO_ICMP in
  let h' := sealed (swapped h 0) 0 10 offset in
  length h' = length m /\ bytes_ok h' /\ ihl_of h' 0 = offset
  /\ getf h' 0 ip_version_ihl = getf m 0 ip_version_ihl
  /\ verifies (rd h' 0 offset)
  /\ ntohs (getf h' 0 ip_len) = unreach_len len offset
  /\ getf h' 0 ip_proto = PROTO_ICMP
  /\ getf h' 0 ip_src = getf m 0 ip_dst /\ getf h' 0 ip_dst = getf m 0 ip_src.
Proof.
  intros Hp h h'. pose proof (packet_range _ _ _ Hp) as Hr.
  destruct Hp as [Hb Hs _ _ Ho]. unfold MTU_SIZE in Hs.
  assert (length h = length m) as Hlh by (subst h; mem).
  assert (bytes_ok h) as Hbh by (subst h; auto with bytes).
  destruct (swapped_src h 0 Hbh) as [Hsrc Hdst]; [lia|lia|].
  assert (0 <= unreach_len len offset < 65536) by (unfold unreach_len; lia).
  subst h'. repeat split.
  - mem.
  - auto with bytes.
  - ihl. subst h. ihl. done.
  - pkt. subst h. pkt. done.
  - apply sealed_verifies; try done; auto with bytes; mem.
  - pkt. subst h. pkt. change (256 ^ Z.of_nat (f_width ip_len)) with 65536.
    fold (u16 (bswap16 (unreach_len len offset))).
    rewrite bswap16_u16, bswap16_bswap16. now apply u16_id.
  - pkt. subst h. pkt. done.
  - pkt. rewrite Hsrc. subst h. pkt. done.
  - pkt. rewrite Hdst. subst h. pkt. done.
Qed.

Lemma unreach_buf_spec m len offset :
  packet m len offset ->
  unreachable_of m (unreach_buf m len offset) len offset (unreach_len len offset).
Proof.
  intros Hp. pose proof (packet_range _ _ _ Hp) as Hr.
  pose proof (unreach_header _ _ _ Hp) as Hh. cbv zeta in Hh. unfold unreach_buf.
  set (h := sealed (swapped _ 0) 0 10 offset) in *. clearbody h.
  destruct Hh as (Hl&Hb&Hihl&Hver&Hv&Hlen&Hproto&Hsrc&Hdst).
  destruct Hp as [Hbm Hs _ [_ [Hv4 _]] _]. unfold MTU_SIZE in Hs. unfold unreach_len in *.
  assert (0 <= Z.min (len - offset) 8 <= 8) as Hd by lia.
  remember (Z.min (len - offset) 8) as d eqn:Hdeq.
  assert (offset + 8 + (offset + d) - offset = 8 + (offset + d)) as Heq by lia.
  split; rewrite ?Heq; try (pkt; done); try lia.
  - split; [ihl; lia|split; [pkt; congruence|]]. ihl. rewrite Hihl. pkt. done.
  - split; [lia|]. apply sealed_verifies; try done; auto 12 with bytes; mem.
  - replace (8 + (offset + d) - 8) with (offset + d) by lia.
    rewrite <- Hdeq, rd_sealed_other by mem. apply rd_upd_same; mem.
Qed.

(** [icmp_dispatch] answers valid echo requests and nothing else. *)
Lemma icmp_dispatch_in m len offset :
  packet m len offset ->
  icmp_dispatch m 0 len offset
  = Some (if decide (echo_request m offset (len - offset)) then (len, echo_buf m len offset)
          else (0, m)).
Proof.
  intros Hp. pose proof (packet_range _ _ _ Hp) as Hr. pose proof Hp as [Hb Hs _ _ _].
  unfold MTU_SIZE in Hs. unfold icmp_dispatch, echo_request. rewrite !Z.add_0_l.
  destruct (icmp_validate_total m offset (len - offset)) as (r & -> & Hr01 & Hiff);
    try done; try lia.
  cbn [mbind option_bind]. destruct Hr01 as [-> | ->];
    [change (truth 0) with false|change (truth 1) with true]; cbn [negb].
  - rewrite decide_False; [done|]. intros [Hv _]. apply Hiff in Hv. discriminate Hv.
  - destruct (proj1 Hiff eq_refl) as [H8 Hv]. run. destruct (_ =? ICMP_ECHO) eqn:E.
    + rewrite decide_True by (split; [by split|by apply Z.eqb_eq]).
      apply icmp_echo_reply_in; [done|lia].
    + rewrite decide_False; [done|]. intros [_ He]. rewrite He, Z.eqb_refl in E. discriminate E.
Qed.

Lemma echo_buf_bounds m len offset :
  bytes_ok m -> length (echo_buf m len offset) = length m /\ bytes_ok (echo_buf m len offset).
Proof. intros. unfold echo_buf. cbv zeta. split; [mem|auto 8 with bytes]. Qed.

Lemma unreach_buf_bounds m len offset :
  bytes_ok m -> length (unreach_buf m len offset) = length m /\ bytes_ok (unreach_buf m len offset).
Proof. intros. unfold unreach_buf. cbv zeta. split; [mem|auto 16 with bytes]. Qed.

(** ** Properties *)

(** C18 Echo: of the ICMP packets the network layer accepts, [icmp_dispatch] answers exactly
    the echo requests of at least 8 bytes whose checksum verifies, with a reply that is
    the request with addresses exchanged, type and code zero and both checksums
    correct; every other message is dropped with the buffer untouched. *)
Theorem icmp_echo_correct m len offset :
  packet m len offset ->
  exists n m', icmp_dispatch m 0 len offset = Some (n, m') /\
    if decide (echo_request m offset (len - offset))
    then n = len /\ echo_reply_of m m' len offset else n = 0 /\ m' = m.
Proof.
  intros Hp. rewrite icmp_dispatch_in by done. destruct (decide _) as [He|]; [|eauto].
  do 2 eexists. split; [done|]. split; [done|]. apply echo_buf_spec; [by apply packet_framed|].
  destruct He as [[H8 _] _]. lia.
Qed.

Lemma icmp_echo_correct_witness :
  let h := sealed (setf (setf (setf (replicate 1500 0) 0 ip_version_ihl 69) 0 ip_proto 1)
             0 ip_src 1) 0 10 20 in
  let m := sealed (setf h 20 icmp_type ICMP_ECHO) 20 2 12 in
  exists n m', icmp_dispatch m 0 32 20 = Some (n, m') /\ n = 32.
Proof.
  cbv zeta. edestruct icmp_echo_correct as (n & m' & Hrun & H); [|exists n, m'; split; [exact Hrun|]];
    [by_eval|]. rewrite decide_True in H by by_eval. destruct H as [H _]. exact H.
Defined.

(** C19 Protocol unreachable: for a packet of an unknown protocol the error built in place
    is a valid IP and ICMP packet of at most 136 bytes, sent to the packet's source, of
    type 3 and code 2, and it quotes the received header and at most the first 8 bytes
    that follow it, as they were received. *)
Theorem icmp_unreachable_correct m len offset :
  packet m len offset ->
  exists n m', icmp_dest_unreachable m 0 len offset = Some (n, m') /\
    unreachable_of m m' len offset n /\ length m' = length m.
Proof.
  intros Hp. rewrite icmp_dest_unreachable_in by done. do 2 eexists. split; [done|].
  split; [by apply unreach_buf_spec|]. apply unreach_buf_bounds. by destruct Hp.
Qed.

Lemma icmp_unreachable_correct_witness :
  let m := sealed (setf (setf (replicate 1500 0) 0 ip_version_ihl 69) 0 ip_proto 17) 0 10 20 in
  exists n m', icmp_dest_unreachable m 0 40 20 = Some (n, m') /\ n <= 136.
Proof.
  cbv zeta. edestruct icmp_unreachable_correct as (n & m' & Hrun & H & _);
    [|exists n, m'; split; [exact Hrun|exact (un_size _ _ _ _ _ H)]]. by_eval.
Defined.
