(* ===== verification/TcpHeader.v ===== *)
(** * The TCP header

    The packed header, flags and checksum of [refactor/network/tcp/tcp.h] and [tcp.c],
    the sequence comparisons of [tcb.h], and the facts on headers both versions of the
    program rely on. *)
From S2P Require Import Prelude Memory Checksum Ip.

(** ** The packed struct [TCP] *)

Definition tcp_src_port : field := Field 0 2.
Definition tcp_dst_port : field := Field 2 2.
Definition tcp_seq_num : field := Field 4 4.
Definition tcp_ack_num : field := Field 8 4.
Definition tcp_data_offset : field := Field 12 1.
Definition tcp_flags : field := Field 13 1.
Definition tcp_window : field := Field 14 2.
Definition tcp_csum : field := Field 16 2.
Definition tcp_urgent_ptr : field := Field 18 2.
#[export] Hint Unfold tcp_src_port tcp_dst_port tcp_seq_num tcp_ack_num tcp_data_offset
  tcp_flags tcp_window tcp_csum tcp_urgent_ptr : fields.
Definition sizeof_Pseudo : Z := 12.

Definition FIN : Z := 1.
Definition SYN : Z := 2.
Definition RST : Z := 4.
Definition PSH : Z := 8.
Definition ACK : Z := 16.

(** ** Sequence space comparisons: [(int32_t)((a)-(b))] on [uint32_t] operands *)

Definition SEQ_LT (a b : Z) : bool := s32 (u32 (a - b)) <? 0.
Definition SEQ_LEQ (a b : Z) : bool := s32 (u32 (a - b)) <=? 0.
Definition SEQ_GT (a b : Z) : bool := 0 <? s32 (u32 (a - b)).
Definition SEQ_GEQ (a b : Z) : bool := 0 <=? s32 (u32 (a - b)).

(** ** Checksum *)

(** The bytes of the struct [Pseudo]; [src], [dst] and [tcp_len] as they lie in memory. *)
Definition pseudo_bytes (src dst proto tcp_len : Z) : bytes :=
  le_encode 4 src ++ le_encode 4 dst ++ [0] ++ le_encode 1 proto ++ le_encode 2 tcp_len.

(** The header's checksum field is zeroed during the sum and restored after it. *)
Definition tcp_checksum (m : bytes) (buf len offset : Z) : option (Z * bytes) :=
  let ip := buf in
  let tcp := buf + offset in
  org_cs ← get m tcp tcp_csum;
  let seg_len := len - offset in
  src ← get m ip ip_src;
  dst ← get m ip ip_dst;
  proto ← get m ip ip_proto;
  let pseudo := pseudo_bytes src dst proto (htons seg_len) in
  m ← set m tcp tcp_csum 0;
  if sizeof_Pseudo + seg_len <=? 0 then None else
  seg ← load_bytes m tcp seg_len;
  let ghost_seg := pseudo ++ seg in
  cs ← checksum ghost_seg 0 (sizeof_Pseudo + seg_len);
  m ← set m tcp tcp_csum org_cs;
  Some (cs, m).

Definition tcp_swap_port (m : bytes) (tcp : Z) : option bytes :=
  src_port ← get m tcp tcp_src_port;
  dst ← get m tcp tcp_dst_port;
  m ← set m tcp tcp_src_port dst;
  set m tcp tcp_dst_port src_port.
(** ** Specification *)

(** The pseudo header of the packet in the buffer. *)
Definition pseudo_of (m : bytes) (seg_len : Z) : bytes :=
  pseudo_bytes (getf m 0 ip_src) (getf m 0 ip_dst) (getf m 0 ip_proto) (htons seg_len).

(** The segment at [offset], [seg_len] bytes long, verifies under its pseudo header. *)
Definition tcp_verifies (m : bytes) (offset seg_len : Z) : Prop :=
  verifies (pseudo_of m seg_len ++ rd m offset seg_len).

(** The checksum a sender computes: the field counted as zero. *)
Definition tcp_sum (m : bytes) (offset seg_len : Z) : Z :=
  65535 - oc_norm (sum16 (pseudo_of m seg_len ++ rd (setf m offset tcp_csum 0) offset seg_len)).

Definition tcp_hlen_of (m : bytes) (offset : Z) : Z :=
  Z.shiftr (getf m offset tcp_data_offset) 4 * 4.

Definition ports_swapped (m : bytes) (tcp : Z) : bytes :=
  setf (setf m tcp tcp_src_port (getf m tcp tcp_dst_port)) tcp tcp_dst_port
    (getf m tcp tcp_src_port).

(** ** Lemmas *)

Lemma length_pseudo_bytes s d p l : length (pseudo_bytes s d p l) = 12%nat.
Proof. reflexivity. Qed.

Lemma pseudo_bytes_ok s d p l : bytes_ok (pseudo_bytes s d p l).
Proof.
  unfold pseudo_bytes. rewrite !Forall_app. split_and!; try apply le_encode_ok.
  constructor; [unfold byte_ok; lia|constructor].
Qed.

Lemma sum16_pseudo s d p l k : sum16 (pseudo_bytes s d p l ++ k) = sum16 (pseudo_bytes s d p l) + sum16 k.
Proof. apply sum16_app. exists 6%nat. reflexivity. Qed.

Lemma pseudo_sum_pos s d p l :
  let P := sum16 (pseudo_bytes s d p l) in 0 <= P /\ (0 < p < 256 -> 0 < P).
Proof.
  cbv zeta. unfold pseudo_bytes. cbn [le_encode app]. rewrite !sum16_cons2. change (sum16 []) with 0.
  split; [|intros Hp]; divlia.
Qed.

Lemma tcp_sum_range m offset seg_len :
  bytes_ok m -> 0 <= tcp_sum m offset seg_len <= 65535.
Proof.
  intros Hm. unfold tcp_sum.
  set (l := pseudo_of _ _ ++ _). assert (bytes_ok l) as Hl.
  { subst l. apply Forall_app. split; [apply pseudo_bytes_ok|apply rd_ok, setf_ok, Hm]. }
  destruct (sum16_range l Hl) as [H _]. pose proof (oc_norm_range _ H). lia.
Qed.

(** The checksum of a segment in the buffer; the buffer is left as it was. *)
Lemma tcp_checksum_in m len offset :
  bytes_ok m -> 20 <= offset <= len -> len <= 1500 -> Z.of_nat (length m) = 1500 ->
  offset <= 60 ->
  tcp_checksum m 0 len offset = Some (tcp_sum m offset (len - offset), m).
Proof.
  intros Hm Ho Hl Hs Ho'. unfold tcp_checksum. rewrite !Z.add_0_l. unfold sizeof_Pseudo.
  run. destruct (12 + (len - offset) <=? 0) eqn:E; [lia|clear E]. run.
  rewrite checksum_sum.
  - cbn [mbind option_bind]. run. rewrite setf_restore by (try done; mem).
    rewrite rd_all; [done|]. rewrite length_app, length_pseudo_bytes, length_rd by mem. lia.
  - apply Forall_app. split; [apply pseudo_bytes_ok|auto with bytes].
  - lia.
  - lia.
  - rewrite length_app, length_pseudo_bytes, length_rd by mem. lia.
Qed.

Lemma pseudo_of_setf m p f v n :
  20 <= p + f_off f -> pseudo_of (setf m p f v) n = pseudo_of m n.
Proof. intros. unfold pseudo_of. fields. done. Qed.

(** The checksum field's share in the sum of a segment. *)
Lemma tcp_sum_parts m offset seg_len :
  bytes_ok m -> 20 <= offset -> 18 <= seg_len -> offset + seg_len <= Z.of_nat (length m) ->
  exists S0, 0 <= S0 /\ (0 < getf m 0 ip_proto -> 0 < S0) /\
    tcp_sum m offset seg_len = 65535 - oc_norm S0 /\
    forall v, 0 <= v <= 65535 ->
      sum16 (pseudo_of m seg_len ++ rd (setf m offset tcp_csum v) offset seg_len) = S0 + v.
Proof.
  intros Hm Ho Hl Hr. unfold tcp_sum, pseudo_of.
  assert (forall v, 0 <= v <= 65535 -> sum16 (rd (setf m offset tcp_csum v) offset seg_len)
          = sum16 (rd m offset seg_len) - sum16 (rd m (offset + 16) 2) + v) as Hset.
  { intros v Hv. unfold setf. cbn [f_off f_width tcp_csum].
    rewrite rd_upd_inside by mem. replace (offset + 16 - offset) with 16 by lia.
    rewrite sum16_upd by (try done; rewrite ?length_rd by lia; lia).
    rewrite rd_rd by lia. f_equal. cbn [le_encode]. rewrite sum16_cons2.
    change (sum16 []) with 0. divlia. }
  pose proof (sum16_rd_range (setf m offset tcp_csum 0) offset seg_len
    (setf_ok _ _ _ _ Hm) ltac:(lia) ltac:(lia) ltac:(mem)) as [H0 _].
  rewrite sum16_pseudo, (Hset 0) by lia. rewrite (Hset 0 ltac:(lia)) in H0.
  pose proof (pseudo_sum_pos (getf m 0 ip_src) (getf m 0 ip_dst) (getf m 0 ip_proto)
    (bswap16 seg_len)) as [HP HP'].
  set (P := sum16 (pseudo_bytes _ _ _ _)) in *.
  exists (P + (sum16 (rd m offset seg_len) - sum16 (rd m (offset + 16) 2) + 0)).
  split; [lia|]. split; [|split; [done|]].
  - intros Hp. assert (0 < P); [|lia]. apply HP'.
    assert (0 <= getf m 0 ip_proto < 256) by (apply (getf_range m 0 ip_proto Hm); mem). lia.
  - intros v Hv. rewrite sum16_pseudo, (Hset v Hv). fold P. lia.
Qed.

(** The length's share in the sum of a pseudo header. *)
Lemma sum16_pseudo_len s d p l :
  0 <= l < 65536 -> sum16 (pseudo_bytes s d p l) = sum16 (pseudo_bytes s d p 0) + l.
Proof.
  intros Hl. unfold pseudo_bytes. cbn [le_encode app]. rewrite !sum16_cons2. change (sum16 []) with 0. divlia.
Qed.

(** A segment that verifies for [n] bytes, read as one of [k] bytes. *)
Lemma tcp_verifies_shorter m offset n k :
  bytes_ok m -> 0 <= offset -> 0 <= k <= n -> k mod 2 = 0 -> n < 65536 ->
  offset + n <= Z.of_nat (length m) -> 0 < getf m 0 ip_proto < 256 -> tcp_verifies m offset n ->
  (tcp_verifies m offset k <-> (sum16 (rd m (offset + k) (n - k)) + 256 * (n - k)) mod 65535 = 0).
Proof.
  intros Hm Ho Hk Heven Hn Hlen Hproto. unfold tcp_verifies, verifies, pseudo_of.
  replace (rd m offset n) with (rd m offset (k + (n - k))) by (f_equal; lia).
  rewrite !sum16_pseudo, sum16_rd_app by lia.
  rewrite (sum16_pseudo_len _ _ _ (htons n)), (sum16_pseudo_len _ _ _ (htons k)) by apply bswap16_range.
  pose proof (pseudo_sum_pos (getf m 0 ip_src) (getf m 0 ip_dst) (getf m 0 ip_proto) 0) as [_ HP].
  specialize (HP Hproto). set (P := sum16 (pseudo_bytes _ _ _ _)) in *. clearbody P.
  pose proof (sum16_rd_range m offset k Hm ltac:(lia) ltac:(lia) ltac:(lia)) as [HS _].
  pose proof (sum16_rd_range m (offset + k) (n - k) Hm ltac:(lia) ltac:(lia) ltac:(lia)) as [HD _].
  set (S := sum16 (rd m offset k)) in *. set (D := sum16 (rd m (offset + k) (n - k))) in *. clearbody S D.
  pose proof (bswap16_range n) as Rn. pose proof (bswap16_range k) as Rk.
  rewrite !oc_norm_full by lia. unfold bswap16 in *. divlia.
Qed.

(** A segment carrying its own sum verifies. *)
Lemma tcp_sum_verifies m offset seg_len :
  bytes_ok m -> 20 <= offset -> 18 <= seg_len -> offset + seg_len <= Z.of_nat (length m) ->
  tcp_verifies (setf m offset tcp_csum (tcp_sum m offset seg_len)) offset seg_len.
Proof.
  intros Hm Ho Hl Hr. unfold tcp_verifies, verifies. rewrite pseudo_of_setf by mem.
  destruct (tcp_sum_parts m offset seg_len Hm Ho Hl Hr) as (S0 & H0 & _ & Hs & Hall).
  rewrite Hall by now apply tcp_sum_range. rewrite Hs. now apply oc_norm_complement.
Qed.

(** The field equals the sum exactly when the segment verifies and the field is not the
    second zero of ones' complement. *)
Lemma tcp_sum_iff m offset seg_len :
  bytes_ok m -> 20 <= offset -> 18 <= seg_len -> offset + seg_len <= Z.of_nat (length m) ->
  0 < getf m 0 ip_proto ->
  getf m offset tcp_csum = tcp_sum m offset seg_len <->
  tcp_verifies m offset seg_len /\ getf m offset tcp_csum <> 65535.
Proof.
  intros Hm Ho Hl Hr Hp. unfold tcp_verifies, verifies.
  destruct (tcp_sum_parts m offset seg_len Hm Ho Hl Hr) as (S0 & H0 & Hpos & -> & Hall).
  specialize (Hpos Hp).
  assert (0 <= getf m offset tcp_csum < 65536) as Hc
    by (apply (getf_range m offset tcp_csum Hm); mem).
  specialize (Hall (getf m offset tcp_csum) ltac:(lia)).
  assert (setf m offset tcp_csum (getf m offset tcp_csum) = m) as Hid.
  { unfold setf, getf. rewrite le_encode_decode by (auto with bytes; rewrite ?length_rd by mem; mem).
    apply upd_rd; mem. }
  rewrite Hid in Hall. rewrite Hall. set (c := getf m offset tcp_csum) in *. clearbody c.
  unfold oc_norm. destruct (S0 =? 0) eqn:E; [lia|]. destruct (S0 + c =? 0) eqn:E'; [lia|]. divlia.
Qed.

Lemma length_ports_swapped m tcp : length (ports_swapped m tcp) = length m.
Proof. unfold ports_swapped. now rewrite !length_setf. Qed.
#[export] Hint Rewrite length_ports_swapped : lens.

Lemma ports_swapped_ok m tcp : bytes_ok m -> bytes_ok (ports_swapped m tcp).
Proof. intros. now do 2 apply setf_ok. Qed.
#[export] Hint Resolve ports_swapped_ok : bytes.

Lemma tcp_swap_port_in m tcp :
  0 <= tcp -> tcp + 20 <= Z.of_nat (length m) -> tcp_swap_port m tcp = Some (ports_swapped m tcp).
Proof. intros. unfold tcp_swap_port. run. done. Qed.

Lemma tcp_hlen_range m offset :
  bytes_ok m -> 0 <= offset -> offset + 20 <= Z.of_nat (length m) ->
  0 <= tcp_hlen_of m offset <= 60 /\ tcp_hlen_of m offset mod 4 = 0.
Proof.
  intros Hm ? ?. unfold tcp_hlen_of.
  assert (0 <= getf m offset tcp_data_offset < 256) as Hd
    by (apply (getf_range m offset tcp_data_offset Hm); mem).
  rewrite Z.shiftr_div_pow2 by lia. change (2 ^ 4) with 16. divlia.
Qed.

(** The data offset written back keeps the header length. *)
Lemma tcp_hlen_back d :
  0 <= d < 256 ->
  Z.shiftr (Z.shiftl (Z.shiftr d 4 * 4 / 4) 4 mod 256) 4 = Z.shiftr d 4.
Proof.
  intros. rewrite !Z.shiftr_div_pow2, Z.shiftl_mul_pow2 by lia. change (2 ^ 4) with 16.
  rewrite Z.div_mul by lia. divlia.
Qed.

Lemma bswap32_get v : bswap32 (bswap32 v mod 256 ^ Z.of_nat 4) = u32 v.
Proof.
  change (256 ^ Z.of_nat 4) with 4294967296. rewrite Z.mod_small by apply bswap32_range.
  apply bswap32_bswap32.
Qed.

Lemma bswap16_get v : bswap16 (bswap16 v mod 256 ^ Z.of_nat 2) = u16 v.
Proof.
  change (256 ^ Z.of_nat 2) with 65536. rewrite Z.mod_small by apply bswap16_range.
  apply bswap16_bswap16.
Qed.

Lemma ports_swapped_ports m tcp :
  bytes_ok m -> 0 <= tcp -> tcp + 20 <= Z.of_nat (length m) ->
  getf (ports_swapped m tcp) tcp tcp_src_port = getf m tcp tcp_dst_port /\
  getf (ports_swapped m tcp) tcp tcp_dst_port = getf m tcp tcp_src_port.
Proof.
  intros Hm ? ?. unfold ports_swapped. split; fields; apply Z.mod_small.
  - apply (getf_range m tcp tcp_dst_port Hm); mem.
  - apply (getf_range m tcp tcp_src_port Hm); mem.
Qed.

(** The signed view of a difference. *)
Lemma seq_geq_diff a b : SEQ_GEQ a b = ((a - b) mod 4294967296 <? 2147483648).
Proof.
  unfold SEQ_GEQ. rewrite s32_u32. apply eq_true_iff_eq. rewrite Z.leb_le, Z.ltb_lt. words.
Qed.

Lemma seq_lt_diff a b : SEQ_LT a b = (2147483648 <=? (a - b) mod 4294967296).
Proof.
  unfold SEQ_LT. rewrite s32_u32. apply eq_true_iff_eq. rewrite Z.leb_le, Z.ltb_lt. words.
Qed.

(** The window test [SEQ_GEQ(s, n) && SEQ_LT(s, n + w)]: [s] is one of the [w]
    sequence numbers from [n] on, modulo 2^32. *)
Lemma seq_window s n w :
  0 <= w <= 2147483648 ->
  SEQ_GEQ s n && SEQ_LT s (u32 (n + w)) = ((s - n) mod 4294967296 <? w).
Proof.
  intros Hw. rewrite seq_geq_diff, seq_lt_diff. unfold u32.
  rewrite Zminus_mod_idemp_r. replace (s - (n + w)) with (s - n - w) by lia.
  apply eq_true_iff_eq. rewrite andb_true_iff, Z.leb_le, !Z.ltb_lt.
  assert ((s - n - w) mod 4294967296 = ((s - n) mod 4294967296 - w) mod 4294967296) as ->
    by now rewrite Zminus_mod_idemp_l.
  pose proof (Z.mod_pos_bound (s - n) 4294967296 ltac:(lia)) as Hr.
  set (d := (s - n) mod 4294967296) in *. clearbody d. divlia.
Qed.
