(* ===== verification/Heap.v ===== *)
(** * The allocator

    [malloc], [realloc] and [free] of the C library.  A heap holds the live
    objects of one type by address, and the addresses of the live arrays, whose
    contents are kept with the pointer to them; every request, granted or not,
    consumes one request number, and [h_oom] says which requests the allocator
    refuses.  Addresses are request numbers, hence fresh.  Access to a dead address,
    freeing and reallocating one are undefined behaviour, [None]; a null pointer is
    [None] of type [option loc]. *)
From S2P Require Import Prelude.

Abbreviation loc := nat.
Abbreviation ptr := (option loc).

Record heap (A : Type) := Heap {
  h_cells : gmap loc A;
  h_reqs : nat;
  h_oom : nat -> bool;
  h_arrays : gset loc;
}.
Arguments Heap {A} _ _ _ _.
Arguments h_cells {A} _.
Arguments h_reqs {A} _.
Arguments h_oom {A} _ _.
Arguments h_arrays {A} _.

Section heap.
Context {A : Type}.
Implicit Types (h : heap A) (p q : loc) (x : A).

(** [malloc] and [realloc] of an array: its address when granted; and [free] of one. *)
Definition alloc_array h : ptr * heap A :=
  if h_oom h (h_reqs h) then (None, Heap (h_cells h) (S (h_reqs h)) (h_oom h) (h_arrays h))
  else (Some (h_reqs h), Heap (h_cells h) (S (h_reqs h)) (h_oom h) ({[h_reqs h]} ∪ h_arrays h)).
Definition realloc_array h (old : loc) : option (ptr * heap A) :=
  if decide (old ∈ h_arrays h) then
    Some (if h_oom h (h_reqs h) then (None, Heap (h_cells h) (S (h_reqs h)) (h_oom h) (h_arrays h))
          else (Some (h_reqs h),
                Heap (h_cells h) (S (h_reqs h)) (h_oom h) ({[h_reqs h]} ∪ h_arrays h ∖ {[old]})))
  else None.
Definition free_array h (a : loc) : option (heap A) :=
  if decide (a ∈ h_arrays h) then Some (Heap (h_cells h) (h_reqs h) (h_oom h) (h_arrays h ∖ {[a]})) else None.

(** [malloc] of an object, then its initialisation to [x]. *)
Definition alloc h x : ptr * heap A :=
  if h_oom h (h_reqs h) then (None, Heap (h_cells h) (S (h_reqs h)) (h_oom h) (h_arrays h))
  else (Some (h_reqs h), Heap (<[h_reqs h := x]> (h_cells h)) (S (h_reqs h)) (h_oom h) (h_arrays h)).

(** [*p], [*p = x] and [free(p)]. *)
Definition deref h p : option A := h_cells h !! p.
Definition assign h p x : option (heap A) :=
  match h_cells h !! p with
  | Some _ => Some (Heap (<[p := x]> (h_cells h)) (h_reqs h) (h_oom h) (h_arrays h))
  | None => None
  end.
Definition free h p : option (heap A) :=
  match h_cells h !! p with
  | Some _ => Some (Heap (delete p (h_cells h)) (h_reqs h) (h_oom h) (h_arrays h))
  | None => None
  end.

(** Addresses in use have been requested. *)
Definition heap_wf h : Prop := forall p, is_Some (h_cells h !! p) -> (p < h_reqs h)%nat.

Lemma heap_wf_fresh h : heap_wf h -> h_cells h !! h_reqs h = None.
Proof.
  intros Hwf. destruct (h_cells h !! h_reqs h) eqn:E; [|done].
  specialize (Hwf (h_reqs h) ltac:(eauto)). lia.
Qed.

(** A step that only consumes requests: the cells and the allocator's answers stay. *)
Definition quiet h h' : Prop :=
  h_cells h' = h_cells h /\ h_oom h' = h_oom h /\ (h_reqs h <= h_reqs h')%nat.

Lemma quiet_refl h : quiet h h.
Proof. split_and!; done. Qed.

Lemma quiet_trans h h' h'' : quiet h h' -> quiet h' h'' -> quiet h h''.
Proof. intros (?&?&?) (?&?&?). split_and!; [congruence|congruence|lia]. Qed.

Lemma quiet_wf h h' : quiet h h' -> heap_wf h -> heap_wf h'.
Proof. intros (Hc & _ & Hr) Hwf p Hp. rewrite Hc in Hp. specialize (Hwf p Hp). lia. Qed.

(** Arrays in use have been requested. *)
Definition arrays_wf h : Prop := forall a, a ∈ h_arrays h -> (a < h_reqs h)%nat.

Lemma arrays_wf_grow h h' : arrays_wf h -> h_arrays h' = h_arrays h -> (h_reqs h <= h_reqs h')%nat -> arrays_wf h'.
Proof. intros Hwf Ha Hr a Hin. rewrite Ha in Hin. specialize (Hwf a Hin). lia. Qed.

(** A request for an array is refused, and no array is lost or gained, or granted, at a
    fresh address. *)
Lemma alloc_array_spec h o h' :
  alloc_array h = (o, h') ->
  quiet h h' /\ (arrays_wf h -> arrays_wf h') /\
  match o with
  | None => h_arrays h' = h_arrays h /\ exists n, h_oom h n = true
  | Some a => h_arrays h' = {[a]} ∪ h_arrays h /\ (arrays_wf h -> a ∉ h_arrays h)
  end.
Proof.
  unfold alloc_array. destruct (h_oom _ _) eqn:E; intros [= <- <-].
  - split; [split_and!; cbn; [done|done|lia]|].
    split; [intros; by eapply arrays_wf_grow; [done|done|cbn; lia]|]. eauto.
  - split; [split_and!; cbn; [done|done|lia]|]. split.
    + intros Hwf a Hin. cbn in *. apply elem_of_union in Hin as [->%elem_of_singleton|Ha]; [lia|]. specialize (Hwf a Ha). lia.
    + split; [done|]. intros Hwf Hin. specialize (Hwf _ Hin). lia.
Qed.

Lemma realloc_array_spec h old :
  old ∈ h_arrays h ->
  exists o h', realloc_array h old = Some (o, h') /\ quiet h h' /\ (arrays_wf h -> arrays_wf h') /\
  match o with
  | None => h_arrays h' = h_arrays h /\ exists n, h_oom h n = true
  | Some a => h_arrays h' = {[a]} ∪ h_arrays h ∖ {[old]} /\ (arrays_wf h -> a ∉ h_arrays h)
  end.
Proof.
  intros Hold. unfold realloc_array. rewrite decide_True by done. destruct (h_oom _ _) eqn:E;
    do 2 eexists; (split; [done|]); (split; [split_and!; cbn; [done|done|lia]|]); split.
  - intros. by eapply arrays_wf_grow; [done|done|cbn; lia].
  - eauto.
  - intros Hwf a Hin. cbn in *. apply elem_of_union in Hin as [->%elem_of_singleton|[Ha _]%elem_of_difference]; [lia|].
    specialize (Hwf a Ha). lia.
  - split; [done|]. intros Hwf Hin. specialize (Hwf _ Hin). lia.
Qed.

Lemma alloc_wf h x o h' : alloc h x = (o, h') -> heap_wf h -> heap_wf h'.
Proof.
  unfold alloc, heap_wf. intros Ha Hwf p Hp.
  destruct (h_oom _ _); injection Ha as <- <-; cbn in *.
  - specialize (Hwf p Hp). lia.
  - destruct (decide (p = h_reqs h)) as [->|]; [lia|].
    rewrite lookup_insert_ne in Hp by done. specialize (Hwf p Hp). lia.
Qed.

(** A failed allocation changes no cell, a granted one adds a fresh cell. *)
Lemma alloc_cases h x o h' :
  heap_wf h -> alloc h x = (o, h') ->
  (o = None /\ h_cells h' = h_cells h /\ exists n, h_oom h n = true) \/
  (exists p, o = Some p /\ h_cells h !! p = None /\ h_cells h' = <[p := x]> (h_cells h)).
Proof.
  unfold alloc. intros Hwf Ha. destruct (h_oom _ _) eqn:E; injection Ha as <- <-; [left; eauto|].
  right. exists (h_reqs h). auto using heap_wf_fresh.
Qed.

Lemma alloc_oom h x o h' : alloc h x = (o, h') -> h_oom h' = h_oom h.
Proof. unfold alloc. destruct (h_oom _ _); by intros [= <- <-]. Qed.

(** Objects come and go without touching an array. *)
Definition same_arrays h h' : Prop := h_arrays h' = h_arrays h /\ (h_reqs h <= h_reqs h')%nat.

Lemma alloc_arrays h x o h' : alloc h x = (o, h') -> same_arrays h h'.
Proof. unfold alloc. destruct (h_oom _ _); intros [= <- <-]; split; cbn; [done|lia|done|lia]. Qed.

Lemma free_arrays h p h' : free h p = Some h' -> same_arrays h h'.
Proof. unfold free. destruct (_ !! p); [|done]. by intros [= <-]. Qed.

Lemma assign_arrays h p x h' : assign h p x = Some h' -> same_arrays h h'.
Proof. unfold assign. destruct (_ !! p); [|done]. by intros [= <-]. Qed.

Lemma free_spec h p h' :
  free h p = Some h' -> h_cells h' = delete p (h_cells h) /\ h_oom h' = h_oom h.
Proof. unfold free. destruct (_ !! p); [|done]. by intros [= <-]. Qed.

Lemma free_wf h p h' : free h p = Some h' -> heap_wf h -> heap_wf h'.
Proof.
  unfold free, heap_wf. destruct (_ !! p) eqn:E; [|done]. intros [= <-] Hwf q Hq; cbn in *.
  destruct (decide (p = q)) as [->|]; [by rewrite lookup_delete_eq in Hq; destruct Hq|].
  rewrite lookup_delete_ne in Hq by done. auto.
Qed.

Lemma assign_wf h p x h' : assign h p x = Some h' -> heap_wf h -> heap_wf h'.
Proof.
  unfold assign, heap_wf. destruct (_ !! p) eqn:E; [|done]. intros [= <-] Hwf q Hq; cbn in *.
  destruct (decide (p = q)) as [->|]; [eauto|].
  rewrite lookup_insert_ne in Hq by done. auto.
Qed.
End heap.
