(* ===== verification/Tcb.v ===== *)
(** * Connection state

    [refactor/network/tcp/tcb.h], [tcb.c] and the constants of [tcp.h]: the
    connection identifier, the TCB, its states and events, the modular sequence
    comparisons, the creation of a TCB, and the initial sequence number drawn from the
    clock and the random generator. *)
From S2P Require Import Prelude Memory Heap.

Definition TCP_RCVBUF : Z := 16384.
Definition TCP_WIN_DEF : Z := 8192.
Definition TCP_LISTEN_PORT : Z := 8080.

(** ** Data *)

Inductive Edge :=
  | EVT_SYN | EVT_DATA | EVT_ACK | EVT_FIN | EVT_RST | EVT_DROP | EVT_SEND_RST.

Inductive Con_State :=
  | CON_CLOSED | CON_SYN_RECEIVED | CON_ESTABLISHED | CON_CLOSE_WAIT
  | CON_CLOSING | CON_LAST_ACK | CON_TIME_WAIT.

Record ID := MkID { src_port : Z; dst_port : Z; src_ip : Z; dst_ip : Z }.

Record Send_State := MkSend { snd_unac : Z; snd_next : Z; snd_window : Z; snd_iss : Z }.

Record Receive_State := MkRecv { rcv_next : Z; rcv_window : Z; rcv_irs : Z }.

Record TCB := MkTCB {
  tcb_id : ID;
  tcb_send : Send_State;
  tcb_recv : Receive_State;
  tcb_recv_buf : bytes;
  tcb_recv_size : Z;
  tcb_recv_consumed : Z;
  tcb_state : Con_State;
}.

Record Flags := MkFlags { fl_fin : bool; fl_syn : bool; fl_rst : bool; fl_psh : bool; fl_ack : bool }.

#[export] Instance Con_State_eq_dec : EqDecision Con_State.
Proof. solve_decision. Defined.

#[export] Instance Edge_eq_dec : EqDecision Edge.
Proof. solve_decision. Defined.

#[export] Instance ID_eq_dec : EqDecision ID.
Proof. solve_decision. Defined.

#[export] Instance ID_countable : Countable ID.
Proof.
  refine (inj_countable' (fun i => (src_port i, dst_port i, src_ip i, dst_ip i))
            (fun '(a, b, c, d) => MkID a b c d) _).
  now intros [].
Defined.

(** Field assignments [tcb->state = s], [tcb->send = s], [tcb->recv = r]. *)
Definition set_state (t : TCB) (s : Con_State) : TCB :=
  MkTCB (tcb_id t) (tcb_send t) (tcb_recv t) (tcb_recv_buf t) (tcb_recv_size t)
    (tcb_recv_consumed t) s.
Definition set_send (t : TCB) (s : Send_State) : TCB :=
  MkTCB (tcb_id t) s (tcb_recv t) (tcb_recv_buf t) (tcb_recv_size t)
    (tcb_recv_consumed t) (tcb_state t).
Definition set_recv (t : TCB) (r : Receive_State) : TCB :=
  MkTCB (tcb_id t) (tcb_send t) r (tcb_recv_buf t) (tcb_recv_size t)
    (tcb_recv_consumed t) (tcb_state t).

(** ** Operations *)

Definition tcb_id_match (a b : ID) : bool :=
  (src_ip a =? src_ip b) && (dst_ip a =? dst_ip b) &&
  (src_port a =? src_port b) && (dst_port a =? dst_port b).

(** The contents [tcb_init] gives a fresh TCB ([CON_CLOSED] is [0] in the zeroed block). *)
Definition fresh_tcb (id : ID) : TCB :=
  MkTCB (MkID (src_port id) (dst_port id) (src_ip id) (dst_ip id))
    (MkSend 0 0 0 0) (MkRecv 0 TCP_WIN_DEF 0)
    (replicate (Z.to_nat TCP_RCVBUF) 0) 0 0 CON_CLOSED.

Definition tcb_init (h : heap TCB) (id : ID) : ptr * heap TCB := alloc h (fresh_tcb id).

(** The generator behind [rand()]: the values it has still to give, in order.  It belongs to
    the whole program, which never seeds it. *)
Abbreviation Rand := (nat -> Z).
Definition rand (g : Rand) : Z * Rand := (g 0%nat, fun n => g (S n)).

(** [tcp_gen_iss]: the clock is a reading of the environment, [rand()] the next value of the
    generator. *)
Definition tcp_gen_iss (tv_sec tv_usec : Z) (g : Rand) : Z * Rand :=
  let '(rnd, g) := rand g in (u32 (tv_sec * 1000000 + tv_usec + rnd), g).

(** ** Lemmas *)

Lemma tcb_id_match_spec a b : tcb_id_match a b = true <-> a = b.
Proof.
  unfold tcb_id_match. rewrite !andb_true_iff, !Z.eqb_eq. destruct a, b; cbn.
  split; [intros [[[-> ->] ->] ->]; done|intros [= -> -> -> ->]; done].
Qed.

Lemma tcb_id_match_decide a b : tcb_id_match a b = bool_decide (a = b).
Proof.
  apply eq_true_iff_eq. rewrite tcb_id_match_spec. symmetry. apply bool_decide_eq_true.
Qed.

Lemma fresh_tcb_id id : tcb_id (fresh_tcb id) = id.
Proof. now destruct id. Qed.
