(* ===== verification/Vector.v ===== *)
(** * Vectors of TCB pointers

    [refactor/network/tcp/vector.h] and [vector.c]: a growable array used as a
    bucket of the connection table.  A slot that was never written is
    indeterminate, [None]; reading one is undefined behaviour.  The array is an object of
    the heap, allocated, moved and freed with the blocks. *)
From S2P Require Import Prelude Memory Heap Tcb.

Definition DEF_CAP : Z := 16.

(** An array of the allocator and its slots. *)
Record Array := MkArray { a_addr : loc; a_slots : list (option loc) }.

(** [data] is null or points to an array of [capacity] slots; no other vector points there. *)
Record Vector := MkVector {
  v_data : option Array;
  v_capacity : Z;
  v_size : Z;
}.

(** ** Operations *)

Definition vec_init (vec : Vector) (h : heap TCB) : bool * Vector * heap TCB :=
  let '(data, h) := alloc_array h in
  match data with
  | None => (false, vec, h)
  | Some a => (true, MkVector (Some (MkArray a (replicate (Z.to_nat DEF_CAP) None))) DEF_CAP 0, h)
  end.

(** [realloc] of [data] to [n] slots; [n = 0] has no defined result. *)
Definition grow (data : option Array) (n : Z) (h : heap TCB) : option (option Array * heap TCB) :=
  if n =? 0 then None else
  '(p, h) ← (match data with Some a => realloc_array h (a_addr a) | None => Some (alloc_array h) end
             : option (ptr * heap TCB));
  let slots := match data with Some a => a_slots a | None => [] end in
  Some (match p with
        | Some a => Some (MkArray a (take (Z.to_nat n) (slots ++ replicate (Z.to_nat n) None)))
        | None => None
        end, h).

(** [data[i]] and [data[i] = x]. *)
Definition slot (vec : Vector) (i : Z) : option loc :=
  data ← v_data vec; s ← a_slots data !! Z.to_nat i; s.
Definition set_slot (data : option Array) (i : Z) (s : option loc) : option Array :=
  data ← data;
  if decide (Z.to_nat i < length (a_slots data))%nat
  then Some (MkArray (a_addr data) (<[Z.to_nat i := s]> (a_slots data))) else None.

Definition vec_push (vec : Vector) (tcb : loc) (h : heap TCB) : option (bool * Vector * heap TCB) :=
  '(ok, vec, h) ←
    (if v_size vec =? v_capacity vec then
       let cap_new := u32 (v_capacity vec * 2) in
       '(data, h) ← grow (v_data vec) cap_new h;
       match data with
       | None => Some (false, vec, h)
       | Some data => Some (true, MkVector (Some data) cap_new (v_size vec), h)
       end
     else Some (true, vec, h));
  if negb ok then Some (false, vec, h) else
  data ← set_slot (v_data vec) (v_size vec) (Some tcb);
  Some (true, MkVector (Some data) (v_capacity vec) (u32 (v_size vec + 1)), h).

(** The loop [for (i = ...; i < size; i++)], with [n] iterations left. *)
Fixpoint vec_find_loop (n : nat) (i : Z) (vec : Vector) (id : ID) (h : heap TCB) : option ptr :=
  match n with
  | O => Some None
  | S n =>
      p ← slot vec i;
      t ← deref h p;
      if tcb_id_match (tcb_id t) id then Some (Some p)
      else vec_find_loop n (i + 1) vec id h
  end.

Definition vec_find (vec : Vector) (id : ID) (h : heap TCB) : option ptr :=
  vec_find_loop (Z.to_nat (v_size vec)) 0 vec id h.

Definition vec_pop (vec : Vector) : option (ptr * Vector) :=
  if v_size vec =? 0 then Some (None, vec) else
  let size := v_size vec - 1 in
  p ← slot vec size;
  Some (Some p, MkVector (v_data vec) (v_capacity vec) size).

Fixpoint vec_delete_loop (n : nat) (i : Z) (vec : Vector) (tcb : loc) (h : heap TCB)
    : option (Vector * heap TCB) :=
  match n with
  | O => Some (vec, h)
  | S n =>
      p ← slot vec i;
      t ← deref h p;
      t' ← deref h tcb;
      if tcb_id_match (tcb_id t) (tcb_id t') then
        h ← free h p;
        last ← slot vec (v_size vec - 1);
        data ← set_slot (v_data vec) i (Some last);
        Some (MkVector (Some data) (v_capacity vec) (v_size vec - 1), h)
      else vec_delete_loop n (i + 1) vec tcb h
  end.

Definition vec_delete (vec : Vector) (tcb : loc) (h : heap TCB) : option (Vector * heap TCB) :=
  vec_delete_loop (Z.to_nat (v_size vec)) 0 vec tcb h.

Fixpoint vec_destroy_loop (n : nat) (i : Z) (vec : Vector) (h : heap TCB) : option (heap TCB) :=
  match n with
  | O => Some h
  | S n => p ← slot vec i; h ← free h p; vec_destroy_loop n (i + 1) vec h
  end.

Definition vec_destroy (vec : Vector) (h : heap TCB) : option (Vector * heap TCB) :=
  h ← vec_destroy_loop (Z.to_nat (v_size vec)) 0 vec h;
  h ← match v_data vec with Some a => free_array h (a_addr a) | None => Some h end;
  Some (MkVector None 0 0, h).

(** ** Abstraction: a vector represents the list of its first [size] slots *)

Record vec_rep (vec : Vector) (ps : list loc) : Prop := {
  vr_size : v_size vec = Z.of_nat (length ps);
  vr_cap : 16 <= v_capacity vec < 4294967296;
  vr_data : exists data, v_data vec = Some data
    /\ Z.of_nat (length (a_slots data)) = v_capacity vec /\ take (length ps) (a_slots data) = Some <$> ps;
}.

(** The array a vector points to; it may move, to an address not in use, when the vector
    grows. *)
Definition array_of (vec : Vector) : option loc := a_addr <$> v_data vec.

Definition array_moves (h h' : heap TCB) (vec v : Vector) : Prop :=
  (array_of v = array_of vec /\ h_arrays h' = h_arrays h) \/
  (exists a b, array_of vec = Some a /\ array_of v = Some b /\ (arrays_wf h -> b ∉ h_arrays h) /\
     h_arrays h' = {[b]} ∪ h_arrays h ∖ {[a]}).

(** Deletion by swap with the last element. *)
Definition swap_remove (k : nat) (ps : list loc) : list loc :=
  match last ps with
  | Some q => take (length ps - 1) (<[k := q]> ps)
  | None => []
  end.

(** ** Lemmas *)

Lemma vec_rep_le vec ps : vec_rep vec ps -> Z.of_nat (length ps) <= v_capacity vec.
Proof.
  intros [_ _ (data & _ & Hl & Ht)]. apply (f_equal length) in Ht.
  rewrite length_take, length_fmap in Ht. lia.
Qed.

Lemma slot_rep vec ps i p :
  vec_rep vec ps -> ps !! i = Some p -> slot vec (Z.of_nat i) = Some p.
Proof.
  intros [_ _ (data & Hd & _ & Ht)] Hi. unfold slot. rewrite Hd. cbn [mbind option_bind].
  rewrite Nat2Z.id. assert (take (length ps) (a_slots data) !! i = Some (Some p)) as Hs
    by (rewrite Ht, list_lookup_fmap, Hi; done).
  apply lookup_lt_Some in Hi. rewrite lookup_take_lt in Hs by done. now rewrite Hs.
Qed.

Lemma vec_init_rep vec h :
  (exists h', vec_init vec h = (false, vec, h') /\ quiet h h' /\ (arrays_wf h -> arrays_wf h') /\
     h_arrays h' = h_arrays h /\ exists n, h_oom h n = true) \/
  (exists v a h', vec_init vec h = (true, v, h') /\ vec_rep v [] /\ quiet h h' /\ (arrays_wf h -> arrays_wf h') /\
     array_of v = Some a /\ h_arrays h' = {[a]} ∪ h_arrays h /\ (arrays_wf h -> a ∉ h_arrays h)).
Proof.
  unfold vec_init. destruct (alloc_array h) as [[a|] h'] eqn:E;
    destruct (alloc_array_spec h _ h' E) as (Hq & Hwf' & Ha); [right|left; by exists h'].
  do 3 eexists. split; [done|]. split; [|done]. split; cbn; [done|unfold DEF_CAP; lia|]. by eexists.
Qed.

Lemma vec_init_request vec h ok v h' :
  vec_init vec h = (ok, v, h') -> h_reqs h' = S (h_reqs h) /\ h_oom h (h_reqs h) = negb ok.
Proof. unfold vec_init, alloc_array. destruct (h_oom h _); by intros [= <- <- <-]. Qed.

(** A granted [grow] keeps the slots in use. *)
Lemma grow_rep vec ps h a :
  vec_rep vec ps -> Z.of_nat (length ps) < 2147483648 -> array_of vec = Some a -> a ∈ h_arrays h ->
  v_size vec = v_capacity vec ->
  exists o h', grow (v_data vec) (u32 (v_capacity vec * 2)) h = Some (o, h') /\ quiet h h' /\
    (arrays_wf h -> arrays_wf h') /\
  match o with
  | None => h_arrays h' = h_arrays h /\ exists n, h_oom h n = true
  | Some d => h_arrays h' = {[a_addr d]} ∪ h_arrays h ∖ {[a]} /\ (arrays_wf h -> a_addr d ∉ h_arrays h) /\
      Z.of_nat (length (a_slots d)) = u32 (v_capacity vec * 2) /\ take (length ps) (a_slots d) = Some <$> ps
  end.
Proof.
  intros Hr Hlt Ha Hin Hfull. pose proof (vec_rep_le _ _ Hr) as Hle.
  destruct Hr as [Hs Hc (data & Hd & Hl & Ht)]. unfold array_of in Ha. rewrite Hd in Ha. injection Ha as Ha.
  unfold grow, u32. rewrite Z.mod_small by lia. destruct (_ =? 0) eqn:E0; [lia|]. rewrite Hd.
  destruct (realloc_array_spec h (a_addr data)) as (o & h' & -> & Hq & Hwf' & Ho); [by rewrite Ha|].
  cbn [mbind option_bind]. do 2 eexists. split; [done|].
  split; [done|]. split; [done|]. destruct o as [b|]; [|done]. cbn [a_addr a_slots]. rewrite <- Ha.
  destruct Ho. split; [done|]. split; [done|].
  rewrite length_take, length_app, length_replicate.
  split; [lia|]. rewrite take_take, Nat.min_l by lia. by rewrite take_app_le by lia.
Qed.

(** Writing the slot behind the ones in use. *)
Lemma set_slot_push data ps p cap :
  Z.of_nat (length (a_slots data)) = cap -> take (length ps) (a_slots data) = Some <$> ps ->
  Z.of_nat (length ps) < cap -> 16 <= cap < 4294967296 ->
  exists d, set_slot (Some data) (Z.of_nat (length ps)) (Some p) = Some d /\ a_addr d = a_addr data /\
    vec_rep (MkVector (Some d) cap (u32 (Z.of_nat (length ps) + 1))) (ps ++ [p]).
Proof.
  intros Hl Ht Hlt Hcap. unfold set_slot. cbn [mbind option_bind]. rewrite Nat2Z.id.
  destruct (decide _) as [|Hn]; [|lia]. eexists. split; [done|]. split; [done|].
  split; cbn [v_size v_capacity v_data]; [unfold u32; rewrite length_app, Z.mod_small by lia; cbn [length]; lia|lia|].
  eexists. split; [done|]. cbn [a_slots]. rewrite length_insert. split; [done|].
  rewrite length_app, fmap_app, Nat.add_1_r, (take_S_r _ _ (Some p)) by (apply list_lookup_insert_eq; lia).
  rewrite take_insert_ge by lia. by rewrite Ht.
Qed.

Lemma vec_push_rep vec ps p h a :
  vec_rep vec ps -> Z.of_nat (length ps) < 2147483648 -> array_of vec = Some a -> a ∈ h_arrays h ->
  (exists h', vec_push vec p h = Some (false, vec, h') /\ quiet h h' /\ (arrays_wf h -> arrays_wf h') /\
     h_arrays h' = h_arrays h /\ exists n, h_oom h n = true) \/
  (exists v h', vec_push vec p h = Some (true, v, h') /\ vec_rep v (ps ++ [p]) /\ quiet h h' /\
     (arrays_wf h -> arrays_wf h') /\ array_moves h h' vec v).
Proof.
  intros Hr Hlt Ha Hin. pose proof (vec_rep_le _ _ Hr) as Hle. pose proof (vr_size _ _ Hr) as Hs.
  unfold vec_push. destruct (v_size vec =? v_capacity vec) eqn:E.
  - destruct (grow_rep vec ps h a Hr Hlt Ha Hin ltac:(lia)) as (o & h' & -> & Hq & Hwf' & Ho).
    cbn [mbind option_bind]. pose proof (vr_cap _ _ Hr).
    destruct o as [d|]; [right|left; exists h'; cbn [mbind option_bind negb]; done].
    destruct Ho as (Hb & Harr & Hl & Ht). cbn [mbind option_bind negb v_data v_size v_capacity]. rewrite Hs.
    rewrite (u32_id (v_capacity vec * 2)) in * by lia.
    destruct (set_slot_push d ps p (v_capacity vec * 2) Hl Ht) as (d' & -> & Hd & Hrep); [lia|lia|].
    cbn [mbind option_bind]. do 2 eexists. split; [done|]. split; [done|]. split; [done|]. split; [done|].
    right. exists a, (a_addr d). split; [done|]. split; [|done]. unfold array_of. cbn. by rewrite Hd.
  - right. cbn [mbind option_bind negb]. destruct Hr as [_ Hc (data & Hd & Hl & Ht)]. rewrite Hd, Hs.
    destruct (set_slot_push data ps p (v_capacity vec) Hl Ht) as (d' & -> & Hd' & Hrep); [lia|lia|].
    cbn [mbind option_bind]. do 2 eexists. split; [done|]. split; [done|]. split; [apply quiet_refl|]. split; [done|].
    left. split; [|done]. unfold array_of. rewrite Hd. cbn. by rewrite Hd'.
Qed.

Section live.
Context (h : heap TCB).

(** Every pointer of the bucket is live. *)
Definition live (ps : list loc) : Prop := Forall (fun p => is_Some (h_cells h !! p)) ps.

(** The id of a live TCB. *)
Definition id_at (p : loc) : option ID := tcb_id <$> h_cells h !! p.

Lemma vec_find_loop_rep vec ps id n i :
  vec_rep vec ps -> live ps -> (i + n)%nat = length ps ->
  exists r, vec_find_loop n (Z.of_nat i) vec id h = Some r /\
    match r with
    | Some p => p ∈ drop i ps /\ id_at p = Some id
    | None => forall p, p ∈ drop i ps -> id_at p <> Some id
    end.
Proof.
  intros Hr Hl. revert i. induction n as [|n IH]; intros i Hi; cbn [vec_find_loop].
  - exists None. split; [done|]. intros p Hp. rewrite drop_ge in Hp by lia. set_solver.
  - destruct (lookup_lt_is_Some_2 ps i ltac:(lia)) as [p Hp].
    destruct (proj1 (Forall_lookup _ _) Hl i p Hp) as [t Ht].
    rewrite (slot_rep _ _ _ _ Hr Hp). cbn [mbind option_bind]. unfold deref. rewrite Ht.
    cbn [mbind option_bind]. rewrite tcb_id_match_decide. rewrite (drop_S _ _ _ Hp).
    case_bool_decide as Hid.
    + exists (Some p). split; [done|]. split; [constructor|]. unfold id_at. rewrite Ht. cbn. congruence.
    + replace (Z.of_nat i + 1) with (Z.of_nat (S i)) by lia.
      destruct (IH (S i) ltac:(lia)) as (r & -> & Hr'). exists r. split; [done|].
      destruct r as [q|]; [destruct Hr'; split; [now constructor|done]|]. intros q [-> |Hq]%elem_of_cons; [|auto].
      unfold id_at. rewrite Ht. cbn. congruence.
Qed.

Lemma vec_find_rep vec ps id :
  vec_rep vec ps -> live ps ->
  exists r, vec_find vec id h = Some r /\
    match r with
    | Some p => p ∈ ps /\ id_at p = Some id
    | None => forall p, p ∈ ps -> id_at p <> Some id
    end.
Proof.
  intros Hr Hl. unfold vec_find. rewrite (vr_size _ _ Hr), Nat2Z.id.
  apply (vec_find_loop_rep vec ps id (length ps) 0 Hr Hl). done.
Qed.

(** [vec_delete] frees the first slot whose id is the argument's and moves the last
    slot there. *)
Lemma vec_delete_loop_rep vec ps tcb t n i k p :
  vec_rep vec ps -> live ps -> h_cells h !! tcb = Some t -> (i + n)%nat = length ps ->
  ps !! k = Some p -> (i <= k)%nat -> id_at p = Some (tcb_id t) ->
  (forall j q, (i <= j < k)%nat -> ps !! j = Some q -> id_at q <> Some (tcb_id t)) ->
  exists v h', vec_delete_loop n (Z.of_nat i) vec tcb h = Some (v, h') /\ free h p = Some h'
    /\ vec_rep v (swap_remove k ps) /\ array_of v = array_of vec.
Proof.
  intros Hr Hl Ht. revert i. induction n as [|n IH]; intros i Hi Hk Hik Hid Hfirst; cbn [vec_delete_loop].
  { apply lookup_lt_Some in Hk. lia. }
  destruct (lookup_lt_is_Some_2 ps i ltac:(lia)) as [q Hq].
  destruct (proj1 (Forall_lookup _ _) Hl i q Hq) as [tq Htq].
  rewrite (slot_rep _ _ _ _ Hr Hq). cbn [mbind option_bind]. unfold deref. rewrite Htq.
  cbn [mbind option_bind]. rewrite Ht. cbn [mbind option_bind].
  rewrite tcb_id_match_decide. case_bool_decide as Hm.
  - assert (i = k) as ->.
    { destruct (decide (i = k)); [done|]. exfalso. apply (Hfirst i q); [lia|done|].
      unfold id_at. rewrite Htq. cbn. congruence. }
    assert (p = q) as -> by congruence. unfold free at 1. rewrite Htq. cbn [mbind option_bind].
    assert (exists lp, ps !! (length ps - 1)%nat = Some lp) as [lp Hlp]
      by (apply lookup_lt_is_Some_2; lia).
    pose proof (vec_rep_le _ _ Hr) as Hle.
    pose proof (slot_rep _ _ _ _ Hr Hlp) as Hslot. destruct Hr as [Hs Hc (data & Hd & Hdl & Htk)].
    replace (v_size vec - 1) with (Z.of_nat (length ps - 1)) by lia.
    rewrite Hslot. cbn [mbind option_bind]. unfold set_slot. rewrite Hd. cbn [mbind option_bind].
    rewrite Nat2Z.id. destruct (decide _) as [|Hn]; [|lia]. cbn [mbind option_bind].
    do 2 eexists. split; [done|]. split; [unfold free; rewrite Htq; done|].
    split; [|unfold array_of; by rewrite Hd].
    unfold swap_remove. rewrite last_lookup, Nat.sub_1_r in *.
    replace (pred (length ps)) with (length ps - 1)%nat in * by lia. rewrite Hlp.
    split; cbn.
    + rewrite length_take, length_insert. lia.
    + lia.
    + eexists. split; [done|]. cbn [a_slots]. rewrite length_insert. split; [done|].
      rewrite length_take, length_insert, fmap_take, list_fmap_insert, <- Htk.
      rewrite Nat.min_l by lia. rewrite !take_insert, take_take, Nat.min_l by lia. done.
  - assert (i <> k) as Hne.
    { intros ->. assert (p = q) as -> by congruence. unfold id_at in Hid. rewrite Htq in Hid.
      cbn in Hid. congruence. }
    replace (Z.of_nat i + 1) with (Z.of_nat (S i)) by lia.
    apply (IH (S i)); try done; try lia. intros j r Hj. apply Hfirst. lia.
Qed.

(** With distinct ids the match is the argument itself. *)
Lemma vec_delete_rep vec ps tcb t k :
  vec_rep vec ps -> live ps -> NoDup (id_at <$> ps) -> h_cells h !! tcb = Some t ->
  ps !! k = Some tcb ->
  exists v h', vec_delete vec tcb h = Some (v, h') /\ free h tcb = Some h'
    /\ vec_rep v (swap_remove k ps) /\ array_of v = array_of vec.
Proof.
  intros Hr Hl Hnd Ht Hk. unfold vec_delete. rewrite (vr_size _ _ Hr), Nat2Z.id.
  assert (id_at tcb = Some (tcb_id t)) as Hid by (unfold id_at; now rewrite Ht).
  apply (vec_delete_loop_rep vec ps tcb t (length ps) 0 k tcb); try done; try lia.
  intros j q Hj Hq Heq. assert (j = k) as ->; [|lia].
  apply (NoDup_lookup (id_at <$> ps) j k (Some (tcb_id t)) Hnd);
    rewrite list_lookup_fmap; [rewrite Hq|rewrite Hk]; cbn; congruence.
Qed.

(** No match: nothing happens. *)
Lemma vec_delete_loop_none vec ps tcb t n i :
  vec_rep vec ps -> live ps -> h_cells h !! tcb = Some t -> (i + n)%nat = length ps ->
  (forall q, q ∈ drop i ps -> id_at q <> Some (tcb_id t)) ->
  vec_delete_loop n (Z.of_nat i) vec tcb h = Some (vec, h).
Proof.
  intros Hr Hl Ht. revert i. induction n as [|n IH]; intros i Hi Hno; cbn [vec_delete_loop]; [done|].
  destruct (lookup_lt_is_Some_2 ps i ltac:(lia)) as [q Hq].
  destruct (proj1 (Forall_lookup _ _) Hl i q Hq) as [tq Htq].
  rewrite (slot_rep _ _ _ _ Hr Hq). cbn [mbind option_bind]. unfold deref. rewrite Htq.
  cbn [mbind option_bind]. rewrite Ht. cbn [mbind option_bind]. rewrite (drop_S _ _ _ Hq) in Hno.
  rewrite tcb_id_match_decide. case_bool_decide as Hm.
  - exfalso. apply (Hno q); [set_solver|]. unfold id_at. rewrite Htq. cbn. congruence.
  - replace (Z.of_nat i + 1) with (Z.of_nat (S i)) by lia. apply IH; [lia|]. intros r Hr'.
    apply Hno. set_solver.
Qed.
End live.

Lemma vec_pop_rep vec ps p :
  vec_rep vec (ps ++ [p]) ->
  exists v, vec_pop vec = Some (Some p, v) /\ vec_rep v ps.
Proof.
  intros Hr. pose proof (vec_rep_le _ _ Hr) as Hle. unfold vec_pop.
  pose proof (slot_rep _ _ (length ps) p Hr (list_lookup_middle ps [] p _ eq_refl)) as Hslot.
  destruct Hr as [Hs Hc (data & Hd & Hl & Ht)]. rewrite length_app in *. cbn [length] in *.
  destruct (_ =? 0) eqn:E; [lia|]. replace (v_size vec - 1) with (Z.of_nat (length ps)) by lia.
  rewrite Hslot. cbn [mbind option_bind]. eexists. split; [done|].
  split; cbn; [done|done|]. exists data. split; [done|]. split; [done|].
  apply (f_equal (take (length ps))) in Ht.
  rewrite take_take, Nat.min_l, fmap_app, take_app_le in Ht by (rewrite ?length_fmap; lia).
  rewrite Ht. apply take_ge. rewrite length_fmap. done.
Qed.

(** Freeing a list of addresses. *)
Lemma vec_destroy_loop_rep vec ps n i h :
  vec_rep vec ps -> live h (drop i ps) -> NoDup ps -> (i + n)%nat = length ps ->
  exists h', vec_destroy_loop n (Z.of_nat i) vec h = Some h'
    /\ (forall q, h_cells h' !! q = if decide (q ∈ drop i ps) then None else h_cells h !! q)
    /\ (heap_wf h -> heap_wf h') /\ h_arrays h' = h_arrays h.
Proof.
  intros Hr. revert i h. induction n as [|n IH]; intros i h Hl Hnd Hi; cbn [vec_destroy_loop].
  - exists h. split; [done|]. split; [|done]. intros q. rewrite drop_ge by lia.
    destruct (decide _) as [Hin|]; [set_solver|done].
  - destruct (lookup_lt_is_Some_2 ps i ltac:(lia)) as [p Hp]. rewrite (drop_S _ _ _ Hp) in Hl.
    apply Forall_cons in Hl as [[t Ht] Hl].
    rewrite (slot_rep _ _ _ _ Hr Hp). cbn [mbind option_bind].
    assert (p ∉ drop (S i) ps) as Hnin.
    { intros (j & Hj)%list_elem_of_lookup. rewrite lookup_drop in Hj.
      pose proof (NoDup_lookup _ _ _ _ Hnd Hp Hj). lia. }
    assert (free h p = Some (Heap (delete p (h_cells h)) (h_reqs h) (h_oom h) (h_arrays h))) as Hfree
      by (unfold free; now rewrite Ht).
    rewrite Hfree. cbn [mbind option_bind]. replace (Z.of_nat i + 1) with (Z.of_nat (S i)) by lia.
    destruct (IH (S i) (Heap (delete p (h_cells h)) (h_reqs h) (h_oom h) (h_arrays h))) as (h' & -> & Hc & Hwf & Harr);
      [|done|lia|].
    + unfold live in *. eapply Forall_impl; [apply Forall_and; split; [exact Hl|]|].
      * apply Forall_forall. intros q Hq. exact Hq.
      * intros q [Hs Hq]. cbn. rewrite lookup_delete_ne; [done|]. intros ->. done.
    + exists h'. split; [done|]. split; [|split; [intros; apply Hwf; eapply free_wf; eauto|done]].
      intros q. rewrite Hc, (drop_S _ _ _ Hp). cbn [h_cells].
      destruct (decide (q = p)) as [->|Hne].
      * rewrite decide_False by done. rewrite decide_True by constructor. apply lookup_delete_eq.
      * rewrite lookup_delete_ne by done. apply decide_ext. rewrite elem_of_cons. naive_solver.
Qed.

(** ** Swap-and-pop *)

Lemma swap_remove_perm k ps p : ps !! k = Some p -> ps ≡ₚ p :: swap_remove k ps.
Proof.
  intros Hk. pose proof (lookup_lt_Some _ _ _ Hk) as Hlt. unfold swap_remove.
  destruct (last ps) as [q|] eqn:Hlast; [|by apply last_None in Hlast; subst].
  apply last_Some in Hlast as [l ->]. rewrite length_app in *. cbn [length] in *.
  replace (length l + 1 - 1)%nat with (length l) by lia.
  destruct (decide (k = length l)) as [->|].
  - rewrite take_insert_ge, take_app_length by lia.
    rewrite lookup_app_r, Nat.sub_diag in Hk by lia. injection Hk as ->.
    rewrite Permutation_app_comm. done.
  - rewrite lookup_app_l in Hk by lia. rewrite insert_app_l by lia.
    rewrite take_app_length' by (rewrite length_insert; lia).
    rewrite (insert_take_drop l k q) by lia.
    rewrite <- (take_drop_middle l k p Hk) at 1. rewrite <- app_assoc. cbn [app].
    rewrite <- !Permutation_middle. constructor.
    now rewrite app_nil_r.
Qed.

(** ** Properties *)

(** Pushing pointers one after another, until one push fails. *)
Fixpoint push_all (vec : Vector) (ps : list loc) (h : heap TCB) : option (bool * Vector * heap TCB) :=
  match ps with
  | [] => Some (true, vec, h)
  | p :: ps =>
      '(ok, vec, h) ← vec_push vec p h;
      if (ok : bool) then push_all vec ps h else Some (false, vec, h)
  end.

(** With everything granted; [others] are the arrays of other vectors. *)
Lemma push_all_rep ps qs v h a (others : gset loc) :
  vec_rep v qs -> Z.of_nat (length qs + length ps) <= 2147483648 -> (forall n, h_oom h n = false) ->
  array_of v = Some a -> h_arrays h = {[a]} ∪ others ->
  exists v' h', push_all v ps h = Some (true, v', h') /\ vec_rep v' (qs ++ ps) /\ h_cells h' = h_cells h /\
    (arrays_wf h -> a ∉ others -> exists b, array_of v' = Some b /\ h_arrays h' = {[b]} ∪ others).
Proof.
  revert qs v h a others. induction ps as [|p ps IH]; intros qs v h a others Hr Hlen Hoom Ha Harr; cbn [push_all].
  { rewrite app_nil_r. exists v, h. do 3 (split; [done|]). intros _ _. by exists a. }
  cbn [length] in Hlen. assert (a ∈ h_arrays h) as Hin by (rewrite Harr; set_solver +).
  destruct (vec_push_rep v qs p h a Hr ltac:(lia) Ha Hin)
    as [(h' & _ & _ & _ & _ & n & Hn)|(v' & h' & -> & Hr' & (Hc & Ho & _) & Hwf & Hmv)]; [by rewrite Hoom in Hn|].
  cbn [mbind option_bind].
  assert (exists b others', array_of v' = Some b /\ h_arrays h' = {[b]} ∪ others' /\
    (arrays_wf h -> a ∉ others -> b ∉ others' /\ others' = others)) as (b & others' & Hb & Harr' & Hoth).
  { destruct Hmv as [[Hs Hsa]|(x & b & Hx & Hb & Hfr & Hsa)].
    - exists a, others. split; [congruence|]. split; [congruence|]. done.
    - exists b, (h_arrays h ∖ {[x]}). split; [done|]. split; [done|]. intros Hh Hna.
      specialize (Hfr Hh). assert (x = a) as -> by congruence. rewrite Harr in *.
      split; [set_solver + Hfr|set_solver + Hna]. }
  destruct (IH (qs ++ [p]) v' h' b others' Hr') as (v2 & h2 & -> & Hr2 & Hc2 & Hown); try done;
    [rewrite length_app; cbn [length]; lia|by rewrite Ho|].
  rewrite <- app_assoc in Hr2. exists v2, h2. split; [done|]. split; [done|]. split; [congruence|].
  intros Hh Hna. destruct (Hoth Hh Hna) as [Hb' ->]. auto.
Qed.

(** C20 A vector keeps what is pushed, in order: from [vec_init], pushing any list of at most
    2^31 pointers is defined across every doubling of the array, and if every
    [realloc] is granted the vector represents exactly that list, and of all the arrays it
    had only the last is still allocated. *)
Theorem vec_push_all vec h v h0 ps :
  vec_init vec h = (true, v, h0) -> Z.of_nat (length ps) <= 2147483648 ->
  (forall n, h_oom h0 n = false) ->
  exists v' h', push_all v ps h0 = Some (true, v', h') /\ vec_rep v' ps /\ h_cells h' = h_cells h0 /\
    (arrays_wf h -> exists a, array_of v' = Some a /\ h_arrays h' = {[a]} ∪ h_arrays h).
Proof.
  intros Hinit Hlen Hoom.
  destruct (vec_init_rep vec h) as [(h1 & H & _)|(w & a & h1 & H & Hr & _ & Hwf & Ha & Harr & Hfresh)];
    rewrite Hinit in H; [discriminate H|injection H as <- <-]. clear Hinit.
  destruct (push_all_rep ps [] v h0 a (h_arrays h) Hr Hlen Hoom Ha Harr) as (v' & h' & H & Hr' & Hc & Hown).
  exists v', h'. split; [done|]. split; [done|]. split; [done|]. intros Hh. apply Hown; auto.
Qed.

Lemma vec_push_all_witness :
  exists v' h', push_all (MkVector (Some (MkArray 0 (replicate 16 None))) 16 0) (seq 0 40)
      (Heap ∅ 1 (fun _ => false) {[0%nat]}) = Some (true, v', h') /\ vec_rep v' (seq 0 40) /\ size (h_arrays h') = 1%nat.
Proof.
  destruct (vec_push_all (MkVector None 0 0) (Heap ∅ 0 (fun _ => false) ∅)
    (MkVector (Some (MkArray 0 (replicate 16 None))) 16 0) (Heap ∅ 1 (fun _ => false) {[0%nat]}) (seq 0 40))
    as (v' & h' & H & Hr & _ & Ha); [reflexivity|cbn; lia|done|].
  exists v', h'. split; [exact H|]. split; [exact Hr|]. destruct Ha as (a & _ & ->).
  - intros a Ha. apply elem_of_empty in Ha. destruct Ha.
  - cbn [h_arrays]. rewrite union_empty_r_L. apply size_singleton.
Defined.

(** Deletion from a vector: with every pointer live and ids distinct, [vec_delete] frees
    exactly the block passed, and the vector then represents the others (in an order
    that moves the last one). *)
Theorem vec_delete_removes h vec ps tcb t :
  vec_rep vec ps -> live h ps -> NoDup (id_at h <$> ps) -> h_cells h !! tcb = Some t ->
  tcb ∈ ps ->
  exists v h' ps', vec_delete vec tcb h = Some (v, h') /\ vec_rep v ps' /\
    ps ≡ₚ tcb :: ps' /\ h_cells h' = delete tcb (h_cells h).
Proof.
  intros Hr Hl Hnd Ht [k Hk]%list_elem_of_lookup.
  destruct (vec_delete_rep h vec ps tcb t k Hr Hl Hnd Ht Hk) as (v & h' & Hrun & Hf & Hr' & _).
  exists v, h', (swap_remove k ps). split; [done|]. split; [done|].
  split; [by apply swap_remove_perm|]. by apply free_spec in Hf as [? _].
Qed.

Lemma vec_delete_removes_witness :
  exists v h' ps', vec_delete (MkVector (Some (MkArray 9 ([Some 4; Some 5]%nat ++ replicate 14 None))) 16 2) 4%nat
      (Heap (<[4%nat := fresh_tcb (MkID 1 2 3 4)]> (<[5%nat := fresh_tcb (MkID 1 2 3 5)]> ∅)) 6
         (fun _ => false) ∅) = Some (v, h') /\ vec_rep v ps'.
Proof.
  destruct (vec_delete_removes
    (Heap (<[4%nat := fresh_tcb (MkID 1 2 3 4)]> (<[5%nat := fresh_tcb (MkID 1 2 3 5)]> ∅)) 6 (fun _ => false) ∅)
    (MkVector (Some (MkArray 9 ([Some 4; Some 5]%nat ++ replicate 14 None))) 16 2) [4; 5]%nat 4%nat
    (fresh_tcb (MkID 1 2 3 4))) as (v & h' & ps' & H & Hr & _).
  - split; cbn; [done|lia|]. eexists. split; [done|]. split; reflexivity.
  - repeat constructor; eexists; reflexivity.
  - by_eval.
  - reflexivity.
  - by_eval.
  - exists v, h', ps'. exact (conj H Hr).
Defined.
