(* ===== verification/Table.v ===== *)
(** * The contract of a connection table

    A table indexes live connection blocks by connection id.  [refactor] uses a
    chained hash table ([Hash.v]), the first version a linked list; both satisfy
    the contract below, and their clients are verified against it: a table whose
    live blocks are all indexed behaves as a finite map from ids to blocks. *)
From S2P Require Import Prelude Heap.

(** The operations a table offers: [T] is its state (heap included), [V] a block's
    contents and [K] an id.  [ct_vals] are the live blocks, [ct_inv s idx] the
    representation invariant, [idx] the indexed blocks, [ct_oom] the requests the
    allocator refuses. *)
Class ConTable (T V K : Type) := {
  ct_id : V -> K;
  ct_vals : T -> gmap loc V;
  ct_inv : T -> gset loc -> Prop;
  ct_alloc : T -> V -> ptr * T;
  ct_release : T -> loc -> option T;
  ct_assign : T -> loc -> V -> option T;
  ct_find : T -> K -> option ptr;
  ct_insert : T -> loc -> option (bool * T);
  ct_delete : T -> loc -> option T;
  ct_oom : T -> nat -> bool;
}.

(** A bound on the number of blocks under which insertion is defined. *)
Definition TABLE_MAX : Z := 2147483647.

(** The laws.  Lookups are exact; inserting a fresh id either fails and changes
    nothing or adds the block; deletion frees the block and removes it; creation and
    insertion fail only when the allocator refuses some request. *)
Class ConTableLaws (T V K : Type) `{ConTable T V K} : Prop := {
  ct_inv_live s idx p : ct_inv s idx -> p ∈ idx -> is_Some (ct_vals s !! p);
  ct_inv_inj s idx p q x y :
    ct_inv s idx -> p ∈ idx -> q ∈ idx -> ct_vals s !! p = Some x -> ct_vals s !! q = Some y ->
    ct_id x = ct_id y -> p = q;
  ct_alloc_law s idx x o s' :
    ct_inv s idx -> ct_alloc s x = (o, s') ->
    ct_inv s' idx /\ ct_oom s' = ct_oom s /\
    match o with
    | None => ct_vals s' = ct_vals s /\ exists n, ct_oom s n = true
    | Some p => ct_vals s !! p = None /\ ct_vals s' = <[p := x]> (ct_vals s)
    end;
  ct_release_law s idx p :
    ct_inv s idx -> is_Some (ct_vals s !! p) -> p ∉ idx ->
    exists s', ct_release s p = Some s' /\ ct_inv s' idx /\ ct_oom s' = ct_oom s /\
      ct_vals s' = delete p (ct_vals s);
  ct_assign_law s idx p x y :
    ct_inv s idx -> ct_vals s !! p = Some x -> ct_id y = ct_id x ->
    exists s', ct_assign s p y = Some s' /\ ct_inv s' idx /\ ct_oom s' = ct_oom s /\
      ct_vals s' = <[p := y]> (ct_vals s);
  ct_find_law s idx i :
    ct_inv s idx ->
    exists r, ct_find s i = Some r /\
      match r with
      | Some p => p ∈ idx /\ ct_id <$> ct_vals s !! p = Some i
      | None => forall p, p ∈ idx -> ct_id <$> ct_vals s !! p <> Some i
      end;
  ct_insert_law s idx p x :
    ct_inv s idx -> ct_vals s !! p = Some x -> p ∉ idx ->
    (forall q, q ∈ idx -> ct_id <$> ct_vals s !! q <> Some (ct_id x)) ->
    Z.of_nat (size idx) < TABLE_MAX ->
    exists b s', ct_insert s p = Some (b, s') /\
      ct_inv s' (if b then {[p]} ∪ idx else idx) /\
      (ct_vals s' = ct_vals s /\ ct_oom s' = ct_oom s) /\
      (b = false -> exists n, ct_oom s n = true);
  ct_delete_law s idx p :
    ct_inv s idx -> p ∈ idx ->
    exists s', ct_delete s p = Some s' /\
      ct_inv s' (idx ∖ {[p]}) /\ ct_vals s' = delete p (ct_vals s) /\ ct_oom s' = ct_oom s;
}.

(** ** The table as a finite map *)

Section map_view.
Context `{ConTableLaws T V K} `{Countable K}.
Implicit Types (s : T) (x : V) (k : K).

(** The connections of a table: its live blocks by id. *)
Definition conns s : gmap K V :=
  list_to_map ((fun pv => (ct_id pv.2, pv.2)) <$> map_to_list (ct_vals s)).

(** Every live block is indexed: nothing leaks. *)
Definition closed s : Prop := ct_inv s (dom (ct_vals s)).

Lemma conns_keys_nodup s :
  closed s -> NoDup ((fun pv => (ct_id pv.2, pv.2)) <$> map_to_list (ct_vals s)).*1.
Proof.
  intros Hc. rewrite <- list_fmap_compose. apply NoDup_fmap_2_strong; [|apply NoDup_map_to_list].
  intros [p x] [q y] Hp%elem_of_map_to_list Hq%elem_of_map_to_list Hid. cbn in Hid.
  assert (p = q) as ->; [|congruence].
  apply (ct_inv_inj s _ p q x y Hc); try done; apply elem_of_dom; eauto.
Qed.

Lemma conns_lookup s k x :
  closed s -> conns s !! k = Some x <-> exists p, ct_vals s !! p = Some x /\ ct_id x = k.
Proof.
  intros Hc. unfold conns. rewrite <- elem_of_list_to_map by now apply conns_keys_nodup.
  rewrite list_elem_of_fmap. split.
  - intros ([p y] & [= -> ->] & Hp%elem_of_map_to_list). eauto.
  - intros (p & Hp & <-). exists (p, x). split; [done|]. now apply elem_of_map_to_list.
Qed.

Lemma conns_lookup_None s k :
  closed s -> conns s !! k = None <-> forall p x, ct_vals s !! p = Some x -> ct_id x <> k.
Proof.
  intros Hc. split.
  - intros Hn p x Hp Hk. assert (conns s !! k = Some x) by (apply conns_lookup; eauto). congruence.
  - intros Hn. destruct (conns s !! k) as [x|] eqn:E; [|done].
    apply conns_lookup in E as (p & Hp & Hk); [|done]. by destruct (Hn p x Hp).
Qed.

Lemma conns_size s : closed s -> size (conns s) = size (ct_vals s).
Proof.
  intros Hc. unfold conns. rewrite map_size_list_to_map by now apply conns_keys_nodup.
  now rewrite length_fmap, length_map_to_list.
Qed.

(** A map that agrees with the live blocks is the map of connections. *)
Lemma conns_eq s (M : gmap K V) :
  closed s -> (forall k x, M !! k = Some x <-> exists p, ct_vals s !! p = Some x /\ ct_id x = k) ->
  conns s = M.
Proof.
  intros Hc HM. apply map_eq. intros k. apply option_eq. intros x.
  rewrite HM. now apply conns_lookup.
Qed.

Lemma find_conns s k :
  closed s ->
  exists r, ct_find s k = Some r /\
    match r with
    | Some p => exists x, ct_vals s !! p = Some x /\ ct_id x = k /\ conns s !! k = Some x
    | None => conns s !! k = None
    end.
Proof.
  intros Hc. destruct (ct_find_law s _ k Hc) as (r & Hr & Hres). exists r. split; [done|].
  destruct r as [p|].
  - destruct Hres as [Hp Hid]. apply fmap_Some in Hid as (x & Hx & ->). exists x.
    split; [done|]. split; [done|]. apply conns_lookup; eauto.
  - apply conns_lookup_None; [done|]. intros p x Hp Hk. apply (Hres p).
    + apply elem_of_dom. eauto.
    + rewrite Hp. cbn. congruence.
Qed.

Lemma assign_conns s p x y :
  closed s -> ct_vals s !! p = Some x -> ct_id y = ct_id x ->
  exists s', ct_assign s p y = Some s' /\ closed s' /\ ct_oom s' = ct_oom s /\
    ct_vals s' = <[p := y]> (ct_vals s) /\ conns s' = <[ct_id x := y]> (conns s).
Proof.
  intros Hc Hp Hid. destruct (ct_assign_law s _ p x y Hc Hp Hid) as (s' & Hs & Hinv & Hoom & Hv).
  assert (closed s') as Hc'.
  { unfold closed. rewrite Hv, dom_insert_lookup_L by eauto. done. }
  exists s'. split; [done|]. split; [done|]. split; [done|]. split; [done|].
  apply conns_eq; [done|]. intros k z. rewrite Hv. rewrite lookup_insert_Some, conns_lookup by done.
  split.
  - intros [[<- <-]|[Hne (q & Hq & Hk)]].
    + exists p. rewrite lookup_insert_eq. auto.
    + exists q. rewrite lookup_insert_ne; [auto|]. intros ->. congruence.
  - intros (q & Hq & Hk). apply lookup_insert_Some in Hq as [[<- <-]|[Hne Hq]].
    + left. split; congruence.
    + destruct (decide (ct_id x = k)) as [Heq|]; [|right; eauto].
      exfalso. apply Hne. apply (ct_inv_inj s _ p q x z Hc); try done; [| |congruence];
        apply elem_of_dom; eauto.
Qed.

Lemma delete_conns s p x :
  closed s -> ct_vals s !! p = Some x ->
  exists s', ct_delete s p = Some s' /\ closed s' /\ ct_oom s' = ct_oom s /\
    ct_vals s' = delete p (ct_vals s) /\ conns s' = delete (ct_id x) (conns s).
Proof.
  intros Hc Hp. destruct (ct_delete_law s _ p Hc) as (s' & Hs & Hinv & Hv & Hoom);
    [apply elem_of_dom; eauto|].
  assert (closed s') as Hc' by (unfold closed; rewrite Hv, dom_delete_L; done).
  exists s'. split; [done|]. split; [done|]. split; [done|]. split; [done|].
  apply conns_eq; [done|]. intros k z. rewrite Hv, lookup_delete_Some, conns_lookup by done.
  split.
  - intros [Hne (q & Hq & Hk)]. exists q. rewrite lookup_delete_ne; [auto|]. intros ->. congruence.
  - intros (q & Hq & Hk). apply lookup_delete_Some in Hq as [Hne Hq]. split; [|eauto].
    intros Heq. apply Hne. apply (ct_inv_inj s _ p q x z Hc); try done; [| |congruence];
      apply elem_of_dom; eauto.
Qed.

(** Adding one live block. *)
Lemma conns_add s s' p x :
  closed s -> closed s' -> conns s !! ct_id x = None -> ct_vals s !! p = None ->
  ct_vals s' = <[p := x]> (ct_vals s) -> conns s' = <[ct_id x := x]> (conns s).
Proof.
  intros Hc Hc' Hnone Hp Hv. apply conns_eq; [done|]. intros k z.
  rewrite Hv. rewrite lookup_insert_Some, conns_lookup by done. split.
  - intros [[<- <-]|[Hne (q & Hq & Hk)]]; [exists p; rewrite lookup_insert_eq; auto|].
    exists q. rewrite lookup_insert_ne; [auto|]. intros ->. congruence.
  - intros (q & Hq & Hk). apply lookup_insert_Some in Hq as [[<- <-]|[Hne Hq]]; [auto|].
    right. split; [|eauto]. intros Heq.
    apply (proj1 (conns_lookup_None s (ct_id x) Hc) Hnone q z Hq). congruence.
Qed.

Lemma conns_same s s' :
  closed s -> ct_inv s' (dom (ct_vals s)) -> ct_vals s' = ct_vals s ->
  closed s' /\ conns s' = conns s.
Proof. intros Hc Hi Hv. unfold closed, conns. rewrite Hv. done. Qed.

(** Creating a block and inserting it: allocation may fail, insertion may fail and the
    block is then released, or the connection is added. *)
Inductive created s x : Prop :=
  | created_none s' :
      ct_alloc s x = (None, s') -> closed s' -> ct_oom s' = ct_oom s ->
      conns s' = conns s -> (exists n, ct_oom s n = true) -> created s x
  | created_undone p s' s'' s''' :
      ct_alloc s x = (Some p, s') -> ct_insert s' p = Some (false, s'') ->
      ct_release s'' p = Some s''' -> closed s''' -> ct_oom s''' = ct_oom s ->
      conns s''' = conns s -> (exists n, ct_oom s n = true) -> created s x
  | created_added p s' s'' :
      ct_alloc s x = (Some p, s') -> ct_insert s' p = Some (true, s'') ->
      ct_vals s'' !! p = Some x -> closed s'' -> ct_oom s'' = ct_oom s ->
      conns s'' = <[ct_id x := x]> (conns s) -> created s x.

Lemma create_conns s x :
  closed s -> conns s !! ct_id x = None -> Z.of_nat (size (conns s)) < TABLE_MAX -> created s x.
Proof.
  intros Hc Hnone Hmax. destruct (ct_alloc s x) as [o s'] eqn:Ha.
  destruct (ct_alloc_law _ _ _ _ _ Hc Ha) as (Hinv & Hoom & Ho). destruct o as [p|].
  2:{ destruct Ho as [Hv Hn]. destruct (conns_same s s' Hc Hinv Hv). by eapply created_none. }
  destruct Ho as [Hp Hv].
  assert (ct_vals s' !! p = Some x) as Hpx by (rewrite Hv; apply lookup_insert_eq).
  destruct (ct_insert_law s' (dom (ct_vals s)) p x) as (b & s'' & Hi & Hinv' & [Hv' Hoom'] & Hf); try done.
  { now apply not_elem_of_dom. }
  { intros q Hq. apply elem_of_dom in Hq as [y Hy].
    rewrite Hv, lookup_insert_ne by (intros ->; congruence). rewrite Hy. cbn. intros [= Hid].
    by apply (proj1 (conns_lookup_None s (ct_id x) Hc) Hnone q y). }
  { now rewrite size_dom, <- conns_size. }
  destruct b.
  - assert (closed s'') as Hc'' by (unfold closed; now rewrite Hv', Hv, dom_insert_L).
    eapply created_added; eauto; [congruence|congruence|].
    apply (conns_add s s'' p x); try done. congruence.
  - destruct (ct_release_law s'' _ p Hinv') as (s''' & Hrel & Hinv'' & Hoom'' & Hv'').
    { rewrite Hv'. eauto. }
    { now apply not_elem_of_dom. }
    assert (ct_vals s''' = ct_vals s) as Heq
      by (rewrite Hv'', Hv', Hv; now apply delete_insert_id).
    destruct (conns_same s s''' Hc Hinv'' Heq). eapply created_undone; eauto; [congruence|].
    rewrite <- Hoom. auto.
Qed.
End map_view.

(** ** Sequences of operations

    A client that looks blocks up, writes them (creating a block for a new id) and
    deletes them, through the table's operations as the TCP handler calls them. *)

Inductive TableOp (V K : Type) := Get (k : K) | Put (x : V) | Del (k : K).
Arguments Get {V K} _.
Arguments Put {V K} _.
Arguments Del {V K} _.

Section sequences.
Context `{ConTable T V K}.

(** What an operation reports: the block found, whether the write took place, whether
    there was something to delete. *)
Inductive TableRes := Found (o : option V) | Done (b : bool).

Definition tbl_op (s : T) (op : TableOp V K) : option (TableRes * T) :=
  match op with
  | Get k =>
      o ← ct_find s k;
      match o with
      | None => Some (Found None, s)
      | Some p => x ← ct_vals s !! p; Some (Found (Some x), s)
      end
  | Put x =>
      o ← ct_find s (ct_id x);
      match o with
      | Some p => s ← ct_assign s p x; Some (Done true, s)
      | None =>
          let '(o, s) := ct_alloc s x in
          match o with
          | None => Some (Done false, s)
          | Some p =>
              '(ok, s) ← ct_insert s p;
              if (ok : bool) then Some (Done true, s)
              else s ← ct_release s p; Some (Done false, s)
          end
      end
  | Del k =>
      o ← ct_find s k;
      match o with
      | None => Some (Done false, s)
      | Some p => s ← ct_delete s p; Some (Done true, s)
      end
  end.

Fixpoint tbl_run (s : T) (ops : list (TableOp V K)) : option (list TableRes * T) :=
  match ops with
  | [] => Some ([], s)
  | op :: ops =>
      '(r, s) ← tbl_op s op;
      '(rs, s) ← tbl_run s ops;
      Some (r :: rs, s)
  end.

(** The same on a finite map. *)
Context `{Countable K}.

Definition map_op (M : gmap K V) (op : TableOp V K) : TableRes * gmap K V :=
  match op with
  | Get k => (Found (M !! k), M)
  | Put x => (Done true, <[ct_id x := x]> M)
  | Del k => (Done (bool_decide (is_Some (M !! k))), delete k M)
  end.

Fixpoint map_run (M : gmap K V) (ops : list (TableOp V K)) : list TableRes * gmap K V :=
  match ops with
  | [] => ([], M)
  | op :: ops =>
      let '(r, M) := map_op M op in
      let '(rs, M) := map_run M ops in (r :: rs, M)
  end.

Context `{!ConTableLaws T V K}.

Lemma tbl_op_refines s op :
  closed s -> Z.of_nat (size (conns s)) < TABLE_MAX -> (forall n, ct_oom s n = false) ->
  exists r s', tbl_op s op = Some (r, s') /\ closed s' /\ ct_oom s' = ct_oom s /\
    map_op (conns s) op = (r, conns s').
Proof.
  intros Hc Hmax Hoom. destruct op as [k|x|k]; cbn [tbl_op map_op].
  - destruct (find_conns s k Hc) as ([p|] & -> & Hr); cbn [mbind option_bind].
    + destruct Hr as (x & Hp & _ & ->). rewrite Hp. cbn [mbind option_bind]. eauto 6.
    + rewrite Hr. eauto 6.
  - destruct (find_conns s (ct_id x) Hc) as ([p|] & -> & Hr); cbn [mbind option_bind].
    + destruct Hr as (y & Hp & Hid & Hl).
      destruct (assign_conns s p y x Hc Hp (eq_sym Hid)) as (s' & -> & Hc' & Ho & _ & Hs').
      cbn [mbind option_bind]. exists (Done true), s'. split_and!; try done. congruence.
    + destruct (create_conns s x Hc Hr Hmax) as
        [s' _ _ _ _ [n Hn]|p s1 s2 s' _ _ _ _ _ _ [n Hn]|p s1 s' Ha Hi _ Hc' Ho Hs'];
        [by rewrite Hoom in Hn|by rewrite Hoom in Hn|].
      rewrite Ha. cbn [mbind option_bind]. rewrite Hi. cbn [mbind option_bind].
      exists (Done true), s'. split_and!; try done. congruence.
  - destruct (find_conns s k Hc) as ([p|] & -> & Hr); cbn [mbind option_bind].
    + destruct Hr as (x & Hp & Hid & Hl).
      destruct (delete_conns s p x Hc Hp) as (s' & -> & Hc' & Ho & _ & Hs').
      cbn [mbind option_bind]. exists (Done true), s'. split_and!; try done.
      rewrite Hs', Hid, bool_decide_true by eauto. done.
    + exists (Done false), s. split_and!; try done.
      rewrite bool_decide_false, (delete_id _ _ Hr) by (rewrite Hr; intros [? ?]; done). done.
Qed.

Lemma map_op_size M op r M' : map_op M op = (r, M') -> (size M' <= S (size M))%nat.
Proof.
  destruct op as [k|x|k]; cbn [map_op]; intros [= _ <-]; [lia| |].
  - rewrite map_size_insert. destruct (M !! _); unfold id; lia.
  - rewrite map_size_delete. destruct (M !! _); unfold id; lia.
Qed.

(** Any table that satisfies the laws behaves as a finite map. *)
Lemma tbl_run_refines s ops :
  closed s -> Z.of_nat (size (conns s) + length ops) <= TABLE_MAX ->
  (forall n, ct_oom s n = false) ->
  exists rs s', tbl_run s ops = Some (rs, s') /\ closed s' /\ map_run (conns s) ops = (rs, conns s').
Proof.
  revert s. induction ops as [|op ops IH]; intros s Hc Hmax Hoom; cbn [tbl_run map_run].
  { eauto. }
  cbn [length] in Hmax.
  destruct (tbl_op_refines s op Hc ltac:(lia) Hoom) as (r & s1 & -> & Hc1 & Ho & Hm).
  cbn [mbind option_bind]. rewrite Hm. pose proof (map_op_size _ _ _ _ Hm).
  destruct (IH s1 Hc1 ltac:(lia)) as (rs & s' & -> & Hc' & ->); [by rewrite Ho|].
  cbn [mbind option_bind]. eauto.
Qed.
End sequences.
Arguments TableRes : clear implicits.
