(* ===== verification/Hash.v ===== *)
(** * The connection hash table

    [refactor/network/tcp/hash.h] and [hash.c]: the global table of 256 buckets,
    each a vector of TCB pointers, created on the first insertion; an insertion that
    finds the creation of the buckets failed tries it again.  The record of the table also
    carries the heap and the state of the random generator. *)
From S2P Require Import Prelude Memory Heap Tcb Vector Table.

Definition HT_SIZE : Z := 256.

(** The globals [g_con_table] and [g_tbl_init], the heap the table points to, and the state
    of the library's random generator. *)
Record Store := MkStore {
  st_heap : heap TCB;
  st_buckets : list Vector;
  st_size : Z;
  st_init : bool;
  st_rand : Rand;
}.

(** ** Operations *)

Definition hash_id (id : ID) : Z :=
  let hash := Z.lxor (src_ip id) (dst_ip id) in
  let hash := Z.lxor hash (Z.lor (u32 (Z.shiftl (src_port id) 16)) (dst_port id)) in
  let hash := u32 (hash + u32 (Z.shiftl hash 10)) in
  let hash := Z.lxor hash (Z.shiftr hash 6) in
  let hash := u32 (hash + u32 (Z.shiftl hash 3)) in
  let hash := Z.lxor hash (Z.shiftr hash 11) in
  let hash := u32 (hash + u32 (Z.shiftl hash 15)) in
  hash mod HT_SIZE.

(** [g_con_table.buckets[i]] and its replacement after a call on it. *)
Definition bucket (st : Store) (i : Z) : option Vector := st_buckets st !! Z.to_nat i.
Definition set_bucket (st : Store) (i : Z) (v : Vector) (h : heap TCB) : Store :=
  MkStore h (<[Z.to_nat i := v]> (st_buckets st)) (st_size st) (st_init st) (st_rand st).

Fixpoint hash_init_loop (n : nat) (i : Z) (st : Store) : option (bool * Store) :=
  match n with
  | O => Some (true, st)
  | S n =>
      v ← bucket st i;
      let '(ok, v, h) := vec_init v (st_heap st) in
      let st := set_bucket st i v h in
      if negb ok then Some (false, st) else hash_init_loop n (i + 1) st
  end.

Definition hash_init (st : Store) : option (bool * Store) :=
  '(ok, st) ← hash_init_loop (Z.to_nat HT_SIZE) 0 st;
  if negb ok then Some (false, st)
  else Some (true, MkStore (st_heap st) (st_buckets st) 0 true (st_rand st)).

Definition hash_find (st : Store) (id : ID) : option ptr :=
  if negb (st_init st) then Some None else
  let idx := hash_id id in
  cons ← bucket st idx;
  vec_find cons id (st_heap st).

Definition hash_insert (st : Store) (tcb : loc) : option (bool * Store) :=
  '(ok, st) ← (if negb (st_init st) then hash_init st else Some (true, st));
  if negb ok then Some (false, st) else
  t ← deref (st_heap st) tcb;
  let idx := hash_id (tcb_id t) in
  cons ← bucket st idx;
  '(ok, cons, h) ← vec_push cons tcb (st_heap st);
  let st := set_bucket st idx cons h in
  if negb ok then Some (false, st)
  else Some (true, MkStore (st_heap st) (st_buckets st) (u64 (st_size st + 1)) (st_init st) (st_rand st)).

Definition hash_delete (st : Store) (tcb : loc) : option Store :=
  if negb (st_init st) then Some st else
  t ← deref (st_heap st) tcb;
  let idx := hash_id (tcb_id t) in
  cons ← bucket st idx;
  '(cons, h) ← vec_delete cons tcb (st_heap st);
  let st := set_bucket st idx cons h in
  Some (MkStore (st_heap st) (st_buckets st) (u64 (st_size st - 1)) (st_init st) (st_rand st)).

Fixpoint hash_destroy_loop (n : nat) (i : Z) (st : Store) : option Store :=
  match n with
  | O => Some st
  | S n =>
      v ← bucket st i;
      '(v, h) ← vec_destroy v (st_heap st);
      hash_destroy_loop n (i + 1) (set_bucket st i v h)
  end.

Definition hash_destroy (st : Store) : option Store :=
  if negb (st_init st) then Some st else
  st ← hash_destroy_loop (Z.to_nat HT_SIZE) 0 st;
  Some (MkStore (st_heap st) (st_buckets st) 0 false (st_rand st)).

(** The program starts with zeroed globals and no TCB. *)
Definition st_start (oom : nat -> bool) (rnd : Rand) : Store :=
  MkStore (Heap ∅ 0 oom ∅) (replicate (Z.to_nat HT_SIZE) (MkVector None 0 0)) 0 false rnd.

(** ** Representation invariant *)

(** The buckets represent the lists [L]; a block sits in the bucket of its hash, ids
    are distinct, and [size] counts the blocks. *)
Record table_ok (st : Store) (L : list (list loc)) : Prop := {
  tk_init : st_init st = true;
  tk_len : length L = Z.to_nat HT_SIZE;
  tk_rep : Forall2 vec_rep (st_buckets st) L;
  tk_hash : forall i ps p, L !! i = Some ps -> p ∈ ps ->
    exists t, h_cells (st_heap st) !! p = Some t /\ hash_id (tcb_id t) = Z.of_nat i;
  tk_ids : forall i ps, L !! i = Some ps -> NoDup (id_at (st_heap st) <$> ps);
  tk_size : st_size st = u64 (Z.of_nat (length (concat L)));
  tk_arrays : forall i v a, st_buckets st !! i = Some v -> array_of v = Some a -> a ∈ h_arrays (st_heap st);
  tk_apart : forall i j v w a, st_buckets st !! i = Some v -> st_buckets st !! j = Some w ->
    array_of v = Some a -> array_of w = Some a -> i = j;
}.

Definition table_inv (st : Store) (idx : gset loc) : Prop :=
  arrays_wf (st_heap st) /\
  ((st_init st = false /\ length (st_buckets st) = Z.to_nat HT_SIZE /\ idx = ∅) \/
   (exists L, table_ok st L /\ idx = list_to_set (concat L))).

(** The arrays the buckets point to, and those that nothing points to any more. *)
Definition owned (st : Store) : gset loc := list_to_set (omap array_of (st_buckets st)).
Definition lost (st : Store) : gset loc := h_arrays (st_heap st) ∖ owned st.

(** ** Lemmas *)

Lemma hash_id_range id : 0 <= hash_id id < 256.
Proof. unfold hash_id, HT_SIZE. apply Z.mod_pos_bound. lia. Qed.

Lemma st_start_inv oom rnd : table_inv (st_start oom rnd) ∅.
Proof. split; [intros a Ha; by apply elem_of_empty in Ha|]. left. cbn. rewrite length_replicate. done. Qed.

(** The bucket of an id in a good table. *)
Lemma table_bucket st L id :
  table_ok st L ->
  exists v ps, bucket st (hash_id id) = Some v /\ L !! Z.to_nat (hash_id id) = Some ps
    /\ vec_rep v ps.
Proof.
  intros [_ Hlen Hrep _ _ _ _ _]. pose proof (hash_id_range id). unfold HT_SIZE in Hlen.
  destruct (lookup_lt_is_Some_2 L (Z.to_nat (hash_id id)) ltac:(lia)) as [ps Hps].
  destruct (Forall2_lookup_r _ _ _ _ _ Hrep Hps) as (v & Hv & Hr). eauto.
Qed.

Lemma elem_of_concat (L : list (list loc)) p :
  p ∈ concat L <-> exists i ps, L !! i = Some ps /\ p ∈ ps.
Proof.
  rewrite list_elem_of_In, in_concat. split.
  - intros (ps & Hps & Hp). apply list_elem_of_In in Hps, Hp.
    apply list_elem_of_lookup in Hps as [i Hi]. eauto.
  - intros (i & ps & Hi & Hp). exists ps. rewrite <- !list_elem_of_In. split; [|done].
    eapply list_elem_of_lookup_2; eauto.
Qed.

Lemma table_live st L i ps : table_ok st L -> L !! i = Some ps -> live (st_heap st) ps.
Proof.
  intros [_ _ _ Hh _ _ _ _] Hi. apply Forall_forall. intros p Hp.
  destruct (Hh i ps p Hi Hp) as (t & -> & _). eauto.
Qed.

(** A block with a given id can only be in the bucket of that id. *)
Lemma table_in_bucket st L id p ps :
  table_ok st L -> p ∈ concat L -> id_at (st_heap st) p = Some id ->
  L !! Z.to_nat (hash_id id) = Some ps -> p ∈ ps.
Proof.
  intros Ht (i & ps' & Hi & Hp)%elem_of_concat Hid Hps.
  destruct (tk_hash _ _ Ht i ps' p Hi Hp) as (t & Hc & Hh).
  unfold id_at in Hid. rewrite Hc in Hid. injection Hid as <-.
  rewrite Hh, Nat2Z.id in Hps. congruence.
Qed.

Lemma hash_find_law st idx id :
  table_inv st idx ->
  exists r, hash_find st id = Some r /\
    match r with
    | Some p => p ∈ idx /\ id_at (st_heap st) p = Some id
    | None => forall p, p ∈ idx -> id_at (st_heap st) p <> Some id
    end.
Proof.
  unfold hash_find. intros [_ [(Hi & _ & ->)|(L & Ht & ->)]].
  - rewrite Hi. exists None. split; [done|]. set_solver.
  - rewrite (tk_init _ _ Ht). cbn [negb].
    destruct (table_bucket st L id Ht) as (v & ps & -> & Hps & Hr). cbn [mbind option_bind].
    destruct (vec_find_rep (st_heap st) v ps id Hr (table_live _ _ _ _ Ht Hps)) as (r & -> & Hres).
    exists r. split; [done|]. destruct r as [p|].
    + destruct Hres as [Hp Hid]. split; [|done]. apply elem_of_list_to_set, elem_of_concat. eauto.
    + intros p Hp%elem_of_list_to_set Hid. eapply Hres; [|done]. eapply table_in_bucket; eauto.
Qed.

Lemma length_concat_insert (L : list (list loc)) i ps ps' :
  L !! i = Some ps ->
  (length (concat (<[i := ps']> L)) + length ps = length (concat L) + length ps')%nat.
Proof.
  intros Hi. pose proof (lookup_lt_Some _ _ _ Hi).
  rewrite insert_take_drop by done. rewrite <- (take_drop_middle L i ps Hi) at 3.
  rewrite !concat_app. cbn [concat]. rewrite !length_app. lia.
Qed.

(** The arrays when one bucket is replaced: they stay apart and allocated, and none is
    lost. *)
Definition arrays_ok (bs : list Vector) (h : heap TCB) : Prop :=
  (forall i v a, bs !! i = Some v -> array_of v = Some a -> a ∈ h_arrays h) /\
  (forall i j v w a, bs !! i = Some v -> bs !! j = Some w ->
    array_of v = Some a -> array_of w = Some a -> i = j).

Lemma elem_of_owned st a : a ∈ owned st <-> exists i v, st_buckets st !! i = Some v /\ array_of v = Some a.
Proof.
  unfold owned. rewrite elem_of_list_to_set, list_elem_of_omap. split.
  - intros (v & (i & Hi)%list_elem_of_lookup & Ha). eauto.
  - intros (i & v & Hi & Ha). exists v. split; [by eapply list_elem_of_lookup_2|done].
Qed.

Section replace.
Context (bs : list Vector) (i : nat) (w v : Vector) (h h' : heap TCB).
Hypothesis (Hi : bs !! i = Some w) (Hmv : array_moves h h' w v) (Hwf : arrays_wf h) (Hok : arrays_ok bs h).

Lemma replaced j x : <[i := v]> bs !! j = Some x -> (j = i /\ x = v) \/ (j <> i /\ bs !! j = Some x).
Proof.
  destruct (decide (j = i)) as [->|Hne].
  - rewrite list_lookup_insert_eq by (by eapply lookup_lt_Some). intros [= <-]. auto.
  - rewrite list_lookup_insert_ne by done. auto.
Qed.

(** An array of another bucket is not the one that moves, nor where it moves to. *)
Lemma other_array j x a :
  j <> i -> bs !! j = Some x -> array_of x = Some a -> array_of v <> Some a /\ a ∈ h_arrays h'.
Proof.
  intros Hne Hj Ha. pose proof (proj1 Hok j x a Hj Ha) as Hin.
  assert (array_of w <> Some a) as Hw by (intros Hw; apply Hne; by apply (proj2 Hok j i x w a)).
  destruct Hmv as [[-> ->]|(b & c & Hb & Hc & Hfr & ->)]; [done|]. split.
  - rewrite Hc. intros [= ->]. by apply Hfr.
  - apply elem_of_union. right. apply elem_of_difference. split; [done|]. intros ->%elem_of_singleton. done.
Qed.

Lemma arrays_ok_replace : arrays_ok (<[i := v]> bs) h'.
Proof.
  assert (forall a, array_of v = Some a -> a ∈ h_arrays h') as Hv.
  { intros a Ha. destruct Hmv as [[He ->]|(b & c & Hb & Hc & Hfr & ->)]; [apply (proj1 Hok i w); congruence|].
    apply elem_of_union. left. apply elem_of_singleton. congruence. }
  split.
  - intros j x a [[-> ->]|[Hne Hj]]%replaced Ha; [auto|]. by apply (other_array j x a).
  - intros j k x y a [[-> ->]|[Hne Hj]]%replaced [[-> ->]|[Hne' Hk]]%replaced Hx Hy; [done| | |].
    + by destruct (other_array k y a Hne' Hk Hy).
    + by destruct (other_array j x a Hne Hj Hx).
    + by apply (proj2 Hok j k x y a).
Qed.

Lemma lost_replace sz ini sz' ini' g g' :
  lost (MkStore h' (<[i := v]> bs) sz ini g) = lost (MkStore h bs sz' ini' g').
Proof.
  apply set_eq. intros a. unfold lost. rewrite !elem_of_difference, !elem_of_owned. cbn [st_heap st_buckets].
  assert (forall j x, j <> i -> bs !! j = Some x -> <[i := v]> bs !! j = Some x) as Hstay
    by (intros; by rewrite list_lookup_insert_ne).
  assert (<[i := v]> bs !! i = Some v) as Hat by (apply list_lookup_insert_eq; by eapply lookup_lt_Some).
  split; intros [Hin Hno].
  - assert (array_of w <> Some a /\ a ∈ h_arrays h) as [Hw Ha].
    { destruct Hmv as [[He Hs]|(b & c & Hb & Hc & Hfr & Hs)]; rewrite Hs in Hin.
      - split; [|done]. rewrite <- He. intros Hv. apply Hno. eauto.
      - apply elem_of_union in Hin as [->%elem_of_singleton|[Hin Hd]%elem_of_difference].
        + destruct Hno. eauto.
        + split; [|done]. rewrite Hb. intros [= ->]. by apply Hd, elem_of_singleton. }
    split; [done|]. intros (j & x & Hj & Hx). destruct (decide (j = i)) as [->|]; [congruence|]. apply Hno. eauto 6.
  - assert (array_of w <> Some a) as Hw by (intros Hw; apply Hno; eauto).
    destruct Hmv as [[He ->]|(b & c & Hb & Hc & Hfr & ->)].
    + split; [done|]. intros (j & x & [[-> ->]|[Hne Hj]]%replaced & Hx); [congruence|]. apply Hno. eauto.
    + split; [apply elem_of_union; right; apply elem_of_difference; split; [done|]; intros ->%elem_of_singleton; done|].
      intros (j & x & [[-> ->]|[Hne Hj]]%replaced & Hx); [|apply Hno; eauto].
      apply Hfr; [done|]. congruence.
Qed.
End replace.

(** Replacing one bucket. *)
Lemma table_update st L i ps ps' w v h sz :
  arrays_wf (st_heap st) -> st_buckets st !! i = Some w -> array_moves (st_heap st) h w v ->
  table_ok st L -> L !! i = Some ps -> vec_rep v ps' ->
  (forall q, q ∈ ps' -> exists t, h_cells h !! q = Some t /\ hash_id (tcb_id t) = Z.of_nat i) ->
  NoDup (id_at h <$> ps') ->
  (forall j qs q, j <> i -> L !! j = Some qs -> q ∈ qs ->
     h_cells h !! q = h_cells (st_heap st) !! q) ->
  sz = u64 (Z.of_nat (length (concat L) + length ps') - Z.of_nat (length ps)) ->
  table_ok (MkStore h (<[i := v]> (st_buckets st)) sz (st_init st) (st_rand st)) (<[i := ps']> L).
Proof.
  intros Hwf Hw Hmv [Hi Hlen Hrep Hh Hids Hsz Har Hap] Hps Hv Hlive Hnd Hsame ->.
  destruct (arrays_ok_replace _ _ _ _ _ _ Hw Hmv Hwf (conj Har Hap)) as [Har' Hap'].
  split; cbn [st_init st_heap st_buckets st_size st_rand]; try done.
  - now rewrite length_insert.
  - by apply Forall2_insert.
  - intros j qs q Hj Hq. destruct (decide (j = i)) as [->|Hne].
    + rewrite list_lookup_insert_eq in Hj by (eapply lookup_lt_Some; eauto).
      injection Hj as <-. auto.
    + rewrite list_lookup_insert_ne in Hj by done. rewrite (Hsame j qs q) by done. eauto.
  - intros j qs Hj. destruct (decide (j = i)) as [->|Hne].
    + rewrite list_lookup_insert_eq in Hj by (eapply lookup_lt_Some; eauto).
      injection Hj as <-. done.
    + rewrite list_lookup_insert_ne in Hj by done.
      erewrite list_fmap_ext; [eapply Hids; eauto|]. intros k q Hk. unfold id_at.
      rewrite (Hsame j qs q); try done. eapply list_elem_of_lookup_2; eauto.
  - f_equal. pose proof (length_concat_insert L i ps ps' Hps). lia.
Qed.

(** [vec_init] of a run of buckets: [ns] are the arrays allocated. *)
Definition empty_at (v : Vector) (a : loc) : Prop := vec_rep v [] /\ array_of v = Some a.

Lemma hash_init_loop_spec n i st :
  (i + n)%nat = length (st_buckets st) ->
  exists b st' vs ns, hash_init_loop n (Z.of_nat i) st = Some (b, st') /\
    st_buckets st' = take i (st_buckets st) ++ vs ++ drop (i + length vs) (st_buckets st) /\
    Forall2 empty_at vs ns /\ st_init st' = st_init st /\ quiet (st_heap st) (st_heap st') /\
    (arrays_wf (st_heap st) -> arrays_wf (st_heap st') /\ NoDup ns /\ forall a, a ∈ ns -> a ∉ h_arrays (st_heap st)) /\
    h_arrays (st_heap st') = list_to_set ns ∪ h_arrays (st_heap st) /\
    (forall k, (k < length ns)%nat -> h_oom (st_heap st) (h_reqs (st_heap st) + k) = false) /\
    if b then length ns = n
    else (length ns < n)%nat /\ h_oom (st_heap st) (h_reqs (st_heap st) + length ns) = true /\
      (h_reqs (st_heap st) + length ns < h_reqs (st_heap st'))%nat.
Proof.
  revert i st. induction n as [|n IH]; intros i st Hn; cbn [hash_init_loop].
  { exists true, st, [], []. split; [done|]. cbn [length app]. rewrite Nat.add_0_r, take_drop.
    do 3 (split; [done|]). split; [apply quiet_refl|]. split; [intros Hwf; split; [done|]; split; [apply NoDup_nil_2|set_solver +]|].
    split; [set_solver +|]. split; [|done]. cbn. lia. }
  destruct (lookup_lt_is_Some_2 (st_buckets st) i ltac:(lia)) as [v Hv].
  unfold bucket. rewrite Nat2Z.id, Hv. cbn [mbind option_bind].
  destruct (vec_init_rep v (st_heap st))
    as [(h' & E & Hq & Hwf & Harr & Hoom)|(v' & a & h' & E & Hr & Hq & Hwf & Ha & Harr & Hfr)]; rewrite E;
    destruct (vec_init_request _ _ _ _ _ E) as [Hreq Hor]; cbn [negb].
  - exists false, (set_bucket st (Z.of_nat i) v h'), [], []. split; [done|].
    unfold set_bucket. cbn [st_buckets st_heap st_init length app st_rand]. rewrite Nat2Z.id, Nat.add_0_r, take_drop, list_insert_id by done.
    do 3 (split; [done|]). split; [done|]. split; [intros Hh; split; [auto|]; split; [apply NoDup_nil_2|set_solver +]|].
    split; [rewrite Harr; set_solver +|]. split; [cbn; lia|]. split; [lia|]. rewrite Nat.add_0_r. split; [exact Hor|lia].
  - replace (Z.of_nat i + 1) with (Z.of_nat (S i)) by lia.
    destruct (IH (S i) (set_bucket st (Z.of_nat i) v' h'))
      as (b & st' & vs & ns & -> & Hb & Hvs & Hini & Hq2 & Hwf2 & Harr2 & Hno2 & Hend);
      unfold set_bucket in *; cbn [st_buckets st_heap st_init st_rand] in *; [rewrite length_insert; lia|].
    rewrite Nat2Z.id in *. exists b, st', (v' :: vs), (a :: ns). split; [done|]. cbn [length].
    split. { rewrite Hb. rewrite drop_insert_lt by lia. rewrite (take_S_r _ i v') by (apply list_lookup_insert_eq; lia).
      rewrite take_insert_ge by lia. rewrite <- app_assoc. cbn [app]. do 4 f_equal. lia. }
    split; [constructor; done|]. split; [done|]. split; [by eapply quiet_trans|].
    split. { intros Hh. destruct (Hwf2 (Hwf Hh)) as (H1 & H2 & H3). split; [done|].
      rewrite Harr in H3. split; [constructor; [|done]; intros Hin; apply (H3 a Hin); set_solver +|].
      intros x [->|Hx]%elem_of_cons; [auto|]. specialize (H3 x Hx). set_solver + H3. }
    split; [rewrite Harr2, Harr; cbn [list_to_set]; set_solver +|].
    destruct Hq as (_ & Ho & _). rewrite Hreq, Ho in *. split.
    + intros [|k] Hk; [rewrite Nat.add_0_r; exact Hor|]. replace (h_reqs (st_heap st) + S k)%nat with (S (h_reqs (st_heap st)) + k)%nat by lia.
      apply Hno2. lia.
    + replace (h_reqs (st_heap st) + S (length ns))%nat with (S (h_reqs (st_heap st)) + length ns)%nat by lia.
      destruct b; [lia|]. destruct Hend as (? & ? & ?). split; [lia|]. split; [done|lia].
Qed.

(** [hash_init] allocates an array per bucket; the arrays there were before it stay
    allocated, and no bucket points to one when it succeeds. *)
Lemma hash_init_spec st :
  st_init st = false -> length (st_buckets st) = Z.to_nat HT_SIZE ->
  exists b st' ns, hash_init st = Some (b, st') /\ quiet (st_heap st) (st_heap st') /\ st_init st' = b /\
    (arrays_wf (st_heap st) -> table_inv st' ∅ /\ NoDup ns /\ forall a, a ∈ ns -> a ∉ h_arrays (st_heap st)) /\
    h_arrays (st_heap st') = list_to_set ns ∪ h_arrays (st_heap st) /\
    length (st_buckets st') = Z.to_nat HT_SIZE /\
    (forall k, (k < length ns)%nat -> h_oom (st_heap st) (h_reqs (st_heap st) + k) = false) /\
    if b then length ns = Z.to_nat HT_SIZE /\ owned st' = list_to_set ns
    else (length ns < Z.to_nat HT_SIZE)%nat /\ h_oom (st_heap st) (h_reqs (st_heap st) + length ns) = true /\
      (h_reqs (st_heap st) + length ns < h_reqs (st_heap st'))%nat.
Proof.
  intros Hi Hlen. unfold hash_init.
  destruct (hash_init_loop_spec (Z.to_nat HT_SIZE) 0 st)
    as (b & st' & vs & ns & Hrun & Hb & Hvs & Hini & Hq & Hwf & Harr & Hno & Hend); [by rewrite Hlen|].
  change (Z.of_nat 0) with 0 in Hrun. rewrite Hrun. rewrite take_0 in Hb. cbn [mbind option_bind app] in *. rewrite Nat.add_0_l in Hb.
  pose proof (Forall2_length _ _ _ Hvs) as Hvl.
  assert (length (st_buckets st') = Z.to_nat HT_SIZE) as Hlb.
  { rewrite Hb, length_app, length_drop. destruct b; lia. }
  destruct b; cbn [negb].
  2:{ exists false, st', ns. split; [done|]. split; [done|]. split; [congruence|].
      split; [intros Hh; destruct (Hwf Hh) as (H1 & H2 & H3); split; [|done]; split; [done|]; left; split; [congruence|done]|].
      done. }
  rewrite drop_ge, app_nil_r in Hb by lia.
  exists true. eexists _, ns. split; [done|]. cbn [st_heap st_init st_buckets st_rand]. split; [done|]. split; [done|].
  assert (owned (MkStore (st_heap st') (st_buckets st') 0 true (st_rand st')) = list_to_set ns) as Hown.
  { unfold owned. cbn [st_buckets]. rewrite Hb. f_equal. clear - Hvs.
    induction Hvs as [|v a vs ns [_ Ha] _ IH]; [done|]. cbn. by rewrite Ha, <- IH. }
  split; [|done]. intros Hh. destruct (Hwf Hh) as (H1 & H2 & H3). split; [|done]. split; [done|]. right.
  exists (replicate (Z.to_nat HT_SIZE) []).
  assert (concat (replicate (Z.to_nat HT_SIZE) (@nil loc)) = []) as Hcc
    by (generalize (Z.to_nat HT_SIZE); induction n; cbn; done).
  rewrite Hcc. split; [|done]. split; cbn [st_init st_heap st_buckets st_size st_rand].
  - done.
  - by rewrite length_replicate.
  - rewrite Hb. apply Forall2_same_length_lookup_2; [rewrite length_replicate; lia|].
    intros j v ps Hj [-> _]%lookup_replicate. by destruct (Forall2_lookup_l _ _ _ _ _ Hvs Hj) as (a & _ & Hr & _).
  - intros j ps p [-> _]%lookup_replicate Hp. by apply elem_of_nil in Hp.
  - intros j ps [-> _]%lookup_replicate. apply NoDup_nil_2.
  - by rewrite Hcc.
  - intros j v a Hj Ha. rewrite Hb in Hj. destruct (Forall2_lookup_l _ _ _ _ _ Hvs Hj) as (c & Hc & _ & Hca).
    rewrite Harr. apply elem_of_union. left. apply elem_of_list_to_set. apply list_elem_of_lookup. exists j. congruence.
  - intros j k v w a Hj Hk Ha Hw. rewrite Hb in Hj, Hk.
    destruct (Forall2_lookup_l _ _ _ _ _ Hvs Hj) as (c & Hc & _ & Hca).
    destruct (Forall2_lookup_l _ _ _ _ _ Hvs Hk) as (d & Hd & _ & Hda).
    apply (NoDup_lookup ns j k a H2); congruence.
Qed.

(** A bucket of an initialised table points to an allocated array. *)
Lemma bucket_array st L i v ps :
  table_ok st L -> st_buckets st !! i = Some v -> vec_rep v ps ->
  exists a, array_of v = Some a /\ a ∈ h_arrays (st_heap st).
Proof.
  intros Ht Hv [_ _ (d & Hd & _)]. assert (array_of v = Some (a_addr d)) as Ha by (unfold array_of; by rewrite Hd).
  exists (a_addr d). split; [done|]. by apply (tk_arrays _ _ Ht i v).
Qed.

Lemma concat_push (L : list (list loc)) i ps p :
  L !! i = Some ps ->
  {[p]} ∪ list_to_set (concat L) = list_to_set (C := gset loc) (concat (<[i := ps ++ [p]]> L)).
Proof.
  intros Hps. apply set_eq. intros q. rewrite elem_of_union, elem_of_singleton, !elem_of_list_to_set, !elem_of_concat.
  pose proof (lookup_lt_Some _ _ _ Hps). split.
  - intros [-> |(j & qs & Hj & Hq)].
    + exists i, (ps ++ [p]). rewrite list_lookup_insert_eq by done. set_solver.
    + destruct (decide (j = i)) as [->|].
      * exists i, (ps ++ [p]). rewrite list_lookup_insert_eq by done. split; [done|].
        apply elem_of_app. left. congruence.
      * exists j, qs. rewrite list_lookup_insert_ne by done. done.
  - intros (j & qs & Hj & Hq). destruct (decide (j = i)) as [->|].
    + rewrite list_lookup_insert_eq in Hj by done. injection Hj as <-.
      apply elem_of_app in Hq as [Hq|Hq%list_elem_of_singleton]; [right|left]; eauto.
    + rewrite list_lookup_insert_ne in Hj by done. right. eauto.
Qed.

(** Insertion into an initialised table. *)
Lemma hash_insert_ready st L p t :
  arrays_wf (st_heap st) -> table_ok st L -> h_cells (st_heap st) !! p = Some t ->
  (forall q, q ∈ concat L -> id_at (st_heap st) q <> Some (tcb_id t)) ->
  Z.of_nat (length (concat L)) < 2147483648 ->
  exists b st', hash_insert st p = Some (b, st') /\
    table_inv st' (if b then {[p]} ∪ list_to_set (concat L) else list_to_set (concat L)) /\
    quiet (st_heap st) (st_heap st') /\
    (b = false -> exists n, h_oom (st_heap st) n = true) /\ lost st' = lost st /\ st_init st' = true.
Proof.
  intros Hwf Ht Hp Hfresh Hlt. unfold hash_insert. rewrite (tk_init _ _ Ht).
  cbn [negb mbind option_bind]. unfold deref. rewrite Hp. cbn [mbind option_bind].
  destruct (table_bucket st L (tcb_id t) Ht) as (v & ps & Hv & Hps & Hr). rewrite Hv. cbn [mbind option_bind].
  unfold bucket in Hv. set (i := Z.to_nat (hash_id (tcb_id t))) in *.
  pose proof (hash_id_range (tcb_id t)) as Hrange.
  assert (Z.of_nat (length ps) <= Z.of_nat (length (concat L))) as Hle.
  { pose proof (length_concat_insert L i ps [] Hps) as H. cbn in H. lia. }
  destruct (bucket_array st L i v ps Ht Hv Hr) as (a & Ha & Hin).
  destruct st as [h bs sz ini rnd]. cbn [st_heap st_buckets st_size st_init st_rand] in *. pose proof (tk_init _ _ Ht) as Hini. cbn in Hini. subst ini.
  pose proof (conj (tk_arrays _ _ Ht) (tk_apart _ _ Ht) : arrays_ok bs h) as Hok.
  destruct (vec_push_rep v ps p h a Hr ltac:(lia) Ha Hin)
    as [(h' & -> & Hqt & Hwf' & Harr & Hoom)|(v' & h' & -> & Hr' & Hqt & Hwf' & Hmv)]; cbn [mbind option_bind negb];
    pose proof (proj1 Hqt) as Hc; do 2 eexists; (split; [done|]); unfold set_bucket; fold i; cbn [st_heap st_buckets st_size st_init st_rand].
  - assert (array_moves h h' v v) as Hmv by (by left).
    split; [|split; [done|split; [done|split; [by eapply lost_replace|done]]]].
    split; [by apply Hwf'|]. right. exists L. split; [|done].
    rewrite <- (list_insert_id L i ps Hps). eapply (table_update (MkStore h bs sz true rnd)); eauto; cbn [st_heap]; rewrite ?Hc; try done.
    + intros q Hq. destruct (tk_hash _ _ Ht i ps q Hps Hq) as (t' & ? & ?). eauto.
    + unfold id_at. rewrite Hc. exact (tk_ids _ _ Ht i ps Hps).
    + rewrite (tk_size _ _ Ht : sz = _). f_equal. lia.
  - split; [|split; [done|split; [done|split; [by eapply lost_replace|done]]]].
    split; [by apply Hwf'|]. right. exists (<[i := ps ++ [p]]> L). split; [|by apply concat_push].
    eapply (table_update (MkStore h bs sz true rnd)); eauto; cbn [st_heap]; rewrite ?Hc; try done.
    + intros q [Hq| ->%list_elem_of_singleton]%elem_of_app.
      * destruct (tk_hash _ _ Ht i ps q Hps Hq) as (t' & ? & ?). eauto.
      * exists t. split; [done|]. subst i. lia.
    + unfold id_at. rewrite Hc. rewrite fmap_app. apply NoDup_app.
      split; [exact (tk_ids _ _ Ht i ps Hps)|]. split; [|cbn; apply NoDup_singleton].
      intros x (q & -> & Hq)%list_elem_of_fmap [Hx|Hx]%elem_of_cons; [|set_solver].
      rewrite Hp in Hx. apply (Hfresh q); [apply elem_of_concat; eauto|done].
    + rewrite (tk_size _ _ Ht : sz = _), length_app. cbn [length]. unfold u64.
      rewrite Zplus_mod_idemp_l. f_equal. lia.
Qed.

(** No pointer sits in two slots. *)
Lemma table_nodup (st : Store) L : table_ok st L -> NoDup (concat L).
Proof.
  intros Ht. apply NoDup_alt. intros j k p Hj Hk.
  assert (forall (M : list (list loc)) b, (forall i ps, M !! i = Some ps -> NoDup ps) ->
    (forall i i' ps ps' q, M !! i = Some ps -> M !! i' = Some ps' -> q ∈ ps -> q ∈ ps' -> i = i') ->
    b = concat M -> NoDup b) as Hgen.
  { induction M as [|ps M IH]; intros b Hnd Hdis ->; cbn [concat]; [apply NoDup_nil_2|].
    apply NoDup_app. split; [apply (Hnd 0%nat); done|]. split.
    - intros q Hq (i & ps' & Hi & Hq')%elem_of_concat.
      assert (0 = S i)%nat; [|done]. by apply (Hdis 0%nat (S i) ps ps' q).
    - apply (IH (concat M)); [|intros i i' qs qs' q Hi Hi' Hq Hq'|done].
      + intros i qs Hi. by apply (Hnd (S i)).
      + apply Nat.succ_inj. by apply (Hdis (S i) (S i') qs qs' q). }
  apply (NoDup_lookup (concat L) j k p); [|done|done]. apply (Hgen L); [| |done].
  - intros i ps Hi. eapply NoDup_fmap_1. eapply tk_ids; eauto.
  - intros i i' ps ps' q Hi Hi' Hq Hq'.
    destruct (tk_hash _ _ Ht i ps q Hi Hq) as (t & Ht1 & H1).
    destruct (tk_hash _ _ Ht i' ps' q Hi' Hq') as (t' & Ht1' & H1').
    assert (t = t') as -> by congruence. lia.
Qed.

Lemma length_concat_size (st : Store) L :
  table_ok st L -> size (list_to_set (C := gset loc) (concat L)) = length (concat L).
Proof. intros Ht. apply size_list_to_set. by eapply table_nodup. Qed.

(** When nothing is refused, no array is lost. *)
Lemma hash_insert_law st idx p t :
  table_inv st idx -> h_cells (st_heap st) !! p = Some t -> p ∉ idx ->
  (forall q, q ∈ idx -> id_at (st_heap st) q <> Some (tcb_id t)) ->
  Z.of_nat (size idx) < TABLE_MAX ->
  exists b st', hash_insert st p = Some (b, st') /\
    table_inv st' (if b then {[p]} ∪ idx else idx) /\
    quiet (st_heap st) (st_heap st') /\
    (b = false -> exists n, h_oom (st_heap st) n = true) /\
    (st_init st = true -> st_init st' = true /\ lost st' = lost st) /\
    (st_init st = false -> st_init st' = true -> lost st' = h_arrays (st_heap st)).
Proof.
  intros [Hwf [(Hi & Hlen & ->)|(L & Ht & ->)]] Hp Hnin Hfresh Hmax.
  - destruct (hash_init_spec st Hi Hlen) as (b & st' & ns & Hrun & Hq & Hb & Hinv & Harr & _ & _ & Hend).
    destruct (Hinv Hwf) as ([Hwf' Hinv'] & _ & Hfr). pose proof (proj1 Hq) as Hc. destruct b.
    + destruct Hinv' as [(Hf & _ & _)|(L & Ht & He)]; [congruence|].
      assert (concat L = []) as Hnil.
      { destruct (concat L) as [|x l]; [done|]. exfalso.
        assert (x ∈ (∅ : gset loc)) as Hx; [|set_solver]. rewrite He. set_solver. }
      destruct (hash_insert_ready st' L p t) as (b & st'' & Hrun' & Hinv2 & Hq' & Hoom' & Hlost & Hin);
        [done|done|by rewrite Hc|rewrite Hnil; set_solver|by rewrite Hnil|].
      unfold hash_insert in *. rewrite Hi. cbn [negb]. rewrite Hrun. cbn [mbind option_bind].
      rewrite (tk_init _ _ Ht) in Hrun'. cbn [negb mbind option_bind] in *.
      exists b, st''. split; [done|]. rewrite <- He in Hinv2. split; [done|].
      split; [by eapply quiet_trans|]. split; [destruct Hq as (_ & <- & _); done|]. split; [done|].
      intros _ _. rewrite Hlost. unfold lost. destruct Hend as [_ ->]. rewrite Harr. apply set_eq. intros a.
      rewrite elem_of_difference, elem_of_union, elem_of_list_to_set. specialize (Hfr a). tauto.
    + unfold hash_insert. rewrite Hi. cbn [negb]. rewrite Hrun. cbn [mbind option_bind negb].
      exists false, st'. split; [done|]. split; [done|]. split; [done|]. split; [intros _; destruct Hend as (_ & ? & _); eauto|].
      split; [done|]. congruence.
  - destruct (hash_insert_ready st L p t Hwf Ht Hp) as (b & st' & H1 & H2 & H3 & H4 & H5 & H6).
    + intros q Hq. apply Hfresh. by apply elem_of_list_to_set.
    + rewrite (length_concat_size st L Ht) in Hmax. unfold TABLE_MAX in Hmax. lia.
    + exists b, st'. do 4 (split; [done|]). split; [done|]. intros Hi. by rewrite (tk_init _ _ Ht) in Hi.
Qed.

Lemma table_inv_live st idx p :
  table_inv st idx -> p ∈ idx -> is_Some (h_cells (st_heap st) !! p).
Proof.
  intros [_ [(_ & _ & ->)|(L & Ht & ->)]] Hp; [set_solver|].
  apply elem_of_list_to_set, elem_of_concat in Hp as (i & ps & Hi & Hp).
  destruct (tk_hash _ _ Ht i ps p Hi Hp) as (t & -> & _). eauto.
Qed.

Lemma table_inv_inj st idx p q i :
  table_inv st idx -> p ∈ idx -> q ∈ idx ->
  id_at (st_heap st) p = Some i -> id_at (st_heap st) q = Some i -> p = q.
Proof.
  intros [_ [(_ & _ & ->)|(L & Ht & ->)]] Hp Hq Hip Hiq; [set_solver|].
  rewrite elem_of_list_to_set in Hp, Hq.
  destruct (table_bucket st L i Ht) as (v & ps & _ & Hps & _).
  pose proof (table_in_bucket st L i p ps Ht Hp Hip Hps) as [j Hj]%list_elem_of_lookup.
  pose proof (table_in_bucket st L i q ps Ht Hq Hiq Hps) as [k Hk]%list_elem_of_lookup.
  assert (j = k) as ->; [|congruence].
  apply (NoDup_lookup _ j k (Some i) (tk_ids _ _ Ht _ _ Hps));
    rewrite list_lookup_fmap; [rewrite Hj|rewrite Hk]; cbn; congruence.
Qed.

(** Removing a pointer from its bucket removes it from the table's contents. *)
Lemma swap_remove_sub k (ps : list loc) p q :
  ps !! k = Some p -> NoDup ps -> q ∈ swap_remove k ps -> q ∈ ps /\ q <> p.
Proof.
  intros Hk Hnd Hq. pose proof (swap_remove_perm k ps p Hk) as Hperm. split.
  - rewrite Hperm. by right.
  - intros ->. rewrite Hperm in Hnd. apply NoDup_cons in Hnd as [Hn _]. done.
Qed.

Lemma concat_remove (L : list (list loc)) i ps k p :
  L !! i = Some ps -> ps !! k = Some p -> NoDup ps ->
  (forall j qs q, j <> i -> L !! j = Some qs -> q ∈ qs -> q <> p) ->
  list_to_set (C := gset loc) (concat (<[i := swap_remove k ps]> L)) = list_to_set (concat L) ∖ {[p]}.
Proof.
  intros Hps Hk Hnd Hother. pose proof (swap_remove_perm k ps p Hk) as Hperm.
  apply set_eq. intros q. pose proof (lookup_lt_Some _ _ _ Hps) as Hlt.
  rewrite elem_of_difference, elem_of_singleton, !elem_of_list_to_set, !elem_of_concat. split.
  - intros (j & qs & Hj & Hq). destruct (decide (j = i)) as [->|Hne].
    + rewrite list_lookup_insert_eq in Hj by done. injection Hj as <-.
      destruct (swap_remove_sub _ _ _ _ Hk Hnd Hq). split; [eauto|done].
    + rewrite list_lookup_insert_ne in Hj by done. split; [eauto|]. by apply (Hother j qs q).
  - intros [(j & qs & Hj & Hq) Hne]. destruct (decide (j = i)) as [->|].
    + exists i, (swap_remove k ps). rewrite list_lookup_insert_eq by done. split; [done|].
      assert (qs = ps) as -> by congruence. rewrite Hperm in Hq.
      apply elem_of_cons in Hq as [->|]; done.
    + exists j, qs. rewrite list_lookup_insert_ne by done. done.
Qed.

Lemma hash_delete_law st idx p :
  table_inv st idx -> p ∈ idx ->
  exists st', hash_delete st p = Some st' /\
    table_inv st' (idx ∖ {[p]}) /\ free (st_heap st) p = Some (st_heap st') /\
    st_init st' = true /\ lost st' = lost st.
Proof.
  intros Hinv Hp. destruct (table_inv_live _ _ _ Hinv Hp) as [t Hcell].
  destruct Hinv as [Hwf [(_ & _ & ->)|(L & Ht & ->)]]; [set_solver|].
  rewrite elem_of_list_to_set in Hp. unfold hash_delete. rewrite (tk_init _ _ Ht). cbn [negb].
  unfold deref. rewrite Hcell. cbn [mbind option_bind].
  destruct (table_bucket st L (tcb_id t) Ht) as (v & ps & Hv & Hps & Hr). rewrite Hv. cbn [mbind option_bind].
  unfold bucket in Hv. set (i := Z.to_nat (hash_id (tcb_id t))) in *. pose proof (hash_id_range (tcb_id t)) as Hrange.
  assert (id_at (st_heap st) p = Some (tcb_id t)) as Hid by (unfold id_at; now rewrite Hcell).
  pose proof (table_in_bucket st L _ p ps Ht Hp Hid Hps) as [k Hk]%list_elem_of_lookup.
  destruct (vec_delete_rep (st_heap st) v ps p t k Hr (table_live _ _ _ _ Ht Hps)
              (tk_ids _ _ Ht _ _ Hps) Hcell Hk) as (v' & h' & -> & Hfree & Hr' & Hav).
  cbn [mbind option_bind]. eexists. split; [done|]. unfold set_bucket. cbn [st_heap st_buckets st_init st_size st_rand]. fold i.
  destruct (free_arrays _ _ _ Hfree) as [Har Hreq].
  assert (array_moves (st_heap st) h' v v') as Hmv by (by left).
  pose proof (conj (tk_arrays _ _ Ht) (tk_apart _ _ Ht) : arrays_ok _ _) as Hok.
  split; [|split; [done|split; [exact (tk_init _ _ Ht)|destruct st; by eapply lost_replace]]].
  split; [by eapply arrays_wf_grow|].
  pose proof (swap_remove_perm k ps p Hk) as Hperm.
  assert (h_cells h' = delete p (h_cells (st_heap st))) as Hc'
    by (unfold free in Hfree; rewrite Hcell in Hfree; by injection Hfree as <-).
  pose proof (tk_ids _ _ Ht _ _ Hps) as Hnd. pose proof (NoDup_fmap_1 _ _ Hnd) as Hndp.
  assert (forall q, q ∈ swap_remove k ps -> q ∈ ps /\ q <> p) as Hsub by (intros; by eapply swap_remove_sub).
  assert (forall j qs q, j <> i -> L !! j = Some qs -> q ∈ qs -> q <> p) as Hother.
  { intros j qs q Hne Hj Hq ->. destruct (tk_hash _ _ Ht j qs p Hj Hq) as (t' & Ht' & Hh).
    assert (t' = t) as -> by congruence. subst i. lia. }
  right. exists (<[i := swap_remove k ps]> L). split.
  - eapply table_update; eauto; rewrite ?Hc'.
    + intros q Hq. destruct (Hsub q Hq) as [Hq' Hne].
      destruct (tk_hash _ _ Ht i ps q Hps Hq') as (t' & ? & ?). exists t'.
      rewrite lookup_delete_ne by done. done.
    + rewrite Hperm in Hnd. cbn in Hnd. apply NoDup_cons in Hnd as [_ Hnd].
      erewrite list_fmap_ext; [exact Hnd|]. intros j q Hj. unfold id_at. rewrite Hc'.
      rewrite lookup_delete_ne; [done|]. intros ->. apply list_elem_of_lookup_2 in Hj.
      by destruct (Hsub q Hj).
    + intros j qs q Hne Hj Hq. apply lookup_delete_ne. intros ->. by apply (Hother j qs q).
    + rewrite (tk_size _ _ Ht). apply Permutation_length in Hperm. cbn in Hperm.
      unfold u64. rewrite Zminus_mod_idemp_l. f_equal. lia.
  - symmetry. by apply concat_remove.
Qed.

(** Allocating and freeing blocks the table does not index, and writing through a
    pointer, leave the index alone. *)
Definition with_heap (st : Store) (h : heap TCB) : Store :=
  MkStore h (st_buckets st) (st_size st) (st_init st) (st_rand st).

Lemma table_inv_with_heap st idx h :
  table_inv st idx -> same_arrays (st_heap st) h ->
  (forall p, p ∈ idx -> tcb_id <$> h_cells h !! p = tcb_id <$> h_cells (st_heap st) !! p) ->
  table_inv (with_heap st h) idx.
Proof.
  intros [Hwf Hinv] [Ha Hq] Hsame. split; [by eapply arrays_wf_grow|].
  destruct Hinv as [?|(L & Ht & ->)]; [by left|]. right. exists L. split; [|done].
  assert (forall i ps p, L !! i = Some ps -> p ∈ ps ->
    tcb_id <$> h_cells h !! p = tcb_id <$> h_cells (st_heap st) !! p) as Hs.
  { intros i ps p Hi Hp. apply Hsame, elem_of_list_to_set, elem_of_concat. eauto. }
  destruct Ht as [Hi Hlen Hrep Hh Hids Hsz Har Hap]. split; cbn; rewrite ?Ha; try done.
  - intros i ps p Hl Hp. destruct (Hh i ps p Hl Hp) as (t & Hc & Hhash).
    specialize (Hs i ps p Hl Hp). rewrite Hc in Hs. apply fmap_Some in Hs as (t' & Hc' & Heq).
    exists t'. split; [done|]. congruence.
  - intros i ps Hl. erewrite list_fmap_ext; [eapply Hids; eauto|]. intros k p Hp.
    apply (Hs i ps); [done|]. eapply list_elem_of_lookup_2; eauto.
Qed.

(** ** The hash table is a connection table *)

(** The arrays allocated are those of the buckets, none before the first insertion. *)
Definition arrays_kept (st : Store) : Prop :=
  lost st = ∅ /\ (st_init st = false -> h_arrays (st_heap st) = ∅).

Lemma arrays_kept_same st h : arrays_kept st -> same_arrays (st_heap st) h -> arrays_kept (with_heap st h).
Proof. intros [Hl Hn] [Ha _]. unfold arrays_kept, lost in *. cbn. by rewrite Ha. Qed.

(** The blocks of [idx] are the table's, and as long as the allocator refuses nothing no
    array is lost. *)
Definition store_inv (st : Store) (idx : gset loc) : Prop :=
  table_inv st idx /\ heap_wf (st_heap st) /\
  ((forall n, h_oom (st_heap st) n = false) -> arrays_kept st).

Definition store_alloc (st : Store) (t : TCB) : ptr * Store :=
  let '(p, h) := alloc (st_heap st) t in (p, with_heap st h).
Definition store_free (st : Store) (p : loc) : option Store :=
  h ← free (st_heap st) p; Some (with_heap st h).
Definition store_assign (st : Store) (p : loc) (t : TCB) : option Store :=
  h ← assign (st_heap st) p t; Some (with_heap st h).

#[export] Instance hash_table : ConTable Store TCB ID := {|
  ct_id := tcb_id;
  ct_vals := fun st => h_cells (st_heap st);
  ct_inv := store_inv;
  ct_alloc := store_alloc;
  ct_release := store_free;
  ct_assign := store_assign;
  ct_find := hash_find;
  ct_insert := hash_insert;
  ct_delete := hash_delete;
  ct_oom := fun st => h_oom (st_heap st);
|}.

Lemma owned_nodup st L : table_ok st L -> NoDup (omap array_of (st_buckets st)).
Proof.
  intros Ht. pose proof (tk_apart _ _ Ht) as Hap. revert Hap. generalize (st_buckets st) as bs.
  induction bs as [|v bs IH]; intros Hap; cbn [omap list_omap]; [apply NoDup_nil_2|].
  assert (NoDup (omap array_of bs)) as Hnd
    by (apply IH; intros j k x y a Hj Hk Hx Hy; apply Nat.succ_inj; by apply (Hap (S j) (S k) x y a)).
  destruct (array_of v) as [a|] eqn:Ha; [|done]. apply NoDup_cons. split; [|done].
  intros (w & (k & Hk)%list_elem_of_lookup & Hw)%list_elem_of_omap.
  assert (0 = S k)%nat; [|done]. by apply (Hap 0%nat (S k) v w a).
Qed.

(** What a table keeps allocated: a block per connection, and once it is initialised the
    array of each of its 256 buckets. *)
Lemma table_arrays st L : table_ok st L -> owned st ⊆ h_arrays (st_heap st) /\ size (owned st) = 256%nat.
Proof.
  intros Ht. split.
  - intros a (i & v & Hv & Ha)%elem_of_owned. by apply (tk_arrays _ _ Ht i v).
  - unfold owned. rewrite size_list_to_set by (by apply (owned_nodup st L)).
    assert (forall bs Ls, Forall2 vec_rep bs Ls -> length (omap array_of bs) = length Ls) as Hlen.
    { induction 1 as [|v ps bs Ls Hr _ IH]; [done|]. destruct (vr_data _ _ Hr) as (d & Hd & _).
      cbn [omap list_omap]. unfold array_of at 1. rewrite Hd. cbn. by rewrite IH. }
    rewrite (Hlen _ _ (tk_rep _ _ Ht)), (tk_len _ _ Ht). reflexivity.
Qed.

Lemma st_start_store oom rnd : store_inv (st_start oom rnd) ∅.
Proof.
  split; [exact (st_start_inv oom rnd)|]. split; [intros p [x Hx]; done|]. intros _. split; [|done].
  unfold lost. apply set_eq. intros a. cbn. set_solver.
Qed.

Lemma store_alloc_law st idx x o st' :
  store_inv st idx -> store_alloc st x = (o, st') ->
  store_inv st' idx /\ h_oom (st_heap st') = h_oom (st_heap st) /\
  match o with
  | None => h_cells (st_heap st') = h_cells (st_heap st)
            /\ exists n, h_oom (st_heap st) n = true
  | Some p => h_cells (st_heap st) !! p = None
              /\ h_cells (st_heap st') = <[p := x]> (h_cells (st_heap st))
  end.
Proof.
  intros (Hinv & Hwf & Hkept). unfold store_alloc. destruct (alloc (st_heap st) x) as [q h] eqn:Ha.
  intros [= <- <-]. pose proof (alloc_wf _ _ _ _ Ha Hwf) as Hwf'.
  pose proof (alloc_oom _ _ _ _ Ha) as Hoom. pose proof (alloc_arrays _ _ _ _ Ha) as Hsame.
  assert ((forall n, h_oom h n = false) -> arrays_kept (with_heap st h)) as Hkept'
    by (rewrite Hoom; intros Hn; apply arrays_kept_same; auto).
  destruct (alloc_cases _ _ _ _ Hwf Ha) as [(-> & Hc & Hn)|(p & -> & Hp & Hc)].
  - split; [|done]. split; [|done]. apply table_inv_with_heap; [done|done|]. intros. now rewrite Hc.
  - split; [|done]. split; [|done]. apply table_inv_with_heap; [done|done|]. intros q Hq.
    rewrite Hc, lookup_insert_ne; [done|]. intros ->.
    destruct (table_inv_live _ _ _ Hinv Hq). congruence.
Qed.

Lemma store_free_law st idx p :
  store_inv st idx -> is_Some (h_cells (st_heap st) !! p) -> p ∉ idx ->
  exists st', store_free st p = Some st' /\ store_inv st' idx
    /\ h_oom (st_heap st') = h_oom (st_heap st) /\ h_cells (st_heap st') = delete p (h_cells (st_heap st)).
Proof.
  intros (Hinv & Hwf & Hkept) [t Ht] Hp. unfold store_free, free. rewrite Ht. cbn [mbind option_bind].
  eexists. split; [done|]. split; [|done]. split; [|split; [|intros Hn; by apply arrays_kept_same; [apply Hkept|]]].
  - apply table_inv_with_heap; [done|done|]. intros q Hq. cbn. rewrite lookup_delete_ne; [done|].
    intros ->. done.
  - apply (free_wf (st_heap st) p); [unfold free; by rewrite Ht|done].
Qed.

Lemma store_assign_law st idx p x y :
  store_inv st idx -> h_cells (st_heap st) !! p = Some x -> tcb_id y = tcb_id x ->
  exists st', store_assign st p y = Some st' /\ store_inv st' idx
    /\ h_oom (st_heap st') = h_oom (st_heap st) /\ h_cells (st_heap st') = <[p := y]> (h_cells (st_heap st)).
Proof.
  intros (Hinv & Hwf & Hkept) Hp Hid. unfold store_assign, assign. rewrite Hp. cbn [mbind option_bind].
  eexists. split; [done|]. split; [|done]. split; [|split; [|intros Hn; by apply arrays_kept_same; [apply Hkept|]]].
  - apply table_inv_with_heap; [done|done|]. intros q Hq. cbn. destruct (decide (p = q)) as [->|].
    + rewrite lookup_insert_eq, Hp. cbn. congruence.
    + now rewrite lookup_insert_ne.
  - apply (assign_wf (st_heap st) p y); [unfold assign; by rewrite Hp|done].
Qed.

Lemma store_insert_law st idx p t :
  store_inv st idx -> h_cells (st_heap st) !! p = Some t -> p ∉ idx ->
  (forall q, q ∈ idx -> id_at (st_heap st) q <> Some (tcb_id t)) ->
  Z.of_nat (size idx) < TABLE_MAX ->
  exists b st', hash_insert st p = Some (b, st') /\ store_inv st' (if b then {[p]} ∪ idx else idx) /\
    (h_cells (st_heap st') = h_cells (st_heap st) /\ h_oom (st_heap st') = h_oom (st_heap st)) /\
    (b = false -> exists n, h_oom (st_heap st) n = true).
Proof.
  intros (Hinv & Hwf & Hkept) Hp Hnin Hfresh Hmax.
  destruct (hash_insert_law st idx p t Hinv Hp Hnin Hfresh Hmax) as (b & st' & Hrun & Hinv' & Hq & Hoom & Hl & Hl').
  pose proof Hq as (Hc & Ho & _). exists b, st'. split; [done|]. split; [|done]. split; [done|]. split; [by eapply quiet_wf|].
  rewrite Ho. intros Hn. destruct (Hkept Hn) as [Hlost Hnone].
  destruct (st_init st) eqn:Ei; [destruct (Hl eq_refl) as [Hi' Hl1]; split; [by rewrite Hl1|congruence]|].
  destruct b; [|destruct Hoom as [n Hb]; [done|]; by rewrite Hn in Hb].
  destruct (st_init st') eqn:Ei'; [split; [rewrite Hl'; auto|congruence]|].
  exfalso. destruct Hinv' as [_ [(_ & _ & He)|(L & Ht & _)]]; [set_solver + He|]. by rewrite (tk_init _ _ Ht) in Ei'.
Qed.

Lemma store_delete_law st idx p :
  store_inv st idx -> p ∈ idx ->
  exists st', hash_delete st p = Some st' /\ store_inv st' (idx ∖ {[p]}) /\
    h_cells (st_heap st') = delete p (h_cells (st_heap st)) /\ h_oom (st_heap st') = h_oom (st_heap st).
Proof.
  intros (Hinv & Hwf & Hkept) Hp.
  destruct (hash_delete_law st idx p Hinv Hp) as (st' & Hrun & Hinv' & Hfree & Hi & Hl). exists st'.
  pose proof (free_wf _ _ _ Hfree Hwf). apply free_spec in Hfree as [? Ho]. split; [done|]. split; [|done].
  split; [done|]. split; [done|]. rewrite Ho. intros Hn. split; [rewrite Hl; apply (Hkept Hn)|congruence].
Qed.

#[export] Instance hash_table_laws : ConTableLaws Store TCB ID.
Proof.
  split; cbn.
  - intros s idx p [Hinv _]. by apply table_inv_live.
  - intros s idx p q x y [Hinv _] Hp Hq Hx Hy Hid.
    apply (table_inv_inj s idx p q (tcb_id x) Hinv Hp Hq); unfold id_at;
      [rewrite Hx|rewrite Hy]; cbn; congruence.
  - exact store_alloc_law.
  - exact store_free_law.
  - exact store_assign_law.
  - intros s idx i [Hinv _]. by apply hash_find_law.
  - exact store_insert_law.
  - exact store_delete_law.
Qed.

(** [vec_destroy] of a bucket frees its blocks and its array. *)
Lemma vec_destroy_rep vec ps a h :
  vec_rep vec ps -> live h ps -> NoDup ps -> array_of vec = Some a -> a ∈ h_arrays h ->
  exists h', vec_destroy vec h = Some (MkVector None 0 0, h') /\
    (forall q, h_cells h' !! q = if decide (q ∈ ps) then None else h_cells h !! q) /\
    h_arrays h' = h_arrays h ∖ {[a]}.
Proof.
  intros Hr Hl Hnd Ha Hin. unfold vec_destroy. rewrite (vr_size _ _ Hr), Nat2Z.id.
  destruct (vec_destroy_loop_rep vec ps (length ps) 0 h Hr) as (h' & Hd & Hc & _ & Harr); [done|done|done|].
  change (Z.of_nat 0) with 0 in Hd. rewrite Hd. cbn [mbind option_bind]. rewrite drop_0 in Hc.
  unfold array_of in Ha. destruct (v_data vec) as [d|]; [injection Ha as <-|done].
  unfold free_array. rewrite Harr, decide_True by done. cbn [mbind option_bind]. by eexists.
Qed.

(** [hash_destroy] frees every indexed block and the array of every bucket. *)
Lemma hash_destroy_loop_spec L n i st :
  (i + n)%nat = length L -> length (st_buckets st) = length L ->
  (forall j v ps, (i <= j)%nat -> st_buckets st !! j = Some v -> L !! j = Some ps -> vec_rep v ps) ->
  NoDup (concat (drop i L)) ->
  (forall p, p ∈ concat (drop i L) -> is_Some (h_cells (st_heap st) !! p)) ->
  (forall j v a, (i <= j)%nat -> st_buckets st !! j = Some v -> array_of v = Some a -> a ∈ h_arrays (st_heap st)) ->
  NoDup (omap array_of (drop i (st_buckets st))) ->
  exists st', hash_destroy_loop n (Z.of_nat i) st = Some st' /\
    length (st_buckets st') = length L /\
    (forall q, h_cells (st_heap st') !! q
               = if decide (q ∈ concat (drop i L)) then None else h_cells (st_heap st) !! q) /\
    h_arrays (st_heap st') = h_arrays (st_heap st) ∖ list_to_set (omap array_of (drop i (st_buckets st))).
Proof.
  revert i st. induction n as [|n IH]; intros i st Hn Hlen Hrep Hnd Hlive Har Hap; cbn [hash_destroy_loop].
  - exists st. split; [done|]. split; [done|]. rewrite !drop_ge by lia. split; [|set_solver +].
    intros q. by rewrite decide_False by (cbn; set_solver +).
  - destruct (lookup_lt_is_Some_2 (st_buckets st) i ltac:(lia)) as [v Hv].
    destruct (lookup_lt_is_Some_2 L i ltac:(lia)) as [ps Hps].
    rewrite (drop_S _ _ _ Hps) in Hnd, Hlive. cbn [concat] in Hnd, Hlive. rewrite (drop_S _ _ _ Hv) in *.
    apply NoDup_app in Hnd as (Hnd1 & Hdis & Hnd2).
    unfold bucket. rewrite Nat2Z.id, Hv. cbn [mbind option_bind].
    pose proof (Hrep i v ps ltac:(lia) Hv Hps) as Hr. destruct (vr_data _ _ Hr) as (d & Hd & _).
    assert (array_of v = Some (a_addr d)) as Ha by (unfold array_of; by rewrite Hd).
    cbn [omap list_omap] in *. rewrite Ha in *. apply NoDup_cons in Hap as [Hna Hap].
    destruct (vec_destroy_rep v ps (a_addr d) (st_heap st) Hr) as (h' & -> & Hc & Harr);
      [apply Forall_forall; intros p Hp; apply Hlive, elem_of_app; by left|done|done|by apply (Har i v)|].
    cbn [mbind option_bind]. replace (Z.of_nat i + 1) with (Z.of_nat (S i)) by lia.
    destruct (IH (S i) (set_bucket st (Z.of_nat i) (MkVector None 0 0) h')) as (st' & -> & Hl & Hc' & Harr');
      unfold set_bucket in *; cbn [st_buckets st_heap] in *; rewrite ?Nat2Z.id, ?length_insert in *; try done; try lia.
    + intros j w qs Hj Hw Hqs. rewrite list_lookup_insert_ne in Hw by lia. apply (Hrep j); [lia|done|done].
    + intros p Hp. rewrite Hc. rewrite decide_False by (intros Hin; by apply (Hdis p)).
      apply Hlive, elem_of_app. by right.
    + intros j w a Hj Hw Hwa. rewrite list_lookup_insert_ne in Hw by lia. rewrite Harr. apply elem_of_difference.
      split; [by apply (Har j w a ltac:(lia))|]. intros ->%elem_of_singleton. apply Hna, list_elem_of_omap.
      exists w. split; [|done]. apply list_elem_of_lookup. exists (j - S i)%nat. rewrite lookup_drop.
      by replace (S i + (j - S i))%nat with j by lia.
    + by rewrite drop_insert_lt by lia.
    + exists st'. split; [done|]. split; [done|]. rewrite drop_insert_lt in Harr' by lia. split.
      * intros q. rewrite Hc', Hc, (drop_S _ _ _ Hps). cbn [concat].
        destruct (decide (q ∈ concat (drop (S i) L))), (decide (q ∈ ps)),
          (decide (q ∈ ps ++ concat (drop (S i) L))) as [Hin|Hin]; try done; rewrite elem_of_app in Hin; tauto.
      * rewrite Harr', Harr. cbn [list_to_set]. set_solver +.
Qed.

Lemma hash_destroy_law st :
  closed st ->
  exists st', hash_destroy st = Some st' /\ h_cells (st_heap st') = ∅ /\ st_init st' = false /\
    (st_init st = true -> h_arrays (st_heap st') = lost st) /\
    ((forall n, h_oom (st_heap st) n = false) -> h_arrays (st_heap st') = ∅).
Proof.
  intros ([_ Hinv] & _ & Hkept). unfold hash_destroy.
  destruct Hinv as [(Hi & Hlen & Hdom)|(L & Ht & Hdom)].
  - rewrite Hi. cbn [negb]. exists st. split; [done|]. split; [by apply dom_empty_inv_L in Hdom|].
    split; [done|]. split; [done|]. intros Hn. by apply (Hkept Hn).
  - rewrite (tk_init _ _ Ht). cbn [negb].
    pose proof (tk_len _ _ Ht) as Hl. pose proof (Forall2_length _ _ _ (tk_rep _ _ Ht)) as Hlb.
    destruct (hash_destroy_loop_spec L (Z.to_nat HT_SIZE) 0 st) as (st' & Hrun & _ & Hc & Ha);
      [lia|done| | | | | |]; rewrite ?drop_0 in *.
    + intros j v ps _ Hv Hps. by eapply Forall2_lookup_lr; [apply (tk_rep _ _ Ht)| |].
    + by eapply table_nodup.
    + intros p Hp. apply elem_of_dom. cbn in Hdom. rewrite Hdom. by apply elem_of_list_to_set.
    + intros j v a _. by apply (tk_arrays _ _ Ht).
    + by apply (owned_nodup st L).
    + change (Z.of_nat 0) with 0 in Hrun. rewrite Hrun. cbn [mbind option_bind].
      eexists. split; [done|]. cbn [st_heap st_init st_rand]. fold (owned st) in Ha. fold (lost st) in Ha.
      split; [|split; [done|split; [done|intros Hn; rewrite Ha; by apply (Hkept Hn)]]].
      apply map_eq. intros q. rewrite Hc, lookup_empty. destruct (decide _) as [|Hn]; [done|].
      destruct (h_cells (st_heap st) !! q) eqn:E; [|done]. exfalso. apply Hn.
      rewrite <- (elem_of_list_to_set (C := gset loc)), <- Hdom. apply elem_of_dom. cbn. eauto.
Qed.

Lemma closed_memory st :
  closed st -> size (h_cells (st_heap st)) = size (conns st) /\
  (st_init st = true -> owned st ⊆ h_arrays (st_heap st) /\ size (owned st) = 256%nat).
Proof.
  intros Hc. split; [symmetry; exact (conns_size st Hc)|]. intros Hi.
  destruct Hc as [[_ [(Hf & _)|(L & Ht & _)]] _]; [congruence|]. by apply (table_arrays st L).
Qed.

(** ** The random generator

    The table's operations draw no random number, and the generator is no part of what the
    table holds. *)

Definition with_rand (st : Store) (g : Rand) : Store :=
  MkStore (st_heap st) (st_buckets st) (st_size st) (st_init st) g.

Lemma closed_with_rand st g : closed st -> closed (with_rand st g).
Proof.
  intros ([Hwf Hinv] & Hheap & Hkept). split; [|split; [exact Hheap|exact Hkept]]. split; [exact Hwf|].
  destruct Hinv as [?|(L & Ht & Hd)]; [by left|]. right. exists L. split; [|exact Hd]. by destruct Ht; split.
Qed.

Lemma hash_init_loop_rand n i st b st' : hash_init_loop n i st = Some (b, st') -> st_rand st' = st_rand st.
Proof.
  revert i st. induction n as [|n IH]; intros i st; cbn [hash_init_loop]; [by intros [= _ <-]|].
  intros (v & _ & H)%bind_Some. destruct (vec_init v _) as [[[|] v'] h]; cbn [negb] in H.
  - by apply IH in H.
  - by injection H as _ <-.
Qed.

Lemma hash_insert_rand st p b st' : hash_insert st p = Some (b, st') -> st_rand st' = st_rand st.
Proof.
  unfold hash_insert. intros ([ok st1] & H1 & H)%bind_Some.
  assert (st_rand st1 = st_rand st) as H2.
  { destruct (negb (st_init st)); [|by injection H1 as _ <-]. unfold hash_init in H1.
    apply bind_Some in H1 as ([b' st2] & Hl & H1). apply hash_init_loop_rand in Hl.
    destruct (negb b'); by injection H1 as _ <-. }
  destruct (negb ok); [by injection H as _ <-|].
  apply bind_Some in H as (t & _ & H). apply bind_Some in H as (v & _ & H).
  apply bind_Some in H as ([[b' v'] h] & _ & H). destruct (negb b'); by injection H as _ <-.
Qed.

Lemma hash_delete_rand st p st' : hash_delete st p = Some st' -> st_rand st' = st_rand st.
Proof.
  unfold hash_delete. destruct (negb (st_init st)); [by intros [= <-]|].
  intros (t & _ & H)%bind_Some. apply bind_Some in H as (v & _ & H).
  apply bind_Some in H as ([v' h] & _ & H). by injection H as <-.
Qed.

Lemma store_free_rand st p st' : store_free st p = Some st' -> st_rand st' = st_rand st.
Proof. intros (h & _ & [= <-])%bind_Some. done. Qed.

Lemma store_assign_rand st p t st' : store_assign st p t = Some st' -> st_rand st' = st_rand st.
Proof. intros (h & _ & [= <-])%bind_Some. done. Qed.

(** ** Properties *)

(** C7 The connection table is a finite map from connection ids to TCBs: from the program
    start, any sequence of lookups, creations, updates and deletions (with memory
    available) is defined, so no dead block is read and no slot is read before it is
    written, reports what the finite map reports, and ends with the map's contents, every
    live block being indexed. *)
Theorem hash_refines_map oom rnd (ops : list (TableOp TCB ID)) :
  (forall n, oom n = false) -> Z.of_nat (length ops) <= TABLE_MAX ->
  exists rs st, tbl_run (st_start oom rnd) ops = Some (rs, st) /\ closed st /\
    map_run ∅ ops = (rs, conns st).
Proof.
  intros Hoom Hlen. change (∅ : gmap ID TCB) with (conns (st_start oom rnd)).
  apply (tbl_run_refines (T := Store) (V := TCB) (K := ID) (st_start oom rnd) ops).
  - exact (st_start_store oom rnd).
  - change (size (conns (st_start oom rnd))) with 0%nat. lia.
  - exact Hoom.
Qed.

Lemma hash_refines_map_witness :
  exists rs st, tbl_run (st_start (fun _ => false) (fun _ => 0))
    [Put (fresh_tcb (MkID 1 2 3 4)); Get (MkID 1 2 3 5); Del (MkID 1 2 3 4); Get (MkID 1 2 3 4)]
    = Some (rs, st) /\ rs = [Done true; Found None; Done true; Found None].
Proof.
  destruct (hash_refines_map (fun _ => false) (fun _ => 0)
    [Put (fresh_tcb (MkID 1 2 3 4)); Get (MkID 1 2 3 5); Del (MkID 1 2 3 4); Get (MkID 1 2 3 4)])
    as (rs & st & H1 & _ & H2); [done|unfold TABLE_MAX; cbn; lia|].
  exists rs, st. split; [exact H1|]. apply (f_equal fst) in H2. symmetry. exact H2.
Defined.

(** Insertion is atomic: inserting a live, unindexed TCB with a new id either answers
    true and adds it to the index or, only when the allocator refused a request,
    answers false and leaves the index as it was; no block is changed, and in an
    initialised table no bucket array is lost. *)
Theorem hash_insert_atomic st idx p t :
  table_inv st idx -> h_cells (st_heap st) !! p = Some t -> p ∉ idx ->
  (forall q, q ∈ idx -> id_at (st_heap st) q <> Some (tcb_id t)) ->
  Z.of_nat (size idx) < TABLE_MAX ->
  exists b st', hash_insert st p = Some (b, st') /\
    table_inv st' (if b then {[p]} ∪ idx else idx) /\
    h_cells (st_heap st') = h_cells (st_heap st) /\
    (b = false -> exists n, h_oom (st_heap st) n = true) /\
    (st_init st = true -> lost st' = lost st).
Proof.
  intros H1 H2 H3 H4 H5. destruct (hash_insert_law st idx p t H1 H2 H3 H4 H5)
    as (b & st' & Hr & Hi & (Hc & _) & Ho & Hl & _). exists b, st'. split_and!; try done. intros Hin. by destruct (Hl Hin).
Qed.

Lemma hash_insert_atomic_witness :
  let '(_, h) := tcb_init (Heap ∅ 0 (fun n => (n =? 100)%nat) ∅) (MkID 1 2 3 4) in
  exists b st', hash_insert (with_heap (st_start (fun n => (n =? 100)%nat) (fun _ => 0)) h) 0%nat = Some (b, st') /\
    b = false.
Proof.
  cbn [tcb_init alloc h_oom h_reqs Nat.eqb].
  destruct (hash_insert_atomic (with_heap (st_start (fun n => (n =? 100)%nat) (fun _ => 0))
      (Heap (<[0%nat := fresh_tcb (MkID 1 2 3 4)]> ∅) 1 (fun n => (n =? 100)%nat) ∅)) ∅ 0%nat
      (fresh_tcb (MkID 1 2 3 4))) as (b & st' & Hr & _).
  - split; [intros a Ha; by apply elem_of_empty in Ha|]. left. cbn. done.
  - reflexivity.
  - apply not_elem_of_empty.
  - intros q Hq. by apply not_elem_of_empty in Hq.
  - rewrite size_empty. done.
  - exists b, st'. split; [exact Hr|]. apply (f_equal (fmap fst)) in Hr.
    vm_compute in Hr. injection Hr as <-. reflexivity.
Defined.

(** [hash_destroy] frees every connection and the array of every bucket: from a table that
    leaks no block it is defined, leaves no live block and, of the arrays, those lost
    before; the table is uninitialised again. *)
Theorem hash_destroy_frees st :
  closed st ->
  exists st', hash_destroy st = Some st' /\ h_cells (st_heap st') = ∅ /\ st_init st' = false /\
    (st_init st = true -> h_arrays (st_heap st') = lost st) /\
    ((forall n, h_oom (st_heap st) n = false) -> h_arrays (st_heap st') = ∅).
Proof. exact (hash_destroy_law st). Qed.

Lemma hash_destroy_frees_witness :
  exists st', hash_destroy (st_start (fun _ => false) (fun _ => 0)) = Some st' /\ h_cells (st_heap st') = ∅.
Proof.
  destruct (hash_destroy_frees (st_start (fun _ => false) (fun _ => 0))) as (st' & H & Hc & _).
  - exact (st_start_store _ _).
  - exists st'. exact (conj H Hc).
Defined.

(** C13 The first insertion creates the 256 buckets one allocation at a time.  When the
    allocator refuses the allocation of bucket [k], [hash_init] answers false with [k]
    arrays allocated; the next insertion calls it again, and it overwrites the pointers
    to those arrays: it answers true, the table is good and holds 256 arrays, and [k]
    arrays stay allocated that nothing points to, which [hash_destroy] does not free. *)
Theorem hash_retry_leaks oom rnd k :
  (k < 256)%nat -> (forall n, oom n = (n =? k)%nat) ->
  exists st1 st2 st3,
    hash_init (st_start oom rnd) = Some (false, st1) /\ hash_init st1 = Some (true, st2) /\
    closed st2 /\ size (owned st2) = 256%nat /\ size (lost st2) = k /\ lost st2 = h_arrays (st_heap st1) /\
    hash_destroy st2 = Some st3 /\ h_arrays (st_heap st3) = lost st2.
Proof.
  intros Hk Hoom.
  destruct (hash_init_spec (st_start oom rnd)) as (b & st1 & ns & Hr1 & Hq1 & Hb1 & Hi1 & Ha1 & Hl1 & Hno1 & He1);
    [done|cbn; by rewrite length_replicate|].
  destruct (Hi1 (proj1 (st_start_inv oom rnd))) as (Hinv1 & Hnd1 & _). cbn in Hno1, Ha1.
  destruct b; [exfalso; destruct He1 as [He1 _]; specialize (Hno1 k); rewrite Hoom, Nat.eqb_refl in Hno1;
    discriminate Hno1; rewrite He1; unfold HT_SIZE; lia|].
  destruct He1 as (_ & Hlen1 & Hreq). cbn in Hlen1, Hreq. rewrite Hoom in Hlen1. apply Nat.eqb_eq in Hlen1.
  destruct (hash_init_spec st1 Hb1 Hl1) as (b & st2 & ms & Hr2 & Hq2 & Hb2 & Hi2 & Ha2 & Hl2 & _ & He2).
  destruct (Hi2 (proj1 Hinv1)) as (Hinv2 & Hnd2 & Hfr). pose proof Hq1 as (Hc1 & Ho1 & _). pose proof Hq2 as (Hc2 & Ho2 & _).
  destruct b; [|exfalso; destruct He2 as (_ & He2 & _); rewrite Ho1 in He2; cbn in He2; rewrite Hoom in He2;
    apply Nat.eqb_eq in He2; lia].
  destruct He2 as [Hlen2 Hown]. rewrite union_empty_r_L in Ha1.
  assert (lost st2 = list_to_set ns) as Hlost.
  { unfold lost. rewrite Hown, Ha2, Ha1. apply set_eq. intros a. specialize (Hfr a). rewrite Ha1 in Hfr. set_solver. }
  assert (store_inv st2 ∅) as Hs2.
  { split; [done|]. split; [intros p [x Hx]; rewrite Hc2, Hc1 in Hx; done|]. rewrite Ho2, Ho1. intros Hn.
    specialize (Hn k). cbn in Hn. by rewrite Hoom, Nat.eqb_refl in Hn. }
  assert (closed st2) as Hcl by (unfold closed; cbn; rewrite Hc2, Hc1; cbn; by rewrite dom_empty_L).
  destruct (hash_destroy_law st2 Hcl) as (st3 & Hr3 & _ & _ & Ha3 & _).
  exists st1, st2, st3. split; [done|]. split; [done|]. split; [done|].
  rewrite Hown, Hlost, !size_list_to_set, Hlen2, Ha1 by done.
  split; [done|]. split; [done|]. split; [done|]. split; [done|]. rewrite <- Hlost. by apply Ha3.
Qed.

Lemma hash_retry_leaks_witness :
  exists st1 st2 st3,
    hash_init (st_start (fun n => (n =? 7)%nat) (fun _ => 0)) = Some (false, st1) /\ hash_init st1 = Some (true, st2) /\
    size (lost st2) = 7%nat /\ hash_destroy st2 = Some st3 /\ h_arrays (st_heap st3) = lost st2.
Proof.
  destruct (hash_retry_leaks (fun n => (n =? 7)%nat) (fun _ => 0) 7) as (st1 & st2 & st3 & H1 & H2 & _ & _ & H3 & _ & H4 & H5);
    [lia|done|]. eauto 8.
Defined.
