(* ===== verification/Segment.v ===== *)
(** * TCP segments

    The SYN-ACK and the reset of [refactor/network/tcp/segment.c], built in place over
    the received packet.  The reset reads locals it has not assigned, which is undefined
    unless the environment gives a reading for them. *)
From S2P Require Import Prelude Memory Checksum Ip TcpHeader Heap Tcb Vector Table Hash.

(** ** Segment construction *)

Definition tcp_syn_ack (m : bytes) (st : Store) (state : ptr) (buf len offset : Z)
    : option (Z * bytes) :=
  let ip := buf in
  let tcp := buf + offset in
  m ← ip_swap_dst m ip;
  m ← tcp_swap_port m tcp;
  doff ← get m tcp tcp_data_offset;
  let tcp_hlen := Z.shiftr doff 4 * 4 in
  tcb ← state;
  t ← deref (st_heap st) tcb;
  m ← set m tcp tcp_seq_num (htonl (snd_iss (tcb_send t)));
  m ← set m tcp tcp_ack_num (htonl (rcv_next (tcb_recv t)));
  m ← set m tcp tcp_data_offset (Z.shiftl (tcp_hlen / 4) 4);
  m ← set m tcp tcp_flags (Z.lor SYN ACK);
  m ← set m tcp tcp_window (htons (rcv_window (tcb_recv t)));
  m ← set m tcp tcp_urgent_ptr 0;
  vi ← get m ip ip_version_ihl;
  let ip_hlen := Z.land vi 15 * 4 in
  m ← set m ip ip_len (htons (ip_hlen + tcp_hlen));
  m ← ip_checksum m ip;
  '(cs, m) ← tcp_checksum m buf len offset;
  m ← set m tcp tcp_csum cs;
  Some (ip_hlen + tcp_hlen, m).

(** What reading three locals of [tcp_rst] gives before any assignment: [None] when such a
    read is undefined, as in the C standard, or the word the stack holds. *)
Record Junk := MkJunk { j_seq_no : option Z; j_ack_no : option Z; j_pl_flags : option Z }.

(** A local, assigned or not. *)
Definition local (assigned stack : option Z) : option Z :=
  match assigned with Some z => Some z | None => stack end.

(** Every read gives some value. *)
Definition settled (junk : Junk) : Prop :=
  is_Some (j_seq_no junk) /\ is_Some (j_ack_no junk) /\ is_Some (j_pl_flags junk).

Definition tcp_rst (junk : Junk) (m : bytes) (st : Store) (state : ptr) (buf len offset : Z)
    : option (Z * bytes * Store) :=
  let ip := buf in
  let tcp := buf + offset in
  f ← get m tcp tcp_flags;
  let ack := truth (Z.land f ACK) in
  let fin := truth (Z.land f FIN) in
  let syn := truth (Z.land f SYN) in
  doff ← get m tcp tcp_data_offset;
  let tcp_hlen := Z.shiftr doff 4 * 4 in
  vi ← get m ip ip_version_ihl;
  let ip_hlen := Z.land vi 15 * 4 in
  tl ← get m ip ip_len;
  let tot_len := ntohs tl in
  let seg_len := tot_len - ip_hlen - tcp_hlen in
  '(seq_no, ack_no, pl_flags) ←
    (if ack then
       a ← get m tcp tcp_ack_num;
       Some (Some (htons a), None, Some RST)
     else
       let seg_len := seg_len + (Z.b2z fin + Z.b2z syn) in
       s ← get m tcp tcp_seq_num;
       Some (None, Some (s32 (u32 (ntohl s + seg_len))), None));
  m ← ip_swap_dst m ip;
  m ← tcp_swap_port m tcp;
  m ← set m ip ip_len (htons (ip_hlen + tcp_hlen));
  seq_no ← local seq_no (j_seq_no junk);
  m ← set m tcp tcp_seq_num (htonl (u32 seq_no));
  ack_no ← local ack_no (j_ack_no junk);
  m ← set m tcp tcp_ack_num (htonl (u32 ack_no));
  m ← set m tcp tcp_data_offset (Z.shiftl (tcp_hlen / 4) 4);
  pl_flags ← local pl_flags (j_pl_flags junk);
  m ← set m tcp tcp_flags pl_flags;
  m ← set m tcp tcp_window 0;
  m ← set m tcp tcp_urgent_ptr 0;
  tcb ← state;
  st ← hash_delete st tcb;
  Some (ip_hlen + tcp_hlen, m, st).

(** ** The SYN-ACK *)

(** The buffer [tcp_syn_ack] leaves: header fields first, then both checksums. *)
Definition syn_ack_head (m : bytes) (t : TCB) (offset : Z) : bytes :=
  let hlen := tcp_hlen_of m offset in
  let h := ports_swapped (swapped m 0) offset in
  let h := setf h offset tcp_seq_num (htonl (snd_iss (tcb_send t))) in
  let h := setf h offset tcp_ack_num (htonl (rcv_next (tcb_recv t))) in
  let h := setf h offset tcp_data_offset (Z.shiftl (hlen / 4) 4) in
  let h := setf h offset tcp_flags (Z.lor SYN ACK) in
  let h := setf h offset tcp_window (htons (rcv_window (tcb_recv t))) in
  setf h offset tcp_urgent_ptr 0.

Definition syn_ack_buf (m : bytes) (t : TCB) (len offset : Z) : bytes :=
  let h := setf (syn_ack_head m t offset) 0 ip_len (htons (offset + tcp_hlen_of m offset)) in
  let h := sealed h 0 10 offset in
  setf h offset tcp_csum (tcp_sum h offset (len - offset)).

(** What a SYN-ACK must be: addressed back to the client, from our ISS, acknowledging
    the client's sequence number plus one, with a correct IP header of length [n]. *)
Record syn_ack_of (m m' : bytes) (t : TCB) (offset n : Z) : Prop := {
  sa_ip : ip_valid m' 0 n;
  sa_len : ntohs (getf m' 0 ip_len) = n;
  sa_src : getf m' 0 ip_src = getf m 0 ip_dst;
  sa_dst : getf m' 0 ip_dst = getf m 0 ip_src;
  sa_sport : getf m' offset tcp_src_port = getf m offset tcp_dst_port;
  sa_dport : getf m' offset tcp_dst_port = getf m offset tcp_src_port;
  sa_seq : ntohl (getf m' offset tcp_seq_num) = u32 (snd_iss (tcb_send t));
  sa_ack : ntohl (getf m' offset tcp_ack_num) = u32 (rcv_next (tcb_recv t));
  sa_flags : getf m' offset tcp_flags = Z.lor SYN ACK;
  sa_window : ntohs (getf m' offset tcp_window) = u16 (rcv_window (tcb_recv t));
  sa_hlen : tcp_hlen_of m' offset = tcp_hlen_of m offset;
}.

Lemma length_syn_ack_head m t offset : length (syn_ack_head m t offset) = length m.
Proof. unfold syn_ack_head. now autorewrite with lens. Qed.
#[export] Hint Rewrite length_syn_ack_head : lens.

Lemma syn_ack_head_ok m t offset : bytes_ok m -> bytes_ok (syn_ack_head m t offset).
Proof. intros. unfold syn_ack_head. auto 12 with bytes. Qed.
#[export] Hint Resolve syn_ack_head_ok : bytes.

Lemma tcp_syn_ack_in m st p t len offset :
  packet m len offset -> h_cells (st_heap st) !! p = Some t ->
  tcp_syn_ack m st (Some p) 0 len offset
  = Some (offset + tcp_hlen_of m offset, syn_ack_buf m t len offset).
Proof.
  intros Hp Ht. pose proof (packet_range _ _ _ Hp) as Hr. destruct Hp as [Hb Hs _ _ Ho].
  unfold MTU_SIZE in Hs. unfold tcp_syn_ack, syn_ack_buf. rewrite !Z.add_0_l.
  rewrite ip_swap_dst_in by mem. cbn [mbind option_bind].
  rewrite tcp_swap_port_in by mem. cbn [mbind option_bind]. run.
  unfold deref. rewrite Ht. cbn [mbind option_bind].
  assert (Z.shiftr (getf (ports_swapped (swapped m 0) offset) offset tcp_data_offset) 4 * 4
          = tcp_hlen_of m offset) as Hh
    by (unfold tcp_hlen_of, ports_swapped; pkt; done).
  rewrite Hh. run. fold (syn_ack_head m t offset).
  change (setf _ offset tcp_urgent_ptr 0) with (syn_ack_head m t offset).
  assert (ihl_of (syn_ack_head m t offset) 0 = offset) as Hi
    by (unfold syn_ack_head, ports_swapped; ihl; done).
  change (Z.land (getf (syn_ack_head m t offset) 0 ip_version_ihl) 15 * 4)
    with (ihl_of (syn_ack_head m t offset) 0). rewrite Hi.
  rewrite ip_checksum_in by (auto with bytes; mem). cbn [mbind option_bind]. ihl. rewrite Hi.
  rewrite tcp_checksum_in by (auto with bytes; mem). cbn [mbind option_bind]. run. done.
Qed.

Lemma syn_ack_head_fields m t offset :
  bytes_ok m -> 20 <= offset -> offset + 20 <= Z.of_nat (length m) ->
  let h := syn_ack_head m t offset in
  getf h 0 ip_version_ihl = getf m 0 ip_version_ihl /\
  getf h 0 ip_src = getf m 0 ip_dst /\ getf h 0 ip_dst = getf m 0 ip_src /\
  getf h offset tcp_src_port = getf m offset tcp_dst_port /\
  getf h offset tcp_dst_port = getf m offset tcp_src_port /\
  ntohl (getf h offset tcp_seq_num) = u32 (snd_iss (tcb_send t)) /\
  ntohl (getf h offset tcp_ack_num) = u32 (rcv_next (tcb_recv t)) /\
  getf h offset tcp_flags = Z.lor SYN ACK /\
  ntohs (getf h offset tcp_window) = u16 (rcv_window (tcb_recv t)) /\
  tcp_hlen_of h offset = tcp_hlen_of m offset.
Proof.
  intros Hm Ho Hl. cbv zeta.
  destruct (swapped_src m 0 Hm) as [Hsrc Hdst]; [lia|lia|].
  destruct (ports_swapped_ports (swapped m 0) offset) as [Hsp Hdp]; [auto with bytes|lia|mem|].
  assert (0 <= getf m offset tcp_data_offset < 256) as Hd
    by (apply (getf_range m offset tcp_data_offset Hm); mem).
  unfold syn_ack_head. split_and!.
  - unfold ports_swapped. pkt. done.
  - unfold ports_swapped. pkt. done.
  - unfold ports_swapped. pkt. done.
  - pkt. rewrite Hsp. pkt. done.
  - pkt. rewrite Hdp. pkt. done.
  - pkt. apply bswap32_get.
  - pkt. apply bswap32_get.
  - pkt. done.
  - pkt. apply bswap16_get.
  - unfold tcp_hlen_of. pkt. change (256 ^ Z.of_nat (f_width tcp_data_offset)) with 256.
    now rewrite tcp_hlen_back.
Qed.

Lemma length_syn_ack_buf m t len offset : length (syn_ack_buf m t len offset) = length m.
Proof. unfold syn_ack_buf. cbv zeta. now autorewrite with lens. Qed.
#[export] Hint Rewrite length_syn_ack_buf : lens.

Lemma syn_ack_buf_ok m t len offset : bytes_ok m -> bytes_ok (syn_ack_buf m t len offset).
Proof. intros. unfold syn_ack_buf. cbv zeta. auto 12 with bytes. Qed.
#[export] Hint Resolve syn_ack_buf_ok : bytes.

Lemma syn_ack_buf_spec m t len offset :
  packet m len offset ->
  syn_ack_of m (syn_ack_buf m t len offset) t offset (offset + tcp_hlen_of m offset).
Proof.
  intros Hp. pose proof (packet_range _ _ _ Hp) as Hr. destruct Hp as [Hb Hs _ [_ [Hv _]] Ho].
  unfold MTU_SIZE in Hs. destruct (tcp_hlen_range m offset Hb) as [Hh _]; [lia|lia|].
  destruct (syn_ack_head_fields m t offset Hb) as (H1&H2&H3&H4&H5&H6&H7&H8&H9&H10); [lia|lia|].
  unfold syn_ack_buf. set (h := syn_ack_head m t offset) in *.
  assert (length h = length m) as Hlh by (subst h; mem).
  assert (bytes_ok h) as Hbh by (subst h; auto with bytes).
  assert (ihl_of h 0 = offset) as Hih by (unfold ihl_of in *; now rewrite H1).
  clearbody h. remember (tcp_hlen_of m offset) as hl eqn:Hhl.
  split; try (pkt; done).
  - split; [ihl; lia|]. split; [pkt; congruence|]. ihl. rewrite Hih. pkt.
    apply sealed_verifies; try done; auto with bytes; mem.
  - pkt. rewrite bswap16_get. apply u16_id. lia.
  - rewrite <- Hhl, <- H10. unfold tcp_hlen_of. pkt. done.
Qed.

(** With no payload behind the header, the segment verifies too. *)
Lemma syn_ack_buf_verifies m t len offset :
  packet m len offset -> 18 <= len - offset ->
  tcp_verifies (syn_ack_buf m t len offset) offset (len - offset).
Proof.
  intros Hp Hl. pose proof (packet_range _ _ _ Hp) as Hr. destruct Hp as [Hb Hs _ _ Ho].
  unfold MTU_SIZE in Hs. unfold syn_ack_buf.
  apply tcp_sum_verifies; [auto 6 with bytes|lia|lia|mem].
Qed.

(** What lies beyond the header stays; the segment sent ends before it. *)
Lemma syn_ack_buf_payload m t len offset p n :
  packet m len offset -> offset + 20 <= p -> 0 <= n ->
  rd (syn_ack_buf m t len offset) p n = rd m p n /\
  getf (syn_ack_buf m t len offset) 0 ip_proto = getf m 0 ip_proto.
Proof.
  intros Hp Hr Hn. pose proof (packet_range _ _ _ Hp) as Ho.
  unfold syn_ack_buf, syn_ack_head, ports_swapped. cbv zeta. split; pkt; done.
Qed.

Lemma syn_ack_buf_sent m t len offset :
  let n := offset + tcp_hlen_of m offset in
  packet m len offset -> 20 <= tcp_hlen_of m offset -> n <= len -> 0 < getf m 0 ip_proto ->
  (tcp_verifies (syn_ack_buf m t len offset) offset (n - offset) <->
   (sum16 (rd m n (len - n)) + 256 * (len - n)) mod 65535 = 0).
Proof.
  cbv zeta. intros Hp Hh Hn Hproto. pose proof (packet_range _ _ _ Hp) as Ho.
  pose proof Hp as [Hb Hs _ _ _]. unfold MTU_SIZE in Hs.
  destruct (tcp_hlen_range m offset Hb ltac:(lia) ltac:(lia)) as [_ Heven].
  pose proof (getf_range m 0 ip_proto Hb ltac:(mem) ltac:(mem)) as Hr. change (256 ^ _) with 256 in Hr.
  set (h := tcp_hlen_of m offset) in *. clearbody h. assert (h mod 2 = 0) by divlia.
  replace (offset + h - offset) with h by lia.
  destruct (syn_ack_buf_payload m t len offset (offset + h) (len - (offset + h)) Hp) as [H1 H2]; [lia|lia|].
  rewrite (tcp_verifies_shorter _ offset (len - offset) h); rewrite ?H2; try mem; try lia.
  - replace (len - offset - h) with (len - (offset + h)) by lia. by rewrite H1.
  - auto with bytes.
  - apply syn_ack_buf_verifies; [done|lia].
Qed.

(** ** The reset *)

(** The buffer [tcp_rst] leaves, for the sequence number, acknowledgment and flags it
    computed or inherited from the stack.  No checksum is recomputed. *)
Definition rst_buf (m : bytes) (offset seq_no ack_no pl_flags : Z) : bytes :=
  let hlen := tcp_hlen_of m offset in
  let h := ports_swapped (swapped m 0) offset in
  let h := setf h 0 ip_len (htons (offset + hlen)) in
  let h := setf h offset tcp_seq_num (htonl (u32 seq_no)) in
  let h := setf h offset tcp_ack_num (htonl (u32 ack_no)) in
  let h := setf h offset tcp_data_offset (Z.shiftl (hlen / 4) 4) in
  let h := setf h offset tcp_flags pl_flags in
  let h := setf h offset tcp_window 0 in
  setf h offset tcp_urgent_ptr 0.

(** The three values, in the two branches. *)
Definition rst_values (junk : Junk) (m : bytes) (offset : Z) : Z * Z * Z :=
  let f := getf m offset tcp_flags in
  let seg_len := ntohs (getf m 0 ip_len) - offset - tcp_hlen_of m offset in
  if truth (Z.land f ACK) then
    (htons (getf m offset tcp_ack_num), default 0 (j_ack_no junk), RST)
  else
    (default 0 (j_seq_no junk),
     s32 (u32 (ntohl (getf m offset tcp_seq_num)
               + (seg_len + (Z.b2z (truth (Z.land f FIN)) + Z.b2z (truth (Z.land f SYN)))))),
     default 0 (j_pl_flags junk)).

(** The calls of [tcp_rst], from the three locals on. *)
Lemma tcp_rst_run junk m st p len offset hl s a f :
  packet m len offset -> hl = tcp_hlen_of m offset ->
  (m ← ip_swap_dst m 0;
   m ← tcp_swap_port m offset;
   m ← set m 0 ip_len (htons (offset + hl));
   seq_no ← local s (j_seq_no junk);
   m ← set m offset tcp_seq_num (htonl (u32 seq_no));
   ack_no ← local a (j_ack_no junk);
   m ← set m offset tcp_ack_num (htonl (u32 ack_no));
   m ← set m offset tcp_data_offset (Z.shiftl (hl / 4) 4);
   pl_flags ← local f (j_pl_flags junk);
   m ← set m offset tcp_flags pl_flags;
   m ← set m offset tcp_window 0;
   m ← set m offset tcp_urgent_ptr 0;
   st ← hash_delete st p;
   Some (offset + hl, m, st))
  = (seq_no ← local s (j_seq_no junk);
     ack_no ← local a (j_ack_no junk);
     pl_flags ← local f (j_pl_flags junk);
     st ← hash_delete st p;
     Some (offset + hl, rst_buf m offset seq_no ack_no pl_flags, st)).
Proof.
  intros Hp Hl. pose proof (packet_range _ _ _ Hp) as Hr. destruct Hp as [Hb Hs _ _ _]. unfold MTU_SIZE in Hs.
  rewrite ip_swap_dst_in by mem. cbn [mbind option_bind].
  rewrite tcp_swap_port_in by mem. cbn [mbind option_bind].
  destruct (local s _) as [s'|]; cbn [mbind option_bind]; run; [|done].
  destruct (local a _) as [a'|]; cbn [mbind option_bind]; run; [|done].
  destruct (local f _) as [f'|]; cbn [mbind option_bind]; run; [|done].
  unfold rst_buf. rewrite <- Hl. done.
Qed.

(** The reads of never-assigned locals [tcp_rst] makes are defined: of [ack_no] for a
    segment with ACK, of [seq_no] and [pl_flags] for one without. *)
Definition rst_reads (junk : Junk) (ack : bool) : bool :=
  if ack then bool_decide (is_Some (j_ack_no junk))
  else bool_decide (is_Some (j_seq_no junk)) && bool_decide (is_Some (j_pl_flags junk)).

Lemma settled_reads junk ack : settled junk -> rst_reads junk ack = true.
Proof. intros (? & ? & ?). unfold rst_reads. by destruct ack; rewrite !bool_decide_true. Qed.

Lemma tcp_rst_step junk m st p len offset :
  packet m len offset ->
  tcp_rst junk m st (Some p) 0 len offset
  = let '(s, a, f) := rst_values junk m offset in
    if rst_reads junk (truth (Z.land (getf m offset tcp_flags) ACK)) then
      st ← hash_delete st p;
      Some (offset + tcp_hlen_of m offset, rst_buf m offset s a f, st)
    else None.
Proof.
  intros Hp. pose proof (packet_range _ _ _ Hp) as Hr. pose proof Hp as [Hb Hs _ _ Ho].
  unfold MTU_SIZE in Hs. unfold tcp_rst, rst_values. rewrite !Z.add_0_l. run.
  change (Z.land (getf m 0 ip_version_ihl) 15 * 4) with (ihl_of m 0). rewrite <- Ho.
  fold (tcp_hlen_of m offset). destruct (truth (Z.land _ ACK)); run; cbn [mbind option_bind].
  - rewrite (tcp_rst_run junk m st p len offset) by done. cbn [local mbind option_bind rst_reads].
    by destruct (j_ack_no junk).
  - rewrite (tcp_rst_run junk m st p len offset) by done. cbn [local mbind option_bind rst_reads].
    by destruct (j_seq_no junk), (j_pl_flags junk).
Qed.

(** When every read gives some value, the reset is sent. *)
Lemma tcp_rst_in junk m st p len offset :
  packet m len offset -> settled junk ->
  tcp_rst junk m st (Some p) 0 len offset
  = let '(s, a, f) := rst_values junk m offset in
    st ← hash_delete st p;
    Some (offset + tcp_hlen_of m offset, rst_buf m offset s a f, st).
Proof.
  intros Hp Hset. rewrite tcp_rst_step by done. by rewrite settled_reads.
Qed.

(** The same readings, with some value where there was none. *)
Definition settle_junk (junk : Junk) : Junk :=
  MkJunk (Some (default 0 (j_seq_no junk))) (Some (default 0 (j_ack_no junk)))
    (Some (default 0 (j_pl_flags junk))).

Lemma tcp_rst_settle junk m st p len offset :
  packet m len offset ->
  tcp_rst junk m st (Some p) 0 len offset
  = if rst_reads junk (truth (Z.land (getf m offset tcp_flags) ACK))
    then tcp_rst (settle_junk junk) m st (Some p) 0 len offset else None.
Proof.
  intros Hp. rewrite !tcp_rst_step by done. rewrite (settled_reads (settle_junk junk)) by done.
  change (rst_values (settle_junk junk) m offset) with (rst_values junk m offset).
  destruct (rst_values junk m offset) as [[s a] f]. by destruct (rst_reads _ _).
Qed.

Lemma length_rst_buf m offset s a f : length (rst_buf m offset s a f) = length m.
Proof. unfold rst_buf. cbv zeta. now autorewrite with lens. Qed.

Lemma rst_buf_ok m offset s a f : bytes_ok m -> bytes_ok (rst_buf m offset s a f).
Proof. intros. unfold rst_buf. cbv zeta. auto 12 with bytes. Qed.
