(* ===== verification/Samples.v ===== *)
(** * Sample packets

    Concrete packets and tables, at which the theorems' hypotheses are evaluated. *)
From S2P Require Import Prelude Memory Checksum Ip Icmp TcpHeader Heap Tcb Vector Table Hash Segment.

(** An IPv4 header of 20 bytes from 10.0.0.1 to 10.0.0.2, in a buffer of [MTU_SIZE]. *)
Definition sample_ip (proto len : Z) : bytes :=
  let m := replicate (Z.to_nat MTU_SIZE) 0 in
  let m := setf m 0 ip_version_ihl 69 in
  let m := setf m 0 ip_len (htons len) in
  let m := setf m 0 ip_proto proto in
  let m := setf m 0 ip_src (htonl 167772161) in
  let m := setf m 0 ip_dst (htonl 167772162) in
  sealed m 0 10 20.

(** A TCP segment without payload, from port 40000 to [port]. *)
Definition sample_tcp (port flags seq ack : Z) : bytes :=
  let m := sample_ip PROTO_TCP 40 in
  let m := setf m 20 tcp_src_port (htons 40000) in
  let m := setf m 20 tcp_dst_port (htons port) in
  let m := setf m 20 tcp_seq_num (htonl seq) in
  let m := setf m 20 tcp_ack_num (htonl ack) in
  let m := setf m 20 tcp_data_offset 80 in
  let m := setf m 20 tcp_flags flags in
  let m := setf m 20 tcp_window (htons 4096) in
  setf m 20 tcp_csum (tcp_sum m 20 20).

(** A SYN that carries four bytes of data. *)
Definition sample_syn_data : bytes :=
  let m := sample_ip PROTO_TCP 44 in
  let m := setf m 20 tcp_src_port (htons 40000) in
  let m := setf m 20 tcp_dst_port (htons 8080) in
  let m := setf m 20 tcp_seq_num (htonl 5000) in
  let m := setf m 20 tcp_data_offset 80 in
  let m := setf m 20 tcp_flags SYN in
  let m := setf m 20 tcp_window (htons 4096) in
  let m := upd m 40 [71; 69; 84; 32] in
  setf m 20 tcp_csum (tcp_sum m 20 24).

(** An echo request with four bytes of data. *)
Definition sample_echo : bytes :=
  let m := sample_ip PROTO_ICMP 32 in
  let m := setf m 20 icmp_type ICMP_ECHO in
  let m := setf m 20 icmp_identifier 258 in
  let m := upd m 28 [1; 2; 3; 4] in
  sealed m 20 2 12.

(** An allocator that never refuses, and one that always does. *)
Definition plenty : nat -> bool := fun _ => false.

(** A generator that gives zeros. *)
Definition zeros : Rand := fun _ => 0.

Lemma st_start_closed oom rnd : closed (st_start oom rnd).
Proof. exact (st_start_store oom rnd). Qed.

Lemma st_start_conns oom rnd : conns (st_start oom rnd) = ∅.
Proof. reflexivity. Qed.

Lemma sample_syn_packet : packet (sample_tcp 8080 SYN 5000 0) 40 20.
Proof. by_eval. Qed.
