(* ===== verification/Tcp.v ===== *)
(** * The TCP protocol handler

    [tcp_dispatch] and [tcp_parse_edge] of [refactor/network/tcp/tcp.c] and
    [tcb_state_update] of [tcb.c]. *)
From S2P Require Import Prelude Memory Checksum Ip Icmp TcpHeader Heap Tcb Vector Table Hash Segment Samples.

(** Readings of the environment during one call: the clock, and what reading the
    never-assigned locals of [tcp_rst] gives, if that is defined. *)
Record Env := MkEnv { e_sec : Z; e_usec : Z; e_junk : Junk }.

(** The effect of [tcb_state_update] on a TCB for a SYN and for the handshake ACK. *)
Definition syn_update (t : TCB) (seq_num window iss : Z) : TCB :=
  let irs := ntohl seq_num in
  let t := set_recv t (MkRecv (u32 (irs + 1)) (rcv_window (tcb_recv t)) irs) in
  let s := tcb_send t in
  let t := set_send t (MkSend (snd_unac s) (snd_next s) (ntohs window) (snd_iss s)) in
  let t := match tcb_state t with
           | CON_CLOSED =>
               set_send t (MkSend iss (u32 (iss + 1)) (snd_window (tcb_send t)) iss)
           | _ => t
           end in
  set_state t CON_SYN_RECEIVED.

Definition ack_update (t : TCB) (ack_no : Z) : TCB :=
  let t := set_state t CON_ESTABLISHED in
  let s := tcb_send t in
  set_send t (MkSend ack_no (snd_next s) (snd_window s) (snd_iss s)).

Definition rst_in_window (t : TCB) (seq_no : Z) : bool :=
  SEQ_GEQ seq_no (rcv_next (tcb_recv t)) &&
  SEQ_LT seq_no (u32 (rcv_next (tcb_recv t) + rcv_window (tcb_recv t))).

Definition tcb_state_update (env : Env) (m : bytes) (st : Store) (tcp : Z) (tcb : ptr) (edge : Edge)
    : option (bool * Store) :=
  match edge with
  | EVT_SYN =>
      p ← tcb; t ← deref (st_heap st) p;
      s ← get m tcp tcp_seq_num;
      w ← get m tcp tcp_window;
      let '(iss, rnd) :=
        match tcb_state t with
        | CON_CLOSED => tcp_gen_iss (e_sec env) (e_usec env) (st_rand st)
        | _ => (snd_iss (tcb_send t), st_rand st)
        end in
      st ← store_assign st p (syn_update t s w iss);
      Some (true, with_rand st rnd)
  | EVT_ACK =>
      a ← get m tcp tcp_ack_num;
      let ack_no := ntohl a in
      p ← tcb; t ← deref (st_heap st) p;
      if ack_no =? snd_next (tcb_send t) then
        st ← store_assign st p (ack_update t ack_no);
        Some (true, st)
      else Some (false, st)
  | EVT_RST =>
      s ← get m tcp tcp_seq_num;
      let seq_no := ntohl s in
      p ← tcb; t ← deref (st_heap st) p;
      if rst_in_window t seq_no then
        st ← hash_delete st p;
        Some (true, st)
      else Some (false, st)
  | _ => Some (true, st)
  end.

(** The classification part of [tcp_parse_edge], for the connection found or made. *)
Definition parse_edge_state (flags : Flags) (id : ID) (state : Con_State) : Edge :=
  if negb (dst_port id =? TCP_LISTEN_PORT) then EVT_SEND_RST else
  if fl_rst flags then EVT_RST else
  match state with
  | CON_CLOSED =>
      if fl_rst flags then EVT_DROP else
      if fl_syn flags && negb (fl_ack flags) then EVT_SYN else EVT_SEND_RST
  | CON_SYN_RECEIVED =>
      if fl_ack flags && negb (fl_syn flags) then EVT_ACK else EVT_SEND_RST
  | CON_ESTABLISHED =>
      if fl_rst flags then EVT_RST
      else if fl_syn flags then EVT_SEND_RST
      else EVT_DATA
  | _ => EVT_DROP
  end.

(** Find the connection, or create and insert it; [None] when memory runs out. *)
Definition find_or_create (st : Store) (id : ID) : option (ptr * Store) :=
  con ← hash_find st id;
  match con with
  | Some p => Some (Some p, st)
  | None =>
      let '(con, h) := tcb_init (st_heap st) id in
      let st := with_heap st h in
      match con with
      | None => Some (None, st)
      | Some p =>
          '(ok, st) ← hash_insert st p;
          if negb ok then st ← store_free st p; Some (None, st)
          else Some (Some p, st)
      end
  end.

Definition tcp_parse_edge (st : Store) (flags : Flags) (id : ID) : option (Edge * ptr * Store) :=
  '(con, st) ← find_or_create st id;
  match con with
  | None => Some (EVT_DROP, None, st)
  | Some p =>
      t ← deref (st_heap st) p;
      let edge := parse_edge_state flags id (tcb_state t) in
      Some (edge, if decide (edge = EVT_DROP) then None else Some p, st)
  end.

Definition tcp_dispatch (env : Env) (m : bytes) (st : Store) (buf len offset : Z)
    : option (Z * bytes * Store) :=
  let ip := buf in
  let tcp := buf + offset in
  '(valid, m) ← tcp_checksum m buf len offset;
  cs ← get m tcp tcp_csum;
  if negb (cs =? valid) then Some (0, m, st) else
  sp ← get m tcp tcp_src_port;
  dp ← get m tcp tcp_dst_port;
  si ← get m ip ip_src;
  di ← get m ip ip_dst;
  let id := MkID (ntohs sp) (ntohs dp) (ntohl si) (ntohl di) in
  f ← get m tcp tcp_flags;
  let flags := MkFlags (truth (Z.land f FIN)) (truth (Z.land f SYN)) (truth (Z.land f RST))
                 (truth (Z.land f PSH)) (truth (Z.land f ACK)) in
  '((edge, tcb), st) ← tcp_parse_edge st flags id;
  '(ok, st) ← tcb_state_update env m st tcp tcb edge;
  let edge := if (ok : bool) then edge else EVT_DROP in
  match edge with
  | EVT_SYN =>
      '(n, m) ← tcp_syn_ack m st tcb buf len offset;
      Some (n, m, st)
  | EVT_SEND_RST => tcp_rst (e_junk env) m st tcb buf len offset
  | _ => Some (0, m, st)
  end.

(** ** Specification

    The handler as a family of independent machines, one per connection id: what a
    segment does to the connection it names, and which reply it draws.  All they share is
    the random generator, which moves on when one of them opens a connection. *)

Inductive Reply := Silent | Syn_Ack (t : TCB) | Reset.

Definition seg_id (m : bytes) (offset : Z) : ID :=
  MkID (ntohs (getf m offset tcp_src_port)) (ntohs (getf m offset tcp_dst_port))
    (ntohl (getf m 0 ip_src)) (ntohl (getf m 0 ip_dst)).

Definition has (m : bytes) (offset flag : Z) : bool := truth (Z.land (getf m offset tcp_flags) flag).
Definition seg_flags (m : bytes) (offset : Z) : Flags :=
  MkFlags (has m offset FIN) (has m offset SYN) (has m offset RST) (has m offset PSH)
    (has m offset ACK).
Definition seg_seq (m : bytes) (offset : Z) : Z := ntohl (getf m offset tcp_seq_num).
Definition seg_ack (m : bytes) (offset : Z) : Z := ntohl (getf m offset tcp_ack_num).

(** The initial sequence number drawn now, and the generator after a reply. *)
Definition env_iss (env : Env) (g : Rand) : Z := (tcp_gen_iss (e_sec env) (e_usec env) g).1.
Definition drawn (g : Rand) (r : Reply) : Rand :=
  match r with Syn_Ack _ => (rand g).2 | _ => g end.

(** The machine of one connection, from its block to the reply and its block after, [None]
    when the connection is gone; [iss] is the initial sequence number it would draw. *)
Definition con_step (iss : Z) (m : bytes) (offset : Z) (t : TCB) : Reply * option TCB :=
  match parse_edge_state (seg_flags m offset) (seg_id m offset) (tcb_state t) with
  | EVT_SYN =>
      let t := syn_update t (getf m offset tcp_seq_num) (getf m offset tcp_window) iss in
      (Syn_Ack t, Some t)
  | EVT_ACK =>
      (Silent, Some (if seg_ack m offset =? snd_next (tcb_send t)
                     then ack_update t (seg_ack m offset) else t))
  | EVT_RST => (Silent, if rst_in_window t (seg_seq m offset) then None else Some t)
  | EVT_SEND_RST => (Reset, None)
  | _ => (Silent, Some t)
  end.

(** An unknown connection starts closed. *)
Definition con_of (M : gmap ID TCB) (id : ID) : TCB := default (fresh_tcb id) (M !! id).

Definition tcp_spec (iss : Z) (m : bytes) (offset : Z) (M : gmap ID TCB) : Reply * gmap ID TCB :=
  let id := seg_id m offset in
  let '(r, o) := con_step iss m offset (con_of M id) in
  (r, partial_alter (fun _ => o) id M).

(** The bytes of a reply. *)
Definition tcp_output (env : Env) (m : bytes) (len offset : Z) (r : Reply) : Z * bytes :=
  match r with
  | Silent => (0, m)
  | Syn_Ack t => (offset + tcp_hlen_of m offset, syn_ack_buf m t len offset)
  | Reset =>
      let '(s, a, f) := rst_values (e_junk env) m offset in
      (offset + tcp_hlen_of m offset, rst_buf m offset s a f)
  end.

(** The segment carries the checksum the receiver computes. *)
Definition tcp_accepts (m : bytes) (len offset : Z) : bool :=
  getf m offset tcp_csum =? tcp_sum m offset (len - offset).

(** The reply reads no never-assigned local whose value is not defined. *)
Definition reply_defined (env : Env) (m : bytes) (offset : Z) (r : Reply) : Prop :=
  r = Reset -> rst_reads (e_junk env) (has m offset ACK) = true.

(** ** Lemmas *)

Lemma settled_reply env m offset r : settled (e_junk env) -> reply_defined env m offset r.
Proof. intros Hset _. by apply settled_reads. Qed.

Lemma find_or_create_spec st id :
  closed st -> Z.of_nat (size (conns st)) < TABLE_MAX ->
  (exists st', find_or_create st id = Some (None, st') /\ closed st' /\ ct_oom st' = ct_oom st /\
     conns st' = conns st /\ conns st !! id = None /\ exists n, ct_oom st n = true) \/
  (exists p st', find_or_create st id = Some (Some p, st') /\ closed st' /\ ct_oom st' = ct_oom st /\
     ct_vals st' !! p = Some (con_of (conns st) id) /\ tcb_id (con_of (conns st) id) = id /\
     conns st' = <[id := con_of (conns st) id]> (conns st)).
Proof.
  intros Hc Hmax. unfold find_or_create, con_of.
  destruct (find_conns st id Hc) as (r & Hr & Hres). cbn in Hr. rewrite Hr. cbn [mbind option_bind].
  destruct r as [p|].
  { right. destruct Hres as (t & Hp & Hid & Hl). exists p, st. rewrite Hl. cbn.
    rewrite (insert_id _ _ _ Hl). done. }
  rewrite Hres. cbn [default from_option].
  assert (ct_id (fresh_tcb id) = id) as Hid by apply fresh_tcb_id.
  destruct (create_conns st (fresh_tcb id) Hc) as
    [st' Ha Hc' Ho Hs Hn|p s1 s2 st' Ha Hi Hrel Hc' Ho Hs Hn|p s1 st' Ha Hi Hv Hc' Ho Hs];
    rewrite ?Hid; try done; cbn in Ha; unfold store_alloc in Ha; fold (tcb_init (st_heap st) id) in Ha;
    destruct (tcb_init (st_heap st) id) as [o h] eqn:Hinit; injection Ha as -> <-.
  - left. eexists. done.
  - left. cbn in Hi, Hrel. rewrite Hi. cbn [mbind option_bind negb]. rewrite Hrel.
    cbn [mbind option_bind]. eexists. done.
  - right. cbn in Hi. rewrite Hi. cbn [mbind option_bind negb]. rewrite Hid in Hs.
    do 2 eexists. split; [done|]. auto.
Qed.

(** What one call does: drop a segment with a wrong checksum, drop one for a new
    connection when memory is short, or run the connection's machine. *)
Inductive tcp_outcome (env : Env) (m : bytes) (len offset : Z) (st : Store)
    : Z -> bytes -> gmap ID TCB -> Rand -> Prop :=
  | tcp_rejected :
      tcp_accepts m len offset = false ->
      tcp_outcome env m len offset st 0 m (conns st) (st_rand st)
  | tcp_exhausted :
      tcp_accepts m len offset = true -> conns st !! seg_id m offset = None ->
      (exists k, ct_oom st k = true) ->
      tcp_outcome env m len offset st 0 m (conns st) (st_rand st)
  | tcp_stepped :
      tcp_accepts m len offset = true ->
      tcp_outcome env m len offset st
        (tcp_output env m len offset (tcp_spec (env_iss env (st_rand st)) m offset (conns st)).1).1
        (tcp_output env m len offset (tcp_spec (env_iss env (st_rand st)) m offset (conns st)).1).2
        (tcp_spec (env_iss env (st_rand st)) m offset (conns st)).2
        (drawn (st_rand st) (tcp_spec (env_iss env (st_rand st)) m offset (conns st)).1).

Lemma partial_alter_const_insert (M : gmap ID TCB) (id : ID) (t : TCB) (o : option TCB) :
  partial_alter (fun _ => o) id (<[id := t]> M) = partial_alter (fun _ => o) id M.
Proof. unfold insert, map_insert. by rewrite partial_alter_partial_alter_eq. Qed.

Lemma syn_update_id t s w i : tcb_id (syn_update t s w i) = tcb_id t.
Proof. unfold syn_update. cbv zeta. now destruct (tcb_state _). Qed.

(** How the classification constrains the segment. *)
Lemma parse_edge_inv fl id s e :
  parse_edge_state fl id s = e ->
  match e with
  | EVT_SYN => dst_port id = TCP_LISTEN_PORT /\ s = CON_CLOSED /\ fl_syn fl = true
               /\ fl_ack fl = false /\ fl_rst fl = false
  | EVT_ACK => dst_port id = TCP_LISTEN_PORT /\ s = CON_SYN_RECEIVED /\ fl_ack fl = true
               /\ fl_syn fl = false /\ fl_rst fl = false
  | EVT_DATA => dst_port id = TCP_LISTEN_PORT /\ s = CON_ESTABLISHED /\ fl_syn fl = false
               /\ fl_rst fl = false
  | EVT_RST => dst_port id = TCP_LISTEN_PORT /\ fl_rst fl = true
  | EVT_SEND_RST => dst_port id <> TCP_LISTEN_PORT \/ fl_rst fl = false
  | EVT_DROP => dst_port id = TCP_LISTEN_PORT /\ s <> CON_CLOSED /\ s <> CON_SYN_RECEIVED
                /\ s <> CON_ESTABLISHED
  | EVT_FIN => False
  end.
Proof.
  intros <-. unfold parse_edge_state. destruct (dst_port id =? TCP_LISTEN_PORT) eqn:E; cbn [negb].
  - apply Z.eqb_eq in E. destruct fl as [f s' r p a], r, s, s', a; cbn; auto 10.
  - left. lia.
Qed.

Lemma find_or_create_rand st id o st' : find_or_create st id = Some (o, st') -> st_rand st' = st_rand st.
Proof.
  unfold find_or_create. intros ([p|] & _ & H)%bind_Some; [by injection H as _ <-|].
  destruct (tcb_init (st_heap st) id) as [[p|] h]; [|by injection H as _ <-].
  apply bind_Some in H as ([ok st1] & Hi & H). apply hash_insert_rand in Hi.
  destruct (negb ok); [|by injection H as _ <-].
  apply bind_Some in H as (st2 & Hf & H). apply store_free_rand in Hf. injection H as _ <-. by rewrite Hf, Hi.
Qed.

(** The calls on the table and the block, from a table that holds the connection. *)
Lemma con_step_run env m st p t len offset (M : gmap ID TCB) edge :
  packet m len offset -> closed st -> ct_vals st !! p = Some t -> tcb_id t = seg_id m offset ->
  conns st = <[seg_id m offset := t]> M ->
  edge = parse_edge_state (seg_flags m offset) (seg_id m offset) (tcb_state t) ->
  reply_defined env m offset (con_step (env_iss env (st_rand st)) m offset t).1 ->
  exists n m' st',
    ('(ok, st) ← tcb_state_update env m st offset (if decide (edge = EVT_DROP) then None else Some p) edge;
     let edge' := if (ok : bool) then edge else EVT_DROP in
     match edge' with
     | EVT_SYN =>
         '(n, m) ← tcp_syn_ack m st (if decide (edge = EVT_DROP) then None else Some p) 0 len offset;
         Some (n, m, st)
     | EVT_SEND_RST =>
         tcp_rst (e_junk env) m st (if decide (edge = EVT_DROP) then None else Some p) 0 len offset
     | _ => Some (0, m, st)
     end) = Some (n, m', st') /\
    closed st' /\ ct_oom st' = ct_oom st /\
    (n, m') = tcp_output env m len offset (con_step (env_iss env (st_rand st)) m offset t).1 /\
    conns st' = partial_alter (fun _ => (con_step (env_iss env (st_rand st)) m offset t).2) (seg_id m offset) M /\
    st_rand st' = drawn (st_rand st) (con_step (env_iss env (st_rand st)) m offset t).1.
Proof.
  intros Hp Hc Hv Hid HM Hedge Hdef. pose proof (packet_range _ _ _ Hp) as Hr.
  pose proof Hp as [Hb Hs _ _ _]. unfold MTU_SIZE in Hs. unfold con_step in *. rewrite <- Hedge in *.
  assert (h_cells (st_heap st) !! p = Some t) as Hcell by exact Hv.
  assert (forall x, tcb_id x = tcb_id t ->
    exists st', store_assign st p x = Some st' /\ closed st' /\ ct_oom st' = ct_oom st /\
      h_cells (st_heap st') !! p = Some x /\ conns st' = <[seg_id m offset := x]> M /\
      st_rand st' = st_rand st) as Hassign.
  { intros x Hx. destruct (assign_conns st p t x Hc Hv Hx) as (st' & Ha & Hc' & Ho & Hv' & Hs').
    exists st'. split; [exact Ha|]. split; [done|]. split; [done|]. cbn in Hv', Hs'.
    split; [rewrite Hv'; apply lookup_insert_eq|]. split; [|by eapply store_assign_rand].
    rewrite Hs', HM, Hid. apply insert_insert_eq. }
  destruct (delete_conns st p t Hc Hv) as (std & Hd & Hcd & Hod & _ & Hsd).
  assert (hash_delete st p = Some std) as Hd' by exact Hd. pose proof (hash_delete_rand _ _ _ Hd') as Hrd.
  assert (conns std = delete (seg_id m offset) M) as Hdel
    by (rewrite Hsd, HM; cbn; rewrite Hid; apply delete_insert_eq).
  destruct edge eqn:E; cbn [decide Edge_eq_dec]; unfold tcb_state_update;
    try (destruct (decide _) as [|_]; [done|]); cbn [mbind option_bind].
  - (* SYN *)
    unfold deref. rewrite Hcell. run.
    symmetry in Hedge. apply parse_edge_inv in Hedge as (_ & -> & _). cbn [tcp_gen_iss rand].
    destruct (Hassign _ (syn_update_id t (getf m offset tcp_seq_num) (getf m offset tcp_window)
      (env_iss env (st_rand st)))) as (st' & Ha & Hc' & Ho & Hp' & Hs' & Hrn).
    change (u32 _) with (env_iss env (st_rand st)). rewrite Ha. cbn [mbind option_bind].
    rewrite (tcp_syn_ack_in m (with_rand st' _) p _ len offset Hp Hp'). cbn [mbind option_bind].
    do 3 eexists. split; [done|]. split; [by apply closed_with_rand|]. split_and!; done.
  - do 3 eexists. split; [done|]. split_and!; done.
  - (* ACK *)
    run. unfold deref. rewrite Hcell. cbn [mbind option_bind]. fold (seg_ack m offset).
    destruct (_ =? _).
    + destruct (Hassign (ack_update t (seg_ack m offset)) eq_refl) as (st' & -> & Hc' & Ho & _ & Hs' & Hrn).
      cbn [mbind option_bind]. do 3 eexists. split; [done|]. split_and!; done.
    + do 3 eexists. split; [done|]. split_and!; done.
  - do 3 eexists. split; [done|]. split_and!; done.
  - (* RST *)
    run. unfold deref. rewrite Hcell. cbn [mbind option_bind]. fold (seg_seq m offset).
    destruct (rst_in_window t (seg_seq m offset)).
    + rewrite Hd'. cbn [mbind option_bind]. do 3 eexists. split; [done|]. split_and!; done.
    + do 3 eexists. split; [done|]. split_and!; done.
  - do 3 eexists. split; [done|]. split_and!; done.
  - rewrite (tcp_rst_step _ _ _ _ len) by done. cbn [fst snd tcp_output] in *.
    change (truth (Z.land (getf m offset tcp_flags) ACK)) with (has m offset ACK). rewrite (Hdef eq_refl).
    destruct (rst_values (e_junk env) m offset) as [[s a] f]. rewrite Hd'. cbn [mbind option_bind].
    do 3 eexists. split; [done|]. split_and!; done.
Qed.

Lemma tcp_dispatch_run env m st len offset :
  packet m len offset -> closed st -> Z.of_nat (size (conns st)) < TABLE_MAX ->
  (tcp_accepts m len offset = true ->
    reply_defined env m offset
      (con_step (env_iss env (st_rand st)) m offset (con_of (conns st) (seg_id m offset))).1) ->
  exists n m' st', tcp_dispatch env m st 0 len offset = Some (n, m', st') /\ closed st' /\
    ct_oom st' = ct_oom st /\ tcp_outcome env m len offset st n m' (conns st') (st_rand st').
Proof.
  intros Hp Hc Hmax Hdef. pose proof (packet_range _ _ _ Hp) as Hr.
  pose proof Hp as [Hb Hs _ _ _]. unfold MTU_SIZE in Hs. unfold tcp_dispatch. rewrite Z.add_0_l.
  rewrite tcp_checksum_in by (try done; lia). cbn [mbind option_bind]. run.
  fold (tcp_accepts m len offset). destruct (tcp_accepts m len offset) eqn:Hacc; cbn [negb].
  2:{ do 3 eexists. split; [done|]. split; [done|]. split; [done|]. by constructor. }
  run. fold (seg_id m offset). change (MkFlags _ _ _ _ _) with (seg_flags m offset).
  unfold tcp_parse_edge.
  destruct (find_or_create_spec st (seg_id m offset) Hc Hmax)
    as [(st' & Hfc & Hc' & Ho & Hs' & Hnone & Hn)|(p & st' & Hfc & Hc' & Ho & Hv & Hid & Hs')];
    rewrite Hfc; cbn [mbind option_bind].
  - apply find_or_create_rand in Hfc. do 3 eexists. split; [done|]. split; [done|]. split; [done|].
    rewrite Hs', Hfc. by constructor.
  - apply find_or_create_rand in Hfc. unfold deref. assert (h_cells (st_heap st') !! p = Some (con_of (conns st) (seg_id m offset)))
      as Hcell by exact Hv. rewrite Hcell. cbn [mbind option_bind].
    specialize (Hdef eq_refl). rewrite <- Hfc in Hdef.
    destruct (con_step_run env m st' p _ len offset (conns st) _ Hp Hc' Hv Hid Hs' eq_refl Hdef)
      as (n & m' & st'' & Hrun & Hc'' & Ho'' & Hout & Hs'' & Hrn). rewrite Hfc in Hout, Hs'', Hrn.
    exists n, m', st''. split; [exact Hrun|]. split; [done|]. split; [congruence|].
    pose proof (tcp_stepped env m len offset st Hacc) as Hst. unfold tcp_spec in Hst.
    destruct (con_step (env_iss env (st_rand st)) m offset (con_of (conns st) (seg_id m offset))) as [r o] eqn:E.
    cbn [fst snd] in *. rewrite <- Hout in Hst. cbn [fst snd] in Hst. rewrite Hs'', Hrn. exact Hst.
Qed.

Lemma tcp_dispatch_spec env m st len offset :
  packet m len offset -> settled (e_junk env) -> closed st -> Z.of_nat (size (conns st)) < TABLE_MAX ->
  exists n m' st', tcp_dispatch env m st 0 len offset = Some (n, m', st') /\ closed st' /\
    ct_oom st' = ct_oom st /\ tcp_outcome env m len offset st n m' (conns st') (st_rand st').
Proof. intros. apply tcp_dispatch_run; try done. intros _. by apply settled_reply. Qed.

(** An accepted segment for which a block is there, or can be had, runs the machine. *)
Lemma tcp_dispatch_accepted env m st len offset :
  packet m len offset -> closed st -> Z.of_nat (size (conns st)) < TABLE_MAX ->
  tcp_accepts m len offset = true ->
  is_Some (conns st !! seg_id m offset) \/ (forall k, ct_oom st k = false) ->
  reply_defined env m offset (con_step (env_iss env (st_rand st)) m offset (con_of (conns st) (seg_id m offset))).1 ->
  exists st', tcp_dispatch env m st 0 len offset
    = Some (tcp_output env m len offset (con_step (env_iss env (st_rand st)) m offset (con_of (conns st) (seg_id m offset))).1, st')
    /\ closed st' /\ ct_oom st' = ct_oom st
    /\ conns st' = partial_alter
         (fun _ => (con_step (env_iss env (st_rand st)) m offset (con_of (conns st) (seg_id m offset))).2)
         (seg_id m offset) (conns st)
    /\ st_rand st' = drawn (st_rand st)
         (con_step (env_iss env (st_rand st)) m offset (con_of (conns st) (seg_id m offset))).1.
Proof.
  intros Hp Hc Hmax Hacc Hor Hdef.
  destruct (tcp_dispatch_run env m st len offset Hp Hc Hmax (fun _ => Hdef)) as (n & m' & st' & Hrun & Hc' & Ho & Hout).
  exists st'. rewrite Hrun. remember (conns st') as M eqn:HM. remember (st_rand st') as g eqn:Hg.
  destruct Hout as [Hna|_ Hnone [k Hk]|_]; [congruence| |].
  - destruct Hor as [[t Ht]|Hall]; [congruence|]. by rewrite Hall in Hk.
  - unfold tcp_spec. destruct (con_step _ _ _ _) as [r o]. cbn [fst snd].
    destruct (tcp_output env m len offset r) as [n' m'']. cbn [fst snd]. done.
Qed.

(** The same for the block [t] of the connection, found or fresh. *)
Lemma tcp_dispatch_reply env m st len offset r o t :
  packet m len offset -> closed st -> Z.of_nat (size (conns st)) < TABLE_MAX ->
  tcp_accepts m len offset = true ->
  conns st !! seg_id m offset = Some t \/
  (conns st !! seg_id m offset = None /\ t = fresh_tcb (seg_id m offset) /\ forall k, ct_oom st k = false) ->
  con_step (env_iss env (st_rand st)) m offset t = (r, o) -> reply_defined env m offset r ->
  exists st', tcp_dispatch env m st 0 len offset = Some (tcp_output env m len offset r, st') /\
    closed st' /\ ct_oom st' = ct_oom st /\
    conns st' = partial_alter (fun _ => o) (seg_id m offset) (conns st) /\ st_rand st' = drawn (st_rand st) r.
Proof.
  intros Hp Hc Hmax Hacc Ht Hstep Hdef.
  assert (con_of (conns st) (seg_id m offset) = t) as Hcon
    by (unfold con_of; destruct Ht as [-> |(-> & -> & _)]; done).
  destruct (tcp_dispatch_accepted env m st len offset Hp Hc Hmax Hacc) as (st' & Hrun & H).
  - destruct Ht as [-> |(_ & _ & ?)]; eauto.
  - by rewrite Hcon, Hstep.
  - rewrite Hcon, Hstep in Hrun, H. eauto.
Qed.

(** The same readings, with some value where there was none: the call is the same, or it is
    a reset that reads a never-assigned local, and undefined. *)
Definition settle (env : Env) : Env :=
  MkEnv (e_sec env) (e_usec env) (settle_junk (e_junk env)).

Definition undefined_reset (env : Env) (m : bytes) (st : Store) (len offset : Z) : Prop :=
  tcp_accepts m len offset = true /\
  (con_step (env_iss env (st_rand st)) m offset (con_of (conns st) (seg_id m offset))).1 = Reset /\
  rst_reads (e_junk env) (has m offset ACK) = false.

Lemma tcp_dispatch_settle env m st len offset :
  packet m len offset -> closed st -> Z.of_nat (size (conns st)) < TABLE_MAX ->
  tcp_dispatch env m st 0 len offset = tcp_dispatch (settle env) m st 0 len offset \/
  (tcp_dispatch env m st 0 len offset = None /\ undefined_reset env m st len offset).
Proof.
  intros Hp Hc Hmax. pose proof (packet_range _ _ _ Hp) as Hr.
  pose proof Hp as [Hb Hs _ _ _]. unfold MTU_SIZE in Hs. unfold tcp_dispatch. rewrite !Z.add_0_l.
  rewrite tcp_checksum_in by (try done; lia). cbn [mbind option_bind]. run.
  fold (tcp_accepts m len offset). destruct (tcp_accepts m len offset) eqn:Hacc; cbn [negb]; [|by left].
  run. fold (seg_id m offset). change (MkFlags _ _ _ _ _) with (seg_flags m offset). unfold tcp_parse_edge.
  destruct (find_or_create_spec st (seg_id m offset) Hc Hmax)
    as [(st' & -> & _)|(p & st' & -> & _ & _ & Hv & _)]; cbn [mbind option_bind]; [by left|].
  unfold deref. assert (h_cells (st_heap st') !! p = Some (con_of (conns st) (seg_id m offset)))
    as Hcell by exact Hv. rewrite Hcell. cbn [mbind option_bind].
  change (tcb_state_update (settle env)) with (tcb_state_update env).
  destruct (parse_edge_state _ _ _) eqn:E;
    try (destruct (tcb_state_update env _ _ _ _ _) as [[[|] st1]|]; by left).
  cbn [decide Edge_eq_dec tcb_state_update mbind option_bind settle e_junk].
  destruct (decide _) as [|_]; [done|]. rewrite (tcp_rst_settle (e_junk env)) by done.
  change (truth (Z.land (getf m offset tcp_flags) ACK)) with (has m offset ACK).
  destruct (rst_reads _ _) eqn:Hrd; [by left|]. right. split; [done|]. split; [done|]. split; [|done].
  unfold con_step. by rewrite E.
Qed.

(** A defined call has one of the outcomes. *)
Lemma tcp_dispatch_defined env m st len offset n m' st' :
  packet m len offset -> closed st -> Z.of_nat (size (conns st)) < TABLE_MAX ->
  tcp_dispatch env m st 0 len offset = Some (n, m', st') ->
  tcp_outcome (settle env) m len offset st n m' (conns st') (st_rand st').
Proof.
  intros Hp Hc Hmax Hrun. destruct (tcp_dispatch_settle env m st len offset Hp Hc Hmax) as [Heq|[Hnone _]]; [|congruence].
  destruct (tcp_dispatch_spec (settle env) m st len offset Hp) as (? & ? & ? & Hrun' & _ & _ & Hout);
    [split_and!; cbn; eauto|done|done|].
  rewrite Heq, Hrun' in Hrun. by injection Hrun as -> -> ->.
Qed.

(** A connection's machine changes only the connection the segment names. *)
Lemma tcp_outcome_other env m len offset st n m' M g k :
  tcp_outcome env m len offset st n m' M g -> k <> seg_id m offset -> M !! k = conns st !! k.
Proof.
  intros [| |] Hk; [done|done|]. unfold tcp_spec. destruct (con_step _ _ _ _) as [r o]. cbn [fst snd].
  by rewrite lookup_partial_alter_ne.
Qed.

(** The reply fits the buffer and leaves a buffer of the same size. *)
Lemma tcp_output_bounds env m len offset r :
  packet m len offset ->
  0 <= (tcp_output env m len offset r).1 <= 120 /\
  length (tcp_output env m len offset r).2 = length m /\
  bytes_ok (tcp_output env m len offset r).2.
Proof.
  intros Hp. pose proof (packet_range _ _ _ Hp) as Hr. destruct Hp as [Hb Hs _ _ _].
  unfold MTU_SIZE in Hs. destruct (tcp_hlen_range m offset Hb) as [Hh _]; [lia|lia|].
  destruct r as [|t|]; cbn [tcp_output fst snd].
  - split; [lia|]. done.
  - split; [lia|]. split; [apply length_syn_ack_buf|auto with bytes].
  - destruct (rst_values (e_junk env) m offset) as [[s a] f]. cbn [fst snd].
    split; [lia|]. split; [apply length_rst_buf|now apply rst_buf_ok].
Qed.

Lemma tcp_outcome_bounds env m len offset st n m' M g :
  packet m len offset -> tcp_outcome env m len offset st n m' M g ->
  0 <= n <= 120 /\ length m' = length m /\ bytes_ok m'.
Proof.
  intros Hp [| |]; [| |by apply tcp_output_bounds]; destruct Hp; (split; [lia|done]).
Qed.

Lemma tcp_outcome_size env m len offset st n m' M g :
  tcp_outcome env m len offset st n m' M g -> (size M <= S (size (conns st)))%nat.
Proof.
  intros [| |]; [lia|lia|]. unfold tcp_spec. destruct (con_step _ _ _ _) as [r [t|]]; cbn [snd].
  - change (partial_alter _ _ _) with (<[seg_id m offset := t]> (conns st)).
    rewrite map_size_insert. destruct (conns st !! _); unfold id; lia.
  - change (partial_alter _ _ _) with (delete (seg_id m offset) (conns st)).
    rewrite map_size_delete. destruct (conns st !! _); unfold id; lia.
Qed.

(** ** The connection invariant *)

Record con_inv (id : ID) (t : TCB) : Prop := {
  ci_id : tcb_id t = id;
  ci_window : rcv_window (tcb_recv t) = TCP_WIN_DEF;
  ci_state :
    match tcb_state t with
    | CON_CLOSED => t = fresh_tcb id
    | CON_SYN_RECEIVED =>
        snd_next (tcb_send t) = u32 (snd_iss (tcb_send t) + 1) /\
        snd_unac (tcb_send t) = snd_iss (tcb_send t) /\
        rcv_next (tcb_recv t) = u32 (rcv_irs (tcb_recv t) + 1)
    | CON_ESTABLISHED =>
        snd_next (tcb_send t) = u32 (snd_iss (tcb_send t) + 1) /\
        snd_unac (tcb_send t) = snd_next (tcb_send t) /\
        rcv_next (tcb_recv t) = u32 (rcv_irs (tcb_recv t) + 1)
    | _ => False
    end;
}.

(** Every connection is for the listening port and sits under its own id. *)
Definition conns_ok (M : gmap ID TCB) : Prop :=
  forall id t, M !! id = Some t -> dst_port id = TCP_LISTEN_PORT /\ con_inv id t.

Lemma fresh_inv id : con_inv id (fresh_tcb id).
Proof. split; cbn; [apply fresh_tcb_id|done|done]. Qed.

Lemma con_of_inv M id : conns_ok M -> con_inv id (con_of M id).
Proof.
  intros HM. unfold con_of. destruct (M !! id) as [t|] eqn:E; cbn; [by apply HM|apply fresh_inv].
Qed.

Lemma con_step_inv iss m offset t :
  con_inv (seg_id m offset) t ->
  match (con_step iss m offset t).2 with
  | Some t' => dst_port (seg_id m offset) = TCP_LISTEN_PORT /\ con_inv (seg_id m offset) t'
  | None => True
  end.
Proof.
  intros Ht. unfold con_step. destruct (parse_edge_state _ _ _) eqn:E; apply parse_edge_inv in E;
    cbn [snd]; try (destruct E; split; done); try done.
  - destruct E as (Hport & Hst & _). split; [done|]. destruct Ht as [Hid Hw Hs].
    rewrite Hst in Hs. subst t. split; cbn; [done|done|done].
  - destruct E as (Hport & Hst & _). split; [done|].
    destruct (_ =? _) eqn:Eq; [|done]. apply Z.eqb_eq in Eq. destruct Ht as [Hid Hw Hs].
    rewrite Hst in Hs. destruct Hs as (Hn & Hu & Hr). split; cbn; [done|done|]. done.
  - destruct (rst_in_window _ _); [done|]. by destruct E.
Qed.

Lemma tcp_outcome_ok env m len offset st n m' M g :
  conns_ok (conns st) -> tcp_outcome env m len offset st n m' M g -> conns_ok M.
Proof.
  intros HM [| |]; [done|done|]. unfold tcp_spec.
  pose proof (con_step_inv (env_iss env (st_rand st)) m offset _ (con_of_inv _ (seg_id m offset) HM)) as Hinv.
  destruct (con_step _ _ _ _) as [r o]. cbn [fst snd] in *. intros id t.
  destruct (decide (seg_id m offset = id)) as [<-|Hne].
  - rewrite lookup_partial_alter_eq. intros ->. done.
  - rewrite lookup_partial_alter_ne by done. apply HM.
Qed.

(** How a connection's block can come out of a step: unchanged, opened by a SYN, or
    established by the acknowledgment of ISS + 1. *)
Lemma con_step_cases iss m offset t t' :
  con_inv (seg_id m offset) t -> (con_step iss m offset t).2 = Some t' ->
  t' = t \/
  (tcb_state t = CON_CLOSED /\ has m offset SYN = true /\ has m offset ACK = false /\
   has m offset RST = false /\ tcb_state t' = CON_SYN_RECEIVED /\
   snd_iss (tcb_send t') = iss) \/
  (tcb_state t = CON_SYN_RECEIVED /\ has m offset ACK = true /\ has m offset SYN = false /\
   has m offset RST = false /\ seg_ack m offset = u32 (snd_iss (tcb_send t) + 1) /\
   tcb_state t' = CON_ESTABLISHED /\ snd_iss (tcb_send t') = snd_iss (tcb_send t)).
Proof.
  intros Ht. unfold con_step. destruct (parse_edge_state _ _ _) eqn:E; apply parse_edge_inv in E;
    cbn [snd]; intros Heq; try done; try (left; congruence).
  - right; left. destruct E as (_ & Hs & Hsy & Ha & Hr). injection Heq as <-.
    unfold syn_update. cbn. rewrite Hs. cbn. done.
  - destruct E as (_ & Hs & Ha & Hsy & Hr). destruct (_ =? _) eqn:Eq; [|left; congruence].
    right; right. injection Heq as <-. apply Z.eqb_eq in Eq. destruct Ht as [_ _ Hc].
    rewrite Hs in Hc. destruct Hc as [Hn _]. split_and!; try done. congruence.
  - destruct (rst_in_window _ _); [done|left; congruence].
Qed.

(** Where a connection in the table after a call comes from. *)
Lemma tcp_outcome_con env m len offset st n m' M g id t' :
  tcp_outcome env m len offset st n m' M g -> M !! id = Some t' ->
  conns st !! id = Some t' \/
  (tcp_accepts m len offset = true /\ seg_id m offset = id /\
   (con_step (env_iss env (st_rand st)) m offset (con_of (conns st) id)).2 = Some t').
Proof.
  intros [| |Hacc]; [auto|auto|]. unfold tcp_spec.
  destruct (con_step (env_iss env (st_rand st)) m offset (con_of (conns st) (seg_id m offset))) as [r o] eqn:E. cbn [snd].
  destruct (decide (seg_id m offset = id)) as [<-|Hne].
  - rewrite lookup_partial_alter_eq. intros ->. right. rewrite E. done.
  - rewrite lookup_partial_alter_ne by done. auto.
Qed.

(** The two steps of the handshake. *)
Lemma con_step_syn iss m offset :
  dst_port (seg_id m offset) = TCP_LISTEN_PORT -> has m offset SYN = true ->
  has m offset ACK = false -> has m offset RST = false ->
  exists t, con_step iss m offset (fresh_tcb (seg_id m offset)) = (Syn_Ack t, Some t) /\
    tcb_state t = CON_SYN_RECEIVED /\
    snd_iss (tcb_send t) = iss /\
    snd_next (tcb_send t) = u32 (snd_iss (tcb_send t) + 1) /\
    rcv_next (tcb_recv t) = u32 (seg_seq m offset + 1).
Proof.
  intros Hport Hs Ha Hr. unfold con_step, parse_edge_state, seg_flags.
  rewrite Hport. cbn [fl_rst fl_syn fl_ack]. rewrite Hs, Ha, Hr. cbn.
  eexists. split; [done|]. cbn. done.
Qed.

Lemma con_step_ack iss m offset t :
  dst_port (seg_id m offset) = TCP_LISTEN_PORT -> tcb_state t = CON_SYN_RECEIVED ->
  has m offset ACK = true -> has m offset SYN = false -> has m offset RST = false ->
  seg_ack m offset = snd_next (tcb_send t) ->
  con_step iss m offset t = (Silent, Some (ack_update t (snd_next (tcb_send t)))).
Proof.
  intros Hport Hst Ha Hs Hr Hack. unfold con_step, parse_edge_state, seg_flags.
  rewrite Hport, Hst. cbn [fl_rst fl_syn fl_ack]. rewrite Hs, Ha, Hr, Hack, !Z.eqb_refl. done.
Qed.

(** A header addressed back to the sender, without payload and with window zero, the
    checksums as received. *)
Record rst_addressed (m m' : bytes) (offset : Z) : Prop := {
  ra_src : getf m' 0 ip_src = getf m 0 ip_dst;
  ra_dst : getf m' 0 ip_dst = getf m 0 ip_src;
  ra_sport : getf m' offset tcp_src_port = getf m offset tcp_dst_port;
  ra_dport : getf m' offset tcp_dst_port = getf m offset tcp_src_port;
  ra_len : ntohs (getf m' 0 ip_len) = offset + tcp_hlen_of m offset;
  ra_window : getf m' offset tcp_window = 0;
  ra_csums : getf m' offset tcp_csum = getf m offset tcp_csum /\ getf m' 0 ip_csum = getf m 0 ip_csum;
}.

Lemma rst_buf_fields m len offset s a f :
  packet m len offset ->
  let m' := rst_buf m offset s a f in
  rst_addressed m m' offset /\ getf m' offset tcp_flags = f mod 256 /\
  ntohl (getf m' offset tcp_seq_num) = u32 s /\ ntohl (getf m' offset tcp_ack_num) = u32 a.
Proof.
  intros Hp. pose proof (packet_range _ _ _ Hp) as Hr. destruct Hp as [Hb Hs _ _ _].
  unfold MTU_SIZE in Hs. destruct (tcp_hlen_range m offset Hb) as [Hh _]; [lia|lia|].
  destruct (swapped_src m 0 Hb) as [Hsrc Hdst]; [lia|lia|].
  destruct (ports_swapped_ports (swapped m 0) offset) as [Hsp Hdp]; [auto with bytes|lia|mem|].
  unfold rst_buf. cbv zeta. split; [split|split_and!].
  - pkt. unfold ports_swapped. pkt. done.
  - pkt. unfold ports_swapped. pkt. done.
  - pkt. rewrite Hsp. pkt. done.
  - pkt. rewrite Hdp. pkt. done.
  - pkt. rewrite bswap16_get. apply u16_id. lia.
  - pkt. done.
  - split; pkt; unfold ports_swapped; pkt; done.
  - pkt. done.
  - pkt. rewrite bswap32_get. apply u32_id, u32_range.
  - pkt. rewrite bswap32_get. apply u32_id, u32_range.
Qed.

(** ** Properties *)

(** C2 Functional correctness of [tcp_dispatch]: on every packet the network layer
    accepts and every table with no leaked block, and when reading the never-assigned
    locals of [tcp_rst] gives some value, the call is defined (no
    out-of-bounds access, no use of a dead or indeterminate pointer), leaves no leaked
    block, and does what the per-connection machine says: a segment with a wrong
    checksum is dropped, an accepted one runs the machine of its own connection, and
    the only other outcome is a refused allocation, which changes nothing. *)
Theorem tcp_dispatch_refines env m st len offset :
  packet m len offset -> settled (e_junk env) -> closed st -> Z.of_nat (size (conns st)) < TABLE_MAX ->
  exists n m' st', tcp_dispatch env m st 0 len offset = Some (n, m', st') /\ closed st' /\
    (0 <= n <= 120 /\ length m' = length m /\ bytes_ok m') /\
    tcp_outcome env m len offset st n m' (conns st') (st_rand st').
Proof.
  intros Hp Hset Hc Hmax.
  destruct (tcp_dispatch_spec env m st len offset Hp Hset Hc Hmax) as (n & m' & st' & Hrun & Hc' & _ & Hout).
  exists n, m', st'. pose proof (tcp_outcome_bounds _ _ _ _ _ _ _ _ _ Hp Hout). done.
Qed.

Definition sample_env : Env := MkEnv 0 1000 (MkJunk (Some 0) (Some 0) (Some 0)).

Lemma sample_settled : settled (e_junk sample_env).
Proof. split_and!; eexists; reflexivity. Qed.

Lemma tcp_dispatch_refines_witness :
  exists n m' st', tcp_dispatch sample_env (sample_tcp 8080 SYN 5000 0) (st_start plenty zeros) 0 40 20
    = Some (n, m', st') /\ n = 40.
Proof.
  destruct (tcp_dispatch_refines sample_env (sample_tcp 8080 SYN 5000 0) (st_start plenty zeros) 40 20)
    as (n & m' & st' & Hrun & _ & _ & Hout);
    [by_eval|exact sample_settled|apply st_start_closed|rewrite st_start_conns; done|].
  exists n, m', st'. split; [done|]. destruct Hout as [H|_ _ [k Hk]|_].
  - vm_compute in H. discriminate H.
  - vm_compute in Hk. discriminate Hk.
  - vm_compute. reflexivity.
Defined.

(** C6 The three-way handshake: a SYN without ACK or RST for the listening port, on a
    connection the table does not hold, is answered by a SYN-ACK addressed back to the
    client, from a fresh initial sequence number and acknowledging the client's plus one,
    with a valid IP header, and a valid TCP checksum when the SYN carried no payload; an
    ACK of our sequence number plus one then establishes the connection. *)
Theorem handshake_completes env env' m m2 st len offset len2 offset2 :
  packet m len offset -> packet m2 len2 offset2 ->
  closed st -> Z.of_nat (size (conns st)) + 1 < TABLE_MAX -> (forall k, ct_oom st k = false) ->
  dst_port (seg_id m offset) = TCP_LISTEN_PORT -> conns st !! seg_id m offset = None ->
  tcp_accepts m len offset = true ->
  has m offset SYN = true -> has m offset ACK = false -> has m offset RST = false ->
  seg_id m2 offset2 = seg_id m offset -> tcp_accepts m2 len2 offset2 = true ->
  has m2 offset2 ACK = true -> has m2 offset2 SYN = false -> has m2 offset2 RST = false ->
  seg_ack m2 offset2 = u32 (env_iss env (st_rand st) + 1) ->
  exists n m' t st' st'' t'',
    tcp_dispatch env m st 0 len offset = Some (n, m', st') /\
    syn_ack_of m m' t offset n /\
    snd_iss (tcb_send t) = env_iss env (st_rand st) /\
    rcv_next (tcb_recv t) = u32 (seg_seq m offset + 1) /\
    (len = n -> 20 <= tcp_hlen_of m offset -> tcp_verifies m' offset (n - offset)) /\
    tcp_dispatch env' m2 st' 0 len2 offset2 = Some (0, m2, st'') /\ closed st'' /\
    conns st'' !! seg_id m offset = Some t'' /\ tcb_state t'' = CON_ESTABLISHED /\
    snd_unac (tcb_send t'') = snd_next (tcb_send t'') /\
    rcv_next (tcb_recv t'') = u32 (seg_seq m offset + 1).
Proof.
  intros Hp Hp2 Hc Hmax Hoom Hport Hnone Hacc Hs Ha Hr Hid Hacc2 Ha2 Hs2 Hr2 Hack.
  destruct (con_step_syn (env_iss env (st_rand st)) m offset Hport Hs Ha Hr) as (t & Hstep & Hst & Hiss & Hnx & Hrx).
  destruct (tcp_dispatch_reply env m st len offset _ _ (fresh_tcb (seg_id m offset)) Hp Hc ltac:(lia) Hacc
    (or_intror (conj Hnone (conj eq_refl Hoom))) Hstep) as (st' & Hrun & Hc' & Ho' & Hs' & _); [done|].
  cbn [tcp_output] in Hrun.
  assert (conns st' !! seg_id m2 offset2 = Some t) as Ht
    by (rewrite Hs', Hid; apply lookup_partial_alter_eq).
  destruct (tcp_dispatch_reply env' m2 st' len2 offset2 Silent (Some (ack_update t (snd_next (tcb_send t)))) t Hp2 Hc')
    as (st'' & Hrun2 & Hc'' & _ & Hs'' & _).
  { rewrite Hs'. change (partial_alter _ _ _) with (<[seg_id m offset := t]> (conns st)).
    rewrite map_size_insert_None by done. lia. }
  { done. }
  { by left. }
  { apply con_step_ack; congruence. }
  { done. }
  do 5 eexists. exists (ack_update t (snd_next (tcb_send t))). split; [exact Hrun|].
  split; [by apply syn_ack_buf_spec|]. split; [done|]. split; [done|].
  split; [intros Hn Hh; rewrite <- Hn; apply syn_ack_buf_verifies; [done|lia]|].
  split; [exact Hrun2|]. split; [done|].
  split; [rewrite Hs'', Hid; rewrite lookup_partial_alter_eq; done|]. done.
Qed.

Lemma handshake_completes_witness :
  exists n m' t st' st'' t'',
    tcp_dispatch sample_env (sample_tcp 8080 SYN 5000 0) (st_start plenty zeros) 0 40 20 = Some (n, m', st') /\
    syn_ack_of (sample_tcp 8080 SYN 5000 0) m' t 20 n /\
    tcp_dispatch sample_env (sample_tcp 8080 ACK 5001 1001) st' 0 40 20
      = Some (0, sample_tcp 8080 ACK 5001 1001, st'') /\
    conns st'' !! seg_id (sample_tcp 8080 SYN 5000 0) 20 = Some t'' /\ tcb_state t'' = CON_ESTABLISHED.
Proof.
  destruct (handshake_completes sample_env sample_env (sample_tcp 8080 SYN 5000 0)
    (sample_tcp 8080 ACK 5001 1001) (st_start plenty zeros) 40 20 40 20)
    as (n & m' & t & st' & st'' & t'' & H1 & H2 & _ & _ & _ & H3 & _ & H4 & H5 & _);
    [by_eval|by_eval|apply st_start_closed|rewrite st_start_conns; done|done|vm_compute; reflexivity
    |by rewrite st_start_conns|vm_compute; reflexivity|vm_compute; reflexivity|vm_compute; reflexivity
    |vm_compute; reflexivity|vm_compute; reflexivity|vm_compute; reflexivity|vm_compute; reflexivity
    |vm_compute; reflexivity|vm_compute; reflexivity|vm_compute; reflexivity|].
  exists n, m', t, st', st'', t''. exact (conj H1 (conj H2 (conj H3 (conj H4 H5)))).
Defined.

(** C22 A SYN that carries data draws a SYN-ACK whose TCP checksum is that of a longer
    segment: the segment sent, which ends with the header, verifies exactly when the
    data's words and 256 times its length sum to a multiple of 65535. *)
Theorem syn_data_checksum env m st len offset :
  packet m len offset -> closed st -> Z.of_nat (size (conns st)) < TABLE_MAX -> (forall k, ct_oom st k = false) ->
  getf m 0 ip_proto = PROTO_TCP -> dst_port (seg_id m offset) = TCP_LISTEN_PORT ->
  conns st !! seg_id m offset = None -> tcp_accepts m len offset = true ->
  has m offset SYN = true -> has m offset ACK = false -> has m offset RST = false ->
  20 <= tcp_hlen_of m offset -> offset + tcp_hlen_of m offset <= len ->
  exists n m' st', tcp_dispatch env m st 0 len offset = Some (n, m', st') /\ n = offset + tcp_hlen_of m offset /\
    (tcp_verifies m' offset (n - offset) <-> (sum16 (rd m n (len - n)) + 256 * (len - n)) mod 65535 = 0).
Proof.
  intros Hp Hc Hmax Hoom Hproto Hport Hnone Hacc Hs Ha Hr Hh Hn.
  destruct (con_step_syn (env_iss env (st_rand st)) m offset Hport Hs Ha Hr) as (t & Hstep & _).
  destruct (tcp_dispatch_reply env m st len offset _ _ (fresh_tcb (seg_id m offset)) Hp Hc Hmax Hacc
    (or_intror (conj Hnone (conj eq_refl Hoom))) Hstep) as (st' & Hrun & _); [done|].
  do 3 eexists. split; [exact Hrun|]. split; [done|].
  apply syn_ack_buf_sent; try done. rewrite Hproto. done.
Qed.

Lemma syn_data_checksum_witness :
  exists m' st', tcp_dispatch sample_env sample_syn_data (st_start plenty zeros) 0 44 20 = Some (40, m', st') /\
    (tcp_verifies m' 20 20 -> False).
Proof.
  destruct (syn_data_checksum sample_env sample_syn_data (st_start plenty zeros) 44 20)
    as (n & m' & st' & H1 & -> & H2);
    [by_eval|apply st_start_closed|rewrite st_start_conns; done|done|vm_compute; reflexivity
    |vm_compute; reflexivity|by rewrite st_start_conns|vm_compute; reflexivity|vm_compute; reflexivity
    |vm_compute; reflexivity|vm_compute; reflexivity|vm_compute; discriminate|vm_compute; discriminate|].
  change (20 + tcp_hlen_of sample_syn_data 20) with 40 in *.
  exists m', st'. split; [exact H1|]. intros Hv%H2. vm_compute in Hv. discriminate Hv.
Defined.

(** Only an acknowledgment of our initial sequence number establishes a connection:
    when a segment turns a connection into an established one that was not, the
    connection had received a SYN, the segment carries ACK without SYN or RST, and it
    acknowledges ISS + 1; nothing else reaches that state. *)
Theorem established_by_ack iss m offset t r t' :
  con_inv (seg_id m offset) t ->
  con_step iss m offset t = (r, Some t') -> tcb_state t' = CON_ESTABLISHED ->
  t' = t \/
  (tcb_state t = CON_SYN_RECEIVED /\ has m offset ACK = true /\ has m offset SYN = false /\
   has m offset RST = false /\ seg_ack m offset = u32 (snd_iss (tcb_send t) + 1)).
Proof.
  intros Ht Hstep Hst. assert ((con_step iss m offset t).2 = Some t') as H2 by (by rewrite Hstep).
  destruct (con_step_cases iss m offset t t' Ht H2) as [|[(_&_&_&_&Hs&_)|(?&?&?&?&?&_)]];
    [by left|congruence|by right].
Qed.

Definition sample_received : TCB :=
  syn_update (fresh_tcb (MkID 40000 8080 167772161 167772162)) (htonl 5000) (htons 4096) 1000.

Lemma established_by_ack_witness :
  sample_received = ack_update sample_received 1001 \/ tcb_state sample_received = CON_SYN_RECEIVED.
Proof.
  destruct (established_by_ack 0 (sample_tcp 8080 ACK 5001 1001) 20 sample_received Silent
    (ack_update sample_received 1001)) as [H|[H _]].
  - split; vm_compute; auto.
  - vm_compute. reflexivity.
  - reflexivity.
  - left. symmetry. exact H.
  - right. exact H.
Defined.

(** C8 The connection table stays well formed: when every connection is for the
    listening port and is closed and pristine, half open with SND.NXT = ISS + 1,
    SND.UNA = ISS and RCV.NXT = IRS + 1, or established with SND.UNA = SND.NXT, the same
    holds after any call, for a packet of any contents. *)
Theorem tcp_dispatch_keeps_conns env m st len offset n m' st' :
  packet m len offset -> closed st -> Z.of_nat (size (conns st)) < TABLE_MAX ->
  conns_ok (conns st) -> tcp_dispatch env m st 0 len offset = Some (n, m', st') ->
  conns_ok (conns st') /\ (size (conns st') <= S (size (conns st)))%nat.
Proof.
  intros Hp Hc Hmax Hok Hrun.
  pose proof (tcp_dispatch_defined env m st len offset n m' st' Hp Hc Hmax Hrun) as Hout.
  split; [by eapply tcp_outcome_ok|by eapply tcp_outcome_size].
Qed.

Lemma tcp_dispatch_keeps_conns_witness :
  match tcp_dispatch sample_env (sample_tcp 8080 SYN 5000 0) (st_start plenty zeros) 0 40 20 with
  | Some (_, _, st') => conns_ok (conns st')
  | None => False
  end.
Proof.
  destruct (tcp_dispatch sample_env (sample_tcp 8080 SYN 5000 0) (st_start plenty zeros) 0 40 20)
    as [[[n m'] st']|] eqn:E; [|vm_compute in E; discriminate E].
  refine (proj1 (tcp_dispatch_keeps_conns sample_env (sample_tcp 8080 SYN 5000 0) (st_start plenty zeros)
    40 20 n m' st' _ _ _ _ E)); [by_eval|apply st_start_closed|rewrite st_start_conns; done|].
  rewrite st_start_conns. intros id t H. done.
Defined.

(** A segment touches only the connection it names: every other connection is the same
    after the call. *)
Theorem tcp_dispatch_isolates env m st len offset n m' st' k :
  packet m len offset -> closed st -> Z.of_nat (size (conns st)) < TABLE_MAX ->
  tcp_dispatch env m st 0 len offset = Some (n, m', st') -> k <> seg_id m offset ->
  conns st' !! k = conns st !! k.
Proof.
  intros Hp Hc Hmax Hrun Hk.
  pose proof (tcp_dispatch_defined env m st len offset n m' st' Hp Hc Hmax Hrun) as Hout.
  by eapply tcp_outcome_other.
Qed.

Lemma tcp_dispatch_isolates_witness :
  match tcp_dispatch sample_env (sample_tcp 8080 SYN 5000 0) (st_start plenty zeros) 0 40 20 with
  | Some (_, _, st') => conns st' !! MkID 1 8080 3 4 = None
  | None => False
  end.
Proof.
  destruct (tcp_dispatch sample_env (sample_tcp 8080 SYN 5000 0) (st_start plenty zeros) 0 40 20)
    as [[[n m'] st']|] eqn:E; [|vm_compute in E; discriminate E].
  rewrite (tcp_dispatch_isolates sample_env (sample_tcp 8080 SYN 5000 0) (st_start plenty zeros)
    40 20 n m' st' (MkID 1 8080 3 4)); [reflexivity|by_eval|apply st_start_closed
    |rewrite st_start_conns; done|exact E|vm_compute; discriminate].
Defined.

(** C14 A reset closes a connection exactly when its sequence number lies in the receive
    window, modulo 2^32; outside the window nothing changes.  Either way nothing is sent. *)
Theorem rst_needs_window env m st len offset t :
  packet m len offset -> closed st -> Z.of_nat (size (conns st)) < TABLE_MAX ->
  tcp_accepts m len offset = true -> conns st !! seg_id m offset = Some t ->
  dst_port (seg_id m offset) = TCP_LISTEN_PORT -> has m offset RST = true ->
  0 <= rcv_window (tcb_recv t) <= 2147483648 ->
  exists st', tcp_dispatch env m st 0 len offset = Some (0, m, st') /\
    conns st' = if (seg_seq m offset - rcv_next (tcb_recv t)) mod 4294967296
                   <? rcv_window (tcb_recv t)
                then delete (seg_id m offset) (conns st) else conns st.
Proof.
  intros Hp Hc Hmax Hacc Ht Hport Hr Hw.
  assert (con_step (env_iss env (st_rand st)) m offset t = (Silent, if rst_in_window t (seg_seq m offset) then None else Some t)) as Hstep
    by (unfold con_step, parse_edge_state, seg_flags; rewrite Hport; cbn [fl_rst]; by rewrite Hr).
  destruct (tcp_dispatch_reply env m st len offset _ _ t Hp Hc Hmax Hacc (or_introl Ht) Hstep)
    as (st' & Hrun & _ & _ & Hs' & _); [done|].
  exists st'. split; [exact Hrun|]. rewrite Hs'. unfold rst_in_window. rewrite seq_window by done.
  destruct (_ <? _); [done|]. change (<[seg_id m offset := t]> (conns st) = conns st).
  by apply insert_id.
Qed.

(** The state after the sample SYN. *)
Definition sample_half_open : Store :=
  match tcp_dispatch sample_env (sample_tcp 8080 SYN 5000 0) (st_start plenty zeros) 0 40 20 with
  | Some (_, _, st) => st
  | None => st_start plenty zeros
  end.

Lemma sample_half_open_spec :
  closed sample_half_open /\
  conns sample_half_open = {[seg_id (sample_tcp 8080 SYN 5000 0) 20 := sample_received]}.
Proof.
  unfold sample_half_open.
  destruct (tcp_dispatch_accepted sample_env (sample_tcp 8080 SYN 5000 0) (st_start plenty zeros) 40 20)
    as (st' & Hrun & Hc & _ & Hs & _);
    [by_eval|apply st_start_closed|rewrite st_start_conns; done|vm_compute; reflexivity|by right
    |apply settled_reply, sample_settled|].
  rewrite Hrun. destruct (tcp_output _ _ _ _ _) as [n m']. split; [done|]. rewrite Hs.
  rewrite st_start_conns. vm_compute. reflexivity.
Qed.

Lemma rst_needs_window_witness :
  exists st', tcp_dispatch sample_env (sample_tcp 8080 RST 5001 0) sample_half_open 0 40 20
    = Some (0, sample_tcp 8080 RST 5001 0, st') /\ conns st' = ∅.
Proof.
  destruct sample_half_open_spec as [Hc Hs].
  destruct (rst_needs_window sample_env (sample_tcp 8080 RST 5001 0) sample_half_open 40 20 sample_received)
    as (st' & Hrun & Hs');
    [by_eval|exact Hc|rewrite Hs, map_size_singleton; done|vm_compute; reflexivity
    |rewrite Hs; apply lookup_singleton_eq|vm_compute; reflexivity|vm_compute; reflexivity
    |vm_compute; split; discriminate|].
  exists st'. split; [exact Hrun|]. rewrite Hs', Hs. vm_compute. reflexivity.
Defined.

(** A segment for a port nobody listens on (memory permitting) draws a reset and
    leaves the table as it was: the block made for it is deleted again. *)
Theorem closed_port_resets env m st len offset :
  packet m len offset -> settled (e_junk env) -> closed st -> Z.of_nat (size (conns st)) < TABLE_MAX ->
  tcp_accepts m len offset = true -> (forall k, ct_oom st k = false) -> conns_ok (conns st) ->
  dst_port (seg_id m offset) <> TCP_LISTEN_PORT ->
  exists st', tcp_dispatch env m st 0 len offset = Some (tcp_output env m len offset Reset, st') /\
    closed st' /\ conns st' = conns st.
Proof.
  intros Hp Hset Hc Hmax Hacc Hoom Hok Hport.
  destruct (tcp_dispatch_accepted env m st len offset Hp Hc Hmax Hacc (or_intror Hoom) (settled_reply _ _ _ _ Hset))
    as (st' & Hrun & Hc' & _ & Hs' & _).
  unfold con_step, parse_edge_state in Hrun, Hs'.
  destruct (dst_port (seg_id m offset) =? TCP_LISTEN_PORT) eqn:E; [lia|]. cbn [negb fst snd] in Hrun, Hs'.
  exists st'. split; [exact Hrun|]. split; [done|]. rewrite Hs'.
  change (delete (seg_id m offset) (conns st) = conns st).
  apply delete_id. destruct (conns st !! seg_id m offset) as [t|] eqn:Hl; [|done].
  by destruct (Hok _ _ Hl).
Qed.

Lemma closed_port_resets_witness :
  exists m' st', tcp_dispatch sample_env (sample_tcp 81 SYN 5000 0) (st_start plenty zeros) 0 40 20
    = Some (40, m', st') /\ conns st' = ∅.
Proof.
  destruct (closed_port_resets sample_env (sample_tcp 81 SYN 5000 0) (st_start plenty zeros) 40 20)
    as (st' & Hrun & _ & Hs);
    [by_eval|exact sample_settled|apply st_start_closed|rewrite st_start_conns; done|vm_compute; reflexivity|done
    |intros id t H; done|vm_compute; discriminate|].
  exists (tcp_output sample_env (sample_tcp 81 SYN 5000 0) 40 20 Reset).2, st'.
  split; [|rewrite Hs; apply st_start_conns]. rewrite Hrun. reflexivity.
Defined.

(** C21 A SYN on a half-open connection (the client's retransmission, for one) does not
    draw a second SYN-ACK: the connection is reset and forgotten. *)
Theorem syn_retransmission_resets env m st len offset t :
  packet m len offset -> settled (e_junk env) -> closed st -> Z.of_nat (size (conns st)) < TABLE_MAX ->
  tcp_accepts m len offset = true -> conns st !! seg_id m offset = Some t ->
  tcb_state t = CON_SYN_RECEIVED -> has m offset SYN = true -> has m offset RST = false ->
  exists st', tcp_dispatch env m st 0 len offset = Some (tcp_output env m len offset Reset, st') /\
    conns st' = delete (seg_id m offset) (conns st).
Proof.
  intros Hp Hset Hc Hmax Hacc Ht Hst Hs Hr.
  assert (con_step (env_iss env (st_rand st)) m offset t = (Reset, None)) as Hstep.
  { unfold con_step, parse_edge_state, seg_flags. rewrite Hst. cbn [fl_rst fl_syn fl_ack].
    rewrite Hs, Hr, andb_false_r. by destruct (dst_port _ =? _). }
  destruct (tcp_dispatch_reply env m st len offset _ _ t Hp Hc Hmax Hacc (or_introl Ht) Hstep)
    as (st' & Hrun & _ & _ & Hs' & _); [by apply settled_reply|]. eauto.
Qed.

Lemma syn_retransmission_resets_witness :
  exists m' st', tcp_dispatch sample_env (sample_tcp 8080 SYN 5000 0) sample_half_open 0 40 20
    = Some (40, m', st') /\ conns st' = ∅.
Proof.
  destruct sample_half_open_spec as [Hc Hs].
  destruct (syn_retransmission_resets sample_env (sample_tcp 8080 SYN 5000 0) sample_half_open 40 20
    sample_received) as (st' & Hrun & Hs');
    [by_eval|exact sample_settled|exact Hc|rewrite Hs, map_size_singleton; done|vm_compute; reflexivity
    |rewrite Hs; apply lookup_singleton_eq|reflexivity|vm_compute; reflexivity|vm_compute; reflexivity|].
  exists (tcp_output sample_env (sample_tcp 8080 SYN 5000 0) 40 20 Reset).2, st'.
  split; [rewrite Hrun; reflexivity|]. rewrite Hs', Hs. vm_compute. reflexivity.
Defined.

(** C16 The checksum test of [tcp_dispatch] is the receiver's check of RFC 793, with one
    exception: [tcp_checksum] leaves the buffer as it was and returns the value of the
    checksum field exactly when the segment's ones' complement sum under the pseudo header
    verifies and the field is not 0xFFFF; any other segment is dropped, whatever it is, and
    a segment that passes runs the machine of its connection when a block for it is there
    or can be had, and is answered with that machine's reply. *)
Theorem tcp_accepts_verified env m st len offset :
  packet m len offset -> settled (e_junk env) -> closed st -> Z.of_nat (size (conns st)) < TABLE_MAX ->
  offset + 18 <= len -> 0 < getf m 0 ip_proto ->
  let good := tcp_verifies m offset (len - offset) /\ getf m offset tcp_csum <> 65535 in
  let step := con_step (env_iss env (st_rand st)) m offset (con_of (conns st) (seg_id m offset)) in
  (exists valid, tcp_checksum m 0 len offset = Some (valid, m) /\ (getf m offset tcp_csum = valid <-> good)) /\
  (~ good -> tcp_dispatch env m st 0 len offset = Some (0, m, st)) /\
  (good -> is_Some (conns st !! seg_id m offset) \/ (forall k, ct_oom st k = false) ->
   exists st', tcp_dispatch env m st 0 len offset = Some (tcp_output env m len offset step.1, st') /\
     conns st' = partial_alter (fun _ => step.2) (seg_id m offset) (conns st)).
Proof.
  intros Hp Hset Hc Hmax Hl Hproto good step. pose proof (packet_range _ _ _ Hp) as Hr.
  pose proof Hp as [Hb Hs _ _ _]. unfold MTU_SIZE in Hs.
  assert (getf m offset tcp_csum = tcp_sum m offset (len - offset) <-> good) as Hiff
    by (apply tcp_sum_iff; try done; lia).
  assert (tcp_checksum m 0 len offset = Some (tcp_sum m offset (len - offset), m)) as Hck
    by (apply tcp_checksum_in; try done; lia).
  split; [by eexists|]. split.
  - intros Hbad. unfold tcp_dispatch. rewrite Hck, Z.add_0_l. cbn [mbind option_bind]. run.
    destruct (getf m offset tcp_csum =? tcp_sum m offset (len - offset)) eqn:E; [|done].
    apply Z.eqb_eq in E. tauto.
  - intros Hgood Hor. assert (tcp_accepts m len offset = true) as Hacc by (apply Z.eqb_eq; tauto).
    destruct (tcp_dispatch_accepted env m st len offset Hp Hc Hmax Hacc Hor) as (st' & H1 & _ & _ & H2 & _);
      [by apply settled_reply|]. eauto.
Qed.

Lemma tcp_accepts_verified_witness :
  tcp_verifies (sample_tcp 8080 SYN 5000 0) 20 20 /\
  exists r st', tcp_dispatch sample_env (sample_tcp 8080 SYN 5000 0) (st_start plenty zeros) 0 40 20 = Some (r, st').
Proof.
  destruct (tcp_accepts_verified sample_env (sample_tcp 8080 SYN 5000 0) (st_start plenty zeros) 40 20)
    as ((v & H1 & H2) & _ & H3);
    [by_eval|exact sample_settled|apply st_start_closed|rewrite st_start_conns; done|lia|vm_compute; reflexivity|].
  assert (getf (sample_tcp 8080 SYN 5000 0) 20 tcp_csum = v) as Hv.
  { apply (f_equal (fmap fst)) in H1. vm_compute in H1. injection H1 as <-. vm_compute. reflexivity. }
  apply H2 in Hv. destruct (H3 Hv) as (st' & H4 & _); [right; done|].
  split; [exact (proj1 Hv)|]. eexists _, st'. exact H4.
Defined.

(** C25 The reset [tcp_rst] builds, for a connection of the table.  It reads a local it has
    not assigned on every path, [ack_no] for a segment with ACK, [seq_no] and [pl_flags]
    for one without, and is undefined when such a read is.  When the reads give values it
    is defined, forgets the connection and leaves a header without payload addressed back
    to the sender, window zero, with both checksums as received.  With ACK: RST only, its
    sequence number the first two bytes of the acknowledgment number (through [htons]),
    not that number, and its acknowledgment number the stack's word.  Without: it
    acknowledges the whole segment, SYN and FIN counted, and its sequence number and its
    flags are the stack's words. *)
Theorem rst_reply_fields junk m st p t len offset :
  packet m len offset -> closed st -> ct_vals st !! p = Some t ->
  let hlen := tcp_hlen_of m offset in
  let seg_len := ntohs (getf m 0 ip_len) - offset - hlen +
                 (Z.b2z (has m offset FIN) + Z.b2z (has m offset SYN)) in
  match has m offset ACK, j_seq_no junk, j_ack_no junk, j_pl_flags junk with
  | true, _, Some stack_ack, _ =>
      exists m' st', tcp_rst junk m st (Some p) 0 len offset = Some (offset + hlen, m', st') /\
        closed st' /\ conns st' = delete (tcb_id t) (conns st) /\ rst_addressed m m' offset /\
        getf m' offset tcp_flags = RST /\
        ntohl (getf m' offset tcp_seq_num) = ntohs (getf m offset tcp_ack_num) /\
        ntohl (getf m' offset tcp_ack_num) = u32 stack_ack
  | false, Some stack_seq, _, Some stack_flags =>
      exists m' st', tcp_rst junk m st (Some p) 0 len offset = Some (offset + hlen, m', st') /\
        closed st' /\ conns st' = delete (tcb_id t) (conns st) /\ rst_addressed m m' offset /\
        getf m' offset tcp_flags = stack_flags mod 256 /\
        ntohl (getf m' offset tcp_seq_num) = u32 stack_seq /\
        ntohl (getf m' offset tcp_ack_num) = u32 (seg_seq m offset + seg_len)
  | _, _, _, _ => tcp_rst junk m st (Some p) 0 len offset = None
  end.
Proof.
  intros Hp Hc Hv hlen seg_len. destruct (delete_conns st p t Hc Hv) as (std & Hd & Hcd & _ & _ & Hsd).
  rewrite (tcp_rst_step _ _ _ _ len) by done. unfold rst_values, rst_reads.
  change (truth (Z.land (getf m offset tcp_flags) ACK)) with (has m offset ACK).
  change (truth (Z.land (getf m offset tcp_flags) FIN)) with (has m offset FIN).
  change (truth (Z.land (getf m offset tcp_flags) SYN)) with (has m offset SYN).
  assert (hash_delete st p = Some std) as Hd' by exact Hd. rewrite Hd'. cbn [mbind option_bind].
  pose proof (rst_buf_fields m len offset) as Hf.
  destruct (has m offset ACK), (j_seq_no junk) as [s|], (j_ack_no junk) as [a|], (j_pl_flags junk) as [f|];
    try done; do 2 eexists; (split; [done|]); (split; [done|]); (split; [done|]);
    cbn [default from_option];
    (edestruct Hf as (Hadr & H1 & H2 & H3); [done|]; rewrite H1, H2, H3; split; [exact Hadr|]);
    (split; [done|]); (split; [|try done]);
    try (pose proof (bswap16_range (getf m offset tcp_ack_num)); by rewrite u32_id by lia);
    try done; rewrite u32_s32, (u32_id (u32 _)) by apply u32_range; done.
Qed.

Lemma rst_reply_fields_witness :
  (exists m' st', tcp_rst (MkJunk None (Some 77) None) (sample_tcp 8080 ACK 5000 305419896)
     sample_half_open (Some 0%nat) 0 40 20 = Some (40, m', st') /\
     getf m' 20 tcp_flags = RST /\ ntohl (getf m' 20 tcp_ack_num) = 77) /\
  tcp_rst (MkJunk None None None) (sample_tcp 8080 ACK 5000 305419896)
    sample_half_open (Some 0%nat) 0 40 20 = None.
Proof.
  assert (ct_vals sample_half_open !! 0%nat = Some sample_received) as Hv by (vm_compute; reflexivity).
  assert (packet (sample_tcp 8080 ACK 5000 305419896) 40 20) as Hp by by_eval.
  assert (has (sample_tcp 8080 ACK 5000 305419896) 20 ACK = true) as Hack by (vm_compute; reflexivity).
  pose proof (rst_reply_fields (MkJunk None (Some 77) None) _ _ _ _ _ _ Hp (proj1 sample_half_open_spec) Hv) as H.
  pose proof (rst_reply_fields (MkJunk None None None) _ _ _ _ _ _ Hp (proj1 sample_half_open_spec) Hv) as H'.
  rewrite Hack in H, H'. cbn [j_seq_no j_ack_no j_pl_flags] in H, H'. cbv zeta in H, H'.
  split; [|exact H']. destruct H as (m' & st' & H1 & _ & _ & _ & H2 & _ & H3).
  exists m', st'. exact (conj H1 (conj H2 H3)).
Defined.
