(* ===== verification/Network.v ===== *)
(** * Protocol dispatch

    [net_demux] of [refactor/network/network.c]: validation of the received packet and
    the choice of its handler. *)
From S2P Require Import Prelude Memory Checksum Ip Icmp TcpHeader Heap Tcb Vector Table Hash Segment Samples Tcp.

Definition net_demux (env : Env) (m : bytes) (st : Store) (buf len : Z) : option (Z * bytes * Store) :=
  let ip := buf in
  valid ← ip_validate m ip len;
  if negb (truth valid) then Some (0, m, st) else
  proto ← get m ip ip_proto;
  vi ← get m ip ip_version_ihl;
  let ihl := Z.land vi 15 * 4 in
  if proto =? PROTO_ICMP then
    '(n, m) ← icmp_dispatch m buf len ihl;
    Some (n, m, st)
  else if proto =? PROTO_TCP then tcp_dispatch env m st buf len ihl
  else
    '(n, m) ← icmp_dest_unreachable m buf len ihl;
    Some (n, m, st).

(** ** Specification *)

(** What becomes of a packet of [len] bytes: it is dropped, echoed, handed to TCP or
    refused with a protocol-unreachable error. *)
Inductive net_outcome (env : Env) (m : bytes) (len : Z) (st : Store)
    : Z -> bytes -> gmap ID TCB -> Rand -> Prop :=
  | net_invalid :
      ~ ip_valid m 0 len -> net_outcome env m len st 0 m (conns st) (st_rand st)
  | net_echo m' :
      ip_valid m 0 len -> getf m 0 ip_proto = PROTO_ICMP ->
      echo_request m (ihl_of m 0) (len - ihl_of m 0) ->
      echo_reply_of m m' len (ihl_of m 0) ->
      net_outcome env m len st len m' (conns st) (st_rand st)
  | net_icmp_ignored :
      ip_valid m 0 len -> getf m 0 ip_proto = PROTO_ICMP ->
      ~ echo_request m (ihl_of m 0) (len - ihl_of m 0) ->
      net_outcome env m len st 0 m (conns st) (st_rand st)
  | net_tcp n m' M g :
      ip_valid m 0 len -> getf m 0 ip_proto = PROTO_TCP ->
      tcp_outcome env m len (ihl_of m 0) st n m' M g ->
      net_outcome env m len st n m' M g
  | net_unreachable n m' :
      ip_valid m 0 len -> getf m 0 ip_proto <> PROTO_ICMP -> getf m 0 ip_proto <> PROTO_TCP ->
      unreachable_of m m' len (ihl_of m 0) n ->
      net_outcome env m len st n m' (conns st) (st_rand st).

(** A valid TCP packet of [len] bytes for connection [id]. *)
Definition packet_for (m : bytes) (len : Z) (id : ID) : Prop :=
  ip_valid m 0 len /\ getf m 0 ip_proto = PROTO_TCP /\
  tcp_accepts m len (ihl_of m 0) = true /\ seg_id m (ihl_of m 0) = id.

(** ** Lemmas *)

Lemma net_demux_invalid env m st len :
  bytes_ok m -> Z.of_nat (length m) = MTU_SIZE -> len <= MTU_SIZE -> ~ ip_valid m 0 len ->
  net_demux env m st 0 len = Some (0, m, st).
Proof.
  intros Hb Hs Hl Hv. unfold net_demux.
  destruct (ip_validate_total m 0 len) as (r & -> & [-> | ->] & Hiff); [done|lia|lia|done|tauto].
Qed.

(** A valid packet goes to the handler of its protocol. *)
Lemma net_demux_packet env m st len :
  packet m len (ihl_of m 0) ->
  net_demux env m st 0 len =
    let offset := ihl_of m 0 in
    if getf m 0 ip_proto =? PROTO_ICMP then
      Some (if decide (echo_request m offset (len - offset)) then (len, echo_buf m len offset) else (0, m), st)
    else if getf m 0 ip_proto =? PROTO_TCP then tcp_dispatch env m st 0 len offset
    else Some (unreach_len len offset, unreach_buf m len offset, st).
Proof.
  intros Hp. pose proof Hp as [Hb Hs Hl Hv _]. pose proof (packet_range _ _ _ Hp) as Hrange.
  unfold MTU_SIZE in *. unfold net_demux.
  destruct (ip_validate_total m 0 len) as (r & -> & Hr & Hiff); [done|lia|lia|].
  assert (r = 1) as -> by tauto. cbn [mbind option_bind truth Z.eqb negb]. run.
  change (Z.land (getf m 0 ip_version_ihl) 15 * 4) with (ihl_of m 0). cbv zeta.
  destruct (_ =? PROTO_ICMP); [|destruct (_ =? PROTO_TCP)]; [|done|].
  - rewrite icmp_dispatch_in by done. by destruct (decide _).
  - by rewrite icmp_dest_unreachable_in.
Qed.

Lemma net_demux_spec env m st len :
  settled (e_junk env) -> bytes_ok m -> Z.of_nat (length m) = MTU_SIZE -> len <= MTU_SIZE ->
  closed st -> Z.of_nat (size (conns st)) < TABLE_MAX ->
  exists n m' st', net_demux env m st 0 len = Some (n, m', st') /\ closed st' /\
    ct_oom st' = ct_oom st /\
    (n <= MTU_SIZE /\ length m' = length m /\ bytes_ok m') /\
    net_outcome env m len st n m' (conns st') (st_rand st').
Proof.
  intros Hset Hb Hs Hl Hc Hmax. destruct (decide (ip_valid m 0 len)) as [Hv|Hv].
  2:{ rewrite net_demux_invalid by done. do 3 eexists. split; [done|]. split; [done|]. split; [done|].
      split; [unfold MTU_SIZE; split; [lia|done]|]. by constructor. }
  assert (packet m len (ihl_of m 0)) as Hp by by split.
  pose proof (packet_range _ _ _ Hp) as Hrange. unfold MTU_SIZE in *. rewrite (net_demux_packet _ _ _ _ Hp).
  cbv zeta. destruct (_ =? PROTO_ICMP) eqn:Ei; [|destruct (_ =? PROTO_TCP) eqn:Et].
  - apply Z.eqb_eq in Ei. destruct (decide _) as [He|He].
    + do 3 eexists. split; [done|]. split; [done|]. split; [done|].
      split; [split; [lia|by apply echo_buf_bounds]|]. econstructor; try done.
      apply echo_buf_spec; [by apply packet_framed|]. destruct He as [[H8 _] _]. lia.
    + do 3 eexists. split; [done|]. split; [done|]. split; [done|]. split; [split; [lia|done]|].
      by constructor.
  - apply Z.eqb_eq in Et.
    destruct (tcp_dispatch_spec env m st len (ihl_of m 0) Hp Hset Hc Hmax)
      as (n & m' & st' & Hrun & Hc' & Ho & Hout).
    exists n, m', st'. split; [done|]. split; [done|]. split; [done|].
    pose proof (tcp_outcome_bounds _ _ _ _ _ _ _ _ _ Hp Hout) as (Hn & Hlen & Hb').
    split; [split; [lia|done]|]. by constructor.
  - do 3 eexists. split; [done|]. split; [done|]. split; [done|].
    split; [split; [unfold unreach_len; lia|by apply unreach_buf_bounds]|].
    constructor; [done|lia|lia|]. by apply unreach_buf_spec.
Qed.

(** The call reads no never-assigned local, or it answers a TCP segment with a reset, and
    is undefined. *)
Lemma net_demux_settle env m st len :
  bytes_ok m -> Z.of_nat (length m) = MTU_SIZE -> len <= MTU_SIZE ->
  closed st -> Z.of_nat (size (conns st)) < TABLE_MAX ->
  net_demux env m st 0 len = net_demux (settle env) m st 0 len \/
  (net_demux env m st 0 len = None /\ ip_valid m 0 len /\ getf m 0 ip_proto = PROTO_TCP /\
   undefined_reset env m st len (ihl_of m 0)).
Proof.
  intros Hb Hs Hl Hc Hmax. destruct (decide (ip_valid m 0 len)) as [Hv|Hv]; [|left; by rewrite !net_demux_invalid].
  assert (packet m len (ihl_of m 0)) as Hp by by split.
  rewrite !(net_demux_packet _ _ _ _ Hp). cbv zeta.
  destruct (_ =? PROTO_ICMP); [by left|]. destruct (_ =? PROTO_TCP) eqn:Et; [|by left]. apply Z.eqb_eq in Et.
  destruct (tcp_dispatch_settle env m st len (ihl_of m 0) Hp Hc Hmax) as [?|[? ?]]; [by left|by right].
Qed.

Lemma net_outcome_ok env m len st n m' M g :
  conns_ok (conns st) -> net_outcome env m len st n m' M g -> conns_ok M.
Proof. intros Hok [| | |? ? ? ? _ _ Hout|]; try done. by eapply tcp_outcome_ok. Qed.

Lemma net_outcome_size env m len st n m' M g :
  net_outcome env m len st n m' M g -> (size M <= S (size (conns st)))%nat.
Proof. intros [| | |? ? ? ? _ _ Hout|]; try lia. by eapply tcp_outcome_size. Qed.

(** A connection in the table after a packet was there before, or the packet is a TCP
    segment whose step left it. *)
Lemma net_outcome_con env m len st n m' M g id t' :
  net_outcome env m len st n m' M g -> M !! id = Some t' ->
  conns st !! id = Some t' \/
  (packet_for m len id /\ (con_step (env_iss env (st_rand st)) m (ihl_of m 0) (con_of (conns st) id)).2 = Some t').
Proof.
  intros [| | |? ? ? ? Hv Hpr Hout|] Hl; auto.
  destruct (tcp_outcome_con _ _ _ _ _ _ _ _ _ _ _ Hout Hl) as [?|(Hacc & Hid & Hs)]; [auto|].
  right. done.
Qed.
