(* ===== verification/Log.v ===== *)
(** * The debug log

    [refactor/log/log.c] and [log.h]: an event is a packed struct of 1511 bytes written
    to a FIFO; [log.py] reads it back. *)
From S2P Require Import Prelude Memory Checksum Ip Samples.

Definition LOG_READ : Z := 1.
Definition LOG_WRITE : Z := 0.
Definition LOG_SHUTDOWN : Z := 2.

(** ** The packed struct [Event] *)

Definition evt_dir : field := Field 0 1.
Definition evt_timestamp_ns : field := Field 1 8.
Definition evt_tu_len : field := Field 9 2.
Definition evt_tu : Z := 11.
#[export] Hint Unfold evt_dir evt_timestamp_ns evt_tu_len : fields.
Definition sizeof_Event : Z := evt_tu + MTU_SIZE.

(** Readings of the environment during one call: the clock, and what [write] returns. *)
Record Log_Env := MkLogEnv { l_sec : Z; l_nsec : Z; l_result : Z }.

(** ** Operations *)

Definition VERBOSE (log : Z) : bool := -1 <? log.

Definition log_time (env : Log_Env) : Z :=
  u64 (u64 (u64 (l_sec env) * 1000000000) + u64 (l_nsec env)).

(** The bytes written and the new [g_log_fd]; [tu] is a pointer into [m] or null. *)
Definition log_event (env : Log_Env) (m : bytes) (tu : option Z) (len dir fd : Z)
    : option (bytes * Z) :=
  let event := replicate (Z.to_nat sizeof_Event) 0 in
  event ← set event 0 evt_dir (u8 dir);
  event ← set event 0 evt_timestamp_ns (log_time env);
  event ← set event 0 evt_tu_len (u16 len);
  event ← match tu with
          | Some p => data ← load_bytes m p (u16 len); store_bytes event evt_tu data
          | None => Some event
          end;
  Some (event, if l_result env =? -1 then -1 else fd).

(** The macro: the events written (at most one) and the new [g_log_fd]. *)
Definition LOG_EVENT (env : Log_Env) (g_log_fd : Z) (m : bytes) (tu : option Z) (len dir : Z)
    : option (list bytes * Z) :=
  if VERBOSE g_log_fd then
    '(event, fd) ← log_event env m tu len dir g_log_fd;
    Some ([event], fd)
  else Some ([], g_log_fd).

(** ** The reader

    [display_event] of [log.py]: direction, timestamp, length and packet. *)
Definition parse_event (event : bytes) : option (Z * Z * Z * bytes) :=
  if Z.of_nat (length event) =? sizeof_Event then
    let tu_len := getf event 0 evt_tu_len in
    Some (getf event 0 evt_dir, getf event 0 evt_timestamp_ns, tu_len, rd event evt_tu tu_len)
  else None.

(** ** Lemmas *)

Definition event_buf (env : Log_Env) (data : bytes) (len dir : Z) : bytes :=
  let event := replicate (Z.to_nat sizeof_Event) 0 in
  let event := setf event 0 evt_dir (u8 dir) in
  let event := setf event 0 evt_timestamp_ns (log_time env) in
  let event := setf event 0 evt_tu_len (u16 len) in
  upd event evt_tu data.

Lemma length_event_head env len dir :
  Z.of_nat (length (setf (setf (setf (replicate (Z.to_nat sizeof_Event) 0) 0 evt_dir (u8 dir))
     0 evt_timestamp_ns (log_time env)) 0 evt_tu_len (u16 len))) = 1511.
Proof. rewrite !length_setf, length_replicate. reflexivity. Qed.

Lemma log_event_in env m p len dir fd :
  0 <= p -> 0 <= len <= MTU_SIZE -> p + len <= Z.of_nat (length m) ->
  log_event env m (Some p) len dir fd
  = Some (event_buf env (rd m p len) len dir, if l_result env =? -1 then -1 else fd).
Proof.
  intros Hp Hl Hr. unfold MTU_SIZE in Hl. unfold log_event, event_buf.
  pose proof (length_event_head env len dir) as Hlen.
  assert (Z.of_nat (length (replicate (Z.to_nat sizeof_Event) 0)) = 1511) as Hl0
    by (rewrite length_replicate; reflexivity).
  set (e0 := replicate _ 0) in *. clearbody e0. rewrite !length_setf in Hlen.
  run. rewrite u16_id by lia.
  unfold load_bytes. rewrite (proj2 (in_range_true m p len)) by lia. cbn [mbind option_bind].
  unfold store_bytes. rewrite (proj2 (in_range_true _ _ _)); [done|].
  rewrite !length_setf, length_rd by lia. unfold evt_tu. lia.
Qed.

Lemma log_event_null env m dir fd :
  log_event env m None 0 dir fd
  = Some (event_buf env [] 0 dir, if l_result env =? -1 then -1 else fd).
Proof.
  unfold log_event, event_buf.
  assert (Z.of_nat (length (replicate (Z.to_nat sizeof_Event) 0)) = 1511) as Hl0
    by (rewrite length_replicate; reflexivity).
  set (e0 := replicate _ 0) in *. clearbody e0. run. done.
Qed.

Lemma length_event_buf env data len dir : Z.of_nat (length (event_buf env data len dir)) = 1511.
Proof. unfold event_buf. cbv zeta. rewrite length_upd. apply length_event_head. Qed.

Lemma event_buf_parse env data len dir :
  len = Z.of_nat (length data) -> len <= MTU_SIZE ->
  parse_event (event_buf env data len dir) = Some (u8 dir, log_time env, len, data).
Proof.
  intros Hlen Hl. unfold MTU_SIZE in Hl. unfold parse_event.
  rewrite length_event_buf. change (1511 =? sizeof_Event) with true. cbv iota zeta.
  pose proof (length_event_head env len dir) as Hh. unfold event_buf.
  assert (Z.of_nat (length (replicate (Z.to_nat sizeof_Event) 0)) = 1511) as Hl0
    by (rewrite length_replicate; reflexivity).
  set (e0 := replicate _ 0) in *. clearbody e0. unfold evt_tu. rewrite !length_setf in Hh.
  assert (0 <= log_time env < 18446744073709551616) as Ht
    by (unfold log_time, u64; apply Z.mod_pos_bound; lia).
  pose proof (u8_range dir) as Hd. pose proof (u16_range len) as Hu.
  fields. rewrite (Z.mod_small (u16 len)) by exact Hu. rewrite (Z.mod_small (log_time env)) by exact Ht.
  rewrite (Z.mod_small (u8 dir)) by exact Hd. rewrite u16_id by lia.
  do 2 f_equal. rewrite Hlen. apply rd_upd_same; mem.
Qed.

(** ** Properties *)

(** The log round trip: what [log_event] writes for a packet of at most [MTU_SIZE]
    bytes is defined, has the size of the struct, and [log.py] reads back the direction,
    the timestamp, the length and the packet's bytes. *)
Theorem log_roundtrip env m p len dir fd :
  0 <= p -> 0 <= len <= MTU_SIZE -> p + len <= Z.of_nat (length m) -> 0 <= dir < 256 ->
  exists event fd', log_event env m (Some p) len dir fd = Some (event, fd') /\
    Z.of_nat (length event) = sizeof_Event /\
    parse_event event = Some (dir, log_time env, len, rd m p len) /\
    (fd' = fd \/ fd' = -1).
Proof.
  intros Hp Hl Hr Hd. rewrite log_event_in by done. do 2 eexists. split; [done|].
  split; [apply length_event_buf|]. split; [|destruct (_ =? _); auto].
  rewrite event_buf_parse; [by rewrite u8_id|rewrite length_rd by lia; lia|lia].
Qed.

Lemma log_roundtrip_witness :
  exists event fd', log_event (MkLogEnv 1 2 1511) sample_echo (Some 0) 32 LOG_READ 5 = Some (event, fd')
    /\ parse_event event = Some (1, 1000000002, 32, rd sample_echo 0 32).
Proof.
  destruct (log_roundtrip (MkLogEnv 1 2 1511) sample_echo 0 32 LOG_READ 5) as (e & fd & H1 & _ & H2 & _);
    [lia|unfold MTU_SIZE; lia|vm_compute; discriminate|unfold LOG_READ; lia|].
  exists e, fd. exact (conj H1 H2).
Defined.
