(* ===== verification/Server.v ===== *)
(** * The server loop

    [server_run] of [refactor/main.c] over the readings of its environment: one
    [Round] per turn of the loop before the shutdown flag is seen. *)
From S2P Require Import Prelude Memory Checksum Ip Icmp TcpHeader Heap Tcb Vector Table Hash Segment Samples Tcp Network Log.

(** What the environment supplies to one turn: what [tun_read] delivers ([None] is the
    error [-1]; the kernel cuts a packet to the requested length), the readings
    inside the handlers, and those of the two log calls. *)
Record Round := MkRound {
  r_read : option bytes;
  r_env : Env;
  r_log_read : Log_Env;
  r_log_write : Log_Env;
}.

(** The packet buffer, the connection table and [g_log_fd]. *)
Record Server := MkServer { sv_buf : bytes; sv_store : Store; sv_log : Z }.

Inductive Output := Logged (event : bytes) | Wrote (packet : bytes).

(** ** Operations *)

(** [read(fd, buf, len)] on the device. *)
Definition tun_read (r : Round) (m : bytes) (buf len : Z) : option (Z * bytes) :=
  match r_read r with
  | None => Some (-1, m)
  | Some data =>
      let data := take (Z.to_nat len) data in
      m ← store_bytes m buf data;
      Some (Z.of_nat (length data), m)
  end.

(** [write(fd, buf, len)] on the device: the bytes that leave. *)
Definition tun_write (m : bytes) (buf len : Z) : option bytes := load_bytes m buf len.

(** One turn of the loop. *)
Definition server_turn (r : Round) (s : Server) (mtu : Z) : option (list Output * Server) :=
  '(nread, m) ← tun_read r (sv_buf s) 0 mtu;
  '(nwrite, m, st, log, out) ←
    (if 0 <? nread then
       '(ev, log) ← LOG_EVENT (r_log_read r) (sv_log s) m (Some 0) nread LOG_READ;
       '(nwrite, m, st) ← net_demux (r_env r) m (sv_store s) 0 nread;
       Some (nwrite, m, st, log, map Logged ev)
     else Some (0, m, sv_store s, sv_log s, []) : option (Z * bytes * Store * Z * list Output));
  if 0 <? nwrite then
    '(ev, log) ← LOG_EVENT (r_log_write r) log m (Some 0) nwrite LOG_WRITE;
    pkt ← tun_write m 0 nwrite;
    Some (out ++ (map Logged ev) ++ [Wrote pkt], MkServer m st log)
  else Some (out, MkServer m st log).

(** [while (!g_shutdown)]: the turns until the flag is seen. *)
Fixpoint server_loop (rs : list Round) (s : Server) (mtu : Z) : option (list Output * Server) :=
  match rs with
  | [] => Some ([], s)
  | r :: rs =>
      '(out, s) ← server_turn r s mtu;
      '(out', s) ← server_loop rs s mtu;
      Some (out ++ out', s)
  end.

(** The loop and the shutdown event. *)
Definition server_run (rs : list Round) (last : Log_Env) (s : Server) (mtu : Z)
    : option (list Output * Server) :=
  '(out, s) ← server_loop rs s mtu;
  '(ev, log) ← LOG_EVENT last (sv_log s) (sv_buf s) None 0 LOG_SHUTDOWN;
  Some (out ++ (map Logged ev), MkServer (sv_buf s) (sv_store s) log).

(** [main]: the zeroed buffer and the globals at their initial values, [log] the
    descriptor [log_init] gave, or [-1]. *)
Definition server_start (oom : nat -> bool) (rnd : Rand) (log : Z) : Server :=
  MkServer (replicate (Z.to_nat MTU_SIZE) 0) (st_start oom rnd) log.

(** ** Specification *)

(** The buffer once the packet of a turn is read, and the packet's length. *)
Definition received (r : Round) (m : bytes) : option (bytes * Z) :=
  match r_read r with
  | Some ((_ :: _) as data) =>
      Some (upd m 0 (take (Z.to_nat MTU_SIZE) data), Z.min (Z.of_nat (length data)) MTU_SIZE)
  | _ => None
  end.

(** The device delivers bytes; and reading a never-assigned local of [tcp_rst] gives some
    value. *)
Definition read_ok (r : Round) : Prop := forall data, r_read r = Some data -> bytes_ok data.
Definition round_ok (r : Round) : Prop := read_ok r /\ settled (e_junk (r_env r)).

(** The turn [r] from [s] answers a valid, accepted TCP segment with a reset, which reads a
    never-assigned local whose value is not defined. *)
Definition turn_undefined (r : Round) (s : Server) : Prop :=
  exists m len, received r (sv_buf s) = Some (m, len) /\ packet_for m len (seg_id m (ihl_of m 0)) /\
    undefined_reset (r_env r) m (sv_store s) len (ihl_of m 0).

Record server_ok (s : Server) : Prop := {
  so_bytes : bytes_ok (sv_buf s);
  so_size : Z.of_nat (length (sv_buf s)) = MTU_SIZE;
  so_closed : closed (sv_store s);
  so_conns : conns_ok (conns (sv_store s));
}.

(** The packets that leave. *)
Definition written (out : list Output) : list bytes :=
  omap (fun o => match o with Wrote p => Some p | Logged _ => None end) out.

(** ** Lemmas *)

Lemma LOG_EVENT_in env g m len dir :
  0 <= len <= MTU_SIZE -> len <= Z.of_nat (length m) ->
  exists ev g', LOG_EVENT env g m (Some 0) len dir = Some (ev, g').
Proof.
  intros. unfold LOG_EVENT. destruct (VERBOSE g); [|eauto].
  rewrite log_event_in by lia. cbn [mbind option_bind]. eauto.
Qed.

Lemma LOG_EVENT_null env g m dir : exists ev g', LOG_EVENT env g m None 0 dir = Some (ev, g').
Proof. unfold LOG_EVENT. destruct (VERBOSE g); [|eauto]. rewrite log_event_null. cbn [mbind option_bind]. eauto. Qed.

Lemma written_logged ev : written (map Logged ev) = [].
Proof. induction ev; cbn; done. Qed.

Lemma written_app a b : written (a ++ b) = written a ++ written b.
Proof. apply omap_app. Qed.

(** What is received lies in the buffer. *)
Lemma received_ok r s m len :
  server_ok s -> read_ok r -> received r (sv_buf s) = Some (m, len) ->
  bytes_ok m /\ Z.of_nat (length m) = MTU_SIZE /\ 0 < len <= MTU_SIZE.
Proof.
  intros [Hb Hs _ _] Hr. unfold received. destruct (r_read r) as [[|x data]|] eqn:E; try done.
  pose proof (Forall_take byte_ok (Z.to_nat MTU_SIZE) _ (Hr _ E)) as Hd.
  set (d := take (Z.to_nat MTU_SIZE) (x :: data)) in *. clearbody d.
  intros [= <- <-]. split; [|split].
  - by apply upd_ok.
  - by rewrite length_upd.
  - unfold MTU_SIZE. cbn [length]. lia.
Qed.

(** One turn: defined, it keeps the invariant, and it either receives nothing and does
    nothing or has an outcome of [net_demux] for the packet received, whose reply, if
    any, is the one packet written. *)
Lemma server_turn_spec r s :
  server_ok s -> round_ok r -> Z.of_nat (size (conns (sv_store s))) < TABLE_MAX ->
  exists out s', server_turn r s MTU_SIZE = Some (out, s') /\ server_ok s' /\
    ct_oom (sv_store s') = ct_oom (sv_store s) /\
    (size (conns (sv_store s')) <= S (size (conns (sv_store s))))%nat /\
    match received r (sv_buf s) with
    | None => written out = [] /\ sv_store s' = sv_store s
    | Some (m, len) =>
        exists n, net_outcome (r_env r) m len (sv_store s) n (sv_buf s') (conns (sv_store s')) (st_rand (sv_store s')) /\
          n <= MTU_SIZE /\
          written out = if 0 <? n then [rd (sv_buf s') 0 n] else []
    end.
Proof.
  intros [Hb Hs Hc Hok] [Hr Hset] Hmax. unfold server_turn, tun_read, received.
  assert (forall m, bytes_ok m -> Z.of_nat (length m) = MTU_SIZE ->
    server_ok (MkServer m (sv_store s) (sv_log s))) as Hidle by (intros; by split).
  destruct (r_read r) as [data|] eqn:Hread.
  2:{ cbn [mbind option_bind]. change (0 <? -1) with false. cbn.
      do 2 eexists. split; [done|]. split; [by apply Hidle|]. split; [done|]. split; [cbn; lia|done]. }
  specialize (Hr data Hread). set (d := take (Z.to_nat MTU_SIZE) data).
  assert (bytes_ok d) as Hd by (by apply Forall_take).
  assert (Z.of_nat (length d) = Z.min (Z.of_nat (length data)) MTU_SIZE) as Hld
    by (subst d; rewrite length_take; unfold MTU_SIZE; lia).
  unfold store_bytes. rewrite (proj2 (in_range_true _ _ _)) by lia. cbn [mbind option_bind].
  rewrite Hld. destruct data as [|b data].
  { change (0 <? Z.min (Z.of_nat (length [])) MTU_SIZE) with false. cbn.
    do 2 eexists. split; [done|]. subst d. rewrite take_nil.
    change (upd (sv_buf s) 0 []) with (sv_buf s).
    split; [by apply Hidle|]. split; [done|]. split; [cbn; lia|done]. }
  set (len := Z.min _ MTU_SIZE) in *.
  assert (0 < len <= MTU_SIZE) as Hlen by (subst len; unfold MTU_SIZE; cbn [length]; lia).
  clearbody len. set (m := upd (sv_buf s) 0 d).
  assert (bytes_ok m) as Hbm by (subst m; auto with bytes).
  assert (Z.of_nat (length m) = MTU_SIZE) as Hlm by (subst m; by rewrite length_upd).
  clearbody m. destruct (0 <? len) eqn:E; [clear E|lia].
  destruct (LOG_EVENT_in (r_log_read r) (sv_log s) m len LOG_READ) as (ev & g & ->); [lia|lia|].
  cbn [mbind option_bind].
  destruct (net_demux_spec (r_env r) m (sv_store s) len) as
    (n & m' & st' & -> & Hc' & Ho & (Hn & Hlm' & Hbm') & Hout); try done; [lia|].
  cbn [mbind option_bind]. destruct (0 <? n) eqn:En.
  - destruct (LOG_EVENT_in (r_log_write r) g m' n LOG_WRITE) as (ev' & g' & ->); [lia|lia|].
    cbn [mbind option_bind]. unfold tun_write, load_bytes. rewrite (proj2 (in_range_true m' 0 n)) by lia.
    cbn [mbind option_bind]. do 2 eexists. split; [done|]. cbn [sv_store sv_buf].
    split; [split; cbn; [done|lia|done|by eapply net_outcome_ok]|]. split; [done|].
    split; [by eapply net_outcome_size|]. exists n. rewrite En.
    rewrite !written_app, !written_logged. done.
  - do 2 eexists. split; [done|]. cbn [sv_store sv_buf].
    split; [split; cbn; [done|lia|done|by eapply net_outcome_ok]|]. split; [done|].
    split; [by eapply net_outcome_size|]. exists n. rewrite En.
    rewrite written_logged. done.
Qed.

Lemma server_start_ok oom rnd log : server_ok (server_start oom rnd log).
Proof.
  split; cbn [sv_buf sv_store server_start].
  - apply Forall_replicate. unfold byte_ok. lia.
  - by rewrite length_replicate.
  - apply st_start_closed.
  - intros id t H. done.
Qed.

(** The loop, turn by turn. *)
Lemma server_loop_spec rs s :
  server_ok s -> Forall round_ok rs ->
  Z.of_nat (size (conns (sv_store s)) + length rs) <= TABLE_MAX ->
  exists out s', server_loop rs s MTU_SIZE = Some (out, s') /\ server_ok s' /\
    (size (conns (sv_store s')) <= size (conns (sv_store s)) + length rs)%nat /\
    Forall (fun p => 0 < Z.of_nat (length p) <= MTU_SIZE) (written out).
Proof.
  revert s. induction rs as [|r rs IH]; intros s Hs Hr Hmax; cbn [server_loop].
  { do 2 eexists. split; [done|]. split; [done|]. split; [lia|constructor]. }
  apply Forall_cons in Hr as [Hr Hrs]. cbn [length] in Hmax.
  destruct (server_turn_spec r s Hs Hr ltac:(lia)) as (out & s1 & -> & Hs1 & _ & Hsz & Hw).
  cbn [mbind option_bind].
  destruct (IH s1 Hs1 Hrs ltac:(lia)) as (out' & s' & -> & Hs' & Hsz' & Hw'). cbn [mbind option_bind].
  do 2 eexists. split; [done|]. split; [done|]. split; [cbn [length]; lia|].
  rewrite written_app. apply Forall_app. split; [|done].
  destruct (received r (sv_buf s)) as [[m len]|]; [|destruct Hw as [-> _]; constructor].
  destruct Hw as (n & _ & Hn & ->). destruct (0 <? n) eqn:E; [|constructor].
  apply Forall_singleton. rewrite length_rd; [lia|lia|lia|]. rewrite (so_size _ Hs1). lia.
Qed.

(** At most one packet leaves per turn. *)
Lemma server_loop_one_each rs s out s' :
  server_ok s -> Forall round_ok rs ->
  Z.of_nat (size (conns (sv_store s)) + length rs) <= TABLE_MAX ->
  server_loop rs s MTU_SIZE = Some (out, s') -> (length (written out) <= length rs)%nat.
Proof.
  revert s out. induction rs as [|r rs IH]; intros s out Hs Hr Hmax Hrun; cbn [server_loop] in Hrun.
  { injection Hrun as <- <-. cbn. lia. }
  apply Forall_cons in Hr as [Hr Hrs]. cbn [length] in Hmax.
  destruct (server_turn_spec r s Hs Hr ltac:(lia)) as (out1 & s1 & Ht & Hs1 & _ & Hsz & Hw).
  rewrite Ht in Hrun. cbn [mbind option_bind] in Hrun.
  destruct (server_loop rs s1 MTU_SIZE) as [[out2 s2]|] eqn:E; [|done].
  injection Hrun as <- <-. pose proof (IH s1 out2 Hs1 Hrs ltac:(lia) E) as Hrest.
  rewrite written_app, length_app. cbn [length].
  destruct (received r (sv_buf s)) as [[m len]|]; [|destruct Hw as [-> _]; cbn; lia].
  destruct Hw as (n & _ & _ & ->). destruct (0 <? n); cbn; lia.
Qed.

Lemma server_loop_app rs rs' s :
  server_loop (rs ++ rs') s MTU_SIZE
  = '(out, s) ← server_loop rs s MTU_SIZE;
    '(out', s) ← server_loop rs' s MTU_SIZE;
    Some (out ++ out', s).
Proof.
  revert s. induction rs as [|r rs IH]; intros s; cbn [server_loop app].
  - cbn [mbind option_bind]. by destruct (server_loop rs' s MTU_SIZE) as [[? ?]|].
  - destruct (server_turn r s MTU_SIZE) as [[out s1]|]; [|done]. cbn [mbind option_bind]. rewrite IH.
    destruct (server_loop rs s1 MTU_SIZE) as [[out1 s2]|]; [|done]. cbn [mbind option_bind].
    destruct (server_loop rs' s2 MTU_SIZE) as [[out2 s3]|]; [|done]. cbn [mbind option_bind].
    by rewrite app_assoc.
Qed.

(** ** What the packets received say about a connection

    [seen rs s P]: among the turns [rs] from [s], one receives a packet of which [P]
    holds, with the initial sequence number drawn in that turn, if one is. *)
Definition seen (rs : list Round) (s : Server) (P : Z -> bytes -> Z -> Prop) : Prop :=
  exists rs1 r rs2 out s1 m len,
    rs = rs1 ++ r :: rs2 /\ server_loop rs1 s MTU_SIZE = Some (out, s1) /\
    received r (sv_buf s1) = Some (m, len) /\ P (env_iss (r_env r) (st_rand (sv_store s1))) m len.

(** A SYN that opens [id] while our sequence number generator reads [iss]. *)
Definition opening (id : ID) (iss now : Z) (m : bytes) (len : Z) : Prop :=
  packet_for m len id /\ has m (ihl_of m 0) SYN = true /\ has m (ihl_of m 0) ACK = false /\
  has m (ihl_of m 0) RST = false /\ iss = now.

(** An ACK for [id] that acknowledges [iss] plus one. *)
Definition acking (id : ID) (iss now : Z) (m : bytes) (len : Z) : Prop :=
  packet_for m len id /\ has m (ihl_of m 0) ACK = true /\ has m (ihl_of m 0) SYN = false /\
  has m (ihl_of m 0) RST = false /\ seg_ack m (ihl_of m 0) = u32 (iss + 1).

(** The history a connection's state stands for. *)
Definition explained (rs : list Round) (s : Server) (id : ID) (t : TCB) : Prop :=
  match tcb_state t with
  | CON_SYN_RECEIVED => seen rs s (opening id (snd_iss (tcb_send t)))
  | CON_ESTABLISHED =>
      exists rs1 rs2, rs = rs1 ++ rs2 /\ seen rs1 s (opening id (snd_iss (tcb_send t))) /\
        exists out s1, server_loop rs1 s MTU_SIZE = Some (out, s1) /\
          seen rs2 s1 (acking id (snd_iss (tcb_send t)))
  | _ => True
  end.

Lemma seen_snoc rs s P r : seen rs s P -> seen (rs ++ [r]) s P.
Proof.
  intros (rs1 & r' & rs2 & out & s1 & m & len & -> & H). exists rs1, r', (rs2 ++ [r]), out, s1, m, len.
  split; [by rewrite <- app_assoc|done].
Qed.

Lemma explained_snoc rs s id t r : explained rs s id t -> explained (rs ++ [r]) s id t.
Proof.
  unfold explained. destruct (tcb_state t); try done; [apply seen_snoc|].
  intros (rs1 & rs2 & -> & H1 & out & s1 & Hl & H2). exists rs1, (rs2 ++ [r]).
  split; [by rewrite app_assoc|]. split; [done|]. exists out, s1. split; [done|]. by apply seen_snoc.
Qed.

Lemma seen_last rs s out s1 r m len (P : Z -> bytes -> Z -> Prop) :
  server_loop rs s MTU_SIZE = Some (out, s1) -> received r (sv_buf s1) = Some (m, len) ->
  P (env_iss (r_env r) (st_rand (sv_store s1))) m len -> seen (rs ++ [r]) s P.
Proof. intros. exists rs, r, [], out, s1, m, len. done. Qed.

(** Every connection of the final table is explained by the packets received. *)
Lemma server_loop_explained rs oom rnd log out s :
  Forall round_ok rs -> Z.of_nat (length rs) <= TABLE_MAX ->
  server_loop rs (server_start oom rnd log) MTU_SIZE = Some (out, s) ->
  forall id t, conns (sv_store s) !! id = Some t -> explained rs (server_start oom rnd log) id t.
Proof.
  set (s0 := server_start oom rnd log). revert out s.
  induction rs as [|r rs IH] using rev_ind; intros out s Hr Hmax Hrun id t Hl.
  { injection Hrun as <- <-. done. }
  apply Forall_app in Hr as [Hrs [Hr _]%Forall_cons]. rewrite length_app in Hmax. cbn [length] in Hmax.
  rewrite server_loop_app in Hrun.
  destruct (server_loop_spec rs s0 (server_start_ok _ _ _) Hrs) as (out1 & s1 & Hrun1 & Hs1 & Hsz & _);
    [change (size (conns (sv_store s0))) with 0%nat; lia|].
  change (size (conns (sv_store s0))) with 0%nat in Hsz.
  specialize (IH out1 s1 Hrs ltac:(lia) Hrun1).
  rewrite Hrun1 in Hrun. cbn [mbind option_bind server_loop] in Hrun.
  destruct (server_turn_spec r s1 Hs1 Hr ltac:(lia)) as (out2 & s2 & Hturn & _ & _ & _ & Hw).
  rewrite Hturn in Hrun. cbn [mbind option_bind] in Hrun. injection Hrun as _ <-.
  destruct (received r (sv_buf s1)) as [[m len]|] eqn:Hrec.
  2:{ destruct Hw as [_ Heq]. rewrite Heq in Hl. by apply explained_snoc, IH. }
  destruct Hw as (n & Hout & _ & _).
  destruct (net_outcome_con _ _ _ _ _ _ _ _ _ _ Hout Hl) as [Hold|[Hfor Hstep]];
    [by apply explained_snoc, IH|].
  pose proof Hfor as (_ & _ & _ & Hid).
  pose proof (con_of_inv _ id (so_conns _ Hs1)) as Hinv. rewrite <- Hid in Hinv at 1.
  assert (explained rs s0 id (con_of (conns (sv_store s1)) id)) as Hcon.
  { unfold con_of. destruct (conns (sv_store s1) !! id) eqn:E; cbn; [by apply IH|done]. }
  destruct (con_step_cases _ _ _ _ _ Hinv Hstep)
    as [-> |[(_ & Hsy & Ha & Hrt & Hst & Hiss)|(Hst & Ha & Hsy & Hrt & Hak & Hst' & Hiss)]].
  - by apply explained_snoc.
  - unfold explained. rewrite Hst. eapply seen_last; eauto. done.
  - unfold explained in *. rewrite Hst'. rewrite Hst in Hcon. rewrite Hiss.
    exists rs, [r]. split; [done|]. split; [done|]. exists out1, s1. split; [done|].
    apply (seen_last [] s1 [] s1 r m len); done.
Qed.

(** A fact every turn keeps holds at the end of the loop. *)
Lemma server_loop_keeps (P : Server -> Prop) :
  (forall r s out s', server_ok s -> round_ok r -> Z.of_nat (size (conns (sv_store s))) < TABLE_MAX ->
     server_turn r s MTU_SIZE = Some (out, s') -> P s -> P s') ->
  forall rs s out s', server_ok s -> Forall round_ok rs ->
  Z.of_nat (size (conns (sv_store s)) + length rs) <= TABLE_MAX ->
  server_loop rs s MTU_SIZE = Some (out, s') -> P s -> server_ok s' /\ P s'.
Proof.
  intros Hturn rs. induction rs as [|r rs IH]; intros s out s' Hs Hr Hmax Hrun HP; cbn [server_loop] in Hrun.
  { by injection Hrun as _ <-. }
  apply Forall_cons in Hr as [Hr Hrs]. cbn [length] in Hmax.
  destruct (server_turn_spec r s Hs Hr ltac:(lia)) as (out1 & s1 & Ht & Hs1 & _ & Hsz & _).
  rewrite Ht in Hrun. cbn [mbind option_bind] in Hrun.
  apply bind_Some in Hrun as ([out2 s2] & Hl & [= _ <-]).
  apply (IH s1 out2); [done|done|lia|done|].
  exact (Hturn r s out1 s1 Hs Hr ltac:(lia) Ht HP).
Qed.

(** ** The descriptor of the log

    A logged event leaves [g_log_fd] as it was or, when the write failed, sets it to [-1]. *)
Lemma LOG_EVENT_fd env g m tu len dir ev g' :
  LOG_EVENT env g m tu len dir = Some (ev, g') -> g' = g \/ g' = -1.
Proof.
  unfold LOG_EVENT, log_event. destruct (VERBOSE g); [|intros [= _ ->]; by left].
  intros ([e fd] & H & [= _ <-])%bind_Some.
  repeat (apply bind_Some in H as (? & _ & H)). injection H as _ <-. destruct (_ =? -1); auto.
Qed.

Lemma server_turn_fd r s mtu out s' :
  server_turn r s mtu = Some (out, s') -> sv_log s' = sv_log s \/ sv_log s' = -1.
Proof.
  intros H. unfold server_turn in H. apply bind_Some in H as ([nread m] & _ & H).
  apply bind_Some in H as ([[[[nwrite m'] st] log] o] & Hread & H).
  assert (log = sv_log s \/ log = -1) as Hlog.
  { destruct (0 <? nread); [|injection Hread as _ _ _ <- _; by left].
    apply bind_Some in Hread as ([ev log'] & Hlog & Hread). apply LOG_EVENT_fd in Hlog.
    apply bind_Some in Hread as ([[? ?] ?] & _ & [= _ _ _ <- _]). done. }
  destruct (0 <? nwrite); [|injection H as _ <-; done].
  apply bind_Some in H as ([ev log'] & Hlog' & H). apply LOG_EVENT_fd in Hlog'.
  apply bind_Some in H as (? & _ & [= _ <-]). cbn [sv_log]. destruct Hlog' as [->| ->]; auto.
Qed.

Lemma server_loop_fd rs s mtu out s' :
  server_loop rs s mtu = Some (out, s') -> sv_log s' = sv_log s \/ sv_log s' = -1.
Proof.
  revert s out. induction rs as [|r rs IH]; intros s out H; cbn [server_loop] in H.
  { injection H as _ <-. by left. }
  apply bind_Some in H as ([o s1] & Ht & H). apply bind_Some in H as ([o' s2] & Hl & [= _ <-]).
  apply server_turn_fd in Ht. apply IH in Hl as [->|]; auto.
Qed.

(** ** Reads of never-assigned locals *)

Definition settle_round (r : Round) : Round :=
  MkRound (r_read r) (settle (r_env r)) (r_log_read r) (r_log_write r).

Lemma settle_round_ok r : read_ok r -> round_ok (settle_round r).
Proof. intros Hr. split; [exact Hr|]. split_and!; cbn; eauto. Qed.

Lemma server_turn_settle r s :
  server_ok s -> read_ok r -> Z.of_nat (size (conns (sv_store s))) < TABLE_MAX ->
  server_turn r s MTU_SIZE = server_turn (settle_round r) s MTU_SIZE \/
  (server_turn r s MTU_SIZE = None /\ turn_undefined r s).
Proof.
  intros Hs Hr Hmax. pose proof (received_ok r s) as Hrec. unfold server_turn, tun_read, turn_undefined, received in *.
  cbn [settle_round r_read r_env r_log_read r_log_write].
  destruct (r_read r) as [data|] eqn:Hread; [|cbn [mbind option_bind]; change (0 <? -1) with false; by left].
  assert (Z.of_nat (length (take (Z.to_nat MTU_SIZE) data)) = Z.min (Z.of_nat (length data)) MTU_SIZE) as Hld
    by (rewrite length_take; unfold MTU_SIZE; lia).
  unfold store_bytes. rewrite (proj2 (in_range_true _ _ _)) by (rewrite ?(so_size _ Hs); lia).
  cbn [mbind option_bind]. rewrite Hld. destruct data as [|b data].
  { change (0 <? Z.min (Z.of_nat (length [])) MTU_SIZE) with false. by left. }
  destruct (Hrec _ _ Hs Hr eq_refl) as (Hb & Hl & Hlen). clear Hrec.
  set (m := upd _ _ _) in *. set (len := Z.min _ _) in *. clearbody m len.
  destruct (0 <? len) eqn:E; [|by left].
  destruct (LOG_EVENT _ _ _ _ _ _) as [[ev g]|]; cbn [mbind option_bind]; [|by left].
  destruct (net_demux_settle (r_env r) m (sv_store s) len Hb Hl ltac:(lia) (so_closed _ Hs) Hmax)
    as [->|(-> & Hv & Hpr & Hu)]; [by left|]. right. split; [done|]. exists m, len. split; [done|].
  split; [|done]. split; [done|]. split; [done|]. split; [apply Hu|done].
Qed.

Lemma server_loop_settle rs s :
  server_ok s -> Forall read_ok rs -> Z.of_nat (size (conns (sv_store s)) + length rs) <= TABLE_MAX ->
  server_loop rs s MTU_SIZE = server_loop (settle_round <$> rs) s MTU_SIZE \/
  (server_loop rs s MTU_SIZE = None /\
   exists rs1 r rs2 out s1, rs = rs1 ++ r :: rs2 /\ server_loop rs1 s MTU_SIZE = Some (out, s1) /\
     turn_undefined r s1).
Proof.
  revert s. induction rs as [|r rs IH]; intros s Hs Hr Hmax; cbn [server_loop fmap list_fmap]; [by left|].
  apply Forall_cons in Hr as [Hr Hrs]. cbn [length] in Hmax.
  destruct (server_turn_spec (settle_round r) s Hs (settle_round_ok r Hr) ltac:(lia)) as (out & s1 & Ht & Hs1 & _ & Hsz & _).
  destruct (server_turn_settle r s Hs Hr ltac:(lia)) as [Heq|[Hnone Hu]].
  - rewrite Heq, Ht. cbn [mbind option_bind].
    destruct (IH s1 Hs1 Hrs ltac:(lia)) as [->|(-> & rs1 & r' & rs2 & out' & s2 & -> & Hl & Hu)]; [by left|right].
    split; [done|]. exists (r :: rs1), r', rs2, (out ++ out'), s2. split; [done|]. split; [|done].
    cbn [server_loop]. rewrite Heq, Ht. cbn [mbind option_bind]. rewrite Hl. done.
  - right. rewrite Hnone. split; [done|]. exists [], r, rs, [], s. done.
Qed.

Lemma settled_turn_defined r s : settled (e_junk (r_env r)) -> ~ turn_undefined r s.
Proof. intros Hset (m & len & _ & _ & _ & _ & Hf). by rewrite settled_reads in Hf. Qed.

(** What the allocator would refuse stays the same. *)
Lemma server_loop_oom rs s out s' :
  server_ok s -> Forall round_ok rs -> Z.of_nat (size (conns (sv_store s)) + length rs) <= TABLE_MAX ->
  server_loop rs s MTU_SIZE = Some (out, s') -> ct_oom (sv_store s') = ct_oom (sv_store s).
Proof.
  intros Hs Hr Hmax Hrun.
  apply (server_loop_keeps (fun s' => ct_oom (sv_store s') = ct_oom (sv_store s))) in Hrun; try done; [by apply Hrun|].
  intros r s1 o s2 Hs1 Hr1 Hm1 Ht <-.
  destruct (server_turn_spec r s1 Hs1 Hr1 Hm1) as (o' & s2' & Ht' & _ & Ho & _). congruence.
Qed.

(** The whole of [server_run]. *)
Lemma server_run_spec rs last oom rnd log :
  Forall round_ok rs -> Z.of_nat (length rs) <= TABLE_MAX ->
  exists out s, server_run rs last (server_start oom rnd log) MTU_SIZE = Some (out, s) /\
    Forall (fun p => 0 < Z.of_nat (length p) <= MTU_SIZE) (written out) /\
    (length (written out) <= length rs)%nat /\ server_ok s /\
    (sv_log s = log \/ sv_log s = -1) /\ ct_oom (sv_store s) = oom.
Proof.
  intros Hr Hmax. unfold server_run.
  destruct (server_loop_spec rs (server_start oom rnd log) (server_start_ok _ _ _) Hr)
    as (out & s & Hrun & Hs & _ & Hw); [change (size (conns _)) with 0%nat; lia|].
  pose proof (server_loop_one_each rs (server_start oom rnd log) out s (server_start_ok _ _ _) Hr
    ltac:(change (size (conns _)) with 0%nat; lia) Hrun) as Hone.
  pose proof (server_loop_oom rs (server_start oom rnd log) out s (server_start_ok _ _ _) Hr
    ltac:(change (size (conns _)) with 0%nat; lia) Hrun) as Hoom.
  pose proof (server_loop_fd _ _ _ _ _ Hrun) as Hfd. rewrite Hrun. cbn [mbind option_bind].
  destruct (LOG_EVENT_null last (sv_log s) (sv_buf s) LOG_SHUTDOWN) as (ev & g & Hlast).
  rewrite Hlast. cbn [mbind option_bind]. do 2 eexists. split; [done|].
  rewrite written_app, written_logged, app_nil_r. split; [done|]. split; [done|].
  split; [destruct Hs; by split|]. cbn [sv_log sv_store]. split; [|done].
  apply LOG_EVENT_fd in Hlast as [->|]; auto.
Qed.

(** The same for any readings: where the run stops being defined, and what it leaves. *)
Lemma server_run_cases rs last oom rnd log :
  Forall read_ok rs -> Z.of_nat (length rs) <= TABLE_MAX ->
  match server_run rs last (server_start oom rnd log) MTU_SIZE with
  | Some (out, s) =>
      Forall (fun p => 0 < Z.of_nat (length p) <= MTU_SIZE) (written out) /\
      (length (written out) <= length rs)%nat /\ server_ok s /\
      (sv_log s = log \/ sv_log s = -1) /\ ct_oom (sv_store s) = oom
  | None =>
      exists rs1 r rs2 out s1, rs = rs1 ++ r :: rs2 /\
        server_loop rs1 (server_start oom rnd log) MTU_SIZE = Some (out, s1) /\ turn_undefined r s1
  end.
Proof.
  intros Hr Hmax. assert (Z.of_nat (size (conns (sv_store (server_start oom rnd log))) + length rs) <= TABLE_MAX) as Hmax'
    by (change (size (conns _)) with 0%nat; lia).
  destruct (server_run_spec (settle_round <$> rs) last oom rnd log) as (out & s & Hrun & H1 & H2 & H3).
  { apply Forall_fmap. eapply Forall_impl; [exact Hr|]. intros r. apply settle_round_ok. }
  { by rewrite length_fmap. }
  rewrite length_fmap in H2. unfold server_run in *.
  destruct (server_loop_settle rs (server_start oom rnd log) (server_start_ok _ _ _) Hr Hmax')
    as [->|(-> & rs1 & r & rs2 & out1 & s1 & -> & Hl & Hu)].
  - by rewrite Hrun.
  - cbn [mbind option_bind]. by exists rs1, r, rs2, out1, s1.
Qed.

(** ** Properties *)

(** C1 The server is safe and live on any input, but for one read: whatever the device
    delivers (errors, empty reads, truncated, malformed or hostile packets of any length),
    whatever the allocator refuses, whatever the log does, the loop either runs every turn
    to its end, or it stops being defined in a turn that answers a valid segment with a
    reset, where [tcp_rst] reads a local it has not assigned; when such reads give some
    value it always runs to its end.  Every packet it writes is non-empty and at most
    [MTU_SIZE] bytes, at most one per turn; the table it leaves is well formed and leaks no
    block of a connection; and, provided the allocator refused nothing, every array still
    allocated is a bucket's. *)
Theorem server_run_safe rs last oom rnd log :
  Forall read_ok rs -> Z.of_nat (length rs) <= TABLE_MAX ->
  match server_run rs last (server_start oom rnd log) MTU_SIZE with
  | Some (out, s) =>
      Forall (fun p => 0 < Z.of_nat (length p) <= MTU_SIZE) (written out) /\
      (length (written out) <= length rs)%nat /\ server_ok s /\
      ((forall n, oom n = false) -> lost (sv_store s) = ∅)
  | None =>
      exists rs1 r rs2 out s1, rs = rs1 ++ r :: rs2 /\
        server_loop rs1 (server_start oom rnd log) MTU_SIZE = Some (out, s1) /\ turn_undefined r s1
  end /\
  (Forall (fun r => settled (e_junk (r_env r))) rs ->
   is_Some (server_run rs last (server_start oom rnd log) MTU_SIZE)).
Proof.
  intros Hr Hmax. pose proof (server_run_cases rs last oom rnd log Hr Hmax) as H.
  destruct (server_run rs last (server_start oom rnd log) MTU_SIZE) as [[out s]|].
  - split; [|by eexists]. destruct H as (H1 & H2 & H3 & _ & Ho). do 3 (split; [done|]). intros Hn.
    apply (so_closed _ H3). change (forall n, ct_oom (sv_store s) n = false). by rewrite Ho.
  - split; [exact H|]. destruct H as (rs1 & r & rs2 & out & s1 & -> & _ & Hu).
    intros [_ [Hset _]%Forall_cons]%Forall_app. by destruct (settled_turn_defined r s1).
Qed.

Definition sample_log : Log_Env := MkLogEnv 1700000000 5 1511.
Definition sample_round (p : bytes) (n : Z) : Round :=
  MkRound (Some (rd p 0 n)) sample_env sample_log sample_log.

(** A client's handshake, an echo request, and a failed read. *)
Definition sample_rounds : list Round :=
  [ sample_round (sample_tcp 8080 SYN 5000 0) 40; sample_round sample_echo 32;
    MkRound None sample_env sample_log sample_log;
    sample_round (sample_tcp 8080 ACK 5001 1001) 40 ].

Lemma sample_round_ok p n : bytes_ok p -> round_ok (sample_round p n).
Proof. intros Hp. split; [intros d [= <-]; by apply rd_ok|exact sample_settled]. Qed.

Lemma sample_rounds_ok : Forall round_ok sample_rounds.
Proof.
  unfold sample_rounds. apply Forall_cons; split; [apply sample_round_ok; by_eval|].
  apply Forall_cons; split; [apply sample_round_ok; by_eval|].
  apply Forall_cons; split; [split; [intros d H; discriminate H|exact sample_settled]|].
  apply Forall_cons; split; [apply sample_round_ok; by_eval|constructor].
Qed.

Lemma sample_rounds_few : Z.of_nat (length sample_rounds) <= TABLE_MAX.
Proof. unfold TABLE_MAX. cbn. lia. Qed.

Lemma server_run_safe_witness :
  exists out s, server_run sample_rounds sample_log (server_start plenty zeros 3) MTU_SIZE = Some (out, s).
Proof.
  destruct (server_run_safe sample_rounds sample_log plenty zeros 3) as [_ [[out s] H]].
  - eapply Forall_impl; [exact sample_rounds_ok|]. intros r. exact (fun H => proj1 H).
  - exact sample_rounds_few.
  - eapply Forall_impl; [exact sample_rounds_ok|]. intros r. exact (fun H => proj2 H).
  - exists out, s. exact H.
Defined.

(** C5 No connection without a handshake: if the server ends with an established connection,
    then it received a valid SYN for that connection, whose initial sequence number the
    server drew at that moment, and later a valid ACK that acknowledges that number plus
    one, in this order. *)
Theorem established_after_handshake rs oom rnd log out s id t :
  Forall round_ok rs -> Z.of_nat (length rs) <= TABLE_MAX ->
  server_loop rs (server_start oom rnd log) MTU_SIZE = Some (out, s) ->
  conns (sv_store s) !! id = Some t -> tcb_state t = CON_ESTABLISHED ->
  exists rs1 rs2 out1 s1, rs = rs1 ++ rs2 /\
    server_loop rs1 (server_start oom rnd log) MTU_SIZE = Some (out1, s1) /\
    seen rs1 (server_start oom rnd log) (opening id (snd_iss (tcb_send t))) /\
    seen rs2 s1 (acking id (snd_iss (tcb_send t))).
Proof.
  intros Hr Hmax Hrun Hl Hst.
  pose proof (server_loop_explained rs oom rnd log out s Hr Hmax Hrun id t Hl) as He.
  unfold explained in He. rewrite Hst in He.
  destruct He as (rs1 & rs2 & -> & H1 & out1 & s1 & Hl1 & H2). exists rs1, rs2, out1, s1. done.
Qed.

Lemma established_after_handshake_witness :
  exists rs1 rs2 s1, sample_rounds = rs1 ++ rs2 /\
    seen rs1 (server_start plenty zeros (-1)) (opening (MkID 40000 8080 167772161 167772162) 1000) /\
    seen rs2 s1 (acking (MkID 40000 8080 167772161 167772162) 1000).
Proof.
  assert (match server_loop sample_rounds (server_start plenty zeros (-1)) MTU_SIZE with
    | Some (_, s) => (fun t => (snd_iss (tcb_send t), bool_decide (tcb_state t = CON_ESTABLISHED))) <$>
        conns (sv_store s) !! MkID 40000 8080 167772161 167772162 = Some (1000, true)
    | None => False end) as H by (vm_compute; reflexivity).
  destruct (server_loop sample_rounds (server_start plenty zeros (-1)) MTU_SIZE) as [[out s]|] eqn:E; [|destruct H].
  destruct (conns (sv_store s) !! MkID 40000 8080 167772161 167772162) as [t|] eqn:Et; [|discriminate H].
  injection H as Hiss Hst. apply bool_decide_eq_true in Hst.
  destruct (established_after_handshake sample_rounds plenty zeros (-1) out s _ t sample_rounds_ok
    sample_rounds_few E Et Hst) as (rs1 & rs2 & out1 & s1 & H1 & _ & H2 & H3).
  rewrite Hiss in H2, H3. exists rs1, rs2, s1. exact (conj H1 (conj H2 H3)).
Defined.

(** Every packet that leaves answers the packet that came in with it: a turn that
    receives nothing changes no connection and writes nothing; any other turn has one of
    the outcomes of [net_demux] (drop, echo reply, protocol-unreachable error, TCP) and
    writes its reply's bytes and nothing else. *)
Theorem server_turn_answers r s :
  server_ok s -> round_ok r -> Z.of_nat (size (conns (sv_store s))) < TABLE_MAX ->
  exists out s', server_turn r s MTU_SIZE = Some (out, s') /\
    match received r (sv_buf s) with
    | None => written out = [] /\ sv_store s' = sv_store s
    | Some (m, len) =>
        exists n, net_outcome (r_env r) m len (sv_store s) n (sv_buf s') (conns (sv_store s')) (st_rand (sv_store s')) /\
          written out = if 0 <? n then [rd (sv_buf s') 0 n] else []
    end.
Proof.
  intros Hs Hr Hmax. destruct (server_turn_spec r s Hs Hr Hmax) as (out & s' & H & _ & _ & _ & Hw).
  exists out, s'. split; [done|]. destruct (received r (sv_buf s)) as [[m len]|]; [|done].
  destruct Hw as (n & H1 & _ & H2). eauto.
Qed.

Lemma server_turn_answers_witness :
  exists out s', server_turn (MkRound None sample_env sample_log sample_log)
    (server_start plenty zeros (-1)) MTU_SIZE = Some (out, s') /\ written out = [].
Proof.
  destruct (server_turn_answers (MkRound None sample_env sample_log sample_log)
    (server_start plenty zeros (-1))) as (out & s' & H1 & H2 & _);
    [apply server_start_ok|split; [intros d H; discriminate H|exact sample_settled]|vm_compute; reflexivity|].
  exists out, s'. exact (conj H1 H2).
Defined.
