(* ===== verification/ServerSpec.v ===== *)
(** * The server as a function of what it receives

    An abstract server keeps the buffer's contents and a finite map of connections, and
    answers each packet from these, the clock, the values left of the random generator and
    the words resets take from the stack.  [server_run] of [Server.v] refines it when no
    allocation is refused, and its event log is a transcript of the packets. *)
From S2P Require Import Prelude Memory Checksum Ip Icmp TcpHeader Heap Tcb Vector Table Hash Segment Samples Tcp Network Log Server.

(** The connections, and the random generator they share. *)
Definition Conns : Type := gmap ID TCB * Rand.
Definition view (st : Store) : Conns := (conns st, st_rand st).

Implicit Types (c : Conns).

(** ** The abstract server *)

(** The reply to a packet of [len] bytes (its length, and the buffer that holds it) and the
    connections after it. *)
Definition net_spec (env : Env) (m : bytes) (len : Z) c : Z * bytes * Conns :=
  let offset := ihl_of m 0 in
  if decide (ip_valid m 0 len) then
    if getf m 0 ip_proto =? PROTO_ICMP then
      if decide (echo_request m offset (len - offset)) then (len, echo_buf m len offset, c) else (0, m, c)
    else if getf m 0 ip_proto =? PROTO_TCP then
      if tcp_accepts m len offset then
        let '(reply, M) := tcp_spec (env_iss env c.2) m offset c.1 in
        (tcp_output env m len offset reply, (M, drawn c.2 reply))
      else (0, m, c)
    else (unreach_len len offset, unreach_buf m len offset, c)
  else (0, m, c).

(** One turn: the packets written, the buffer and the connections. *)
Definition serve (r : Round) (m : bytes) c : list bytes * bytes * Conns :=
  match received r m with
  | None => ([], m, c)
  | Some (m, len) =>
      let '(n, m, c) := net_spec (r_env r) m len c in
      (if 0 <? n then [rd m 0 n] else [], m, c)
  end.

Fixpoint serve_all (rs : list Round) (m : bytes) c : list bytes * bytes * Conns :=
  match rs with
  | [] => ([], m, c)
  | r :: rs =>
      let '(out, m, c) := serve r m c in
      let '(out', m, c) := serve_all rs m c in
      (out ++ out', m, c)
  end.

(** ** Lemmas *)

Lemma net_demux_function env m st len :
  settled (e_junk env) -> bytes_ok m -> Z.of_nat (length m) = MTU_SIZE -> len <= MTU_SIZE ->
  closed st -> Z.of_nat (size (conns st)) < TABLE_MAX -> (forall k, ct_oom st k = false) ->
  exists st', net_demux env m st 0 len = Some ((net_spec env m len (view st)).1, st') /\
    view st' = (net_spec env m len (view st)).2.
Proof.
  intros Hset Hb Hs Hl Hc Hmax Hoom. unfold net_spec. destruct (decide (ip_valid m 0 len)) as [Hv|Hv].
  2:{ exists st. split; [by apply net_demux_invalid|done]. }
  assert (packet m len (ihl_of m 0)) as Hp by by split.
  rewrite (net_demux_packet env m st len Hp). cbv zeta.
  destruct (_ =? PROTO_ICMP); [exists st; by destruct (decide _)|].
  destruct (_ =? PROTO_TCP); [|by exists st].
  destruct (tcp_accepts m len (ihl_of m 0)) eqn:Hacc.
  - destruct (tcp_dispatch_accepted env m st len (ihl_of m 0) Hp Hc Hmax Hacc) as (st' & -> & _ & _ & Hcs & Hg);
      [by right|by apply settled_reply|].
    exists st'. unfold tcp_spec, view in *. cbn [fst snd]. destruct (con_step _ _ _ _) as [r o]. cbn [fst snd] in *.
    split; [by destruct (tcp_output _ _ _ _ _)|by rewrite Hcs, Hg].
  - destruct (tcp_dispatch_spec env m st len (ihl_of m 0) Hp Hset Hc Hmax) as (n & m' & st' & -> & _ & _ & Hout).
    exists st'. unfold view. destruct Hout as [|Ha|Ha]; [done|congruence|congruence].
Qed.

(** The calls of one turn. *)
Lemma server_turn_inv r s out s' :
  Z.of_nat (length (sv_buf s)) = MTU_SIZE -> server_turn r s MTU_SIZE = Some (out, s') ->
  match received r (sv_buf s) with
  | None => out = [] /\ s' = s
  | Some (m, len) =>
      exists n ev log,
        LOG_EVENT (r_log_read r) (sv_log s) m (Some 0) len LOG_READ = Some (ev, log) /\
        net_demux (r_env r) m (sv_store s) 0 len = Some (n, sv_buf s', sv_store s') /\
        if 0 <? n then
          exists ev' pkt,
            LOG_EVENT (r_log_write r) log (sv_buf s') (Some 0) n LOG_WRITE = Some (ev', sv_log s') /\
            load_bytes (sv_buf s') 0 n = Some pkt /\ out = map Logged ev ++ map Logged ev' ++ [Wrote pkt]
        else out = map Logged ev /\ sv_log s' = log
  end.
Proof.
  intros Hl. unfold server_turn, tun_read, received. destruct s as [m st lg]. cbn [sv_buf sv_store sv_log] in *.
  destruct (r_read r) as [data|].
  2:{ cbn [mbind option_bind]. change (0 <? -1) with false. intros [= <- <-]. done. }
  set (d := take (Z.to_nat MTU_SIZE) data).
  assert (Z.of_nat (length d) = Z.min (Z.of_nat (length data)) MTU_SIZE) as Hld
    by (subst d; rewrite length_take; unfold MTU_SIZE; lia).
  rewrite store_bytes_in by lia. cbn [mbind option_bind]. rewrite Hld. destruct data as [|b data].
  { change (0 <? Z.min (Z.of_nat (length [])) MTU_SIZE) with false. cbn [mbind option_bind].
    subst d. rewrite take_nil. intros [= <- <-]. done. }
  set (len := Z.min _ MTU_SIZE) in *.
  assert (0 <? len = true) as -> by (apply Z.ltb_lt; subst len; unfold MTU_SIZE; cbn [length]; lia).
  intros ([[[[n m'] st'] lg'] o] & H & Hrest)%bind_Some.
  apply bind_Some in H as ([ev log] & Hev & H). apply bind_Some in H as ([[n1 m1] st1] & Hnet & [= -> -> -> -> <-]).
  exists n, ev, lg'. split; [done|]. destruct (0 <? n); [|injection Hrest as <- <-; done].
  apply bind_Some in Hrest as ([ev' log'] & Hev' & H). apply bind_Some in H as (pkt & Hpkt & [= <- <-]).
  split; [done|]. exists ev', pkt. done.
Qed.

(** ** Refinement *)

Lemma server_turn_serves r s out s' :
  server_ok s -> round_ok r -> Z.of_nat (size (conns (sv_store s))) < TABLE_MAX ->
  (forall k, ct_oom (sv_store s) k = false) -> server_turn r s MTU_SIZE = Some (out, s') ->
  serve r (sv_buf s) (view (sv_store s)) = (written out, sv_buf s', view (sv_store s')).
Proof.
  intros Hs Hr Hmax Hoom Hturn. pose proof (server_turn_inv r s out s' (so_size _ Hs) Hturn) as H.
  unfold serve. destruct (received r (sv_buf s)) as [[m len]|] eqn:Hrec; [|by destruct H as [-> ->]].
  destruct H as (n & ev & log & _ & Hnet & H).
  destruct (received_ok _ _ _ _ Hs (proj1 Hr) Hrec) as (Hb & Hl & Hlen).
  destruct (net_demux_function (r_env r) m (sv_store s) len) as (st' & Hnet' & Hc); try done; [apply Hr|lia|apply Hs|].
  rewrite Hnet in Hnet'. injection Hnet' as Hnet' <-.
  destruct (net_spec _ _ _ _) as [[n0 m0] c0]. cbn [fst snd] in *. injection Hnet' as <- <-. subst c0.
  destruct (0 <? n).
  - destruct H as (ev' & pkt & _ & (_ & ->)%load_bytes_Some & ->).
    by rewrite !written_app, !written_logged.
  - destruct H as [-> _]. by rewrite written_logged.
Qed.

Lemma server_loop_serves rs s :
  server_ok s -> Forall round_ok rs -> Z.of_nat (size (conns (sv_store s)) + length rs) <= TABLE_MAX ->
  (forall k, ct_oom (sv_store s) k = false) ->
  exists out s', server_loop rs s MTU_SIZE = Some (out, s') /\ server_ok s' /\
    serve_all rs (sv_buf s) (view (sv_store s)) = (written out, sv_buf s', view (sv_store s')).
Proof.
  revert s. induction rs as [|r rs IH]; intros s Hs Hr Hmax Hoom; cbn [server_loop serve_all].
  { by exists [], s. }
  apply Forall_cons in Hr as [Hr Hrs]. cbn [length] in Hmax.
  destruct (server_turn_spec r s Hs Hr ltac:(lia)) as (out & s1 & Ht & Hs1 & Ho & Hsz & _).
  rewrite Ht, (server_turn_serves r s out s1 Hs Hr ltac:(lia) Hoom Ht). cbn [mbind option_bind].
  destruct (IH s1 Hs1 Hrs ltac:(lia)) as (out' & s' & -> & Hs' & ->); [by rewrite Ho|].
  cbn [mbind option_bind]. exists (out ++ out'), s'. by rewrite written_app.
Qed.

(** Rounds with the same packets and the same readings inside the handlers. *)
Lemma serve_all_same rs rs' m c :
  Forall2 (fun r r' => r_read r' = r_read r /\ r_env r' = r_env r) rs rs' ->
  serve_all rs m c = serve_all rs' m c.
Proof.
  intros H. revert m c. induction H as [|r r' rs rs' [Hr He] _ IH]; intros m c; cbn [serve_all]; [done|].
  assert (serve r m c = serve r' m c) as -> by (unfold serve, received; by rewrite Hr, He).
  destruct (serve r' m c) as [[out m'] c']. by rewrite IH.
Qed.

Lemma same_inputs_ok rs rs' :
  Forall round_ok rs -> Forall2 (fun r r' => r_read r' = r_read r /\ r_env r' = r_env r) rs rs' -> Forall round_ok rs'.
Proof.
  intros Hr H. induction H as [|r r' rs rs' [He Hv] _ IH]; [constructor|].
  apply Forall_cons in Hr as [[H1 H2] Hr]. apply Forall_cons. split; [|auto].
  split; [unfold read_ok; by rewrite He|by rewrite Hv].
Qed.

(** ** The log as a transcript *)

Definition logged (out : list Output) : list bytes :=
  omap (fun o => match o with Logged e => Some e | Wrote _ => None end) out.

(** What [log.py] shows: direction, time, length and packet of each event. *)
Definition events (out : list Output) : list (Z * Z * Z * bytes) := omap parse_event (logged out).

(** The packets logged with a direction. *)
Definition shown (dir : Z) (evs : list (Z * Z * Z * bytes)) : list bytes :=
  omap (fun '(d, _, _, p) => if d =? dir then Some p else None) evs.

(** The packet a turn receives, cut to the size of the buffer. *)
Definition incoming (r : Round) : option bytes :=
  match r_read r with Some ((_ :: _) as data) => Some (take (Z.to_nat MTU_SIZE) data) | _ => None end.

(** The log's writes succeed. *)
Definition log_up (r : Round) : Prop := l_result (r_log_read r) <> -1 /\ l_result (r_log_write r) <> -1.

Definition event (env : Log_Env) (dir : Z) (p : bytes) : Z * Z * Z * bytes :=
  (dir, log_time env, Z.of_nat (length p), p).

(** The events of a turn that writes the packets [out]. *)
Definition turn_events (r : Round) (out : list bytes) : list (Z * Z * Z * bytes) :=
  match incoming r with
  | None => []
  | Some p => event (r_log_read r) LOG_READ p :: map (event (r_log_write r) LOG_WRITE) out
  end.

Lemma events_app a b : events (a ++ b) = events a ++ events b.
Proof. unfold events, logged. by rewrite !omap_app. Qed.

Lemma shown_app dir a b : shown dir (a ++ b) = shown dir a ++ shown dir b.
Proof. apply omap_app. Qed.

Lemma LOG_EVENT_parsed env g m len dir :
  0 <= g -> l_result env <> -1 -> 0 <= len <= MTU_SIZE -> len <= Z.of_nat (length m) -> 0 <= dir < 256 ->
  exists e, LOG_EVENT env g m (Some 0) len dir = Some ([e], g) /\
    parse_event e = Some (event env dir (rd m 0 len)).
Proof.
  intros Hg Hres Hl Hm Hd. unfold LOG_EVENT, VERBOSE. destruct (-1 <? g) eqn:E; [clear E|lia].
  rewrite log_event_in by lia. cbn [mbind option_bind]. destruct (_ =? -1) eqn:E; [lia|].
  eexists. split; [done|]. assert (Z.of_nat (length (rd m 0 len)) = len) as Hlen by (rewrite length_rd; lia).
  rewrite event_buf_parse by lia. unfold event. by rewrite u8_id, Hlen by lia.
Qed.

Lemma incoming_received r m m' len :
  Z.of_nat (length m) = MTU_SIZE -> received r m = Some (m', len) -> incoming r = Some (rd m' 0 len).
Proof.
  intros Hl. unfold received, incoming. destruct (r_read r) as [[|x data]|]; try done.
  assert (Z.of_nat (length (take (Z.to_nat MTU_SIZE) (x :: data)))
          = Z.min (Z.of_nat (length (x :: data))) MTU_SIZE) as Hd by (rewrite length_take; unfold MTU_SIZE; lia).
  set (d := take (Z.to_nat MTU_SIZE) (x :: data)) in *. clearbody d. set (n := _ `min` MTU_SIZE) in *.
  assert (n <= MTU_SIZE) by (subst n; lia). clearbody n. intros [= <- <-].
  f_equal. symmetry. apply rd_upd_same; lia.
Qed.

Lemma server_turn_events r s out s' :
  server_ok s -> round_ok r -> server_ok s' -> 0 <= sv_log s -> log_up r ->
  server_turn r s MTU_SIZE = Some (out, s') ->
  sv_log s' = sv_log s /\ events out = turn_events r (written out) /\ (incoming r = None -> written out = []).
Proof.
  intros Hs Hr Hs' Hg [Hup1 Hup2] Hturn. pose proof (server_turn_inv r s out s' (so_size _ Hs) Hturn) as H.
  unfold turn_events. destruct (received r (sv_buf s)) as [[m len]|] eqn:Hrec.
  2:{ destruct H as [-> ->]. split; [done|]. unfold received, incoming in *.
      split; [|done]. by destruct (r_read r) as [[|? ?]|]. }
  rewrite (incoming_received _ _ _ _ (so_size _ Hs) Hrec).
  destruct (received_ok _ _ _ _ Hs (proj1 Hr) Hrec) as (_ & Hl & Hlen).
  destruct H as (n & ev & log & Hev & _ & H).
  destruct (LOG_EVENT_parsed (r_log_read r) (sv_log s) m len LOG_READ) as (e & He & Hp);
    [done|done|lia|lia|unfold LOG_READ; lia|].
  rewrite Hev in He. injection He as -> ->.
  destruct (0 <? n) eqn:En.
  - destruct H as (ev' & pkt & Hev' & (Hrange & ->)%load_bytes_Some & ->). rewrite (so_size _ Hs') in Hrange.
    destruct (LOG_EVENT_parsed (r_log_write r) (sv_log s) (sv_buf s') n LOG_WRITE) as (e' & He' & Hp');
      [done|done|lia|rewrite (so_size _ Hs'); lia|unfold LOG_WRITE; lia|].
    rewrite Hev' in He'. injection He' as -> ->. split; [done|]. split; [|done].
    unfold events, logged. cbn. by rewrite Hp, Hp'.
  - destruct H as [-> ->]. split; [done|]. split; [|done]. unfold events, logged. cbn. by rewrite Hp.
Qed.

(** What each direction of the log shows of a turn. *)
Lemma shown_written env dir dir' (out : list bytes) :
  shown dir' (map (event env dir) out) = if dir =? dir' then out else [].
Proof.
  induction out as [|p out IH]; [by destruct (_ =? _)|].
  change (shown dir' (map (event env dir) (p :: out)))
    with (match (if dir =? dir' then Some p else None) with
          | Some q => q :: shown dir' (map (event env dir) out)
          | None => shown dir' (map (event env dir) out)
          end).
  rewrite IH. by destruct (_ =? _).
Qed.

Lemma turn_events_shown r out :
  (incoming r = None -> out = []) ->
  shown LOG_READ (turn_events r out) = omap incoming [r] /\ shown LOG_WRITE (turn_events r out) = out /\
  shown LOG_SHUTDOWN (turn_events r out) = [].
Proof.
  intros Hnone. unfold turn_events. cbn [omap list_omap]. destruct (incoming r) as [p|]; [|by rewrite Hnone by done].
  change (event (r_log_read r) LOG_READ p :: map (event (r_log_write r) LOG_WRITE) out)
    with (map (event (r_log_read r) LOG_READ) [p] ++ map (event (r_log_write r) LOG_WRITE) out).
  by rewrite !shown_app, !shown_written.
Qed.

Lemma server_loop_events rs s out s' :
  server_ok s -> Forall round_ok rs -> Z.of_nat (size (conns (sv_store s)) + length rs) <= TABLE_MAX ->
  0 <= sv_log s -> Forall log_up rs -> server_loop rs s MTU_SIZE = Some (out, s') ->
  sv_log s' = sv_log s /\ shown LOG_READ (events out) = omap incoming rs /\
  shown LOG_WRITE (events out) = written out /\ shown LOG_SHUTDOWN (events out) = [].
Proof.
  revert s out. induction rs as [|r rs IH]; intros s out Hs Hr Hmax Hg Hup Hrun; cbn [server_loop] in Hrun.
  { by injection Hrun as <- <-. }
  apply Forall_cons in Hr as [Hr Hrs], Hup as [Hup Hups]. cbn [length] in Hmax.
  destruct (server_turn_spec r s Hs Hr ltac:(lia)) as (out1 & s1 & Ht & Hs1 & _ & Hsz & _).
  rewrite Ht in Hrun. cbn [mbind option_bind] in Hrun. apply bind_Some in Hrun as ([out2 s2] & Hl & [= <- <-]).
  destruct (server_turn_events r s out1 s1 Hs Hr Hs1 Hg Hup Ht) as (Hlog & Hev & Hnone).
  destruct (IH s1 out2 Hs1 Hrs ltac:(lia) ltac:(lia) Hups Hl) as (Hlog' & H1 & H2 & H3).
  destruct (turn_events_shown r (written out1) Hnone) as (T1 & T2 & T3).
  change (r :: rs) with ([r] ++ rs). rewrite omap_app, events_app, !shown_app, written_app, Hev.
  rewrite H1, H2, H3, T1, T2, T3. split; [by rewrite Hlog'|done].
Qed.

(** ** Properties *)

(** C3 The server refines the abstract one: when the allocator refuses nothing, the packets
    [server_loop] writes, in their order, the buffer and the connections it leaves are those
    of [serve_all], which knows neither memory nor hash table nor log.  What they depend on
    is, turn by turn, the packet received, the clock, and the words [tcp_rst] finds under
    the locals it does not assign, and once for the whole run the values [rand()] gives:
    another allocator that refuses nothing, another log and other readings of the log's
    clock change nothing. *)
Theorem server_loop_refines oom rnd log rs :
  (forall k, oom k = false) -> Forall round_ok rs -> Z.of_nat (length rs) <= TABLE_MAX ->
  exists out s, server_loop rs (server_start oom rnd log) MTU_SIZE = Some (out, s) /\ closed (sv_store s) /\
    serve_all rs (replicate (Z.to_nat MTU_SIZE) 0) (∅, rnd) = (written out, sv_buf s, view (sv_store s)) /\
    forall oom' log' rs', (forall k, oom' k = false) ->
      Forall2 (fun r r' => r_read r' = r_read r /\ r_env r' = r_env r) rs rs' ->
      exists out' s', server_loop rs' (server_start oom' rnd log') MTU_SIZE = Some (out', s') /\
        written out' = written out /\ sv_buf s' = sv_buf s /\ view (sv_store s') = view (sv_store s).
Proof.
  intros Hoom Hr Hmax.
  destruct (server_loop_serves rs (server_start oom rnd log) (server_start_ok _ _ _) Hr) as (out & s & H & Hs & Hserve);
    [change (size (conns _)) with 0%nat; lia|exact Hoom|].
  exists out, s. split; [done|]. split; [apply Hs|]. split; [exact Hserve|]. intros oom' log' rs' Hoom' Hrs.
  destruct (server_loop_serves rs' (server_start oom' rnd log') (server_start_ok _ _ _)) as (out' & s' & H' & _ & Hserve').
  - by apply (same_inputs_ok rs).
  - rewrite <- (Forall2_length _ _ _ Hrs). change (size (conns _)) with 0%nat. lia.
  - exact Hoom'.
  - exists out', s'. split; [done|]. rewrite <- (serve_all_same rs rs') in Hserve' by done.
    change (view (sv_store (server_start oom' rnd log'))) with (view (sv_store (server_start oom rnd log))) in Hserve'.
    change (sv_buf (server_start oom' rnd log')) with (sv_buf (server_start oom rnd log)) in Hserve'.
    rewrite Hserve in Hserve'. by apply pair_eq in Hserve' as [[-> ->]%pair_eq ->].
Qed.

Lemma server_loop_refines_witness :
  exists out s, server_loop sample_rounds (server_start plenty zeros 3) MTU_SIZE = Some (out, s) /\
    written out = (serve_all sample_rounds (replicate (Z.to_nat MTU_SIZE) 0) (∅, zeros)).1.1.
Proof.
  destruct (server_loop_refines plenty zeros 3 sample_rounds (fun k => eq_refl) sample_rounds_ok sample_rounds_few)
    as (out & s & H & _ & Hs & _).
  exists out, s. split; [exact H|]. rewrite Hs. reflexivity.
Defined.

(** C11 The log is a transcript of the run: when the log is open and its writes succeed, what
    [log.py] reads back from the events of [server_run] is, under the direction [LOG_READ],
    the packets received, whole and in order, under [LOG_WRITE] the packets written, and a
    single empty [LOG_SHUTDOWN] event, the last one. *)
Theorem server_log_transcript rs last oom rnd log :
  Forall round_ok rs -> Z.of_nat (length rs) <= TABLE_MAX ->
  0 <= log -> Forall log_up rs -> l_result last <> -1 ->
  exists out s evs, server_run rs last (server_start oom rnd log) MTU_SIZE = Some (out, s) /\ sv_log s = log /\
    shown LOG_READ (events out) = omap incoming rs /\ shown LOG_WRITE (events out) = written out /\
    events out = evs ++ [(LOG_SHUTDOWN, log_time last, 0, [])] /\ shown LOG_SHUTDOWN evs = [].
Proof.
  intros Hr Hmax Hlog Hup Hlast. set (s0 := server_start oom rnd log).
  assert (size (conns (sv_store s0)) = 0%nat) as H0 by done.
  destruct (server_loop_spec rs s0 (server_start_ok _ _ _) Hr ltac:(lia)) as (out & s & Hrun & _).
  destruct (server_loop_events rs s0 out s (server_start_ok _ _ _) Hr ltac:(lia) Hlog Hup Hrun) as (Hfd & H1 & H2 & H3).
  change (sv_log s0) with log in Hfd. unfold server_run, LOG_EVENT, VERBOSE.
  rewrite Hrun. cbn [mbind option_bind]. rewrite Hfd. destruct (-1 <? log) eqn:E; [clear E|lia].
  rewrite log_event_null. cbn [mbind option_bind]. destruct (l_result last =? -1) eqn:E; [lia|clear E].
  do 2 eexists. exists (events out). split; [done|]. split; [done|].
  rewrite events_app, !shown_app, written_app, written_logged, app_nil_r, H1, H2, H3.
  assert (events (map Logged [event_buf last [] 0 LOG_SHUTDOWN]) = [(LOG_SHUTDOWN, log_time last, 0, [])]) as ->.
  { unfold events, logged. cbn [map omap list_omap]. by rewrite event_buf_parse. }
  cbn. by rewrite !app_nil_r.
Qed.

Lemma server_log_transcript_witness :
  exists out s, server_run sample_rounds sample_log (server_start plenty zeros 3) MTU_SIZE = Some (out, s) /\
    length (shown LOG_READ (events out)) = 3%nat.
Proof.
  destruct (server_log_transcript sample_rounds sample_log plenty zeros 3 sample_rounds_ok sample_rounds_few)
    as (out & s & evs & H & _ & H1 & _); [lia| |discriminate|].
  - repeat constructor; discriminate.
  - exists out, s. split; [exact H|]. rewrite H1. vm_compute. reflexivity.
Defined.
