(* ===== verification/Agree.v ===== *)
(** * Buffers that agree on their first bytes

    The server reuses one buffer, so behind a packet lie bytes of earlier ones.  Two buffers
    agree up to [k] when their first [k] bytes are the same; what the handlers compute from
    a packet of [k] bytes and the bytes they send respect this equivalence. *)
From S2P Require Import Prelude Memory Checksum Ip TcpHeader Heap Tcb Vector Table Hash Segment Samples Tcp.

Definition agree (k : Z) (m m' : bytes) : Prop :=
  length m = length m' /\ forall i, (i < Z.to_nat k)%nat -> m !! i = m' !! i.

#[export] Instance agree_equivalence k : Equivalence (agree k).
Proof.
  split.
  - intros m. done.
  - intros m m' [Hl H]. split; [done|]. intros i Hi. by rewrite H.
  - intros m1 m2 m3 [Hl1 H1] [Hl2 H2]. split; [congruence|]. intros i Hi. by rewrite H1, H2.
Qed.

(** Writing the same bytes keeps agreement, wherever they are written. *)
#[export] Instance upd_agree k : Proper (agree k ==> (=) ==> (=) ==> agree k) upd.
Proof.
  intros m m' [Hl H] p _ <- l _ <-. split; [by rewrite !length_upd|]. intros i Hi.
  destruct (decide (Z.to_nat p <= i < Z.to_nat p + length l)%nat) as [Hin|Hout].
  - destruct (decide (i < length m)%nat).
    + by rewrite !lookup_upd_in by lia.
    + by rewrite !lookup_ge_None_2 by (rewrite length_upd; lia).
  - rewrite !lookup_upd_out by lia. by apply H.
Qed.

#[export] Instance setf_agree k : Proper (agree k ==> (=) ==> (=) ==> (=) ==> agree k) setf.
Proof. intros m m' H p _ <- f _ <- v _ <-. unfold setf. by rewrite H. Qed.

(** Reading within the bytes that agree. *)
Lemma rd_agree k m m' p n : agree k m m' -> 0 <= p -> p + n <= k -> rd m p n = rd m' p n.
Proof.
  intros [Hl H] Hp Hn. unfold rd. apply list_eq. intros i.
  destruct (decide (i < Z.to_nat n)%nat).
  - rewrite !lookup_take_lt, !lookup_drop by done. apply H. lia.
  - by rewrite !lookup_take_ge by lia.
Qed.

Lemma getf_agree k m m' p f :
  agree k m m' -> 0 <= p + f_off f -> p + f_off f + Z.of_nat (f_width f) <= k -> getf m p f = getf m' p f.
Proof. intros. unfold getf. by rewrite (rd_agree k m m'). Qed.

(** Both hold the packet at their start. *)
Lemma agree_start m m' d :
  length m = length m' -> (length d <= length m)%nat -> agree (Z.of_nat (length d)) (upd m 0 d) (upd m' 0 d).
Proof.
  intros Hl Hd. split; [by rewrite !length_upd|]. intros i Hi. by rewrite !lookup_upd_in by lia.
Qed.

Lemma agree_le k j m m' : agree k m m' -> j <= k -> agree j m m'.
Proof. intros [Hl H] Hj. split; [done|]. intros i Hi. apply H. lia. Qed.

(** Reads of the first buffer become reads of the second. *)
Ltac agree_reads H :=
  let k := lazymatch type of H with agree ?k _ _ => k end in
  let m := lazymatch type of H with agree _ ?m _ => m end in
  let m' := lazymatch type of H with agree _ _ ?m' => m' end in
  repeat match goal with
  | |- context [getf m ?p ?f] => rewrite (getf_agree k m m' p f H) by mem
  | |- context [rd m ?p ?n] => rewrite (rd_agree k m m' p n H) by mem
  end.

(** ** Headers and checksums *)

Lemma ihl_agree k m m' : agree k m m' -> 1 <= k -> ihl_of m 0 = ihl_of m' 0.
Proof. intros H Hk. unfold ihl_of. by agree_reads H. Qed.

Lemma ip_valid_agree k m m' : agree k m m' -> 1 <= k -> ip_valid m 0 k <-> ip_valid m' 0 k.
Proof.
  intros H Hk. unfold ip_valid. pose proof (ihl_of_range m 0) as Hr. rewrite <- (ihl_agree k m m' H Hk). agree_reads H.
  split; intros (H1 & H2 & H3); (split; [done|]; split; [done|]).
  - by rewrite <- (rd_agree k m m') by (done || lia).
  - by rewrite (rd_agree k m m') by (done || lia).
Qed.

Lemma sealed_agree k m m' p q n :
  agree k m m' -> 0 <= p -> p + n <= k -> agree k (sealed m p q n) (sealed m' p q n).
Proof.
  intros H Hp Hn. unfold sealed.
  rewrite (rd_agree k (setf m p (Field q 2) 0) (setf m' p (Field q 2) 0) p n) by (done || by rewrite H).
  by rewrite H.
Qed.

Lemma swapped_agree k m m' : agree k m m' -> 20 <= k -> agree k (swapped m 0) (swapped m' 0).
Proof. intros H Hk. unfold swapped. agree_reads H. by rewrite H. Qed.

Lemma ports_swapped_agree k m m' tcp :
  agree k m m' -> 0 <= tcp -> tcp + 4 <= k -> agree k (ports_swapped m tcp) (ports_swapped m' tcp).
Proof. intros H Hp Hk. unfold ports_swapped. agree_reads H. by rewrite H. Qed.

Lemma tcp_sum_agree k m m' offset n :
  agree k m m' -> 20 <= k -> 0 <= offset -> offset + n <= k -> tcp_sum m offset n = tcp_sum m' offset n.
Proof.
  intros H Hk Ho Hn. unfold tcp_sum, pseudo_of. agree_reads H.
  by rewrite (rd_agree k (setf m offset tcp_csum 0) (setf m' offset tcp_csum 0) offset n) by (done || by rewrite H).
Qed.

(** ** The handler *)

Section segment.
Context (k offset : Z) (m m' : bytes).
Hypothesis (H : agree k m m') (Ho : 20 <= offset) (Hk : offset + 20 <= k).

Lemma seg_id_agree : seg_id m offset = seg_id m' offset.
Proof. unfold seg_id. by agree_reads H. Qed.

Lemma hlen_agree : tcp_hlen_of m offset = tcp_hlen_of m' offset.
Proof. unfold tcp_hlen_of. by agree_reads H. Qed.

Lemma con_step_agree env t : con_step env m offset t = con_step env m' offset t.
Proof. unfold con_step, seg_flags, has, seg_id, seg_ack, seg_seq. by agree_reads H. Qed.

Lemma tcp_accepts_agree len : offset <= len <= k -> tcp_accepts m len offset = tcp_accepts m' len offset.
Proof. intros Hl. unfold tcp_accepts. rewrite (tcp_sum_agree k m m') by (done || lia). by agree_reads H. Qed.

Lemma syn_ack_buf_agree t len :
  offset <= len <= k -> agree k (syn_ack_buf m t len offset) (syn_ack_buf m' t len offset).
Proof.
  intros Hl. assert (agree k (syn_ack_head m t offset) (syn_ack_head m' t offset)) as Hh.
  { unfold syn_ack_head. rewrite hlen_agree. cbv zeta.
    pose proof (ports_swapped_agree k _ _ offset (swapped_agree k m m' H ltac:(lia)) ltac:(lia) ltac:(lia)) as Hp.
    by rewrite Hp. }
  unfold syn_ack_buf. rewrite hlen_agree. cbv zeta.
  assert (agree k (sealed (setf (syn_ack_head m t offset) 0 ip_len (htons (offset + tcp_hlen_of m' offset))) 0 10 offset)
    (sealed (setf (syn_ack_head m' t offset) 0 ip_len (htons (offset + tcp_hlen_of m' offset))) 0 10 offset)) as Hs
    by (apply sealed_agree; [by rewrite Hh|lia|lia]).
  rewrite (tcp_sum_agree k _ _ offset (len - offset) Hs) by lia. by rewrite Hs.
Qed.

Lemma rst_values_agree junk : rst_values junk m offset = rst_values junk m' offset.
Proof. unfold rst_values. rewrite hlen_agree. by agree_reads H. Qed.

Lemma rst_buf_agree s a f : agree k (rst_buf m offset s a f) (rst_buf m' offset s a f).
Proof.
  unfold rst_buf. rewrite hlen_agree. cbv zeta.
  pose proof (ports_swapped_agree k _ _ offset (swapped_agree k m m' H ltac:(lia)) ltac:(lia) ltac:(lia)) as Hp.
  by rewrite Hp.
Qed.

(** The reply: its length, and the bytes that agree. *)
Lemma tcp_output_agree env len r :
  offset <= len <= k ->
  (tcp_output env m len offset r).1 = (tcp_output env m' len offset r).1 /\
  agree k (tcp_output env m len offset r).2 (tcp_output env m' len offset r).2.
Proof.
  intros Hl. destruct r as [|t|]; cbn [tcp_output].
  - done.
  - split; [cbn; by rewrite hlen_agree|by apply syn_ack_buf_agree].
  - rewrite rst_values_agree. destruct (rst_values _ m' offset) as [[s a] f].
    split; [cbn; by rewrite hlen_agree|apply rst_buf_agree].
Qed.
End segment.

(** ** Buffers that differ in some fields *)

(** The same bytes but where [P] says. *)
Definition agree_but (P : nat -> Prop) (m m' : bytes) : Prop :=
  length m = length m' /\ forall i, ~ P i -> m !! i = m' !! i.

#[export] Instance agree_but_equivalence P : Equivalence (agree_but P).
Proof.
  split.
  - intros m. done.
  - intros m m' [Hl H]. split; [done|]. intros i Hi. by rewrite H.
  - intros m1 m2 m3 [Hl1 H1] [Hl2 H2]. split; [congruence|]. intros i Hi. by rewrite H1, H2.
Qed.

(** The bytes of a field. *)
Definition in_field (p : Z) (f : field) (i : nat) : Prop :=
  (Z.to_nat (p + f_off f) <= i < Z.to_nat (p + f_off f) + f_width f)%nat.

Lemma lookup_setf_out m p f v i : ~ in_field p f i -> setf m p f v !! i = m !! i.
Proof. intros Hi. unfold setf, in_field in *. apply lookup_upd_out; rewrite length_le_encode; lia. Qed.

Lemma lookup_setf_in m m' p f v i :
  length m = length m' -> in_field p f i -> setf m p f v !! i = setf m' p f v !! i.
Proof.
  intros Hl Hi. unfold setf, in_field in *. destruct (decide (i < length m)%nat).
  - by rewrite !lookup_upd_in by (rewrite ?length_le_encode; lia).
  - by rewrite !lookup_ge_None_2 by (rewrite length_upd; lia).
Qed.

(** Writing a field makes it agree; writing it differently makes it differ. *)
Lemma setf_agree_but P m m' p f v :
  agree_but P m m' -> agree_but (fun i => P i /\ ~ in_field p f i) (setf m p f v) (setf m' p f v).
Proof.
  intros [Hl H]. split; [by autorewrite with lens|]. intros i Hi.
  destruct (decide (Z.to_nat (p + f_off f) <= i < Z.to_nat (p + f_off f) + f_width f)%nat) as [Hin|Hout].
  - by apply lookup_setf_in.
  - rewrite !lookup_setf_out by done. apply H. intros HP. by apply Hi.
Qed.

#[export] Instance setf_agree_but_proper P : Proper (agree_but P ==> (=) ==> (=) ==> (=) ==> agree_but P) setf.
Proof.
  intros m m' H p _ <- f _ <- v _ <-. destruct (setf_agree_but P m m' p f v H) as [Hl H'].
  split; [done|]. intros i Hi. apply H'. tauto.
Qed.

Lemma setf_differ P m m' p f v v' :
  agree_but P m m' -> (forall i, in_field p f i -> P i) -> agree_but P (setf m p f v) (setf m' p f v').
Proof.
  intros [Hl H] HP. split; [by autorewrite with lens|]. intros i Hi.
  rewrite !lookup_setf_out by (intros Hin; apply Hi; auto). by apply H.
Qed.

Lemma agree_but_eq m m' : agree_but (fun _ => False) m m' -> m = m'.
Proof. intros [_ H]. apply list_eq. intros i. apply H. tauto. Qed.

Lemma agree_but_weaken (P Q : nat -> Prop) m m' : agree_but P m m' -> (forall i, P i -> Q i) -> agree_but Q m m'.
Proof. intros [Hl H] HPQ. split; [done|]. intros i Hi. apply H. auto. Qed.

Lemma agree_but_rd P m m' n : agree_but P m m' -> agree_but P (rd m 0 n) (rd m' 0 n).
Proof.
  intros [Hl H]. unfold rd. rewrite !drop_0. split; [rewrite !length_take; lia|]. intros i Hi.
  destruct (decide (i < Z.to_nat n)%nat); [by rewrite !lookup_take_lt by done; apply H|by rewrite !lookup_take_ge by lia].
Qed.

(** Two resets of the same segment, whose stack words may differ. *)
Lemma rst_buf_ack_differ m offset s a a' f :
  agree_but (in_field offset tcp_ack_num) (rst_buf m offset s a f) (rst_buf m offset s a' f).
Proof.
  unfold rst_buf. cbv zeta. do 4 (apply setf_agree_but_proper; [|done..]). by apply setf_differ.
Qed.

Lemma rst_buf_seq_differ m offset s s' a f f' :
  agree_but (fun i => in_field offset tcp_seq_num i \/ in_field offset tcp_flags i)
    (rst_buf m offset s a f) (rst_buf m offset s' a f').
Proof.
  unfold rst_buf. cbv zeta. do 2 (apply setf_agree_but_proper; [|done..]). apply setf_differ; [|tauto].
  do 2 (apply setf_agree_but_proper; [|done..]). apply setf_differ; [done|tauto].
Qed.
