(* ===== verification/Isolation.v ===== *)
(** * Isolation of the connections

    What the server tells one peer, and what it keeps of that peer's connection, depends on
    that peer's packets: those of others may be removed from the input, if the random
    generator they would have moved and the stack words that resets send are accounted
    for.  This needs headers that lie in their packets; behind a shorter one the server answers with
    bytes of earlier packets. *)
From S2P Require Import Prelude Memory Checksum Ip Icmp TcpHeader Heap Tcb Vector Table Hash Segment Samples Tcp Network Log Server ServerSpec Agree.

Implicit Types (M : gmap ID TCB) (g : Rand).

(** ** Packets of a connection *)

(** A packet at the start of an empty buffer. *)
Definition frame (d : bytes) : bytes := upd (replicate (Z.to_nat MTU_SIZE) 0) 0 d.
Definition size_of (d : bytes) : Z := Z.of_nat (length d).

(** The connection of a valid TCP packet. *)
Definition names (d : bytes) : option ID :=
  if bool_decide (ip_valid (frame d) 0 (size_of d)) && (getf (frame d) 0 ip_proto =? PROTO_TCP)
  then Some (seg_id (frame d) (ihl_of (frame d) 0)) else None.

(** The packet of a turn names [id]. *)
Definition concerns (id : ID) (r : Round) : Prop := incoming r ≫= names = Some id.

#[export] Instance concerns_dec id r : Decision (concerns id r).
Proof. unfold concerns. apply _. Defined.

(** The TCP header, options included, lies in the packet. *)
Definition whole (r : Round) : Prop :=
  forall d id, incoming r = Some d -> names d = Some id ->
    let offset := ihl_of (frame d) 0 in
    20 <= tcp_hlen_of (frame d) offset /\ offset + tcp_hlen_of (frame d) offset <= size_of d.

Definition peer (id : ID) : ID := MkID (dst_port id) (src_port id) (dst_ip id) (src_ip id).

(** A packet sent to the peer of [id]. *)
Definition addressed (id : ID) (p : bytes) : Prop :=
  getf p 0 ip_proto = PROTO_TCP /\ seg_id p (ihl_of p 0) = peer id.

#[export] Instance addressed_dec id p : Decision (addressed id p).
Proof. unfold addressed. apply _. Defined.

(** The same packet, or two resets that differ in the words [tcp_rst] leaves unset: the
    acknowledgment number, or else the sequence number and the flags. *)
Definition cleared (fs : list field) (p : bytes) : bytes :=
  foldr (fun f m => setf m (ihl_of p 0) f 0) p fs.
Definition same_packet (p q : bytes) : Prop :=
  p = q \/
  (getf p (ihl_of p 0) tcp_window = 0 /\
   (cleared [tcp_ack_num] p = cleared [tcp_ack_num] q \/
    cleared [tcp_seq_num; tcp_flags] p = cleared [tcp_seq_num; tcp_flags] q)).

(** Turns that receive the same and read the same clock; the log's readings and the words
    under the never-assigned locals may differ. *)
Definition alike (r r' : Round) : Prop :=
  r_read r' = r_read r /\ e_sec (r_env r') = e_sec (r_env r) /\ e_usec (r_env r') = e_usec (r_env r).

(** ** Lemmas *)

Lemma peer_inj a b : peer a = peer b -> a = b.
Proof. destruct a, b. by intros [= -> -> -> ->]. Qed.

Lemma incoming_size r d : incoming r = Some d -> 0 < size_of d <= MTU_SIZE.
Proof.
  unfold incoming. destruct (r_read r) as [[|x data]|]; try done. intros H. apply Some_inj in H. rewrite <- H.
  unfold size_of. rewrite length_take. unfold MTU_SIZE. cbn [length]. lia.
Qed.

Lemma received_incoming r m :
  received r m = (fun d => (upd m 0 d, size_of d)) <$> incoming r.
Proof.
  unfold received, incoming, size_of. destruct (r_read r) as [[|x data]|]; [done| |done].
  cbn [fmap option_fmap option_map]. do 2 f_equal. rewrite length_take. unfold MTU_SIZE. lia.
Qed.

Lemma frame_agree m d :
  Z.of_nat (length m) = MTU_SIZE -> size_of d <= MTU_SIZE -> agree (size_of d) (upd m 0 d) (frame d).
Proof.
  intros Hm Hd. unfold size_of in *. apply agree_start; [rewrite length_replicate|]; unfold MTU_SIZE in *; lia.
Qed.

(** A field of the bytes sent is the field of the buffer. *)
Lemma getf_rd m n p f :
  0 <= p + f_off f -> p + f_off f + Z.of_nat (f_width f) <= n -> getf (rd m 0 n) p f = getf m p f.
Proof. intros. unfold getf. by rewrite rd_rd by lia. Qed.

(** What every reply to a segment keeps of the header, and exchanges. *)
Definition answers (m m' : bytes) (offset : Z) : Prop :=
  ihl_of m' 0 = ihl_of m 0 /\ getf m' 0 ip_proto = getf m 0 ip_proto /\
  seg_id m' offset = peer (seg_id m offset).

Lemma exchanged_answers m m' offset :
  getf m' 0 ip_version_ihl = getf m 0 ip_version_ihl -> getf m' 0 ip_proto = getf m 0 ip_proto ->
  getf m' 0 ip_src = getf m 0 ip_dst -> getf m' 0 ip_dst = getf m 0 ip_src ->
  getf m' offset tcp_src_port = getf m offset tcp_dst_port ->
  getf m' offset tcp_dst_port = getf m offset tcp_src_port -> answers m m' offset.
Proof.
  intros H1 H2 H3 H4 H5 H6. split; [by unfold ihl_of; rewrite H1|]. split; [done|].
  unfold seg_id, peer. cbn. by rewrite H3, H4, H5, H6.
Qed.

Lemma tcp_output_answers env m len offset r :
  packet m len offset -> r <> Silent -> answers m (tcp_output env m len offset r).2 offset.
Proof.
  intros Hp Hr. pose proof (packet_range _ _ _ Hp) as Ho. pose proof Hp as [Hb Hs _ _ Hoff].
  unfold MTU_SIZE in Hs. destruct (swapped_src m 0 Hb) as [Hsrc Hdst]; [lia|lia|].
  destruct (ports_swapped_ports (swapped m 0) offset) as [Hsp Hdp]; [auto with bytes|lia|mem|].
  destruct r as [|t|]; [done| |]; cbn [tcp_output].
  - pose proof (syn_ack_buf_spec m t len offset Hp) as [].
    apply exchanged_answers; cbn [snd]; try done;
      unfold syn_ack_buf, syn_ack_head, ports_swapped; cbv zeta; pkt; done.
  - destruct (rst_values _ _ _) as [[s a] f]. unfold rst_buf. cbv zeta.
    apply exchanged_answers; cbn [snd]; pkt; rewrite ?Hsp, ?Hdp; unfold ports_swapped; pkt; done.
Qed.

Lemma silent_or_not (r : Reply) : {r = Silent} + {r <> Silent}.
Proof. destruct r; [by left|by right|by right]. Qed.

Lemma tcp_output_length env m len offset r :
  r <> Silent -> (tcp_output env m len offset r).1 = offset + tcp_hlen_of m offset.
Proof. destruct r; [done| |]; cbn [tcp_output]; [done|]. by destruct (rst_values _ _ _) as [[? ?] ?]. Qed.

(** ** One packet *)

Section packet.
Context (env : Env) (d b : bytes).
Hypothesis (Hok : bytes_ok b) (Hsize : Z.of_nat (length b) = MTU_SIZE) (Hd : 0 < size_of d <= MTU_SIZE).
Hypothesis (Hagree : agree (size_of d) b (frame d)).

Lemma names_packet id :
  names d = Some id ->
  packet b (size_of d) (ihl_of (frame d) 0) /\ getf b 0 ip_proto = PROTO_TCP.
Proof.
  unfold names. destruct (bool_decide _) eqn:Hv; [|done]. apply bool_decide_eq_true in Hv.
  destruct (_ =? PROTO_TCP) eqn:Hp; [|done]. intros _. apply Z.eqb_eq in Hp.
  rewrite <- (ip_valid_agree _ _ _ Hagree) in Hv by lia. pose proof (ihl_of_range b 0).
  rewrite <- (ihl_agree _ _ _ Hagree) by lia. split; [by split; try lia|].
  destruct Hv as [? _]. by rewrite (getf_agree _ _ _ 0 ip_proto Hagree) by mem.
Qed.

Lemma names_id id : names d = Some id -> seg_id (frame d) (ihl_of (frame d) 0) = id.
Proof. unfold names. by destruct (_ && _); intros [= ->]. Qed.

(** A segment goes to the machine of the connection it names. *)
Lemma net_named id M g :
  names d = Some id -> let offset := ihl_of (frame d) 0 in
  offset + 20 <= size_of d ->
  net_spec env b (size_of d) (M, g) =
  if tcp_accepts (frame d) (size_of d) offset then
    let '(reply, o) := con_step (env_iss env g) (frame d) offset (con_of M id) in
    (tcp_output env b (size_of d) offset reply, (partial_alter (fun _ => o) id M, drawn g reply))
  else (0, b, (M, g)).
Proof.
  cbv zeta. intros Hid Hlen. destruct (names_packet id Hid) as [Hp Htcp].
  pose proof (packet_range _ _ _ Hp) as Ho. pose proof Hp as [_ _ _ Hv Hoff].
  unfold net_spec. rewrite decide_True by done. rewrite Htcp, <- Hoff.
  change (PROTO_TCP =? PROTO_ICMP) with false. change (PROTO_TCP =? PROTO_TCP) with true. cbv iota.
  rewrite (tcp_accepts_agree (size_of d) _ b (frame d)) by (done || lia).
  destruct (tcp_accepts _ _ _); [|done]. unfold tcp_spec. cbn [fst snd].
  rewrite (seg_id_agree (size_of d) _ b (frame d)), (con_step_agree (size_of d) _ b (frame d)) by (done || lia).
  rewrite (names_id id Hid).
  by destruct (con_step _ _ _ _).
Qed.

(** A packet that names no connection touches none, and what answers it is no segment. *)
Lemma net_unnamed c :
  names d = None ->
  let '(n, b', c') := net_spec env b (size_of d) c in c' = c /\ (0 < n -> getf (rd b' 0 n) 0 ip_proto = PROTO_ICMP).
Proof.
  intros Hn. unfold net_spec. destruct (decide (ip_valid b 0 (size_of d))) as [Hv|]; [|split; [done|lia]].
  assert (packet b (size_of d) (ihl_of b 0)) as Hp by (split; try done; lia).
  pose proof (packet_range _ _ _ Hp) as Ho. unfold MTU_SIZE in Hsize, Hd.
  destruct (getf b 0 ip_proto =? PROTO_ICMP) eqn:Hi.
  - apply Z.eqb_eq in Hi. destruct (decide _) as [[[Hl _] _]|]; [|split; [done|lia]]. split; [done|]. intros _.
    rewrite getf_rd by mem. unfold echo_buf. cbv zeta. by pkt.
  - destruct (getf b 0 ip_proto =? PROTO_TCP) eqn:Ht.
    + exfalso. revert Hn. unfold names. rewrite bool_decide_eq_true_2.
      * rewrite <- (getf_agree _ _ _ 0 ip_proto Hagree) by mem. by rewrite Ht.
      * by apply (ip_valid_agree _ _ _ Hagree); [lia|].
    + split; [done|]. intros Hpos. unfold unreach_len in *. rewrite getf_rd by mem. unfold unreach_buf. cbv zeta.
      by pkt.
Qed.

(** The answer to a segment is addressed to the peer of the connection it names. *)
Lemma reply_addressed id r :
  names d = Some id -> r <> Silent -> let offset := ihl_of (frame d) 0 in
  20 <= tcp_hlen_of (frame d) offset -> offset + tcp_hlen_of (frame d) offset <= size_of d ->
  let '(n, b') := tcp_output env b (size_of d) offset r in
  n = offset + tcp_hlen_of (frame d) offset /\ addressed id (rd b' 0 n).
Proof.
  cbv zeta. intros Hid Hr. pose proof (names_id id Hid) as Hseg. destruct (names_packet id Hid) as [Hp Htcp].
  pose proof (pk_offset _ _ _ Hp) as Hoff. set (off := ihl_of (frame d) 0) in *. intros H20 Hlen.
  pose proof (packet_range _ _ _ Hp) as Ho. pose proof (tcp_output_length env b (size_of d) off r Hr) as Hn.
  rewrite (hlen_agree (size_of d) off b (frame d)) in Hn by (done || lia).
  destruct (tcp_output_answers env b (size_of d) off r Hp Hr) as (H1 & H2 & H3).
  rewrite (seg_id_agree (size_of d) off b (frame d)), Hseg in H3 by (done || lia).
  destruct (tcp_output _ _ _ _ _) as [n b']. cbn [fst snd] in *. subst n. split; [done|].
  set (n := off + tcp_hlen_of (frame d) off) in *. assert (off + 20 <= n) by lia. clearbody n off.
  assert (ihl_of (rd b' 0 n) 0 = off) as Hi by (unfold ihl_of in *; rewrite getf_rd by mem; congruence).
  split; [rewrite getf_rd by mem; congruence|]. rewrite Hi, <- H3. unfold seg_id. by rewrite !getf_rd by mem.
Qed.
End packet.

(** ** One turn *)

Lemma serve_packet r m c d :
  incoming r = Some d ->
  serve r m c = let '(n, m', c') := net_spec (r_env r) (upd m 0 d) (size_of d) c in
                (if 0 <? n then [rd m' 0 n] else [], m', c').
Proof. intros Hd. unfold serve. by rewrite received_incoming, Hd. Qed.

Lemma incoming_ok r d : read_ok r -> incoming r = Some d -> bytes_ok d.
Proof.
  intros Hr. unfold incoming. destruct (r_read r) as [[|x data]|] eqn:E; try done. intros H%Some_inj. rewrite <- H.
  apply Forall_take, (Hr _ E).
Qed.

(** The buffer with the packet of a turn. *)
Lemma packet_buffer r m d :
  read_ok r -> bytes_ok m -> Z.of_nat (length m) = MTU_SIZE -> incoming r = Some d ->
  bytes_ok (upd m 0 d) /\ Z.of_nat (length (upd m 0 d)) = MTU_SIZE /\ 0 < size_of d <= MTU_SIZE /\
  agree (size_of d) (upd m 0 d) (frame d).
Proof.
  intros Hr Hb Hm Hd. pose proof (incoming_size _ _ Hd) as Hs. pose proof (incoming_ok _ _ Hr Hd).
  split; [auto with bytes|]. split; [by rewrite length_upd|]. split; [done|]. apply frame_agree; [done|lia].
Qed.

(** The buffer stays a buffer of bytes. *)
Lemma net_spec_buffer env m len c :
  bytes_ok m -> Z.of_nat (length m) = MTU_SIZE -> len <= MTU_SIZE ->
  bytes_ok (net_spec env m len c).1.2 /\ Z.of_nat (length (net_spec env m len c).1.2) = MTU_SIZE.
Proof.
  intros Hb Hl Hlen. unfold net_spec. destruct (decide (ip_valid m 0 len)) as [Hv|]; [|done].
  assert (packet m len (ihl_of m 0)) as Hp by by split.
  destruct (_ =? PROTO_ICMP); [|destruct (_ =? PROTO_TCP)].
  - destruct (decide _); [|done]. cbn [fst snd]. destruct (echo_buf_bounds m len (ihl_of m 0) Hb) as [-> ?]. done.
  - destruct (tcp_accepts _ _ _); [|done]. destruct (tcp_spec _ _ _ _) as [reply M].
    destruct (tcp_output_bounds env m len (ihl_of m 0) reply Hp) as (_ & H1 & H2).
    destruct (tcp_output _ _ _ _ _) as [n m']. cbn [fst snd] in *. by rewrite H1.
  - cbn [fst snd]. destruct (unreach_buf_bounds m len (ihl_of m 0) Hb) as [-> ?]. done.
Qed.

Lemma serve_buffer r m c :
  read_ok r -> bytes_ok m -> Z.of_nat (length m) = MTU_SIZE ->
  bytes_ok (serve r m c).1.2 /\ Z.of_nat (length (serve r m c).1.2) = MTU_SIZE.
Proof.
  intros Hr Hb Hl. destruct (incoming r) as [d|] eqn:Hd; [|unfold serve; by rewrite received_incoming, Hd].
  rewrite (serve_packet r m c d Hd). destruct (packet_buffer r m d Hr Hb Hl Hd) as (Hb' & Hl' & Hs & _).
  pose proof (net_spec_buffer (r_env r) (upd m 0 d) (size_of d) c Hb' Hl' ltac:(lia)) as H.
  by destruct (net_spec _ _ _ _) as [[n m'] c'].
Qed.

(** Resets for the same segment, with other stack words. *)
Lemma cleared_ack off p q :
  ihl_of p 0 = off -> ihl_of q 0 = off -> agree_but (in_field off tcp_ack_num) p q ->
  cleared [tcp_ack_num] p = cleared [tcp_ack_num] q.
Proof.
  unfold cleared. intros -> -> H. cbn [foldr]. apply agree_but_eq.
  eapply agree_but_weaken; [exact (setf_agree_but _ _ _ off tcp_ack_num 0 H)|]. cbn. tauto.
Qed.

Lemma cleared_seq off p q :
  ihl_of p 0 = off -> ihl_of q 0 = off ->
  agree_but (fun i => in_field off tcp_seq_num i \/ in_field off tcp_flags i) p q ->
  cleared [tcp_seq_num; tcp_flags] p = cleared [tcp_seq_num; tcp_flags] q.
Proof.
  unfold cleared. intros -> -> H. cbn [foldr]. apply agree_but_eq.
  eapply agree_but_weaken; [exact (setf_agree_but _ _ _ off tcp_seq_num 0 (setf_agree_but _ _ _ off tcp_flags 0 H))|].
  cbn. tauto.
Qed.

Lemma tcp_output_stack env env' m len offset r n :
  packet m len offset -> r <> Silent -> offset + 20 <= n ->
  same_packet (rd (tcp_output env m len offset r).2 0 n) (rd (tcp_output env' m len offset r).2 0 n).
Proof.
  intros Hp Hr Hn. destruct r as [|t|]; [done|by left|]. right. pose proof (packet_range _ _ _ Hp) as Ho.
  assert (forall env, ihl_of (rd (tcp_output env m len offset Reset).2 0 n) 0 = offset) as Hi.
  { intros e. destruct (tcp_output_answers e m len offset Reset Hp) as (H1 & _); [done|].
    transitivity (ihl_of (tcp_output e m len offset Reset).2 0); [unfold ihl_of; by rewrite getf_rd by mem|].
    rewrite H1. symmetry. exact (pk_offset _ _ _ Hp). }
  rewrite Hi. pose proof (Hi env) as H1. pose proof (Hi env') as H2. clear Hi. cbn [tcp_output] in *.
  unfold rst_values in *. split.
  - destruct (truth _); cbn [snd] in *; rewrite getf_rd by mem;
      match goal with |- getf (rst_buf _ _ ?s ?a ?f) _ _ = _ =>
        exact (ra_window _ _ _ (proj1 (rst_buf_fields m len offset s a f Hp))) end.
  - destruct (truth _); cbn [snd] in *; [left; apply (cleared_ack offset)|right; apply (cleared_seq offset)];
      try done; apply agree_but_rd; [apply rst_buf_ack_differ|apply rst_buf_seq_differ].
Qed.

(** Unless it opens the connection, the machine does not use the number it would draw. *)
Lemma con_step_other_iss iss iss' m offset t :
  (forall t', (con_step iss m offset t).1 <> Syn_Ack t') -> con_step iss' m offset t = con_step iss m offset t.
Proof. unfold con_step. destruct (parse_edge_state _ _ _); try done. cbn. intros H. by destruct (H _ eq_refl). Qed.

Definition scons (z : Z) g : Rand := fun n => match n with O => z | S n => g n end.

(** A generator for the second run makes its machine step as the first. *)
Lemma same_step env env' g m offset t :
  e_sec env' = e_sec env -> e_usec env' = e_usec env ->
  exists f : Rand -> Rand, forall g',
    con_step (env_iss env' (f g')) m offset t = con_step (env_iss env g) m offset t /\
    drawn (f g') (con_step (env_iss env g) m offset t).1 = g'.
Proof.
  intros Hs Hu. destruct ((con_step (env_iss env g) m offset t).1) as [|t'|] eqn:E.
  - exists (fun g' => g'). intros g'. split; [|done]. apply con_step_other_iss. intros t'. by rewrite E.
  - exists (scons (g 0%nat)). intros g'. split; [|done]. unfold env_iss, tcp_gen_iss. cbn. by rewrite Hs, Hu.
  - exists (fun g' => g'). intros g'. split; [|done]. apply con_step_other_iss. intros t'. by rewrite E.
Qed.

Lemma alike_incoming r r' : alike r r' -> incoming r' = incoming r.
Proof. intros [H _]. unfold incoming. by rewrite H. Qed.

(** The replies of two runs to the same segment, from buffers that agree on it. *)
Lemma own_reply env env' d id b1 b2 reply :
  names d = Some id -> 0 < size_of d <= MTU_SIZE -> bytes_ok b1 -> bytes_ok b2 ->
  Z.of_nat (length b1) = MTU_SIZE -> Z.of_nat (length b2) = MTU_SIZE ->
  agree (size_of d) b1 (frame d) -> agree (size_of d) b2 (frame d) ->
  let offset := ihl_of (frame d) 0 in
  20 <= tcp_hlen_of (frame d) offset -> offset + tcp_hlen_of (frame d) offset <= size_of d ->
  let '(n1, b1') := tcp_output env b1 (size_of d) offset reply in
  let '(n2, b2') := tcp_output env' b2 (size_of d) offset reply in
  let out1 := if 0 <? n1 then [rd b1' 0 n1] else [] in
  Forall2 same_packet out1 (if 0 <? n2 then [rd b2' 0 n2] else []) /\ Forall (addressed id) out1.
Proof.
  intros Hid Hd Ho1 Ho2 Hs1 Hs2 Ha1 Ha2 off H20 Hlen.
  destruct (silent_or_not reply) as [->|Hne]; [split; constructor|].
  destruct (names_packet d b1 Ho1 Hs1 Hd Ha1 id Hid) as [Hp1 _]. pose proof (packet_range _ _ _ Hp1) as Ho.
  destruct (names_packet d b2 Ho2 Hs2 Hd Ha2 id Hid) as [Hp2 _].
  pose proof (reply_addressed env d b1 Ho1 Hs1 Hd Ha1 id reply Hid Hne H20 Hlen) as H1.
  pose proof (reply_addressed env' d b2 Ho2 Hs2 Hd Ha2 id reply Hid Hne H20 Hlen) as H2.
  assert (agree (size_of d) b1 b2) as Ha by (by rewrite Ha1, Ha2).
  pose proof (tcp_output_stack env env' b1 (size_of d) off reply (off + tcp_hlen_of (frame d) off) Hp1 Hne ltac:(lia)) as Hst.
  fold off in H1, H2, Hp1, Hp2, Ho.
  destruct (tcp_output_agree (size_of d) off b1 b2 Ha ltac:(lia) ltac:(lia) env' (size_of d) reply ltac:(lia)) as [_ Hag].
  destruct (tcp_output env b1 _ _ _) as [n1 b1'], (tcp_output env' b2 _ _ _) as [n2 b2'].
  cbn [fst snd] in *. destruct H1 as [-> Haddr], H2 as [-> _]. cbv zeta.
  destruct (0 <? _) eqn:E; [|lia]. rewrite (rd_agree _ _ _ 0 (off + tcp_hlen_of (frame d) off) Hag) in Hst by lia.
  split; [apply Forall2_cons; split; [exact Hst|constructor]|by apply Forall_singleton].
Qed.

Lemma serve_own id r r' m1 m2 M1 M2 g1 :
  read_ok r -> alike r r' -> whole r -> concerns id r -> bytes_ok m1 -> bytes_ok m2 ->
  Z.of_nat (length m1) = MTU_SIZE -> Z.of_nat (length m2) = MTU_SIZE -> M1 !! id = M2 !! id ->
  exists out m2' M2' (f : Rand -> Rand), (forall g, serve r' m2 (M2, f g) = (out, m2', (M2', g))) /\
  Forall2 same_packet (serve r m1 (M1, g1)).1.1 out /\ (serve r m1 (M1, g1)).2.1 !! id = M2' !! id /\
  Forall (addressed id) (serve r m1 (M1, g1)).1.1.
Proof.
  intros Hr Hal Hw (d & Hd & Hid)%bind_Some Hb1 Hb2 Hl1 Hl2 HM.
  pose proof (alike_incoming _ _ Hal) as Hd'. rewrite Hd in Hd'.
  destruct (packet_buffer r m1 d Hr Hb1 Hl1 Hd) as (Ho1 & Hs1 & Hsize & Ha1).
  destruct (packet_buffer r m2 d Hr Hb2 Hl2 Hd) as (Ho2 & Hs2 & _ & Ha2).
  destruct (Hw d id Hd Hid) as [H20 Hlen]. rewrite (serve_packet r _ _ d Hd).
  set (b1 := upd m1 0 d) in *. set (b2 := upd m2 0 d) in *.
  assert (forall g, serve r' m2 (M2, g) = let '(n, m', c') := net_spec (r_env r') b2 (size_of d) (M2, g) in
    (if 0 <? n then [rd m' 0 n] else [], m', c')) as Hv2 by (intros g; by apply serve_packet).
  clearbody b1 b2. rewrite (net_named _ d b1 Ho1 Hs1 Hsize Ha1 id M1 g1 Hid) by lia.
  setoid_rewrite Hv2. clear Hv2. setoid_rewrite (net_named (r_env r') d b2 Ho2 Hs2 Hsize Ha2 id M2 _ Hid ltac:(lia)).
  destruct (tcp_accepts _ _ _); [|cbn; exists [], b2, M2, (fun g => g); split; [done|]; split; [constructor|];
    split; [done|constructor]].
  assert (con_of M1 id = con_of M2 id) as -> by (unfold con_of; by rewrite HM).
  destruct Hal as (_ & Hsec & Husec).
  destruct (same_step (r_env r) (r_env r') g1 (frame d) (ihl_of (frame d) 0) (con_of M2 id) Hsec Husec) as [f Hf].
  destruct (con_step (env_iss (r_env r) g1) _ _ _) as [reply o]. cbn [fst] in Hf.
  destruct (tcp_output (r_env r') b2 (size_of d) (ihl_of (frame d) 0) reply) as [n2 b2'] eqn:E2.
  exists (if 0 <? n2 then [rd b2' 0 n2] else []), b2', (partial_alter (fun _ => o) id M2), f.
  split; [intros g; destruct (Hf g) as [-> Hdr]; by rewrite E2, Hdr|].
  pose proof (names_packet d b1 Ho1 Hs1 Hsize Ha1 id Hid) as [Hp1 _]. pose proof (names_packet d b2 Ho2 Hs2 Hsize Ha2 id Hid) as [Hp2 _].
  pose proof (own_reply (r_env r) (r_env r') d id b1 b2 reply) as Hrep. cbv zeta in Hrep. rewrite E2 in Hrep.
  destruct (tcp_output (r_env r) b1 _ _ _) as [n1 b1'].
  destruct Hrep as [Hout Haddr]; try done. cbn [fst snd]. by rewrite !lookup_partial_alter_eq.
Qed.

Lemma serve_other id r m M g :
  read_ok r -> whole r -> ~ concerns id r -> bytes_ok m -> Z.of_nat (length m) = MTU_SIZE ->
  (serve r m (M, g)).2.1 !! id = M !! id /\ Forall (fun p => ~ addressed id p) (serve r m (M, g)).1.1.
Proof.
  intros Hr Hw Hno Hb Hl. destruct (incoming r) as [d|] eqn:Hd.
  2:{ unfold serve. rewrite received_incoming, Hd. split; [done|constructor]. }
  rewrite (serve_packet r _ _ d Hd). destruct (packet_buffer r m d Hr Hb Hl Hd) as (Ho1 & Hs1 & Hsize & Ha).
  set (b := upd m 0 d) in *. clearbody b. destruct (names d) as [id'|] eqn:Hid.
  - assert (id' <> id) as Hne by (intros ->; apply Hno; unfold concerns; by rewrite Hd).
    destruct (Hw d id' Hd Hid) as [H20 Hlen]. rewrite (net_named _ d b Ho1 Hs1 Hsize Ha id' M g Hid) by lia.
    destruct (tcp_accepts _ _ _); [|cbn; split; [done|constructor]]. destruct (con_step _ _ _ _) as [reply o].
    destruct (silent_or_not reply) as [->|Hns].
    { cbn. rewrite lookup_partial_alter_ne by done. split; [done|constructor]. }
    pose proof (reply_addressed (r_env r) d b Ho1 Hs1 Hsize Ha id' reply Hid Hns H20 Hlen) as Haddr.
    destruct (tcp_output _ _ _ _ _) as [n b']. cbn [fst snd]. destruct Haddr as [_ [_ Haddr]].
    rewrite lookup_partial_alter_ne by done. split; [done|]. destruct (0 <? n); [|constructor].
    apply Forall_singleton. intros [_ Hid2]. apply Hne, peer_inj. congruence.
  - pose proof (net_unnamed (r_env r) d b Ho1 Hs1 Hsize Ha (M, g) Hid) as H.
    destruct (net_spec _ _ _ _) as [[n b'] c']. cbn [fst snd] in *. destruct H as [-> H]. split; [done|].
    destruct (0 <? n) eqn:E; [|constructor]. apply Forall_singleton. intros [Htcp _]. rewrite H in Htcp by lia. done.
Qed.

(** ** The loop *)

Lemma filter_all (P : bytes -> Prop) `{!forall p, Decision (P p)} l : Forall P l -> filter P l = l.
Proof. induction 1 as [|p l Hp _ IH]; [done|]. by rewrite filter_cons_True, IH. Qed.

Lemma filter_none (P : bytes -> Prop) `{!forall p, Decision (P p)} l : Forall (fun p => ~ P p) l -> filter P l = [].
Proof. induction 1 as [|p l Hp _ IH]; [done|]. by rewrite filter_cons_False, IH. Qed.

(** The abstract server isolates the connections, its generator apart. *)
Lemma serve_all_isolates id rs rs' m1 m2 M1 M2 g1 :
  Forall round_ok rs -> Forall whole rs -> Forall2 alike (filter (concerns id) rs) rs' ->
  bytes_ok m1 -> bytes_ok m2 -> Z.of_nat (length m1) = MTU_SIZE -> Z.of_nat (length m2) = MTU_SIZE ->
  M1 !! id = M2 !! id ->
  exists g2, Forall2 same_packet (filter (addressed id) (serve_all rs m1 (M1, g1)).1.1) (serve_all rs' m2 (M2, g2)).1.1 /\
    (serve_all rs m1 (M1, g1)).2.1 !! id = (serve_all rs' m2 (M2, g2)).2.1 !! id.
Proof.
  revert rs' m1 m2 M1 M2 g1. induction rs as [|r rs IH]; intros rs' m1 m2 M1 M2 g1 Hr Hw Hal Hb1 Hb2 Hl1 Hl2 HM.
  { apply Forall2_nil_inv_l in Hal as ->. exists g1. split; [constructor|done]. }
  apply Forall_cons in Hr as [[Hr _] Hrs], Hw as [Hw Hws]. cbn [serve_all].
  destruct (serve_buffer r m1 (M1, g1) Hr Hb1 Hl1) as [Hb1' Hl1'].
  destruct (decide (concerns id r)) as [Hc|Hc].
  - rewrite filter_cons_True in Hal by done. apply Forall2_cons_inv_l in Hal as (r' & rs2 & Hal & Hals & ->).
    destruct (serve_own id r r' m1 m2 M1 M2 g1 Hr Hal Hw Hc Hb1 Hb2 Hl1 Hl2 HM) as (out2 & m2' & M2' & f & Hf & Ho & HM' & Had).
    assert (read_ok r') as Hr' by (unfold read_ok; by rewrite (proj1 Hal)).
    destruct (serve_buffer r' m2 (M2, f g1) Hr' Hb2 Hl2) as [Hb2' Hl2']. rewrite Hf in Hb2', Hl2'.
    destruct (serve r m1 (M1, g1)) as [[o1 m1'] [M1' g1']]. cbn [fst snd] in *.
    destruct (IH rs2 m1' m2' M1' M2' g1' Hrs Hws Hals Hb1' Hb2' Hl1' Hl2' HM') as (g2 & Hout & Hcon).
    exists (f g2). cbn [serve_all]. rewrite Hf. destruct (serve_all rs m1' _) as [[o1' ?] ?].
    destruct (serve_all rs2 m2' _) as [[o2' ?] ?]. cbn [fst snd] in *. rewrite filter_app, (filter_all _ _ Had).
    split; [by apply Forall2_app|done].
  - rewrite filter_cons_False in Hal by done.
    destruct (serve_other id r m1 M1 g1 Hr Hw Hc Hb1 Hl1) as [Hcon Hnone].
    destruct (serve r m1 (M1, g1)) as [[o1 m1'] [M1' g1']]. cbn [fst snd] in *.
    destruct (IH rs' m1' m2 M1' M2 g1' Hrs Hws Hal Hb1' Hb2 Hl1' Hl2 ltac:(congruence)) as (g2 & Hout & Hcon').
    exists g2. destruct (serve_all rs m1' _) as [[o1' ?] ?]. cbn [fst snd] in *.
    by rewrite filter_app, (filter_none _ _ Hnone).
Qed.

(** ** Properties *)

(** C4 Connections are isolated, but for the random generator and the stack.  Let no
    allocation be refused, every TCP header lie in its packet, and reads of never-assigned
    locals give some value.  Compare a run with a run from the start that receives only the
    packets that name the connection [id], reading the same clock in those turns, whatever
    words lie under the locals of [tcp_rst].  Then for some generator the second run sends
    the peer of [id] the same packets in the same order, initial sequence numbers included,
    resets up to the fields [tcp_rst] leaves unset, and keeps the same state of [id].  So
    the packets of others, their connections and resets, ICMP and invalid packets are seen
    by a peer in no other way than through how far they have moved the generator, and
    through the words resets take from the stack. *)
Theorem server_isolates oom rnd log rs rs' id :
  (forall k, oom k = false) -> Forall round_ok rs -> Forall round_ok rs' -> Forall whole rs ->
  Z.of_nat (length rs) <= TABLE_MAX -> Forall2 alike (filter (concerns id) rs) rs' ->
  exists rnd' out s out_id s_id,
    server_loop rs (server_start oom rnd log) MTU_SIZE = Some (out, s) /\
    server_loop rs' (server_start oom rnd' log) MTU_SIZE = Some (out_id, s_id) /\
    Forall2 same_packet (filter (addressed id) (written out)) (written out_id) /\
    conns (sv_store s) !! id = conns (sv_store s_id) !! id.
Proof.
  intros Hoom Hr Hr' Hw Hmax Hal. set (m0 := replicate (Z.to_nat MTU_SIZE) 0).
  destruct (serve_all_isolates id rs rs' m0 m0 ∅ ∅ rnd Hr Hw Hal) as (rnd' & Hout & Hcon);
    [apply (so_bytes _ (server_start_ok oom rnd log))|apply (so_bytes _ (server_start_ok oom rnd log))
    |apply (so_size _ (server_start_ok oom rnd log))|apply (so_size _ (server_start_ok oom rnd log))|done|].
  destruct (server_loop_serves rs (server_start oom rnd log) (server_start_ok _ _ _) Hr) as (out & s & H & _ & Hv);
    [change (size (conns _)) with 0%nat; lia|exact Hoom|].
  destruct (server_loop_serves rs' (server_start oom rnd' log) (server_start_ok _ _ _) Hr') as (out' & s' & H' & _ & Hv').
  { change (size (conns _)) with 0%nat. rewrite <- (Forall2_length _ _ _ Hal).
    pose proof (length_filter (concerns id) rs). lia. }
  { exact Hoom. }
  exists rnd', out, s, out', s'. split; [done|]. split; [done|].
  change (serve_all rs m0 (∅, rnd) = (written out, sv_buf s, view (sv_store s))) in Hv.
  change (serve_all rs' m0 (∅, rnd') = (written out', sv_buf s', view (sv_store s'))) in Hv'.
  rewrite Hv, Hv' in Hout, Hcon. exact (conj Hout Hcon).
Qed.

Lemma whole_check r d :
  incoming r = Some d ->
  (20 <=? tcp_hlen_of (frame d) (ihl_of (frame d) 0)) &&
  (ihl_of (frame d) 0 + tcp_hlen_of (frame d) (ihl_of (frame d) 0) <=? size_of d) = true -> whole r.
Proof. intros Hd [H1%Z.leb_le H2%Z.leb_le]%andb_true_iff d' id Hd' _. replace d' with d by congruence. done. Qed.

(** A handshake, during which another port is tried. *)
Definition mixed_rounds : list Round :=
  [ sample_round (sample_tcp 8080 SYN 5000 0) 40; sample_round (sample_tcp 8081 SYN 7 0) 40;
    sample_round (sample_tcp 8080 ACK 5001 1001) 40 ].

(** The same peer alone, with other words on the stack. *)
Definition lone_rounds : list Round :=
  let env := MkEnv 0 1000 (MkJunk (Some 7) (Some 8) (Some 9)) in
  [ MkRound (Some (rd (sample_tcp 8080 SYN 5000 0) 0 40)) env sample_log sample_log;
    MkRound (Some (rd (sample_tcp 8080 ACK 5001 1001) 0 40)) env sample_log sample_log ].

Lemma server_isolates_witness :
  let id := MkID 40000 8080 167772161 167772162 in
  exists rnd out s out_id s_id,
    server_loop mixed_rounds (server_start plenty zeros 3) MTU_SIZE = Some (out, s) /\ length (written out) = 2%nat /\
    server_loop lone_rounds (server_start plenty rnd 3) MTU_SIZE = Some (out_id, s_id) /\
    Forall2 same_packet (filter (addressed id) (written out)) (written out_id).
Proof.
  intros id. assert (filter (concerns id) mixed_rounds = [sample_round (sample_tcp 8080 SYN 5000 0) 40;
    sample_round (sample_tcp 8080 ACK 5001 1001) 40]) as Hf by (vm_compute; reflexivity).
  destruct (server_isolates plenty zeros 3 mixed_rounds lone_rounds id) as (rnd & out & s & out_id & s_id & H1 & H2 & H3 & _).
  - done.
  - do 3 (apply Forall_cons; split; [apply sample_round_ok; by_eval|]). constructor.
  - do 2 (apply Forall_cons; split; [split; [intros d [= <-]; apply rd_ok; by_eval|split_and!; eexists; reflexivity]|]).
    constructor.
  - do 3 (apply Forall_cons; split; [eapply whole_check; vm_compute; reflexivity|]). constructor.
  - unfold TABLE_MAX. cbn. lia.
  - rewrite Hf. do 2 (apply Forall2_cons; split; [split_and!; reflexivity|]). constructor.
  - exists rnd, out, s, out_id, s_id. split; [exact H1|].
    assert ((fun x => length (written x.1)) <$> server_loop mixed_rounds (server_start plenty zeros 3) MTU_SIZE = Some 2%nat)
      as Hl by (vm_compute; reflexivity).
    rewrite H1 in Hl. injection Hl as Hl. exact (conj Hl (conj H2 H3)).
Defined.

(** C23 A header longer than its packet leaks: a SYN for the listening port whose data offset
    claims more bytes than were received is answered by a packet as long as the claim, and
    the bytes behind the received ones are those the buffer held before, of packets the
    server read or wrote earlier, whoever they were for. *)
Theorem short_header_leaks r s d id :
  let offset := ihl_of (frame d) 0 in let n := offset + tcp_hlen_of (frame d) offset in
  server_ok s -> round_ok r -> Z.of_nat (size (conns (sv_store s))) < TABLE_MAX ->
  (forall k, ct_oom (sv_store s) k = false) ->
  incoming r = Some d -> names d = Some id -> dst_port id = TCP_LISTEN_PORT -> conns (sv_store s) !! id = None ->
  tcp_accepts (frame d) (size_of d) offset = true ->
  has (frame d) offset SYN = true -> has (frame d) offset ACK = false -> has (frame d) offset RST = false ->
  offset + 20 <= size_of d < n ->
  exists out s' p, server_turn r s MTU_SIZE = Some (out, s') /\ written out = [p] /\
    Z.of_nat (length p) = n /\ drop (length d) p = rd (sv_buf s) (size_of d) (n - size_of d).
Proof.
  cbv zeta. intros Hs Hr Hmax Hoom Hd Hid Hport Hnone Hacc Hsyn Hack Hrst Hlen.
  destruct (server_turn_spec r s Hs Hr Hmax) as (out & s' & Ht & _).
  pose proof (server_turn_serves r s out s' Hs Hr Hmax Hoom Ht) as Hv. rewrite (serve_packet r _ _ d Hd) in Hv.
  unfold view in Hv. destruct (packet_buffer r (sv_buf s) d (proj1 Hr) (so_bytes _ Hs) (so_size _ Hs) Hd) as (Hb & Hl & Hsize & Ha).
  pose proof (names_id d id Hid) as Hseg.
  rewrite (net_named _ d _ Hb Hl Hsize Ha id _ _ Hid), Hacc in Hv by lia.
  destruct (names_packet d _ Hb Hl Hsize Ha id Hid) as [Hp _]. pose proof (packet_range _ _ _ Hp) as Ho.
  unfold con_of in Hv. rewrite Hnone in Hv. cbn [default from_option] in Hv. rewrite <- Hseg in Hv, Hport.
  destruct (con_step_syn (env_iss (r_env r) (st_rand (sv_store s))) (frame d) _ Hport Hsyn Hack Hrst) as (t & Hstep & _). rewrite Hstep in Hv.
  cbn [tcp_output] in Hv. rewrite (hlen_agree (size_of d) _ _ (frame d) Ha) in Hv by lia.
  set (off := ihl_of (frame d) 0) in *. set (n := off + tcp_hlen_of (frame d) off) in *.
  assert (0 <= n <= 120) as Hn by (pose proof (tcp_hlen_range (upd (sv_buf s) 0 d) off Hb); unfold MTU_SIZE in Hl;
    rewrite (hlen_agree (size_of d) _ _ (frame d) Ha) in * by lia; lia).
  destruct (0 <? n) eqn:E; [|lia]. injection Hv as Hw _ _.
  unfold size_of, MTU_SIZE in *. pose proof (so_size _ Hs) as Hss. unfold MTU_SIZE in Hss.
  do 3 eexists. split; [exact Ht|]. split; [by rewrite <- Hw|].
  set (b := syn_ack_buf _ _ _ _).
  assert (Z.of_nat (length b) = 1500) as Hlb by (subst b; rewrite length_syn_ack_buf; lia).
  split; [rewrite length_rd by lia; lia|].
  transitivity (rd (rd b 0 n) (Z.of_nat (length d)) (n - Z.of_nat (length d))).
  { unfold rd at 2. rewrite Nat2Z.id, take_ge; [done|]. rewrite length_drop, length_rd by lia. lia. }
  rewrite rd_rd by lia. rewrite Z.add_0_l. subst b.
  destruct (syn_ack_buf_payload (upd (sv_buf s) 0 d) t (Z.of_nat (length d)) off (Z.of_nat (length d))
    (n - Z.of_nat (length d)) Hp) as [-> _]; [lia|lia|].
  apply rd_upd_other; lia.
Qed.

(** A SYN of 40 bytes that claims a TCP header of 24, in a buffer that held sevens. *)
Definition sample_claim : bytes :=
  let m := setf (sample_tcp 8080 SYN 5000 0) 20 tcp_data_offset 96 in
  setf m 20 tcp_csum (tcp_sum m 20 20).
Definition sample_used : Server := MkServer (replicate (Z.to_nat MTU_SIZE) 7) (st_start plenty zeros) (-1).

Lemma short_header_leaks_witness :
  exists out s' p, server_turn (sample_round sample_claim 40) sample_used MTU_SIZE = Some (out, s') /\
    written out = [p] /\ Z.of_nat (length p) = 44 /\ drop 40 p = [7; 7; 7; 7].
Proof.
  destruct (short_header_leaks (sample_round sample_claim 40) sample_used (rd sample_claim 0 40)
    (MkID 40000 8080 167772161 167772162)) as (out & s' & p & H1 & H2 & H3 & H4).
  - split; [by_eval|reflexivity|apply st_start_closed|]. intros i t Hi. discriminate Hi.
  - apply sample_round_ok. by_eval.
  - vm_compute. reflexivity.
  - done.
  - vm_compute. reflexivity.
  - vm_compute. reflexivity.
  - reflexivity.
  - reflexivity.
  - vm_compute. reflexivity.
  - vm_compute. reflexivity.
  - vm_compute. reflexivity.
  - vm_compute. reflexivity.
  - vm_compute. split; [discriminate|reflexivity].
  - exists out, s', p. split; [exact H1|]. split; [exact H2|].
    assert (ihl_of (frame (rd sample_claim 0 40)) 0 + tcp_hlen_of (frame (rd sample_claim 0 40))
      (ihl_of (frame (rd sample_claim 0 40)) 0) = 44) as Hn by (vm_compute; reflexivity).
    assert (size_of (rd sample_claim 0 40) = 40) as Hl by (vm_compute; reflexivity).
    rewrite Hn in H3. rewrite Hn, Hl in H4. split; [exact H3|].
    assert (length (rd sample_claim 0 40) = 40%nat) as Hd by (vm_compute; reflexivity). rewrite Hd in H4.
    rewrite H4. vm_compute. reflexivity.
Defined.
