(* ===== verification/Format.v ===== *)
(** * Formatted output

    The conversions of [printf] and [sprintf] the code uses, as functions to the bytes they
    print: decimal and hexadecimal numbers and dotted addresses, and how each is read back. *)
From Stdlib Require Import String Ascii.
From S2P Require Import Prelude Memory.

(** The bytes of a literal; CR LF where the code has ["\r\n"]. *)
Definition chars (s : string) : bytes :=
  map (fun c => Z.of_nat (nat_of_ascii c)) (list_ascii_of_string s).
Definition CRLF : bytes := [13; 10].

(** [%ld]: decimal digits, most significant first. *)
Fixpoint digits (fuel : nat) (n : Z) (acc : bytes) : bytes :=
  match fuel with
  | O => acc
  | S fuel =>
      let acc := 48 + n mod 10 :: acc in
      if n / 10 =? 0 then acc else digits fuel (n / 10) acc
  end.
Definition print_long (n : Z) : bytes :=
  if n <? 0 then 45 :: digits 20 (- n) [] else digits 20 n [].

(** [%d] and [%u], of an argument of the type the conversion expects. *)
Abbreviation fmt_d := print_long (only parsing).
Abbreviation fmt_u := print_long (only parsing).

Definition hex_digit (upper : bool) (d : Z) : Z :=
  if d <? 10 then 48 + d else (if upper then 55 else 87) + d.
Fixpoint hex_digits (upper : bool) (fuel : nat) (n : Z) (acc : bytes) : bytes :=
  match fuel with
  | O => acc
  | S fuel =>
      let acc := hex_digit upper (n mod 16) :: acc in
      if n / 16 =? 0 then acc else hex_digits upper fuel (n / 16) acc
  end.

(** [%0wx] and [%0wX]: the argument is taken as an [unsigned int]. *)
Definition fmt_x (upper : bool) (w : nat) (z : Z) : bytes :=
  let h := hex_digits upper 8 (u32 z) [] in
  replicate (w - List.length h) 48 ++ h.

(** [inet_ntop(AF_INET, ...)]: the four bytes of an address in memory order. *)
Definition inet_ntop (addr : Z) : bytes :=
  match le_encode 4 addr with
  | [a; b; c; d] =>
      print_long a ++ chars "." ++ print_long b ++ chars "." ++ print_long c ++ chars "." ++ print_long d
  | _ => []
  end.

(** ** Lemmas *)

Lemma chars_ok t : bytes_ok (chars t).
Proof.
  unfold chars. apply Forall_fmap, Forall_true. intros c. unfold byte_ok.
  pose proof (nat_ascii_bounded c). cbn. lia.
Qed.

Lemma digits_ok fuel n acc : bytes_ok acc -> bytes_ok (digits fuel n acc).
Proof.
  revert n acc. induction fuel as [|fuel IH]; intros n acc Ha; cbn [digits]; [done|].
  assert (bytes_ok (48 + n mod 10 :: acc)) by (constructor; [unfold byte_ok; divlia|done]).
  destruct (_ =? _); auto.
Qed.

Lemma print_long_ok n : bytes_ok (print_long n).
Proof.
  unfold print_long. destruct (_ <? _); [constructor; [unfold byte_ok; lia|]|]; by apply digits_ok.
Qed.

(** Reading digits back. *)
Definition read_dec (l : bytes) : Z := fold_left (fun a d => a * 10 + (d - 48)) l 0.

Lemma read_dec_app l k : read_dec (l ++ k) = fold_left (fun a d => a * 10 + (d - 48)) k (read_dec l).
Proof. unfold read_dec. apply fold_left_app. Qed.

Lemma digits_read fuel n acc :
  0 <= n < 10 ^ Z.of_nat fuel -> (0 < fuel)%nat ->
  exists l, digits fuel n acc = l ++ acc /\ read_dec l = n /\ (List.length l <= fuel)%nat.
Proof.
  revert n acc. induction fuel as [|fuel IH]; intros n acc Hn Hf; [lia|]. cbn [digits].
  rewrite Nat2Z.inj_succ, Z.pow_succ_r in Hn by lia.
  destruct (n / 10 =? 0) eqn:E.
  - exists [48 + n mod 10]. split; [done|]. split; [|cbn; lia]. unfold read_dec. cbn. divlia.
  - destruct fuel as [|fuel]; [cbn in Hn; divlia|].
    destruct (IH (n / 10) (48 + n mod 10 :: acc)) as (l & -> & Hl & Hlen); [divlia|lia|].
    exists (l ++ [48 + n mod 10]). rewrite <- app_assoc. split; [done|].
    rewrite read_dec_app, Hl, length_app. split; [|cbn [List.length]; lia]. cbn. divlia.
Qed.

Lemma digits_decimal fuel n acc :
  (0 < fuel)%nat -> Forall (fun d => 48 <= d <= 57) acc ->
  digits fuel n acc <> [] /\ Forall (fun d => 48 <= d <= 57) (digits fuel n acc).
Proof.
  revert n acc. induction fuel as [|fuel IH]; intros n acc Hf Hacc; [lia|]. cbn [digits].
  assert (Forall (fun d => 48 <= d <= 57) (48 + n mod 10 :: acc)) as H by (constructor; [divlia|done]).
  destruct (n / 10 =? 0); [by split|]. destruct fuel as [|fuel]; [by split|]. apply IH; [lia|done].
Qed.

Lemma print_long_nonempty n : 0 <= n -> print_long n <> [].
Proof.
  intros. unfold print_long. destruct (n <? 0) eqn:E; [lia|]. apply digits_decimal; [lia|constructor].
Qed.

Lemma print_long_digits n : 0 <= n -> Forall (fun d => 48 <= d <= 57) (print_long n).
Proof.
  intros. unfold print_long. destruct (n <? 0) eqn:E; [lia|]. apply digits_decimal; [lia|constructor].
Qed.

Lemma print_long_read n :
  0 <= n < 10 ^ 19 -> read_dec (print_long n) = n /\ (List.length (print_long n) <= 20)%nat.
Proof.
  intros Hn. unfold print_long. destruct (n <? 0) eqn:E; [lia|].
  destruct (digits_read 20 n []) as (l & -> & Hl & Hlen); [|lia|rewrite app_nil_r; done].
  change (10 ^ Z.of_nat 20) with (10 * 10 ^ 19). lia.
Qed.
