(* ===== verification/Shutdown.v ===== *)
(** * Shutting the server down

    [refactor/main.c] from the opening of the log to the end of [server_run], call by call,
    with the handler of [SIGUSR1], [server_shutdown], which may run between any two steps.
    The opening of the FIFO, the read, the writes of the log and the write of the packet
    are calls the kernel may block; what a signal does to a blocked call depends on the
    flag [SA_RESTART] given to [sigaction]: with it the call goes on waiting, without it
    the call returns -1. *)
From Stdlib Require Import String.
From S2P Require Import Prelude Memory Checksum Ip Icmp TcpHeader Heap Tcb Vector Table Hash Segment Samples Tcp Network Log Server Format.

(** Where the program stands: in [open] of the FIFO; before the test of [g_shutdown]; in
    [tun_read]; at the [LOG_EVENT] of a packet read; before [net_demux]; at the [LOG_EVENT]
    of a packet to write; in [tun_write]; at the last [LOG_EVENT]; past the end of
    [server_run]; or in [exit], the FIFO not opened.  The turn under way comes with it. *)
Inductive Pc :=
  | Opening | Testing | Reading
  | Log_read (r : Round) (nread : Z) | Demux (r : Round) (nread : Z)
  | Log_write (r : Round) (nwrite : Z) | Writing (r : Round) (nwrite : Z)
  | Log_last | Stopped | Exited.

(** The process: [g_shutdown]; whether the call it is in was interrupted and will return -1;
    the server, the turns it has completed, what it put out and printed. *)
Record Process := MkProcess {
  pr_pc : Pc; g_shutdown : bool; pr_interrupted : bool; pr_server : Server;
  pr_turns : list Round; pr_out : list Output; pr_text : bytes;
}.

(** A signal; a step of the program; [net_demux] with its readings; and the returns of the
    calls: [open] with a descriptor or -1, [read], [write] to the log, [write] to the device. *)
Inductive Event :=
  | Signal | Run | Handle (env : Env)
  | Opened (fd : Z) | Deliver (data : option bytes) | Written (l : Log_Env) | Sent (result : Z).

(** ** Operations *)

(** [g_log_fd]: set once the FIFO is open. *)
Definition log_fd (p : Process) : Z :=
  match pr_pc p with Opening => -1 | _ => sv_log (pr_server p) end.

(** The program is in a call of the kernel. *)
Definition blocked (p : Process) : bool :=
  match pr_pc p with
  | Opening | Reading | Writing _ _ => true
  | Log_read _ _ | Log_write _ _ | Log_last => VERBOSE (log_fd p)
  | _ => false
  end.

Definition server_shutdown (sa_restart : bool) (p : Process) : Process :=
  MkProcess (pr_pc p) true (pr_interrupted p || (blocked p && negb sa_restart)) (pr_server p) (pr_turns p) (pr_out p)
    (pr_text p ++ if VERBOSE (log_fd p) then chars "[LOG]: Requested server teardown..." ++ [10] else []).

(** The readings of a turn before they are made. *)
Definition no_env : Env := MkEnv 0 0 (MkJunk (Some 0) (Some 0) (Some 0)).
Definition no_log : Log_Env := MkLogEnv 0 0 0.

(** On to [pc] with the server [s], having put out [out]. *)
Definition go (p : Process) (pc : Pc) (out : list Output) (s : Server) : option Process :=
  Some (MkProcess pc (g_shutdown p) false s (pr_turns p) (pr_out p ++ out) (pr_text p)).

(** The end of the turn [r]. *)
Definition next_turn (p : Process) (r : Round) (out : list Output) (s : Server) : option Process :=
  Some (MkProcess Testing (g_shutdown p) false s (pr_turns p ++ [r]) (pr_out p ++ out) (pr_text p)).

(** The three calls of [LOG_EVENT], with the readings [l]. *)
Definition log_step (l : Log_Env) (p : Process) : option Process :=
  let s := pr_server p in
  match pr_pc p with
  | Log_read r nread =>
      '(ev, log) ← LOG_EVENT l (sv_log s) (sv_buf s) (Some 0) nread LOG_READ;
      go p (Demux (MkRound (r_read r) (r_env r) l (r_log_write r)) nread) (map Logged ev)
        (MkServer (sv_buf s) (sv_store s) log)
  | Log_write r nwrite =>
      '(ev, log) ← LOG_EVENT l (sv_log s) (sv_buf s) (Some 0) nwrite LOG_WRITE;
      go p (Writing (MkRound (r_read r) (r_env r) (r_log_read r) l) nwrite) (map Logged ev)
        (MkServer (sv_buf s) (sv_store s) log)
  | Log_last =>
      '(ev, log) ← LOG_EVENT l (sv_log s) (sv_buf s) None 0 LOG_SHUTDOWN;
      go p Stopped (map Logged ev) (MkServer (sv_buf s) (sv_store s) log)
  | _ => None
  end.

(** One step; [None] when the event cannot happen there, or the code is undefined. *)
Definition step (sa_restart : bool) (p : Process) (e : Event) : option Process :=
  let s := pr_server p in
  let returns (z : Z) := negb (pr_interrupted p) || (z =? -1) in
  match e, pr_pc p with
  | _, Stopped | _, Exited => None
  | Signal, _ => Some (server_shutdown sa_restart p)
  | Opened fd, Opening =>
      if returns fd then
        if fd <? 0 then go p Exited [] s else if fd =? sv_log s then go p Testing [] s else None
      else None
  | Run, Testing => if g_shutdown p then go p Log_last [] s else go p Reading [] s
  | Deliver data, Reading =>
      let r := MkRound data no_env no_log no_log in
      '(nread, m) ← tun_read r (sv_buf s) 0 MTU_SIZE;
      if returns nread then
        let s := MkServer m (sv_store s) (sv_log s) in
        if 0 <? nread then go p (Log_read r nread) [] s else next_turn p r [] s
      else None
  | Handle env, Demux r nread =>
      '(nwrite, m, st) ← net_demux env (sv_buf s) (sv_store s) 0 nread;
      let r := MkRound (r_read r) env (r_log_read r) (r_log_write r) in
      let s := MkServer m st (sv_log s) in
      if 0 <? nwrite then go p (Log_write r nwrite) [] s else next_turn p r [] s
  | Sent result, Writing r nwrite =>
      if returns result then
        pkt ← tun_write (sv_buf s) 0 nwrite;
        next_turn p r [Wrote pkt] s
      else None
  | Written l, _ => if blocked p && returns (l_result l) then log_step l p else None
  | Run, _ => if blocked p then None else log_step no_log p
  | _, _ => None
  end.

Fixpoint steps (sa_restart : bool) (es : list Event) (p : Process) : option Process :=
  match es with
  | [] => Some p
  | e :: es => p ← step sa_restart p e; steps sa_restart es p
  end.

(** The program after [sigaction], when a signal may already have come: with [verbose] it
    opens the log, whose descriptor [s] holds, and then it calls [server_run]. *)
Definition enter (verbose g : bool) (s : Server) : Process :=
  MkProcess (if verbose then Opening else Testing) g false s [] [] [].

(** [sa_usr.sa_flags = SA_RESTART]. *)
Definition sa_flags_restart : bool := true.

(** ** Specification *)

(** What [tun_read] returned, in order. *)
Definition delivered (es : list Event) : list (option bytes) :=
  omap (fun e => match e with Deliver d => Some d | _ => None end) es.

(** The events are possible: the device delivers bytes, the reads of never-assigned locals
    give some value. *)
Definition event_ok (e : Event) : Prop :=
  match e with
  | Deliver d => forall data, d = Some data -> bytes_ok data
  | Handle env => settled (e_junk env)
  | _ => True
  end.

(** The turn under way from [s1], up to where the process stands with the server [s],
    having put out [out]. *)
Definition under_way (s1 : Server) (pc : Pc) (s : Server) (out : list Output) : Prop :=
  match pc with
  | Log_read r n =>
      0 < n /\ out = [] /\ exists m, tun_read r (sv_buf s1) 0 MTU_SIZE = Some (n, m) /\
        s = MkServer m (sv_store s1) (sv_log s1)
  | Demux r n =>
      0 < n /\ exists m ev, tun_read r (sv_buf s1) 0 MTU_SIZE = Some (n, m) /\
        LOG_EVENT (r_log_read r) (sv_log s1) m (Some 0) n LOG_READ = Some (ev, sv_log s) /\
        out = map Logged ev /\ s = MkServer m (sv_store s1) (sv_log s)
  | Log_write r k =>
      0 < k /\ exists n m ev, 0 < n /\ tun_read r (sv_buf s1) 0 MTU_SIZE = Some (n, m) /\
        LOG_EVENT (r_log_read r) (sv_log s1) m (Some 0) n LOG_READ = Some (ev, sv_log s) /\
        net_demux (r_env r) m (sv_store s1) 0 n = Some (k, sv_buf s, sv_store s) /\ out = map Logged ev
  | Writing r k =>
      0 < k /\ exists n m ev log ev', 0 < n /\ tun_read r (sv_buf s1) 0 MTU_SIZE = Some (n, m) /\
        LOG_EVENT (r_log_read r) (sv_log s1) m (Some 0) n LOG_READ = Some (ev, log) /\
        net_demux (r_env r) m (sv_store s1) 0 n = Some (k, sv_buf s, sv_store s) /\
        LOG_EVENT (r_log_write r) log (sv_buf s) (Some 0) k LOG_WRITE = Some (ev', sv_log s) /\
        out = map Logged ev ++ map Logged ev'
  | _ => s = s1 /\ out = []
  end.

(** The process is a run of [server_loop] on the turns it completed, and the turn under way;
    past its end, a run of [server_run]. *)
Definition follows (s0 : Server) (p : Process) : Prop :=
  match pr_pc p with
  | Stopped => exists last, server_run (pr_turns p) last s0 MTU_SIZE = Some (pr_out p, pr_server p)
  | pc => exists out1 s1 out2, server_loop (pr_turns p) s0 MTU_SIZE = Some (out1, s1) /\
      pr_out p = out1 ++ out2 /\ under_way s1 pc (pr_server p) out2
  end.

(** ** Lemmas *)

Section turn.
Context (r : Round) (s1 : Server) (n : Z) (m : bytes).
Hypothesis (Hread : tun_read r (sv_buf s1) 0 MTU_SIZE = Some (n, m)).

Lemma turn_short : (0 <? n) = false -> server_turn r s1 MTU_SIZE = Some ([], MkServer m (sv_store s1) (sv_log s1)).
Proof. intros Hn. unfold server_turn. rewrite Hread. cbn [mbind option_bind]. rewrite Hn. done. Qed.

Context (ev : list bytes) (log k : Z) (m' : bytes) (st : Store).
Hypothesis (Hn : 0 < n).
Hypothesis (Hlog : LOG_EVENT (r_log_read r) (sv_log s1) m (Some 0) n LOG_READ = Some (ev, log)).
Hypothesis (Hnet : net_demux (r_env r) m (sv_store s1) 0 n = Some (k, m', st)).

Lemma turn_silent : (0 <? k) = false -> server_turn r s1 MTU_SIZE = Some (map Logged ev, MkServer m' st log).
Proof.
  intros Hk. unfold server_turn. rewrite Hread. cbn [mbind option_bind]. rewrite (proj2 (Z.ltb_lt 0 n)) by done.
  rewrite Hlog. cbn [mbind option_bind]. rewrite Hnet. cbn [mbind option_bind]. by rewrite Hk.
Qed.

Lemma turn_written ev' log' pkt :
  0 < k -> LOG_EVENT (r_log_write r) log m' (Some 0) k LOG_WRITE = Some (ev', log') -> tun_write m' 0 k = Some pkt ->
  server_turn r s1 MTU_SIZE = Some (map Logged ev ++ map Logged ev' ++ [Wrote pkt], MkServer m' st log').
Proof.
  intros Hk Hlog' Hpkt. unfold server_turn. rewrite Hread. cbn [mbind option_bind]. rewrite (proj2 (Z.ltb_lt 0 n)) by done.
  rewrite Hlog. cbn [mbind option_bind]. rewrite Hnet. cbn [mbind option_bind]. rewrite (proj2 (Z.ltb_lt 0 k)) by done.
  rewrite Hlog'. cbn [mbind option_bind]. by rewrite Hpkt.
Qed.
End turn.

Lemma server_loop_snoc rs r s0 out s1 o s :
  server_loop rs s0 MTU_SIZE = Some (out, s1) -> server_turn r s1 MTU_SIZE = Some (o, s) ->
  server_loop (rs ++ [r]) s0 MTU_SIZE = Some (out ++ o, s).
Proof.
  intros Hl Ht. rewrite server_loop_app, Hl. cbn [mbind option_bind server_loop]. rewrite Ht. cbn [mbind option_bind].
  by rewrite app_nil_r.
Qed.

(** A step that completes a turn. *)
Lemma next_turn_follows s0 p r out1 s1 out2 o s p' :
  server_loop (pr_turns p) s0 MTU_SIZE = Some (out1, s1) -> pr_out p = out1 ++ out2 ->
  server_turn r s1 MTU_SIZE = Some (out2 ++ o, s) -> next_turn p r o s = Some p' -> follows s0 p'.
Proof.
  intros Hl Ho Ht [= <-]. exists (out1 ++ out2 ++ o), s, []. cbn. rewrite app_nil_r, Ho, <- app_assoc.
  split; [by eapply server_loop_snoc|done].
Qed.

(** A step within a turn. *)
Lemma go_follows s0 p pc out1 s1 out2 o s p' :
  pc <> Stopped -> server_loop (pr_turns p) s0 MTU_SIZE = Some (out1, s1) -> pr_out p = out1 ++ out2 ->
  under_way s1 pc s (out2 ++ o) -> go p pc o s = Some p' -> follows s0 p'.
Proof.
  intros Hpc Hl Ho Hu [= <-]. unfold follows. cbn.
  assert (exists out1 s1 out2', server_loop (pr_turns p) s0 MTU_SIZE = Some (out1, s1) /\
    pr_out p ++ o = out1 ++ out2' /\ under_way s1 pc s out2') as H.
  { exists out1, s1, (out2 ++ o). by rewrite Ho, <- app_assoc. }
  destruct pc; try exact H. done.
Qed.

Lemma log_step_follows s0 l p p' : follows s0 p -> log_step l p = Some p' -> follows s0 p'.
Proof.
  intros Hf Hs. unfold log_step in Hs. unfold follows in Hf.
  destruct (pr_pc p) as [| | |r n|r n|r k|r k| | |] eqn:Epc; try discriminate Hs;
    destruct Hf as (out1 & s1 & out2 & Hl & Ho & Hu); cbn [under_way] in Hu.
  - destruct Hu as (Hn & -> & m & Hread & Hsv). rewrite Hsv in Hs. cbn [sv_buf sv_store sv_log] in Hs.
    apply bind_Some in Hs as ([ev log] & Hlog & Hs). eapply go_follows; [|exact Hl|exact Ho| |exact Hs]; [done|].
    split; [done|]. exists m, ev. done.
  - destruct Hu as (Hk & n & m & ev & Hn & Hread & Hlog & Hnet & ->).
    apply bind_Some in Hs as ([ev' log'] & Hlog' & Hs). eapply go_follows; [|exact Hl|exact Ho| |exact Hs]; [done|].
    split; [done|]. exists n, m, ev, (sv_log (pr_server p)), ev'. done.
  - destruct Hu as [Hsv ->]. rewrite Hsv in Hs. apply bind_Some in Hs as ([ev log] & Hlog & [= <-]).
    exists l. unfold server_run. cbn. rewrite Hl. cbn [mbind option_bind]. rewrite Hlog. cbn [mbind option_bind].
    by rewrite Ho, app_nil_r.
Qed.

Lemma follows_step s0 b p e p' : follows s0 p -> step b p e = Some p' -> follows s0 p'.
Proof.
  intros Hf Hs. unfold step in Hs. destruct e as [| |env|fd|d|l|z].
  - assert (p' = server_shutdown b p) as -> by (destruct (pr_pc p); congruence). exact Hf.
  - destruct (pr_pc p) eqn:E; try done;
      try (destruct (blocked p); [done|by eapply log_step_follows]).
    unfold follows in Hf. rewrite E in Hf. destruct Hf as (out1 & s1 & out2 & Hl & Ho & [Hsv ->]).
    destruct (g_shutdown p); (eapply go_follows; [|exact Hl|exact Ho| |exact Hs]; done).
  - destruct (pr_pc p) as [| | |r n|r n|r k|r k| | |] eqn:E; try done. unfold follows in Hf. rewrite E in Hf.
    destruct Hf as (out1 & s1 & out2 & Hl & Ho & Hn & m & ev & Hread & Hlog & -> & Hsv). rewrite Hsv in Hs. cbn in Hs.
    apply bind_Some in Hs as ([[k m'] st] & Hnet & Hs). destruct (0 <? k) eqn:Ek.
    + eapply go_follows; [|exact Hl|exact Ho| |exact Hs]; [done|]. apply Z.ltb_lt in Ek. split; [done|].
      exists n, m, ev. rewrite app_nil_r. done.
    + eapply next_turn_follows; [exact Hl|exact Ho| |exact Hs]. rewrite app_nil_r.
      by eapply (turn_silent (MkRound (r_read r) env (r_log_read r) (r_log_write r))).
  - destruct (pr_pc p) eqn:E; try done. unfold follows in Hf. rewrite E in Hf.
    destruct Hf as (out1 & s1 & out2 & Hl & Ho & [Hsv ->]). destruct (_ || _); [|done].
    destruct (fd <? 0); [|destruct (fd =? _); [|done]]; (eapply go_follows; [|exact Hl|exact Ho| |exact Hs]; done).
  - destruct (pr_pc p) eqn:E; try done. unfold follows in Hf. rewrite E in Hf.
    destruct Hf as (out1 & s1 & out2 & Hl & Ho & [Hsv ->]). rewrite Hsv in Hs.
    apply bind_Some in Hs as ([n m] & Hread & Hs). destruct (_ || _); [|done]. destruct (0 <? n) eqn:En.
    + apply Z.ltb_lt in En. eapply go_follows; [|exact Hl|exact Ho| |exact Hs]; [done|].
      split; [done|]. split; [done|]. by exists m.
    + eapply next_turn_follows; [exact Hl|exact Ho| |exact Hs]. by apply turn_short with (n := n).
  - assert (exists pc, pr_pc p = pc /\ pc <> Stopped /\ pc <> Exited /\
      (if blocked p && (negb (pr_interrupted p) || (l_result l =? -1)) then log_step l p else None) = Some p')
      as (pc & _ & _ & _ & H) by (destruct (pr_pc p); try discriminate Hs; eexists; split_and!; done).
    destruct (_ && _); [|done]. by eapply log_step_follows.
  - destruct (pr_pc p) as [| | |r n|r n|r k|r k| | |] eqn:E; try done. unfold follows in Hf. rewrite E in Hf.
    destruct Hf as (out1 & s1 & out2 & Hl & Ho & Hk & n & m & ev & log & ev' & Hn & Hread & Hlog & Hnet & Hlog' & ->).
    destruct (_ || _); [|done]. apply bind_Some in Hs as (pkt & Hpkt & Hs).
    eapply next_turn_follows; [exact Hl|exact Ho| |exact Hs]. rewrite <- app_assoc.
    destruct (pr_server p) as [m' st' lg']. by eapply turn_written.
Qed.

Lemma steps_app b es es' p : steps b (es ++ es') p = p ← steps b es p; steps b es' p.
Proof. revert p. induction es as [|e es IH]; intros p; [done|]. cbn. destruct (step b p e); [apply IH|done]. Qed.

Lemma delivered_app es es' : delivered (es ++ es') = delivered es ++ delivered es'.
Proof. apply omap_app. Qed.

Lemma steps_follow b es vb g s0 p : steps b es (enter vb g s0) = Some p -> follows s0 p.
Proof.
  revert p. induction es as [|e es IH] using rev_ind; intros p H.
  { injection H as <-. unfold follows. destruct vb; cbn; by exists [], s0, []. }
  rewrite steps_app in H. apply bind_Some in H as (q & Hq & H). cbn in H.
  apply bind_Some in H as (q' & Hq' & [= ->]). by eapply follows_step; [apply IH|].
Qed.

(** The readings of the completed turns and of the one under way are those delivered. *)
Definition taken (p : Process) : list (option bytes) :=
  (r_read <$> pr_turns p) ++
  match pr_pc p with Log_read r _ | Demux r _ | Log_write r _ | Writing r _ => [r_read r] | _ => [] end.

Lemma log_step_taken l p p' : log_step l p = Some p' -> taken p' = taken p /\ g_shutdown p' = g_shutdown p.
Proof.
  unfold log_step, taken. destruct (pr_pc p); try done; intros ([ev log] & _ & [= <-])%bind_Some; done.
Qed.

Lemma step_taken b p e p' :
  step b p e = Some p' ->
  taken p' = taken p ++ delivered [e] /\ g_shutdown p' = match e with Signal => true | _ => g_shutdown p end.
Proof.
  assert (forall l q, log_step l p = Some q -> taken q = taken p ++ [] /\ g_shutdown q = g_shutdown p) as Hlog.
  { intros l q H%log_step_taken. by rewrite app_nil_r. }
  assert (forall pc o s q, go p pc o s = Some q -> taken q = (r_read <$> pr_turns p) ++
    match pc with Log_read r _ | Demux r _ | Log_write r _ | Writing r _ => [r_read r] | _ => [] end /\
    g_shutdown q = g_shutdown p) as Hgo by (by intros pc o s q [= <-]).
  assert (forall r o s q, next_turn p r o s = Some q -> taken q = (r_read <$> pr_turns p) ++ [r_read r] /\
    g_shutdown q = g_shutdown p) as Hnext.
  { intros r o s q [= <-]. unfold taken. cbn. by rewrite fmap_app, app_nil_r. }
  intros Hs. unfold step in Hs. destruct e as [| |env|fd|d|l|z]; cbn [delivered omap list_omap].
  - assert (p' = server_shutdown b p) as -> by (destruct (pr_pc p); congruence). by rewrite app_nil_r.
  - destruct (pr_pc p) eqn:E; try done; try (destruct (blocked p); [done|by eapply Hlog]).
    destruct (g_shutdown p); apply Hgo in Hs as [-> ->]; unfold taken; rewrite E; by rewrite !app_nil_r.
  - destruct (pr_pc p) as [| | |r n|r n|r k|r k| | |] eqn:E; try done.
    apply bind_Some in Hs as ([[k m] st] & _ & Hs). unfold taken at 2. rewrite E, app_nil_r.
    destruct (0 <? k); [by apply Hgo in Hs|by apply Hnext in Hs].
  - destruct (pr_pc p) eqn:E; try done. destruct (_ || _); [|done]. unfold taken at 2. rewrite E, !app_nil_r.
    destruct (fd <? 0); [|destruct (fd =? _); [|done]]; apply Hgo in Hs; by rewrite app_nil_r in Hs.
  - destruct (pr_pc p) eqn:E; try done. apply bind_Some in Hs as ([n m] & _ & Hs). destruct (_ || _); [|done].
    unfold taken at 2. rewrite E, app_nil_r. destruct (0 <? n); [by apply Hgo in Hs|by apply Hnext in Hs].
  - assert ((if blocked p && (negb (pr_interrupted p) || (l_result l =? -1)) then log_step l p else None) = Some p')
      as H by (destruct (pr_pc p); done).
    destruct (_ && _); [by eapply Hlog|done].
  - destruct (pr_pc p) as [| | |r n|r n|r k|r k| | |] eqn:E; try done. destruct (_ || _); [|done].
    apply bind_Some in Hs as (pkt & _ & Hs). unfold taken at 2. rewrite E, app_nil_r. by apply Hnext in Hs.
Qed.

Lemma steps_taken b es p p' : steps b es p = Some p' -> taken p' = taken p ++ delivered es.
Proof.
  revert p. induction es as [|e es IH]; intros p H; cbn [steps] in H.
  { injection H as <-. by rewrite app_nil_r. }
  apply bind_Some in H as (q & Hq & H). rewrite (IH q H), (proj1 (step_taken b p e q Hq)).
  by rewrite <- app_assoc, <- delivered_app.
Qed.

(** *** Once the flag is set *)

(** How many steps that are not signals are left, at most. *)
Definition rank (p : Process) : nat :=
  match pr_pc p with
  | Stopped | Exited => 0 | Log_last => 1 | Testing => 2 | Opening | Writing _ _ => 3
  | Log_write _ _ => 4 | Demux _ _ => 5 | Log_read _ _ => 6 | Reading => 7
  end.

Definition is_signal (e : Event) : bool := match e with Signal => true | _ => false end.

Lemma log_step_rank l p p' : log_step l p = Some p' -> (S (rank p') = rank p)%nat.
Proof.
  unfold log_step, rank. destruct (pr_pc p); try done; intros ([ev log] & _ & [= <-])%bind_Some; done.
Qed.

Lemma step_rank b p e p' :
  g_shutdown p = true -> step b p e = Some p' -> is_signal e = false -> (S (rank p') <= rank p)%nat.
Proof.
  intros Hg Hs He. unfold step in Hs. rewrite Hg in Hs.
  assert (forall pc o s, go p pc o s = Some p' -> pr_pc p' = pc) as Hgo by (by intros pc o s [= <-]).
  assert (forall r o s, next_turn p r o s = Some p' -> pr_pc p' = Testing) as Hnext by (by intros r o s [= <-]).
  destruct e as [| |env|fd|d|l|z]; [done|..].
  - destruct (pr_pc p) eqn:E; try done; try (destruct (blocked p); [done|apply log_step_rank in Hs; lia]).
    unfold rank. by rewrite (Hgo _ _ _ Hs), E.
  - destruct (pr_pc p) as [| | |r n|r n|r k|r k| | |] eqn:E; try done.
    apply bind_Some in Hs as ([[k m] st] & _ & Hs). unfold rank. rewrite E.
    destruct (0 <? k); [rewrite (Hgo _ _ _ Hs)|rewrite (Hnext _ _ _ Hs)]; lia.
  - destruct (pr_pc p) eqn:E; try done. destruct (_ || _); [|done]. unfold rank. rewrite E.
    destruct (fd <? 0); [|destruct (fd =? _); [|done]]; rewrite (Hgo _ _ _ Hs); lia.
  - destruct (pr_pc p) eqn:E; try done. apply bind_Some in Hs as ([n m] & _ & Hs). destruct (_ || _); [|done].
    unfold rank. rewrite E. destruct (0 <? n); [rewrite (Hgo _ _ _ Hs)|rewrite (Hnext _ _ _ Hs)]; lia.
  - assert ((if blocked p && (negb (pr_interrupted p) || (l_result l =? -1)) then log_step l p else None) = Some p')
      as H by (destruct (pr_pc p); done).
    destruct (_ && _); [apply log_step_rank in H; lia|done].
  - destruct (pr_pc p) as [| | |r n|r n|r k|r k| | |] eqn:E; try done. destruct (_ || _); [|done].
    apply bind_Some in Hs as (pkt & _ & Hs). unfold rank. rewrite E, (Hnext _ _ _ Hs). lia.
Qed.

Lemma steps_rank b es p p' :
  g_shutdown p = true -> steps b es p = Some p' ->
  g_shutdown p' = true /\ (length (filter (fun e => is_signal e = false) es) + rank p' <= rank p)%nat.
Proof.
  revert p. induction es as [|e es IH]; intros p Hg H; cbn [steps] in H.
  { injection H as <-. auto. }
  apply bind_Some in H as (q & Hq & H). destruct (step_taken b p e q Hq) as [_ Hg'].
  destruct (IH q) as [Hg2 Hle]; [by destruct e; rewrite Hg'|done|]. split; [done|].
  destruct (is_signal e) eqn:Es.
  - rewrite filter_cons_False by congruence.
    assert (rank q = rank p) as <-; [|done]. destruct e; try done. unfold step in Hq. destruct (pr_pc p) eqn:E; try done;
      injection Hq as <-; unfold rank; cbn; by rewrite E.
  - rewrite filter_cons_True by done. pose proof (step_rank b p e q Hg Hq Es). cbn [length]. lia.
Qed.

(** *** Signals *)

(** Without a signal the flag stays as it was. *)
Lemma steps_unsignalled b es p p' : Signal ∉ es -> steps b es p = Some p' -> g_shutdown p' = g_shutdown p.
Proof.
  revert p. induction es as [|e es IH]; intros p Hno H; cbn [steps] in H.
  { by injection H as <-. }
  apply not_elem_of_cons in Hno as [Hne Hno]. apply bind_Some in H as (q & Hq & H).
  rewrite (IH q Hno H). destruct (step_taken b p e q Hq) as [_ ->]. by destruct e.
Qed.

(** Only the last [LOG_EVENT] ends the loop, and only the flag leads there. *)
Lemma steps_last b es vb g s p :
  steps b es (enter vb g s) = Some p -> pr_pc p = Log_last \/ pr_pc p = Stopped -> g_shutdown p = true.
Proof.
  revert p. induction es as [|e es IH] using rev_ind; intros p H Hpc.
  { injection H as <-. by destruct vb, Hpc. }
  rewrite steps_app in H. apply bind_Some in H as (q & Hq & H). cbn in H. apply bind_Some in H as (q' & Hs & [= ->]).
  pose proof (proj2 (step_taken b q e p Hs)) as Hg. specialize (IH q Hq).
  assert (pr_pc q = Testing \/ pr_pc q = Log_last \/ pr_pc q = Stopped \/ (pr_pc p <> Log_last /\ pr_pc p <> Stopped)) as Hq'.
  { unfold step in Hs. destruct (pr_pc q) eqn:E; auto; right; right; right; destruct e; try done;
      try (destruct (_ || _); [|done]); try (destruct (fd <? 0); [|destruct (fd =? _); [|done]]);
      try (destruct (blocked q); [done|]); cbn [andb] in Hs; try (destruct (blocked q && _); [|done]);
      unfold log_step in Hs; rewrite ?E in Hs; repeat (apply bind_Some in Hs as (? & ? & Hs));
      repeat case_match; try (injection Hs as <-; cbn; rewrite ?E; done); try done. }
  destruct Hq' as [Hq'|[Hq'|[Hq'|[? ?]]]]; [|destruct e; rewrite Hg; auto..|by destruct Hpc].
  unfold step in Hs. rewrite Hq' in Hs. destruct e; try done.
  - destruct (g_shutdown q) eqn:Eg; [done|]. injection Hs as <-. by destruct Hpc.
  - destruct (blocked q && _); [|done]. unfold log_step in Hs. by rewrite Hq' in Hs.
Qed.

Lemma first_signal es :
  Signal ∉ es \/ exists before after, es = before ++ Signal :: after /\ Signal ∉ before.
Proof.
  induction es as [|e es [IH|(b & a & -> & Hb)]].
  - left. apply not_elem_of_nil.
  - destruct e; try (left; apply not_elem_of_cons; done). right. exists [], es. split; [done|apply not_elem_of_nil].
  - destruct (is_signal e) eqn:E; [destruct e; try done; right; exists [], (b ++ Signal :: a); split; [done|apply not_elem_of_nil]|].
    right. exists (e :: b), a. split; [done|]. apply not_elem_of_cons. split; [by intros <-|done].
Qed.

(** Once the flag is set: how many readings may still be taken. *)
Definition allowance (p : Process) : nat := if (rank p =? 7)%nat then 1 else 0.

Lemma rank_max p : (rank p <= 7)%nat.
Proof. unfold rank. destruct (pr_pc p); lia. Qed.

Lemma step_allowance b p e p' :
  g_shutdown p = true -> step b p e = Some p' -> (length (delivered [e]) + allowance p' <= allowance p)%nat.
Proof.
  intros Hg Hs. pose proof (rank_max p). destruct (is_signal e) eqn:Es.
  { destruct e; try done. unfold step in Hs. unfold allowance, rank. cbn. destruct (pr_pc p) eqn:E; try done;
      injection Hs as <-; cbn; by rewrite E. }
  pose proof (step_rank b p e p' Hg Hs Es). unfold allowance.
  rewrite (proj2 (Nat.eqb_neq (rank p') 7)) by lia.
  destruct e; cbn; try lia. unfold step in Hs. unfold rank. destruct (pr_pc p); try done; lia.
Qed.

Lemma steps_allowance b es p p' :
  g_shutdown p = true -> steps b es p = Some p' -> (length (delivered es) + allowance p' <= allowance p)%nat.
Proof.
  revert p. induction es as [|e es IH]; intros p Hg H; cbn [steps] in H.
  { injection H as <-. cbn. lia. }
  apply bind_Some in H as (q & Hq & H). pose proof (step_allowance b p e q Hg Hq).
  destruct (step_taken b p e q Hq) as [_ Hg']. pose proof (IH q ltac:(by destruct e; rewrite Hg') H).
  change (e :: es) with ([e] ++ es). rewrite delivered_app, length_app. lia.
Qed.

(** *** Every call is defined *)

(** The turn under way, with the readings made so far. *)
Definition current (p : Process) : list Round :=
  match pr_pc p with Log_read r _ | Demux r _ | Log_write r _ | Writing r _ => [r] | _ => [] end.

Definition rounds_ok (p : Process) : Prop := Forall round_ok (pr_turns p ++ current p).

Lemma step_rounds b p e p' : rounds_ok p -> event_ok e -> step b p e = Some p' -> rounds_ok p'.
Proof.
  unfold rounds_ok, current. intros [Hp Hc]%Forall_app He Hs.
  assert (forall pc o s, go p pc o s = Some p' -> Forall round_ok match pc with
    Log_read r _ | Demux r _ | Log_write r _ | Writing r _ => [r] | _ => [] end ->
    Forall round_ok (pr_turns p' ++ current p')) as Hgo by (intros pc o s [= <-] H; by apply Forall_app).
  assert (forall r o s, next_turn p r o s = Some p' -> round_ok r -> Forall round_ok (pr_turns p' ++ current p')) as Hnext.
  { intros r o s [= <-] H. unfold current. cbn. rewrite app_nil_r. apply Forall_app. split; [done|by apply Forall_singleton]. }
  assert (forall l, log_step l p = Some p' -> Forall round_ok (pr_turns p' ++ current p')) as Hlog.
  { intros l H. unfold log_step in H. destruct (pr_pc p) as [| | |r n|r n|r k|r k| | |]; try done;
      apply bind_Some in H as ([ev log] & _ & H); apply Hgo in H; try done; apply Forall_singleton;
      rewrite Forall_singleton in Hc; exact Hc. }
  unfold step in Hs. destruct e as [| |env|fd|d|l|z].
  - assert (p' = server_shutdown b p) as -> by (destruct (pr_pc p); congruence). by apply Forall_app.
  - destruct (pr_pc p) eqn:E; try done; try (destruct (blocked p); [done|by eapply Hlog]).
    destruct (g_shutdown p); by eapply Hgo.
  - destruct (pr_pc p) as [| | |r n|r n|r k|r k| | |] eqn:E; try done. rewrite Forall_singleton in Hc.
    apply bind_Some in Hs as ([[k m] st] & _ & Hs).
    assert (round_ok (MkRound (r_read r) env (r_log_read r) (r_log_write r))) as Hr by (split; [exact (proj1 Hc)|exact He]).
    destruct (0 <? k); [eapply Hgo; [exact Hs|by apply Forall_singleton]|by eapply Hnext].
  - destruct (pr_pc p) eqn:E; try done. destruct (_ || _); [|done].
    destruct (fd <? 0); [|destruct (fd =? _); [|done]]; by eapply Hgo.
  - destruct (pr_pc p) eqn:E; try done. apply bind_Some in Hs as ([n m] & _ & Hs). destruct (_ || _); [|done].
    assert (round_ok (MkRound d no_env no_log no_log)) as Hr by (split; [exact He|split_and!; cbn; eauto]).
    destruct (0 <? n); [eapply Hgo; [exact Hs|by apply Forall_singleton]|by eapply Hnext].
  - assert ((if blocked p && (negb (pr_interrupted p) || (l_result l =? -1)) then log_step l p else None) = Some p')
      as H by (destruct (pr_pc p); done).
    destruct (_ && _); [by eapply Hlog|done].
  - destruct (pr_pc p) as [| | |r n|r n|r k|r k| | |] eqn:E; try done. destruct (_ || _); [|done].
    rewrite Forall_singleton in Hc. apply bind_Some in Hs as (pkt & _ & Hs). by eapply Hnext.
Qed.

Lemma steps_rounds b es p p' : rounds_ok p -> Forall event_ok es -> steps b es p = Some p' -> rounds_ok p'.
Proof.
  revert p. induction es as [|e es IH]; intros p Hp He H; cbn [steps] in H; [by injection H as <-|].
  apply Forall_cons in He as [He Hes]. apply bind_Some in H as (q & Hq & H).
  eapply IH; [by eapply step_rounds|done|done].
Qed.

(** What a successful read delivers is received. *)
Lemma tun_read_received r s n m :
  server_ok s -> tun_read r (sv_buf s) 0 MTU_SIZE = Some (n, m) -> 0 < n -> received r (sv_buf s) = Some (m, n).
Proof.
  intros Hs H Hn. unfold tun_read, received in *. destruct (r_read r) as [data|]; [|injection H as <- _; lia].
  assert (Z.of_nat (length (take (Z.to_nat MTU_SIZE) data)) = Z.min (Z.of_nat (length data)) MTU_SIZE) as Hl
    by (rewrite length_take; unfold MTU_SIZE; lia).
  unfold store_bytes in H. rewrite (proj2 (in_range_true _ _ _)) in H by (rewrite ?(so_size _ Hs); lia).
  cbn [mbind option_bind] in H. rewrite Hl in H. injection H as <- <-. destruct data; [cbn in Hn; lia|done].
Qed.

Lemma tun_read_total r s : server_ok s -> is_Some (tun_read r (sv_buf s) 0 MTU_SIZE).
Proof.
  intros Hs. unfold tun_read. destruct (r_read r) as [data|]; [|by eexists].
  rewrite store_bytes_in; [by eexists|lia|]. rewrite (so_size _ Hs), length_take. unfold MTU_SIZE. lia.
Qed.

(** The call the process is in may return -1, and unless it was interrupted it may return
    what [e] says. *)
Definition failure (p : Process) : Event :=
  match pr_pc p with
  | Opening => Opened (-1) | Reading => Deliver None | Writing _ _ => Sent (-1)
  | _ => Written (MkLogEnv 0 0 (-1))
  end.
Definition answers (p : Process) (e : Event) : Prop :=
  match pr_pc p, e with
  | Opening, Opened fd => fd < 0 \/ fd = sv_log (pr_server p)
  | Reading, Deliver _ | Writing _ _, Sent _ => True
  | (Log_read _ _ | Log_write _ _ | Log_last), Written _ => True
  | _, _ => False
  end.

Definition final (p : Process) : Prop := pr_pc p = Stopped \/ pr_pc p = Exited.

Section defined.
Context (b : bool) (p : Process) (s0 : Server).
Hypothesis (Hf : follows s0 p) (Hr : rounds_ok p) (Hs0 : server_ok s0) (Hlive : ~ final p).
Hypothesis (Hmax : Z.of_nat (size (conns (sv_store s0)) + length (pr_turns p)) < TABLE_MAX).

(** The state the turn under way started from is that of a server. *)
Lemma under_way_ok : exists s1 out, server_ok s1 /\ Z.of_nat (size (conns (sv_store s1))) < TABLE_MAX /\
  under_way s1 (pr_pc p) (pr_server p) out /\ Forall round_ok (current p).
Proof.
  apply Forall_app in Hr as [Hrs Hc].
  assert (exists out1 s1 out2, server_loop (pr_turns p) s0 MTU_SIZE = Some (out1, s1) /\
    under_way s1 (pr_pc p) (pr_server p) out2) as (out1 & s1 & out2 & Hl & Hu).
  { unfold follows in Hf. destruct (pr_pc p) eqn:E; try (destruct Hf as (o & s & o' & ? & _ & ?); by exists o, s, o').
    destruct Hlive. by left. }
  destruct (server_loop_spec (pr_turns p) s0 Hs0 Hrs ltac:(lia)) as (out & s & Hl' & Hs & Hsz & _).
  rewrite Hl in Hl'. injection Hl' as <- <-. exists s1, out2. split; [done|]. split; [lia|done].
Qed.

(** What [net_demux] leaves is in the buffer. *)
Lemma demux_ok r s1 n m env :
  server_ok s1 -> Z.of_nat (size (conns (sv_store s1))) < TABLE_MAX -> read_ok r -> settled (e_junk env) -> 0 < n ->
  tun_read r (sv_buf s1) 0 MTU_SIZE = Some (n, m) ->
  n <= MTU_SIZE /\ Z.of_nat (length m) = MTU_SIZE /\
  exists k m' st, net_demux env m (sv_store s1) 0 n = Some (k, m', st) /\ k <= MTU_SIZE /\
    Z.of_nat (length m') = MTU_SIZE.
Proof.
  intros Hs1 Hsz Hro Hset Hn Hread.
  destruct (received_ok r s1 m n Hs1 Hro (tun_read_received r s1 n m Hs1 Hread Hn)) as (Hb & Hl & Hle).
  split; [lia|]. split; [done|].
  destruct (net_demux_spec env m (sv_store s1) n Hset Hb Hl) as (k & m' & st & H & _ & _ & (Hk & Hl' & _) & _);
    [lia|apply Hs1|done|]. exists k, m', st. rewrite Hl'. done.
Qed.

(** Every event the kernel or the program can produce is a step. *)
Lemma log_step_defined l :
  match pr_pc p with Log_read _ _ | Log_write _ _ | Log_last => is_Some (log_step l p) | _ => True end.
Proof.
  destruct under_way_ok as (s1 & out & Hs1 & Hsz & Hu & Hc). unfold log_step, current in *.
  destruct (pr_pc p) as [| | |r n|r n|r k|r k| | |]; try done; cbn [under_way] in Hu.
  - rewrite Forall_singleton in Hc. destruct Hu as (Hn & _ & m & Hread & ->). cbn [sv_buf sv_log].
    destruct (demux_ok r s1 n m no_env Hs1 Hsz (proj1 Hc)) as (H1 & H2 & _); [split_and!; cbn; eauto|done|done|].
    destruct (LOG_EVENT_in l (sv_log s1) m n LOG_READ) as (ev & g & ->); [lia|lia|]. by eexists.
  - rewrite Forall_singleton in Hc. destruct Hu as (Hk & n & m & ev & Hn & Hread & _ & Hnet & _).
    destruct (demux_ok r s1 n m (r_env r) Hs1 Hsz (proj1 Hc) (proj2 Hc) Hn Hread) as (_ & _ & k' & m' & st & H & Hk' & Hl).
    rewrite Hnet in H. injection H as -> H _. rewrite H.
    destruct (LOG_EVENT_in l (sv_log (pr_server p)) m' k' LOG_WRITE) as (ev' & g & ->); [lia|lia|]. by eexists.
  - destruct (LOG_EVENT_null l (sv_log (pr_server p)) (sv_buf (pr_server p)) LOG_SHUTDOWN) as (ev & g & ->). by eexists.
Qed.

Lemma returns_failure : negb (pr_interrupted p) || (-1 =? -1) = true.
Proof. apply orb_true_r. Qed.

Lemma answered e :
  answers p e -> blocked p = true -> (pr_interrupted p = false \/ e = failure p) -> is_Some (step b p e).
Proof.
  intros Ha Hb Hi. pose proof log_step_defined as Hlog.
  destruct under_way_ok as (s1 & out & Hs1 & Hsz & Hu & Hc). unfold step, answers, failure, current in *.
  destruct (pr_pc p) as [| | |r n|r n|r k|r k| | |] eqn:E; try done; destruct e as [| |env|fd|d|l|z]; try done;
    cbn [under_way] in Hu.
  - assert (negb (pr_interrupted p) || (fd =? -1) = true) as ->
      by (destruct Hi as [->|[= ->]]; [done|apply returns_failure]).
    destruct (fd <? 0) eqn:Ef; [by eexists|]. destruct (fd =? _) eqn:Eg; [by eexists|]. lia.
  - destruct Hu as [Hsv _]. destruct (tun_read_total (MkRound d no_env no_log no_log) s1 Hs1) as [[n m] Hread].
    rewrite Hsv, Hread. cbn [mbind option_bind].
    assert (negb (pr_interrupted p) || (n =? -1) = true) as ->.
    { destruct Hi as [->|[= ->]]; [done|]. injection Hread as <- _. apply returns_failure. }
    destruct (0 <? n); by eexists.
  - rewrite Hb. destruct Hi as [->|[= ->]]; cbn [negb orb andb l_result]; rewrite ?returns_failure; apply Hlog.
  - rewrite Hb. destruct Hi as [->|[= ->]]; cbn [negb orb andb l_result]; rewrite ?returns_failure; apply Hlog.
  - assert (negb (pr_interrupted p) || (z =? -1) = true) as ->
      by (destruct Hi as [->|[= ->]]; [done|apply returns_failure]).
    rewrite Forall_singleton in Hc. destruct Hu as (Hk & n & m & ev & log & ev' & Hn & Hread & _ & Hnet & _).
    destruct (demux_ok r s1 n m (r_env r) Hs1 Hsz (proj1 Hc) (proj2 Hc) Hn Hread) as (_ & _ & k' & m' & st & H & Hk' & Hl).
    rewrite Hnet in H. injection H as -> H _. rewrite H. unfold tun_write, load_bytes.
    rewrite (proj2 (in_range_true m' 0 k')) by lia. by eexists.
  - rewrite Hb. destruct Hi as [->|[= ->]]; cbn [negb orb andb l_result]; rewrite ?returns_failure; apply Hlog.
Qed.

Lemma own_step :
  blocked p = false -> is_Some (step b p Run) \/ forall env, settled (e_junk env) -> is_Some (step b p (Handle env)).
Proof.
  intros Hb. pose proof (log_step_defined no_log) as Hlog.
  destruct under_way_ok as (s1 & out & Hs1 & Hsz & Hu & Hc). unfold step, current in *.
  destruct (pr_pc p) as [| | |r n|r n|r k|r k| | |] eqn:E; try (left; rewrite Hb; done).
  - unfold blocked in Hb. by rewrite E in Hb.
  - left. destruct (g_shutdown p); by eexists.
  - unfold blocked in Hb. by rewrite E in Hb.
  - right. intros env Hset. rewrite Forall_singleton in Hc. destruct Hu as (Hn & m & ev & Hread & _ & _ & Hsv).
    destruct (demux_ok r s1 n m env Hs1 Hsz (proj1 Hc) Hset Hn Hread) as (_ & _ & k & m' & st & H & _).
    rewrite Hsv. cbn [sv_buf sv_store]. rewrite H. cbn [mbind option_bind]. destruct (0 <? k); by eexists.
  - unfold blocked in Hb. by rewrite E in Hb.
  - destruct Hlive. by left.
  - destruct Hlive. by right.
Qed.
End defined.

(** With [SA_RESTART] no call is interrupted. *)
Lemma steps_restarted es p p' :
  pr_interrupted p = false -> steps true es p = Some p' -> pr_interrupted p' = false.
Proof.
  revert p. induction es as [|e es IH]; intros p Hp H; cbn [steps] in H; [by injection H as <-|].
  apply bind_Some in H as (q & Hq & H). apply (IH q); [|done].
  assert (forall l, log_step l p = Some q -> pr_interrupted q = false) as Hlog.
  { intros l Hl. unfold log_step in Hl. destruct (pr_pc p); try done; by apply bind_Some in Hl as ([? ?] & _ & [= <-]). }
  unfold step, go, next_turn in Hq. destruct e as [| |env|fd|d|l|z].
  - assert (q = server_shutdown true p) as -> by (destruct (pr_pc p); congruence). cbn. by rewrite Hp, andb_false_r.
  - destruct (pr_pc p); try done; try (destruct (blocked p); [done|by eapply Hlog]). destruct (g_shutdown p); by injection Hq as <-.
  - destruct (pr_pc p); try done. apply bind_Some in Hq as ([[k m] st] & _ & Hq). destruct (0 <? k); by injection Hq as <-.
  - destruct (pr_pc p); try done. destruct (_ || _); [|done]. destruct (fd <? 0); [|destruct (fd =? _); [|done]]; by injection Hq as <-.
  - destruct (pr_pc p); try done. apply bind_Some in Hq as ([n m] & _ & Hq). destruct (_ || _); [|done].
    destruct (0 <? n); by injection Hq as <-.
  - assert ((if blocked p && (negb (pr_interrupted p) || (l_result l =? -1)) then log_step l p else None) = Some q)
      as H' by (destruct (pr_pc p); done).
    destruct (_ && _); [by eapply Hlog|done].
  - destruct (pr_pc p); try done. destruct (_ || _); [|done]. by apply bind_Some in Hq as (? & _ & [= <-]).
Qed.

Lemma signals_wait n p p' :
  steps true (replicate n Signal) p = Some p' ->
  pr_pc p' = pr_pc p /\ pr_server p' = pr_server p /\ pr_out p' = pr_out p.
Proof.
  revert p. induction n as [|n IH]; intros p H; cbn [replicate steps] in H; [by injection H as <-|].
  apply bind_Some in H as (q & Hq & H). destruct (IH q H) as (-> & -> & ->).
  unfold step in Hq. assert (q = server_shutdown true p) as -> by (destruct (pr_pc p); congruence). done.
Qed.

(** ** Properties *)

(** C10 A signal ends the server: every interleaving of the program with the signal handler
    that reaches the end of [server_run], whatever [SA_RESTART] is, received a signal, is
    the run of [server_run] on the turns taken, which read what the device delivered, in
    order, and took at most one reading after the first signal, and that only if the signal
    found it in [tun_read]: none when the signal came before the loop, or while the log
    waited for its reader. *)
Theorem shutdown_refines b verbose g s es p :
  steps b es (enter verbose g s) = Some p -> pr_pc p = Stopped ->
  (exists last, server_run (pr_turns p) last s MTU_SIZE = Some (pr_out p, pr_server p)) /\
  r_read <$> pr_turns p = delivered es /\
  if g then delivered es = []
  else exists before after q, es = before ++ Signal :: after /\ Signal ∉ before /\
    steps b before (enter verbose false s) = Some q /\
    (length (delivered after) <= match pr_pc q with Reading => 1 | _ => 0 end)%nat.
Proof.
  intros H Hpc. pose proof (steps_follow b es verbose g s p H) as Hf. unfold follows in Hf. rewrite Hpc in Hf.
  split; [exact Hf|]. pose proof (steps_taken b es _ p H) as Ht. unfold taken at 1 in Ht. rewrite Hpc, app_nil_r in Ht.
  assert (taken (enter verbose g s) = []) as H0 by (by destruct verbose). rewrite H0 in Ht. split; [exact Ht|].
  pose proof (steps_last b es verbose g s p H (or_intror Hpc)) as Hg. destruct g.
  { pose proof (steps_allowance b es (enter verbose true s) p eq_refl H) as Hle.
    assert (allowance (enter verbose true s) = 0%nat) as Ha by (by destruct verbose). rewrite Ha in Hle.
    destruct (delivered es); [done|]. cbn [length] in Hle. lia. }
  destruct (first_signal es) as [Hno|(before & after & -> & Hb)].
  { by rewrite (steps_unsignalled b es (enter verbose false s) p) in Hg. }
  rewrite steps_app in H. apply bind_Some in H as (q & Hbq & H). exists before, after, q.
  split; [done|]. split; [done|]. split; [done|]. cbn [steps] in H.
  apply bind_Some in H as (q' & Hq & H). destruct (step_taken b q Signal q' Hq) as [_ Hg'].
  pose proof (steps_allowance b after q' p Hg' H) as Hle.
  assert (q' = server_shutdown b q) as -> by (unfold step in Hq; destruct (pr_pc q); congruence).
  unfold allowance, rank in Hle. cbn [server_shutdown pr_pc] in Hle. destruct (pr_pc q); cbn in Hle; lia.
Qed.

(** A SYN is answered; the signal arrives during the next read. *)
Definition sample_events : list Event :=
  let ack := Written sample_log in
  [ Opened 3; Run; Deliver (Some (rd (sample_tcp 8080 SYN 5000 0) 0 40)); ack; Handle sample_env; ack; Sent 40;
    Run; Signal; Signal; Deliver (Some (rd sample_echo 0 32)); ack; Handle sample_env; ack; Sent 32; Run; ack ].

Lemma shutdown_refines_witness :
  exists p last, steps sa_flags_restart sample_events (enter true false (server_start plenty zeros 3)) = Some p /\
    server_run (pr_turns p) last (server_start plenty zeros 3) MTU_SIZE = Some (pr_out p, pr_server p).
Proof.
  assert (match steps sa_flags_restart sample_events (enter true false (server_start plenty zeros 3)) with
          | Some p => pr_pc p = Stopped | None => False end) as H by (vm_compute; reflexivity).
  destruct (steps sa_flags_restart sample_events (enter true false (server_start plenty zeros 3))) as [p|] eqn:E; [|destruct H].
  destruct (shutdown_refines sa_flags_restart true false (server_start plenty zeros 3) sample_events p E H) as [(last & Hrun) _].
  exists p, last. exact (conj eq_refl Hrun).
Defined.

(** C24 Shutting down ends, if the kernel lets every call return: in every reachable state that is not
    final the program either can take a step of its own or is in one of the six calls, and
    then any return of that call is a step, -1 at least when a signal interrupted it; once
    a signal has come, at most seven steps other than signals are left, so that the program
    ends within seven.  What may stay away is a return: with [SA_RESTART], the flag the
    program sets, a process in a call is still in it, having done nothing, after any number
    of signals, be it for the reader of the log to attach, for a packet, or for room in the
    FIFO; without the flag the first signal would leave -1 as the only return. *)
Theorem shutdown_ends b verbose g oom rnd log es p :
  steps b es (enter verbose g (server_start oom rnd log)) = Some p ->
  Forall event_ok es -> Z.of_nat (length (delivered es)) < TABLE_MAX ->
  (~ final p ->
     if blocked p then
       is_Some (step b p (failure p)) /\
       (pr_interrupted p = false -> forall e, answers p e -> is_Some (step b p e))
     else is_Some (step b p Run) \/ forall env, settled (e_junk env) -> is_Some (step b p (Handle env))) /\
  (g_shutdown p = true -> forall es' p', steps b es' p = Some p' ->
     (length (filter (fun e => is_signal e = false) es') <= 7)%nat) /\
  (if b then pr_interrupted p = false /\ forall n p', steps b (replicate n Signal) p = Some p' ->
     pr_pc p' = pr_pc p /\ pr_server p' = pr_server p /\ pr_out p' = pr_out p
   else blocked p = true -> forall q, step b p Signal = Some q -> pr_interrupted q = true).
Proof.
  intros H He Hmax. set (s0 := server_start oom rnd log) in *.
  pose proof (steps_follow b es verbose g s0 p H) as Hf.
  assert (rounds_ok p) as Hr.
  { eapply steps_rounds; [|exact He|exact H]. unfold rounds_ok, current. destruct verbose; apply Forall_nil_2. }
  pose proof (steps_taken b es _ p H) as Ht. assert (taken (enter verbose g s0) = []) as H0 by (by destruct verbose).
  rewrite H0 in Ht. cbn [app] in Ht. apply (f_equal length) in Ht. unfold taken in Ht. rewrite length_app, length_fmap in Ht.
  assert (Z.of_nat (size (conns (sv_store s0)) + length (pr_turns p)) < TABLE_MAX) as Hsz
    by (change (size (conns (sv_store s0))) with 0%nat; lia).
  pose proof (server_start_ok oom rnd log : server_ok s0) as Hs0.
  split; [|split].
  - intros Hlive. destruct (blocked p) eqn:Hb.
    + assert (answers p (failure p)) as Hfail.
      { unfold answers, failure, blocked in *. destruct (pr_pc p); try done. left. lia. }
      split; [|intros Hi e Ha]; apply (answered b p s0 Hf Hr Hs0 Hlive Hsz); auto.
    + by apply (own_step b p s0 Hf Hr Hs0 Hlive Hsz).
  - intros Hg es' p' H'. destruct (steps_rank b es' p p' Hg H') as [_ Hle]. pose proof (rank_max p). lia.
  - destruct b.
    + split; [by eapply (steps_restarted es (enter verbose g s0))|intros n p'; apply signals_wait].
    + intros Hb q Hq. unfold step in Hq. assert (q = server_shutdown false p) as -> by (destruct (pr_pc p); congruence).
      cbn. rewrite Hb. apply orb_true_r.
Qed.

(** Two signals while the log waits for its reader. *)
Lemma shutdown_ends_witness :
  exists p, steps sa_flags_restart [Signal; Signal] (enter true false (server_start plenty zeros 3)) = Some p /\
    pr_pc p = Opening /\ is_Some (step sa_flags_restart p (Opened 3)).
Proof.
  eexists. split; [reflexivity|]. split; [reflexivity|].
  destruct (shutdown_ends sa_flags_restart true false plenty zeros 3 [Signal; Signal] _ eq_refl) as (H & _).
  - repeat constructor.
  - done.
  - apply H; [intros [Hs|Hs]; discriminate Hs|reflexivity|right; reflexivity].
Defined.
