(* ===== verification/CString.v ===== *)
(** * C strings

    [strlen], [strcmp], [strcpy], [strncpy] and [strdup] of the C library, on the buffers of
    [Memory.v]: a string ends at its first zero byte.  Reading past the end of the buffer
    that holds it is undefined behaviour, [None]. *)
From S2P Require Import Prelude Memory.

(** The characters of the string a buffer starts with. *)
Fixpoint c_chars (src : bytes) : option bytes :=
  match src with
  | [] => None
  | c :: src => if c =? 0 then Some [] else s ← c_chars src; Some (c :: s)
  end.

Definition strlen (src : bytes) : option Z := s ← c_chars src; Some (Z.of_nat (length s)).

(** The bytes [strncpy] writes: at most [n] characters, padded with zeros. *)
Fixpoint strncpy_bytes (n : nat) (src : bytes) : option bytes :=
  match n with
  | O => Some []
  | S n =>
      match src with
      | [] => None
      | c :: src => if c =? 0 then Some (replicate (S n) 0) else s ← strncpy_bytes n src; Some (c :: s)
      end
  end.

Definition strncpy (dst : bytes) (p : Z) (src : bytes) (n : Z) : option bytes :=
  s ← strncpy_bytes (Z.to_nat n) src; store_bytes dst p s.

Definition strcpy (dst src : bytes) : option bytes :=
  s ← c_chars src; store_bytes dst 0 (s ++ [0]).

(** The copy, when memory is granted. *)
Definition strdup (granted : bool) (src : bytes) : option (option bytes) :=
  s ← c_chars src; Some (if granted then Some (s ++ [0]) else None).

(** [strcmp(s, t) == 0] for a literal [t]. *)
Definition streq (src t : bytes) : option bool := s ← c_chars src; Some (bool_decide (s = t)).

(** ** Buffers that hold a string *)

(** The buffer starts with the string [s]. *)
Definition c_string (m s : bytes) : Prop := (exists r, m = s ++ 0 :: r) /\ Forall (fun c => c <> 0) s.

Lemma c_chars_string m s : c_string m s -> c_chars m = Some s.
Proof.
  intros [[r ->] Hs]. induction s as [|c s IH]; cbn [c_chars app]; [done|].
  apply Forall_cons in Hs as [Hc Hs]. destruct (c =? 0) eqn:E; [lia|]. by rewrite IH.
Qed.

Lemma c_string_chars m s : c_chars m = Some s -> c_string m s.
Proof.
  revert s. induction m as [|c m IH]; intros s; cbn [c_chars]; [done|].
  destruct (c =? 0) eqn:E.
  - intros [= <-]. split; [|constructor]. exists m. assert (c = 0) as -> by lia. done.
  - intros (s' & Hs & [= <-])%bind_Some. destruct (IH _ Hs) as [[r ->] Hf].
    split; [by exists r|]. constructor; [lia|done].
Qed.

(** A buffer with a zero byte holds a string. *)
Lemma c_chars_zero m : 0 ∈ m -> is_Some (c_chars m).
Proof.
  induction m as [|c m IH]; cbn [c_chars]; [intros []%elem_of_nil|]. intros [<-|Hm]%elem_of_cons; [eauto|].
  destruct (c =? 0); [eauto|]. destruct (IH Hm) as [s ->]. cbn [mbind option_bind]. eauto.
Qed.

Lemma c_chars_length m s : c_chars m = Some s -> (length s < length m)%nat.
Proof.
  intros H. apply c_string_chars in H as [[r ->] _]. rewrite length_app. cbn [length]. lia.
Qed.

Lemma strlen_string m s : c_string m s -> strlen m = Some (Z.of_nat (length s)).
Proof. intros H. unfold strlen. by rewrite (c_chars_string _ _ H). Qed.

Lemma strncpy_bytes_string n m s :
  c_string m s -> (length s <= n)%nat -> strncpy_bytes n m = Some (s ++ replicate (n - length s) 0).
Proof.
  intros [[r ->] Hs]. revert n. induction s as [|c s IH]; intros n Hn; cbn [app length].
  - destruct n as [|n]; cbn [strncpy_bytes]; [done|]. by rewrite Nat.sub_0_r.
  - apply Forall_cons in Hs as [Hc Hs]. cbn [length] in Hn. destruct n as [|n]; [lia|].
    cbn [strncpy_bytes]. destruct (c =? 0) eqn:E; [lia|]. rewrite IH by (done || lia). done.
Qed.

(** A buffer that begins with a string and its terminator. *)
Lemma c_string_rd d s :
  rd d 0 (Z.of_nat (length s) + 1) = s ++ [0] -> Forall (fun c => c <> 0) s -> c_string d s.
Proof.
  intros H Hs. split; [|done]. unfold rd in H. change (Z.to_nat 0) with 0%nat in H. rewrite drop_0 in H.
  replace (Z.to_nat (Z.of_nat (length s) + 1)) with (S (length s)) in H by lia.
  exists (drop (S (length s)) d). rewrite <- (take_drop (S (length s)) d) at 1. rewrite H.
  by rewrite <- app_assoc.
Qed.

(** A string padded with zeros to [k] bytes. *)
Definition padded (k : nat) (s : bytes) : bytes := s ++ replicate (k - length s) 0.

Lemma padded_string k s : Forall (fun c => c <> 0) s -> (length s < k)%nat -> c_string (padded k s) s.
Proof.
  intros Hs Hl. split; [|done]. unfold padded. destruct (k - length s)%nat as [|n] eqn:E; [lia|]. by eexists.
Qed.

Lemma length_padded k s : (length s <= k)%nat -> length (padded k s) = k.
Proof. intros. unfold padded. rewrite length_app, length_replicate. lia. Qed.

(** Copying a string that fits into a zeroed array pads it. *)
Lemma strncpy_zeroed k n m s :
  c_string m s -> (length s <= n)%nat -> (n <= k)%nat ->
  strncpy (replicate k 0) 0 m (Z.of_nat n) = Some (padded k s).
Proof.
  intros Hm Hl Hk. unfold strncpy. rewrite Nat2Z.id, (strncpy_bytes_string _ _ _ Hm) by lia.
  cbn [mbind option_bind]. rewrite store_bytes_in by (rewrite ?length_app, ?length_replicate; lia).
  rewrite upd_start by (rewrite length_app, !length_replicate; lia).
  rewrite length_app, length_replicate, drop_replicate, <- app_assoc, <- replicate_add.
  unfold padded. do 3 f_equal. lia.
Qed.

Lemma strcpy_string dst src s :
  c_string src s -> (length s < length dst)%nat ->
  exists d, strcpy dst src = Some d /\ length d = length dst /\ c_string d s.
Proof.
  intros Hs Hl. unfold strcpy. rewrite (c_chars_string _ _ Hs). cbn [mbind option_bind].
  rewrite store_bytes_in by (rewrite ?length_app; cbn [length]; lia). eexists. split; [done|].
  split; [by rewrite length_upd|]. apply c_string_rd; [|apply Hs].
  apply rd_upd_same; rewrite ?length_app; cbn [length]; lia.
Qed.

Lemma strdup_string granted src s :
  c_string src s -> strdup granted src = Some (if granted then Some (s ++ [0]) else None).
Proof. intros Hs. unfold strdup. by rewrite (c_chars_string _ _ Hs). Qed.
