(* ===== verification/Actions.v ===== *)
(** * Actions on the outside

    What [tun_device.c], [log_init], [v_device.c] and the two [main]s do to the system, as a
    list of actions in order: descriptors and blocks acquired and released, messages sent,
    files and commands.  [held_after] says what is held after them, and that nothing is
    acquired twice or released without being held. *)
From S2P Require Import Prelude Memory.

(** The members [tun_device.c] sets in its two Netlink requests. *)
Inductive Request :=
  | Link_Req (nlmsg_len nlmsg_type nlmsg_flags nlmsg_seq ifi_family ifi_index ifi_flags ifi_change : Z)
  | Addr_Req (nlmsg_len nlmsg_type nlmsg_flags nlmsg_seq ifa_family ifa_prefixlen ifa_index ifa_scope
              rta_type rta_len addr : Z).

(** Descriptors and blocks of memory, and what happens to them. *)
Inductive Res := Fd (fd : Z) | Tun_Block | Name_Block | Ip_Block | Unit_Block | Log_File.
Inductive Act :=
  | Acquire (r : Res) | Release (r : Res)
  | Send (fd : Z) (req : Request)
  | Ioctl (fd : Z) (ifr_flags : Z) (ifr_name : bytes)
  | Unlink (path : bytes)
  | Mkfifo (path : bytes)
  | System (cmd : bytes).

#[export] Instance Res_eq_dec : EqDecision Res.
Proof. solve_decision. Defined.

#[export] Instance Res_countable : Countable Res.
Proof.
  refine (inj_countable' (fun r => match r with Fd z => (0, z) | Tun_Block => (1, 0) | Name_Block => (2, 0)
            | Ip_Block => (3, 0) | Unit_Block => (4, 0) | Log_File => (5, 0) end)
            (fun '(k, z) => if k =? 0 then Fd z else if k =? 1 then Tun_Block else if k =? 2 then Name_Block
              else if k =? 3 then Ip_Block else if k =? 4 then Unit_Block else Log_File) _).
  now intros [].
Defined.

(** ** Resources *)

(** What is held after the actions: acquiring what is held or releasing what is not is an
    error. *)
Definition act_held (held : gset Res) (a : Act) : option (gset Res) :=
  match a with
  | Acquire r => if decide (r ∈ held) then None else Some ({[r]} ∪ held)
  | Release r => if decide (r ∈ held) then Some (held ∖ {[r]}) else None
  | _ => Some held
  end.
Fixpoint held_after (held : gset Res) (acts : list Act) : option (gset Res) :=
  match acts with [] => Some held | a :: acts => held ← act_held held a; held_after held acts end.

(** The requests sent, in order. *)
Definition sent (acts : list Act) : list Request :=
  omap (fun a => match a with Send _ r => Some r | _ => None end) acts.

(** ** Lemmas *)

Lemma held_after_app h a b :
  held_after h (a ++ b) = h' ← held_after h a; held_after h' b.
Proof.
  revert h. induction a as [|x a IH]; intros h; cbn [held_after app]; [done|].
  destruct (act_held h x); cbn [mbind option_bind]; [apply IH|done].
Qed.

Lemma sent_app a b : sent (a ++ b) = sent a ++ sent b.
Proof. apply omap_app. Qed.

Lemma held_acquire h r : r ∉ h -> held_after h [Acquire r] = Some ({[r]} ∪ h).
Proof. intros. cbn. by rewrite decide_False. Qed.

Lemma held_release h r : r ∉ h -> held_after ({[r]} ∪ h) [Release r] = Some h.
Proof.
  intros Hr. cbn. rewrite decide_True by set_solver +. cbn [mbind option_bind]. f_equal.
  apply set_eq. intros x. rewrite elem_of_difference, elem_of_union, !elem_of_singleton.
  split; [tauto|]. intros Hx. split; [by right|]. intros ->. done.
Qed.

(** Opening a descriptor, using it and closing it leaves held what was held. *)
Definition keeps_resources (a : Act) : bool := match a with Acquire _ | Release _ => false | _ => true end.

Lemma held_exchange h s l :
  Fd s ∉ h -> forallb keeps_resources l = true ->
  held_after h (Acquire (Fd s) :: l ++ [Release (Fd s)]) = Some h.
Proof.
  intros Hs. cbn [held_after act_held]. rewrite decide_False by done. cbn [mbind option_bind].
  induction l as [|a l IH]; cbn [forallb app]; [intros _; by apply held_release|].
  intros [Ha Hl]%andb_true_iff. destruct a; try done; by apply IH.
Qed.

(** An acquisition of what is not held. *)
Ltac acquire H :=
  cbn [held_after act_held app mbind option_bind]; rewrite decide_False by set_solver + H;
  cbn [held_after act_held app mbind option_bind].
