(* ===== verification/TunDevice.v ===== *)
(** * The TUN device

    [refactor/tun/tun_device.c]: creating and configuring the device, and releasing it.
    System calls are readings of the environment; the constants and macros of the kernel's
    Netlink headers and [inet_pton] are parameters.  What the code does to the outside is a
    list of the actions of [Actions.v]. *)
From S2P Require Import Prelude Memory CString Actions.

Definition TUN_FILE_ERROR : Z := -3.
Definition TUN_KWRITE_ERROR : Z := -1.
Definition TUN_DSOCK_ERROR : Z := -2.
Definition TUN_INET_ERROR : Z := -4.
Definition TUN_SEND_ERROR : Z := -5.

(** Interface names and the size of the buffer [main] keeps them in. *)
Definition IFNAMSIZ : Z := 16.

(** The headers of the kernel. *)
Record Netlink_Api := {
  NLMSG_LENGTH : Z -> Z; NLMSG_ALIGN : Z -> Z; RTA_LENGTH : Z -> Z;
  sizeof_ifinfomsg : Z; sizeof_ifaddrmsg : Z; sizeof_in_addr : Z;
  RTM_NEWLINK : Z; RTM_NEWADDR : Z; NLM_F_REQUEST : Z; NLM_F_CREATE : Z; NLM_F_EXCL : Z;
  AF_UNSPEC : Z; AF_INET : Z; RT_SCOPE_UNIVERSE : Z; IFA_LOCAL : Z; IFF_UP : Z; IFF_TUN : Z; IFF_NO_PI : Z;
  inet_pton : bytes -> option Z;
}.

(** [struct Tun]; a string [strdup] could not copy is null. *)
Record Tun := MkTun { tun_name : option bytes; tun_ip : option bytes; tun_fd : Z }.

(** Readings of one Netlink exchange ([nl_index] is [if_nametoindex]), and of the calls of
    [tun_init]: [te_name] is the interface name the kernel leaves in [ifr.ifr_name]. *)
Record Nl_Env := MkNl { nl_sock : Z; nl_index : bytes -> Z; nl_send : Z }.
Record Tun_Env := MkTunEnv {
  te_open : Z; te_ioctl : Z; te_name : bytes;
  te_tun : bool; te_dup_name : bool; te_dup_ip : bool;
  te_add : Nl_Env; te_wake : Nl_Env;
}.

Section device.
Context (api : Netlink_Api).

(** ** Operations *)

Definition tun_ip_wake (env : Nl_Env) (name : bytes) : Z * list Act :=
  let sock := nl_sock env in
  if sock <? 0 then (TUN_DSOCK_ERROR, []) else
  let req := Link_Req (NLMSG_LENGTH api (sizeof_ifinfomsg api)) (RTM_NEWLINK api) (NLM_F_REQUEST api) 1
               (AF_UNSPEC api) (s32 (nl_index env name)) (IFF_UP api) (IFF_UP api) in
  (if nl_send env <? 0 then TUN_SEND_ERROR else 0, [Acquire (Fd sock); Send sock req; Release (Fd sock)]).

Definition tun_ip_add (env : Nl_Env) (name ip : bytes) : Z * list Act :=
  let sock := nl_sock env in
  if sock <? 0 then (TUN_DSOCK_ERROR, []) else
  let nlmsg_len := NLMSG_LENGTH api (sizeof_ifaddrmsg api) in
  match inet_pton api ip with
  | None => (TUN_INET_ERROR, [Acquire (Fd sock); Release (Fd sock)])
  | Some addr =>
      let rta_len := RTA_LENGTH api (sizeof_in_addr api) in
      let req := Addr_Req (NLMSG_ALIGN api nlmsg_len + rta_len) (RTM_NEWADDR api)
                   (Z.lor (Z.lor (NLM_F_REQUEST api) (NLM_F_CREATE api)) (NLM_F_EXCL api)) 1
                   (AF_INET api) 24 (nl_index env name) (RT_SCOPE_UNIVERSE api) (IFA_LOCAL api) rta_len addr in
      (if nl_send env <? 0 then TUN_SEND_ERROR else 0, [Acquire (Fd sock); Send sock req; Release (Fd sock)])
  end.

(** The descriptor or an error, the buffer [name] afterwards, and the actions. *)
Definition tun_alloc (env : Tun_Env) (name : bytes) : option (Z * bytes * list Act) :=
  let fd := te_open env in
  if fd <? 0 then Some (TUN_FILE_ERROR, name, []) else
  first ← get name 0 (Field 0 1);
  ifr_name ← (if truth first then strncpy (replicate 16 0) 0 name IFNAMSIZ else Some (replicate 16 0));
  let acts := [Acquire (Fd fd); Ioctl fd (Z.lor (IFF_TUN api) (IFF_NO_PI api)) ifr_name] in
  if te_ioctl env <? 0 then Some (TUN_KWRITE_ERROR, name, acts ++ [Release (Fd fd)]) else
  name ← store_bytes name 0 (replicate (Z.to_nat IFNAMSIZ) 0);
  name ← strcpy name (te_name env);
  Some (fd, name, acts).

Definition tun_destroy (tun : option Tun) : list Act :=
  match tun with
  | None => []
  | Some tun =>
      match tun_name tun with Some _ => [Release Name_Block] | None => [] end ++
      match tun_ip tun with Some _ => [Release Ip_Block] | None => [] end ++
      [Release (Fd (tun_fd tun)); Release Tun_Block]
  end.

Definition tun_init (env : Tun_Env) (name ip : bytes) : option (option Tun * list Act) :=
  '(fd, name, acts) ← tun_alloc env name;
  if fd =? TUN_FILE_ERROR then Some (None, acts) else
  if fd =? TUN_KWRITE_ERROR then Some (None, acts) else
  if negb (te_tun env) then Some (None, acts ++ [Release (Fd fd)]) else
  dname ← strdup (te_dup_name env) name;
  dip ← strdup (te_dup_ip env) ip;
  let tun := MkTun dname dip fd in
  let acts := acts ++ [Acquire Tun_Block] ++
    match dname with Some _ => [Acquire Name_Block] | None => [] end ++
    match dip with Some _ => [Acquire Ip_Block] | None => [] end in
  let '(ip_add, acts_add) := tun_ip_add (te_add env) name ip in
  let '(ip_wake, acts_wake) := tun_ip_wake (te_wake env) name in
  let acts := acts ++ acts_add ++ acts_wake in
  if (ip_add =? TUN_DSOCK_ERROR) || (ip_wake =? TUN_DSOCK_ERROR) then Some (None, acts ++ tun_destroy (Some tun)) else
  if (ip_add =? TUN_SEND_ERROR) || (ip_wake =? TUN_SEND_ERROR) then Some (None, acts ++ tun_destroy (Some tun)) else
  if ip_add =? TUN_INET_ERROR then Some (None, acts ++ tun_destroy (Some tun)) else
  Some (Some tun, acts).
End device.

(** ** Resources *)

(** What a device holds. *)
Definition tun_held (tun : Tun) : gset Res :=
  {[Fd (tun_fd tun)]} ∪ ({[Tun_Block]} ∪
    ((match tun_name tun with Some _ => {[Name_Block]} | None => ∅ end) ∪
     (match tun_ip tun with Some _ => {[Ip_Block]} | None => ∅ end))).

(** ** Specification *)

(** The kernel hands out descriptors that are not in use, and names that fit. *)
Record tun_env_ok (env : Tun_Env) : Prop := {
  to_add : nl_sock (te_add env) <> te_open env;
  to_wake : nl_sock (te_wake env) <> te_open env;
  to_name : exists s, c_string (te_name env) s /\ (length s < 16)%nat;
}.

(** Everything that can fail succeeds. *)
Definition tun_granted (api : Netlink_Api) (env : Tun_Env) (ip : bytes) : bool :=
  (0 <=? te_open env) && (0 <=? te_ioctl env) && te_tun env &&
  ((0 <=? nl_sock (te_add env)) && bool_decide (is_Some (inet_pton api ip)) && (0 <=? nl_send (te_add env))) &&
  ((0 <=? nl_sock (te_wake env)) && (0 <=? nl_send (te_wake env))).

(** ** Lemmas *)

Lemma tun_ip_wake_held api env name h :
  Fd (nl_sock env) ∉ h -> held_after h (tun_ip_wake api env name).2 = Some h.
Proof.
  intros Hs. unfold tun_ip_wake. destruct (_ <? 0); [done|]. by apply (held_exchange h _ [Send _ _]).
Qed.

Lemma tun_ip_add_held api env name ip h :
  Fd (nl_sock env) ∉ h -> held_after h (tun_ip_add api env name ip).2 = Some h.
Proof.
  intros Hs. unfold tun_ip_add. destruct (_ <? 0); [done|]. destruct (inet_pton api ip).
  - by apply (held_exchange h _ [Send _ _]).
  - by apply (held_exchange h _ []).
Qed.

(** Releasing a device gives back all it holds. *)
Lemma tun_destroy_held tun h :
  tun_held tun ## h -> held_after (tun_held tun ∪ h) (tun_destroy (Some tun)) = Some h.
Proof.
  destruct tun as [name ip fd]. unfold tun_held, tun_destroy. cbn [tun_name tun_ip tun_fd]. intros Hd.
  destruct name, ip; cbn [app held_after act_held];
    repeat (rewrite decide_True by set_solver +; cbn [mbind option_bind]); f_equal; set_solver + Hd.
Qed.

(** The acquisitions of [tun_init] once the descriptor is held. *)
Lemma tun_blocks_held (dname dip : option bytes) fd :
  held_after {[Fd fd]} ([Acquire Tun_Block] ++
    match dname with Some _ => [Acquire Name_Block] | None => [] end ++
    match dip with Some _ => [Acquire Ip_Block] | None => [] end) = Some (tun_held (MkTun dname dip fd)).
Proof.
  unfold tun_held. cbn [tun_name tun_ip tun_fd].
  destruct dname, dip; cbn [app held_after act_held];
    repeat (rewrite decide_False by set_solver +; cbn [mbind option_bind]); f_equal; set_solver +.
Qed.

(** The request for an interface of name [s]; an empty name leaves the choice to the kernel. *)
Definition name_request (api : Netlink_Api) (fd : Z) (s : bytes) : Act :=
  Ioctl fd (Z.lor (IFF_TUN api) (IFF_NO_PI api)) (padded 16 s).

(** The name as it is handed to the kernel. *)
Lemma ifr_name_eq name s :
  c_string name s -> length name = 16%nat ->
  (if truth (getf name 0 (Field 0 1)) then strncpy (replicate 16 0) 0 name IFNAMSIZ
   else Some (replicate 16 0)) = Some (padded 16 s).
Proof.
  intros Hs Hl. destruct s as [|c s].
  { destruct Hs as [[r ->] _]. done. }
  assert (truth (getf name 0 (Field 0 1)) = true) as ->.
  { destruct Hs as [[r ->] [Hc _]%Forall_cons]. change (getf _ 0 (Field 0 1)) with (le_decode [c]).
    unfold truth. cbn [le_decode]. apply negb_true_iff. lia. }
  apply (strncpy_zeroed 16 16); [done| |lia].
  destruct Hs as [[r ->] _]. rewrite length_app in Hl. lia.
Qed.

Lemma tun_alloc_spec api env name s :
  tun_env_ok env -> c_string name s -> length name = 16%nat ->
  exists fd name' acts, tun_alloc api env name = Some (fd, name', acts) /\ sent acts = [] /\
    if (0 <=? te_open env) && (0 <=? te_ioctl env) then
      fd = te_open env /\ held_after ∅ acts = Some {[Fd fd]} /\
      acts = [Acquire (Fd fd); name_request api fd s] /\ exists s', c_string name' s' /\ c_string (te_name env) s'
    else held_after ∅ acts = Some ∅ /\ (fd = TUN_FILE_ERROR \/ fd = TUN_KWRITE_ERROR).
Proof.
  intros [_ _ (s' & Hs' & Hl')] Hs Hl. unfold tun_alloc.
  destruct (te_open env <? 0) eqn:Eo.
  { destruct (0 <=? te_open env) eqn:E; [lia|]. cbn [andb]. do 3 eexists. split; [done|]. split; [done|].
    split; [done|]. by left. }
  destruct (0 <=? te_open env) eqn:E; [clear E|lia]. cbn [andb].
  rewrite get_in by mem. cbn [mbind option_bind].
  rewrite (ifr_name_eq _ _ Hs Hl).
  cbn [mbind option_bind]. destruct (te_ioctl env <? 0) eqn:Ei.
  { destruct (0 <=? te_ioctl env) eqn:E; [lia|]. do 3 eexists. split; [done|]. split; [done|].
    split; [|by right]. by apply (held_exchange ∅ (te_open env) [Ioctl _ _ _]). }
  destruct (0 <=? te_ioctl env) eqn:E; [clear E|lia].
  rewrite store_bytes_in by (rewrite ?length_replicate; unfold IFNAMSIZ; lia). cbn [mbind option_bind].
  destruct (strcpy_string (upd name 0 (replicate (Z.to_nat IFNAMSIZ) 0)) _ _ Hs') as (d & -> & _ & Hd);
    [rewrite length_upd; lia|].
  cbn [mbind option_bind]. do 3 eexists. split; [done|]. split; [done|]. split; [done|].
  split; [|split; [done|by eexists]]. cbn [held_after act_held]. rewrite decide_False by set_solver +.
  cbn [mbind option_bind held_after act_held]. f_equal. by rewrite union_empty_r_L.
Qed.

(** The requests a device that comes up has sent. *)
Definition addr_req (api : Netlink_Api) (index addr : Z) : Request :=
  Addr_Req (NLMSG_ALIGN api (NLMSG_LENGTH api (sizeof_ifaddrmsg api)) + RTA_LENGTH api (sizeof_in_addr api))
    (RTM_NEWADDR api) (Z.lor (Z.lor (NLM_F_REQUEST api) (NLM_F_CREATE api)) (NLM_F_EXCL api)) 1
    (AF_INET api) 24 index (RT_SCOPE_UNIVERSE api) (IFA_LOCAL api) (RTA_LENGTH api (sizeof_in_addr api)) addr.
Definition link_req (api : Netlink_Api) (index : Z) : Request :=
  Link_Req (NLMSG_LENGTH api (sizeof_ifinfomsg api)) (RTM_NEWLINK api) (NLM_F_REQUEST api) 1
    (AF_UNSPEC api) (s32 index) (IFF_UP api) (IFF_UP api).

(** The codes of the two exchanges. *)
Lemma tun_ip_add_code api env name ip :
  ((tun_ip_add api env name ip).1 =? TUN_DSOCK_ERROR) = (nl_sock env <? 0) /\
  (0 <=? nl_sock env = true ->
   ((tun_ip_add api env name ip).1 =? TUN_INET_ERROR) = bool_decide (inet_pton api ip = None) /\
   ((tun_ip_add api env name ip).1 =? TUN_SEND_ERROR)
   = negb (bool_decide (inet_pton api ip = None)) && (nl_send env <? 0)).
Proof.
  unfold tun_ip_add. destruct (nl_sock env <? 0) eqn:E; [split; [done|lia]|].
  destruct (inet_pton api ip); cbn [fst]; [destruct (nl_send env <? 0)|]; done.
Qed.

Lemma tun_ip_wake_code api env name :
  ((tun_ip_wake api env name).1 =? TUN_DSOCK_ERROR) = (nl_sock env <? 0) /\
  ((tun_ip_wake api env name).1 =? TUN_SEND_ERROR) = (0 <=? nl_sock env) && (nl_send env <? 0).
Proof.
  unfold tun_ip_wake. destruct (nl_sock env <? 0) eqn:E.
  - destruct (0 <=? nl_sock env) eqn:E'; [lia|done].
  - destruct (0 <=? nl_sock env) eqn:E'; [|lia]. cbn [fst]. by destruct (nl_send env <? 0).
Qed.

Lemma tun_ip_add_sent api env name ip addr :
  0 <= nl_sock env -> inet_pton api ip = Some addr ->
  sent (tun_ip_add api env name ip).2 = [addr_req api (nl_index env name) addr].
Proof. intros Hs Ha. unfold tun_ip_add. destruct (_ <? 0) eqn:E; [lia|]. by rewrite Ha. Qed.

Lemma tun_ip_wake_sent api env name :
  0 <= nl_sock env -> sent (tun_ip_wake api env name).2 = [link_req api (nl_index env name)].
Proof. intros Hs. unfold tun_ip_wake. by destruct (_ <? 0) eqn:E; [lia|]. Qed.

(** The three error tests of [tun_init]. *)
Lemma tun_init_tests {A} api env name ip (a b : A) :
  (let x := (tun_ip_add api (te_add env) name ip).1 in
   let y := (tun_ip_wake api (te_wake env) name).1 in
   if (x =? TUN_DSOCK_ERROR) || (y =? TUN_DSOCK_ERROR) then a else
   if (x =? TUN_SEND_ERROR) || (y =? TUN_SEND_ERROR) then a else
   if x =? TUN_INET_ERROR then a else b)
  = if ((0 <=? nl_sock (te_add env)) && bool_decide (is_Some (inet_pton api ip)) && (0 <=? nl_send (te_add env))) &&
       ((0 <=? nl_sock (te_wake env)) && (0 <=? nl_send (te_wake env))) then b else a.
Proof.
  destruct (tun_ip_add_code api (te_add env) name ip) as [H1 H2].
  destruct (tun_ip_wake_code api (te_wake env) name) as [H3 H4]. cbv zeta. rewrite H1, H3, H4.
  rewrite !Z.leb_antisym. rewrite Z.leb_antisym in H2.
  destruct (nl_sock (te_add env) <? 0); cbn [orb negb andb]; [done|].
  destruct (H2 eq_refl) as [-> ->].
  destruct (nl_sock (te_wake env) <? 0); cbn [orb negb andb]; [by rewrite andb_false_r|].
  destruct (inet_pton api ip) as [addr|].
  - rewrite bool_decide_false by done. rewrite bool_decide_true by eauto.
    by destruct (nl_send (te_add env) <? 0), (nl_send (te_wake env) <? 0).
  - rewrite bool_decide_true by done. rewrite bool_decide_false by (by intros []).
    by destruct (nl_send (te_wake env) <? 0).
Qed.

(** The device of name [n] and address [ip]. *)
Definition device_of (env : Tun_Env) (n ip : bytes) : Tun :=
  MkTun (if te_dup_name env then Some (n ++ [0]) else None) (if te_dup_ip env then Some (ip ++ [0]) else None)
    (te_open env).

(** [tun_init] is defined; it gives a device exactly when everything it asks for is granted. *)
Lemma tun_init_spec api env name ip s t :
  tun_env_ok env -> c_string name s -> length name = 16%nat -> c_string ip t ->
  exists r acts, tun_init api env name ip = Some (r, acts) /\
    match r with
    | None => tun_granted api env ip = false /\ held_after ∅ acts = Some ∅
    | Some tun =>
        tun_granted api env ip = true /\ held_after ∅ acts = Some (tun_held tun) /\
        (exists rest, acts = Acquire (Fd (te_open env)) :: name_request api (te_open env) s :: rest) /\
        exists n name' addr, c_string (te_name env) n /\ c_string name' n /\ tun = device_of env n t /\
          inet_pton api ip = Some addr /\
          sent acts = [addr_req api (nl_index (te_add env) name') addr; link_req api (nl_index (te_wake env) name')]
    end.
Proof.
  intros Hok Hs Hl Ht. unfold tun_init, tun_granted.
  destruct (tun_alloc_spec api env name s Hok Hs Hl) as (fd & name' & acts & -> & Hsent & Hres).
  cbn [mbind option_bind].
  destruct ((0 <=? te_open env) && (0 <=? te_ioctl env)) eqn:Hopen; cbn [andb].
  2:{ destruct Hres as [Hheld Hfd]. assert ((fd =? TUN_FILE_ERROR) || (fd =? TUN_KWRITE_ERROR) = true) as Herr
        by (unfold TUN_FILE_ERROR, TUN_KWRITE_ERROR in *; lia).
      destruct (fd =? TUN_FILE_ERROR) eqn:E1; [exists None, acts; done|].
      cbn [orb] in Herr. rewrite Herr. exists None, acts; done. }
  destruct Hres as (-> & Hheld & Hacts & s' & Hs' & Hname). apply andb_true_iff in Hopen as [Ho Hio].
  unfold TUN_FILE_ERROR, TUN_KWRITE_ERROR.
  destruct (te_open env =? -3) eqn:E; [lia|clear E]. destruct (te_open env =? -1) eqn:E; [lia|clear E].
  destruct (te_tun env); cbn [negb andb].
  2:{ do 2 eexists. split; [done|]. split; [done|]. rewrite held_after_app, Hheld. cbn [mbind option_bind].
      rewrite <- (union_empty_r_L {[Fd (te_open env)]}). apply held_release. set_solver +. }
  rewrite (strdup_string _ _ _ Hs'), (strdup_string _ _ _ Ht). cbn [mbind option_bind].
  set (dname := if te_dup_name env then Some _ else None). set (dip := if te_dup_ip env then Some _ else None).
  pose proof (tun_blocks_held dname dip (te_open env)) as Hblocks. set (tun := MkTun dname dip (te_open env)) in *.
  set (blocks := [Acquire Tun_Block] ++ _ ++ _) in *.
  assert (sent blocks = []) as Hsb by (subst blocks dname dip; by destruct (te_dup_name env), (te_dup_ip env)).
  assert (forall sk, sk <> te_open env -> Fd sk ∉ tun_held tun) as Hfresh.
  { intros sk Hsk. unfold tun_held. rewrite !not_elem_of_union, !not_elem_of_singleton. cbn [tun_fd tun].
    split; [congruence|]. split; [done|]. destruct (tun_name tun), (tun_ip tun); set_solver +. }
  pose proof (tun_ip_add_held api (te_add env) name' ip _ (Hfresh _ (to_add _ Hok))) as Hadd.
  pose proof (tun_ip_wake_held api (te_wake env) name' _ (Hfresh _ (to_wake _ Hok))) as Hwake.
  pose proof (tun_ip_add_sent api (te_add env) name' ip) as Hsa.
  pose proof (tun_ip_wake_sent api (te_wake env) name') as Hsw.
  destruct (tun_ip_add api (te_add env) name' ip) as [x xa] eqn:Ex.
  destruct (tun_ip_wake api (te_wake env) name') as [y ya] eqn:Ey. cbn [fst snd] in *.
  assert (held_after ∅ ((acts ++ blocks) ++ xa ++ ya) = Some (tun_held tun)) as Hall.
  { rewrite !held_after_app, Hheld. cbn [mbind option_bind]. rewrite Hblocks. cbn [mbind option_bind].
    rewrite held_after_app, Hadd. cbn [mbind option_bind]. exact Hwake. }
  pose proof (tun_init_tests api env name' ip
    (Some (None : option Tun, ((acts ++ blocks) ++ xa ++ ya) ++ tun_destroy (Some tun)))
    (Some (Some tun, (acts ++ blocks) ++ xa ++ ya))) as Htests.
  rewrite Ex, Ey in Htests. cbn [fst] in Htests. cbv zeta in Htests. rewrite Htests.
  clear Htests. destruct (_ && _) eqn:Hg.
  - apply andb_true_iff in Hg as [[[Hsx Hip]%andb_true_iff _]%andb_true_iff [Hsy _]%andb_true_iff].
    apply bool_decide_eq_true in Hip as [addr Haddr].
    exists (Some tun), ((acts ++ blocks) ++ xa ++ ya). split; [done|]. split; [done|].
    split; [exact Hall|]. split; [rewrite Hacts; by eexists|]. exists s', name', addr.
    split; [done|]. split; [done|]. split; [done|]. split; [done|].
    rewrite !sent_app, Hsent, Hsb, (Hsa addr), Hsw by (lia || done). done.
  - do 2 eexists. split; [done|]. split; [done|]. rewrite held_after_app, Hall. cbn [mbind option_bind].
    rewrite <- (union_empty_r_L (tun_held tun)). apply tun_destroy_held. set_solver +.
Qed.


(** ** Properties *)

(** C12 Creating the device is all or nothing: for every name and address [main] can pass and
    whatever the kernel refuses, [tun_init] is defined; it returns a device exactly when every
    step is granted, and then it asked for the interface by the name given, keeps the name the
    kernel chose, sent the address request and then the link request and nothing else, and
    holds the descriptor, the structure and its strings; otherwise it holds nothing.
    [tun_destroy] of what it returned leaves nothing held. *)
Theorem tun_init_correct api env name ip s t :
  tun_env_ok env -> c_string name s -> length name = 16%nat -> c_string ip t ->
  exists r acts, tun_init api env name ip = Some (r, acts) /\
    (is_Some r <-> tun_granted api env ip = true) /\
    (r = None -> held_after ∅ acts = Some ∅) /\
    (forall tun, r = Some tun ->
      held_after ∅ acts = Some (tun_held tun) /\
      (exists rest, acts = Acquire (Fd (te_open env)) :: name_request api (te_open env) s :: rest) /\
      exists n name' addr, c_string (te_name env) n /\ c_string name' n /\ tun = device_of env n t /\
        inet_pton api ip = Some addr /\
        sent acts = [addr_req api (nl_index (te_add env) name') addr; link_req api (nl_index (te_wake env) name')]) /\
    held_after ∅ (acts ++ tun_destroy r) = Some ∅.
Proof.
  intros Hok Hs Hl Ht. destruct (tun_init_spec api env name ip s t Hok Hs Hl Ht) as (r & acts & H & Hr).
  exists r, acts. split; [done|]. destruct r as [tun|].
  - destruct Hr as (Hg & Hh & Hrest). split; [by rewrite Hg|]. split; [done|].
    split; [intros ? [= <-]; done|]. rewrite held_after_app, Hh. cbn [mbind option_bind].
    rewrite <- (union_empty_r_L (tun_held tun)). apply tun_destroy_held. set_solver +.
  - destruct Hr as [Hg Hh]. split; [rewrite Hg; split; [by intros []|done]|]. split; [done|].
    split; [done|]. cbn [tun_destroy]. by rewrite app_nil_r.
Qed.

(** The constants of Linux, and an [inet_pton] that knows one address. *)
Definition sample_address : bytes := [49; 48; 46; 56; 46; 48; 46; 49; 0; 0; 0; 0; 0; 0; 0; 0].
Definition sample_name : bytes := [116; 117; 110; 48; 0; 0; 0; 0; 0; 0; 0; 0; 0; 0; 0; 0].
Definition sample_api : Netlink_Api := {|
  NLMSG_LENGTH n := n + 16; NLMSG_ALIGN n := (n + 3) / 4 * 4; RTA_LENGTH n := n + 4;
  sizeof_ifinfomsg := 16; sizeof_ifaddrmsg := 8; sizeof_in_addr := 4;
  RTM_NEWLINK := 16; RTM_NEWADDR := 20; NLM_F_REQUEST := 1; NLM_F_CREATE := 1024; NLM_F_EXCL := 512;
  AF_UNSPEC := 0; AF_INET := 2; RT_SCOPE_UNIVERSE := 0; IFA_LOCAL := 2;
  IFF_UP := 1; IFF_TUN := 1; IFF_NO_PI := 4096;
  inet_pton ip := if bool_decide (c_chars ip = c_chars sample_address) then Some 17303562 else None;
|}.
Definition sample_tun : Tun_Env :=
  MkTunEnv 3 0 sample_name true true true (MkNl 4 (fun _ => 7) 1) (MkNl 4 (fun _ => 7) 1).

Lemma sample_tun_ok : tun_env_ok sample_tun.
Proof.
  split; [by_eval|by_eval|]. exists [116; 117; 110; 48]. split; [by apply c_string_chars|]. cbn. lia.
Qed.

Lemma tun_init_correct_witness :
  exists tun acts, tun_init sample_api sample_tun sample_name sample_address = Some (Some tun, acts) /\
    sent acts = [addr_req sample_api 7 17303562; link_req sample_api 7] /\
    held_after ∅ (acts ++ tun_destroy (Some tun)) = Some ∅.
Proof.
  destruct (tun_init_correct sample_api sample_tun sample_name sample_address [116; 117; 110; 48]
    [49; 48; 46; 56; 46; 48; 46; 49] sample_tun_ok) as (r & acts & H & [_ Hg] & _ & Hr & Hd);
    [by apply c_string_chars|reflexivity|by apply c_string_chars|].
  destruct (Hg eq_refl) as [tun ->]. exists tun, acts. destruct (Hr tun eq_refl) as (_ & _ & n & name' & addr & _ & _ & _ & Ha & Hsent).
  injection Ha as <-. exact (conj H (conj Hsent Hd)).
Defined.
