(* ===== verification/Startup.v ===== *)
(** * Start-up and shutdown

    [main] of [refactor/main.c] around the server loop, and [log_init] of
    [refactor/log/log.c].  The connection table [main] leaves is part of its result.  Printing, [sigaction] and [signal] are not modelled: the
    environment says how many turns the loop makes before the flag is seen. *)
From S2P Require Import Prelude Memory Checksum Ip Icmp TcpHeader Heap Tcb Vector Table Hash Segment Samples Tcp Network Log Server CString Actions TunDevice.

Definition EXIT_FAILURE : Z := 1.
Definition INET_ADDRSTRLEN : Z := 16.

(** The literal of the verbose option. *)
Definition vb : bytes := [118; 98].

(** Readings of [log_init]: whether the file opens, what it holds, and what [mkfifo] and
    [open] return. *)
Record Log_Init_Env := MkLogInit { li_fopen : bool; li_data : bytes; li_mkfifo : Z; li_open : Z }.

Record Main_Env := MkMainEnv {
  me_tun : Tun_Env; me_log : Log_Init_Env;
  me_oom : nat -> bool; me_rand : Rand; me_rounds : list Round; me_last : Log_Env;
}.

(** ** Operations *)

(** The descriptor or [-1], and the actions. *)
Definition log_init (env : Log_Init_Env) : option (Z * list Act) :=
  if negb (li_fopen env) then Some (-1, []) else
  let acts := [Acquire Log_File] in
  fifo_path ← store_bytes (replicate 64 0) 0 (take 63 (li_data env));
  path ← c_chars fifo_path;
  let acts := acts ++ [Unlink path; Mkfifo path] in
  if li_mkfifo env <? 0 then Some (-1, acts) else
  let fd := li_open env in
  if fd <? 0 then Some (-1, acts) else
  Some (fd, acts ++ [Acquire (Fd fd)]).

(** The lines that describe the device: [printf] of a null string is undefined. *)
Definition banner (tun : Tun) : option unit := _ ← tun_name tun; _ ← tun_ip tun; Some tt.

(** [main] from [tun_init] on: the exit status, the actions, what the server loop put out,
    and the connection table, whose memory nothing frees. *)
Definition main_device (api : Netlink_Api) (env : Main_Env) (tun_name ip : bytes) (verbose : bool)
    : option (Z * list Act * list Output * Store) :=
  '(tun, acts) ← tun_init api (me_tun env) tun_name ip;
  let s := server_start (me_oom env) (me_rand env) (-1) in
  match tun with None => Some (EXIT_FAILURE, acts, [], sv_store s) | Some t =>
  '(g_log_fd, acts_log) ← (if verbose then log_init (me_log env) else Some (-1, []));
  let acts := acts ++ acts_log in
  if verbose && negb (VERBOSE g_log_fd) then Some (EXIT_FAILURE, acts ++ tun_destroy (Some t), [], sv_store s) else
  _ ← (if verbose then banner t else Some tt);
  '(out, s) ← server_run (me_rounds env) (me_last env) (MkServer (sv_buf s) (sv_store s) g_log_fd) MTU_SIZE;
  let acts := acts ++ (if VERBOSE (sv_log s) then [Release (Fd (sv_log s))] else []) in
  Some (0, acts ++ tun_destroy (Some t), out, sv_store s)
  end.

(** The whole of [main], with its usage checks. *)
Definition main (api : Netlink_Api) (env : Main_Env) (argv : list bytes)
    : option (Z * list Act * list Output * Store) :=
  let argc := Z.of_nat (length argv) in
  let st := st_start (me_oom env) (me_rand env) in
  if argc <? 3 then Some (EXIT_FAILURE, [], [], st) else
  arg1 ← argv !! 1%nat;
  arg2 ← argv !! 2%nat;
  len1 ← strlen arg1;
  long ← (if INET_ADDRSTRLEN <=? len1 then Some true else len2 ← strlen arg2; Some (IFNAMSIZ <=? len2));
  if long : bool then Some (EXIT_FAILURE, [], [], st) else
  ip ← strncpy (replicate (Z.to_nat INET_ADDRSTRLEN) 0) 0 arg1 (INET_ADDRSTRLEN - 1);
  tun_name ← strncpy (replicate (Z.to_nat IFNAMSIZ) 0) 0 arg2 (IFNAMSIZ - 1);
  verbose ← (if 3 <? argc then arg3 ← argv !! 3%nat; streq arg3 vb else Some false);
  main_device api env tun_name ip verbose.

(** ** Specification *)

(** The empty table, and the log as [log_init] leaves it. *)
Definition main_start (env : Main_Env) : Store := st_start (me_oom env) (me_rand env).
Definition main_server (env : Main_Env) (verbose : bool) : Server :=
  server_start (me_oom env) (me_rand env) (if verbose then li_open (me_log env) else -1).

(** What the arguments ask for: the address, the name and whether to log; [None] when
    they are refused. *)
Definition arg (argv : list bytes) (i : nat) : option bytes := argv !! i ≫= c_chars.
Definition usage (argv : list bytes) : option (bytes * bytes * bool) :=
  ip ← arg argv 1; name ← arg argv 2;
  if (length ip <? 16)%nat && (length name <? 16)%nat then Some (ip, name, bool_decide (arg argv 3 = Some vb))
  else None.

(** Everything [log_init] asks for is granted. *)
Definition log_granted (env : Log_Init_Env) : bool :=
  li_fopen env && (0 <=? li_mkfifo env) && (0 <=? li_open env).

Record main_env_ok (env : Main_Env) : Prop := {
  mo_tun : tun_env_ok (me_tun env);
  mo_log : li_open (me_log env) <> te_open (me_tun env);
  mo_rounds : Forall read_ok (me_rounds env);
  mo_few : Z.of_nat (length (me_rounds env)) <= TABLE_MAX;
}.

(** What [log_init] holds when it returns; nothing closes the file. *)
Definition log_held (env : Log_Init_Env) : gset Res :=
  (if li_fopen env then {[Log_File]} else ∅) ∪ (if log_granted env then {[Fd (li_open env)]} else ∅).

(** ** Lemmas *)

Lemma log_init_spec env :
  exists fd acts, log_init env = Some (fd, acts) /\ fd = (if log_granted env then li_open env else -1) /\
    forall h, log_held env ## h -> Fd (li_open env) ∉ h -> held_after h acts = Some (log_held env ∪ h).
Proof.
  unfold log_init, log_held, log_granted. destruct (li_fopen env); cbn [negb andb].
  2:{ do 2 eexists. split; [done|]. split; [done|]. intros h _ _. cbn. f_equal. set_solver +. }
  rewrite store_bytes_in by (rewrite ?length_replicate, ?length_take; lia). cbn [mbind option_bind].
  rewrite upd_start by (rewrite length_take, length_replicate; lia).
  destruct (c_chars_zero (take 63 (li_data env) ++ drop (length (take 63 (li_data env))) (replicate 64 0)))
    as [path ->].
  { rewrite drop_replicate, length_take. apply elem_of_app. right. apply elem_of_replicate. lia. }
  cbn [mbind option_bind]. destruct (li_mkfifo env <? 0) eqn:Em.
  { destruct (0 <=? li_mkfifo env) eqn:E; [lia|]. cbn [andb]. do 2 eexists. split; [done|]. split; [done|].
    intros h Hh _. acquire Hh. apply f_equal. set_solver +. }
  destruct (0 <=? li_mkfifo env) eqn:E; [clear E|lia]. cbn [andb].
  destruct (li_open env <? 0) eqn:Eo.
  { destruct (0 <=? li_open env) eqn:E; [lia|]. cbn [andb]. do 2 eexists. split; [done|]. split; [done|].
    intros h Hh _. acquire Hh. apply f_equal. set_solver +. }
  destruct (0 <=? li_open env) eqn:E; [clear E|lia]. do 2 eexists. split; [done|]. split; [done|].
  intros h Hh _. acquire Hh. acquire Hh. apply f_equal. set_solver +.
Qed.

Lemma tun_held_other tun fd : tun_fd tun <> fd -> tun_held tun ## ({[Log_File]} ∪ {[Fd fd]} : gset Res).
Proof.
  intros Hfd. unfold tun_held. destruct (tun_name tun), (tun_ip tun); set_solver + Hfd.
Qed.

Lemma held_apart tun env :
  tun_fd tun <> li_open env -> Fd (li_open env) ∉ tun_held tun /\ log_held env ## tun_held tun.
Proof.
  intros Hne. pose proof (tun_held_other tun _ Hne) as Hd. split.
  - intros Hin. apply (Hd _ Hin), elem_of_union. right. by apply elem_of_singleton.
  - symmetry. apply disjoint_union_r in Hd as [H1 H2]. unfold log_held.
    apply disjoint_union_r. split; [by destruct (li_fopen _)|by destruct (log_granted _)].
Qed.

(** Closing the log and releasing the device: the file stays open, and so does the log
    when a failed write has set [g_log_fd] to [-1]. *)
Lemma stop_held tun log env :
  tun_fd tun <> li_open env -> log_granted env = true -> (log = li_open env \/ log = -1) ->
  held_after (log_held env ∪ tun_held tun)
    ((if VERBOSE log then [Release (Fd log)] else []) ++ tun_destroy (Some tun))
  = Some ({[Log_File]} ∪ if log =? -1 then {[Fd (li_open env)]} else ∅).
Proof.
  intros Hfd Hg Hlog. pose proof (tun_held_other tun _ Hfd) as Hd. unfold log_held. rewrite Hg.
  unfold log_granted in Hg. destruct (li_fopen env); [|done]. cbn [andb] in Hg.
  apply andb_true_iff in Hg as [_ Hopen]. rewrite held_after_app.
  destruct Hlog as [-> | ->].
  - unfold VERBOSE. destruct (-1 <? li_open env) eqn:E; [clear E|lia].
    destruct (li_open env =? -1) eqn:E; [lia|clear E].
    replace ({[Log_File]} ∪ {[Fd (li_open env)]} ∪ tun_held tun)
      with ({[Fd (li_open env)]} ∪ (tun_held tun ∪ {[Log_File]}) : gset Res) by set_solver +.
    rewrite held_release by (intros [Hin|Hin%elem_of_singleton]%elem_of_union; [|done];
      apply (Hd _ Hin), elem_of_union; right; by apply elem_of_singleton). cbn [mbind option_bind].
    rewrite tun_destroy_held by (apply (disjoint_union_r _ _ _) in Hd as [? _]; done). apply f_equal. set_solver +.
  - change (VERBOSE (-1)) with false. change (-1 =? -1) with true. cbn [held_after mbind option_bind].
    rewrite (union_comm_L (_ ∪ _)), tun_destroy_held by done. done.
Qed.

(** The arguments, copied into the buffers. *)
Lemma main_usage api env argv :
  Forall (fun a => exists s, c_string a s) argv ->
  main api env argv =
  match usage argv with
  | None => Some (EXIT_FAILURE, [], [], main_start env)
  | Some (ip, name, verbose) => main_device api env (padded 16 name) (padded 16 ip) verbose
  end.
Proof.
  intros Hargs. unfold main, usage, arg.
  destruct argv as [|a0 [|a1 [|a2 rest]]]; try done; [cbn; by destruct (c_chars a1)|].
  apply Forall_cons in Hargs as [_ [[ip Hip] [[name Hname] Hrest]%Forall_cons]%Forall_cons].
  destruct (_ <? 3) eqn:E; [apply Z.ltb_lt in E; rewrite !length_cons in E; lia|clear E]. cbn [lookup list_lookup mbind option_bind].
  rewrite (strlen_string _ _ Hip), (strlen_string _ _ Hname), (c_chars_string _ _ Hip), (c_chars_string _ _ Hname).
  cbn [mbind option_bind]. unfold INET_ADDRSTRLEN, IFNAMSIZ.
  destruct (length ip <? 16)%nat eqn:Ei; [apply Nat.ltb_lt in Ei|apply Nat.ltb_ge in Ei]; cbn [andb];
    destruct (16 <=? Z.of_nat (length ip)) eqn:E; try lia; clear E; cbn [mbind option_bind]; [|done].
  destruct (length name <? 16)%nat eqn:En; [apply Nat.ltb_lt in En|apply Nat.ltb_ge in En];
    destruct (16 <=? Z.of_nat (length name)) eqn:E; try lia; clear E; [|done].
  pose proof (strncpy_zeroed 16 15 a1 ip Hip ltac:(lia) ltac:(lia)) as Hc1.
  pose proof (strncpy_zeroed 16 15 a2 name Hname ltac:(lia) ltac:(lia)) as Hc2.
  change (Z.to_nat 16) with 16%nat. change (16 - 1) with (Z.of_nat 15).
  rewrite Hc1. cbn [mbind option_bind]. rewrite Hc2. cbn [mbind option_bind].
  destruct rest as [|a3 rest]; [done|]. apply Forall_cons in Hrest as [[v Hv] _].
  destruct (3 <? _) eqn:E; [clear E|apply Z.ltb_ge in E; rewrite !length_cons in E; lia]. cbn [lookup list_lookup mbind option_bind].
  unfold streq. rewrite (c_chars_string _ _ Hv). cbn [mbind option_bind]. do 2 f_equal. apply bool_decide_ext.
  split; congruence.
Qed.

(** What is left held by each way [main] ends. *)
Definition main_leak (env : Main_Env) (verbose : bool) (log : Z) : gset Res :=
  if verbose then {[Log_File]} ∪ if log =? -1 then {[Fd (li_open (me_log env))]} else ∅ else ∅.

Lemma usage_strings argv ip name verbose :
  usage argv = Some (ip, name, verbose) ->
  Forall (fun c => c <> 0) ip /\ (length ip < 16)%nat /\ Forall (fun c => c <> 0) name /\ (length name < 16)%nat.
Proof.
  unfold usage, arg. intros (i & (a & _ & Hi%c_string_chars)%bind_Some & H)%bind_Some.
  apply bind_Some in H as (n & (b & _ & Hn%c_string_chars)%bind_Some & H).
  destruct (_ && _) eqn:E; [|done]. injection H as -> -> _. apply andb_true_iff in E as [H1 H2].
  apply Nat.ltb_lt in H1, H2. destruct Hi, Hn. done.
Qed.

Lemma banner_device env n ip :
  banner (device_of env n ip) = if te_dup_name env && te_dup_ip env then Some tt else None.
Proof. unfold banner, device_of. by destruct (te_dup_name env), (te_dup_ip env). Qed.

Lemma main_device_spec api env name ip verbose :
  Forall (fun c => c <> 0) name -> (length name < 16)%nat -> Forall (fun c => c <> 0) ip -> (length ip < 16)%nat ->
  main_env_ok env ->
  let tun := me_tun env in let log := me_log env in
  if negb (tun_granted api tun (padded 16 ip)) then
    exists acts, main_device api env (padded 16 name) (padded 16 ip) verbose = Some (EXIT_FAILURE, acts, [], main_start env) /\
      held_after ∅ acts = Some ∅
  else if verbose && negb (log_granted log) then
    exists acts, main_device api env (padded 16 name) (padded 16 ip) verbose = Some (EXIT_FAILURE, acts, [], main_start env) /\
      held_after ∅ acts = Some (if li_fopen log then {[Log_File]} else ∅)
  else if verbose && negb (te_dup_name tun && te_dup_ip tun) then
    main_device api env (padded 16 name) (padded 16 ip) verbose = None
  else
    match server_run (me_rounds env) (me_last env) (main_server env verbose) MTU_SIZE with
    | None => main_device api env (padded 16 name) (padded 16 ip) verbose = None
    | Some (out, s) =>
        exists acts, main_device api env (padded 16 name) (padded 16 ip) verbose = Some (0, acts, out, sv_store s) /\
          held_after ∅ acts = Some (main_leak env verbose (sv_log s)) /\ closed (sv_store s)
    end.
Proof.
  intros Hn Hnl Hi Hil [Htun Hlog Hrs Hfew]. cbv zeta. unfold main_device.
  destruct (tun_init_spec api (me_tun env) (padded 16 name) (padded 16 ip) name ip Htun
    (padded_string _ _ Hn Hnl) (length_padded 16 name ltac:(lia)) (padded_string _ _ Hi Hil))
    as (r & acts & -> & Hr). cbn [mbind option_bind]. destruct r as [t|].
  2:{ destruct Hr as [-> Hh]. cbn [negb]. by exists acts. }
  destruct Hr as (-> & Hh & _ & n & _ & _ & _ & _ & Ht & _). cbn [negb].
  assert (tun_fd t = te_open (me_tun env)) as Hfd by (by subst t).
  assert (tun_fd t <> li_open (me_log env)) as Hne by (rewrite Hfd; congruence).
  destruct (held_apart t _ Hne) as [Hfresh Hdl].
  destruct verbose; cbn [andb].
  2:{ cbn [mbind option_bind].
      pose proof (server_run_cases (me_rounds env) (me_last env) (me_oom env) (me_rand env) (-1) Hrs Hfew) as Hs.
      change (MkServer _ _ (-1)) with (server_start (me_oom env) (me_rand env) (-1)). unfold main_server.
      destruct (server_run _ _ _ _) as [[out s]|]; [|done]. destruct Hs as (_ & _ & Hok & Hs & _). cbn [mbind option_bind].
      assert (sv_log s = -1) as -> by (by destruct Hs). change (VERBOSE (-1)) with false.
      eexists. split; [done|]. split; [|apply Hok]. cbn [main_leak]. rewrite !app_nil_r, held_after_app, Hh.
      cbn [mbind option_bind]. rewrite <- (union_empty_r_L (tun_held t)). apply tun_destroy_held.
      apply disjoint_empty_r. }
  destruct (log_init_spec (me_log env)) as (fd & la & -> & Hlfd & Hlh). cbn [mbind option_bind].
  assert (VERBOSE fd = log_granted (me_log env)) as Hv.
  { subst fd. destruct (log_granted (me_log env)) eqn:Hg; [|done]. unfold log_granted in Hg. unfold VERBOSE. lia. }
  rewrite Hv. destruct (log_granted (me_log env)) eqn:Hg; cbn [negb].
  2:{ eexists. split; [done|]. rewrite !held_after_app, Hh. cbn [mbind option_bind].
      rewrite Hlh by done. cbn [mbind option_bind]. rewrite (union_comm_L (log_held _)).
      rewrite tun_destroy_held by done. unfold log_held. rewrite Hg. by rewrite union_empty_r_L. }
  rewrite (eq_trans (f_equal banner Ht) (banner_device _ _ _)).
  destruct (te_dup_name (me_tun env) && te_dup_ip (me_tun env)); cbn [negb mbind option_bind]; [|done].
  pose proof (server_run_cases (me_rounds env) (me_last env) (me_oom env) (me_rand env) fd Hrs Hfew) as Hs. subst fd.
  change (MkServer _ _ (li_open (me_log env))) with (server_start (me_oom env) (me_rand env) (li_open (me_log env))).
  unfold main_server. destruct (server_run _ _ _ _) as [[out s]|]; [|done].
  destruct Hs as (_ & _ & Hok & Hs & _). cbn [mbind option_bind].
  eexists. split; [done|]. split; [|apply Hok].
  rewrite <- app_assoc, !held_after_app, Hh. cbn [mbind option_bind]. rewrite Hlh by done.
  cbn [mbind option_bind]. by apply stop_held.
Qed.

(** ** Properties *)

(** C9 Every run of the program is accounted for: it refuses missing or over-long arguments
    before touching anything; it fails, holding nothing, when the device is not granted; it
    fails, holding only the file [log_init] never closes, when the log is not granted; it is
    undefined when it would print a name or address [strdup] could not copy, and when the
    server loop is, and otherwise it exits with 0.  What it then still holds is: of files
    and of the device, nothing without the log, and with it that file, plus the log's
    descriptor when a failed write had set [g_log_fd] to [-1]; and all the memory of the
    connection table, which it never destroys: a block for each connection and, if there
    has been one, the array of each of the 256 buckets.  Every other end leaves no memory
    of the table. *)
Theorem main_correct api env argv :
  Forall (fun a => exists s, c_string a s) argv -> main_env_ok env ->
  let tun := me_tun env in let log := me_log env in
  h_cells (st_heap (main_start env)) = ∅ /\ h_arrays (st_heap (main_start env)) = ∅ /\
  match usage argv with
  | None => main api env argv = Some (EXIT_FAILURE, [], [], main_start env)
  | Some (ip, _, verbose) =>
      if negb (tun_granted api tun (padded 16 ip)) then
        exists acts, main api env argv = Some (EXIT_FAILURE, acts, [], main_start env) /\ held_after ∅ acts = Some ∅
      else if verbose && negb (log_granted log) then
        exists acts, main api env argv = Some (EXIT_FAILURE, acts, [], main_start env) /\
          held_after ∅ acts = Some (if li_fopen log then {[Log_File]} else ∅)
      else if verbose && negb (te_dup_name tun && te_dup_ip tun) then main api env argv = None
      else
        match server_run (me_rounds env) (me_last env) (main_server env verbose) MTU_SIZE with
        | None => main api env argv = None
        | Some (out, s) =>
            exists acts, main api env argv = Some (0, acts, out, sv_store s) /\
              held_after ∅ acts = Some (main_leak env verbose (sv_log s)) /\
              size (h_cells (st_heap (sv_store s))) = size (conns (sv_store s)) /\
              (st_init (sv_store s) = true ->
                 owned (sv_store s) ⊆ h_arrays (st_heap (sv_store s)) /\ size (owned (sv_store s)) = 256%nat)
        end
  end.
Proof.
  intros Hargs Henv. cbv zeta. split; [done|]. split; [done|]. rewrite (main_usage api env argv Hargs).
  destruct (usage argv) as [[[ip name] verbose]|] eqn:Hu; [|done].
  destruct (usage_strings _ _ _ _ Hu) as (Hi & Hil & Hn & Hnl).
  pose proof (main_device_spec api env name ip verbose Hn Hnl Hi Hil Henv) as H. cbv zeta in H.
  destruct (negb _); [done|]. destruct (verbose && _); [done|]. destruct (verbose && _); [done|].
  destruct (server_run _ _ _ _) as [[out s]|]; [|done].
  destruct H as (acts & Hrun & Hh & Hc). exists acts. pose proof (closed_memory _ Hc). done.
Qed.

Definition sample_env_main (log : Log_Init_Env) : Main_Env :=
  MkMainEnv sample_tun log plenty zeros sample_rounds sample_log.
Definition sample_argv : list bytes := [sample_name; sample_address; sample_name; vb ++ [0]].

Lemma main_correct_witness :
  exists acts out st, main sample_api (sample_env_main (MkLogInit true [47; 116] 0 5)) sample_argv
      = Some (0, acts, out, st) /\
    held_after ∅ acts = Some {[Log_File]} /\ length (written out) = 2%nat /\
    size (h_cells (st_heap st)) = 1%nat /\ size (owned st) = 256%nat.
Proof.
  destruct (main_correct sample_api (sample_env_main (MkLogInit true [47; 116] 0 5)) sample_argv) as (_ & _ & H).
  - repeat constructor; eexists; by apply c_string_chars.
  - split; [apply sample_tun_ok|by_eval| |apply sample_rounds_few].
    eapply Forall_impl; [exact sample_rounds_ok|]. intros r. exact (fun H => proj1 H).
  - assert (match server_run sample_rounds sample_log (server_start plenty zeros 5) MTU_SIZE with
      | Some (o, s') => length (written o) = 2%nat /\ sv_log s' = 5 /\ size (conns (sv_store s')) = 1%nat /\
          st_init (sv_store s') = true
      | None => False end) as Hrun by (vm_compute; split_and!; reflexivity).
    assert (usage sample_argv = Some ([49; 48; 46; 56; 46; 48; 46; 49], [116; 117; 110; 48], true)) as Hu
      by (vm_compute; reflexivity).
    set (env := sample_env_main (MkLogInit true [47; 116] 0 5)) in *.
    assert (negb (tun_granted sample_api (me_tun env) (padded 16 [49; 48; 46; 56; 46; 48; 46; 49])) = false) as E1 by reflexivity.
    assert (true && negb (log_granted (me_log env)) = false) as E2 by reflexivity.
    assert (true && negb (te_dup_name (me_tun env) && te_dup_ip (me_tun env)) = false) as E3 by reflexivity.
    assert (main_server env true = server_start plenty zeros 5) as E4 by reflexivity.
    assert (me_rounds env = sample_rounds) as E5 by reflexivity.
    assert (me_last env = sample_log) as E6 by reflexivity.
    rewrite Hu, E1, E2, E3, E4, E5, E6 in H.
    destruct (server_run sample_rounds sample_log (server_start plenty zeros 5) MTU_SIZE) as [[out s]|]; [|destruct Hrun].
    destruct Hrun as (Hw & Hl & Hs & Hi), H as (acts & H & Hh & Hm & Ha).
    exists acts, out, (sv_store s). split; [exact H|]. split; [rewrite Hh, Hl; reflexivity|].
    split; [exact Hw|]. split; [rewrite Hm; exact Hs|exact (proj2 (Ha Hi))].
Defined.
