(* ===== verification/OldList.v ===== *)
(** * The connection list of the first version

    The data of [network/tcp/tcp.h] and the connection list of [network/tcp/tcp.c]:
    blocks linked through their [next] pointers.  It satisfies the contract of
    [Table.v]. *)
From S2P Require Import Prelude Memory Heap Table.

(** ** Data *)

Inductive TCP_State :=
  | TCP_SYN_RECEIVED | TCP_ESTABLISHED | TCP_CLOSE_WAIT | TCP_CLOSING | TCP_LAST_ACK
  | TCP_TIME_WAIT.

Record TCP_Connection_ID := MkCID {
  cid_src_ip : Z; cid_src_port : Z; cid_dst_ip : Z; cid_dst_port : Z }.

Record TCP_Send_State := MkSendS { ss_unac : Z; ss_next : Z; ss_window : Z; ss_iss : Z }.

Record TCP_Recieve_State := MkRecvS { rs_next : Z; rs_window : Z; rs_irs : Z }.

(** The members of the struct [TCB] but for the link. *)
Record Block := MkBlock {
  b_id : TCP_Connection_ID;
  b_state : TCP_State;
  b_send : TCP_Send_State;
  b_recv : TCP_Recieve_State;
  b_recv_buffer : bytes;
  b_recv_size : Z;
  b_recv_consumed : Z;
}.

Record Node := MkNode { n_tcb : Block; n_next : ptr }.

(** [TCP_Server_Instance] and the heap its list lives in. *)
Record Instance_ := MkInstance { s_heap : heap Node; s_head : ptr; s_size : Z }.

#[export] Instance TCP_State_eq_dec : EqDecision TCP_State.
Proof. solve_decision. Defined.

#[export] Instance CID_eq_dec : EqDecision TCP_Connection_ID.
Proof. solve_decision. Defined.

#[export] Instance CID_countable : Countable TCP_Connection_ID.
Proof.
  refine (inj_countable' (fun i => (cid_src_ip i, cid_src_port i, cid_dst_ip i, cid_dst_port i))
            (fun '(a, b, c, d) => MkCID a b c d) _).
  now intros [].
Defined.

(** ** Operations *)

Definition tcp_init_server_instance (h : heap Node) : Instance_ := MkInstance h None 0.

Definition tcp_compare_id (a b : TCP_Connection_ID) : bool :=
  if negb (cid_src_ip a =? cid_src_ip b) then false else
  if negb (cid_src_port a =? cid_src_port b) then false else
  if negb (cid_dst_ip a =? cid_dst_ip b) then false else
  if negb (cid_dst_port a =? cid_dst_port b) then false else true.

(** The contents [tcp_init_tcb] gives a block. *)
Definition fresh_block (id : TCP_Connection_ID) : Block :=
  MkBlock (MkCID (cid_src_ip id) (cid_src_port id) (cid_dst_ip id) (cid_dst_port id))
    TCP_SYN_RECEIVED (MkSendS 0 0 0 0) (MkRecvS 0 8192 0)
    (replicate (Z.to_nat 16384) 0) 0 0.

Definition tcp_init_tcb (h : heap Node) (id : TCP_Connection_ID) : ptr * heap Node :=
  alloc h (MkNode (fresh_block id) None).

(** The first loop of [tcp_insert_tcb]: [None] inside when the id is already there, else
    the last node visited. *)
Fixpoint insert_search (fuel : nat) (h : heap Node) (tcb search tail : ptr) : option (option ptr) :=
  match search with
  | None => Some (Some tail)
  | Some p =>
      match fuel with
      | O => None
      | S fuel =>
          n ← deref h p;
          t ← tcb; nt ← deref h t;
          if tcp_compare_id (b_id (n_tcb n)) (b_id (n_tcb nt)) then Some None
          else insert_search fuel h tcb (n_next n) (Some p)
      end
  end.

(** Enough turns to visit every block once. *)
Definition turns (h : heap Node) : nat := S (size (h_cells h)).

Definition set_next (h : heap Node) (p : loc) (q : ptr) : option (heap Node) :=
  n ← deref h p; assign h p (MkNode (n_tcb n) q).

Definition tcp_insert_tcb (s : Instance_) (tcb : ptr) : option Instance_ :=
  r ← insert_search (turns (s_heap s)) (s_heap s) tcb (s_head s) None;
  match r with
  | None => Some s
  | Some tail =>
      match s_head s with
      | None => n ← int_add (s_size s) 1; Some (MkInstance (s_heap s) tcb n)
      | Some _ =>
          t ← tail;
          h ← set_next (s_heap s) t tcb;
          n ← int_add (s_size s) 1;
          Some (MkInstance h (s_head s) n)
      end
  end.

Fixpoint get_search (fuel : nat) (h : heap Node) (id : TCP_Connection_ID) (search : ptr) : option ptr :=
  match search with
  | None => Some None
  | Some p =>
      match fuel with
      | O => None
      | S fuel =>
          n ← deref h p;
          if tcp_compare_id (b_id (n_tcb n)) id then Some (Some p)
          else get_search fuel h id (n_next n)
      end
  end.

Definition tcp_get_state (s : Instance_) (id : TCP_Connection_ID) : option ptr :=
  get_search (turns (s_heap s)) (s_heap s) id (s_head s).

(** [while (prev && prev->next != tcb) prev = prev->next;] *)
Fixpoint prev_search (fuel : nat) (h : heap Node) (tcb : loc) (prev : ptr) : option ptr :=
  match prev with
  | None => Some None
  | Some p =>
      match fuel with
      | O => None
      | S fuel =>
          n ← deref h p;
          if decide (n_next n = Some tcb) then Some (Some p) else prev_search fuel h tcb (n_next n)
      end
  end.

Definition tcp_remove_connection (s : Instance_) (tcb : loc) : option Instance_ :=
  '(h, head) ←
    (if decide (s_head s = Some tcb) then
       n ← deref (s_heap s) tcb;
       Some (s_heap s, n_next n)
     else
       prev ← prev_search (turns (s_heap s)) (s_heap s) tcb (s_head s);
       match prev with
       | Some p => n ← deref (s_heap s) tcb; h ← set_next (s_heap s) p (n_next n); Some (h, s_head s)
       | None => Some (s_heap s, s_head s)
       end);
  h ← free h tcb;
  n ← int_add (s_size s) (-1);
  Some (MkInstance h head n).

(** ** Representation *)

Implicit Types (c : gmap loc Node).

(** From [p], the links lead through [ps] to [r]. *)
Fixpoint lseg c (p : ptr) (ps : list loc) (r : ptr) : Prop :=
  match ps with
  | [] => p = r
  | q :: ps => p = Some q /\ exists n, c !! q = Some n /\ lseg c (n_next n) ps r
  end.

Definition id_in c (p : loc) : option TCP_Connection_ID := b_id ∘ n_tcb <$> c !! p.

(** The list holds the blocks [ps], ids are distinct, [size] counts them, and a block
    not in the list links to nothing. *)
Record list_ok (s : Instance_) (ps : list loc) : Prop := {
  lo_wf : heap_wf (s_heap s);
  lo_seg : lseg (h_cells (s_heap s)) (s_head s) ps None;
  lo_ids : NoDup (id_in (h_cells (s_heap s)) <$> ps);
  lo_size : s_size s = Z.of_nat (length ps);
  lo_max : Z.of_nat (length ps) <= TABLE_MAX;
  lo_out : forall q n, h_cells (s_heap s) !! q = Some n -> q ∉ ps -> n_next n = None;
}.

Definition list_inv (s : Instance_) (idx : gset loc) : Prop :=
  exists ps, list_ok s ps /\ idx = list_to_set ps.

(** ** Lemmas *)

Lemma tcp_compare_id_decide a b : tcp_compare_id a b = bool_decide (a = b).
Proof.
  unfold tcp_compare_id. destruct a as [a1 a2 a3 a4], b as [b1 b2 b3 b4]. cbn.
  destruct (a1 =? b1) eqn:E1, (a2 =? b2) eqn:E2, (a3 =? b3) eqn:E3, (a4 =? b4) eqn:E4; cbn;
    case_bool_decide as H; try done; try (injection H as ?; lia).
  destruct H. f_equal; lia.
Qed.

Lemma fresh_block_id id : b_id (fresh_block id) = id.
Proof. now destruct id. Qed.

Lemma lseg_app c p ps qs r : lseg c p (ps ++ qs) r <-> exists m, lseg c p ps m /\ lseg c m qs r.
Proof.
  revert p. induction ps as [|q ps IH]; intros p; cbn.
  - split; [eauto|by intros (m & -> & ?)].
  - split.
    + intros [-> (n & Hn & (m & H1 & H2)%IH)]. exists m. eauto.
    + intros (m & [-> (n & Hn & H1)] & H2). split; [done|]. exists n. split; [done|]. apply IH. eauto.
Qed.

Lemma lseg_frame c c' p ps r :
  (forall q, q ∈ ps -> c' !! q = c !! q) -> lseg c p ps r -> lseg c' p ps r.
Proof.
  revert p. induction ps as [|q ps IH]; intros p Hs; cbn; [done|].
  intros [-> (n & Hn & H)]. split; [done|]. exists n.
  split; [rewrite Hs by constructor; done|]. apply IH; [|done]. intros q' Hq. apply Hs. by constructor.
Qed.

Lemma lseg_live c p ps r q : lseg c p ps r -> q ∈ ps -> is_Some (c !! q).
Proof.
  revert p. induction ps as [|q' ps IH]; intros p; [by intros _ ?%elem_of_nil|].
  intros [-> (n & Hn & H)] [-> |Hq]%elem_of_cons; [eauto|]. by eapply IH.
Qed.

Lemma list_ok_nodup s ps : list_ok s ps -> NoDup ps.
Proof. intros H. eapply NoDup_fmap_1, lo_ids, H. Qed.

Lemma list_ok_turns s ps : list_ok s ps -> (length ps < turns (s_heap s))%nat.
Proof.
  intros H. unfold turns. pose proof (list_ok_nodup _ _ H) as Hnd.
  rewrite <- (size_list_to_set (C := gset loc) ps) by done. rewrite <- size_dom.
  assert (list_to_set (C := gset loc) ps ⊆ dom (h_cells (s_heap s))) as Hsub.
  { intros q Hq%elem_of_list_to_set. apply elem_of_dom. eapply lseg_live; [apply (lo_seg _ _ H)|done]. }
  apply subseteq_size in Hsub. lia.
Qed.

(** The three searches along a segment. *)
Lemma insert_search_lseg fuel h t nt ps p tail :
  lseg (h_cells h) p ps None -> (length ps <= fuel)%nat -> h_cells h !! t = Some nt ->
  (forall q, q ∈ ps -> id_in (h_cells h) q <> Some (b_id (n_tcb nt))) ->
  insert_search fuel h (Some t) p tail = Some (Some (if last ps is Some q then Some q else tail)).
Proof.
  revert p tail fuel. induction ps as [|q ps IH]; intros p tail fuel; cbn [lseg].
  - intros -> _ _ _. by destruct fuel.
  - intros [-> (n & Hn & Hl)] Hf Ht Hfresh. destruct fuel as [|fuel]; cbn [length] in Hf; [lia|].
    cbn [insert_search]. unfold deref. rewrite Hn. cbn [mbind option_bind]. rewrite Ht.
    cbn [mbind option_bind]. rewrite tcp_compare_id_decide, bool_decide_false.
    2:{ intros He. apply (Hfresh q); [constructor|]. unfold id_in. rewrite Hn. cbn. congruence. }
    rewrite (IH _ (Some q) fuel Hl); [|lia|done|intros q' Hq; apply Hfresh; by constructor].
    rewrite last_cons. by destruct (last ps).
Qed.

Lemma get_search_lseg fuel h id ps p :
  lseg (h_cells h) p ps None -> (length ps <= fuel)%nat ->
  exists r, get_search fuel h id p = Some r /\
    match r with
    | Some q => q ∈ ps /\ id_in (h_cells h) q = Some id
    | None => forall q, q ∈ ps -> id_in (h_cells h) q <> Some id
    end.
Proof.
  revert p fuel. induction ps as [|q ps IH]; intros p fuel; cbn [lseg].
  - intros -> _. exists None. split; [by destruct fuel|]. by intros q ?%elem_of_nil.
  - intros [-> (n & Hn & Hl)] Hf. destruct fuel as [|fuel]; cbn [length] in Hf; [lia|].
    cbn [get_search]. unfold deref. rewrite Hn. cbn [mbind option_bind].
    assert (id_in (h_cells h) q = Some (b_id (n_tcb n))) as Hid by (unfold id_in; by rewrite Hn).
    rewrite tcp_compare_id_decide. case_bool_decide as He.
    + exists (Some q). split; [done|]. split; [constructor|congruence].
    + destruct (IH _ fuel Hl ltac:(lia)) as (r & -> & Hr). exists r. split; [done|].
      destruct r as [q'|]; [destruct Hr; split; [by constructor|done]|].
      intros q' [-> |Hq]%elem_of_cons; [congruence|auto].
Qed.

(** The predecessor of [t] in the list [l ++ q :: t :: k]. *)
Lemma prev_search_lseg fuel h t q l k p :
  lseg (h_cells h) p (l ++ q :: t :: k) None -> (length l < fuel)%nat -> t ∉ l -> t <> q ->
  prev_search fuel h t p = Some (Some q).
Proof.
  revert p fuel. induction l as [|q' l IH]; intros p fuel; cbn [lseg app].
  - intros [-> (n & Hn & [Hnx _])] Hf _ _. destruct fuel as [|fuel]; [cbn in Hf; lia|].
    cbn [prev_search]. unfold deref. rewrite Hn. cbn [mbind option_bind].
    by rewrite decide_True.
  - intros [-> (n & Hn & Hl)] Hf [Hne Hnin]%not_elem_of_cons Hq.
    destruct fuel as [|fuel]; cbn [length] in Hf; [lia|].
    cbn [prev_search]. unfold deref. rewrite Hn. cbn [mbind option_bind].
    rewrite decide_False; [apply IH; [done|lia|done|done]|].
    intros He. rewrite He in Hl. destruct l as [|q2 l]; cbn in Hl; destruct Hl as [[= ->] _]; [done|].
    apply Hnin. constructor.
Qed.

(** ** The laws *)

Definition inst_alloc (s : Instance_) (b : Block) : ptr * Instance_ :=
  let '(p, h) := alloc (s_heap s) (MkNode b None) in (p, MkInstance h (s_head s) (s_size s)).
Definition inst_free (s : Instance_) (p : loc) : option Instance_ :=
  h ← free (s_heap s) p; Some (MkInstance h (s_head s) (s_size s)).
Definition inst_assign (s : Instance_) (p : loc) (b : Block) : option Instance_ :=
  n ← deref (s_heap s) p; h ← assign (s_heap s) p (MkNode b (n_next n));
  Some (MkInstance h (s_head s) (s_size s)).
Definition inst_vals (s : Instance_) : gmap loc Block := n_tcb <$> h_cells (s_heap s).
Definition inst_insert (s : Instance_) (p : loc) : option (bool * Instance_) :=
  s ← tcp_insert_tcb s (Some p); Some (true, s).

Lemma inst_vals_lookup s p : inst_vals s !! p = n_tcb <$> h_cells (s_heap s) !! p.
Proof. unfold inst_vals. by rewrite lookup_fmap. Qed.

Lemma id_in_vals s p : id_in (h_cells (s_heap s)) p = b_id <$> inst_vals s !! p.
Proof. unfold id_in. rewrite inst_vals_lookup. by destruct (_ !! p). Qed.

(** The representation depends on ids and links of the listed blocks only. *)
Lemma list_ok_heap s ps h :
  list_ok s ps -> heap_wf h ->
  (forall q, q ∈ ps -> exists n n', h_cells (s_heap s) !! q = Some n /\ h_cells h !! q = Some n' /\
     n_next n' = n_next n /\ b_id (n_tcb n') = b_id (n_tcb n)) ->
  (forall q n, h_cells h !! q = Some n -> q ∉ ps -> n_next n = None) ->
  list_ok (MkInstance h (s_head s) (s_size s)) ps.
Proof.
  intros [_ Hl Hi Hsz Hmax _] Hwf Hs Hout. split; cbn; try done.
  - revert Hl. generalize (s_head s). clear Hi Hsz Hmax Hout.
    induction ps as [|q ps IH]; intros p; cbn; [done|].
    intros [-> (n & Hn & Hl)]. split; [done|].
    destruct (Hs q ltac:(constructor)) as (n0 & n' & Hn0 & Hn' & Hnx & _).
    assert (n0 = n) as -> by congruence. exists n'. split; [done|]. rewrite Hnx.
    apply IH; [intros q' Hq; apply Hs; by constructor|done].
  - erewrite list_fmap_ext; [exact Hi|]. intros i q Hq. apply list_elem_of_lookup_2 in Hq.
    destruct (Hs q Hq) as (n & n' & Hn & Hn' & _ & Hid). unfold id_in. rewrite Hn, Hn'. cbn. congruence.
Qed.

Lemma inst_alloc_law s idx x o s' :
  list_inv s idx -> inst_alloc s x = (o, s') ->
  list_inv s' idx /\ h_oom (s_heap s') = h_oom (s_heap s) /\
  match o with
  | None => inst_vals s' = inst_vals s /\ exists n, h_oom (s_heap s) n = true
  | Some p => inst_vals s !! p = None /\ inst_vals s' = <[p := x]> (inst_vals s)
  end.
Proof.
  intros (ps & Hok & ->). unfold inst_alloc. destruct (alloc _ _) as [q h] eqn:Ha. intros [= <- <-].
  pose proof (lo_wf _ _ Hok) as Hwf. pose proof (alloc_wf _ _ _ _ Ha Hwf) as Hwf'.
  pose proof (alloc_oom _ _ _ _ Ha) as Hoom. unfold inst_vals. cbn [s_heap].
  assert (forall q, q ∈ ps -> exists n, h_cells (s_heap s) !! q = Some n) as Hlive.
  { intros q' Hq'. destruct (lseg_live _ _ _ _ _ (lo_seg _ _ Hok) Hq'). eauto. }
  destruct (alloc_cases _ _ _ _ Hwf Ha) as [(-> & Hc & Hn)|(p & -> & Hp & Hc)]; rewrite Hc.
  - split; [|done]. exists ps. split; [|done]. apply list_ok_heap; try done; rewrite Hc.
    + intros q' Hq'. destruct (Hlive q' Hq') as [n Hn']. eauto 6.
    + apply (lo_out _ _ Hok).
  - split; [|split; [done|]].
    + exists ps. split; [|done]. apply list_ok_heap; try done; rewrite Hc.
      * intros q' Hq'. destruct (Hlive q' Hq') as [n Hn']. exists n, n.
        rewrite lookup_insert_ne by (intros ->; congruence). done.
      * intros q' n [[<- <-]|[_ Hq']]%lookup_insert_Some; [done|]. by eapply lo_out.
    + rewrite lookup_fmap, Hp, fmap_insert. done.
Qed.

Lemma inst_free_law s idx p :
  list_inv s idx -> is_Some (inst_vals s !! p) -> p ∉ idx ->
  exists s', inst_free s p = Some s' /\ list_inv s' idx /\ h_oom (s_heap s') = h_oom (s_heap s) /\
    inst_vals s' = delete p (inst_vals s).
Proof.
  intros (ps & Hok & ->) Hp Hnin. rewrite elem_of_list_to_set in Hnin. unfold inst_free.
  rewrite inst_vals_lookup, fmap_is_Some in Hp. destruct Hp as [np Hp].
  destruct (free (s_heap s) p) as [h|] eqn:Hf; [|unfold free in Hf; by rewrite Hp in Hf].
  pose proof (free_wf _ _ _ Hf (lo_wf _ _ Hok)) as Hwf. apply free_spec in Hf as [Hc Ho].
  cbn [mbind option_bind]. eexists. split; [done|]. unfold inst_vals. cbn [s_heap]. rewrite Hc, fmap_delete.
  split; [|done]. exists ps. split; [|done]. apply list_ok_heap; try done; rewrite Hc.
  - intros q Hq. destruct (lseg_live _ _ _ _ _ (lo_seg _ _ Hok) Hq) as [n Hn]. exists n, n.
    rewrite lookup_delete_ne by (intros ->; done). done.
  - intros q n [_ Hq]%lookup_delete_Some. by apply (lo_out _ _ Hok).
Qed.

Lemma inst_assign_law s idx p x y :
  list_inv s idx -> inst_vals s !! p = Some x -> b_id y = b_id x ->
  exists s', inst_assign s p y = Some s' /\ list_inv s' idx /\ h_oom (s_heap s') = h_oom (s_heap s) /\
    inst_vals s' = <[p := y]> (inst_vals s).
Proof.
  intros (ps & Hok & ->) Hp Hid. rewrite inst_vals_lookup in Hp. apply fmap_Some in Hp as (np & Hp & ->).
  unfold inst_assign, deref. rewrite Hp. cbn [mbind option_bind].
  destruct (assign _ _ _) as [h|] eqn:Ha; [|unfold assign in Ha; by rewrite Hp in Ha].
  pose proof (assign_wf _ _ _ _ Ha (lo_wf _ _ Hok)) as Hwf.
  unfold assign in Ha. rewrite Hp in Ha. injection Ha as <-. cbn [mbind option_bind].
  eexists. split; [done|]. unfold inst_vals. cbn [s_heap h_cells]. rewrite fmap_insert.
  split; [|done]. exists ps. split; [|done]. apply list_ok_heap; try done; cbn [h_cells].
  - intros q Hq. destruct (lseg_live _ _ _ _ _ (lo_seg _ _ Hok) Hq) as [n Hn].
    destruct (decide (p = q)) as [->|].
    + exists n, (MkNode y (n_next np)). rewrite lookup_insert_eq. split; [done|]. split; [done|].
      cbn. split; congruence.
    + exists n, n. rewrite lookup_insert_ne by done. done.
  - intros q n [[<- <-]|[_ Hq]]%lookup_insert_Some Hnin; [cbn|]; by eapply lo_out.
Qed.

(** Redirecting the last link of a segment. *)
Lemma lseg_redirect c p l q nq r r' :
  lseg c p (l ++ [q]) r -> NoDup (l ++ [q]) -> c !! q = Some nq ->
  lseg (<[q := MkNode (n_tcb nq) r']> c) p (l ++ [q]) r'.
Proof.
  intros (m & H1 & H2)%lseg_app (_ & Hd & _)%NoDup_app Hq. cbn in H2. destruct H2 as [-> _].
  apply lseg_app. exists (Some q). split.
  - eapply lseg_frame; [|exact H1]. intros q' Hq'. rewrite lookup_insert_ne; [done|].
    intros ->. apply (Hd q' Hq'). by constructor.
  - cbn. split; [done|]. eexists. rewrite lookup_insert_eq. done.
Qed.

Lemma set_next_spec h p n r :
  h_cells h !! p = Some n ->
  set_next h p r = Some (Heap (<[p := MkNode (n_tcb n) r]> (h_cells h)) (h_reqs h) (h_oom h) (h_arrays h)).
Proof. intros Hp. unfold set_next, deref, assign. rewrite Hp. done. Qed.

Lemma heap_wf_insert (h : heap Node) p n n' :
  heap_wf h -> h_cells h !! p = Some n -> heap_wf (Heap (<[p := n']> (h_cells h)) (h_reqs h) (h_oom h) (h_arrays h)).
Proof.
  intros Hwf Hp. apply (assign_wf h p n'); [|done]. unfold assign. by rewrite Hp.
Qed.

(** Writing a link changes no id and no block. *)
Lemma id_in_redirect c q n r p :
  c !! q = Some n -> id_in (<[q := MkNode (n_tcb n) r]> c) p = id_in c p.
Proof.
  intros Hq. unfold id_in. destruct (decide (q = p)) as [->|].
  - rewrite lookup_insert_eq, Hq. done.
  - by rewrite lookup_insert_ne.
Qed.

Lemma vals_redirect c q n r :
  c !! q = Some n -> n_tcb <$> <[q := MkNode (n_tcb n) r]> c = n_tcb <$> c.
Proof.
  intros Hq. rewrite fmap_insert. cbn. apply insert_id. rewrite lookup_fmap, Hq. done.
Qed.

Lemma nodup_snoc_ids c ps p id :
  NoDup (id_in c <$> ps) -> id_in c p = Some id -> (forall q, q ∈ ps -> id_in c q <> Some id) ->
  NoDup (id_in c <$> (ps ++ [p])).
Proof.
  intros Hnd Hp Hf. rewrite fmap_app. apply NoDup_app. split; [done|]. split; [|apply NoDup_singleton].
  intros x (q & -> & Hq)%list_elem_of_fmap Hx%list_elem_of_singleton. apply (Hf q Hq). congruence.
Qed.

Lemma inst_insert_law s idx p x :
  list_inv s idx -> inst_vals s !! p = Some x -> p ∉ idx ->
  (forall q, q ∈ idx -> b_id <$> inst_vals s !! q <> Some (b_id x)) ->
  Z.of_nat (size idx) < TABLE_MAX ->
  exists s', inst_insert s p = Some (true, s') /\ list_inv s' ({[p]} ∪ idx) /\
    inst_vals s' = inst_vals s /\ h_oom (s_heap s') = h_oom (s_heap s).
Proof.
  intros (ps & Hok & ->) Hp Hnin Hfresh Hmax. rewrite elem_of_list_to_set in Hnin.
  pose proof (list_ok_nodup _ _ Hok) as Hnd. rewrite size_list_to_set in Hmax by done.
  rewrite inst_vals_lookup in Hp. apply fmap_Some in Hp as (np & Hp & ->).
  assert (id_in (h_cells (s_heap s)) p = Some (b_id (n_tcb np))) as Hidp by (unfold id_in; by rewrite Hp).
  assert (forall q, q ∈ ps -> id_in (h_cells (s_heap s)) q <> Some (b_id (n_tcb np))) as Hf.
  { intros q Hq. rewrite id_in_vals. apply Hfresh. by apply elem_of_list_to_set. }
  pose proof (list_ok_turns _ _ Hok) as Htu. destruct Hok as [Hwf Hl Hids Hsz Hmx Hout].
  pose proof (Hout p np Hp Hnin) as Hnone.
  unfold inst_insert, tcp_insert_tcb.
  rewrite (insert_search_lseg (turns (s_heap s)) _ p np ps _ None Hl ltac:(lia) Hp Hf). cbn [mbind option_bind].
  assert (int_add (s_size s) 1 = Some (s_size s + 1)) as Hadd
    by (apply int_add_Some; unfold TABLE_MAX in Hmax; lia).
  assert (list_to_set (C := gset loc) (ps ++ [p]) = {[p]} ∪ list_to_set ps) as Hset
    by (rewrite list_to_set_app_L; cbn; set_solver +).
  destruct ps as [|q0 ps0] using rev_ind; [|clear IHps0].
  - cbn in Hl. rewrite Hl, Hadd. cbn [mbind option_bind]. eexists. split; [done|]. split; [|done].
    exists [p]. split; [|by rewrite <- Hset]. split; cbn; try done.
    + split; [done|]. exists np. done.
    + rewrite Hidp. apply NoDup_singleton.
    + cbn in Hsz; lia.
    + intros q n Hq _. apply (Hout q n Hq). by apply not_elem_of_nil.
  - rewrite last_snoc.
    assert (exists nq, h_cells (s_heap s) !! q0 = Some nq) as [nq Hq0].
    { destruct (lseg_live _ _ _ _ q0 Hl); [|eauto]. apply elem_of_app. right. by constructor. }
    destruct (s_head s) as [hd|] eqn:Hhd; [|by destruct ps0; cbn in Hl; destruct Hl].
    cbn [mbind option_bind]. rewrite (set_next_spec _ _ _ _ Hq0). cbn [mbind option_bind].
    rewrite Hadd. cbn [mbind option_bind]. eexists. split; [done|].
    assert (p <> q0) as Hne by (intros ->; apply Hnin, elem_of_app; right; by constructor).
    unfold inst_vals. cbn [s_heap h_cells h_oom]. rewrite (vals_redirect _ _ _ _ Hq0). split; [|done].
    exists ((ps0 ++ [q0]) ++ [p]). split; [|done].
    split; cbn [s_heap s_head s_size h_cells].
    + by eapply heap_wf_insert.
    + apply lseg_app. exists (Some p). split; [by eapply lseg_redirect|].
      cbn. split; [done|]. exists np. rewrite lookup_insert_ne by done. done.
    + rewrite (list_fmap_ext _ (id_in (h_cells (s_heap s))) ((ps0 ++ [q0]) ++ [p]));
        [by eapply nodup_snoc_ids|]. intros i q _. by apply id_in_redirect.
    + rewrite Hsz, (length_app _ [p]). change (length [p]) with 1%nat. lia.
    + rewrite (length_app _ [p]). change (length [p]) with 1%nat. lia.
    + intros q n Hq Hnq. rewrite not_elem_of_app in Hnq. destruct Hnq as [Hnq _].
      rewrite lookup_insert_ne in Hq by (intros ->; apply Hnq, elem_of_app; right; by constructor).
      by eapply Hout.
Qed.

(** What is left of the list once one block is gone: [c'] agrees with [c] on the ids of
    the others, and [p] is dead. *)
Lemma list_ok_removed s l p k h hd :
  list_ok s (l ++ p :: k) -> heap_wf h -> lseg (h_cells h) hd (l ++ k) None ->
  h_cells h !! p = None ->
  (forall q, q <> p -> id_in (h_cells h) q = id_in (h_cells (s_heap s)) q) ->
  (forall q, q ∉ l ++ p :: k -> h_cells h !! q = h_cells (s_heap s) !! q) ->
  list_ok (MkInstance h hd (s_size s - 1)) (l ++ k).
Proof.
  intros Hok Hwf Hl Hp Hsame Hout. pose proof (list_ok_nodup _ _ Hok) as Hnd.
  destruct Hok as [_ _ Hids Hsz Hmx Hno].
  assert (p ∉ l ++ k) as Hnp.
  { rewrite <- Permutation_middle in Hnd.
    by apply NoDup_cons in Hnd as [? _]. }
  rewrite length_app in Hsz, Hmx. cbn [length] in Hsz, Hmx.
  split; cbn [s_heap s_head s_size]; try done.
  - rewrite (list_fmap_ext _ (id_in (h_cells (s_heap s))) (l ++ k)).
    + rewrite fmap_app in *. cbn in Hids. rewrite <- Permutation_middle in Hids.
      by apply NoDup_cons in Hids as [_ ?].
    + intros i q Hq. apply Hsame. intros ->. by apply Hnp, (list_elem_of_lookup_2 _ i).
  - rewrite length_app. lia.
  - rewrite length_app. lia.
  - intros q n Hq Hnq. assert (q <> p) as Hne by (intros ->; congruence).
    assert (q ∉ l ++ p :: k) as Hnin.
    { rewrite not_elem_of_app, not_elem_of_cons. rewrite not_elem_of_app in Hnq. tauto. }
    rewrite (Hout q Hnin) in Hq. by eapply Hno.
Qed.

(** Unlinking the first block. *)
Lemma delete_head_ok s p k :
  list_ok s (p :: k) ->
  exists s', tcp_remove_connection s p = Some s' /\ list_ok s' k /\
    inst_vals s' = delete p (inst_vals s) /\ h_oom (s_heap s') = h_oom (s_heap s).
Proof.
  intros Hok. pose proof (list_ok_nodup _ _ Hok) as [Hpk _]%NoDup_cons.
  pose proof (lo_size _ _ Hok) as Hsz. pose proof (lo_max _ _ Hok) as Hmx.
  destruct (lo_seg _ _ Hok) as [Hhd (np & Hnp & Hl)].
  assert (int_add (s_size s) (-1) = Some (s_size s - 1)) as Hadd
    by (cbn [length] in *; apply int_add_Some; unfold TABLE_MAX in *; lia).
  unfold tcp_remove_connection. rewrite decide_True by done. unfold deref, free. rewrite Hnp.
  cbn [mbind option_bind]. rewrite Hnp, Hadd. cbn [mbind option_bind]. eexists. split; [done|].
  unfold inst_vals. cbn [s_heap h_cells h_oom]. rewrite fmap_delete. split; [|done].
  apply (list_ok_removed s [] p k); cbn [h_cells app]; try done.
  - apply (free_wf (s_heap s) p); [unfold free; by rewrite Hnp|apply (lo_wf _ _ Hok)].
  - eapply lseg_frame; [|exact Hl]. intros q Hq. rewrite lookup_delete_ne; [done|]. by intros ->.
  - apply lookup_delete_eq.
  - intros q Hq. unfold id_in. by rewrite lookup_delete_ne.
  - intros q [Hq _]%not_elem_of_cons. by rewrite lookup_delete_ne.
Qed.

(** The segment once [q] links past [p] and [p] is freed. *)
Lemma lseg_unlink h l q p k np nq a :
  NoDup ((l ++ [q]) ++ p :: k) -> lseg h a (l ++ q :: p :: k) None ->
  h !! p = Some np -> h !! q = Some nq ->
  lseg (delete p (<[q := MkNode (n_tcb nq) (n_next np)]> h)) a ((l ++ [q]) ++ k) None.
Proof.
  intros Hnd Hl Hnp Hnq. change (q :: p :: k) with ([q] ++ p :: k) in Hl. rewrite app_assoc in Hl.
  apply NoDup_app in Hnd as (Hndl & Hd & [Hpk _]%NoDup_cons).
  apply lseg_app in Hl as (r & H1 & H2). cbn in H2. destruct H2 as [-> (n & Hn & H2)].
  assert (n = np) as -> by congruence.
  apply lseg_app. exists (n_next np). split.
  - eapply lseg_frame; [|by eapply lseg_redirect]. intros q' Hq'.
    rewrite lookup_delete_ne; [done|]. intros ->. apply (Hd q' Hq'). by constructor.
  - eapply lseg_frame; [|exact H2]. intros q' Hq'. rewrite lookup_delete_ne by (intros ->; done).
    rewrite lookup_insert_ne; [done|]. intros ->.
    apply (Hd q'); [apply elem_of_app; right; by constructor|]. by constructor.
Qed.

(** Unlinking any other block. *)
Lemma delete_inner_ok s l q p k :
  list_ok s ((l ++ [q]) ++ p :: k) ->
  exists s', tcp_remove_connection s p = Some s' /\ list_ok s' ((l ++ [q]) ++ k) /\
    inst_vals s' = delete p (inst_vals s) /\ h_oom (s_heap s') = h_oom (s_heap s).
Proof.
  intros Hok. pose proof (list_ok_nodup _ _ Hok) as Hnd. pose proof (list_ok_turns _ _ Hok) as Htu.
  pose proof (lo_size _ _ Hok) as Hsz. pose proof (lo_max _ _ Hok) as Hmx.
  pose proof (lo_seg _ _ Hok) as Hl. pose proof Hnd as (Hndl & Hd & _)%NoDup_app.
  assert (p ∉ l ++ [q]) as Hpl by (intros Hin; apply (Hd p Hin); constructor).
  destruct (lseg_live _ _ _ _ p Hl) as [np Hnp]; [apply elem_of_app; right; constructor|].
  assert (int_add (s_size s) (-1) = Some (s_size s - 1)) as Hadd
    by (rewrite length_app in *; cbn [length] in *; apply int_add_Some; unfold TABLE_MAX in *; lia).
  assert (p <> q) as Hpq by (intros ->; apply Hpl, elem_of_app; right; by constructor).
  rewrite <- app_assoc in Hl. cbn [app] in Hl. unfold tcp_remove_connection.
  rewrite decide_False.
  2:{ intros Hh. rewrite Hh in Hl. destruct l; cbn in Hl; destruct Hl as [[= ->] _]; [done|].
      apply Hpl. by constructor. }
  assert (p ∉ l) as Hpl' by (intros Hin; apply Hpl, elem_of_app; by left).
  rewrite (prev_search_lseg (turns (s_heap s)) _ p q l k _ Hl) by
    (try done; rewrite !length_app in Htu; cbn in Htu; lia).
  cbn [mbind option_bind]. unfold deref at 1. rewrite Hnp. cbn [mbind option_bind].
  destruct (lseg_live _ _ _ _ q Hl) as [nq Hnq]; [apply elem_of_app; right; constructor|].
  rewrite (set_next_spec _ _ _ _ Hnq). cbn [mbind option_bind]. unfold free. cbn [h_cells h_reqs h_oom].
  rewrite lookup_insert_ne by done. rewrite Hnp. cbn [mbind option_bind]. rewrite Hadd.
  cbn [mbind option_bind]. eexists. split; [done|].
  unfold inst_vals. cbn [s_heap h_cells h_oom]. rewrite fmap_delete, (vals_redirect _ _ _ _ Hnq).
  split; [|done]. apply list_ok_removed with (p := p); cbn [h_cells]; try done.
  - apply (free_wf (Heap (<[q := MkNode (n_tcb nq) (n_next np)]> (h_cells (s_heap s)))
      (h_reqs (s_heap s)) (h_oom (s_heap s)) (h_arrays (s_heap s))) p).
    + unfold free. cbn [h_cells]. rewrite lookup_insert_ne by done. by rewrite Hnp.
    + apply (heap_wf_insert _ _ nq); [apply (lo_wf _ _ Hok)|done].
  - by apply lseg_unlink.
  - apply lookup_delete_eq.
  - intros q' Hq'. unfold id_in at 1. rewrite lookup_delete_ne by done.
    by apply (id_in_redirect _ q nq (n_next np) q').
  - intros q' [Hq1 [Hq2 _]%not_elem_of_cons]%not_elem_of_app. rewrite lookup_delete_ne by done.
    rewrite lookup_insert_ne; [done|]. intros ->. apply Hq1, elem_of_app. right. by constructor.
Qed.

Lemma inst_delete_law s idx p :
  list_inv s idx -> p ∈ idx ->
  exists s', tcp_remove_connection s p = Some s' /\ list_inv s' (idx ∖ {[p]}) /\
    inst_vals s' = delete p (inst_vals s) /\ h_oom (s_heap s') = h_oom (s_heap s).
Proof.
  intros (ps & Hok & ->) Hp. rewrite elem_of_list_to_set in Hp.
  apply list_elem_of_split in Hp as (l & k & ->).
  assert (list_to_set (C := gset loc) (l ++ k) = list_to_set (l ++ p :: k) ∖ {[p]}) as Hset.
  { pose proof (list_ok_nodup _ _ Hok) as (_ & Hd & [Hpk _]%NoDup_cons)%NoDup_app.
    assert (p ∉ l) by (intros Hin; apply (Hd p Hin); constructor).
    rewrite !list_to_set_app_L. cbn. apply set_eq. intros q.
    rewrite elem_of_difference, !elem_of_union, !elem_of_singleton, !elem_of_list_to_set.
    split; [intros [Hq|Hq]; (split; [auto|intros ->; done])|tauto]. }
  rewrite <- Hset. destruct l as [|q l _] using rev_ind.
  - destruct (delete_head_ok s p k Hok) as (s' & H & Hok' & Hr). exists s'. split; [done|]. split; [by exists k|done].
  - destruct (delete_inner_ok s l q p k Hok) as (s' & H & Hok' & Hr). exists s'. split; [done|].
    split; [by exists ((l ++ [q]) ++ k)|done].
Qed.

Lemma inst_find_law s idx i :
  list_inv s idx ->
  exists r, tcp_get_state s i = Some r /\
    match r with
    | Some p => p ∈ idx /\ b_id <$> inst_vals s !! p = Some i
    | None => forall p, p ∈ idx -> b_id <$> inst_vals s !! p <> Some i
    end.
Proof.
  intros (ps & Hok & ->). unfold tcp_get_state. pose proof (list_ok_turns _ _ Hok).
  destruct (get_search_lseg (turns (s_heap s)) _ i _ _ (lo_seg _ _ Hok)) as (r & -> & Hr); [lia|].
  exists r. split; [done|]. destruct r as [p|].
  - destruct Hr. rewrite <- id_in_vals. split; [by apply elem_of_list_to_set|done].
  - intros p Hp%elem_of_list_to_set. rewrite <- id_in_vals. auto.
Qed.

(** ** The list is a connection table *)

#[export] Instance list_table : ConTable Instance_ Block TCP_Connection_ID := {|
  ct_id := b_id;
  ct_vals := inst_vals;
  ct_inv := list_inv;
  ct_alloc := inst_alloc;
  ct_release := inst_free;
  ct_assign := inst_assign;
  ct_find := tcp_get_state;
  ct_insert := inst_insert;
  ct_delete := tcp_remove_connection;
  ct_oom := fun s => h_oom (s_heap s);
|}.

#[export] Instance list_table_laws : ConTableLaws Instance_ Block TCP_Connection_ID.
Proof.
  split; cbn.
  - intros s idx p (ps & Hok & ->) Hp%elem_of_list_to_set.
    rewrite inst_vals_lookup, fmap_is_Some. eapply lseg_live; [apply (lo_seg _ _ Hok)|done].
  - intros s idx p q x y (ps & Hok & ->) Hp%elem_of_list_to_set Hq%elem_of_list_to_set Hx Hy Hid.
    apply list_elem_of_lookup in Hp as [i Hi], Hq as [j Hj]. assert (i = j) as ->; [|congruence].
    apply (NoDup_lookup _ i j (Some (b_id x)) (lo_ids _ _ Hok)); rewrite list_lookup_fmap;
      [rewrite Hi|rewrite Hj]; cbn; rewrite id_in_vals; [rewrite Hx|rewrite Hy]; cbn; congruence.
  - exact inst_alloc_law.
  - exact inst_free_law.
  - exact inst_assign_law.
  - exact inst_find_law.
  - intros s idx p x H1 H2 H3 H4 H5. destruct (inst_insert_law s idx p x H1 H2 H3 H4 H5) as (s' & ? & ? & ? & ?).
    exists true, s'. done.
  - exact inst_delete_law.
Qed.

Definition inst_start (oom : nat -> bool) : Instance_ := tcp_init_server_instance (Heap ∅ 0 oom ∅).

Lemma inst_start_closed oom : closed (inst_start oom).
Proof.
  exists []. split; [|done]. split; cbn; try done.
  - intros p [x Hx]. done.
  - apply NoDup_nil_2.
Qed.

Lemma inst_start_conns oom : conns (inst_start oom) = ∅.
Proof. reflexivity. Qed.

(** ** Properties *)

(** C34 The linked list, too, is a finite map from connection ids to blocks: any sequence of
    lookups, creations, updates and deletions from an initialised instance is defined
    (the loops end, no dead link is followed), reports what the map reports and ends with
    the map's contents; it satisfies the same contract as the hash table. *)
Theorem list_refines_map oom (ops : list (TableOp Block TCP_Connection_ID)) :
  (forall n, oom n = false) -> Z.of_nat (length ops) <= TABLE_MAX ->
  exists rs s, tbl_run (inst_start oom) ops = Some (rs, s) /\ closed s /\ map_run ∅ ops = (rs, conns s).
Proof.
  intros Hoom Hlen. change (∅ : gmap TCP_Connection_ID Block) with (conns (inst_start oom)).
  apply (tbl_run_refines (T := Instance_) (V := Block) (K := TCP_Connection_ID) (inst_start oom) ops).
  - apply inst_start_closed.
  - rewrite inst_start_conns, map_size_empty. lia.
  - exact Hoom.
Qed.

Lemma list_refines_map_witness :
  exists rs s, tbl_run (inst_start (fun _ => false))
    [Put (fresh_block (MkCID 1 2 3 4)); Put (fresh_block (MkCID 1 2 3 5)); Del (MkCID 1 2 3 5);
     Get (MkCID 1 2 3 5)] = Some (rs, s) /\ rs = [Done true; Done true; Done true; Found None].
Proof.
  destruct (list_refines_map (fun _ => false)
    [Put (fresh_block (MkCID 1 2 3 4)); Put (fresh_block (MkCID 1 2 3 5)); Del (MkCID 1 2 3 5);
     Get (MkCID 1 2 3 5)]) as (rs & s & H1 & _ & H2); [done|unfold TABLE_MAX; cbn; lia|].
  exists rs, s. split; [exact H1|]. apply (f_equal fst) in H2. symmetry. exact H2.
Defined.
