(* ===== verification/OldNet.v ===== *)
(** * IP and ICMP of the first version

    [network/network.c], [network/ip/ip.c] and [network/icmp/icmp.c]: classification of a
    packet, header rewriting and echo replies.  The header structs have the layouts of
    [Ip.v] and [Icmp.v], whose fields are used here.  The buffer holds
    [MTU_SIZE + 1] bytes; lengths come from the packet. *)
From S2P Require Import Prelude Memory Checksum Ip Icmp.

Definition IPV4_ICMP : Z := 0.
Definition IPV4_TCP : Z := 1.
Definition IPV6 : Z := 2.
Definition VER_UNDF : Z := 3.
Definition PROTO_UNDF : Z := 4.
Definition IP_TCP_PROTO : Z := 6.

(** ** Operations *)

Definition packet_deserialize (m : bytes) (packet : Z) : option Z :=
  vi ← get m packet ip_version_ihl;
  let ip_version := Z.shiftr vi 4 in
  let ihl := Z.land vi 15 in
  if (ip_version =? 6) then Some IPV6 else
  if negb (ip_version =? 4) then Some VER_UNDF else
  if ihl <? 5 then Some PROTO_UNDF else
  p ← get m packet ip_proto;
  if p =? 1 then Some IPV4_ICMP
  else if p =? 6 then Some IPV4_TCP
  else Some PROTO_UNDF.

Definition ip_swap_dst (m : bytes) (ip : Z) : option bytes :=
  src ← get m ip ip_src;
  dst ← get m ip ip_dst;
  m ← set m ip ip_src dst;
  set m ip ip_dst src.

Definition ip_update_checksum (m : bytes) (ip pack_len : Z) : option bytes :=
  m ← set m ip ip_csum 0;
  c ← packet_checksum m ip pack_len;
  set m ip ip_csum c.

Definition icmp_update_checksum (m : bytes) (icmp pack_len : Z) : option bytes :=
  m ← set m icmp icmp_csum 0;
  c ← packet_checksum m icmp pack_len;
  set m icmp icmp_csum c.

Definition icmp_echo_reply (m : bytes) (ip icmp : Z) : option bytes :=
  m ← set m icmp icmp_type 0;
  m ← set m icmp icmp_code 0;
  vi ← get m ip ip_version_ihl;
  let ihl_bytes := Z.land vi 15 * 4 in
  l ← get m ip ip_len;
  let icmp_len := ntohs l - ihl_bytes in
  m ← icmp_update_checksum m icmp icmp_len;
  m ← ip_swap_dst m ip;
  ip_update_checksum m ip ihl_bytes.

Definition icmp_dispatch (m : bytes) (ip icmp : Z) : option bytes :=
  t ← get m icmp icmp_type;
  if t =? 8 then icmp_echo_reply m ip icmp else Some m.

(** ** Specification *)

(** The total length the header claims. *)
Definition claimed (m : bytes) : Z := ntohs (getf m 0 ip_len).

(** ** Lemmas *)

Lemma ip_swap_dst_swapped m ip :
  0 <= ip -> ip + 20 <= Z.of_nat (length m) -> ip_swap_dst m ip = Some (swapped m ip).
Proof. intros. unfold ip_swap_dst. run. done. Qed.

Lemma ip_update_checksum_sealed m ip n :
  bytes_ok m -> 0 <= ip -> 0 <= n <= 131072 -> ip + 12 <= Z.of_nat (length m) ->
  ip + n <= Z.of_nat (length m) -> ip_update_checksum m ip n = Some (sealed m ip 10 n).
Proof. intros. unfold ip_update_checksum. apply seal_body; try done; lia. Qed.

Lemma icmp_update_checksum_sealed m icmp n :
  bytes_ok m -> 0 <= icmp -> 0 <= n <= 131072 -> icmp + 4 <= Z.of_nat (length m) ->
  icmp + n <= Z.of_nat (length m) -> icmp_update_checksum m icmp n = Some (sealed m icmp 2 n).
Proof. intros. unfold icmp_update_checksum. apply seal_body; try done; lia. Qed.

Lemma icmp_echo_reply_framed m offset :
  framed m (claimed m) offset -> offset + 8 <= claimed m ->
  icmp_echo_reply m 0 offset = Some (echo_buf m (claimed m) offset).
Proof.
  intros Hp Hl. pose proof (framed_range _ _ _ Hp) as Hr. destruct Hp as [Hb Hi Hs Hv Ho].
  unfold icmp_echo_reply, echo_buf. run. pkt. fold (claimed m).
  change (Z.land (getf m 0 ip_version_ihl) 15 * 4) with (ihl_of m 0). rewrite <- Ho.
  rewrite icmp_update_checksum_sealed by (auto with bytes; mem). cbn [mbind option_bind].
  rewrite ip_swap_dst_swapped by mem. cbn [mbind option_bind].
  by rewrite ip_update_checksum_sealed by (auto 6 with bytes; mem).
Qed.

(** ** Properties *)

(** Classification: [packet_deserialize] is defined on any buffer of at least a header
    and answers ICMP or TCP exactly for IPv4 packets with a header length of at least five
    words and that protocol. *)
Theorem packet_deserialize_correct m :
  bytes_ok m -> 20 <= Z.of_nat (length m) ->
  exists op, packet_deserialize m 0 = Some op /\
    (op = IPV4_ICMP <-> Z.shiftr (getf m 0 ip_version_ihl) 4 = 4 /\ 20 <= ihl_of m 0 /\
                        getf m 0 ip_proto = 1) /\
    (op = IPV4_TCP <-> Z.shiftr (getf m 0 ip_version_ihl) 4 = 4 /\ 20 <= ihl_of m 0 /\
                       getf m 0 ip_proto = 6).
Proof.
  intros Hb Hl. unfold packet_deserialize, ihl_of. run.
  set (v := Z.shiftr _ 4). set (h := Z.land _ 15). set (p := getf m 0 ip_proto).
  unfold IPV4_ICMP, IPV4_TCP, IPV6, VER_UNDF, PROTO_UNDF.
  destruct (v =? 6) eqn:E6; [eexists; split; [done|lia]|].
  destruct (v =? 4) eqn:E4; cbn [negb]; [|eexists; split; [done|lia]].
  destruct (h <? 5) eqn:E5; [eexists; split; [done|lia]|].
  destruct (p =? 1) eqn:E1; [eexists; split; [done|lia]|].
  destruct (p =? 6) eqn:Ep; eexists; (split; [done|lia]).
Qed.

Lemma packet_deserialize_correct_witness :
  exists op, packet_deserialize (setf (setf (replicate 20 0) 0 ip_version_ihl 69) 0 ip_proto 6) 0 = Some op
    /\ op = IPV4_TCP.
Proof.
  destruct (packet_deserialize_correct (setf (setf (replicate 20 0) 0 ip_version_ihl 69) 0 ip_proto 6))
    as (op & H1 & _ & H2); [by_eval|vm_compute; discriminate|].
  exists op. split; [exact H1|]. apply H2. vm_compute. split; [reflexivity|]. split; [discriminate|reflexivity].
Defined.

(** The first version's echo reply, when the length the header claims covers an ICMP
    header and lies in the buffer, is the same reply the current version builds. *)
Theorem old_echo_correct m offset :
  framed m (claimed m) offset -> offset + 8 <= claimed m -> getf m offset icmp_type = 8 ->
  exists m', icmp_dispatch m 0 offset = Some m' /\ echo_reply_of m m' (claimed m) offset.
Proof.
  intros Hp Hl Ht. pose proof (framed_range _ _ _ Hp) as Hr. pose proof Hp as [Hb Hi Hs _ _].
  unfold icmp_dispatch. run. rewrite Ht. cbn [Z.eqb Pos.eqb].
  rewrite icmp_echo_reply_framed by done. eexists. split; [done|]. by apply echo_buf_spec.
Qed.

Lemma old_echo_correct_witness :
  let m := setf (setf (setf (replicate 1501 0) 0 ip_version_ihl 69) 0 ip_len (htons 32)) 20 icmp_type 8 in
  exists m', icmp_dispatch m 0 20 = Some m' /\ getf m' 20 icmp_type = 0.
Proof.
  cbv zeta. edestruct old_echo_correct as (m' & H1 & H2);
    [| | |exists m'; split; [exact H1|exact (er_type _ _ _ _ H2)]].
  - split; [by_eval| | |vm_compute; reflexivity|vm_compute; reflexivity]; vm_compute; split; discriminate.
  - vm_compute. discriminate.
  - vm_compute. reflexivity.
Defined.

(** It trusts that length: an echo request of 28 bytes whose header claims 2000 makes
    the checksum read past the end of the buffer. *)
Theorem old_echo_overread :
  icmp_dispatch (setf (setf (setf (replicate 1501 0) 0 ip_version_ihl 69) 0 ip_len (htons 2000))
                   20 icmp_type 8) 0 20 = None.
Proof. vm_compute. reflexivity. Qed.
