(* ===== verification/OldSegment.v ===== *)
(** * TCP segments of the first version

    The segments [network/tcp/tcp.c] builds in place: the reset for an unknown
    connection, the SYN-ACK, and acknowledgments with or without a body.  Signed
    overflow in the sequence arithmetic on [int] members is undefined behaviour. *)
From S2P Require Import Prelude Memory Checksum Ip TcpHeader Heap Table OldList OldNet.

Definition TCP_SILENT : Z := 2.

(** ** Operations *)

(** [tcp_get_ticks], on readings of the clock and of [rand()]. *)
Definition tcp_get_ticks (tv_sec tv_usec rnd : Z) : Z := u32 (tv_sec * 1000000 + tv_usec + rnd).

Definition tcp_update_checksum (m : bytes) (tcp tcp_pack_len : Z) (pseudo : bytes) : option bytes :=
  m ← set m tcp tcp_csum 0;
  seg ← load_bytes m tcp tcp_pack_len;
  c ← packet_checksum (pseudo ++ seg) 0 (tcp_pack_len + Z.of_nat (length pseudo));
  set m tcp tcp_csum c.

Definition tcp_switch_port (m : bytes) (tcp : Z) : option bytes :=
  dst ← get m tcp tcp_dst_port;
  src ← get m tcp tcp_src_port;
  m ← set m tcp tcp_dst_port src;
  set m tcp tcp_src_port dst.

(** The pseudo header built from the packet, and the checksum update that ends every
    constructor. *)
Definition pseudo_header (m : bytes) (ip tcp_len : Z) : option bytes :=
  src ← get m ip ip_src;
  dst ← get m ip ip_dst;
  Some (pseudo_bytes src dst IP_TCP_PROTO (htons tcp_len)).

Definition tcp_null_rst (m : bytes) (ip tcp : Z) : option bytes :=
  flags ← get m tcp tcp_flags;
  let syn := truth (Z.land flags SYN) in
  let ack := truth (Z.land flags ACK) in
  let fin := truth (Z.land flags FIN) in
  doff ← get m tcp tcp_data_offset;
  let tcp_header_len := Z.shiftr doff 4 * 4 in
  vi ← get m ip ip_version_ihl;
  let ip_header_len := Z.land vi 15 * 4 in
  l ← get m ip ip_len;
  let total_len := ntohs l in
  let seg_len := total_len - ip_header_len - tcp_header_len in
  '(seq_num, ack_num, flags) ←
    (if ack then
       a ← get m tcp tcp_ack_num;
       Some (ntohl a, 0, RST)
     else
       let seg_len := seg_len + (Z.b2z fin + Z.b2z syn) in
       s ← get m tcp tcp_seq_num;
       Some (0, u32 (ntohl s + seg_len), Z.lor RST ACK));
  m ← ip_swap_dst m ip;
  m ← tcp_switch_port m tcp;
  m ← set m ip ip_len (htons (ip_header_len + tcp_header_len));
  m ← set m tcp tcp_seq_num (htonl seq_num);
  m ← set m tcp tcp_ack_num (htonl ack_num);
  m ← set m tcp tcp_data_offset (Z.shiftl (tcp_header_len / 4) 4);
  m ← set m tcp tcp_flags flags;
  m ← set m tcp tcp_window 0;
  m ← set m tcp tcp_urgent_ptr 0;
  m ← ip_update_checksum m ip ip_header_len;
  pseudo ← pseudo_header m ip tcp_header_len;
  tcp_update_checksum m tcp tcp_header_len pseudo.

(** The block after [tcp_null_syn_ack] sets the sequence space. *)
Definition open_block (b : Block) (seq_num window ticks : Z) : option Block :=
  let irs := s32 (ntohl seq_num) in
  next ← int_add irs 1;
  let iss := s32 ticks in
  snext ← int_add iss 1;
  Some (MkBlock (b_id b) (b_state b) (MkSendS iss snext (ntohs window) iss)
          (MkRecvS next (rs_window (b_recv b)) irs)
          (b_recv_buffer b) (b_recv_size b) (b_recv_consumed b)).

Definition tcp_null_syn_ack (ticks : Z) (m : bytes) (s : Instance_) (ip tcp : Z) (tcb : ptr)
    : option (bytes * Instance_) :=
  p ← tcb;
  n ← deref (s_heap s) p;
  sq ← get m tcp tcp_seq_num;
  w ← get m tcp tcp_window;
  b ← open_block (n_tcb n) sq w ticks;
  h ← assign (s_heap s) p (MkNode b (n_next n));
  m ← ip_swap_dst m ip;
  m ← tcp_switch_port m tcp;
  doff ← get m tcp tcp_data_offset;
  let tcp_header_len := Z.shiftr doff 4 * 4 in
  m ← set m tcp tcp_seq_num (htonl (ss_iss (b_send b)));
  m ← set m tcp tcp_ack_num (htonl (rs_next (b_recv b)));
  m ← set m tcp tcp_data_offset (Z.shiftl (tcp_header_len / 4) 4);
  m ← set m tcp tcp_flags (Z.lor SYN ACK);
  m ← set m tcp tcp_window (htons (rs_window (b_recv b)));
  m ← set m tcp tcp_urgent_ptr 0;
  vi ← get m ip ip_version_ihl;
  let ip_header_len := Z.land vi 15 * 4 in
  m ← set m ip ip_len (htons (ip_header_len + tcp_header_len));
  m ← ip_update_checksum m ip ip_header_len;
  pseudo ← pseudo_header m ip tcp_header_len;
  m ← tcp_update_checksum m tcp tcp_header_len pseudo;
  Some (m, MkInstance h (s_head s) (s_size s)).

(** [body] is null or [body_len] bytes. *)
Definition tcp_send_ack (m : bytes) (s : Instance_) (ip tcp : Z) (tcb : loc) (body : option bytes)
    (body_len : Z) : option (bytes * Instance_) :=
  m ← ip_swap_dst m ip;
  m ← tcp_switch_port m tcp;
  vi ← get m ip ip_version_ihl;
  let ip_hl := Z.land vi 15 * 4 in
  doff ← get m tcp tcp_data_offset;
  let tcp_hl := Z.shiftr doff 4 * 4 in
  n ← deref (s_heap s) tcb;
  let b := n_tcb n in
  m ← set m tcp tcp_seq_num (htonl (ss_next (b_send b)));
  m ← set m tcp tcp_ack_num (htonl (rs_next (b_recv b)));
  m ← set m tcp tcp_data_offset (Z.shiftl (tcp_hl / 4) 4);
  m ← set m tcp tcp_window (htons (rs_window (b_recv b)));
  m ← set m tcp tcp_urgent_ptr 0;
  '(m, h) ←
    match body with
    | Some data =>
        if 0 <? body_len then
          m ← set m tcp tcp_flags (Z.lor PSH ACK);
          d ← load_bytes data 0 body_len;
          m ← store_bytes m (tcp + tcp_hl) d;
          m ← set m ip ip_len (htons (ip_hl + tcp_hl + body_len));
          nx ← int_add (ss_next (b_send b)) body_len;
          let sd := b_send b in
          h ← assign (s_heap s) tcb
                (MkNode (MkBlock (b_id b) (b_state b) (MkSendS (ss_unac sd) nx (ss_window sd) (ss_iss sd))
                           (b_recv b) (b_recv_buffer b) (b_recv_size b) (b_recv_consumed b)) (n_next n));
          Some (m, h)
        else
          m ← set m tcp tcp_flags ACK;
          m ← set m ip ip_len (htons (ip_hl + tcp_hl));
          Some (m, s_heap s)
    | None =>
        m ← set m tcp tcp_flags ACK;
        m ← set m ip ip_len (htons (ip_hl + tcp_hl));
        Some (m, s_heap s)
    end;
  m ← ip_update_checksum m ip ip_hl;
  pseudo ← pseudo_header m ip (tcp_hl + body_len);
  m ← tcp_update_checksum m tcp (tcp_hl + body_len) pseudo;
  Some (m, MkInstance h (s_head s) (s_size s)).

(** ** The end of every constructor: both checksums *)

Definition closed_seg (h : bytes) (offset n : Z) : bytes :=
  let h := sealed h 0 10 offset in
  setf h offset tcp_csum (tcp_sum h offset n).

(** What the two checksum updates need of a packet under construction. *)
Record ready (h : bytes) (offset n : Z) : Prop := {
  rd_bytes : bytes_ok h;
  rd_offset : offset = ihl_of h 0;
  rd_bounds : 20 <= offset /\ 0 <= n /\ offset + n <= Z.of_nat (length h);
  rd_size : 100 <= Z.of_nat (length h) <= 2000;
  rd_proto : getf h 0 ip_proto = IP_TCP_PROTO;
}.

Lemma length_closed_seg h offset n : length (closed_seg h offset n) = length h.
Proof. unfold closed_seg. cbv zeta. by autorewrite with lens. Qed.

Lemma closed_seg_ok h offset n : bytes_ok h -> bytes_ok (closed_seg h offset n).
Proof. intros. unfold closed_seg. cbv zeta. auto with bytes. Qed.

Lemma getf_closed_seg h offset n q g :
  20 <= offset -> 0 <= q + f_off g ->
  q + f_off g + Z.of_nat (f_width g) <= 10 \/
  (12 <= q + f_off g /\ q + f_off g + Z.of_nat (f_width g) <= offset + 16) \/
  offset + 18 <= q + f_off g ->
  getf (closed_seg h offset n) q g = getf h q g.
Proof.
  intros. unfold closed_seg. rewrite getf_setf_other by mem. apply getf_sealed_other; lia.
Qed.

Lemma tcp_update_checksum_in m offset n :
  bytes_ok m -> 20 <= offset -> 0 <= n <= 131000 -> offset + n <= Z.of_nat (length m) ->
  offset + 20 <= Z.of_nat (length m) ->
  tcp_update_checksum m offset n (pseudo_of m n) = Some (setf m offset tcp_csum (tcp_sum m offset n)).
Proof.
  intros Hb Ho Hn Hl Hl'. unfold tcp_update_checksum. run.
  change (Z.of_nat (length (pseudo_of m n))) with 12.
  rewrite checksum_packet_checksum, checksum_sum.
  - cbn [mbind option_bind]. run. unfold tcp_sum.
    rewrite rd_all by (rewrite length_app, length_rd by mem; cbn; lia).
    unfold setf. by rewrite upd_upd by (rewrite !length_le_encode; done).
  - apply Forall_app. split; [apply pseudo_bytes_ok|auto with bytes].
  - lia.
  - lia.
  - rewrite length_app, length_rd by mem. cbn. lia.
Qed.

Lemma close_seg_in h offset n :
  ready h offset n ->
  (m ← ip_update_checksum h 0 offset;
   pseudo ← pseudo_header m 0 n;
   tcp_update_checksum m offset n pseudo) = Some (closed_seg h offset n).
Proof.
  intros [Hb Ho (H1 & H2 & H3) Hs Hp]. pose proof (ihl_of_range h 0) as Hr. rewrite <- Ho in Hr.
  rewrite ip_update_checksum_sealed by (try done; lia). cbn [mbind option_bind].
  unfold pseudo_header. run.
  assert (pseudo_bytes (getf (sealed h 0 10 offset) 0 ip_src) (getf (sealed h 0 10 offset) 0 ip_dst)
    IP_TCP_PROTO (htons n) = pseudo_of (sealed h 0 10 offset) n) as ->
    by (unfold pseudo_of; rewrite (getf_sealed_other _ _ _ _ _ ip_proto) by mem; by rewrite Hp).
  by rewrite tcp_update_checksum_in by (auto with bytes; mem).
Qed.

(** The reply is a valid packet. *)
Lemma close_seg_valid h offset n :
  ready h offset n -> Z.shiftr (getf h 0 ip_version_ihl) 4 = 4 ->
  ip_valid (closed_seg h offset n) 0 (offset + n) /\
  (18 <= n -> tcp_verifies (closed_seg h offset n) offset n).
Proof.
  intros [Hb Ho (H1 & H2 & H3) Hs Hp] Hv. split.
  - assert (ihl_of (closed_seg h offset n) 0 = offset) as Hi
      by (unfold ihl_of; rewrite getf_closed_seg by mem; symmetry; exact Ho).
    split; [rewrite Hi; lia|]. split; [rewrite getf_closed_seg by mem; exact Hv|].
    rewrite Hi. unfold closed_seg. fields.
    apply sealed_verifies; try done; lia.
  - intros Hn. unfold closed_seg. apply tcp_sum_verifies; [auto with bytes|done|done|mem].
Qed.

Lemma tcp_switch_port_in m tcp :
  0 <= tcp -> tcp + 20 <= Z.of_nat (length m) -> tcp_switch_port m tcp = Some (ports_swapped m tcp).
Proof.
  intros. unfold tcp_switch_port, ports_swapped. run. f_equal. unfold setf. apply upd_comm; mem.
Qed.

(** What every reply of the first version must be: addressed back to the sender, a valid
    IP header over [n] bytes of segment, a TCP checksum that verifies, and the given
    sequence numbers and flags. *)
Record reply_of (m m' : bytes) (offset n seq ack flags : Z) : Prop := {
  rp_ip : ip_valid m' 0 (offset + n);
  rp_ihl : ihl_of m' 0 = offset;
  rp_len : ntohs (getf m' 0 ip_len) = offset + n;
  rp_src : getf m' 0 ip_src = getf m 0 ip_dst;
  rp_dst : getf m' 0 ip_dst = getf m 0 ip_src;
  rp_sport : getf m' offset tcp_src_port = getf m offset tcp_dst_port;
  rp_dport : getf m' offset tcp_dst_port = getf m offset tcp_src_port;
  rp_seq : ntohl (getf m' offset tcp_seq_num) = u32 seq;
  rp_ack : ntohl (getf m' offset tcp_ack_num) = u32 ack;
  rp_flags : getf m' offset tcp_flags = flags;
  rp_hlen : tcp_hlen_of m' offset = tcp_hlen_of m offset;
  rp_tcp : 18 <= n -> tcp_verifies m' offset n;
}.

(** A TCP packet the first version dispatches: [MTU_SIZE + 1] bytes of buffer, version 4,
    the protocol and the header length checked, nothing else. *)
Record tcp_packet (m : bytes) (offset : Z) : Prop := {
  tp_bytes : bytes_ok m;
  tp_size : Z.of_nat (length m) = MTU_SIZE + 1;
  tp_version : Z.shiftr (getf m 0 ip_version_ihl) 4 = 4;
  tp_offset : offset = ihl_of m 0;
  tp_ihl : 20 <= offset;
  tp_proto : getf m 0 ip_proto = IP_TCP_PROTO;
}.

Lemma tcp_packet_range m offset :
  tcp_packet m offset -> 20 <= offset <= 60 /\ Z.of_nat (length m) = 1501 /\ 0 <= tcp_hlen_of m offset <= 60.
Proof.
  intros [Hb Hs _ Ho Hi _]. unfold MTU_SIZE in Hs. pose proof (ihl_of_range m 0).
  destruct (tcp_hlen_range m offset Hb) as [? _]; lia.
Qed.

(** The packet before its checksums are computed: the fields every reply sets. *)
Record head_of (m h : bytes) (offset n seq ack flags : Z) : Prop := {
  hd_length : length h = length m;
  hd_bytes : bytes_ok h;
  hd_version : getf h 0 ip_version_ihl = getf m 0 ip_version_ihl;
  hd_proto : getf h 0 ip_proto = getf m 0 ip_proto;
  hd_len : getf h 0 ip_len = htons (offset + n) mod 65536;
  hd_src : getf h 0 ip_src = getf m 0 ip_dst;
  hd_dst : getf h 0 ip_dst = getf m 0 ip_src;
  hd_sport : getf h offset tcp_src_port = getf m offset tcp_dst_port;
  hd_dport : getf h offset tcp_dst_port = getf m offset tcp_src_port;
  hd_seq : getf h offset tcp_seq_num = htonl seq mod 4294967296;
  hd_ack : getf h offset tcp_ack_num = htonl ack mod 4294967296;
  hd_flags : getf h offset tcp_flags = flags;
  hd_hlen : getf h offset tcp_data_offset = Z.shiftl (tcp_hlen_of m offset / 4) 4 mod 256;
}.

Lemma head_ready m h offset n seq ack flags :
  tcp_packet m offset -> head_of m h offset n seq ack flags -> 0 <= n -> offset + n <= 1501 ->
  ready h offset n.
Proof.
  intros [Hb Hs Hv Ho Hi Hp] [] ? ?. unfold MTU_SIZE in Hs.
  split; try done; [unfold ihl_of in *; congruence|lia|lia|congruence].
Qed.

Lemma reply_closed m h offset n seq ack flags :
  tcp_packet m offset -> head_of m h offset n seq ack flags -> 0 <= n -> offset + n <= 1501 ->
  reply_of m (closed_seg h offset n) offset n seq ack flags.
Proof.
  intros Hp Hh Hn Hl. pose proof (head_ready _ _ _ _ _ _ _ Hp Hh Hn Hl) as Hr.
  pose proof (tcp_packet_range _ _ Hp) as (Hrange & Hs & _).
  assert (0 <= getf m offset tcp_data_offset < 256) as Hd
    by (destruct Hp; apply (getf_range m offset tcp_data_offset); mem).
  destruct (close_seg_valid h offset n Hr) as [Hv Ht].
  { rewrite (hd_version _ _ _ _ _ _ _ Hh). apply Hp. }
  destruct Hh as [? ? ? ? Hlen Hsrc Hdst Hsp Hdp Hseq Hack Hfl Hdo].
  split; try done; rewrite ?getf_closed_seg by mem; try done.
  - unfold ihl_of. rewrite getf_closed_seg by mem. symmetry. apply Hr.
  - rewrite Hlen. fold (u16 (htons (offset + n))). rewrite bswap16_u16, bswap16_bswap16.
    apply u16_id. lia.
  - rewrite Hseq. apply bswap32_get.
  - rewrite Hack. apply bswap32_get.
  - unfold tcp_hlen_of at 1. rewrite getf_closed_seg by mem. rewrite Hdo. unfold tcp_hlen_of.
    by rewrite tcp_hlen_back.
Qed.

(** Reads through the writes of a head. *)
Ltac head_tac Hsp Hdp Hsrc Hdst :=
  split; try (autorewrite with lens; done); try (auto 20 with bytes; fail); pkt;
    rewrite ?Hsp, ?Hdp; unfold ports_swapped; pkt; try done.

(** *** The reset *)

Definition rst_numbers (m : bytes) (offset : Z) : Z * Z * Z :=
  let f := getf m offset tcp_flags in
  if truth (Z.land f ACK) then (ntohl (getf m offset tcp_ack_num), 0, RST)
  else (0, u32 (ntohl (getf m offset tcp_seq_num)
                + (claimed m - offset - tcp_hlen_of m offset
                   + (Z.b2z (truth (Z.land f FIN)) + Z.b2z (truth (Z.land f SYN))))),
        Z.lor RST ACK).

Definition null_rst_head (m : bytes) (offset seq ack flags : Z) : bytes :=
  let hlen := tcp_hlen_of m offset in
  let h := ports_swapped (swapped m 0) offset in
  let h := setf h 0 ip_len (htons (offset + hlen)) in
  let h := setf h offset tcp_seq_num (htonl seq) in
  let h := setf h offset tcp_ack_num (htonl ack) in
  let h := setf h offset tcp_data_offset (Z.shiftl (hlen / 4) 4) in
  let h := setf h offset tcp_flags flags in
  let h := setf h offset tcp_window 0 in
  setf h offset tcp_urgent_ptr 0.

Lemma null_rst_head_of m offset seq ack flags :
  tcp_packet m offset -> 0 <= flags < 256 ->
  head_of m (null_rst_head m offset seq ack flags) offset (tcp_hlen_of m offset) seq ack flags.
Proof.
  intros Hp Hf. pose proof (tcp_packet_range _ _ Hp) as (Hr & Hs & Hh). destruct Hp as [Hb _ _ Ho _ _].
  destruct (swapped_src m 0 Hb) as [Hsrc Hdst]; [lia|lia|].
  destruct (ports_swapped_ports (swapped m 0) offset) as [Hsp Hdp]; [auto with bytes|lia|mem|].
  unfold null_rst_head. cbv zeta. set (hl := tcp_hlen_of m offset) in *.
  head_tac Hsp Hdp Hsrc Hdst. apply Z.mod_small. exact Hf.
Qed.

Lemma tcp_null_rst_in m offset :
  tcp_packet m offset ->
  tcp_null_rst m 0 offset
  = let '(s, a, f) := rst_numbers m offset in
    Some (closed_seg (null_rst_head m offset s a f) offset (tcp_hlen_of m offset)).
Proof.
  intros Hp. pose proof (tcp_packet_range _ _ Hp) as (Hr & Hs & Hh). pose proof Hp as [Hb _ _ Ho _ _].
  unfold tcp_null_rst, rst_numbers. run.
  change (Z.land (getf m 0 ip_version_ihl) 15 * 4) with (ihl_of m 0). rewrite <- Ho.
  fold (tcp_hlen_of m offset). fold (claimed m). set (hl := tcp_hlen_of m offset) in *.
  assert (forall s a f, 0 <= f < 256 ->
    (m ← ip_swap_dst m 0;
     m ← tcp_switch_port m offset;
     m ← set m 0 ip_len (htons (offset + hl));
     m ← set m offset tcp_seq_num (htonl s);
     m ← set m offset tcp_ack_num (htonl a);
     m ← set m offset tcp_data_offset (Z.shiftl (hl / 4) 4);
     m ← set m offset tcp_flags f;
     m ← set m offset tcp_window 0;
     m ← set m offset tcp_urgent_ptr 0;
     m ← ip_update_checksum m 0 offset;
     pseudo ← pseudo_header m 0 hl;
     tcp_update_checksum m offset hl pseudo)
    = Some (closed_seg (null_rst_head m offset s a f) offset hl)) as Hrun.
  { intros s a f Hf. rewrite ip_swap_dst_swapped by mem. cbn [mbind option_bind].
    rewrite tcp_switch_port_in by mem. cbn [mbind option_bind]. run.
    apply close_seg_in. eapply head_ready; [done|by apply null_rst_head_of| |]; subst hl; lia. }
  destruct (truth (Z.land _ ACK)); run; apply Hrun; vm_compute; split; (discriminate || reflexivity).
Qed.

(** *** The SYN-ACK *)

Definition null_syn_ack_head (m : bytes) (b : Block) (offset : Z) : bytes :=
  let hlen := tcp_hlen_of m offset in
  let h := ports_swapped (swapped m 0) offset in
  let h := setf h offset tcp_seq_num (htonl (ss_iss (b_send b))) in
  let h := setf h offset tcp_ack_num (htonl (rs_next (b_recv b))) in
  let h := setf h offset tcp_data_offset (Z.shiftl (hlen / 4) 4) in
  let h := setf h offset tcp_flags (Z.lor SYN ACK) in
  let h := setf h offset tcp_window (htons (rs_window (b_recv b))) in
  let h := setf h offset tcp_urgent_ptr 0 in
  setf h 0 ip_len (htons (offset + hlen)).

Lemma null_syn_ack_head_of m b offset :
  tcp_packet m offset ->
  head_of m (null_syn_ack_head m b offset) offset (tcp_hlen_of m offset)
    (ss_iss (b_send b)) (rs_next (b_recv b)) (Z.lor SYN ACK).
Proof.
  intros Hp. pose proof (tcp_packet_range _ _ Hp) as (Hr & Hs & Hh). destruct Hp as [Hb _ _ Ho _ _].
  destruct (swapped_src m 0 Hb) as [Hsrc Hdst]; [lia|lia|].
  destruct (ports_swapped_ports (swapped m 0) offset) as [Hsp Hdp]; [auto with bytes|lia|mem|].
  unfold null_syn_ack_head. cbv zeta. set (hl := tcp_hlen_of m offset) in *.
  head_tac Hsp Hdp Hsrc Hdst.
Qed.

(** The instance once the block at [p] is [b]. *)
Definition with_block (s : Instance_) (p : loc) (n : Node) (b : Block) : Instance_ :=
  MkInstance (Heap (<[p := MkNode b (n_next n)]> (h_cells (s_heap s))) (h_reqs (s_heap s))
                (h_oom (s_heap s)) (h_arrays (s_heap s))) (s_head s) (s_size s).

Lemma tcp_null_syn_ack_in ticks m s p n b offset :
  tcp_packet m offset -> h_cells (s_heap s) !! p = Some n ->
  open_block (n_tcb n) (getf m offset tcp_seq_num) (getf m offset tcp_window) ticks = Some b ->
  tcp_null_syn_ack ticks m s 0 offset (Some p)
  = Some (closed_seg (null_syn_ack_head m b offset) offset (tcp_hlen_of m offset), with_block s p n b).
Proof.
  intros Hp Hn Hb. pose proof (tcp_packet_range _ _ Hp) as (Hr & Hs & Hh).
  pose proof Hp as [Hbm _ _ Ho _ _].
  unfold tcp_null_syn_ack, deref, assign. cbn [mbind option_bind]. rewrite Hn. run. rewrite Hb.
  cbn [mbind option_bind].
  rewrite ip_swap_dst_swapped by mem. cbn [mbind option_bind].
  rewrite tcp_switch_port_in by mem. cbn [mbind option_bind]. run.
  assert (Z.shiftr (getf (ports_swapped (swapped m 0) offset) offset tcp_data_offset) 4 * 4
          = tcp_hlen_of m offset) as Hhl by (unfold tcp_hlen_of, ports_swapped; pkt; done).
  rewrite Hhl.
  match goal with |- context [Z.land ?v 15 * 4] => replace (Z.land v 15 * 4) with offset end.
  2:{ unfold ports_swapped. pkt. exact Ho. }
  run. pose proof (null_syn_ack_head_of m b offset Hp) as Hhd. unfold null_syn_ack_head in *. cbv zeta in *.
  set (h := setf _ 0 ip_len _) in *.
  pose proof (head_ready _ _ _ _ _ _ _ Hp Hhd ltac:(lia) ltac:(lia)) as Hready.
  pose proof (close_seg_in _ _ _ Hready) as Hclose. unfold with_block.
  destruct (ip_update_checksum h 0 offset) as [m1|]; [|discriminate Hclose].
  cbn [mbind option_bind] in *.
  destruct (pseudo_header m1 0 _) as [ps|]; [|discriminate Hclose]. cbn [mbind option_bind] in *.
  rewrite Hclose. done.
Qed.

(** The SYN-ACK of a block just opened. *)
Lemma syn_ack_reply ticks m b b' offset :
  tcp_packet m offset ->
  open_block b (getf m offset tcp_seq_num) (getf m offset tcp_window) ticks = Some b' ->
  reply_of m (closed_seg (null_syn_ack_head m b' offset) offset (tcp_hlen_of m offset)) offset
    (tcp_hlen_of m offset) (s32 ticks) (ntohl (getf m offset tcp_seq_num) + 1) (Z.lor SYN ACK) /\
  b_state b' = b_state b /\ ss_iss (b_send b') = s32 ticks /\ ss_unac (b_send b') = s32 ticks /\
  ss_next (b_send b') = s32 ticks + 1.
Proof.
  intros Hp Hb. pose proof (tcp_packet_range _ _ Hp) as (Hr & Hs & Hh).
  pose proof (reply_closed _ _ _ _ _ _ _ Hp (null_syn_ack_head_of m b' offset Hp) ltac:(lia) ltac:(lia)) as Hrep.
  unfold open_block in Hb. apply bind_Some in Hb as (nx & Hnx%int_add_Some & Hb).
  apply bind_Some in Hb as (snx & [Hsnx _]%int_add_Some & Hb). injection Hb as <-.
  cbn [b_send b_recv b_state ss_iss ss_next ss_unac rs_next] in *. split; [|done].
  pose proof (rp_ack _ _ _ _ _ _ _ Hrep) as Hack. destruct Hrep. split; try done. rewrite Hack. destruct Hnx as [-> _].
  unfold u32, s32. rewrite <- (Zplus_mod_idemp_l (_ - 2147483648)), Zminus_mod_idemp_l.
  rewrite Zplus_mod_idemp_l. f_equal. lia.
Qed.

(** *** Acknowledgments *)

Definition ack_head (m : bytes) (b : Block) (offset : Z) (flags n : Z) (body : bytes) : bytes :=
  let hlen := tcp_hlen_of m offset in
  let h := ports_swapped (swapped m 0) offset in
  let h := setf h offset tcp_seq_num (htonl (ss_next (b_send b))) in
  let h := setf h offset tcp_ack_num (htonl (rs_next (b_recv b))) in
  let h := setf h offset tcp_data_offset (Z.shiftl (hlen / 4) 4) in
  let h := setf h offset tcp_window (htons (rs_window (b_recv b))) in
  let h := setf h offset tcp_urgent_ptr 0 in
  let h := setf h offset tcp_flags flags in
  let h := upd h (offset + hlen) body in
  setf h 0 ip_len (htons (offset + n)).

(** A body goes behind a header of at least 20 bytes, or it overwrites the header. *)
Lemma ack_head_of m b offset flags n body :
  tcp_packet m offset -> 0 <= flags < 256 -> bytes_ok body ->
  body = [] \/ 20 <= tcp_hlen_of m offset ->
  head_of m (ack_head m b offset flags n body) offset n
    (ss_next (b_send b)) (rs_next (b_recv b)) flags.
Proof.
  intros Hp Hf Hbo Hbody. pose proof (tcp_packet_range _ _ Hp) as (Hr & Hs & Hh).
  destruct Hp as [Hb _ _ Ho _ _].
  destruct (swapped_src m 0 Hb) as [Hsrc Hdst]; [lia|lia|].
  destruct (ports_swapped_ports (swapped m 0) offset) as [Hsp Hdp]; [auto with bytes|lia|mem|].
  unfold ack_head. cbv zeta. set (hl := tcp_hlen_of m offset) in *.
  destruct Hbody as [-> |Hhl].
  - change (upd ?x (offset + hl) []) with x.
    head_tac Hsp Hdp Hsrc Hdst. apply Z.mod_small. exact Hf.
  - head_tac Hsp Hdp Hsrc Hdst. apply Z.mod_small. exact Hf.
Qed.

Lemma send_ack_end m offset n h s :
  tcp_packet m offset -> ready h offset n ->
  (m ← ip_update_checksum h 0 offset;
   pseudo ← pseudo_header m 0 n;
   m ← tcp_update_checksum m offset n pseudo;
   Some (m, s)) = Some (closed_seg h offset n, s : Instance_).
Proof.
  intros Hp Hready. pose proof (close_seg_in _ _ _ Hready) as Hclose.
  destruct (ip_update_checksum h 0 offset) as [m1|]; [|discriminate Hclose].
  cbn [mbind option_bind] in *.
  destruct (pseudo_header m1 0 _) as [ps|]; [|discriminate Hclose]. cbn [mbind option_bind] in *.
  rewrite Hclose. done.
Qed.

Lemma tcp_send_ack_empty m s p n offset :
  tcp_packet m offset -> h_cells (s_heap s) !! p = Some n ->
  tcp_send_ack m s 0 offset p None 0
  = Some (closed_seg (ack_head m (n_tcb n) offset ACK (tcp_hlen_of m offset) []) offset
            (tcp_hlen_of m offset), s).
Proof.
  intros Hp Hn. pose proof (tcp_packet_range _ _ Hp) as (Hr & Hs & Hh).
  pose proof (ack_head_of m (n_tcb n) offset ACK (tcp_hlen_of m offset) [] Hp
    ltac:(unfold ACK; lia) (Forall_nil_2 _) (or_introl eq_refl)) as Hhd.
  pose proof Hp as [Hbm _ _ Ho _ _].
  unfold tcp_send_ack. rewrite ip_swap_dst_swapped by mem. cbn [mbind option_bind].
  rewrite tcp_switch_port_in by mem. cbn [mbind option_bind]. run.
  match goal with |- context [Z.land ?v 15 * 4] => replace (Z.land v 15 * 4) with offset end.
  2:{ unfold ports_swapped. pkt. exact Ho. }
  assert (Z.shiftr (getf (ports_swapped (swapped m 0) offset) offset tcp_data_offset) 4 * 4
          = tcp_hlen_of m offset) as Hhl by (unfold tcp_hlen_of, ports_swapped; pkt; done).
  rewrite Hhl. unfold deref. rewrite Hn. cbn [mbind option_bind]. run. rewrite Z.add_0_r.
  unfold ack_head in *. cbv zeta in *. change (upd ?x (offset + tcp_hlen_of m offset) []) with x in *.
  destruct s as [hp hd sz]. apply (send_ack_end m); [done|].
  eapply head_ready; [done|exact Hhd| |]; lia.
Qed.

(** The instance once [n] more bytes are sent on the block at [p]. *)
Definition sent_block (b : Block) (next : Z) : Block :=
  MkBlock (b_id b) (b_state b)
    (MkSendS (ss_unac (b_send b)) next (ss_window (b_send b)) (ss_iss (b_send b)))
    (b_recv b) (b_recv_buffer b) (b_recv_size b) (b_recv_consumed b).

Lemma tcp_send_ack_body m s p n offset data :
  tcp_packet m offset -> h_cells (s_heap s) !! p = Some n -> bytes_ok data -> data <> [] ->
  20 <= tcp_hlen_of m offset ->
  offset + tcp_hlen_of m offset + Z.of_nat (length data) <= MTU_SIZE + 1 ->
  tcp_send_ack m s 0 offset p (Some data) (Z.of_nat (length data))
  = next ← int_add (ss_next (b_send (n_tcb n))) (Z.of_nat (length data));
    Some (closed_seg (ack_head m (n_tcb n) offset (Z.lor PSH ACK)
                        (tcp_hlen_of m offset + Z.of_nat (length data)) data)
            offset (tcp_hlen_of m offset + Z.of_nat (length data)),
          with_block s p n (sent_block (n_tcb n) next)).
Proof.
  intros Hp Hn Hd Hne H20 Hfit. pose proof (tcp_packet_range _ _ Hp) as (Hr & Hs & Hh).
  unfold MTU_SIZE in Hfit.
  assert (0 < Z.of_nat (length data)) as Hlen by (destruct data; [done|cbn; lia]).
  pose proof (ack_head_of m (n_tcb n) offset (Z.lor PSH ACK)
    (tcp_hlen_of m offset + Z.of_nat (length data)) data Hp
    ltac:(vm_compute; split; [discriminate|reflexivity]) Hd (or_intror H20)) as Hhd.
  pose proof Hp as [Hbm _ _ Ho _ _].
  unfold tcp_send_ack. rewrite ip_swap_dst_swapped by mem. cbn [mbind option_bind].
  rewrite tcp_switch_port_in by mem. cbn [mbind option_bind]. run.
  match goal with |- context [Z.land ?v 15 * 4] => replace (Z.land v 15 * 4) with offset end.
  2:{ unfold ports_swapped. pkt. exact Ho. }
  assert (Z.shiftr (getf (ports_swapped (swapped m 0) offset) offset tcp_data_offset) 4 * 4
          = tcp_hlen_of m offset) as Hhl by (unfold tcp_hlen_of, ports_swapped; pkt; done).
  rewrite Hhl. unfold deref. rewrite Hn. cbn [mbind option_bind]. run. destruct (0 <? _) eqn:E; [clear E|lia]. run.
  rewrite rd_all by done. run.
  destruct (int_add _ _) as [nx|]; [|done]. cbn [mbind option_bind].
  unfold assign. rewrite Hn. cbn [mbind option_bind].
  unfold ack_head in *. cbv zeta in *. rewrite <- (Z.add_assoc offset).
  apply (send_ack_end m); [done|]. eapply head_ready; [done|exact Hhd| |]; lia.
Qed.

(** ** Properties *)

(** The reset of the first version follows RFC 793: against a segment with ACK it carries
    RST and the acknowledged number as its own; otherwise it carries RST and ACK, sequence
    number zero, and acknowledges everything the segment occupies, SYN and FIN counted.
    Addresses and ports are exchanged and both checksums verify. *)
Theorem old_rst_correct m offset :
  tcp_packet m offset ->
  exists m', tcp_null_rst m 0 offset = Some m' /\
    let '(seq, ack, flags) := rst_numbers m offset in
    reply_of m m' offset (tcp_hlen_of m offset) seq ack flags.
Proof.
  intros Hp. rewrite tcp_null_rst_in by done. pose proof (tcp_packet_range _ _ Hp) as (Hr & Hs & Hh).
  destruct (rst_numbers m offset) as [[s a] f] eqn:E. eexists. split; [done|].
  apply reply_closed; [done| |lia|lia]. apply null_rst_head_of; [done|].
  unfold rst_numbers in E. destruct (truth _); injection E as _ _ <-; vm_compute; split;
    (discriminate || reflexivity).
Qed.

(** A TCP packet without payload in the first version's buffer. *)
Definition old_sample (flags seq ack : Z) : bytes :=
  let m := setf (replicate 1501 0) 0 ip_version_ihl 69 in
  let m := setf (setf m 0 ip_len (htons 40)) 0 ip_proto 6 in
  let m := setf (setf m 0 ip_src 16777226) 0 ip_dst 33554442 in
  let m := setf (setf m 20 tcp_src_port 16540) 20 tcp_dst_port 36895 in
  let m := setf (setf m 20 tcp_seq_num (htonl seq)) 20 tcp_ack_num (htonl ack) in
  setf (setf m 20 tcp_data_offset 80) 20 tcp_flags flags.

Lemma old_sample_packet flags seq ack : tcp_packet (old_sample flags seq ack) 20.
Proof.
  unfold old_sample. cbv zeta.
  assert (Z.of_nat (length (replicate 1501 0)) = 1501) as Hz by (by rewrite length_replicate).
  assert (bytes_ok (replicate 1501 0)) as Hb by (apply Forall_replicate; unfold byte_ok; lia).
  set (z := replicate 1501 0) in *. clearbody z. split; unfold ihl_of; try (fields; reflexivity).
  - repeat apply setf_ok. done.
  - rewrite !length_setf. done.
Qed.

Lemma old_rst_correct_witness :
  exists m', tcp_null_rst (old_sample ACK 7 77) 0 20 = Some m' /\
    ntohl (getf m' 20 tcp_seq_num) = 77 /\ getf m' 20 tcp_flags = RST.
Proof.
  destruct (old_rst_correct (old_sample ACK 7 77) 20 (old_sample_packet ACK 7 77)) as (m' & H & Hr).
  exists m'. split; [exact H|]. pose proof (rp_seq _ _ _ _ _ _ _ Hr) as H1.
  pose proof (rp_flags _ _ _ _ _ _ _ Hr) as H2. rewrite H1, H2. vm_compute. split; reflexivity.
Defined.
