(* ===== verification/Http.v ===== *)
(** * HTTP responses

    [network/http/http.c]: the one file served, and the error responses.  The file system
    is a reading of the environment: whether the file opens, its contents, and how many
    bytes [fread] delivers; so is whether the allocator grants the buffers, whose results
    the code uses unchecked. *)
From Stdlib Require Import String Ascii.
From S2P Require Import Prelude Memory Checksum Format.

Record File_Env := MkFile {
  fe_file : option bytes;
  fe_read : Z;
  fe_memory : bool;
}.

(** ** Operations *)

Definition not_found : bytes := chars "HTTP/1.1 404 Not Found" ++ CRLF ++ CRLF.
Definition server_error : bytes := chars "HTTP/1.1 500 Internal Server Error" ++ CRLF ++ CRLF.
Definition bad_request : bytes := chars "HTTP/1.1 400 Bad Request" ++ CRLF ++ CRLF.

Definition headers (file_size : Z) : bytes :=
  chars "HTTP/1.1 200 OK" ++ CRLF ++ chars "Content-Type: text/html" ++ CRLF ++
  chars "Content-Length: " ++ print_long file_size ++ CRLF ++
  chars "Connection: close" ++ CRLF ++ CRLF.

(** The response and [*message_len]. *)
Definition http_serve_file (env : File_Env) : option (bytes * Z) :=
  if negb (fe_memory env) then None else
  match fe_file env with
  | None => Some (not_found, Z.of_nat (List.length not_found))
  | Some file_content =>
      let file_size := Z.of_nat (List.length file_content) in
      if negb (fe_read env =? file_size) then Some (server_error, Z.of_nat (List.length server_error))
      else
        let h := headers file_size in
        let header_len := Z.of_nat (List.length h) in
        if 256 <=? header_len then None else
        let message_len := s32 (header_len + file_size) in
        response ← (if 0 <=? message_len then Some (replicate (Z.to_nat message_len) 0) else None);
        response ← store_bytes response 0 h;
        response ← store_bytes response header_len file_content;
        Some (response, message_len)
  end.

Definition GET : bytes := chars "GET ".

(** [strncmp(data, pat, |pat|) == 0]: bytes are read up to the first difference. *)
Fixpoint prefix_at (m : bytes) (data : Z) (pat : bytes) : option bool :=
  match pat with
  | [] => Some true
  | c :: pat => b ← get m data octet; if b =? c then prefix_at m (data + 1) pat else Some false
  end.

Definition http_handle_request (env : File_Env) (m : bytes) (data data_len : Z) : option (bytes * Z) :=
  get_ ← (if 4 <=? data_len then prefix_at m data GET else Some false);
  if (get_ : bool) then http_serve_file env
  else if negb (fe_memory env) then None
  else Some (bad_request, Z.of_nat (List.length bad_request)).

(** ** Lemmas *)

Lemma headers_length n : 0 <= n < 10 ^ 19 -> Z.of_nat (List.length (headers n)) <= 120.
Proof.
  intros Hn. destruct (print_long_read n Hn) as [_ Hl]. unfold headers. rewrite !length_app.
  remember (List.length (print_long n)) as k. cbn. lia.
Qed.

Lemma prefix_at_spec m p pat :
  bytes_ok m -> 0 <= p -> p + Z.of_nat (List.length pat) <= Z.of_nat (List.length m) ->
  prefix_at m p pat = Some (bool_decide (rd m p (Z.of_nat (List.length pat)) = pat)).
Proof.
  intros Hm. revert p. induction pat as [|c pat IH]; intros p Hp Hl; cbn [prefix_at].
  { rewrite bool_decide_true; [done|]. unfold rd. cbn. apply take_0. }
  cbn [List.length] in *. run.
  replace (Z.of_nat (S (List.length pat))) with (1 + Z.of_nat (List.length pat)) by lia.
  rewrite rd_cons by lia. set (b := getf m p octet).
  destruct (b =? c) eqn:E.
  - rewrite IH by lia. f_equal. apply Z.eqb_eq in E as ->. apply bool_decide_ext.
    split; [by intros ->|by intros [= ->]].
  - rewrite bool_decide_false; [done|]. intros [= -> _]. lia.
Qed.

(** A file that opens and is read whole. *)
Lemma serve_whole_file env content :
  fe_memory env = true -> fe_file env = Some content ->
  Z.of_nat (List.length content) <= 2147483000 -> fe_read env = Z.of_nat (List.length content) ->
  http_serve_file env
  = Some (headers (Z.of_nat (List.length content)) ++ content,
          Z.of_nat (List.length (headers (Z.of_nat (List.length content)) ++ content))).
Proof.
  intros Hmem Hf Hlen Hread. unfold http_serve_file. rewrite Hmem, Hf, Hread, Z.eqb_refl. cbn [negb].
  pose proof (headers_length (Z.of_nat (List.length content)) ltac:(lia)) as Hh.
  cbv zeta. set (h := headers _) in *. destruct (256 <=? _) eqn:E; [lia|clear E].
  rewrite s32_id by lia. destruct (0 <=? _) eqn:E; [clear E|lia]. cbn [mbind option_bind].
  rewrite length_app. set (z := replicate _ 0).
  assert (Z.of_nat (List.length z) = Z.of_nat (List.length h) + Z.of_nat (List.length content)) as Hz
    by (subst z; rewrite length_replicate; lia).
  clearbody z h. rewrite store_bytes_in by lia. cbn [mbind option_bind].
  rewrite store_bytes_in by (rewrite ?length_upd; lia). cbn [mbind option_bind].
  do 2 f_equal; [|lia]. rewrite <- (rd_all (upd _ _ content) (Z.of_nat (List.length z)))
    by (rewrite !length_upd; lia).
  rewrite Hz, rd_app by lia. rewrite Z.add_0_l. f_equal.
  - rewrite rd_upd_other by lia. apply rd_upd_same; lia.
  - apply rd_upd_same; rewrite ?length_upd; lia.
Qed.

(** A request for the file. *)
Lemma http_get_served env m data len :
  bytes_ok m -> 0 <= data -> data + len <= Z.of_nat (List.length m) -> 4 <= len ->
  rd m data 4 = GET -> http_handle_request env m data len = http_serve_file env.
Proof.
  intros Hm Hp Hl H4 Hget. unfold http_handle_request. destruct (4 <=? len) eqn:E; [clear E|lia].
  rewrite prefix_at_spec by (try done; cbn; lia). change (Z.of_nat (List.length GET)) with 4.
  rewrite Hget, bool_decide_true by done. done.
Qed.

(** A response is [message_len] bytes, at least one, and they are bytes. *)
Lemma crlf_ok : bytes_ok CRLF.
Proof. repeat constructor; unfold byte_ok; lia. Qed.

#[local] Hint Resolve chars_ok crlf_ok print_long_ok Forall_app_2 : http.

Lemma http_serve_file_ok env r n :
  (forall f, fe_file env = Some f -> bytes_ok f) -> http_serve_file env = Some (r, n) ->
  n = Z.of_nat (List.length r) /\ r <> [] /\ bytes_ok r.
Proof.
  intros Hf. unfold http_serve_file. destruct (negb _); [done|].
  destruct (fe_file env) as [f|] eqn:Ef.
  2:{ intros [= <- <-]. split; [done|]. split; [done|]. unfold not_found. auto with http. }
  destruct (negb _).
  { intros [= <- <-]. split; [done|]. split; [done|]. unfold server_error. auto with http. }
  cbv zeta. destruct (256 <=? _); [done|]. destruct (0 <=? _) eqn:E; [|done]. cbn [mbind option_bind].
  set (len := s32 _) in *. intros H.
  apply bind_Some in H as (m1 & H1 & (m2 & H2 & [= <- <-])%bind_Some).
  apply store_bytes_Some in H1 as [Hin ->], H2 as [_ ->]. rewrite length_replicate in Hin.
  assert (Z.of_nat (List.length (upd (upd (replicate (Z.to_nat len) 0) 0
    (headers (Z.of_nat (List.length f)))) (Z.of_nat (List.length (headers (Z.of_nat (List.length f))))) f)) = len) as Hl
    by (rewrite !length_upd, length_replicate; lia).
  split; [symmetry; exact Hl|]. split.
  - intros H. rewrite H in Hl. cbn in Hl.
    assert (0 < Z.of_nat (List.length (headers (Z.of_nat (List.length f))))) by (unfold headers; rewrite length_app; cbn; lia).
    lia.
  - apply upd_ok; [apply upd_ok|by apply Hf].
    + apply Forall_replicate. unfold byte_ok. lia.
    + unfold headers. auto 20 with http.
Qed.

Lemma http_handle_request_ok env m p len r n :
  (forall f, fe_file env = Some f -> bytes_ok f) -> http_handle_request env m p len = Some (r, n) ->
  n = Z.of_nat (List.length r) /\ r <> [] /\ bytes_ok r.
Proof.
  intros Hf. unfold http_handle_request.
  destruct (if _ <=? _ then _ else _) as [[]|]; cbn [mbind option_bind]; [by apply http_serve_file_ok| |done].
  destruct (negb _); [done|]. intros [= <- <-]. split; [done|]. split; [done|].
  unfold bad_request. auto with http.
Qed.

(** ** Properties *)

(** C38 Serving the file: when it opens and is read whole, and is small enough for its
    size to fit an [int] beside the headers, the response is the status line and the four
    header lines written out here, then the file, and [message_len] is the length of what
    is sent; between [Content-Length: ] and the end of its line are decimal digits that
    read as the number of bytes after the headers.  A missing file and a short read give
    the 404 and 500 responses, and a refused allocation leaves the call undefined. *)
Theorem http_serve_file_correct env :
  (fe_memory env = false -> http_serve_file env = None) /\
  (fe_memory env = true ->
   match fe_file env with
   | None => http_serve_file env = Some (chars "HTTP/1.1 404 Not Found" ++ [13; 10; 13; 10], 26)
   | Some content =>
       Z.of_nat (List.length content) <= 2147483000 ->
       (fe_read env <> Z.of_nat (List.length content) ->
        http_serve_file env = Some (chars "HTTP/1.1 500 Internal Server Error" ++ [13; 10; 13; 10], 38)) /\
       (fe_read env = Z.of_nat (List.length content) ->
        exists number response,
          http_serve_file env = Some (response, Z.of_nat (List.length response)) /\
          response = chars "HTTP/1.1 200 OK" ++ [13; 10] ++ chars "Content-Type: text/html" ++ [13; 10] ++
            chars "Content-Length: " ++ number ++ [13; 10] ++ chars "Connection: close" ++ [13; 10] ++
            [13; 10] ++ content /\
          number <> [] /\ Forall (fun d => 48 <= d <= 57) number /\
          read_dec number = Z.of_nat (List.length content))
   end).
Proof.
  split; [intros Hmem; unfold http_serve_file; by rewrite Hmem|].
  intros Hmem. destruct (fe_file env) as [content|] eqn:Ef.
  2:{ unfold http_serve_file. rewrite Hmem, Ef. done. }
  intros Hlen. split; intros Hread.
  - unfold http_serve_file. rewrite Hmem, Ef. cbn [negb]. destruct (_ =? _) eqn:E; [lia|done].
  - set (n := Z.of_nat (List.length content)) in *. assert (0 <= n < 10 ^ 19) as Hn by lia.
    exists (print_long n), (headers n ++ content). split; [by apply serve_whole_file|].
    split; [unfold headers, CRLF; rewrite <- !app_assoc; reflexivity|].
    split; [apply print_long_nonempty; lia|]. split; [apply print_long_digits; lia|]. by apply print_long_read.
Qed.

Lemma http_serve_file_correct_witness :
  exists response, http_serve_file (MkFile (Some [60; 112; 62]) 3 true) = Some (response, 85) /\
    List.length response = 85%nat.
Proof.
  destruct (http_serve_file_correct (MkFile (Some [60; 112; 62]) 3 true)) as [_ H].
  destruct (H eq_refl ltac:(vm_compute; discriminate)) as [_ H2].
  destruct (H2 eq_refl) as (number & response & Hs & _). exists response.
  assert (http_serve_file (MkFile (Some [60; 112; 62]) 3 true) = Some (headers 3 ++ [60; 112; 62], 85)) as E
    by (vm_compute; reflexivity).
  rewrite E in Hs. injection Hs as <- _. split; [exact E|reflexivity].
Defined.
