(* ===== verification/OldTcp.v ===== *)
(** * The TCP handler of the first version

    [tcp_got_rst], [tcp_handle_data] and [tcp_dispatch] of [network/tcp/tcp.c], over the
    list of [OldList.v] and the segments of [OldSegment.v].  What they print is in
    [OldVerbose.v]. *)
From S2P Require Import Prelude Memory Checksum Ip TcpHeader Heap Table OldList OldNet OldSegment Http.

(** Readings of the environment during one call. *)
Record Old_Env := MkOldEnv { oe_sec : Z; oe_usec : Z; oe_rand : Z; oe_file : File_Env }.

Definition env_ticks (env : Old_Env) : Z := tcp_get_ticks (oe_sec env) (oe_usec env) (oe_rand env).

(** ** Operations *)

(** [*tcb = b], the link kept. *)
Definition put_block (s : Instance_) (p : loc) (b : Block) : option Instance_ :=
  n ← deref (s_heap s) p;
  h ← assign (s_heap s) p (MkNode b (n_next n));
  Some (MkInstance h (s_head s) (s_size s)).

Definition b_with_state (b : Block) (st : TCP_State) : Block :=
  MkBlock (b_id b) st (b_send b) (b_recv b) (b_recv_buffer b) (b_recv_size b) (b_recv_consumed b).
Definition b_with_unac (b : Block) (v : Z) : Block :=
  MkBlock (b_id b) (b_state b) (MkSendS v (ss_next (b_send b)) (ss_window (b_send b)) (ss_iss (b_send b)))
    (b_recv b) (b_recv_buffer b) (b_recv_size b) (b_recv_consumed b).
Definition b_with_next (b : Block) (v : Z) : Block :=
  MkBlock (b_id b) (b_state b) (b_send b) (MkRecvS v (rs_window (b_recv b)) (rs_irs (b_recv b)))
    (b_recv_buffer b) (b_recv_size b) (b_recv_consumed b).

(** The sequence number is used as it lies in memory. *)
Definition tcp_got_rst (m : bytes) (tcp : Z) (tcb : loc) (s : Instance_) : option (bool * Instance_) :=
  rst_seq ← get m tcp tcp_seq_num;
  n ← deref (s_heap s) tcb;
  let rv := b_recv (n_tcb n) in
  inside ← (if SEQ_GEQ rst_seq (rs_next rv) then
              e ← int_add (rs_next rv) (rs_window rv); Some (SEQ_LT rst_seq e)
            else Some false);
  if (inside : bool) then s ← tcp_remove_connection s tcb; Some (false, s)
  else Some (true, s).

Definition tcp_handle_data (env : Old_Env) (m : bytes) (s : Instance_) (ip tcp : Z) (tcb : loc)
    : option (Z * bytes * Instance_) :=
  vi ← get m ip ip_version_ihl;
  let ip_hl := Z.land vi 15 * 4 in
  doff ← get m tcp tcp_data_offset;
  let tcp_hl := Z.shiftr doff 4 * 4 in
  l ← get m ip ip_len;
  let data_len := ntohs l - ip_hl - tcp_hl in
  if data_len <=? 0 then Some (TCP_SILENT, m, s) else
  let data := ip + ip_hl + tcp_hl in
  '(http_response, message_len) ← http_handle_request (oe_file env) m data data_len;
  n ← deref (s_heap s) tcb;
  next ← int_add (rs_next (b_recv (n_tcb n))) data_len;
  s ← put_block s tcb (b_with_next (n_tcb n) next);
  '(m, s) ← tcp_send_ack m s ip tcp tcb (Some http_response) message_len;
  Some (0, m, s).

(** [tcp_dispatch] when the list does not hold the connection. *)
Definition dispatch_new (env : Old_Env) (m : bytes) (ip tcp : Z) (s : Instance_)
    (id : TCP_Connection_ID) (syn ack rst : bool) : option (Z * bytes * Instance_) :=
  if rst then Some (TCP_SILENT, m, s) else
  if syn && negb ack then
    let '(tcb, h) := tcp_init_tcb (s_heap s) id in
    let s := MkInstance h (s_head s) (s_size s) in
    s ← tcp_insert_tcb s tcb;
    '(m, s) ← tcp_null_syn_ack (env_ticks env) m s ip tcp tcb;
    Some (match tcb with None => TCP_SILENT | Some _ => 0 end, m, s)
  else
    m ← tcp_null_rst m ip tcp;
    Some (0, m, s).

(** The case [TCP_SYN_RECEIVED] of the switch. *)
Definition dispatch_half_open (env : Old_Env) (m : bytes) (ip tcp : Z) (s : Instance_) (p : loc)
    (b : Block) (syn ack : bool) : option (Z * bytes * Instance_) :=
  '(m, s) ←
    (if syn && negb ack then tcp_null_syn_ack (env_ticks env) m s ip tcp (Some p)
     else if ack && negb syn then
       a ← get m tcp tcp_ack_num;
       let ack_num := ntohl a in
       if ack_num =? u32 (ss_next (b_send b)) then
         s ← put_block s p (b_with_unac (b_with_state b TCP_ESTABLISHED) (s32 ack_num));
         Some (m, s)
       else Some (m, s)
     else Some (m, s));
  Some (TCP_SILENT, m, s).

(** The case [TCP_ESTABLISHED]. *)
Definition dispatch_established (env : Old_Env) (m : bytes) (ip tcp : Z) (s : Instance_) (p : loc)
    (b : Block) (fin : bool) : option (Z * bytes * Instance_) :=
  if fin then
    sq ← get m tcp tcp_seq_num;
    s ← put_block s p (b_with_next b (s32 (u32 (ntohl sq + 1))));
    '(m, s) ← tcp_send_ack m s ip tcp p None 0;
    n ← deref (s_heap s) p;
    s ← put_block s p (b_with_state (n_tcb n) TCP_CLOSE_WAIT);
    Some (0, m, s)
  else tcp_handle_data env m s ip tcp p.

Definition tcp_dispatch (env : Old_Env) (m : bytes) (ip tcp : Z) (s : Instance_)
    : option (Z * bytes * Instance_) :=
  si ← get m ip ip_src;
  di ← get m ip ip_dst;
  sp ← get m tcp tcp_src_port;
  dp ← get m tcp tcp_dst_port;
  let id := MkCID (s32 si) sp (s32 di) dp in
  flags ← get m tcp tcp_flags;
  let syn := truth (Z.land flags SYN) in
  let ack := truth (Z.land flags ACK) in
  let fin := truth (Z.land flags FIN) in
  let rst := truth (Z.land flags RST) in
  con_state ← tcp_get_state s id;
  match con_state with
  | None => dispatch_new env m ip tcp s id syn ack rst
  | Some p =>
      if rst then
        '(_, s) ← tcp_got_rst m tcp p s;
        Some (TCP_SILENT, m, s)
      else
        n ← deref (s_heap s) p;
        match b_state (n_tcb n) with
        | TCP_SYN_RECEIVED => dispatch_half_open env m ip tcp s p (n_tcb n) syn ack
        | TCP_ESTABLISHED => dispatch_established env m ip tcp s p (n_tcb n) fin
        | _ => Some (TCP_SILENT, m, s)
        end
  end.

(** ** Specification *)

Definition old_id (m : bytes) (offset : Z) : TCP_Connection_ID :=
  MkCID (s32 (getf m 0 ip_src)) (getf m offset tcp_src_port) (s32 (getf m 0 ip_dst))
    (getf m offset tcp_dst_port).
Definition old_has (m : bytes) (offset flag : Z) : bool :=
  truth (Z.land (getf m offset tcp_flags) flag).

(** ** Lemmas *)

Lemma put_block_conns s p b b' :
  closed s -> inst_vals s !! p = Some b -> b_id b' = b_id b ->
  exists s', put_block s p b' = Some s' /\ closed s' /\ h_oom (s_heap s') = h_oom (s_heap s) /\
    inst_vals s' = <[p := b']> (inst_vals s) /\ conns s' = <[b_id b := b']> (conns s).
Proof.
  intros Hc Hp Hid. destruct (assign_conns s p b b' Hc Hp Hid) as (s' & Ha & H). exists s'.
  split; [|exact H]. cbn in Ha. unfold inst_assign in Ha. exact Ha.
Qed.

Lemma with_block_put s p n b :
  h_cells (s_heap s) !! p = Some n -> put_block s p b = Some (with_block s p n b).
Proof.
  intros Hp. unfold put_block, deref, assign. rewrite Hp. done.
Qed.

(** The node behind a block of the table. *)
Lemma inst_vals_node s p b :
  inst_vals s !! p = Some b -> exists n, h_cells (s_heap s) !! p = Some n /\ n_tcb n = b.
Proof. rewrite inst_vals_lookup. intros (n & Hn & ->)%fmap_Some. eauto. Qed.

(** A connection the list does not hold, and one it holds. *)
Lemma dispatch_unknown env m offset s :
  tcp_packet m offset -> closed s -> conns s !! old_id m offset = None ->
  tcp_dispatch env m 0 offset s
  = dispatch_new env m 0 offset s (old_id m offset) (old_has m offset SYN) (old_has m offset ACK)
      (old_has m offset RST).
Proof.
  intros Hp Hc Hnone. pose proof (tcp_packet_range _ _ Hp) as (Hr & Hs & _).
  destruct (find_conns s (old_id m offset) Hc) as (r & Hf & Hres).
  change (tcp_get_state s (old_id m offset) = Some r) in Hf.
  destruct r as [p|]; [destruct Hres as (x & _ & _ & Hx); congruence|].
  unfold tcp_dispatch. run. fold (old_id m offset). rewrite Hf. done.
Qed.

Lemma dispatch_found env m offset s b :
  tcp_packet m offset -> closed s -> conns s !! old_id m offset = Some b ->
  exists p n, h_cells (s_heap s) !! p = Some n /\ n_tcb n = b /\ b_id b = old_id m offset /\
    tcp_dispatch env m 0 offset s
    = if old_has m offset RST then '(_, s) ← tcp_got_rst m offset p s; Some (TCP_SILENT, m, s)
      else
        match b_state b with
        | TCP_SYN_RECEIVED =>
            dispatch_half_open env m 0 offset s p b (old_has m offset SYN) (old_has m offset ACK)
        | TCP_ESTABLISHED => dispatch_established env m 0 offset s p b (old_has m offset FIN)
        | _ => Some (TCP_SILENT, m, s)
        end.
Proof.
  intros Hp Hc Hb. pose proof (tcp_packet_range _ _ Hp) as (Hr & Hs & _).
  destruct (find_conns s (old_id m offset) Hc) as (r & Hf & Hres).
  change (tcp_get_state s (old_id m offset) = Some r) in Hf.
  destruct r as [p|]; [|congruence]. destruct Hres as (x & Hv & Hid & Hx).
  assert (x = b) as -> by congruence. destruct (inst_vals_node _ _ _ Hv) as (n & Hn & Hnb).
  exists p, n. split; [done|]. split; [done|]. split; [done|].
  unfold tcp_dispatch. run. fold (old_id m offset). rewrite Hf. cbn [mbind option_bind].
  change (truth (Z.land (getf m offset tcp_flags) RST)) with (old_has m offset RST).
  destruct (old_has m offset RST); [done|].
  unfold deref. rewrite Hn. cbn [mbind option_bind]. by rewrite Hnb.
Qed.

Lemma with_block_conns s p n b :
  closed s -> h_cells (s_heap s) !! p = Some n -> b_id b = b_id (n_tcb n) ->
  closed (with_block s p n b) /\ h_oom (s_heap (with_block s p n b)) = h_oom (s_heap s) /\
  h_cells (s_heap (with_block s p n b)) !! p = Some (MkNode b (n_next n)) /\
  conns (with_block s p n b) = <[b_id b := b]> (conns s).
Proof.
  intros Hc Hn Hid. assert (inst_vals s !! p = Some (n_tcb n)) as Hv
    by (rewrite inst_vals_lookup, Hn; done).
  destruct (put_block_conns s p (n_tcb n) b Hc Hv Hid) as (s' & Hput & Hc' & Ho & _ & Hcs).
  rewrite (with_block_put _ _ _ _ Hn) in Hput. injection Hput as <-.
  rewrite Hid. split; [done|]. split; [done|]. split; [apply lookup_insert_eq|done].
Qed.

Lemma open_block_id b sq w t b' : open_block b sq w t = Some b' -> b_id b' = b_id b.
Proof.
  unfold open_block. intros (x & _ & (y & _ & [= <-])%bind_Some)%bind_Some. done.
Qed.

(** ** The handler on one connection

    What [tcp_dispatch] does, told of the block of its connection alone ([None]: there is
    none): the value returned, the packet left in the buffer, the block afterwards. *)

Definition syn_ack_seg (m : bytes) (b : Block) (offset : Z) : bytes :=
  closed_seg (null_syn_ack_head m b offset) offset (tcp_hlen_of m offset).
Definition ack_seg (m : bytes) (b : Block) (offset flags : Z) (body : bytes) : bytes :=
  let n := tcp_hlen_of m offset + Z.of_nat (length body) in
  closed_seg (ack_head m b offset flags n body) offset n.
Definition rst_seg (m : bytes) (offset : Z) : bytes :=
  let '(s, a, f) := rst_numbers m offset in
  closed_seg (null_rst_head m offset s a f) offset (tcp_hlen_of m offset).

Definition open_spec (env : Old_Env) (m : bytes) (offset : Z) (b : Block) : option Block :=
  open_block b (getf m offset tcp_seq_num) (getf m offset tcp_window) (env_ticks env).

Definition data_spec (env : Old_Env) (m : bytes) (offset : Z) (b : Block)
    : option (Z * bytes * option Block) :=
  let data_len := claimed m - offset - tcp_hlen_of m offset in
  if data_len <=? 0 then Some (TCP_SILENT, m, Some b) else
  '(response, len) ← http_handle_request (oe_file env) m (offset + tcp_hlen_of m offset) data_len;
  next ← int_add (rs_next (b_recv b)) data_len;
  sent ← int_add (ss_next (b_send b)) len;
  Some (0, ack_seg m (b_with_next b next) offset (Z.lor PSH ACK) response,
        Some (sent_block (b_with_next b next) sent)).

Definition block_spec (env : Old_Env) (m : bytes) (offset : Z) (b : Block)
    : option (Z * bytes * option Block) :=
  let has := old_has m offset in
  if has RST then
    let seq := getf m offset tcp_seq_num in
    inside ← (if SEQ_GEQ seq (rs_next (b_recv b)) then
                e ← int_add (rs_next (b_recv b)) (rs_window (b_recv b)); Some (SEQ_LT seq e)
              else Some false);
    Some (TCP_SILENT, m, if (inside : bool) then None else Some b)
  else
    match b_state b with
    | TCP_SYN_RECEIVED =>
        if has SYN && negb (has ACK) then
          b' ← open_spec env m offset b;
          Some (TCP_SILENT, syn_ack_seg m b' offset, Some b')
        else
          let ack_num := ntohl (getf m offset tcp_ack_num) in
          Some (TCP_SILENT, m, Some
            (if has ACK && negb (has SYN) && (ack_num =? u32 (ss_next (b_send b)))
             then b_with_unac (b_with_state b TCP_ESTABLISHED) (s32 ack_num) else b))
    | TCP_ESTABLISHED =>
        if has FIN then
          let b := b_with_next b (s32 (u32 (ntohl (getf m offset tcp_seq_num) + 1))) in
          Some (0, ack_seg m b offset ACK [], Some (b_with_state b TCP_CLOSE_WAIT))
        else data_spec env m offset b
    | _ => Some (TCP_SILENT, m, Some b)
    end.

Definition old_spec (env : Old_Env) (m : bytes) (offset : Z) (o : option Block)
    : option (Z * bytes * option Block) :=
  match o with
  | Some b => block_spec env m offset b
  | None =>
      let has := old_has m offset in
      if has RST then Some (TCP_SILENT, m, None)
      else if has SYN && negb (has ACK) then
        b ← open_spec env m offset (fresh_block (old_id m offset));
        Some (0, syn_ack_seg m b offset, Some b)
      else Some (0, rst_seg m offset, None)
  end.

(** The map with [o] as the block of [id]. *)
Definition with_conn (M : gmap TCP_Connection_ID Block) (id : TCP_Connection_ID) (o : option Block) :=
  match o with Some b => <[id := b]> M | None => delete id M end.

Lemma with_conn_self M id : with_conn M id (M !! id) = M.
Proof. unfold with_conn. destruct (M !! id) eqn:E; [by apply insert_id|by apply delete_id]. Qed.

(** The outcome of a call: the same value and packet, and a list that holds the new block
    under the connection's id and is otherwise what it was. *)
Definition implements (s : Instance_) (id : TCP_Connection_ID) (r : option (Z * bytes * Instance_))
    (spec : option (Z * bytes * option Block)) : Prop :=
  match spec with
  | None => r = None
  | Some (v, m', o) =>
      exists s', r = Some (v, m', s') /\ closed s' /\ h_oom (s_heap s') = h_oom (s_heap s) /\
        conns s' = with_conn (conns s) id o
  end.

Lemma implements_same s id v m' :
  closed s -> implements s id (Some (v, m', s)) (Some (v, m', conns s !! id)).
Proof. intros Hc. exists s. rewrite with_conn_self. done. Qed.

Lemma implements_same_block s id v m' b :
  closed s -> conns s !! id = Some b -> implements s id (Some (v, m', s)) (Some (v, m', Some b)).
Proof. intros Hc <-. by apply implements_same. Qed.

Lemma implements_with s p n b v m' :
  closed s -> h_cells (s_heap s) !! p = Some n -> b_id b = b_id (n_tcb n) ->
  implements s (b_id b) (Some (v, m', with_block s p n b)) (Some (v, m', Some b)).
Proof.
  intros Hc Hn Hid. destruct (with_block_conns s p n b Hc Hn Hid) as (? & ? & _ & ?).
  by exists (with_block s p n b).
Qed.

(** The allocator grants every request. *)
Definition granting (s : Instance_) : Prop := forall k, h_oom (s_heap s) k = false.

(** *** The branches *)

Lemma tcp_null_syn_ack_spec env m s p n offset :
  tcp_packet m offset -> h_cells (s_heap s) !! p = Some n ->
  tcp_null_syn_ack (env_ticks env) m s 0 offset (Some p)
  = b ← open_spec env m offset (n_tcb n); Some (syn_ack_seg m b offset, with_block s p n b).
Proof.
  intros Hp Hn. pose proof (tcp_packet_range _ _ Hp) as (Hr & Hs & _). unfold open_spec.
  destruct (open_block _ _ _ _) as [b|] eqn:Hb; cbn [mbind option_bind].
  - by apply tcp_null_syn_ack_in.
  - unfold tcp_null_syn_ack, deref. cbn [mbind option_bind]. rewrite Hn. run. by rewrite Hb.
Qed.

Lemma dispatch_new_spec env m offset s :
  tcp_packet m offset -> closed s -> granting s ->
  conns s !! old_id m offset = None -> Z.of_nat (size (conns s)) < TABLE_MAX ->
  implements s (old_id m offset)
    (dispatch_new env m 0 offset s (old_id m offset) (old_has m offset SYN)
       (old_has m offset ACK) (old_has m offset RST)) (old_spec env m offset None).
Proof.
  intros Hp Hc Hq Hnone Hmax. unfold dispatch_new, old_spec.
  destruct (old_has m offset RST); [rewrite <- Hnone; by apply implements_same|].
  destruct (_ && _).
  2:{ rewrite tcp_null_rst_in by done. unfold rst_seg.
      destruct (rst_numbers m offset) as [[q a] f]. cbn [mbind option_bind].
      rewrite <- Hnone. by apply implements_same. }
  destruct (create_conns s (fresh_block (old_id m offset))) as
    [s' _ _ _ _ [k Hk]|p s' s'' s''' _ _ _ _ _ _ [k Hk]|p s' s'' Ha Hi Hv Hc' Ho Hcs];
    try done.
  { pose proof (Hq k). cbn in Hk. congruence. }
  { pose proof (Hq k). cbn in Hk. congruence. }
  unfold tcp_init_tcb. change (inst_alloc s (fresh_block (old_id m offset)) = (Some p, s')) in Ha.
  unfold inst_alloc in Ha. destruct (alloc _ _) as [q h]. injection Ha as -> <-.
  apply bind_Some in Hi as (s2 & Hi & [= ->]). rewrite Hi. cbn [mbind option_bind].
  destruct (inst_vals_node _ _ _ Hv) as (n & Hn & Hnb).
  rewrite (tcp_null_syn_ack_spec env m s'' p n offset Hp Hn), Hnb.
  destruct (open_spec env m offset _) as [b|] eqn:Hb; cbn [mbind option_bind]; [|done].
  apply open_block_id in Hb. destruct (with_block_conns s'' p n b Hc' Hn) as (H1 & H2 & _ & H4);
    [by rewrite Hnb|].
  eexists. split; [done|]. split; [done|]. split; [exact (eq_trans H2 Ho)|].
  change (ct_id ?x) with (b_id x) in Hcs. rewrite fresh_block_id in *. rewrite H4, Hb, Hcs.
  apply insert_insert_eq.
Qed.

Lemma half_open_spec env m offset s p n :
  tcp_packet m offset -> closed s -> h_cells (s_heap s) !! p = Some n ->
  b_id (n_tcb n) = old_id m offset -> conns s !! old_id m offset = Some (n_tcb n) ->
  b_state (n_tcb n) = TCP_SYN_RECEIVED -> old_has m offset RST = false ->
  implements s (old_id m offset)
    (dispatch_half_open env m 0 offset s p (n_tcb n) (old_has m offset SYN) (old_has m offset ACK))
    (block_spec env m offset (n_tcb n)).
Proof.
  intros Hp Hc Hn Hid Hb Hst Hrst. pose proof (tcp_packet_range _ _ Hp) as (Hr & Hs & _).
  unfold dispatch_half_open, block_spec. rewrite Hrst, Hst.
  destruct (old_has m offset SYN && negb (old_has m offset ACK)) eqn:Hsyn.
  - rewrite (tcp_null_syn_ack_spec env m s p n offset Hp Hn).
    destruct (open_spec env m offset _) as [b|] eqn:Hopen; cbn [mbind option_bind]; [|done].
    apply open_block_id in Hopen. rewrite <- Hid, <- Hopen. by apply implements_with.
  - destruct (old_has m offset ACK && negb (old_has m offset SYN)) eqn:Hack; cbn [andb mbind option_bind];
      [|by apply implements_same_block]. run.
    destruct (_ =? _); cbn [mbind option_bind]; [|by apply implements_same_block].
    rewrite (with_block_put _ _ _ _ Hn). cbn [mbind option_bind]. rewrite <- Hid.
    by apply (implements_with s p n (b_with_unac (b_with_state (n_tcb n) TCP_ESTABLISHED) _)).
Qed.

(** The response the application gives fits behind the headers. *)
Definition response_fits (env : Old_Env) (m : bytes) (offset : Z) : Prop :=
  (forall f, fe_file (oe_file env) = Some f -> bytes_ok f) /\ 20 <= tcp_hlen_of m offset /\
  forall buf data len r n, http_handle_request (oe_file env) buf data len = Some (r, n) ->
    offset + tcp_hlen_of m offset + n <= MTU_SIZE + 1.

Lemma established_spec env m offset s p n :
  tcp_packet m offset -> closed s -> h_cells (s_heap s) !! p = Some n ->
  b_id (n_tcb n) = old_id m offset -> conns s !! old_id m offset = Some (n_tcb n) ->
  b_state (n_tcb n) = TCP_ESTABLISHED -> old_has m offset RST = false ->
  response_fits env m offset ->
  implements s (old_id m offset)
    (dispatch_established env m 0 offset s p (n_tcb n) (old_has m offset FIN))
    (block_spec env m offset (n_tcb n)).
Proof.
  intros Hp Hc Hn Hid Hb Hst Hrst (Hf & H20 & Hfit). pose proof (tcp_packet_range _ _ Hp) as (Hr & Hs & _).
  pose proof (tp_offset _ _ Hp) as Ho.
  unfold dispatch_established, block_spec. rewrite Hrst, Hst. destruct (old_has m offset FIN).
  - run. rewrite (with_block_put _ _ _ _ Hn). cbn [mbind option_bind]. set (b := b_with_next _ _).
    destruct (with_block_conns s p n b Hc Hn eq_refl) as (Hc1 & Ho1 & Hn1 & Hcs1).
    rewrite (tcp_send_ack_empty m _ p _ offset Hp Hn1). cbn [mbind option_bind n_tcb].
    unfold deref. rewrite Hn1. cbn [mbind option_bind].
    rewrite (with_block_put _ _ _ _ Hn1). cbn [mbind option_bind n_tcb].
    destruct (with_block_conns _ p _ (b_with_state b TCP_CLOSE_WAIT) Hc1 Hn1 eq_refl)
      as (Hc2 & Ho2 & _ & Hcs2).
    eexists. split; [unfold ack_seg; cbn [length]; rewrite Z.add_0_r; done|].
    split; [done|]. split; [congruence|]. rewrite Hcs2, Hcs1. rewrite <- Hid. apply insert_insert_eq.
  - unfold tcp_handle_data, data_spec. run.
    change (Z.land (getf m 0 ip_version_ihl) 15 * 4) with (ihl_of m 0). rewrite <- Ho.
    fold (tcp_hlen_of m offset). fold (claimed m). cbv zeta.
    destruct (_ <=? 0); [by apply implements_same_block|]. rewrite Z.add_0_l.
    destruct (http_handle_request _ _ _ _) as [[r k]|] eqn:Hh; cbn [mbind option_bind]; [|done].
    pose proof (Hfit _ _ _ _ _ Hh) as Hk.
    destruct (http_handle_request_ok _ _ _ _ _ _ Hf Hh) as (-> & Hne & Hok).
    unfold deref at 1. rewrite Hn. cbn [mbind option_bind].
    destruct (int_add _ _) as [nx|]; cbn [mbind option_bind]; [|done].
    rewrite (with_block_put _ _ _ _ Hn). cbn [mbind option_bind]. set (b := b_with_next _ _).
    destruct (with_block_conns s p n b Hc Hn eq_refl) as (Hc1 & Ho1 & Hn1 & Hcs1).
    rewrite (tcp_send_ack_body m _ p _ offset r Hp Hn1) by done. cbn [n_tcb].
    change (ss_next (b_send b)) with (ss_next (b_send (n_tcb n))).
    destruct (int_add _ _) as [sx|]; cbn [mbind option_bind]; [|done].
    destruct (with_block_conns _ p _ (sent_block b sx) Hc1 Hn1 eq_refl) as (Hc2 & Ho2 & _ & Hcs2).
    eexists. split; [done|]. split; [done|]. split; [congruence|].
    rewrite Hcs2, Hcs1, <- Hid. apply insert_insert_eq.
Qed.

Lemma got_rst_spec m offset s p n :
  tcp_packet m offset -> closed s -> h_cells (s_heap s) !! p = Some n ->
  b_id (n_tcb n) = old_id m offset -> conns s !! old_id m offset = Some (n_tcb n) ->
  old_has m offset RST = true -> forall env,
  implements s (old_id m offset) ('(_, s) ← tcp_got_rst m offset p s; Some (TCP_SILENT, m, s))
    (block_spec env m offset (n_tcb n)).
Proof.
  intros Hp Hc Hn Hid Hb Hrst env. pose proof (tcp_packet_range _ _ Hp) as (Hr & Hs & _).
  unfold block_spec, tcp_got_rst, deref. rewrite Hrst. cbv zeta. run. rewrite Hn. cbn [mbind option_bind].
  destruct (if SEQ_GEQ _ _ then _ else _) as [[]|]; cbn [mbind option_bind]; [|by apply implements_same_block|done].
  assert (inst_vals s !! p = Some (n_tcb n)) as Hv by (rewrite inst_vals_lookup, Hn; done).
  destruct (delete_conns s p (n_tcb n) Hc Hv) as (s' & Hd & Hc' & Ho & _ & Hcs).
  change (tcp_remove_connection s p = Some s') in Hd. rewrite Hd. cbn [mbind option_bind].
  exists s'. split; [done|]. split; [done|]. split; [done|].
  change (ct_id (n_tcb n)) with (b_id (n_tcb n)) in Hcs. rewrite Hid in Hcs. exact Hcs.
Qed.

(** The handler does on the list what [old_spec] says of the connection's block. *)
Lemma old_dispatch_spec env m offset s :
  tcp_packet m offset -> closed s -> granting s -> Z.of_nat (size (conns s)) < TABLE_MAX ->
  response_fits env m offset ->
  implements s (old_id m offset) (tcp_dispatch env m 0 offset s)
    (old_spec env m offset (conns s !! old_id m offset)).
Proof.
  intros Hp Hc Hq Hmax Hfit. destruct (conns s !! old_id m offset) as [b|] eqn:Hb.
  2:{ rewrite dispatch_unknown by done. by apply dispatch_new_spec. }
  destruct (dispatch_found env m offset s b Hp Hc Hb) as (p & n & Hn & <- & Hid & ->). cbn [old_spec].
  destruct (old_has m offset RST) eqn:Hrst; [by apply got_rst_spec|].
  destruct (b_state (n_tcb n)) eqn:Hst; [by apply half_open_spec|by apply established_spec| | | |];
    (unfold block_spec; rewrite Hrst, Hst; by apply implements_same_block).
Qed.

(** *** When a call is undefined *)

(** Beyond an [int]. *)
Definition overflows (z : Z) : Prop := ~ (-2147483648 <= z <= 2147483647).

Lemma int_add_None a b : int_add a b = None <-> overflows (a + b).
Proof.
  unfold overflows. destruct (int_add a b) as [c|] eqn:E.
  - apply int_add_Some in E. split; [done|]. intros []. lia.
  - split; [|done]. intros _ H. assert (int_add a b = Some (a + b)) by (by apply int_add_Some). congruence.
Qed.

(** Opening a connection computes the numbers after the segment's and after the clock's. *)
Definition open_overflows (env : Old_Env) (m : bytes) (offset : Z) : Prop :=
  overflows (s32 (ntohl (getf m offset tcp_seq_num)) + 1) \/ overflows (s32 (env_ticks env) + 1).

(** The response to the packet's data cannot be built. *)
Definition response_refused (env : Old_Env) (m : bytes) (offset : Z) : Prop :=
  let hlen := tcp_hlen_of m offset in
  http_handle_request (oe_file env) m (offset + hlen) (claimed m - offset - hlen) = None.

(** Data and its response do not fit the sequence space of signed integers. *)
Definition data_undefined (env : Old_Env) (m : bytes) (offset : Z) (b : Block) : Prop :=
  let hlen := tcp_hlen_of m offset in
  let data_len := claimed m - offset - hlen in
  0 < data_len /\
  (response_refused env m offset \/
   exists r len, http_handle_request (oe_file env) m (offset + hlen) data_len = Some (r, len) /\
     (overflows (rs_next (b_recv b) + data_len) \/ overflows (ss_next (b_send b) + len))).

Definition old_undefined (env : Old_Env) (m : bytes) (offset : Z) (o : option Block) : Prop :=
  let has f := old_has m offset f = true in
  match o with
  | None => ~ has RST /\ has SYN /\ ~ has ACK /\ open_overflows env m offset
  | Some b =>
      has RST /\ SEQ_GEQ (getf m offset tcp_seq_num) (rs_next (b_recv b)) = true /\
        overflows (rs_next (b_recv b) + rs_window (b_recv b)) \/
      ~ has RST /\
      match b_state b with
      | TCP_SYN_RECEIVED => has SYN /\ ~ has ACK /\ open_overflows env m offset
      | TCP_ESTABLISHED => ~ has FIN /\ data_undefined env m offset b
      | _ => False
      end
  end.

Lemma open_spec_None env m offset b : open_spec env m offset b = None <-> open_overflows env m offset.
Proof.
  unfold open_spec, open_block, open_overflows. rewrite <- !int_add_None.
  destruct (int_add (s32 (ntohl _)) 1); cbn [mbind option_bind]; [|tauto].
  destruct (int_add _ 1); cbn [mbind option_bind]; split; intros H; try done; [by destruct H|by right].
Qed.

Lemma data_spec_None env m offset b :
  data_spec env m offset b = None <-> data_undefined env m offset b.
Proof.
  unfold data_spec, data_undefined, response_refused. cbv zeta. destruct (_ <=? 0) eqn:E.
  { split; [done|]. intros [? _]. lia. }
  destruct (http_handle_request _ _ _ _) as [[r n]|]; cbn [mbind option_bind].
  2:{ split; [|done]. intros _. split; [lia|by left]. }
  setoid_rewrite <- int_add_None. destruct (int_add (rs_next _) _); cbn [mbind option_bind].
  2:{ split; [|done]. intros _. split; [lia|]. right. exists r, n. split; [done|by left]. }
  destruct (int_add (ss_next _) n) eqn:En; cbn [mbind option_bind]; split; try done.
  - intros [_ [?|(r' & n' & [= <- <-] & [?|?])]]; congruence.
  - intros _. split; [lia|]. right. exists r, n. split; [done|by right].
Qed.

Lemma old_spec_None env m offset o :
  old_spec env m offset o = None <-> old_undefined env m offset o.
Proof.
  destruct o as [b|]; cbn [old_spec old_undefined].
  2:{ rewrite <- (open_spec_None env m offset (fresh_block (old_id m offset))).
      destruct (old_has m offset RST), (old_has m offset SYN), (old_has m offset ACK); cbn [andb negb];
        try (split; [done|naive_solver]).
      destruct (open_spec _ _ _ _); cbn [mbind option_bind]; naive_solver. }
  unfold block_spec. destruct (old_has m offset RST) eqn:Hrst.
  { rewrite <- int_add_None. destruct (SEQ_GEQ _ _); cbn [mbind option_bind]; [|naive_solver].
    destruct (int_add _ _); cbn [mbind option_bind]; naive_solver. }
  assert (forall P Q : Prop, (true = false /\ P \/ ~ false = true /\ Q) <-> Q) as Hr by (intros; naive_solver).
  destruct (b_state b); try (split; [done|naive_solver]).
  - rewrite <- (open_spec_None env m offset b).
    destruct (old_has m offset SYN), (old_has m offset ACK); cbn [andb negb]; try (split; [done|naive_solver]).
    destruct (open_spec _ _ _ _); cbn [mbind option_bind]; naive_solver.
  - rewrite <- data_spec_None. destruct (old_has m offset FIN); [split; [done|naive_solver]|]. naive_solver.
Qed.

Lemma response_refused_why env m offset :
  tcp_packet m offset -> response_refused env m offset ->
  fe_memory (oe_file env) = false \/
  exists f, fe_file (oe_file env) = Some f /\ 2147483000 < Z.of_nat (length f).
Proof.
  intros Hp. pose proof (tcp_packet_range _ _ Hp) as (Hr & Hs & Hh). unfold response_refused. cbv zeta.
  destruct (fe_memory (oe_file env)) eqn:Hmem; [|by left]. intros H. right.
  assert (is_Some (prefix_at m (offset + tcp_hlen_of m offset) GET)) as [g Hg].
  { rewrite prefix_at_spec; [eauto|apply Hp|lia|]. change (Z.of_nat (length GET)) with 4. lia. }
  unfold http_handle_request in H. rewrite Hg, Hmem in H. cbn [negb] in H.
  assert (http_serve_file (oe_file env) = None) as Hserve
    by (destruct (4 <=? _); [destruct g|]; cbn [mbind option_bind] in H; done).
  destruct (fe_file (oe_file env)) as [f|] eqn:Hf.
  - exists f. split; [done|]. destruct (decide (2147483000 < Z.of_nat (length f))) as [|Hle]; [done|].
    destruct (decide (fe_read (oe_file env) = Z.of_nat (length f))) as [Hread|Hread].
    + rewrite (serve_whole_file _ f) in Hserve by (done || lia). done.
    + unfold http_serve_file in Hserve. rewrite Hmem, Hf in Hserve. cbn [negb] in Hserve.
      destruct (_ =? _) eqn:E in Hserve; [lia|done].
  - unfold http_serve_file in Hserve. rewrite Hmem, Hf in Hserve. done.
Qed.

(** Acknowledgments as packets: a reply with our numbers, the body behind the headers. *)
Lemma ack_seg_reply m b offset flags body :
  tcp_packet m offset -> 0 <= flags < 256 -> bytes_ok body ->
  body = [] \/ 20 <= tcp_hlen_of m offset ->
  offset + tcp_hlen_of m offset + Z.of_nat (length body) <= MTU_SIZE + 1 ->
  reply_of m (ack_seg m b offset flags body) offset (tcp_hlen_of m offset + Z.of_nat (length body))
    (ss_next (b_send b)) (rs_next (b_recv b)) flags /\
  rd (ack_seg m b offset flags body) (offset + tcp_hlen_of m offset) (Z.of_nat (length body)) = body.
Proof.
  intros Hp Hf Hb Hbody Hfit. pose proof (tcp_packet_range _ _ Hp) as (Hr & Hs & Hh).
  unfold MTU_SIZE in Hfit. split.
  - apply reply_closed; [done|by apply ack_head_of|lia|lia].
  - destruct body as [|x body]; [unfold rd; cbn; apply take_0|].
    assert (20 <= tcp_hlen_of m offset) as H20 by (destruct Hbody; done).
    unfold ack_seg, closed_seg, ack_head. cbv zeta. set (d := x :: body) in *. pkt.
    apply rd_upd_same; mem.
Qed.

(** The acknowledgment of a FIN. *)
Lemma fin_reply m b offset :
  tcp_packet m offset ->
  reply_of m (ack_seg m (b_with_next b (s32 (u32 (ntohl (getf m offset tcp_seq_num) + 1)))) offset ACK []) offset
    (tcp_hlen_of m offset) (ss_next (b_send b)) (ntohl (getf m offset tcp_seq_num) + 1) ACK.
Proof.
  intros Hp. pose proof (tcp_packet_range _ _ Hp) as (Hr & Hs & Hh). set (b' := b_with_next b _).
  destruct (ack_seg_reply m b' offset ACK [] Hp ltac:(unfold ACK; lia) (Forall_nil_2 _)
    (or_introl eq_refl) ltac:(unfold MTU_SIZE; cbn; lia)) as [Hrep _].
  cbn [length] in Hrep. rewrite Z.add_0_r in Hrep. pose proof (rp_ack _ _ _ _ _ _ _ Hrep) as Hack. destruct Hrep.
  split; try done. rewrite Hack. subst b'. cbn [b_recv b_with_next rs_next].
  rewrite u32_s32. unfold u32. by rewrite Zmod_mod.
Qed.

(** A request for the file, and a FIN, on an established connection. *)
Lemma requested env m offset b content :
  let hlen := tcp_hlen_of m offset in
  let len := claimed m - offset - hlen in
  let response := headers (Z.of_nat (length content)) ++ content in
  tcp_packet m offset -> response_fits env m offset -> b_state b = TCP_ESTABLISHED ->
  old_has m offset RST = false -> old_has m offset FIN = false ->
  fe_memory (oe_file env) = true -> fe_file (oe_file env) = Some content -> Z.of_nat (length content) <= MTU_SIZE ->
  fe_read (oe_file env) = Z.of_nat (length content) ->
  4 <= len -> claimed m <= MTU_SIZE + 1 -> rd m (offset + hlen) 4 = GET ->
  int_ok (rs_next (b_recv b) + len) = true -> int_ok (ss_next (b_send b) + Z.of_nat (length response)) = true ->
  exists m' b', old_spec env m offset (Some b) = Some (0, m', Some b') /\
    reply_of m m' offset (hlen + Z.of_nat (length response)) (ss_next (b_send b)) (rs_next (b_recv b) + len)
      (Z.lor PSH ACK) /\
    rd m' (offset + hlen) (Z.of_nat (length response)) = response /\
    b_state b' = TCP_ESTABLISHED /\ ss_next (b_send b') = ss_next (b_send b) + Z.of_nat (length response).
Proof.
  intros hlen len response Hp (Hf & H20 & Hfit) Hst Hrst Hfin Hmem Hfile Hsmall Hread H4 Hl Hget Hi1 Hi2.
  pose proof (tcp_packet_range _ _ Hp) as (Hr & Hs & Hh). unfold MTU_SIZE in Hsmall, Hl.
  cbn [old_spec]. unfold block_spec. rewrite Hrst, Hst, Hfin. unfold data_spec. fold hlen. fold len. cbv zeta.
  destruct (len <=? 0) eqn:E; [lia|clear E].
  assert (http_handle_request (oe_file env) m (offset + hlen) len
          = Some (response, Z.of_nat (length response))) as Hresp.
  { rewrite http_get_served; [|apply Hp|lia|lia|done|exact Hget]. apply serve_whole_file; [done|done|lia|done]. }
  rewrite Hresp. cbn [mbind option_bind]. unfold int_add. rewrite Hi1, Hi2. cbn [mbind option_bind].
  destruct (http_handle_request_ok _ _ _ _ _ _ Hf Hresp) as (_ & _ & Hok).
  destruct (ack_seg_reply m (b_with_next b (rs_next (b_recv b) + len)) offset (Z.lor PSH ACK) response) as [Hrep Hrd];
    [done|vm_compute; split; (discriminate || reflexivity)|done|by right|by apply (Hfit _ _ _ _ _ Hresp)|].
  do 2 eexists. split; [done|]. split; [exact Hrep|]. split; [exact Hrd|]. done.
Qed.

Lemma finished env m offset b :
  tcp_packet m offset -> b_state b = TCP_ESTABLISHED ->
  old_has m offset RST = false -> old_has m offset FIN = true ->
  exists m' b', old_spec env m offset (Some b) = Some (0, m', Some b') /\
    reply_of m m' offset (tcp_hlen_of m offset) (ss_next (b_send b)) (ntohl (getf m offset tcp_seq_num) + 1) ACK /\
    b_state b' = TCP_CLOSE_WAIT.
Proof.
  intros Hp Hst Hrst Hfin. pose proof (tcp_packet_range _ _ Hp) as (Hr & Hs & Hh).
  cbn [old_spec]. unfold block_spec. rewrite Hrst, Hst, Hfin. cbv zeta. do 2 eexists. split; [done|]. split; [|done].
  by apply fin_reply.
Qed.

(** ** Properties *)


(** A TCP packet of 40 bytes with payload [data] and nothing served. *)
Definition no_file : File_Env := MkFile None 0 true.
Definition old_env (f : File_Env) : Old_Env := MkOldEnv 0 1000 0 f.

Lemma no_file_fits m offset :
  20 <= tcp_hlen_of m offset <= 60 -> offset <= 60 -> response_fits (old_env no_file) m offset.
Proof.
  intros Hh Ho. split; [done|]. split; [lia|]. intros buf data len r n. unfold http_handle_request.
  assert (http_serve_file (oe_file (old_env no_file)) = Some (not_found, 26)) as -> by reflexivity.
  unfold MTU_SIZE.
  destruct (if _ <=? _ then _ else _) as [[]|]; cbn [mbind option_bind]; [intros [= <- <-]|intros [= <- <-]|done];
    [lia|change (Z.of_nat (length bad_request)) with 28; lia].
Qed.

Lemma old_sample_fits flags seq ack :
  response_fits (old_env no_file) (old_sample flags seq ack) 20.
Proof.
  assert (tcp_hlen_of (old_sample flags seq ack) 20 = 20) as H.
  { unfold tcp_hlen_of, old_sample. cbv zeta.
    assert (Z.of_nat (length (replicate 1501 0)) = 1501) as Hz by (by rewrite length_replicate).
    set (z := replicate 1501 0) in *. clearbody z. fields. reflexivity. }
  apply no_file_fits; [rewrite H|]; lia.
Qed.


(** The segments of a handshake. *)
Definition syn_only (m : bytes) (offset : Z) : Prop :=
  old_has m offset SYN = true /\ old_has m offset ACK = false /\ old_has m offset RST = false.
Definition ack_only (m : bytes) (offset : Z) : Prop :=
  old_has m offset ACK = true /\ old_has m offset SYN = false /\ old_has m offset RST = false.

(** The handshake of the first version: a SYN from an unknown client is answered by a
    SYN-ACK with a sequence number from the clock that acknowledges it, and the client's
    acknowledgment of that number establishes the connection without an answer; any other
    acknowledgment leaves it half open. *)
Theorem old_handshake env env2 m m2 offset offset2 s b :
  tcp_packet m offset -> closed s -> granting s -> Z.of_nat (size (conns s)) + 1 < TABLE_MAX ->
  response_fits env m offset -> response_fits env2 m2 offset2 ->
  conns s !! old_id m offset = None -> syn_only m offset ->
  open_spec env m offset (fresh_block (old_id m offset)) = Some b ->
  tcp_packet m2 offset2 -> old_id m2 offset2 = old_id m offset -> ack_only m2 offset2 ->
  exists m' s1 s2,
    tcp_dispatch env m 0 offset s = Some (0, m', s1) /\
    reply_of m m' offset (tcp_hlen_of m offset) (s32 (env_ticks env))
      (ntohl (getf m offset tcp_seq_num) + 1) (Z.lor SYN ACK) /\
    tcp_dispatch env2 m2 0 offset2 s1 = Some (TCP_SILENT, m2, s2) /\
    (exists b', conns s2 = <[old_id m offset := b']> (conns s) /\
       b_state b' = if getf m2 offset2 tcp_ack_num =? htonl (s32 (env_ticks env) + 1)
                    then TCP_ESTABLISHED else TCP_SYN_RECEIVED).
Proof.
  intros Hp Hc Hq Hmax Hfit Hfit2 Hnone (Hsyn & Hack & Hrst) Hb Hp2 Hid
    (Hack2 & Hsyn2 & Hrst2).
  pose proof (old_dispatch_spec env m offset s Hp Hc Hq ltac:(lia) Hfit) as H1.
  unfold old_spec in H1. rewrite Hnone, Hsyn, Hack, Hrst, Hb in H1.
  destruct H1 as (s1 & Hd1 & Hc1 & Ho1 & Hcs1). cbn [with_conn] in Hcs1.
  assert (conns s1 !! old_id m2 offset2 = Some b) as Hb1 by (rewrite Hid, Hcs1; apply lookup_insert_eq).
  destruct (syn_ack_reply _ _ _ _ _ Hp Hb) as (Hrep & Hst & _ & _ & Hnext).
  pose proof (old_dispatch_spec env2 m2 offset2 s1 Hp2 Hc1) as H2.
  rewrite Hb1 in H2. unfold old_spec, block_spec in H2. rewrite Hack2, Hsyn2, Hrst2, Hst in H2.
  cbn [b_state fresh_block andb negb] in H2. destruct H2 as (s2 & Hd2 & Hc2 & _ & Hcs2).
  { unfold granting. rewrite Ho1. exact Hq. }
  { rewrite Hcs1, map_size_insert, Hnone. lia. }
  { exact Hfit2. }
  eexists _, s1, s2. split; [exact Hd1|]. split; [exact Hrep|]. split; [exact Hd2|].
  rewrite Hcs2, Hid, Hcs1. cbn [with_conn]. eexists. split; [apply insert_insert_eq|].
  rewrite Hnext. pose proof (tcp_packet_range _ _ Hp2) as (Hr2 & Hs2 & _).
  pose proof (getf_range m2 offset2 tcp_ack_num (tp_bytes _ _ Hp2) ltac:(mem) ltac:(mem)) as Hrange.
  change (256 ^ Z.of_nat (f_width tcp_ack_num)) with 4294967296 in Hrange.
  assert ((ntohl (getf m2 offset2 tcp_ack_num) =? u32 (s32 (env_ticks env) + 1))
          = (getf m2 offset2 tcp_ack_num =? htonl (s32 (env_ticks env) + 1))) as ->.
  { apply eq_true_iff_eq. rewrite !Z.eqb_eq. split.
    - intros H. rewrite <- (bswap32_bswap32 (s32 _ + 1)) in H.
      apply (f_equal bswap32) in H. rewrite !bswap32_bswap32 in H. unfold u32 in H.
      pose proof (bswap32_range (s32 (env_ticks env) + 1)). rewrite !Z.mod_small in H by lia. exact H.
    - intros ->. apply bswap32_bswap32. }
  destruct (getf m2 offset2 tcp_ack_num =? _); [reflexivity|exact Hst].
Qed.

Lemma old_handshake_witness :
  exists m' s1 s2,
    tcp_dispatch (old_env no_file) (old_sample SYN 7 0) 0 20 (inst_start (fun _ => false)) = Some (0, m', s1) /\
    ntohl (getf m' 20 tcp_ack_num) = 8 /\
    tcp_dispatch (old_env no_file) (old_sample ACK 8 1001) 0 20 s1
    = Some (TCP_SILENT, old_sample ACK 8 1001, s2) /\
    (exists b', conns s2 !! MkCID 16777226 16540 33554442 36895 = Some b' /\ b_state b' = TCP_ESTABLISHED).
Proof.
  assert (old_id (old_sample SYN 7 0) 20 = MkCID 16777226 16540 33554442 36895) as Hid by by_eval.
  destruct (open_spec (old_env no_file) (old_sample SYN 7 0) 20
    (fresh_block (MkCID 16777226 16540 33554442 36895))) as [b|] eqn:Hb; [|vm_compute in Hb; discriminate Hb].
  rewrite <- Hid in Hb.
  destruct (old_handshake (old_env no_file) (old_env no_file) (old_sample SYN 7 0) (old_sample ACK 8 1001)
    20 20 (inst_start (fun _ => false)) b (old_sample_packet _ _ _) (inst_start_closed _) (fun k => eq_refl)
    ltac:(rewrite inst_start_conns, map_size_empty; reflexivity) (old_sample_fits _ _ _)
    (old_sample_fits _ _ _) ltac:(rewrite inst_start_conns; apply lookup_empty) ltac:(split; [|split]; by_eval) Hb
    (old_sample_packet _ _ _) ltac:(by_eval) ltac:(split; [|split]; by_eval))
    as (m' & s1 & s2 & H1 & Hr & H2 & b' & Hcs & Hst).
  exists m', s1, s2. split; [exact H1|]. rewrite (rp_ack _ _ _ _ _ _ _ Hr).
  split; [by_eval|]. split; [exact H2|]. exists b'. rewrite Hcs, Hid.
  split; [apply lookup_insert_eq|]. rewrite Hst.
  assert ((getf (old_sample ACK 8 1001) 20 tcp_ack_num =? htonl (s32 (env_ticks (old_env no_file)) + 1)) = true)
    as -> by by_eval. reflexivity.
Defined.

(** Serving and closing an established connection: a request for the file is answered by
    one packet that carries the response, our next sequence number and the end of the
    request as acknowledged, and a FIN by an acknowledgment of it, after which the
    connection waits in CLOSE_WAIT and answers nothing more. *)
Theorem old_service env m offset s b content :
  tcp_packet m offset -> closed s -> granting s -> Z.of_nat (size (conns s)) < TABLE_MAX ->
  response_fits env m offset -> conns s !! old_id m offset = Some b ->
  old_has m offset RST = false ->
  let hlen := tcp_hlen_of m offset in
  let len := claimed m - offset - hlen in
  let response := headers (Z.of_nat (length content)) ++ content in
  (b_state b = TCP_ESTABLISHED -> old_has m offset FIN = false ->
   fe_memory (oe_file env) = true -> fe_file (oe_file env) = Some content -> Z.of_nat (length content) <= MTU_SIZE ->
   fe_read (oe_file env) = Z.of_nat (length content) ->
   4 <= len -> claimed m <= MTU_SIZE + 1 -> rd m (offset + hlen) 4 = GET ->
   int_ok (rs_next (b_recv b) + len) = true ->
   int_ok (ss_next (b_send b) + Z.of_nat (length response)) = true ->
   exists m' s', tcp_dispatch env m 0 offset s = Some (0, m', s') /\
     reply_of m m' offset (hlen + Z.of_nat (length response)) (ss_next (b_send b))
       (rs_next (b_recv b) + len) (Z.lor PSH ACK) /\
     rd m' (offset + hlen) (Z.of_nat (length response)) = response) /\
  (b_state b = TCP_ESTABLISHED -> old_has m offset FIN = true ->
   exists m' s' b', tcp_dispatch env m 0 offset s = Some (0, m', s') /\
     reply_of m m' offset hlen (ss_next (b_send b)) (ntohl (getf m offset tcp_seq_num) + 1) ACK /\
     conns s' = <[old_id m offset := b']> (conns s) /\ b_state b' = TCP_CLOSE_WAIT) /\
  (b_state b = TCP_CLOSE_WAIT -> exists s', tcp_dispatch env m 0 offset s = Some (TCP_SILENT, m, s') /\
     conns s' = conns s).
Proof.
  intros Hp Hc Hq Hmax Hfit Hb Hrst hlen len response.
  pose proof (old_dispatch_spec env m offset s Hp Hc Hq Hmax Hfit) as H. rewrite Hb in H. split; [|split].
  - intros Hst Hfin Hmem Hfile Hsmall Hread H4 Hl Hget Hi1 Hi2.
    destruct (requested env m offset b content Hp Hfit Hst Hrst Hfin Hmem Hfile Hsmall Hread H4 Hl Hget Hi1 Hi2)
      as (m' & b' & Hspec & Hrep & Hrd & _).
    rewrite Hspec in H. destruct H as (s' & Hd & _). by exists m', s'.
  - intros Hst Hfin. destruct (finished env m offset b Hp Hst Hrst Hfin) as (m' & b' & Hspec & Hrep & Hst').
    rewrite Hspec in H. destruct H as (s' & Hd & _ & _ & Hcs). by exists m', s', b'.
  - intros Hst. cbn [old_spec] in H. unfold block_spec in H. rewrite Hrst, Hst in H.
    destruct H as (s' & Hd & _ & _ & Hcs). exists s'. split; [exact Hd|]. rewrite Hcs. cbn [with_conn]. by apply insert_id.
Qed.

(** An instance that holds one block. *)
Definition one_block (b : Block) : Instance_ :=
  MkInstance (Heap {[0%nat := MkNode b None]} 1 (fun _ => false) ∅) (Some 0%nat) 1.

Lemma one_block_list b : list_ok (one_block b) [0%nat].
Proof.
  split; cbn [one_block s_heap s_head s_size h_cells].
  - intros p [x Hx]. cbn in *. apply lookup_singleton_Some in Hx as [<- _]. lia.
  - split; [done|]. exists (MkNode b None). split; [apply lookup_singleton_eq|done].
  - apply NoDup_singleton.
  - done.
  - unfold TABLE_MAX. cbn. lia.
  - intros q n Hq Hn. apply lookup_singleton_Some in Hq as [<- _]. destruct Hn. by constructor.
Qed.

Lemma one_block_closed b : closed (one_block b).
Proof.
  exists [0%nat]. split; [apply one_block_list|].
  apply set_eq. intros q. change (ct_vals (one_block b)) with (inst_vals (one_block b)).
  unfold inst_vals. cbn [one_block s_heap h_cells]. rewrite map_fmap_singleton, dom_singleton. set_solver.
Qed.

Lemma one_block_conns b : conns (one_block b) = {[b_id b := b]}.
Proof.
  apply conns_eq; [apply one_block_closed|]. intros k x. rewrite lookup_singleton_Some.
  change (ct_vals (one_block b)) with (inst_vals (one_block b)).
  unfold inst_vals. cbn [one_block s_heap h_cells]. rewrite map_fmap_singleton. split.
  - intros [<- <-]. exists 0%nat. split; [apply lookup_singleton_eq|done].
  - intros (p & [_ <-]%lookup_singleton_Some & <-). done.
Qed.

(** A request of four bytes on an established connection. *)
Definition old_request : bytes := upd (setf (old_sample ACK 8 77) 0 ip_len (htons 44)) 40 GET.
Definition open_conn : Block :=
  MkBlock (MkCID 16777226 16540 33554442 36895) TCP_ESTABLISHED (MkSendS 77 77 8192 76)
    (MkRecvS 8 8192 7) [] 0 0.
Definition page : bytes := [60; 112; 62].
Definition with_page : File_Env := MkFile (Some page) 3 true.

Lemma old_request_packet : tcp_packet old_request 20 /\ tcp_hlen_of old_request 20 = 20.
Proof.
  unfold old_request, old_sample. cbv zeta.
  assert (Z.of_nat (length (replicate 1501 0)) = 1501) as Hz by (by rewrite length_replicate).
  assert (bytes_ok (replicate 1501 0)) as Hb by (apply Forall_replicate; unfold byte_ok; lia).
  assert (bytes_ok GET) as Hg by (by_eval). set (g := GET) in *.
  assert (Z.of_nat (length g) = 4) as Hgl by reflexivity. clearbody g.
  set (z := replicate 1501 0) in *. clearbody z. split; [split|]; unfold ihl_of, tcp_hlen_of;
    try (fields; reflexivity).
  - auto 20 with bytes.
  - rewrite length_upd, !length_setf. done.
Qed.

Lemma old_request_fits : response_fits (old_env with_page) old_request 20.
Proof.
  destruct old_request_packet as [_ H]. split; [|rewrite H; split; [lia|]].
  - intros f [= <-]. by_eval.
  - intros buf data len r n. unfold http_handle_request.
    assert (http_serve_file (oe_file (old_env with_page)) = Some (headers 3 ++ page, 85)) as -> by (vm_compute; reflexivity).
    destruct (if _ <=? _ then _ else _) as [[]|]; cbn [mbind option_bind]; [intros [= <- <-]|intros [= <- <-]|done];
      vm_compute; discriminate.
Qed.

Lemma old_service_witness :
  exists m' s', tcp_dispatch (old_env with_page) old_request 0 20 (one_block open_conn) = Some (0, m', s') /\
    ntohl (getf m' 20 tcp_ack_num) = 12 /\ rd m' 40 85 = headers 3 ++ page.
Proof.
  destruct old_request_packet as [Hp Hh].
  assert (old_id old_request 20 = b_id open_conn) as Hid by by_eval.
  destruct (old_service (old_env with_page) old_request 20 (one_block open_conn) open_conn page Hp
    (one_block_closed _) (fun k => eq_refl)
    ltac:(rewrite one_block_conns, map_size_singleton; reflexivity) old_request_fits
    ltac:(rewrite one_block_conns, Hid; apply lookup_singleton_eq) ltac:(by_eval)) as [H _].
  destruct (H eq_refl ltac:(by_eval) eq_refl eq_refl ltac:(vm_compute; discriminate) eq_refl
    ltac:(vm_compute; discriminate) ltac:(vm_compute; discriminate) ltac:(by_eval) ltac:(by_eval)
    ltac:(by_eval)) as (m' & s' & Hd & Hr & Hb).
  exists m', s'. split; [exact Hd|]. rewrite Hh in Hb.
  rewrite (rp_ack _ _ _ _ _ _ _ Hr), Hh. split; [by_eval|]. exact Hb.
Defined.

(** C35 The reset test of the first version reads the sequence number without converting it:
    while the window does not overflow, a segment with RST removes the connection exactly
    when the bytes of its sequence number, taken as a little-endian number, lie in the
    receive window; otherwise the list is unchanged, and no reset is answered. *)
Theorem old_rst_window env m offset s b :
  tcp_packet m offset -> closed s -> granting s -> Z.of_nat (size (conns s)) < TABLE_MAX ->
  response_fits env m offset -> conns s !! old_id m offset = Some b ->
  old_has m offset RST = true -> 0 <= rs_window (b_recv b) <= 2147483648 ->
  int_ok (rs_next (b_recv b) + rs_window (b_recv b)) = true ->
  exists s', tcp_dispatch env m 0 offset s = Some (TCP_SILENT, m, s') /\
    conns s' = if (getf m offset tcp_seq_num - rs_next (b_recv b)) mod 4294967296 <? rs_window (b_recv b)
               then delete (old_id m offset) (conns s) else conns s.
Proof.
  intros Hp Hc Hq Hmax Hfit Hb Hrst Hw Hi.
  pose proof (old_dispatch_spec env m offset s Hp Hc Hq Hmax Hfit) as H.
  rewrite Hb in H. unfold old_spec, block_spec in H. rewrite Hrst in H. cbv zeta in H.
  unfold int_add in H. rewrite Hi in H. cbn [mbind option_bind] in H.
  rewrite <- (seq_window _ _ _ Hw).
  assert (forall q x, SEQ_LT q (u32 x) = SEQ_LT q x) as Hlt.
  { intros q x. unfold SEQ_LT. do 2 f_equal. unfold u32. by rewrite Zminus_mod_idemp_r. }
  rewrite Hlt. destruct (SEQ_GEQ _ _); cbn [mbind option_bind andb] in *.
  - destruct (SEQ_LT _ _); destruct H as (s' & Hd & _ & _ & Hcs); exists s';
      (split; [exact Hd|]); rewrite Hcs; [done|by apply insert_id].
  - destruct H as (s' & Hd & _ & _ & Hcs). exists s'. split; [exact Hd|]. rewrite Hcs. by apply insert_id.
Qed.

(** The reset with the sequence number the connection expects, 8, is not recognised. *)
Lemma old_rst_window_witness :
  exists s', tcp_dispatch (old_env no_file) (old_sample RST 8 0) 0 20 (one_block open_conn)
    = Some (TCP_SILENT, old_sample RST 8 0, s') /\ conns s' = conns (one_block open_conn).
Proof.
  assert (old_id (old_sample RST 8 0) 20 = b_id open_conn) as Hid by by_eval.
  destruct (old_rst_window (old_env no_file) (old_sample RST 8 0) 20 (one_block open_conn) open_conn
    (old_sample_packet _ _ _) (one_block_closed _) (fun k => eq_refl)
    ltac:(rewrite one_block_conns, map_size_singleton; reflexivity) (old_sample_fits _ _ _)
    ltac:(rewrite one_block_conns, Hid; apply lookup_singleton_eq) ltac:(by_eval)
    ltac:(vm_compute; split; discriminate) eq_refl) as (s' & Hd & Hcs).
  exists s'. split; [exact Hd|].
  assert (((getf (old_sample RST 8 0) 20 tcp_seq_num - rs_next (b_recv open_conn)) mod 4294967296
    <? rs_window (b_recv open_conn)) = false) as Hf by by_eval.
  rewrite Hf in Hcs. exact Hcs.
Defined.

(** C36 What the first version leaves undefined when it opens a connection: a SYN whose
    sequence number is [0x7FFFFFFF] overflows a signed addition, and when the allocator
    refuses the block the insertion dereferences a null pointer if the list is not empty,
    the construction of the answer if it is. *)
Theorem old_open_undefined env m offset s :
  tcp_packet m offset -> closed s -> conns s !! old_id m offset = None -> syn_only m offset ->
  h_oom (s_heap s) (h_reqs (s_heap s)) = true \/
    (ntohl (getf m offset tcp_seq_num) = 2147483647 /\ granting s /\
     Z.of_nat (size (conns s)) < TABLE_MAX /\ response_fits env m offset) ->
  tcp_dispatch env m 0 offset s = None.
Proof.
  intros Hp Hc Hnone (Hsyn & Hack & Hrst) [Hoom|(Hseq & Hq & Hmax & Hfit)].
  - rewrite dispatch_unknown by done. unfold dispatch_new. rewrite Hsyn, Hack, Hrst. cbn [andb negb].
    unfold tcp_init_tcb, alloc. rewrite Hoom. cbn [negb].
    unfold tcp_insert_tcb. cbn [s_heap s_head s_size].
    destruct (s_head s) as [p|] eqn:Hh; cbn [turns insert_search mbind option_bind].
    + unfold deref at 1. cbn [h_cells]. destruct (h_cells (s_heap s) !! p); done.
    + destruct (int_add _ _); cbn [mbind option_bind]; done.
  - pose proof (old_dispatch_spec env m offset s Hp Hc Hq Hmax Hfit) as H.
    unfold old_spec in H. rewrite Hnone, Hsyn, Hack, Hrst in H. cbn [andb negb] in H.
    unfold open_spec, open_block in H. rewrite Hseq in H. exact H.
Qed.

Lemma old_open_undefined_witness :
  tcp_dispatch (old_env no_file) (old_sample SYN 2147483647 0) 0 20 (inst_start (fun _ => false)) = None.
Proof.
  apply (old_open_undefined (old_env no_file) (old_sample SYN 2147483647 0) 20 (inst_start (fun _ => false))).
  - apply old_sample_packet.
  - apply inst_start_closed.
  - rewrite inst_start_conns. apply lookup_empty.
  - split; [|split]; by_eval.
  - right. split; [by_eval|]. split; [exact (fun k => eq_refl)|].
    split; [rewrite inst_start_conns, map_size_empty; reflexivity|apply old_sample_fits].
Defined.
