(* ===== verification/OldMain.v ===== *)
(** * The main loop of the first version

    [parse_packet] and the read loop of [main.c]: one buffer of [MTU_SIZE + 1] bytes reused
    for every packet, the handlers of [OldNet.v] and [OldTcp.v], and the bytes written
    back to the device.  The length read is not used: what is written is what the header
    claims.  What [main] does around the loop is in [OldDevice.v], what is printed in
    [OldVerbose.v]. *)
From S2P Require Import Prelude Memory Checksum Ip Icmp TcpHeader Heap Table OldList OldNet OldSegment Http OldTcp.

Definition TCP_FATAL : Z := 1.

(** One turn of the loop: what [read] delivers ([None]: end of file or an error), and the
    readings of the handlers. *)
Record Old_Round := MkOldRound { or_read : option bytes; or_env : Old_Env }.

(** The buffer [tu] and [states]. *)
Record Old_Server := MkOldServer { os_tu : bytes; os_states : Instance_ }.

(** ** Operations *)

(** [write(vd->fd, ip_pack, ntohs(ip_pack->len))]: the bytes that leave. *)
Definition write_packet (m : bytes) : option bytes :=
  l ← get m 0 ip_len;
  load_bytes m 0 (ntohs l).

(** The code returned, and what is written. *)
Definition parse_packet (env : Old_Env) (s : Old_Server) : option (Z * list bytes * Old_Server) :=
  let packet := os_tu s in
  op ← packet_deserialize packet 0;
  vi ← get packet 0 ip_version_ihl;
  let ihl := Z.land vi 15 in
  if op =? IPV4_ICMP then
    m ← icmp_dispatch packet 0 (4 * ihl);
    w ← write_packet m;
    Some (0, [w], MkOldServer m (os_states s))
  else if op =? IPV4_TCP then
    '(err, m, states) ← tcp_dispatch env packet 0 (4 * ihl) (os_states s);
    if err =? TCP_FATAL then Some (1, [], MkOldServer m states)
    else if err =? TCP_SILENT then Some (0, [], MkOldServer m states)
    else
      w ← write_packet m;
      Some (0, [w], MkOldServer m states)
  else if (op =? PROTO_UNDF) || (op =? IPV6) || (op =? VER_UNDF) then Some (0, [], s)
  else Some (1, [], s).

(** [while ((nread = read(vd.fd, tu, MTU_SIZE)) > 0)]: the packets written and, when the
    loop is left, the exit status. *)
Fixpoint main_loop (rs : list Old_Round) (s : Old_Server) : option (list bytes * option Z * Old_Server) :=
  match rs with
  | [] => Some ([], None, s)
  | r :: rs =>
      match or_read r with
      | None | Some [] => Some ([], Some 0, s)
      | Some data =>
          tu ← store_bytes (os_tu s) 0 (take (Z.to_nat MTU_SIZE) data);
          '(failed, out, s) ← parse_packet (or_env r) (MkOldServer tu (os_states s));
          if truth failed then Some (out, Some 1, s)
          else
            '(out', status, s) ← main_loop rs s;
            Some (out ++ out', status, s)
      end
  end.

Definition main_start (oom : nat -> bool) : Old_Server :=
  MkOldServer (replicate (Z.to_nat (MTU_SIZE + 1)) 0) (inst_start oom).

(** ** Specification *)

Implicit Types (M : gmap TCP_Connection_ID Block).

(** A turn on the buffer that holds the packet and the map of connections. *)
Definition turn_spec (env : Old_Env) (m : bytes) M
    : option (list bytes * bytes * gmap TCP_Connection_ID Block) :=
  let offset := ihl_of m 0 in
  if negb (Z.shiftr (getf m 0 ip_version_ihl) 4 =? 4) || (offset <? 20) then Some ([], m, M)
  else if getf m 0 ip_proto =? 1 then
    let m' := if getf m offset icmp_type =? 8 then echo_buf m (claimed m) offset else m in
    Some ([rd m' 0 (claimed m)], m', M)
  else if getf m 0 ip_proto =? 6 then
    '(v, m', o) ← old_spec env m offset (M !! old_id m offset);
    Some (if v =? TCP_SILENT then [] else [rd m' 0 (claimed m')], m', with_conn M (old_id m offset) o)
  else Some ([], m, M).

Fixpoint loop_spec (rs : list Old_Round) (tu : bytes) M
    : option (list bytes * option Z * bytes * gmap TCP_Connection_ID Block) :=
  match rs with
  | [] => Some ([], None, tu, M)
  | r :: rs =>
      match or_read r with
      | None | Some [] => Some ([], Some 0, tu, M)
      | Some data =>
          '(out, tu, M) ← turn_spec (or_env r) (upd tu 0 data) M;
          '(out', status, tu, M) ← loop_spec rs tu M;
          Some (out ++ out', status, tu, M)
      end
  end.

(** A packet whose headers are whole and whose ICMP length is true: at most [MTU_SIZE]
    bytes, an IP header, and behind it an ICMP header within the length claimed and
    received, or a TCP header of at least 20 bytes, with responses that fit. *)
Record sane (env : Old_Env) (data : bytes) : Prop := {
  sn_bytes : bytes_ok data;
  sn_len : 20 <= Z.of_nat (length data) <= MTU_SIZE;
  sn_icmp : getf data 0 ip_proto = 1 -> ihl_of data 0 + 8 <= claimed data <= Z.of_nat (length data);
  sn_tcp : getf data 0 ip_proto = 6 -> ihl_of data 0 + 20 <= Z.of_nat (length data) /\
    response_fits env data (ihl_of data 0);
}.

Definition round_sane (r : Old_Round) : Prop :=
  forall data, or_read r = Some data -> data <> [] -> sane (or_env r) data.

(** ** Lemmas *)

Lemma rd_head m d p n :
  0 <= p -> 0 <= n -> p + n <= Z.of_nat (length d) -> Z.of_nat (length d) <= Z.of_nat (length m) ->
  rd (upd m 0 d) p n = rd d p n.
Proof.
  intros. rewrite <- (rd_upd_same m 0 d (Z.of_nat (length d))) at 2 by lia.
  by rewrite rd_rd by lia.
Qed.

Lemma getf_head m d p f :
  0 <= p + f_off f -> p + f_off f + Z.of_nat (f_width f) <= Z.of_nat (length d) ->
  Z.of_nat (length d) <= Z.of_nat (length m) -> getf (upd m 0 d) p f = getf d p f.
Proof. intros. unfold getf. by rewrite rd_head by lia. Qed.

(** What the handler leaves in the buffer when it answers. *)
Definition answer (m m' : bytes) (offset : Z) : Prop :=
  exists n seq ack flags, 0 <= n /\ offset + n <= MTU_SIZE + 1 /\ reply_of m m' offset n seq ack flags.

Lemma closed_answer m h offset n seq ack flags :
  tcp_packet m offset -> head_of m h offset n seq ack flags -> 0 <= n -> offset + n <= MTU_SIZE + 1 ->
  (bytes_ok (closed_seg h offset n) /\ length (closed_seg h offset n) = length m) /\
  answer m (closed_seg h offset n) offset.
Proof.
  intros Hp Hh Hn Hl. split.
  - split; [apply closed_seg_ok, Hh|]. rewrite length_closed_seg. apply Hh.
  - exists n, seq, ack, flags. split; [done|]. split; [done|]. by apply reply_closed.
Qed.

Lemma ack_answer m b offset flags body :
  tcp_packet m offset -> 0 <= flags < 256 -> bytes_ok body -> body = [] \/ 20 <= tcp_hlen_of m offset ->
  offset + tcp_hlen_of m offset + Z.of_nat (length body) <= MTU_SIZE + 1 ->
  (bytes_ok (ack_seg m b offset flags body) /\ length (ack_seg m b offset flags body) = length m) /\
  answer m (ack_seg m b offset flags body) offset.
Proof.
  intros Hp Hf Hb Hbody Hl. pose proof (tcp_packet_range _ _ Hp) as (Hr & Hs & Hh).
  eapply closed_answer; [done|by apply ack_head_of|lia|lia].
Qed.

Lemma syn_ack_answer m b offset :
  tcp_packet m offset ->
  (bytes_ok (syn_ack_seg m b offset) /\ length (syn_ack_seg m b offset) = length m) /\
  answer m (syn_ack_seg m b offset) offset.
Proof.
  intros Hp. pose proof (tcp_packet_range _ _ Hp) as (Hr & Hs & Hh).
  eapply closed_answer; [done|by apply null_syn_ack_head_of|lia|unfold MTU_SIZE; lia].
Qed.

(** The buffer stays a buffer; a call that is not silent leaves an answer in it. *)
Lemma old_spec_buffer env m offset o v m' o' :
  tcp_packet m offset -> response_fits env m offset -> old_spec env m offset o = Some (v, m', o') ->
  (bytes_ok m' /\ length m' = length m) /\ (v = TCP_SILENT \/ v = 0 /\ answer m m' offset).
Proof.
  intros Hp (Hf & H20 & Hfit). pose proof (tcp_packet_range _ _ Hp) as (Hr & Hs & Hh).
  pose proof (tp_bytes _ _ Hp) as Hb.
  assert (forall v' (m1 : bytes) (o1 : option Block), Some (TCP_SILENT, m, o1) = Some (v', m1, o') ->
    (bytes_ok m1 /\ length m1 = length m) /\ (v' = TCP_SILENT \/ v' = 0 /\ answer m m1 offset)) as Hsilent
    by (intros ? ? ? [= <- <- <-]; auto).
  unfold old_spec. destruct o as [b|].
  2:{ destruct (old_has m offset RST); [apply Hsilent|]. destruct (_ && _).
      - intros (b & _ & [= <- <- <-])%bind_Some. destruct (syn_ack_answer m b offset Hp). auto.
      - intros [= <- <- <-]. unfold rst_seg, rst_numbers.
        destruct (truth (Z.land _ ACK));
          (edestruct closed_answer as [H1 H2]; [done|apply null_rst_head_of; [done|]|lia|unfold MTU_SIZE; lia|
             split; [exact H1|right; split; [done|exact H2]]]);
          vm_compute; split; (discriminate || reflexivity). }
  unfold block_spec. destruct (old_has m offset RST).
  { intros (i & _ & H)%bind_Some. by apply Hsilent in H. }
  destruct (b_state b); try apply Hsilent.
  - destruct (_ && _); [|apply Hsilent]. intros (b' & _ & [= <- <- <-])%bind_Some.
    destruct (syn_ack_answer m b' offset Hp). auto.
  - destruct (old_has m offset FIN).
    + intros [= <- <- <-]. edestruct (ack_answer m (b_with_next b
        (s32 (u32 (ntohl (getf m offset tcp_seq_num) + 1)))) offset ACK []); [done|unfold ACK; lia|done|by left| |auto].
      unfold MTU_SIZE. cbn [length]. lia.
    + unfold data_spec. cbv zeta. destruct (_ <=? 0); [apply Hsilent|].
      intros ([r k] & Hreq & (nx & _ & (sx & _ & [= <- <- <-])%bind_Some)%bind_Some)%bind_Some.
      pose proof (Hfit _ _ _ _ _ Hreq) as Hk. destruct (http_handle_request_ok _ _ _ _ _ _ Hf Hreq) as (-> & _ & Hok).
      edestruct (ack_answer m (b_with_next b nx) offset (Z.lor PSH ACK) r); [done| |done|by right|done|auto].
      vm_compute. split; (discriminate || reflexivity).
Qed.

Record old_ok (s : Old_Server) : Prop := {
  ok_bytes : bytes_ok (os_tu s);
  ok_size : Z.of_nat (length (os_tu s)) = MTU_SIZE + 1;
  ok_closed : closed (os_states s);
  ok_granting : granting (os_states s);
}.

Lemma write_packet_in m :
  20 <= Z.of_nat (length m) -> bytes_ok m -> claimed m <= Z.of_nat (length m) ->
  write_packet m = Some (rd m 0 (claimed m)).
Proof.
  intros Hl Hb Hc. unfold write_packet. run. fold (claimed m).
  assert (0 <= claimed m) by (unfold claimed; apply bswap16_range).
  unfold load_bytes. rewrite (proj2 (in_range_true _ _ _)); [done|lia].
Qed.

Lemma answer_claimed m m' offset : 20 <= offset -> answer m m' offset -> 0 <= claimed m' <= MTU_SIZE + 1.
Proof. intros Ho (n & q & a & f & Hn & Hl & Hr). unfold claimed. rewrite (rp_len _ _ _ _ _ _ _ Hr). lia. Qed.

Lemma echo_claimed m offset :
  framed m (claimed m) offset -> offset + 8 <= claimed m -> claimed (echo_buf m (claimed m) offset) = claimed m.
Proof.
  intros Hf Hl. pose proof (framed_range _ _ _ Hf) as Hr. destruct Hf as [Hb Hi Hs Hv Ho].
  unfold claimed at 1, echo_buf. cbv zeta. by pkt.
Qed.

Lemma echo_buffer m len offset :
  bytes_ok m -> bytes_ok (echo_buf m len offset) /\ length (echo_buf m len offset) = length m.
Proof. intros Hb. unfold echo_buf. cbv zeta. split; [auto 10 with bytes|by autorewrite with lens]. Qed.

(** The result of a turn that does what the specification of the turn says. *)
Definition turned (r : option (Z * list bytes * Old_Server))
    (spec : option (list bytes * bytes * gmap TCP_Connection_ID Block)) : Prop :=
  match spec with
  | None => r = None
  | Some (out, m', M') =>
      exists s', r = Some (0, out, s') /\ old_ok s' /\ os_tu s' = m' /\ conns (os_states s') = M'
  end.

Lemma old_ok_buffer m st m' :
  old_ok (MkOldServer m st) -> bytes_ok m' -> length m' = length m -> old_ok (MkOldServer m' st).
Proof. intros [Hb Hs Hc Hq] Hb' Hl. split; cbn in *; try done. lia. Qed.

Lemma icmp_turn m st :
  old_ok (MkOldServer m st) -> framed m (claimed m) (ihl_of m 0) ->
  ihl_of m 0 + 8 <= claimed m <= MTU_SIZE ->
  turned (m' ← icmp_dispatch m 0 (ihl_of m 0); w ← write_packet m'; Some (0, [w], MkOldServer m' st))
    (let m' := if getf m (ihl_of m 0) icmp_type =? 8 then echo_buf m (claimed m) (ihl_of m 0) else m in
     Some ([rd m' 0 (claimed m)], m', conns st)).
Proof.
  intros Hok Hfr [Hc8 Hcl]. pose proof Hok as [Hb Hs _ _]. cbn in Hb, Hs. unfold MTU_SIZE in *.
  pose proof (ihl_of_range m 0) as Hr. pose proof (framed_range _ _ _ Hfr).
  destruct (echo_buffer m (claimed m) (ihl_of m 0) Hb) as [He1 He2].
  unfold icmp_dispatch. run. destruct (_ =? 8); [rewrite icmp_echo_reply_framed by done|]; cbn [mbind option_bind].
  - pose proof (echo_claimed _ _ Hfr Hc8) as Hec. rewrite write_packet_in by (try done; lia).
    cbn [mbind option_bind]. rewrite Hec. eexists. split; [done|]. split; [by eapply old_ok_buffer|done].
  - rewrite write_packet_in by (try done; lia). cbn [mbind option_bind].
    eexists. split; [done|]. split; [by eapply old_ok_buffer|done].
Qed.

Lemma tcp_turn env m st :
  old_ok (MkOldServer m st) -> tcp_packet m (ihl_of m 0) -> Z.of_nat (size (conns st)) < TABLE_MAX ->
  response_fits env m (ihl_of m 0) ->
  turned ('(err, m, states) ← tcp_dispatch env m 0 (ihl_of m 0) st;
          if err =? TCP_FATAL then Some (1, [], MkOldServer m states)
          else if err =? TCP_SILENT then Some (0, [], MkOldServer m states)
          else w ← write_packet m; Some (0, [w], MkOldServer m states))
    (let id := old_id m (ihl_of m 0) in
     '(v, m', o) ← old_spec env m (ihl_of m 0) (conns st !! id);
     Some (if v =? TCP_SILENT then [] else [rd m' 0 (claimed m')], m', with_conn (conns st) id o)).
Proof.
  intros [Hb Hs Hc Hq] Hp Hmax Htcp. cbn [os_tu os_states] in *. unfold MTU_SIZE in Hs.
  pose proof (old_dispatch_spec env m (ihl_of m 0) st Hp Hc Hq Hmax Htcp) as Hd. cbv zeta.
  destruct (old_spec _ _ _ _) as [[[v m'] o]|] eqn:Hspec; cbn [mbind option_bind implements turned] in *;
    [|by rewrite Hd].
  destruct Hd as (st' & -> & Hc' & Ho & Hcs). cbn [mbind option_bind].
  destruct (old_spec_buffer _ _ _ _ _ _ _ Hp Htcp Hspec) as ((Hb' & Hl') & Hans).
  assert (old_ok (MkOldServer m' st')) as Hok.
  { split; cbn; [done|unfold MTU_SIZE; lia|done|]. intros k. rewrite Ho. apply Hq. }
  destruct Hans as [-> |[-> Hans]]; [by eexists|].
  change (0 =? TCP_FATAL) with false. change (0 =? TCP_SILENT) with false. cbv iota.
  apply answer_claimed in Hans; [|destruct Hp; lia]. unfold MTU_SIZE in Hans.
  rewrite write_packet_in by (try done; lia). cbn [mbind option_bind]. by eexists.
Qed.

(** One turn, on a buffer whose lengths are true. *)
Lemma parse_packet_spec env s :
  old_ok s -> Z.of_nat (size (conns (os_states s))) < TABLE_MAX ->
  let m := os_tu s in
  (getf m 0 ip_proto = 1 -> ihl_of m 0 + 8 <= claimed m <= MTU_SIZE) ->
  (getf m 0 ip_proto = 6 -> response_fits env m (ihl_of m 0)) ->
  turned (parse_packet env s) (turn_spec env m (conns (os_states s))).
Proof.
  destruct s as [m st]. intros Hok Hmax m0 Hicmp Htcp. subst m0. cbn [os_tu os_states] in *.
  pose proof Hok as [Hb Hs Hc Hq]. cbn [os_tu os_states] in *. unfold MTU_SIZE in Hs.
  pose proof (ihl_of_range m 0) as Hr.
  unfold turn_spec, parse_packet, packet_deserialize. cbn [os_tu os_states]. run.
  replace (4 * Z.land (getf m 0 ip_version_ihl) 15) with (ihl_of m 0) by (unfold ihl_of; lia).
  assert (turned (Some (0, [], MkOldServer m st)) (Some ([], m, conns st))) as Hidle by (by eexists).
  destruct (Z.shiftr (getf m 0 ip_version_ihl) 4 =? 4) eqn:Hv; cbn [negb orb].
  2:{ by destruct (Z.shiftr _ 4 =? 6). }
  destruct (Z.shiftr _ 4 =? 6) eqn:H6; [lia|clear H6].
  replace (Z.land (getf m 0 ip_version_ihl) 15 <? 5) with (ihl_of m 0 <? 20)
    by (unfold ihl_of; apply eq_true_iff_eq; rewrite !Z.ltb_lt; lia).
  destruct (ihl_of m 0 <? 20) eqn:Hi; [done|].
  destruct (getf m 0 ip_proto =? 1) eqn:H1; cbn [mbind option_bind].
  - change (IPV4_ICMP =? IPV4_ICMP) with true. cbv iota. apply icmp_turn; [done| |apply Hicmp; lia].
    destruct (Hicmp ltac:(lia)). unfold MTU_SIZE in *. split; try done; lia.
  - destruct (getf m 0 ip_proto =? 6) eqn:H6; cbn [mbind option_bind]; [|done].
    change (IPV4_TCP =? IPV4_ICMP) with false. change (IPV4_TCP =? IPV4_TCP) with true. cbv iota.
    apply tcp_turn; [done| |done|apply Htcp; lia].
    split; try done; unfold MTU_SIZE, IP_TCP_PROTO; lia.
Qed.

(** The buffer once a sane packet is read into it. *)
Lemma sane_read env data tu :
  sane env data -> bytes_ok tu -> Z.of_nat (length tu) = MTU_SIZE + 1 ->
  let m := upd tu 0 data in
  store_bytes tu 0 (take (Z.to_nat MTU_SIZE) data) = Some m /\
  bytes_ok m /\ Z.of_nat (length m) = MTU_SIZE + 1 /\
  (getf m 0 ip_proto = 1 -> ihl_of m 0 + 8 <= claimed m <= MTU_SIZE) /\
  (getf m 0 ip_proto = 6 -> response_fits env m (ihl_of m 0)).
Proof.
  intros [Hb [Hlo Hhi] Hicmp Htcp] Htu Hs m. unfold MTU_SIZE in *.
  assert (take (Z.to_nat 1500) data = data) as -> by (apply take_ge; lia).
  assert (getf m 0 ip_proto = getf data 0 ip_proto /\ ihl_of m 0 = ihl_of data 0 /\ claimed m = claimed data)
    as (Hpr & Hih & Hcl).
  { unfold ihl_of, claimed. subst m. rewrite !getf_head by mem. done. }
  split; [apply store_bytes_in; lia|]. split; [subst m; auto with bytes|].
  split; [subst m; by rewrite length_upd|]. rewrite Hpr, Hih, Hcl. split.
  - intros H. specialize (Hicmp H). lia.
  - intros H. destruct (Htcp H) as [Hl (Hf & H20 & Hfit)].
    assert (tcp_hlen_of m (ihl_of data 0) = tcp_hlen_of data (ihl_of data 0)) as Hh.
    { unfold tcp_hlen_of. pose proof (ihl_of_range data 0). subst m. by rewrite getf_head by mem. }
    split; [done|]. rewrite Hh. exact (conj H20 Hfit).
Qed.

Lemma turn_size env m M out m' M' :
  turn_spec env m M = Some (out, m', M') -> (size M' <= S (size M))%nat.
Proof.
  unfold turn_spec. destruct (_ || _); [intros [= <- <- <-]; lia|].
  destruct (_ =? 1); [intros [= <- <- <-]; lia|]. destruct (_ =? 6); [|intros [= <- <- <-]; lia].
  intros ([[v m1] o] & _ & [= <- <- <-])%bind_Some. destruct o; cbn [with_conn].
  - rewrite map_size_insert. destruct (_ !! _); cbn; lia.
  - rewrite map_size_delete. destruct (_ !! _); cbn; lia.
Qed.

Lemma main_loop_spec rs s :
  old_ok s -> Forall round_sane rs -> Z.of_nat (size (conns (os_states s)) + length rs) <= TABLE_MAX ->
  match loop_spec rs (os_tu s) (conns (os_states s)) with
  | None => main_loop rs s = None
  | Some (out, status, tu, M) =>
      exists s', main_loop rs s = Some (out, status, s') /\ old_ok s' /\ os_tu s' = tu /\
        conns (os_states s') = M
  end.
Proof.
  revert s. induction rs as [|r rs IH]; intros s Hs Hrs Hmax; cbn [main_loop loop_spec].
  { by exists s. }
  apply Forall_cons in Hrs as [Hr Hrs]. cbn [length] in Hmax.
  destruct (or_read r) as [[|x data]|] eqn:Hread; [by exists s| |by exists s].
  assert (x :: data <> []) as Hne by discriminate. pose proof (Hr _ Hread Hne) as Hsane. clear Hne. set (d := x :: data) in *.
  destruct Hs as [Hb Hsz Hc Hq].
  destruct (sane_read _ _ _ Hsane Hb Hsz) as (Hst & Hbm & Hlm & Hicmp & Htcp).
  rewrite Hst. cbn [mbind option_bind]. set (m := upd (os_tu s) 0 d) in *. clearbody m.
  pose proof (parse_packet_spec (or_env r) (MkOldServer m (os_states s))) as H. cbn [os_tu os_states] in H.
  specialize (H ltac:(by split) ltac:(lia) Hicmp Htcp).
  destruct (turn_spec _ _ _) as [[[out m'] M']|] eqn:Hturn; cbn [mbind option_bind]; [|by rewrite H].
  destruct H as (s' & -> & Hok & <- & <-). cbn [mbind option_bind truth Z.eqb negb].
  apply turn_size in Hturn. specialize (IH s' Hok Hrs ltac:(lia)).
  destruct (loop_spec rs _ _) as [[[[out' status] tu'] M'']|]; cbn [mbind option_bind]; [|by rewrite IH].
  destruct IH as (s'' & -> & Hok' & Htu & HM). by exists s''.
Qed.

Lemma main_start_ok oom : (forall k, oom k = false) -> old_ok (main_start oom).
Proof.
  intros H. split; cbn [main_start os_tu os_states].
  - apply Forall_replicate. unfold byte_ok. lia.
  - by rewrite length_replicate.
  - apply inst_start_closed.
  - exact H.
Qed.

(** ** Properties *)


Definition old_round (flags seq ack : Z) : Old_Round :=
  MkOldRound (Some (take 40 (old_sample flags seq ack))) (old_env no_file).

Lemma old_round_sane flags seq ack :
  bytes_ok (take 40 (old_sample flags seq ack)) ->
  getf (take 40 (old_sample flags seq ack)) 0 ip_proto = 6 ->
  ihl_of (take 40 (old_sample flags seq ack)) 0 = 20 ->
  tcp_hlen_of (take 40 (old_sample flags seq ack)) 20 = 20 ->
  Z.of_nat (length (take 40 (old_sample flags seq ack))) = 40 ->
  round_sane (old_round flags seq ack).
Proof.
  intros Hb Hp Hi Hh Hl data Hd _. apply Some_inj in Hd. rewrite <- Hd. cbn [old_round or_env]. clear Hd.
  split; [exact Hb|rewrite Hl; unfold MTU_SIZE; lia|rewrite Hp; discriminate|]. intros _.
  rewrite Hi. split; [lia|]. apply no_file_fits; lia.
Qed.


(** C37 An ICMP packet that is not an echo request is written back as it came, and with the
    length its header claims: when that is more than was received, the packet written
    continues with what earlier packets left in the buffer. *)
Theorem old_icmp_leaks env tu st data :
  bytes_ok tu -> Z.of_nat (length tu) = MTU_SIZE + 1 -> bytes_ok data ->
  Z.shiftr (getf data 0 ip_version_ihl) 4 = 4 -> getf data 0 ip_proto = 1 ->
  20 <= ihl_of data 0 -> ihl_of data 0 < Z.of_nat (length data) ->
  getf data (ihl_of data 0) icmp_type <> 8 ->
  Z.of_nat (length data) <= claimed data <= MTU_SIZE + 1 ->
  parse_packet env (MkOldServer (upd tu 0 data) st)
  = Some (0, [data ++ rd tu (Z.of_nat (length data)) (claimed data - Z.of_nat (length data))],
          MkOldServer (upd tu 0 data) st).
Proof.
  intros Htu Hs Hd Hv Hp Hi Hl Ht Hc. unfold MTU_SIZE in *.
  set (m := upd tu 0 data). pose proof (ihl_of_range data 0) as Hr.
  assert (bytes_ok m) as Hb by (subst m; auto with bytes).
  assert (Z.of_nat (length m) = 1501) as Hlm by (subst m; by rewrite length_upd).
  assert (getf m 0 ip_version_ihl = getf data 0 ip_version_ihl /\ getf m 0 ip_proto = getf data 0 ip_proto /\
    getf m (ihl_of data 0) icmp_type = getf data (ihl_of data 0) icmp_type /\ claimed m = claimed data)
    as (E1 & E2 & E3 & E4) by (unfold claimed; subst m; rewrite !getf_head by mem; done).
  assert (rd m 0 (claimed data) = data ++ rd tu (Z.of_nat (length data)) (claimed data - Z.of_nat (length data)))
    as Hrd.
  { replace (claimed data) with (Z.of_nat (length data) + (claimed data - Z.of_nat (length data))) at 1 by lia.
    rewrite rd_app by lia. subst m. rewrite rd_upd_same by lia. by rewrite rd_upd_other by lia. }
  clearbody m. unfold parse_packet, packet_deserialize. cbn [os_tu os_states]. run.
  rewrite E1, E2, Hv, Hp. cbn [Z.eqb Pos.eqb negb].
  replace (4 * Z.land (getf data 0 ip_version_ihl) 15) with (ihl_of data 0) by (unfold ihl_of; lia).
  destruct (Z.land _ 15 <? 5) eqn:E; [unfold ihl_of in Hi; lia|]. cbn [mbind option_bind].
  change (IPV4_ICMP =? IPV4_ICMP) with true. cbv iota. unfold icmp_dispatch. run. rewrite E3.
  destruct (getf data (ihl_of data 0) icmp_type =? 8) eqn:E8; [lia|]. cbn [mbind option_bind].
  rewrite write_packet_in by (try done; lia). cbn [mbind option_bind]. by rewrite E4, Hrd.
Qed.

(** 28 bytes are received, 30 are written. *)
Lemma old_icmp_leaks_witness :
  let data := setf (setf (setf (replicate 28 0) 0 ip_version_ihl 69) 0 ip_len (htons 30)) 0 ip_proto 1 in
  parse_packet (old_env no_file) (MkOldServer (upd (replicate 1501 7) 0 data) (inst_start (fun _ => false)))
  = Some (0, [data ++ [7; 7]], MkOldServer (upd (replicate 1501 7) 0 data) (inst_start (fun _ => false))).
Proof.
  cbv zeta. set (data := setf _ 0 ip_proto 1).
  assert (claimed data = 30) as Hc by by_eval. assert (Z.of_nat (length data) = 28) as Hl by by_eval.
  assert (ihl_of data 0 = 20) as Hi by by_eval.
  pose proof (old_icmp_leaks (old_env no_file) (replicate 1501 7) (inst_start (fun _ => false)) data) as H.
  rewrite Hc, Hl, Hi in H.
  assert (rd (replicate 1501 7) 28 (30 - 28) = [7; 7]) as Hr by by_eval. rewrite Hr in H. apply H.
  - by_eval.
  - by_eval.
  - by_eval.
  - by_eval.
  - by_eval.
  - lia.
  - lia.
  - intros E. vm_compute in E. discriminate E.
  - unfold MTU_SIZE. lia.
Defined.
