(* ===== verification/OldSession.v ===== *)
(** * A client's session with the first version

    The loop of [OldMain.v], the handler of [OldTcp.v] and the responses of [Http.v]
    together: what a client that connects, asks for the file and closes is sent. *)
From S2P Require Import Prelude Memory Checksum Ip Icmp TcpHeader Heap Table OldList OldNet OldSegment Format Http OldTcp OldMain.

Implicit Types (M : gmap TCP_Connection_ID Block).

(** A turn that reads a segment [d] of the connection [id], without RST. *)
Record segment (id : TCP_Connection_ID) (r : Old_Round) (d : bytes) : Prop := {
  sg_read : or_read r = Some d;
  sg_sane : sane (or_env r) d;
  sg_version : Z.shiftr (getf d 0 ip_version_ihl) 4 = 4;
  sg_ihl : 20 <= ihl_of d 0;
  sg_proto : getf d 0 ip_proto = IP_TCP_PROTO;
  sg_id : old_id d (ihl_of d 0) = id;
  sg_rst : old_has d (ihl_of d 0) RST = false;
}.

(** ** Lemmas *)

Section turn.
Context (id : TCP_Connection_ID) (r : Old_Round) (d tu : bytes).
Hypothesis (Hseg : segment id r d) (Htu : bytes_ok tu) (Hlen : Z.of_nat (length tu) = MTU_SIZE + 1).
Let m := upd tu 0 d.
Let off := ihl_of d 0.

(** The packet's fields in the buffer. *)
Lemma segment_fits : 20 <= off <= 60 /\ off + 20 <= Z.of_nat (length d) <= 1500.
Proof using Hseg.
  clear Htu Hlen m tu.
  destruct (sn_tcp _ _ (sg_sane _ _ _ Hseg) (sg_proto _ _ _ Hseg)) as [Hl _].
  pose proof (sn_len _ _ (sg_sane _ _ _ Hseg)) as Hl2. pose proof (ihl_of_range d 0). pose proof (sg_ihl _ _ _ Hseg).
  unfold MTU_SIZE in Hl2. subst off. lia.
Qed.

Lemma segment_getf p f :
  0 <= p + f_off f -> p + f_off f + Z.of_nat (f_width f) <= Z.of_nat (length d) -> getf m p f = getf d p f.
Proof. intros. pose proof segment_fits. unfold MTU_SIZE in Hlen. subst m. apply getf_head; lia. Qed.

Lemma segment_ihl : ihl_of m 0 = off.
Proof. pose proof segment_fits. unfold off, ihl_of. by rewrite segment_getf by mem. Qed.

Lemma segment_packet : tcp_packet m off.
Proof.
  pose proof segment_fits as Hf. pose proof (sn_bytes _ _ (sg_sane _ _ _ Hseg)) as Hb.
  split; [subst m; auto with bytes|subst m; by rewrite length_upd| |symmetry; exact segment_ihl|lia|];
    rewrite segment_getf by mem; apply Hseg.
Qed.

Lemma segment_response : response_fits (or_env r) m off.
Proof.
  pose proof segment_fits as Hf.
  destruct (sn_tcp _ _ (sg_sane _ _ _ Hseg) (sg_proto _ _ _ Hseg)) as [_ (H1 & H2 & H3)].
  fold off in H2, H3. assert (tcp_hlen_of m off = tcp_hlen_of d off) as Hh
    by (unfold tcp_hlen_of; by rewrite segment_getf by mem).
  split; [exact H1|]. by rewrite Hh.
Qed.

Lemma segment_id : old_id m off = id.
Proof.
  pose proof segment_fits. rewrite <- (sg_id _ _ _ Hseg). fold off. unfold old_id. by rewrite !segment_getf by mem.
Qed.

(** A turn of the loop runs the machine of the connection. *)
Lemma loop_segment rs M v m' o :
  old_spec (or_env r) m off (M !! id) = Some (v, m', o) ->
  bytes_ok m' /\ Z.of_nat (length m') = MTU_SIZE + 1 /\
  loop_spec (r :: rs) tu M =
    '(out, status, tu, M) ← loop_spec rs m' (with_conn M id o);
    Some ((if v =? TCP_SILENT then [] else [rd m' 0 (claimed m')]) ++ out, status, tu, M).
Proof.
  intros Hspec. pose proof segment_packet as Hp. pose proof segment_fits as Hf.
  destruct (old_spec_buffer _ _ _ _ _ _ _ Hp segment_response Hspec) as [[Hb Hl] _].
  split; [done|]. split; [rewrite Hl; apply Hp|]. cbn [loop_spec]. rewrite (sg_read _ _ _ Hseg).
  assert (turn_spec (or_env r) (upd tu 0 d) M
          = Some (if v =? TCP_SILENT then [] else [rd m' 0 (claimed m')], m', with_conn M id o)) as ->.
  { fold m. unfold turn_spec. rewrite segment_ihl, (tp_version _ _ Hp), (tp_proto _ _ Hp).
    change (negb (4 =? 4)) with false. destruct (off <? 20) eqn:E; [lia|]. cbn [orb].
    change (IP_TCP_PROTO =? 1) with false. change (IP_TCP_PROTO =? 6) with true. cbv iota.
    by rewrite segment_id, Hspec. }
  cbn [mbind option_bind]. destruct d; [cbn in Hf; lia|]. done.
Qed.

(** What is sent of a reply in the buffer is a reply to the packet. *)
Lemma reply_sent m' n sq ak fl :
  reply_of m m' off n sq ak fl -> 20 <= n ->
  claimed m' = off + n /\ reply_of d (rd m' 0 (off + n)) off n sq ak fl.
Proof.
  intros [] Hn. pose proof segment_fits as Hf. split; [exact rp_len|].
  assert (forall p f, 0 <= p + f_off f -> p + f_off f + Z.of_nat (f_width f) <= off + n ->
    getf (rd m' 0 (off + n)) p f = getf m' p f) as Hget by (intros; unfold getf; by rewrite rd_rd by lia).
  assert (ihl_of (rd m' 0 (off + n)) 0 = ihl_of m' 0) as Hi by (unfold ihl_of; by rewrite Hget by mem).
  rewrite !segment_getf in * by mem.
  assert (tcp_hlen_of m off = tcp_hlen_of d off) as Hh by (unfold tcp_hlen_of; by rewrite segment_getf by mem).
  split; rewrite ?Hget by mem; try done; try congruence.
  - destruct rp_ip as (H1 & H2 & H3). rewrite rp_ihl in *. split; [lia|]. split; [by rewrite Hget by mem|].
    by rewrite Hi, rd_rd by lia.
  - unfold tcp_hlen_of in *. rewrite Hget by mem. congruence.
  - intros H18. specialize (rp_tcp H18). unfold tcp_verifies, pseudo_of in *. rewrite !Hget by mem. by rewrite rd_rd by lia.
Qed.
End turn.

(** ** The machine along a session *)

Lemma open_ok env m offset b0 :
  int_ok (s32 (ntohl (getf m offset tcp_seq_num)) + 1) = true -> int_ok (s32 (env_ticks env) + 1) = true ->
  exists b, open_spec env m offset b0 = Some b /\
    rs_next (b_recv b) = s32 (ntohl (getf m offset tcp_seq_num)) + 1.
Proof.
  intros H1 H2. unfold open_spec, open_block, int_add. rewrite H1. cbn [mbind option_bind]. rewrite H2.
  by eexists.
Qed.

Lemma acknowledged env m offset b :
  b_state b = TCP_SYN_RECEIVED -> ack_only m offset -> ntohl (getf m offset tcp_ack_num) = u32 (ss_next (b_send b)) ->
  exists b', old_spec env m offset (Some b) = Some (TCP_SILENT, m, Some b') /\ b_state b' = TCP_ESTABLISHED /\
    ss_next (b_send b') = ss_next (b_send b) /\ rs_next (b_recv b') = rs_next (b_recv b).
Proof.
  intros Hst (Ha & Hs & Hr) Hack. cbn [old_spec]. unfold block_spec. rewrite Hr, Hst, Ha, Hs, Hack, Z.eqb_refl.
  cbn [andb negb]. by eexists.
Qed.


(** ** The session *)

(** Our sequence number, the client's, and where a segment's data begins. *)
Definition iss_of (r : Old_Round) : Z := s32 (env_ticks (or_env r)).
Definition irs_of (d : bytes) : Z := s32 (ntohl (getf d (ihl_of d 0) tcp_seq_num)).
Definition body_of (d : bytes) : Z := ihl_of d 0 + tcp_hlen_of d (ihl_of d 0).
Definition response_of (content : bytes) : bytes := headers (Z.of_nat (length content)) ++ content.

(** A request whole in its packet, for a file that is there and fits. *)
Record asks (r : Old_Round) (d content : bytes) : Prop := {
  as_fin : old_has d (ihl_of d 0) FIN = false;
  as_len : body_of d + 4 <= claimed d <= Z.of_nat (length d);
  as_get : rd d (body_of d) 4 = GET;
  as_memory : fe_memory (oe_file (or_env r)) = true;
  as_file : fe_file (oe_file (or_env r)) = Some content;
  as_small : Z.of_nat (length content) <= MTU_SIZE;
  as_read : fe_read (oe_file (or_env r)) = Z.of_nat (length content);
}.

(** A client opens [id], acknowledges our sequence number, asks for the file and closes, in
    four turns, with sequence numbers that do not overflow an [int]. *)
Record session (id : TCP_Connection_ID) (r1 r2 r3 r4 : Old_Round) (d1 d2 d3 d4 content : bytes) : Prop := {
  se_1 : segment id r1 d1;
  se_2 : segment id r2 d2;
  se_3 : segment id r3 d3;
  se_4 : segment id r4 d4;
  se_syn : syn_only d1 (ihl_of d1 0);
  se_ack : ack_only d2 (ihl_of d2 0);
  se_num : ntohl (getf d2 (ihl_of d2 0) tcp_ack_num) = u32 (iss_of r1 + 1);
  se_asks : asks r3 d3 content;
  se_fin : old_has d4 (ihl_of d4 0) FIN = true;
  se_irs : int_ok (irs_of d1 + 1 + (claimed d3 - body_of d3)) = true;
  se_iss : int_ok (iss_of r1 + 1 + Z.of_nat (length (response_of content))) = true;
}.

Lemma int_ok_range z : int_ok z = true <-> -2147483648 <= z <= 2147483647.
Proof. unfold int_ok. rewrite andb_true_iff, !Z.leb_le. done. Qed.

Lemma segment_has id r d tu flag :
  segment id r d -> Z.of_nat (length tu) = MTU_SIZE + 1 ->
  old_has (upd tu 0 d) (ihl_of d 0) flag = old_has d (ihl_of d 0) flag.
Proof.
  intros Hs Ht. pose proof (segment_fits id r d Hs). unfold old_has. by rewrite (segment_getf id r d tu Hs Ht) by mem.
Qed.

Lemma segment_hlen id r d tu :
  segment id r d -> Z.of_nat (length tu) = MTU_SIZE + 1 ->
  tcp_hlen_of (upd tu 0 d) (ihl_of d 0) = tcp_hlen_of d (ihl_of d 0).
Proof.
  intros Hs Ht. pose proof (segment_fits id r d Hs). unfold tcp_hlen_of.
  by rewrite (segment_getf id r d tu Hs Ht) by mem.
Qed.

(** The first two turns: the connection is established. *)
Lemma session_opens id r1 r2 d1 d2 tu M rs :
  segment id r1 d1 -> segment id r2 d2 -> syn_only d1 (ihl_of d1 0) -> ack_only d2 (ihl_of d2 0) ->
  ntohl (getf d2 (ihl_of d2 0) tcp_ack_num) = u32 (iss_of r1 + 1) ->
  int_ok (irs_of d1 + 1) = true -> int_ok (iss_of r1 + 1) = true ->
  bytes_ok tu -> Z.of_nat (length tu) = MTU_SIZE + 1 -> M !! id = None ->
  exists p1 tu' b, bytes_ok tu' /\ Z.of_nat (length tu') = MTU_SIZE + 1 /\
    loop_spec (r1 :: r2 :: rs) tu M =
      ('(out, status, tu, M) ← loop_spec rs tu' (<[id := b]> M); Some (p1 :: out, status, tu, M)) /\
    reply_of d1 p1 (ihl_of d1 0) (tcp_hlen_of d1 (ihl_of d1 0)) (iss_of r1)
      (ntohl (getf d1 (ihl_of d1 0) tcp_seq_num) + 1) (Z.lor SYN ACK) /\
    b_state b = TCP_ESTABLISHED /\ ss_next (b_send b) = iss_of r1 + 1 /\ rs_next (b_recv b) = irs_of d1 + 1.
Proof.
  intros Hs1 Hs2 Hsyn Hack Hnum Hi1 Hi2 Hb Hl Hnone.
  pose proof (segment_fits id r1 d1 Hs1) as Hf1. pose proof (segment_fits id r2 d2 Hs2) as Hf2.
  pose proof (segment_packet id r1 d1 tu Hs1 Hb Hl) as Hp1. set (m1 := upd tu 0 d1) in *.
  assert (getf m1 (ihl_of d1 0) tcp_seq_num = getf d1 (ihl_of d1 0) tcp_seq_num) as Hsq
    by (apply (segment_getf id r1 d1 tu Hs1 Hl); mem).
  destruct (open_ok (or_env r1) m1 (ihl_of d1 0) (fresh_block id)) as (b & Hopen & Hrx);
    [by rewrite Hsq|exact Hi2|]. rewrite Hsq in Hrx. fold (irs_of d1) in Hrx.
  destruct (syn_ack_reply _ _ _ _ _ Hp1 Hopen) as (Hrep & Hst & _ & _ & Hnx).
  assert (old_spec (or_env r1) m1 (ihl_of d1 0) (M !! id) = Some (0, syn_ack_seg m1 b (ihl_of d1 0), Some b)) as Hspec1.
  { rewrite Hnone. unfold old_spec. unfold m1. rewrite !(segment_has id r1 d1 tu) by done. destruct Hsyn as (-> & -> & ->).
    cbn [andb negb]. fold m1. pose proof (segment_id id r1 d1 tu Hs1 Hl) as Hid. fold m1 in Hid. by rewrite Hid, Hopen. }
  destruct (loop_segment id r1 d1 tu Hs1 Hb Hl (r2 :: rs) M _ _ _ Hspec1) as (Hb1 & Hl1 & Hloop1).
  pose proof (segment_response id r1 d1 tu Hs1 Hl) as (_ & H20 & _). fold m1 in H20.
  destruct (reply_sent id r1 d1 tu Hs1 Hl _ _ _ _ _ Hrep H20) as [Hcl Hrep1]. fold m1 in Hcl.
  fold (syn_ack_seg m1 b (ihl_of d1 0)) in Hcl, Hrep1.
  set (t1 := syn_ack_seg m1 b (ihl_of d1 0)) in *. clearbody t1. set (m2 := upd t1 0 d2).
  destruct (acknowledged (or_env r2) m2 (ihl_of d2 0) b) as (b2 & Hspec2 & Hst2 & Hnx2 & Hrx2).
  - by rewrite Hst.
  - unfold ack_only in *. unfold m2. by rewrite !(segment_has id r2 d2 t1).
  - unfold m2. rewrite (segment_getf id r2 d2 t1 Hs2 Hl1) by mem. by rewrite Hnx.
  - assert (with_conn M id (Some b) !! id = Some b) as Hlook by apply lookup_insert_eq.
    rewrite <- Hlook in Hspec2.
    destruct (loop_segment id r2 d2 t1 Hs2 Hb1 Hl1 rs _ _ _ _ Hspec2) as (Hb2 & Hl2 & Hloop2).
    exists (rd t1 0 (ihl_of d1 0 + tcp_hlen_of m1 (ihl_of d1 0))), m2, b2. split; [exact Hb2|]. split; [exact Hl2|]. rewrite Hloop1, Hloop2. cbn [with_conn].
    rewrite insert_insert_eq, Hcl. change (0 =? TCP_SILENT) with false. change (TCP_SILENT =? TCP_SILENT) with true.
    cbn [app]. split; [by destruct (loop_spec rs m2 (<[id:=b2]> M)) as [[[[? ?] ?] ?]|]|].
    rewrite <- (segment_hlen id r1 d1 tu Hs1 Hl), <- Hsq. fold m1. split; [exact Hrep1|].
    split; [exact Hst2|]. unfold iss_of. split; congruence.
Qed.

(** The third turn: the file is served. *)
Lemma session_serves id r d content tu b M rs :
  let len := claimed d - body_of d in
  let n := Z.of_nat (length (response_of content)) in
  segment id r d -> asks r d content ->
  int_ok (rs_next (b_recv b) + len) = true -> int_ok (ss_next (b_send b) + n) = true ->
  bytes_ok tu -> Z.of_nat (length tu) = MTU_SIZE + 1 -> M !! id = Some b -> b_state b = TCP_ESTABLISHED ->
  exists p tu' b', bytes_ok tu' /\ Z.of_nat (length tu') = MTU_SIZE + 1 /\
    loop_spec (r :: rs) tu M =
      ('(out, status, tu, M) ← loop_spec rs tu' (<[id := b']> M); Some (p :: out, status, tu, M)) /\
    reply_of d p (ihl_of d 0) (tcp_hlen_of d (ihl_of d 0) + n) (ss_next (b_send b))
      (rs_next (b_recv b) + len) (Z.lor PSH ACK) /\
    rd p (body_of d) n = response_of content /\
    b_state b' = TCP_ESTABLISHED /\ ss_next (b_send b') = ss_next (b_send b) + n.
Proof.
  intros len n Hs [Hdata Hlen Hget Hmem Hfile Hsmall Hread] Hi1 Hi2 Hb Hl Hlook Hst.
  pose proof (segment_fits id r d Hs) as Hf. pose proof (segment_packet id r d tu Hs Hb Hl) as Hp.
  pose proof (segment_response id r d tu Hs Hl) as Hr. pose proof Hr as (_ & H20 & _).
  pose proof (segment_hlen id r d tu Hs Hl) as Hh.
  assert (claimed (upd tu 0 d) = claimed d) as Hc
    by (unfold claimed; by rewrite (segment_getf id r d tu Hs Hl) by mem).
  assert (claimed (upd tu 0 d) - ihl_of d 0 - tcp_hlen_of (upd tu 0 d) (ihl_of d 0) = len) as Hlen'
    by (subst len; unfold body_of; lia). rewrite Hh in H20. unfold body_of, MTU_SIZE in *.
  destruct (requested (or_env r) (upd tu 0 d) (ihl_of d 0) b content Hp Hr Hst)
    as (m' & b' & Hspec & Hrep & Hrd & Hst' & Hnx'); rewrite ?Hlen', ?(segment_has id r d tu); try done.
  { apply Hs. }
  { lia. }
  { unfold MTU_SIZE. lia. }
  { rewrite Hh, rd_head; [done|lia..]. }
  rewrite Hlen' in Hrep. rewrite Hh in Hrep, Hrd. fold (response_of content) in Hrep, Hrd. fold n in Hrep, Hrd, Hnx'.
  rewrite <- Hlook in Hspec.
  destruct (loop_segment id r d tu Hs Hb Hl rs _ _ _ _ Hspec) as (Hb' & Hl' & Hloop).
  destruct (reply_sent id r d tu Hs Hl _ _ _ _ _ Hrep ltac:(lia)) as [Hcl Hrep'].
  rewrite Hcl in Hloop. eexists _, m', b'. split; [exact Hb'|]. split; [exact Hl'|].
  split; [exact Hloop|]. split; [exact Hrep'|]. split; [by rewrite rd_rd by lia|]. done.
Qed.

(** The fourth: the client's FIN is acknowledged. *)
Lemma session_ends id r d tu b M rs :
  segment id r d -> old_has d (ihl_of d 0) FIN = true ->
  bytes_ok tu -> Z.of_nat (length tu) = MTU_SIZE + 1 -> M !! id = Some b -> b_state b = TCP_ESTABLISHED ->
  exists p tu' b',
    loop_spec (r :: rs) tu M =
      ('(out, status, tu, M) ← loop_spec rs tu' (<[id := b']> M); Some (p :: out, status, tu, M)) /\
    reply_of d p (ihl_of d 0) (tcp_hlen_of d (ihl_of d 0)) (ss_next (b_send b))
      (ntohl (getf d (ihl_of d 0) tcp_seq_num) + 1) ACK /\
    b_state b' = TCP_CLOSE_WAIT.
Proof.
  intros Hs Hfin Hb Hl Hlook Hst.
  pose proof (segment_fits id r d Hs) as Hf. pose proof (segment_packet id r d tu Hs Hb Hl) as Hp.
  pose proof (segment_response id r d tu Hs Hl) as (_ & H20 & _).
  destruct (finished (or_env r) (upd tu 0 d) (ihl_of d 0) b Hp Hst) as (m' & b' & Hspec & Hrep & Hst').
  { rewrite (segment_has id r d tu) by done. apply Hs. }
  { by rewrite (segment_has id r d tu). }
  rewrite <- Hlook in Hspec. destruct (loop_segment id r d tu Hs Hb Hl rs _ _ _ _ Hspec) as (_ & _ & Hloop).
  destruct (reply_sent id r d tu Hs Hl _ _ _ _ _ Hrep H20) as [Hcl Hrep'].
  rewrite (segment_hlen id r d tu Hs Hl) in *. rewrite (segment_getf id r d tu Hs Hl) in Hrep' by mem.
  rewrite Hcl in Hloop. eexists _, m', b'. split; [exact Hloop|]. by split.
Qed.

Lemma segment_round id r d : segment id r d -> round_sane r.
Proof. intros Hs data Hd _. rewrite (sg_read _ _ _ Hs) in Hd. apply Some_inj in Hd. rewrite <- Hd. apply Hs. Qed.

(** What [loop_spec] does with the four turns. *)
Lemma session_spec id r1 r2 r3 r4 d1 d2 d3 d4 content tu M :
  let n := Z.of_nat (length (response_of content)) in
  session id r1 r2 r3 r4 d1 d2 d3 d4 content ->
  bytes_ok tu -> Z.of_nat (length tu) = MTU_SIZE + 1 -> M !! id = None ->
  exists p1 p3 p4 tu' b,
    loop_spec [r1; r2; r3; r4] tu M = Some ([p1; p3; p4], None, tu', <[id := b]> M) /\
    reply_of d1 p1 (ihl_of d1 0) (tcp_hlen_of d1 (ihl_of d1 0)) (iss_of r1) (irs_of d1 + 1) (Z.lor SYN ACK) /\
    reply_of d3 p3 (ihl_of d3 0) (tcp_hlen_of d3 (ihl_of d3 0) + n) (iss_of r1 + 1)
      (irs_of d1 + 1 + (claimed d3 - body_of d3)) (Z.lor PSH ACK) /\
    rd p3 (body_of d3) n = response_of content /\
    reply_of d4 p4 (ihl_of d4 0) (tcp_hlen_of d4 (ihl_of d4 0)) (iss_of r1 + 1 + n)
      (ntohl (getf d4 (ihl_of d4 0) tcp_seq_num) + 1) ACK /\
    b_state b = TCP_CLOSE_WAIT.
Proof.
  intros n [Hs1 Hs2 Hs3 Hs4 Hsyn Hack Hnum Hasks Hfin Hirs Hiss] Hb Hl Hnone. fold n in Hiss.
  pose proof (as_len _ _ _ Hasks) as Hlen.
  assert (int_ok (irs_of d1 + 1) = true /\ int_ok (iss_of r1 + 1) = true) as [Hi1 Hi2].
  { pose proof (s32_range (env_ticks (or_env r1))). pose proof (s32_range (ntohl (getf d1 (ihl_of d1 0) tcp_seq_num))).
    apply int_ok_range in Hirs, Hiss. rewrite !int_ok_range. unfold irs_of, iss_of in *. lia. }
  destruct (session_opens id r1 r2 d1 d2 tu M [r3; r4] Hs1 Hs2 Hsyn Hack Hnum Hi1 Hi2 Hb Hl Hnone)
    as (p1 & t2 & b2 & Hb2 & Hl2 & Hloop2 & Hrep1 & Hst2 & Hnx2 & Hrx2).
  destruct (session_serves id r3 d3 content t2 b2 (<[id := b2]> M) [r4] Hs3 Hasks)
    as (p3 & t3 & b3 & Hb3 & Hl3 & Hloop3 & Hrep3 & Hrd3 & Hst3 & Hnx3); rewrite ?Hnx2, ?Hrx2; try done.
  { apply lookup_insert_eq. }
  rewrite insert_insert_eq in Hloop3. rewrite Hnx2 in Hrep3, Hnx3. rewrite Hrx2 in Hrep3.
  destruct (session_ends id r4 d4 t3 b3 (<[id := b3]> M) [] Hs4 Hfin Hb3 Hl3 (lookup_insert_eq _ _ _) Hst3)
    as (p4 & t4 & b4 & Hloop4 & Hrep4 & Hst4).
  rewrite insert_insert_eq in Hloop4. rewrite Hnx3 in Hrep4.
  exists p1, p3, p4, t4, b4. split; [by rewrite Hloop2, Hloop3, Hloop4|].
  split; [|done]. destruct Hrep1. split; try done. rewrite rp_ack. unfold irs_of.
  generalize (ntohl (getf d1 (ihl_of d1 0) tcp_seq_num)). intros z. words.
Qed.

(** ** Properties *)

(** C27 A client of the first version, over the loop, the handler and the file server: a
    SYN for a connection that is not in the list, the acknowledgment of the sequence number
    it is answered with, a request for the file, and a FIN.  The program writes exactly
    three packets: a SYN-ACK that acknowledges the SYN, one packet that carries the headers
    and the whole file behind the client's own TCP header and acknowledges the request, and
    an acknowledgment of the FIN with the sequence number that follows the response.  All
    other connections are as they were, and this one waits in CLOSE_WAIT. *)
Theorem http_session id r1 r2 r3 r4 d1 d2 d3 d4 content s :
  let n := Z.of_nat (length (response_of content)) in
  session id r1 r2 r3 r4 d1 d2 d3 d4 content -> old_ok s ->
  conns (os_states s) !! id = None -> Z.of_nat (size (conns (os_states s))) + 4 <= TABLE_MAX ->
  exists p1 p3 p4 s' b,
    main_loop [r1; r2; r3; r4] s = Some ([p1; p3; p4], None, s') /\
    reply_of d1 p1 (ihl_of d1 0) (tcp_hlen_of d1 (ihl_of d1 0)) (iss_of r1) (irs_of d1 + 1) (Z.lor SYN ACK) /\
    reply_of d3 p3 (ihl_of d3 0) (tcp_hlen_of d3 (ihl_of d3 0) + n) (iss_of r1 + 1)
      (irs_of d1 + 1 + (claimed d3 - body_of d3)) (Z.lor PSH ACK) /\
    rd p3 (body_of d3) n = response_of content /\
    reply_of d4 p4 (ihl_of d4 0) (tcp_hlen_of d4 (ihl_of d4 0)) (iss_of r1 + 1 + n)
      (ntohl (getf d4 (ihl_of d4 0) tcp_seq_num) + 1) ACK /\
    conns (os_states s') = <[id := b]> (conns (os_states s)) /\ b_state b = TCP_CLOSE_WAIT.
Proof.
  intros n Hse Hs Hnone Hmax.
  destruct (session_spec id r1 r2 r3 r4 d1 d2 d3 d4 content (os_tu s) _ Hse (ok_bytes _ Hs) (ok_size _ Hs) Hnone)
    as (p1 & p3 & p4 & tu & b & Hloop & H1 & H3 & Hrd & H4 & Hst).
  pose proof (main_loop_spec [r1; r2; r3; r4] s Hs) as H. rewrite Hloop in H. destruct H as (s' & Hrun & _ & _ & Hcs).
  { repeat apply Forall_cons_2; [eapply segment_round, Hse..|apply Forall_nil_2]. }
  { cbn [length]. lia. }
  by exists p1, p3, p4, s', b.
Qed.

(** The four packets of a session that starts at sequence number 7. *)
Definition session_id : TCP_Connection_ID := MkCID 16777226 16540 33554442 36895.
Definition request_round : Old_Round := MkOldRound (Some (take 44 old_request)) (old_env with_page).

Lemma sample_segment flags seq ack :
  round_sane (old_round flags seq ack) ->
  Z.shiftr (getf (take 40 (old_sample flags seq ack)) 0 ip_version_ihl) 4 = 4 ->
  ihl_of (take 40 (old_sample flags seq ack)) 0 = 20 ->
  getf (take 40 (old_sample flags seq ack)) 0 ip_proto = IP_TCP_PROTO ->
  old_id (take 40 (old_sample flags seq ack)) 20 = session_id ->
  old_has (take 40 (old_sample flags seq ack)) 20 RST = false ->
  Z.of_nat (length (take 40 (old_sample flags seq ack))) = 40 ->
  segment session_id (old_round flags seq ack) (take 40 (old_sample flags seq ack)).
Proof.
  intros Hs Hv Hi Hp Hid Hr Hl. set (d := take 40 (old_sample flags seq ack)) in *.
  split; rewrite ?Hi; [reflexivity| |exact Hv|lia|exact Hp|exact Hid|exact Hr].
  apply Hs; [reflexivity|]. intros Hn. rewrite Hn in Hl. discriminate Hl.
Qed.

Lemma request_segment : segment session_id request_round (take 44 old_request).
Proof.
  split; [reflexivity| |by_eval..].
  split; [by_eval|by_eval|intros H; vm_compute in H; discriminate H|].
  intros _. split; [by_eval|]. assert (tcp_hlen_of (take 44 old_request) (ihl_of (take 44 old_request) 0) = 20) as Hh by by_eval.
  destruct old_request_fits as (Hf & _ & H). destruct old_request_packet as [_ Ho].
  assert (ihl_of (take 44 old_request) 0 = 20) as Hi by by_eval.
  split; [exact Hf|]. rewrite Hi in *. rewrite Hh. rewrite Ho in H. split; [lia|exact H].
Qed.

Lemma sample_session :
  session session_id (old_round SYN 7 0) (old_round ACK 8 1001) request_round (old_round (Z.lor FIN ACK) 12 1086)
    (take 40 (old_sample SYN 7 0)) (take 40 (old_sample ACK 8 1001)) (take 44 old_request)
    (take 40 (old_sample (Z.lor FIN ACK) 12 1086)) page.
Proof.
  split.
  - apply sample_segment; [apply old_round_sane|..]; by_eval.
  - apply sample_segment; [apply old_round_sane|..]; by_eval.
  - exact request_segment.
  - apply sample_segment; [apply old_round_sane|..]; by_eval.
  - split; [|split]; by_eval.
  - split; [|split]; by_eval.
  - by_eval.
  - split; [by_eval|split; vm_compute; discriminate|by_eval|reflexivity|reflexivity|vm_compute; discriminate|reflexivity].
  - by_eval.
  - by_eval.
  - by_eval.
Qed.

Lemma http_session_witness :
  exists p1 p3 p4 s' b,
    main_loop [old_round SYN 7 0; old_round ACK 8 1001; request_round; old_round (Z.lor FIN ACK) 12 1086]
      (main_start (fun _ => false)) = Some ([p1; p3; p4], None, s') /\
    ntohl (getf p1 20 tcp_ack_num) = 8 /\ rd p3 40 85 = headers 3 ++ page /\ ntohl (getf p4 20 tcp_ack_num) = 13 /\
    conns (os_states s') !! session_id = Some b /\ b_state b = TCP_CLOSE_WAIT.
Proof.
  destruct (http_session session_id (old_round SYN 7 0) (old_round ACK 8 1001) request_round
    (old_round (Z.lor FIN ACK) 12 1086) (take 40 (old_sample SYN 7 0)) (take 40 (old_sample ACK 8 1001))
    (take 44 old_request) (take 40 (old_sample (Z.lor FIN ACK) 12 1086)) page (main_start (fun _ => false))
    sample_session (main_start_ok _ (fun k => eq_refl)))
    as (p1 & p3 & p4 & s' & b & Hrun & H1 & _ & Hrd & H4 & Hcs & Hst).
  { cbn [main_start os_states]. rewrite inst_start_conns. apply lookup_empty. }
  { cbn [main_start os_states]. rewrite inst_start_conns, map_size_empty. unfold TABLE_MAX. lia. }
  exists p1, p3, p4, s', b. split; [exact Hrun|].
  pose proof (rp_ack _ _ _ _ _ _ _ H1) as Ha1. pose proof (rp_ack _ _ _ _ _ _ _ H4) as Ha4.
  assert (ihl_of (take 40 (old_sample SYN 7 0)) 0 = 20) as Hi1 by by_eval.
  assert (ihl_of (take 40 (old_sample (Z.lor FIN ACK) 12 1086)) 0 = 20) as Hi4 by by_eval.
  assert (body_of (take 44 old_request) = 40) as Hb by by_eval.
  assert (Z.of_nat (length (response_of page)) = 85) as Hn by by_eval.
  rewrite Hi1 in Ha1. rewrite Hi4 in Ha4. rewrite Hb, Hn in Hrd. rewrite Ha1, Ha4, Hcs.
  split; [by_eval|]. split; [exact Hrd|]. split; [by_eval|]. split; [apply lookup_insert_eq|exact Hst].
Defined.
