(* ===== verification/OldDevice.v ===== *)
(** * Start-up of the first version

    [v_device/v_device.c] and [main] of [main.c] around the loop of [OldMain.v].  An element
    of [argv] is the memory from its pointer on: what follows the string is whatever the
    process can read there.  What is printed is in [OldVerbose.v].  Each result carries the
    list of connections and its memory as [main] leaves it: there is no operation that
    frees the list. *)
From Stdlib Require Import String.
From S2P Require Import Prelude Memory CString Actions Ip TcpHeader Heap Table OldList OldSegment Format Http OldTcp OldMain.

Definition IFNAMSIZ : Z := 16.

(** [struct Virtual_Device]. *)
Record Virtual_Device := MkVd { vd_dev : bytes; vd_ip : bytes; vd_flags : Z; vd_fd : Z }.

(** Readings of the calls of [main] before the loop: the blocks granted, what [open], [ioctl]
    and the two [system] calls return, and the name the kernel leaves in [ifr.ifr_name]. *)
Record Vd_Env := MkVdEnv {
  ve_ip : bool; ve_dev : bool; ve_tu : bool;
  ve_open : Z; ve_ioctl : Z; ve_name : bytes;
  ve_system_addr : Z; ve_system_link : Z;
}.

(** ** Operations *)

(** The descriptor or a negative error, the buffer [dev] afterwards, and the actions. *)
Definition tun_alloc (env : Vd_Env) (dev : bytes) (flags : Z) : option (Z * bytes * list Act) :=
  let fd := ve_open env in
  if fd <? 0 then Some (fd, dev, []) else
  first ← get dev 0 (Field 0 1);
  ifr_name ← (if truth first then strncpy (replicate 16 0) 0 dev IFNAMSIZ else Some (replicate 16 0));
  let acts := [Acquire (Fd fd); Ioctl fd flags ifr_name] in
  if ve_ioctl env <? 0 then Some (ve_ioctl env, dev, acts ++ [Release (Fd fd)]) else
  dev ← strcpy dev (ve_name env);
  Some (fd, dev, acts).

(** [sprintf] into [cmd[256]]. *)
Definition sprintf_cmd (text : bytes) : option bytes :=
  if Z.of_nat (List.length text) + 1 <=? 256 then Some text else None.

Definition tun_init (env : Vd_Env) (vd : Virtual_Device) : option (Z * list Act) :=
  ip ← c_chars (vd_ip vd);
  dev_name ← c_chars (vd_dev vd);
  cmd ← sprintf_cmd (chars "ip addr add " ++ ip ++ chars " dev " ++ dev_name);
  let acts := [System cmd] in
  if ve_system_addr env =? -1 then Some (1, acts) else
  cmd ← sprintf_cmd (chars "ip link set " ++ dev_name ++ chars " up");
  let acts := acts ++ [System cmd] in
  if ve_system_link env =? -1 then Some (1, acts) else
  Some (0, acts).

Definition virtual_device_destroy (vd : Virtual_Device) : list Act :=
  [Release (Fd (vd_fd vd)); Release Ip_Block; Release Name_Block].

(** [main] once the device descriptor is held: the exit status ([None]: the loop goes on),
    the actions, the packets written, and the list of connections with its memory. *)
Definition main_serve (env : Vd_Env) (oom : nat -> bool) (rs : list Old_Round) (vd : Virtual_Device)
    : option (option Z * list Act * list bytes * Instance_) :=
  '(failed, acts) ← tun_init env vd;
  if truth failed then Some (Some 1, acts ++ virtual_device_destroy vd, [], inst_start oom) else
  if negb (ve_tu env) then Some (Some 1, acts ++ virtual_device_destroy vd, [], inst_start oom) else
  let acts := acts ++ [Acquire Unit_Block] in
  '(out, status, s) ← main_loop rs (main_start oom);
  match status with
  | None => Some (None, acts, out, os_states s)
  | Some code =>
      Some (Some code, acts ++ virtual_device_destroy vd ++ [Release Unit_Block], out, os_states s)
  end.

(** [main] from [tun_alloc] on; [flags] is [IFF_TUN | IFF_NO_PI]. *)
Definition main_open (flags : Z) (env : Vd_Env) (oom : nat -> bool) (rs : list Old_Round) (tun_name ip_addr : bytes)
    : option (option Z * list Act * list bytes * Instance_) :=
  '(fd, dev, acts) ← tun_alloc env tun_name flags;
  if fd <? 0 then Some (Some 1, acts ++ [Release Ip_Block; Release Name_Block], [], inst_start oom) else
  '(status, acts_serve, out, states) ← main_serve env oom rs (MkVd dev ip_addr flags fd);
  Some (status, acts ++ acts_serve, out, states).

(** The whole of [main]. *)
Definition main (flags : Z) (env : Vd_Env) (oom : nat -> bool) (rs : list Old_Round) (argv : list bytes)
    : option (option Z * list Act * list bytes * Instance_) :=
  let argc := Z.of_nat (List.length argv) in
  if argc <? 2 then Some (Some 1, [], [], inst_start oom) else
  if negb (ve_ip env) then Some (Some 1, [], [], inst_start oom) else
  let acts := [Acquire Ip_Block] in
  arg1 ← argv !! 1%nat;
  ip ← load_bytes arg1 0 IFNAMSIZ;
  ip_addr ← store_bytes (replicate (Z.to_nat (IFNAMSIZ + 1)) 0) 0 ip;
  if negb (ve_dev env) then Some (Some 1, acts ++ [Release Ip_Block], [], inst_start oom) else
  let acts := acts ++ [Acquire Name_Block] in
  tun_name ← (if 3 <=? argc then
                arg2 ← argv !! 2%nat;
                dev ← load_bytes arg2 0 IFNAMSIZ;
                store_bytes (replicate (Z.to_nat (IFNAMSIZ + 1)) 0) 0 dev
              else Some (replicate (Z.to_nat (IFNAMSIZ + 1)) 0));
  '(status, acts_open, out, states) ← main_open flags env oom rs tun_name ip_addr;
  Some (status, acts ++ acts_open, out, states).

(** ** Specification *)

(** What is copied of an argument: at most 16 characters. *)
Definition cut (a : bytes) : bytes := default [] (c_chars (take 16 a ++ [0])).

(** The commands run, in order. *)
Definition commands (acts : list Act) : list bytes :=
  omap (fun a => match a with System c => Some c | _ => None end) acts.

Definition vd_granted (env : Vd_Env) : bool :=
  ve_ip env && ve_dev env && (0 <=? ve_open env) && (0 <=? ve_ioctl env) &&
  negb (ve_system_addr env =? -1) && negb (ve_system_link env =? -1) && ve_tu env.

Definition addr_cmd (ip dev : bytes) : bytes := chars "ip addr add " ++ ip ++ chars " dev " ++ dev.
Definition link_cmd (dev : bytes) : bytes := chars "ip link set " ++ dev ++ chars " up".

(** What is held while the loop runs. *)
Definition vd_held (fd : Z) : gset Res := {[Fd fd; Ip_Block; Name_Block]}.

(** ** Lemmas *)

Lemma commands_app a b : commands (a ++ b) = commands a ++ commands b.
Proof. apply omap_app. Qed.

Lemma copy_argument a :
  (16 <= List.length a)%nat ->
  exists d, load_bytes a 0 IFNAMSIZ = Some d /\
    store_bytes (replicate (Z.to_nat (IFNAMSIZ + 1)) 0) 0 d = Some (take 16 a ++ [0]).
Proof.
  intros Hl. exists (take 16 a). unfold load_bytes, IFNAMSIZ. rewrite (proj2 (in_range_true _ _ _)) by lia.
  split; [unfold rd; by rewrite drop_0|].
  assert (List.length (take 16 a) = 16%nat) as Ht by (rewrite length_take; lia).
  rewrite store_bytes_in by (rewrite ?length_replicate; lia).
  rewrite upd_start by (rewrite length_replicate; lia). by rewrite Ht.
Qed.

Lemma copied_string a :
  exists s, c_chars (take 16 a ++ [0]) = Some s /\ s = cut a /\ (List.length s <= 16)%nat.
Proof.
  destruct (c_chars_zero (take 16 a ++ [0])) as [s Hs]; [apply elem_of_app; right; by constructor|].
  exists s. split; [done|]. split; [unfold cut; by rewrite Hs|].
  apply c_chars_length in Hs. rewrite length_app, length_take in Hs. cbn [List.length] in Hs. lia.
Qed.

Lemma old_tun_alloc_spec env dev flags s n :
  List.length dev = 17%nat -> c_chars dev = Some s -> (List.length s <= 16)%nat ->
  c_string (ve_name env) n -> (List.length n < 16)%nat ->
  exists fd dev' acts, tun_alloc env dev flags = Some (fd, dev', acts) /\ commands acts = [] /\
    if (0 <=? ve_open env) && (0 <=? ve_ioctl env) then
      fd = ve_open env /\ c_chars dev' = Some n /\
      forall h, Fd fd ∉ h -> held_after h acts = Some ({[Fd fd]} ∪ h)
    else fd < 0 /\ forall h, Fd (ve_open env) ∉ h -> held_after h acts = Some h.
Proof.
  intros Hl Hs%c_string_chars Hsl Hn Hnl. unfold tun_alloc.
  destruct (ve_open env <? 0) eqn:Eo.
  { destruct (0 <=? ve_open env) eqn:E; [lia|]. do 3 eexists. do 2 (split; [done|]). split; [lia|done]. }
  destruct (0 <=? ve_open env) eqn:E; [clear E|lia]. cbn [andb].
  rewrite get_in by mem. cbn [mbind option_bind].
  assert (exists i, (if truth (getf dev 0 (Field 0 1)) then strncpy (replicate 16 0) 0 dev IFNAMSIZ
                     else Some (replicate 16 0)) = Some i) as [i ->].
  { destruct (truth _); [|eauto]. exists (padded 16 s). apply (strncpy_zeroed 16 16 _ _ Hs); lia. }
  cbn [mbind option_bind]. destruct (ve_ioctl env <? 0) eqn:Ei.
  { destruct (0 <=? ve_ioctl env) eqn:E; [lia|]. do 3 eexists. do 2 (split; [done|]). split; [lia|].
    intros h Hh. by apply (held_exchange h (ve_open env) [Ioctl _ _ _]). }
  destruct (0 <=? ve_ioctl env) eqn:E; [clear E|lia].
  destruct (strcpy_string dev _ _ Hn) as (d & -> & _ & Hd); [lia|]. cbn [mbind option_bind].
  do 3 eexists. do 2 (split; [done|]). split; [done|]. split; [by apply c_chars_string|].
  intros h Hh. cbn [held_after act_held]. by rewrite decide_False.
Qed.

Lemma sprintf_cmd_in text : (List.length text < 256)%nat -> sprintf_cmd text = Some text.
Proof. intros. unfold sprintf_cmd. by destruct (_ <=? 256) eqn:E; [|lia]. Qed.

Lemma addr_cmd_fits ip dev :
  (List.length ip <= 16)%nat -> (List.length dev < 16)%nat ->
  sprintf_cmd (chars "ip addr add " ++ ip ++ chars " dev " ++ dev) = Some (addr_cmd ip dev).
Proof.
  intros. apply sprintf_cmd_in. unfold addr_cmd. rewrite !length_app. change (List.length (chars "ip addr add ")) with 12%nat.
  change (List.length (chars " dev ")) with 5%nat. lia.
Qed.

Lemma link_cmd_fits dev :
  (List.length dev < 16)%nat -> sprintf_cmd (chars "ip link set " ++ dev ++ chars " up") = Some (link_cmd dev).
Proof.
  intros. apply sprintf_cmd_in. unfold link_cmd. rewrite !length_app. change (List.length (chars "ip link set ")) with 12%nat.
  change (List.length (chars " up")) with 3%nat. lia.
Qed.

Lemma old_tun_init_spec env vd ip dev :
  c_chars (vd_ip vd) = Some ip -> (List.length ip <= 16)%nat ->
  c_chars (vd_dev vd) = Some dev -> (List.length dev < 16)%nat ->
  exists code acts, tun_init env vd = Some (code, acts) /\
    (forall h, held_after h acts = Some h) /\
    if negb (ve_system_addr env =? -1) && negb (ve_system_link env =? -1) then
      code = 0 /\ commands acts = [addr_cmd ip dev; link_cmd dev]
    else code = 1.
Proof.
  intros Hip Hil Hdev Hdl. unfold tun_init. rewrite Hip, Hdev. cbn [mbind option_bind].
  rewrite addr_cmd_fits, link_cmd_fits by done.
  cbn [mbind option_bind]. destruct (ve_system_addr env =? -1); cbn [negb andb].
  { do 2 eexists. split; [done|]. done. }
  cbn [mbind option_bind]. destruct (ve_system_link env =? -1); cbn [negb]; do 2 eexists; done.
Qed.

Lemma destroy_held vd h :
  vd_held (vd_fd vd) ## h -> held_after (vd_held (vd_fd vd) ∪ h) (virtual_device_destroy vd) = Some h.
Proof.
  unfold vd_held, virtual_device_destroy. intros Hd. cbn [held_after act_held].
  repeat (rewrite decide_True by set_solver +; cbn [mbind option_bind]). apply f_equal. set_solver + Hd.
Qed.

Lemma main_serve_spec env oom rs vd ip dev :
  c_chars (vd_ip vd) = Some ip -> (List.length ip <= 16)%nat ->
  c_chars (vd_dev vd) = Some dev -> (List.length dev < 16)%nat ->
  if negb (ve_system_addr env =? -1) && negb (ve_system_link env =? -1) && ve_tu env then
    match main_loop rs (main_start oom) with
    | None => main_serve env oom rs vd = None
    | Some (out, status, s) =>
        exists acts, main_serve env oom rs vd = Some (status, acts, out, os_states s) /\
          commands acts = [addr_cmd ip dev; link_cmd dev] /\
          held_after (vd_held (vd_fd vd)) acts
          = Some (if status is Some _ then ∅ else {[Unit_Block]} ∪ vd_held (vd_fd vd))
    end
  else exists acts, main_serve env oom rs vd = Some (Some 1, acts, [], inst_start oom) /\
    held_after (vd_held (vd_fd vd)) acts = Some ∅.
Proof.
  intros Hip Hil Hdev Hdl. unfold main_serve.
  destruct (old_tun_init_spec env vd ip dev Hip Hil Hdev Hdl) as (code & acts & -> & Hh & Hc).
  cbn [mbind option_bind].
  assert (held_after (vd_held (vd_fd vd)) (acts ++ virtual_device_destroy vd) = Some ∅) as Hfail.
  { rewrite held_after_app, Hh. cbn [mbind option_bind]. rewrite <- (union_empty_r_L (vd_held _)).
    apply destroy_held, disjoint_empty_r. }
  destruct (_ && _); cbn [andb].
  2:{ subst code. cbn [truth Z.eqb negb]. eauto. }
  destruct Hc as [-> Hc]. cbn [truth Z.eqb negb]. destruct (ve_tu env); cbn [negb]; [|eauto].
  destruct (main_loop rs (main_start oom)) as [[[out status] s]|]; cbn [mbind option_bind]; [|done].
  assert (held_after (vd_held (vd_fd vd)) (acts ++ [Acquire Unit_Block])
    = Some ({[Unit_Block]} ∪ vd_held (vd_fd vd))) as Hrun.
  { rewrite held_after_app, Hh. cbn [mbind option_bind]. apply held_acquire. unfold vd_held. set_solver +. }
  destruct status as [code|]; eexists; (split; [done|]).
  - rewrite !commands_app, Hc. split; [done|]. rewrite held_after_app, Hrun. cbn [mbind option_bind].
    rewrite held_after_app, (union_comm_L {[Unit_Block]}).
    rewrite destroy_held by (unfold vd_held; set_solver +). cbn [mbind option_bind].
    rewrite <- (union_empty_r_L {[Unit_Block]}). apply held_release. set_solver +.
  - rewrite commands_app, Hc. done.
Qed.

(** The two blocks [main] holds when it opens the device. *)
Definition name_blocks : gset Res := {[Name_Block; Ip_Block]}.

Lemma main_open_spec flags env oom rs dev s ip_addr ip n :
  List.length dev = 17%nat -> c_chars dev = Some s -> (List.length s <= 16)%nat ->
  c_chars ip_addr = Some ip -> (List.length ip <= 16)%nat ->
  c_string (ve_name env) n -> (List.length n < 16)%nat ->
  if (0 <=? ve_open env) && (0 <=? ve_ioctl env) &&
     (negb (ve_system_addr env =? -1) && negb (ve_system_link env =? -1) && ve_tu env) then
    match main_loop rs (main_start oom) with
    | None => main_open flags env oom rs dev ip_addr = None
    | Some (out, status, s) =>
        exists acts, main_open flags env oom rs dev ip_addr = Some (status, acts, out, os_states s) /\
          commands acts = [addr_cmd ip n; link_cmd n] /\
          held_after name_blocks acts
          = Some (if status is Some _ then ∅ else {[Unit_Block]} ∪ vd_held (ve_open env))
    end
  else exists acts, main_open flags env oom rs dev ip_addr = Some (Some 1, acts, [], inst_start oom) /\
    held_after name_blocks acts = Some ∅.
Proof.
  intros Hdl Hdev Hsl Hip Hil Hn Hnl. unfold main_open.
  destruct (old_tun_alloc_spec env dev flags s n Hdl Hdev Hsl Hn Hnl) as (fd & dev' & acts & -> & Hc & Hr).
  cbn [mbind option_bind]. destruct ((0 <=? ve_open env) && (0 <=? ve_ioctl env)) eqn:Eo; cbn [andb].
  2:{ destruct Hr as [Hfd Hh]. destruct (fd <? 0) eqn:E; [clear E|lia]. eexists. split; [done|].
      rewrite held_after_app, Hh by (unfold name_blocks; set_solver +). by_eval. }
  destruct Hr as (-> & Hdev' & Hh). apply andb_true_iff in Eo as [Eo _].
  destruct (ve_open env <? 0) eqn:E; [lia|clear E].
  pose proof (main_serve_spec env oom rs (MkVd dev' ip_addr flags (ve_open env)) ip n Hip Hil Hdev' Hnl) as Hserve.
  cbn [vd_fd] in Hserve.
  assert (held_after name_blocks acts = Some (vd_held (ve_open env))) as Hall.
  { rewrite Hh by (unfold name_blocks; set_solver +). apply f_equal. unfold name_blocks, vd_held. set_solver +. }
  destruct (_ && ve_tu env).
  - destruct (main_loop rs (main_start oom)) as [[[out status] st]|]; [|by rewrite Hserve].
    destruct Hserve as (acts' & -> & Hc' & Hh'). cbn [mbind option_bind]. eexists. split; [done|].
    rewrite commands_app, Hc. split; [done|]. rewrite held_after_app, Hall. exact Hh'.
  - destruct Hserve as (acts' & -> & Hh'). cbn [mbind option_bind]. eexists. split; [done|].
    rewrite held_after_app, Hall. exact Hh'.
Qed.

(** The device's buffer before [tun_alloc]: the second argument, when there is one. *)
Lemma device_name (argv : list bytes) :
  (forall arg2, argv !! 2%nat = Some arg2 -> (16 <= List.length arg2)%nat) ->
  exists dev s, (if 3 <=? Z.of_nat (List.length argv) then
                   arg2 ← argv !! 2%nat;
                   dev ← load_bytes arg2 0 IFNAMSIZ;
                   store_bytes (replicate (Z.to_nat (IFNAMSIZ + 1)) 0) 0 dev
                 else Some (replicate (Z.to_nat (IFNAMSIZ + 1)) 0)) = Some dev /\
    List.length dev = 17%nat /\ c_chars dev = Some s /\ (List.length s <= 16)%nat.
Proof.
  intros H2. destruct (3 <=? _) eqn:E.
  2:{ exists (replicate 17 0), []. do 3 (split; [done|]). cbn [List.length]. lia. }
  destruct (lookup_lt_is_Some_2 argv 2) as [arg2 Harg]; [lia|]. rewrite Harg. cbn [mbind option_bind].
  destruct (copy_argument arg2 (H2 _ Harg)) as (d & -> & Hd). cbn [mbind option_bind]. rewrite Hd.
  destruct (copied_string arg2) as (s & Hs & _ & Hl). exists (take 16 arg2 ++ [0]), s.
  split; [done|]. split; [|done]. rewrite length_app, length_take. specialize (H2 _ Harg). cbn [List.length]. lia.
Qed.

(** An argument from which fewer than 16 bytes can be read. *)
Definition short (arg : option bytes) : bool :=
  match arg with Some a => (List.length a <? 16)%nat | None => false end.

Lemma short_copy a : short (Some a) = true -> load_bytes a 0 IFNAMSIZ = None.
Proof.
  cbn [short]. intros Hl%Nat.ltb_lt. unfold load_bytes. destruct (in_range _ _ _) eqn:E; [|done].
  apply in_range_true in E. unfold IFNAMSIZ in E. lia.
Qed.

Lemma short_long a : short (Some a) = false -> (16 <= List.length a)%nat.
Proof. apply Nat.ltb_ge. Qed.

(** The memory the list holds after a loop over packets whose lengths are true. *)
Lemma loop_memory oom rs out status s :
  (forall k, oom k = false) -> Forall round_sane rs -> Z.of_nat (List.length rs) <= TABLE_MAX ->
  main_loop rs (main_start oom) = Some (out, status, s) ->
  size (h_cells (s_heap (os_states s))) = size (conns (os_states s)).
Proof.
  intros Hoom Hrs Hmax Hrun. pose proof (main_loop_spec rs (main_start oom) (main_start_ok oom Hoom) Hrs) as H.
  cbn [main_start os_tu os_states] in H. rewrite inst_start_conns, map_size_empty in H.
  specialize (H ltac:(lia)). change (main_start oom) with (MkOldServer (os_tu (main_start oom)) (inst_start oom)) in Hrun.
  cbn [main_start os_tu] in Hrun. unfold main_start in H. rewrite Hrun in H.
  destruct (loop_spec _ _ _) as [[[[? ?] ?] ?]|]; [|done]. destruct H as (s' & [= <- <- <-] & Hok & _).
  rewrite (conns_size _ (ok_closed _ Hok)). symmetry. apply map_size_fmap.
Qed.

(** ** Properties *)

(** C28 Starting the first version: [main] copies 16 bytes of each of its first two arguments,
    whatever their length, so it is undefined when fewer can be read at the one it has come
    to, as with any short address.  Else it gives up with status 1, holding nothing, if
    anything it asks for is refused; else it runs the two commands for the first 16
    characters of the address and the name the kernel chose, then the loop, and at its end
    exits with the loop's status, with the descriptor and its three blocks released.  The
    list of connections it leaves as the loop did: on packets whose lengths are true one
    block for every connection open at the exit, none of them freed. *)
Theorem old_main_correct flags env oom rs argv arg1 n :
  argv !! 1%nat = Some arg1 -> c_string (ve_name env) n -> (List.length n < 16)%nat ->
  if ve_ip env && short (Some arg1) then main flags env oom rs argv = None
  else if ve_ip env && ve_dev env && short (argv !! 2%nat) then main flags env oom rs argv = None
  else if negb (vd_granted env) then
    exists acts, main flags env oom rs argv = Some (Some 1, acts, [], inst_start oom) /\
      held_after ∅ acts = Some ∅ /\ h_cells (s_heap (inst_start oom)) = ∅
  else
    match main_loop rs (main_start oom) with
    | None => main flags env oom rs argv = None
    | Some (out, status, s) =>
        exists acts, main flags env oom rs argv = Some (status, acts, out, os_states s) /\
          commands acts = [addr_cmd (cut arg1) n; link_cmd n] /\
          held_after ∅ acts
          = Some (if status is Some _ then ∅ else {[Unit_Block]} ∪ vd_held (ve_open env)) /\
          ((forall k, oom k = false) -> Forall round_sane rs -> Z.of_nat (List.length rs) <= TABLE_MAX ->
           size (h_cells (s_heap (os_states s))) = size (conns (os_states s)))
    end.
Proof.
  intros H1 Hn Hnl. unfold main, vd_granted.
  pose proof (lookup_lt_Some _ _ _ H1) as Hargc. destruct (_ <? 2) eqn:E; [lia|clear E].
  destruct (ve_ip env); cbn [negb andb]; [|by exists []]. rewrite H1. cbn [mbind option_bind].
  destruct (short (Some arg1)) eqn:Hl1; [by rewrite (short_copy _ Hl1)|].
  apply short_long in Hl1.
  destruct (copy_argument arg1 Hl1) as (d1 & -> & Hs1). cbn [mbind option_bind]. rewrite Hs1.
  cbn [mbind option_bind]. destruct (copied_string arg1) as (ip & Hip & -> & Hil).
  destruct (ve_dev env); cbn [negb andb]; [|by exists [Acquire Ip_Block; Release Ip_Block]].
  destruct (short (argv !! 2%nat)) eqn:Hl2.
  { destruct (argv !! 2%nat) as [arg2|] eqn:H2; [|done]. pose proof (lookup_lt_Some _ _ _ H2).
    destruct (3 <=? _) eqn:E; [|lia]. cbn [mbind option_bind]. by rewrite (short_copy _ Hl2). }
  destruct (device_name argv) as (dev & s & -> & Hdl & Hdev & Hsl); [|cbn [mbind option_bind]].
  { intros arg2 H2. rewrite H2 in Hl2. by apply short_long. }
  pose proof (main_open_spec flags env oom rs dev s (take 16 arg1 ++ [0]) _ n Hdl Hdev Hsl Hip Hil Hn Hnl) as H.
  assert (forall acts, held_after ∅ (([Acquire Ip_Block] ++ [Acquire Name_Block]) ++ acts)
    = held_after name_blocks acts) as Hheld by (intros; rewrite held_after_app; reflexivity).
  rewrite <- !andb_assoc in *. destruct (_ && (_ && (_ && _))); cbn [negb].
  - destruct (main_loop rs (main_start oom)) as [[[out status] st]|] eqn:Hrun; [|by rewrite H].
    destruct H as (acts & -> & Hc & Hh). cbn [mbind option_bind]. eexists. split; [done|].
    rewrite Hheld. split; [done|]. split; [done|]. intros ? ? ?. by apply (loop_memory oom rs out status st).
  - destruct H as (acts & -> & Hh). cbn [mbind option_bind]. eexists. split; [done|]. by rewrite Hheld.
Qed.

(** An address argument of 15 characters, an empty device name; a loop that answers one SYN
    and ends: the connection's block is still there.  With a device name of 4 characters and
    nothing behind it the program is undefined. *)
Definition sample_argv : list bytes :=
  [chars "tcp" ++ [0]; chars "192.168.10.1/24" ++ [0]; replicate 16 0].
Definition sample_vd : Vd_Env := MkVdEnv true true true 3 0 (chars "tun0" ++ replicate 12 0) 0 0.
Definition sample_end : list Old_Round := [MkOldRound None (old_env no_file)].

Lemma old_main_correct_witness :
  (exists acts out states, main 4097 sample_vd (fun _ => false) (old_round SYN 7 0 :: sample_end) sample_argv
      = Some (Some 0, acts, out, states) /\
    commands acts = [chars "ip addr add 192.168.10.1/24 dev tun0"; chars "ip link set tun0 up"] /\
    held_after ∅ acts = Some ∅ /\ size (h_cells (s_heap states)) = 1%nat) /\
  main 4097 sample_vd (fun _ => false) sample_end
    [chars "tcp" ++ [0]; chars "192.168.10.1/24" ++ [0]; chars "tun0" ++ [0]] = None.
Proof.
  assert (c_string (ve_name sample_vd) (chars "tun0")) as Hn by (by apply c_string_chars).
  split.
  - pose proof (old_main_correct 4097 sample_vd (fun _ => false) (old_round SYN 7 0 :: sample_end) sample_argv
      (chars "192.168.10.1/24" ++ [0]) (chars "tun0") eq_refl Hn ltac:(vm_compute; lia)) as H.
    assert (match main_loop (old_round SYN 7 0 :: sample_end) (main_start (fun _ => false)) with
      | Some (_, status, s) => status = Some 0 /\ size (conns (os_states s)) = 1%nat
      | None => False end) as Hrun by (vm_compute; split; reflexivity).
    cbn [ve_ip ve_dev sample_vd andb] in H.
    assert (short (Some (chars "192.168.10.1/24" ++ [0])) = false) as E1 by reflexivity.
    assert (short (sample_argv !! 2%nat) = false) as E2 by reflexivity.
    assert (negb (vd_granted sample_vd) = false) as E3 by reflexivity. rewrite E1, E2, E3 in H.
    destruct (main_loop (old_round SYN 7 0 :: sample_end) (main_start (fun _ => false))) as [[[out status] s]|];
      [|destruct Hrun].
    destruct Hrun as [Hst Hsz], H as (acts & H & Hc & Hh & Hm). rewrite Hst in H, Hh.
    exists acts, out, (os_states s). split; [exact H|]. split; [exact Hc|]. split; [exact Hh|].
    rewrite Hm; [exact Hsz|done| |vm_compute; discriminate].
    apply Forall_cons. split; [apply old_round_sane; by_eval|]. apply Forall_cons.
    split; [intros d E; discriminate E|constructor].
  - exact (old_main_correct 4097 sample_vd (fun _ => false) sample_end
      [chars "tcp" ++ [0]; chars "192.168.10.1/24" ++ [0]; chars "tun0" ++ [0]]
      (chars "192.168.10.1/24" ++ [0]) (chars "tun0") eq_refl Hn ltac:(vm_compute; lia)).
Defined.
