(* ===== verification/Debug.v ===== *)
(** * Debug output of the first version

    [debug/debug.c]: what each function prints, as the bytes written to the standard output.
    Reading outside the buffer is undefined behaviour, as everywhere. *)
From Stdlib Require Import String.
From S2P Require Import Prelude Memory Checksum CString Actions Ip Icmp TcpHeader Heap Table OldList OldNet OldSegment Format OldTcp OldDevice.

Definition IP_ICMP_PROTO : Z := 1.

Definition NL : bytes := [10].
Definition text (s : string) : bytes := chars s.
(** [printf] of one number between two pieces of text. *)
Definition line_d (before : string) (z : Z) (after : string) : bytes :=
  text before ++ fmt_d z ++ text after ++ NL.

(** ** Connections *)

Definition TCP_State_to_string (state : TCP_State) : bytes :=
  match state with
  | TCP_SYN_RECEIVED => text "SYN_RECEIVED"
  | TCP_ESTABLISHED => text "ESTABLISHED"
  | TCP_CLOSE_WAIT => text "CLOSE_WAIT"
  | _ => text "UNKNOWN_STATE"
  end.

(** The two strings made by [inet_ntop] are not printed. *)
Definition print_TCP_Connection_ID (id : TCP_Connection_ID) : bytes :=
  text "Connection: " ++ fmt_d (cid_src_ip id) ++ text ":" ++ fmt_d (cid_src_port id) ++ text " -> " ++
  fmt_d (cid_dst_ip id) ++ text ":" ++ fmt_d (cid_dst_port id) ++ NL.

Definition print_TCP_Send_State (send : TCP_Send_State) : bytes :=
  text "Send State:" ++ NL ++ line_d "  unac: " (ss_unac send) "" ++ line_d "  next: " (ss_next send) "" ++
  line_d "  window: " (ss_window send) "" ++ line_d "  iss: " (ss_iss send) "".

Definition print_TCP_Recieve_State (recv : TCP_Recieve_State) : bytes :=
  text "Receive State:" ++ NL ++ line_d "  next: " (rs_next recv) "" ++
  line_d "  window: " (rs_window recv) "" ++ line_d "  irs: " (rs_irs recv) "".

(** [for (int i = 0; i < recv_size && i < 32; i++)], [n] turns before 32. *)
Fixpoint print_recv (n : nat) (buf : bytes) (i recv_size : Z) : option bytes :=
  match n with
  | O => Some []
  | S n =>
      if i <? recv_size then
        b ← get buf i octet;
        rest ← print_recv n buf (i + 1) recv_size;
        Some (fmt_x false 2 b ++ text " " ++ rest)
      else Some []
  end.

Definition print_TCB (tcb : option Block) : option bytes :=
  match tcb with
  | None => Some []
  | Some t =>
      dump ← print_recv 32 (b_recv_buffer t) 0 (b_recv_size t);
      Some (text "=== TCB ===" ++ NL ++ print_TCP_Connection_ID (b_id t) ++
        text "State: " ++ TCP_State_to_string (b_state t) ++ NL ++
        print_TCP_Send_State (b_send t) ++ print_TCP_Recieve_State (b_recv t) ++
        line_d "recv_size: " (b_recv_size t) "" ++
        text "recv_buffer (first 32 bytes): " ++ dump ++
        (if 32 <? b_recv_size t then text "..." else []) ++ NL)
  end.

(** [while (current)]. *)
Fixpoint print_list (fuel : nat) (h : heap Node) (current : ptr) (idx : Z) : option bytes :=
  match current with
  | None => Some []
  | Some p =>
      match fuel with
      | O => None
      | S fuel =>
          idx' ← int_add idx 1;
          n ← deref h p;
          entry ← print_TCB (Some (n_tcb n));
          rest ← print_list fuel h (n_next n) idx';
          Some (NL ++ text "[TCB " ++ fmt_d idx ++ text "]" ++ NL ++ entry ++ rest)
      end
  end.

Definition print_TCP_Server_Instance (server : option Instance_) : option bytes :=
  match server with
  | None => Some []
  | Some s =>
      entries ← print_list (turns (s_heap s)) (s_heap s) (s_head s) 0;
      Some (text "=== TCP Server Instance ===" ++ NL ++ line_d "Number of TCBs: " (s_size s) "" ++ entries)
  end.

(** ** Bytes *)

(** [char] is signed: a byte above 127 is a negative number. *)
Definition as_char (b : Z) : Z := if 128 <=? b then b - 256 else b.

(** The loop of [tcp_print_buf], [n] turns before [buf_len]. *)
Fixpoint print_buf (n : nat) (m : bytes) (buffer i : Z) : option bytes :=
  match n with
  | O => Some []
  | S n =>
      b ← get m (buffer + i) octet;
      let c := as_char b in
      let cell := if (32 <=? c) && (c <=? 126) then [u8 c] ++ text " "
                  else text "[" ++ fmt_x false 2 c ++ text "] " in
      rest ← print_buf n m buffer (i + 1);
      Some (cell ++ rest)
  end.

Definition tcp_print_buf (m : bytes) (buffer buf_len : Z) : option bytes :=
  out ← print_buf (Z.to_nat buf_len) m buffer 0;
  Some (text "RECIEVED BYTES FROM CLIENT" ++ NL ++ out).

(** The hexadecimal cells of a line from byte [i] on, [n] of 16 left, [j] the next. *)
Fixpoint hex_cells (n : nat) (m : bytes) (packet pack_len i j : Z) : option bytes :=
  match n with
  | O => Some []
  | S n =>
      cell ← (if i + j <? pack_len then
                b ← get m (packet + (i + j)) octet;
                Some (fmt_x false 2 b ++ text " ")
              else Some (text "   "));
      rest ← hex_cells n m packet pack_len i (j + 1);
      Some (cell ++ (if j =? 7 then text " " else []) ++ rest)
  end.

(** The characters of the line. *)
Fixpoint ascii_cells (n : nat) (m : bytes) (packet pack_len i j : Z) : option bytes :=
  match n with
  | O => Some []
  | S n =>
      if i + j <? pack_len then
        c ← get m (packet + (i + j)) octet;
        rest ← ascii_cells n m packet pack_len i (j + 1);
        Some ((if (32 <=? c) && (c <=? 126) then [c] else text ".") ++ rest)
      else Some []
  end.

Definition dump_line (m : bytes) (packet pack_len i : Z) : option bytes :=
  hex ← hex_cells 16 m packet pack_len i 0;
  ascii ← ascii_cells 16 m packet pack_len i 0;
  Some (fmt_x false 4 i ++ text ": " ++ hex ++ text " |" ++ ascii ++ text "|" ++ NL).

(** [for (int i = 0; i < pack_len; i += 16)]. *)
Fixpoint dump_lines (fuel : nat) (m : bytes) (packet pack_len i : Z) : option bytes :=
  if i <? pack_len then
    match fuel with
    | O => None
    | S fuel =>
        line ← dump_line m packet pack_len i;
        i' ← int_add i 16;
        rest ← dump_lines fuel m packet pack_len i';
        Some (line ++ rest)
    end
  else Some [].

Definition raw_packet_print (m : bytes) (packet pack_len : Z) : option bytes :=
  lines ← dump_lines (Z.to_nat pack_len) m packet pack_len 0;
  Some (NL ++ text "=== Packet (" ++ fmt_d pack_len ++ text " bytes) ===" ++ NL ++ lines ++ NL).

(** ** Headers *)

Definition virtual_device_print (vd : Virtual_Device) : option bytes :=
  ip ← c_chars (vd_ip vd);
  dev ← c_chars (vd_dev vd);
  Some (text "Virtual device:" ++ NL ++ text "    IP             : " ++ ip ++ NL ++
    text "    Device name    : " ++ dev ++ NL ++ line_d "    File desciptor : " (vd_fd vd) "").

Definition print_flag (flags bit : Z) (name : string) : bytes :=
  if truth (Z.land flags bit) then text name else [].

Definition tcp_print (m : bytes) (tcp : Z) : option bytes :=
  src_port ← get m tcp tcp_src_port; dst_port ← get m tcp tcp_dst_port;
  seq_num ← get m tcp tcp_seq_num; ack_num ← get m tcp tcp_ack_num;
  data_offset ← get m tcp tcp_data_offset;
  let header_len := Z.shiftr data_offset 4 * 4 in
  flags ← get m tcp tcp_flags;
  window ← get m tcp tcp_window; csum ← get m tcp tcp_csum; urgent_ptr ← get m tcp tcp_urgent_ptr;
  Some (text "--- TCP Header ---" ++ NL ++
    line_d "Source Port:      " (ntohs src_port) "" ++ line_d "Dest Port:        " (ntohs dst_port) "" ++
    line_d "Seq Number:       " (ntohl seq_num) "" ++ line_d "Ack Number:       " (ntohl ack_num) "" ++
    line_d "Header Length:    " header_len " bytes" ++
    text "Flags:            0x" ++ fmt_x false 2 flags ++ text " ( " ++
    print_flag flags 32 "URG " ++ print_flag flags 16 "ACK " ++ print_flag flags 8 "PSH " ++
    print_flag flags 4 "RST " ++ print_flag flags 2 "SYN " ++ print_flag flags 1 "FIN " ++ text ")" ++ NL ++
    line_d "Window Size:      " (ntohs window) "" ++
    text "Checksum:         0x" ++ fmt_x false 4 (ntohs csum) ++ NL ++
    line_d "Urgent Pointer:   " (ntohs urgent_ptr) "" ++ text "------------------" ++ NL).

Definition ip_proto_string (proto : Z) : bytes :=
  if proto =? IP_TCP_PROTO then text "TCP" else
  if proto =? IP_ICMP_PROTO then text "ICMP" else text "Not implemented" ++ NL.

Definition ip_print (m : bytes) (ip : Z) : option bytes :=
  vi ← get m ip ip_version_ihl;
  let version := u8 (Z.shiftr vi 4) in
  let ihl := u8 (Z.land vi 15) in
  let header_len := u8 (ihl * 4) in
  ff ← get m ip ip_flags_offset;
  let ff := ntohs ff in
  let flags := u8 (Z.shiftr ff 13) in
  let offset := u16 (Z.land ff 8191) in
  src ← get m ip ip_src; dst ← get m ip ip_dst;
  tos ← get m ip ip_tos; len ← get m ip ip_len; id ← get m ip ip_id;
  ttl ← get m ip ip_ttl; proto ← get m ip ip_proto; csum ← get m ip ip_csum;
  Some (text "================ IPv4 Header ================" ++ NL ++
    text " Version: " ++ fmt_u version ++ text " | IHL: " ++ fmt_u ihl ++ text " (" ++ fmt_u header_len ++
    text " bytes)" ++ NL ++
    text " ToS    : 0x" ++ fmt_x true 2 tos ++ NL ++
    line_d " Length : " (ntohs len) " bytes" ++
    text " ID     : 0x" ++ fmt_x true 4 (ntohs id) ++ text " (" ++ fmt_u (ntohs id) ++ text ")" ++ NL ++
    text " Flags  : 0x" ++ fmt_x true 1 flags ++ text " (Res:" ++ fmt_d (Z.land (Z.shiftr flags 2) 1) ++
    text " DF:" ++ fmt_d (Z.land (Z.shiftr flags 1) 1) ++ text " MF:" ++ fmt_d (Z.land flags 1) ++ text ")" ++ NL ++
    line_d " Offset : " offset "" ++
    line_d " TTL    : " ttl "" ++
    text " Proto  : " ++ fmt_u proto ++ text " (0x" ++ fmt_x true 2 proto ++ text ") - " ++
    ip_proto_string proto ++ NL ++
    text " Check  : 0x" ++ fmt_x true 4 (ntohs csum) ++ NL ++
    text " Source : " ++ inet_ntop src ++ NL ++
    text " Dest   : " ++ inet_ntop dst ++ NL ++
    text "=============================================" ++ NL).

Definition icmp_type_string (type : Z) : bytes :=
  (if type =? 0 then text "(Echo Reply)"
   else if type =? 3 then text "(Destination Unreachable)"
   else if type =? 8 then text "(Echo Request)"
   else if type =? 11 then text "(Time Exceeded)"
   else text "(Other)") ++ NL.

Definition icmp_print (m : bytes) (packet : Z) : option bytes :=
  type ← get m packet icmp_type; code ← get m packet icmp_code; csum ← get m packet icmp_csum;
  identifier ← get m packet icmp_identifier; sequence_no ← get m packet icmp_sequence_no;
  Some (text "---------------- ICMP Header ----------------" ++ NL ++
    text " Type     : " ++ fmt_u type ++ text " " ++ icmp_type_string type ++
    line_d " Code     : " code "" ++
    text " Checksum : 0x" ++ fmt_x true 4 (ntohs csum) ++ NL ++
    text " ID       : " ++ fmt_u (ntohs identifier) ++ text " (0x" ++ fmt_x true 4 (ntohs identifier) ++ text ")" ++ NL ++
    text " Sequence : " ++ fmt_u (ntohs sequence_no) ++ text " (0x" ++ fmt_x true 4 (ntohs sequence_no) ++ text ")" ++ NL ++
    text "---------------------------------------------" ++ NL).

Definition packet_debug (m : bytes) (ip tcp : Z) (inbound : bool) : option bytes :=
  ip_out ← ip_print m ip;
  tcp_out ← tcp_print m tcp;
  vi ← get m ip ip_version_ihl;
  let ip_hl := Z.land vi 15 * 4 in
  doff ← get m tcp tcp_data_offset;
  let d_data := Z.shiftr doff 4 * 4 in
  l ← get m ip ip_len;
  let total_len := ntohs l in
  body ← raw_packet_print m (tcp + u8 d_data) (total_len - ip_hl - d_data);
  Some ((if inbound then text "--- INBOUND PACKET ---" else text "--- OUTBOUND PACKET --- ") ++ NL ++
    ip_out ++ tcp_out ++ text " ~ Segment body ~" ++ NL ++ body).

(** ** Reading a dump back *)

Definition parse_nibble (c : Z) : option Z :=
  if (48 <=? c) && (c <=? 57) then Some (c - 48)
  else if (97 <=? c) && (c <=? 102) then Some (c - 87) else None.
Definition parse_cell (a b : Z) : option Z := hi ← parse_nibble a; lo ← parse_nibble b; Some (16 * hi + lo).

Definition strip (pre t : bytes) : option bytes :=
  if decide (take (List.length pre) t = pre) then Some (drop (List.length pre) t) else None.

(** The bytes of the cells of a line, and the rest of the line. *)
Fixpoint parse_cells (n : nat) (j : Z) (t : bytes) : option (bytes * bytes) :=
  match n with
  | O => Some ([], t)
  | S n =>
      match t with
      | a :: b :: _ :: t =>
          '(bs, rest) ← parse_cells n (j + 1) (if j =? 7 then drop 1 t else t);
          Some (match parse_cell a b with Some x => x :: bs | None => bs end, rest)
      | _ => None
      end
  end.

Definition parse_line (i : Z) (t : bytes) : option (bytes * bytes) :=
  t ← strip (fmt_x false 4 i ++ text ": ") t;
  '(bs, t) ← parse_cells 16 0 t;
  Some (bs, drop (4 + List.length bs) t).

Fixpoint parse_lines (fuel : nat) (i : Z) (t : bytes) : option bytes :=
  match t with
  | [] => Some []
  | _ =>
      match fuel with
      | O => None
      | S fuel =>
          '(bs, t) ← parse_line i t;
          more ← parse_lines fuel (i + 16) t;
          Some (bs ++ more)
      end
  end.

(** ** Lemmas *)

Lemma strip_app pre t : strip pre (pre ++ t) = Some t.
Proof. unfold strip. rewrite take_app_length, decide_True by done. by rewrite drop_app_length. Qed.

(** The cell of a byte. *)
Lemma fmt_byte b :
  0 <= b < 256 -> exists h l, fmt_x false 2 b = [h; l] /\ parse_cell h l = Some b.
Proof.
  intros Hb. assert (forallb (fun b => match fmt_x false 2 b with
    | [h; l] => bool_decide (parse_cell h l = Some b) | _ => false end) (seqZ 0 256) = true) as H
    by (vm_compute; reflexivity).
  rewrite forallb_forall in H. specialize (H b).
  assert (In b (seqZ 0 256)) as Hin by (apply list_elem_of_In, elem_of_seqZ; lia).
  specialize (H Hin). destruct (fmt_x false 2 b) as [|h [|l [|? ?]]]; try discriminate H.
  exists h, l. split; [done|]. by apply bool_decide_eq_true in H.
Qed.

(** How many of [n] cells from [k] on hold a byte of a packet of [len] bytes. *)
Definition cells (n : nat) (len k : Z) : Z := Z.max 0 (Z.min (Z.of_nat n) (len - k)).

Section dump.
Context (m : bytes) (p len : Z).
Hypothesis (Hm : bytes_ok m) (Hp : 0 <= p) (Hlen : p + len <= Z.of_nat (List.length m)).

Lemma get_byte k : 0 <= k < len ->
  get m (p + k) octet = Some (getf m (p + k) octet) /\ 0 <= getf m (p + k) octet < 256.
Proof.
  intros Hk. split; [apply get_in; mem|]. apply (getf_range m (p + k) octet Hm); mem.
Qed.

(** The bytes from the [k]-th on that [n] cells show. *)
Definition shown (n : nat) (k : Z) : bytes := rd m (p + k) (cells n len k).

Lemma shown_cons n k : 0 <= k < len -> shown (S n) k = getf m (p + k) octet :: shown n (k + 1).
Proof.
  intros Hk. unfold shown.
  replace (cells (S n) len k) with (1 + cells n len (k + 1)) by (unfold cells; lia).
  rewrite rd_cons by (unfold cells; lia). by rewrite Z.add_assoc.
Qed.

Lemma shown_nil n k : len <= k -> shown n k = [].
Proof. intros Hk. unfold shown. by replace (cells n len k) with 0 by (unfold cells; lia). Qed.

Lemma hex_cells_read n i j :
  0 <= i + j -> exists out, hex_cells n m p len i j = Some out /\
    forall rest, parse_cells n j (out ++ rest) = Some (shown n (i + j), rest).
Proof.
  revert j. induction n as [|n IH]; intros j Hij; cbn [hex_cells parse_cells].
  { exists []. split; [done|]. intros rest. unfold shown. by replace (cells 0 len (i + j)) with 0 by (unfold cells; lia). }
  destruct (IH (j + 1)) as (out & Hout & Hparse); [lia|]. rewrite Z.add_assoc in Hparse.
  assert (forall sep rest, (if j =? 7 then drop 1 ((if j =? 7 then text " " else []) ++ sep ++ rest)
    else (if j =? 7 then text " " else []) ++ sep ++ rest) = sep ++ rest) as Hsp
    by (intros; by destruct (j =? 7)).
  destruct (i + j <? len) eqn:E.
  - destruct (get_byte (i + j)) as [-> Hb]; [lia|]. cbn [mbind option_bind]. rewrite Hout. cbn [mbind option_bind].
    destruct (fmt_byte _ Hb) as (h & l & -> & Hcell). eexists. split; [done|]. intros rest.
    change (text " ") with [32]. cbn [app]. rewrite <- !app_assoc. change [32] with (text " ").
    rewrite Hsp, Hparse. cbn [mbind option_bind]. rewrite Hcell, shown_cons by lia. done.
  - cbn [mbind option_bind]. rewrite Hout. cbn [mbind option_bind]. eexists. split; [done|]. intros rest.
    change (text "   ") with [32; 32; 32]. cbn [app]. rewrite <- !app_assoc.
    rewrite Hsp, Hparse. cbn [mbind option_bind]. change (parse_cell 32 32) with (None : option Z). cbv iota.
    rewrite !shown_nil by lia. done.
Qed.

Lemma ascii_cells_length n i j :
  0 <= i + j -> exists out, ascii_cells n m p len i j = Some out /\
    List.length out = List.length (shown n (i + j)).
Proof.
  revert j. induction n as [|n IH]; intros j Hij; cbn [ascii_cells].
  { exists []. split; [done|]. unfold shown. by replace (cells 0 len (i + j)) with 0 by (unfold cells; lia). }
  destruct (i + j <? len) eqn:E; [|exists []; by rewrite shown_nil by lia].
  destruct (get_byte (i + j)) as [-> Hb]; [lia|]. cbn [mbind option_bind].
  destruct (IH (j + 1)) as (out & -> & Hl); [lia|]. rewrite Z.add_assoc in Hl. cbn [mbind option_bind].
  eexists. split; [done|]. rewrite shown_cons, length_app by lia. cbn [List.length]. rewrite Hl.
  by destruct (_ && _).
Qed.

Lemma dump_line_read i : 0 <= i ->
  exists out, dump_line m p len i = Some out /\ out <> [] /\
    forall rest, parse_line i (out ++ rest) = Some (shown 16 i, rest).
Proof.
  intros Hi. unfold dump_line, parse_line.
  destruct (hex_cells_read 16 i 0) as (hex & -> & Hhex); [lia|].
  destruct (ascii_cells_length 16 i 0) as (ascii & -> & Hascii); [lia|]. rewrite Z.add_0_r in *.
  cbn [mbind option_bind]. eexists. split; [done|]. split; [by destruct (fmt_x false 4 i)|]. intros rest.
  rewrite (app_assoc (fmt_x _ _ _)), <- (app_assoc _ _ rest), strip_app. cbn [mbind option_bind].
  rewrite <- app_assoc, Hhex. cbn [mbind option_bind]. do 2 f_equal.
  rewrite <- Hascii, <- !app_assoc. change (text " |") with [32; 124]. change (text "|") with [124].
  change NL with [10]. cbn [app Nat.add drop].
  replace (S (S (List.length ascii))) with (List.length ascii + 2)%nat by lia.
  rewrite <- drop_drop, drop_app_length. done.
Qed.

(** Enough turns of the loop for what is left. *)
Lemma dump_lines_read fuel i :
  0 <= i -> len - i <= Z.of_nat fuel -> len <= 2147483631 ->
  exists out, dump_lines fuel m p len i = Some out /\
    forall n, (List.length out <= n)%nat -> parse_lines n i out = Some (rd m (p + i) (Z.max 0 (len - i))).
Proof.
  revert i. induction fuel as [|fuel IH]; intros i Hi Hf Hmax; cbn [dump_lines].
  { destruct (i <? len) eqn:E; [lia|]. exists []. split; [done|]. intros n _. rewrite Z.max_l by lia. by destruct n. }
  destruct (i <? len) eqn:E.
  2:{ exists []. split; [done|]. intros n _. rewrite Z.max_l by lia. by destruct n. }
  destruct (dump_line_read i Hi) as (line & -> & Hne & Hline). cbn [mbind option_bind].
  assert (int_add i 16 = Some (i + 16)) as -> by (apply int_add_Some; lia). cbn [mbind option_bind].
  destruct (IH (i + 16)) as (out & -> & Hout); [lia|lia|lia|]. cbn [mbind option_bind].
  eexists. split; [done|]. intros n Hn. rewrite length_app in Hn. destruct line as [|c line]; [done|].
  cbn [List.length app] in *. destruct n as [|n]; [lia|]. cbn [parse_lines].
  rewrite Hline. cbn [mbind option_bind].
  rewrite Hout by lia. cbn [mbind option_bind]. f_equal. unfold shown, cells.
  destruct (decide (len - i <= 16)).
  - rewrite (Z.max_l 0 (len - (i + 16))) by lia. change (rd m (p + (i + 16)) 0) with ([] : bytes).
    rewrite app_nil_r. f_equal. lia.
  - replace (Z.max 0 (len - i)) with (16 + (len - (i + 16))) by lia. rewrite (rd_app _ _ 16) by lia.
    rewrite Z.add_assoc. f_equal; f_equal; lia.
Qed.
End dump.

(** A dump that reaches past the buffer is undefined. *)
Lemma hex_cells_over m p len n i j k :
  0 <= p -> 0 <= i + j <= k -> k < i + j + Z.of_nat n -> k < len -> Z.of_nat (List.length m) <= p + k ->
  hex_cells n m p len i j = None.
Proof.
  intros Hp. revert j. induction n as [|n IH]; intros j Hk Hn Hl Hover; [lia|]. cbn [hex_cells].
  destruct (i + j <? len) eqn:E; [|lia].
  destruct (decide (k = i + j)) as [->|].
  - unfold get, load_bytes. destruct (in_range _ _ _) eqn:Hr; [|done].
    apply in_range_true in Hr. cbn [octet f_off f_width] in Hr. lia.
  - rewrite IH by lia. by destruct (get _ _ _).
Qed.

Lemma dump_lines_over m p len fuel i :
  0 <= p -> 0 <= i -> i < len -> p + i < Z.of_nat (List.length m) + 16 -> Z.of_nat (List.length m) < p + len ->
  dump_lines fuel m p len i = None.
Proof.
  intros Hp. revert i. induction fuel as [|fuel IH]; intros i Hi Hl Hin Hover; cbn [dump_lines];
    destruct (i <? len) eqn:E; try done; try lia.
  destruct (decide (p + i + 16 <= Z.of_nat (List.length m))).
  - destruct (dump_line m p len i); [|done]. cbn [mbind option_bind]. unfold int_add.
    destruct (int_ok (i + 16)); [|done]. cbn [mbind option_bind]. by rewrite IH by lia.
  - unfold dump_line. by rewrite (hex_cells_over m p len 16 i 0 (Z.max i (Z.of_nat (List.length m) - p))) by lia.
Qed.

(** What [raw_packet_print] prints around the lines. *)
Definition dump_text (len : Z) (lines : bytes) : bytes :=
  NL ++ text "=== Packet (" ++ fmt_d len ++ text " bytes) ===" ++ NL ++ lines ++ NL.

Lemma raw_packet_print_spec m p len :
  bytes_ok m -> 0 <= p -> len <= 2147483631 ->
  if (len <=? 0) || (p + len <=? Z.of_nat (List.length m)) then
    exists lines, raw_packet_print m p len = Some (dump_text len lines) /\
      parse_lines (List.length lines) 0 lines = Some (rd m p (Z.max 0 len))
  else p < Z.of_nat (List.length m) + 16 -> raw_packet_print m p len = None.
Proof.
  intros Hm Hp Hmax. unfold raw_packet_print. destruct (len <=? 0) eqn:E0; cbn [orb].
  { exists []. replace (Z.to_nat len) with 0%nat by lia. cbn [dump_lines].
    destruct (0 <? len) eqn:E; [lia|]. rewrite Z.max_l by lia. done. }
  destruct (p + len <=? Z.of_nat (List.length m)) eqn:E.
  - destruct (dump_lines_read m p len Hm Hp ltac:(lia) (Z.to_nat len) 0) as (lines & -> & H); [lia|lia|lia|].
    exists lines. split; [done|]. rewrite (H _ (le_n _)). by rewrite Z.add_0_r, Z.sub_0_r.
  - intros Hin. by rewrite dump_lines_over by lia.
Qed.

Lemma ip_print_in m : bytes_ok m -> 20 <= Z.of_nat (List.length m) -> is_Some (ip_print m 0).
Proof. intros. unfold ip_print. run. eauto. Qed.

Lemma tcp_print_in m tcp : 0 <= tcp -> tcp + 20 <= Z.of_nat (List.length m) -> is_Some (tcp_print m tcp).
Proof. intros. unfold tcp_print. run. eauto. Qed.

(** What [packet_debug] prints of the segment, when the length claimed lies in the buffer. *)
Lemma packet_debug_spec m offset inbound :
  bytes_ok m -> offset = ihl_of m 0 -> 20 <= offset -> offset + 60 <= Z.of_nat (List.length m) ->
  let body := offset + tcp_hlen_of m offset in
  if (claimed m <=? body) || (claimed m <=? Z.of_nat (List.length m)) then
    exists head lines, packet_debug m 0 offset inbound = Some (head ++ dump_text (claimed m - body) lines) /\
      parse_lines (List.length lines) 0 lines = Some (rd m body (Z.max 0 (claimed m - body)))
  else packet_debug m 0 offset inbound = None.
Proof.
  intros Hm Ho Hi Hl body. unfold packet_debug.
  destruct (ip_print_in m Hm) as [ip_out ->]; [lia|]. cbn [mbind option_bind].
  destruct (tcp_print_in m offset) as [tcp_out ->]; [lia|lia|]. cbn [mbind option_bind]. run.
  change (Z.land (getf m 0 ip_version_ihl) 15 * 4) with (ihl_of m 0). rewrite <- Ho.
  change (Z.shiftr (getf m offset tcp_data_offset) 4 * 4) with (tcp_hlen_of m offset).
  pose proof (tcp_hlen_range m offset Hm ltac:(lia) ltac:(lia)) as Hh.
  rewrite (u8_id (tcp_hlen_of m offset)) by lia. fold (claimed m). fold body.
  replace (claimed m - offset - tcp_hlen_of m offset) with (claimed m - body) by (subst body; lia).
  assert (0 <= claimed m < 65536) as Hc by apply bswap16_range.
  pose proof (raw_packet_print_spec m body (claimed m - body) Hm ltac:(lia) ltac:(lia)) as H.
  replace (claimed m - body <=? 0) with (claimed m <=? body) in H by lia.
  replace (body + (claimed m - body) <=? Z.of_nat (List.length m)) with (claimed m <=? Z.of_nat (List.length m)) in H
    by (f_equal; lia).
  destruct (_ || _).
  - destruct H as (lines & -> & Hread). cbn [mbind option_bind]. eexists _, lines. split; [|done].
    rewrite !(app_assoc _ _ (dump_text _ _)). done.
  - by rewrite H by lia.
Qed.

(** A block whose buffer holds the bytes counted, as far as they are printed. *)
Definition printable_block (t : Block) : Prop :=
  bytes_ok (b_recv_buffer t) /\ Z.min (b_recv_size t) 32 <= Z.of_nat (List.length (b_recv_buffer t)).

Lemma print_recv_in n buf i size :
  bytes_ok buf -> 0 <= i -> Z.min size (i + Z.of_nat n) <= Z.of_nat (List.length buf) ->
  is_Some (print_recv n buf i size).
Proof.
  intros Hb. revert i. induction n as [|n IH]; intros i Hi Hl; cbn [print_recv]; [eauto|].
  destruct (i <? size) eqn:E; [|eauto]. rewrite get_in by mem. cbn [mbind option_bind].
  destruct (IH (i + 1)) as [rest ->]; [lia|lia|]. cbn [mbind option_bind]. eauto.
Qed.

Lemma print_TCB_in t : printable_block t -> is_Some (print_TCB (Some t)).
Proof.
  intros [Hb Hl]. unfold print_TCB. destruct (print_recv_in 32 (b_recv_buffer t) 0 (b_recv_size t)) as [out ->];
    [done|lia|lia|]. cbn [mbind option_bind]. eauto.
Qed.

(** The entry printed for the [k]-th block. *)
Definition entry_of (k : Z) (t : Block) : bytes :=
  NL ++ text "[TCB " ++ fmt_d k ++ text "]" ++ NL ++ default [] (print_TCB (Some t)).

Lemma print_list_lseg h fuel ps blocks p k :
  lseg (h_cells h) p ps None -> Forall2 (fun q t => n_tcb <$> h_cells h !! q = Some t) ps blocks ->
  Forall printable_block blocks -> (List.length ps <= fuel)%nat -> 0 <= k ->
  k + Z.of_nat (List.length ps) <= 2147483647 ->
  print_list fuel h p k = Some (concat (imap (fun i t => entry_of (k + Z.of_nat i) t) blocks)).
Proof.
  intros Hl Hb. revert p fuel k Hl. induction Hb as [|q t ps blocks Hq Hb IH]; intros p fuel k Hl Hp Hf Hk Hmax.
  { cbn in Hl. subst p. by destruct fuel. }
  cbn [lseg] in Hl. destruct Hl as [-> (n & Hn & Hl)]. rewrite Hn in Hq. injection Hq as Ht. subst t.
  apply Forall_cons in Hp as [Hpt Hp]. cbn [List.length] in *. destruct fuel as [|fuel]; [lia|]. cbn [print_list].
  assert (int_add k 1 = Some (k + 1)) as -> by (apply int_add_Some; lia). cbn [mbind option_bind].
  unfold deref. rewrite Hn. cbn [mbind option_bind].
  destruct (print_TCB_in _ Hpt) as [e He]. rewrite He. cbn [mbind option_bind].
  rewrite (IH _ fuel (k + 1)) by (done || lia). cbn [mbind option_bind imap concat].
  f_equal. unfold entry_of at 2. rewrite Z.add_0_r, He. cbn [default from_option]. rewrite <- !app_assoc.
  do 6 apply (f_equal2 app eq_refl). apply f_equal, imap_ext. intros i t _. unfold compose. apply (f_equal2 entry_of); [lia|done].
Qed.

(** ** Properties *)

(** C39 The hexadecimal dump loses nothing: for every packet that lies in the buffer
    [raw_packet_print] terminates without undefined behaviour, and from the lines it prints,
    padding, gaps and character column included, every byte of the packet can be read back,
    in order. *)
Theorem raw_packet_print_roundtrip m p len :
  bytes_ok m -> 0 <= p -> 0 <= len <= 2147483631 -> p + len <= Z.of_nat (List.length m) ->
  exists lines, raw_packet_print m p len = Some (dump_text len lines) /\
    parse_lines (List.length lines) 0 lines = Some (rd m p len).
Proof.
  intros Hm Hp Hl Hr. pose proof (raw_packet_print_spec m p len Hm Hp ltac:(lia)) as H.
  destruct (p + len <=? _) eqn:E; [|lia]. rewrite orb_true_r in H. by rewrite Z.max_r in H by lia.
Qed.

Definition sample_bytes : bytes := map Z.of_nat (seq 90 21).

Lemma raw_packet_print_roundtrip_witness :
  exists lines, raw_packet_print sample_bytes 1 20 = Some (dump_text 20 lines) /\
    parse_lines (List.length lines) 0 lines = Some (map Z.of_nat (seq 91 20)).
Proof.
  destruct (raw_packet_print_roundtrip sample_bytes 1 20) as (lines & H1 & H2);
    [by_eval|lia|lia|vm_compute; discriminate|].
  exists lines. exact (conj H1 H2).
Defined.

(** C40 Verbose mode trusts the length field: with both headers in the buffer, [packet_debug]
    prints exactly the segment's body when the total length the packet claims lies in the
    buffer (or leaves no body), and reads past the end of the buffer, which is undefined, for
    any greater claim. *)
Theorem packet_debug_body m offset inbound :
  bytes_ok m -> offset = ihl_of m 0 -> 20 <= offset -> offset + 60 <= Z.of_nat (List.length m) ->
  let body := offset + tcp_hlen_of m offset in
  if (claimed m <=? body) || (claimed m <=? Z.of_nat (List.length m)) then
    exists head lines, packet_debug m 0 offset inbound = Some (head ++ dump_text (claimed m - body) lines) /\
      parse_lines (List.length lines) 0 lines = Some (rd m body (Z.max 0 (claimed m - body)))
  else packet_debug m 0 offset inbound = None.
Proof. apply packet_debug_spec. Qed.

(** A packet of 40 bytes that claims 2000. *)
Lemma packet_debug_body_witness :
  packet_debug (setf (old_sample ACK 7 1) 0 ip_len (htons 2000)) 0 20 true = None.
Proof.
  pose proof (packet_debug_body (setf (old_sample ACK 7 1) 0 ip_len (htons 2000)) 20 true) as H.
  apply H; [by_eval|reflexivity|lia|vm_compute; discriminate].
Defined.

(** Printing the server visits every connection once: over any well-formed list the loop
    ends and prints the number of connections and then, in the order of the list and
    numbered from zero, one entry per connection with its block's contents. *)
Theorem print_server_lists s ps blocks :
  list_ok s ps -> Forall2 (fun q t => n_tcb <$> h_cells (s_heap s) !! q = Some t) ps blocks ->
  Forall printable_block blocks ->
  print_TCP_Server_Instance (Some s) =
  Some (text "=== TCP Server Instance ===" ++ NL ++
        line_d "Number of TCBs: " (Z.of_nat (List.length blocks)) "" ++
        concat (imap (fun k t => entry_of (Z.of_nat k) t) blocks)).
Proof.
  intros Hok Hb Hp. unfold print_TCP_Server_Instance.
  pose proof (list_ok_turns _ _ Hok) as Hturns. pose proof (lo_max _ _ Hok) as Hmax. unfold TABLE_MAX in Hmax.
  rewrite (print_list_lseg _ _ ps blocks _ 0 (lo_seg _ _ Hok) Hb Hp) by lia. cbn [mbind option_bind].
  rewrite (lo_size _ _ Hok), (Forall2_length _ _ _ Hb). done.
Qed.

(** A list of one established connection. *)
Definition sample_block : Block :=
  let b := fresh_block (MkCID 16777226 40000 33554442 8080) in
  MkBlock (b_id b) TCP_ESTABLISHED (b_send b) (b_recv b) (b_recv_buffer b) 40 0.

Lemma print_server_lists_witness :
  exists out, print_TCP_Server_Instance (Some (one_block sample_block)) = Some out /\ List.length out = 376%nat.
Proof.
  eexists. split.
  - apply (print_server_lists (one_block sample_block) [0%nat] [sample_block] (one_block_list _)).
    + constructor; [reflexivity|constructor].
    + constructor; [|constructor]. split; [by_eval|vm_compute; discriminate].
  - vm_compute. reflexivity.
Defined.
