(* ===== verification/OldVerbose.v ===== *)
(** * Verbose mode of the first version

    The handler, the loop and [main] with the calls that print, in their places: a call's
    result is paired with the bytes it writes to the standard output.  Without these bytes
    it is the call of [OldTcp.v], [OldMain.v] or [OldDevice.v], as long as what is printed
    lies in memory. *)
From Stdlib Require Import String.
From S2P Require Import Prelude Memory Checksum CString Actions Ip Icmp TcpHeader Heap Table OldList OldNet OldSegment Format Http OldTcp OldMain OldDevice Debug.

Definition print_line (s : string) : bytes := text s ++ NL.

(** A call that prints nothing. *)
Definition silently {A} (r : option A) : option (bytes * A) := pair [] <$> r.

(** ** The handler *)

Definition dispatch_new_v (verbose : bool) (env : Old_Env) (m : bytes) (ip tcp : Z) (s : Instance_)
    (id : TCP_Connection_ID) (syn ack rst : bool) : option (bytes * (Z * bytes * Instance_)) :=
  if rst then Some ([], (TCP_SILENT, m, s)) else
  if syn && negb ack then
    let '(tcb, h) := tcp_init_tcb (s_heap s) id in
    let s := MkInstance h (s_head s) (s_size s) in
    s ← tcp_insert_tcb s tcb;
    '(m, s) ← tcp_null_syn_ack (env_ticks env) m s ip tcp tcb;
    match tcb with
    | None => Some ([], (TCP_SILENT, m, s))
    | Some _ =>
        out ← (if verbose then
                 t ← print_TCP_Server_Instance (Some s);
                 Some (print_line "--- CURRENT STATE --- " ++ t)
               else Some []);
        Some (out, (0, m, s))
    end
  else
    m ← tcp_null_rst m ip tcp;
    Some ([], (0, m, s)).

Definition dispatch_half_open_v (verbose : bool) (env : Old_Env) (m : bytes) (ip tcp : Z) (s : Instance_)
    (p : loc) (b : Block) (syn ack : bool) : option (bytes * (Z * bytes * Instance_)) :=
  '(out, (m, s)) ←
    (if syn && negb ack then
       '(m, s) ← tcp_null_syn_ack (env_ticks env) m s ip tcp (Some p);
       Some ([], (m, s))
     else if ack && negb syn then
       let out := if verbose then print_line "SESSION INITIALIZED FOR CONNECTION:" ++ text "   " ++
                                  print_TCP_Connection_ID (b_id b)
                  else [] in
       a ← get m tcp tcp_ack_num;
       let ack_num := ntohl a in
       if ack_num =? u32 (ss_next (b_send b)) then
         s ← put_block s p (b_with_unac (b_with_state b TCP_ESTABLISHED) (s32 ack_num));
         Some (out, (m, s))
       else Some (out ++ print_line "[ERROR]: Recieved invalid connection acknowledgement. Failed handshake", (m, s))
     else Some (print_line "[DEBUG]: Unexpected flag in SYN_RECIEVED state", (m, s)));
  Some (out, (TCP_SILENT, m, s)).

Definition tcp_dispatch_v (verbose : bool) (env : Old_Env) (m : bytes) (ip tcp : Z) (s : Instance_)
    : option (bytes * (Z * bytes * Instance_)) :=
  si ← get m ip ip_src;
  di ← get m ip ip_dst;
  sp ← get m tcp tcp_src_port;
  dp ← get m tcp tcp_dst_port;
  let id := MkCID (s32 si) sp (s32 di) dp in
  flags ← get m tcp tcp_flags;
  let syn := truth (Z.land flags SYN) in
  let ack := truth (Z.land flags ACK) in
  let fin := truth (Z.land flags FIN) in
  let rst := truth (Z.land flags RST) in
  con_state ← tcp_get_state s id;
  match con_state with
  | None => dispatch_new_v verbose env m ip tcp s id syn ack rst
  | Some p =>
      if rst then
        '(valid, s) ← tcp_got_rst m tcp p s;
        Some (if valid : bool then []
              else print_line "[ERROR]: Recieved invalid reset request, may or may not be malicioius",
              (TCP_SILENT, m, s))
      else
        n ← deref (s_heap s) p;
        match b_state (n_tcb n) with
        | TCP_SYN_RECEIVED => dispatch_half_open_v verbose env m ip tcp s p (n_tcb n) syn ack
        | TCP_ESTABLISHED => silently (dispatch_established env m ip tcp s p (n_tcb n) fin)
        | _ => Some ([], (TCP_SILENT, m, s))
        end
  end.

(** ** The loop *)

Definition parse_packet_v (print : bool) (env : Old_Env) (s : Old_Server)
    : option (bytes * (Z * list bytes * Old_Server)) :=
  let packet := os_tu s in
  op ← packet_deserialize packet 0;
  vi ← get packet 0 ip_version_ihl;
  let ihl := Z.land vi 15 in
  if op =? IPV4_ICMP then
    m ← icmp_dispatch packet 0 (4 * ihl);
    w ← write_packet m;
    Some ([], (0, [w], MkOldServer m (os_states s)))
  else if op =? IPV4_TCP then
    before ← (if print then packet_debug packet 0 (4 * ihl) true else Some []);
    '(during, (err, m, states)) ← tcp_dispatch_v print env packet 0 (4 * ihl) (os_states s);
    if err =? TCP_FATAL then Some (before ++ during, (1, [], MkOldServer m states))
    else if err =? TCP_SILENT then Some (before ++ during, (0, [], MkOldServer m states))
    else
      after ← (if print then packet_debug m 0 (4 * ihl) false else Some []);
      w ← write_packet m;
      Some (before ++ during ++ after, (0, [w], MkOldServer m states))
  else if (op =? PROTO_UNDF) || (op =? IPV6) || (op =? VER_UNDF) then Some ([], (0, [], s))
  else Some ([], (1, [], s)).

Fixpoint main_loop_v (verbose : bool) (rs : list Old_Round) (s : Old_Server)
    : option (bytes * (list bytes * option Z * Old_Server)) :=
  match rs with
  | [] => Some ([], ([], None, s))
  | r :: rs =>
      match or_read r with
      | None | Some [] => Some ([], ([], Some 0, s))
      | Some data =>
          tu ← store_bytes (os_tu s) 0 (take (Z.to_nat MTU_SIZE) data);
          '(text1, (failed, out, s)) ← parse_packet_v verbose (or_env r) (MkOldServer tu (os_states s));
          if truth failed then Some (text1, (out, Some 1, s))
          else
            '(text2, (out', status, s)) ← main_loop_v verbose rs s;
            Some (text1 ++ text2, (out ++ out', status, s))
      end
  end.

(** ** [main] *)

Definition tun_init_v (verbose : bool) (env : Vd_Env) (vd : Virtual_Device) : option (bytes * (Z * list Act)) :=
  '(code, acts) ← tun_init env vd;
  if truth code || negb verbose then Some ([], (code, acts)) else
  ip ← c_chars (vd_ip vd);
  dev_name ← c_chars (vd_dev vd);
  Some (text "TUN interface " ++ ip ++ text " is up at " ++ dev_name ++ NL, (code, acts)).

Definition main_serve_v (verbose : bool) (env : Vd_Env) (oom : nat -> bool) (rs : list Old_Round)
    (vd : Virtual_Device) : option (bytes * (option Z * list Act * list bytes * Instance_)) :=
  '(up, (failed, acts)) ← tun_init_v verbose env vd;
  if truth failed then Some (up, (Some 1, acts ++ virtual_device_destroy vd, [], inst_start oom)) else
  if negb (ve_tu env) then Some (up, (Some 1, acts ++ virtual_device_destroy vd, [], inst_start oom)) else
  let acts := acts ++ [Acquire Unit_Block] in
  '(talk, (out, status, s)) ← main_loop_v verbose rs (main_start oom);
  match status with
  | None => Some (up ++ talk, (None, acts, out, os_states s))
  | Some code =>
      Some (up ++ talk, (Some code, acts ++ virtual_device_destroy vd ++ [Release Unit_Block], out, os_states s))
  end.

Definition main_open_v (verbose : bool) (flags : Z) (env : Vd_Env) (oom : nat -> bool) (rs : list Old_Round)
    (tun_name ip_addr : bytes) : option (bytes * (option Z * list Act * list bytes * Instance_)) :=
  '(fd, dev, acts) ← tun_alloc env tun_name flags;
  if fd <? 0 then Some ([], (Some 1, acts ++ [Release Ip_Block; Release Name_Block], [], inst_start oom)) else
  let vd := MkVd dev ip_addr flags fd in
  device ← (if verbose then virtual_device_print vd else Some []);
  '(talk, (status, acts_serve, out, states)) ← main_serve_v verbose env oom rs vd;
  Some (device ++ talk, (status, acts ++ acts_serve, out, states)).

Definition main_v (flags : Z) (env : Vd_Env) (oom : nat -> bool) (rs : list Old_Round) (argv : list bytes)
    : option (bytes * (option Z * list Act * list bytes * Instance_)) :=
  let argc := Z.of_nat (List.length argv) in
  if argc <? 2 then Some ([], (Some 1, [], [], inst_start oom)) else
  if negb (ve_ip env) then Some ([], (Some 1, [], [], inst_start oom)) else
  let acts := [Acquire Ip_Block] in
  arg1 ← argv !! 1%nat;
  ip ← load_bytes arg1 0 IFNAMSIZ;
  ip_addr ← store_bytes (replicate (Z.to_nat (IFNAMSIZ + 1)) 0) 0 ip;
  if negb (ve_dev env) then Some ([], (Some 1, acts ++ [Release Ip_Block], [], inst_start oom)) else
  let acts := acts ++ [Acquire Name_Block] in
  tun_name ← (if 3 <=? argc then
                arg2 ← argv !! 2%nat;
                dev ← load_bytes arg2 0 IFNAMSIZ;
                store_bytes (replicate (Z.to_nat (IFNAMSIZ + 1)) 0) 0 dev
              else Some (replicate (Z.to_nat (IFNAMSIZ + 1)) 0));
  let verbose := 4 <=? argc in
  let hello := if verbose then print_line "Debug ~" else [] in
  '(talk, (status, acts_open, out, states)) ← main_open_v verbose flags env oom rs tun_name ip_addr;
  Some (hello ++ talk, (status, acts ++ acts_open, out, states)).

(** ** Erasing what is printed *)

Lemma erase_bind {A B} (xv : option (bytes * A)) (x : option A) (fv : bytes * A -> option (bytes * B))
    (f : A -> option B) :
  snd <$> xv = x -> (forall o a, x = Some a -> snd <$> fv (o, a) = f a) -> snd <$> (xv ≫= fv) = x ≫= f.
Proof. intros <- Hf. destruct xv as [[o a]|]; [|done]. cbn. by apply Hf. Qed.

Lemma erase_same {A B} (x : option A) (fv : A -> option (bytes * B)) (f : A -> option B) :
  (forall a, x = Some a -> snd <$> fv a = f a) -> snd <$> (x ≫= fv) = x ≫= f.
Proof. intros Hf. destruct x as [a|]; [|done]. cbn. by apply Hf. Qed.

Lemma erase_silently {A} (r : option A) : snd <$> silently r = r.
Proof. by destruct r. Qed.

(** What the results of a call are known to satisfy. *)
Definition results {A} (r : option A) (P : A -> Prop) : Prop := forall a, r = Some a -> P a.

Lemma results_bind {A B} (x : option A) (f : A -> option B) P a :
  results (x ≫= f) P -> x = Some a -> results (f a) P.
Proof. intros H ->. exact H. Qed.

(** The list [s] can be printed. *)
Definition printable (s : Instance_) : Prop := is_Some (print_TCP_Server_Instance (Some s)).

Lemma dispatch_new_erased verbose env m ip tcp s id syn ack rst :
  (verbose = true -> results (dispatch_new env m ip tcp s id syn ack rst) (fun r => printable r.2)) ->
  snd <$> dispatch_new_v verbose env m ip tcp s id syn ack rst = dispatch_new env m ip tcp s id syn ack rst.
Proof.
  unfold dispatch_new_v, dispatch_new. destruct rst; [done|]. destruct (syn && negb ack).
  - destruct (tcp_init_tcb (s_heap s) id) as [tcb h]. intros Hp. apply erase_same. intros s1 Hs1.
    apply erase_same. intros [m2 s2] Hs2. rewrite Hs1 in Hp. cbn [mbind option_bind] in Hp. rewrite Hs2 in Hp.
    destruct tcb; [|done]. destruct verbose; [|done]. destruct (Hp eq_refl _ eq_refl) as [t Ht].
    cbn [snd] in Ht. by rewrite Ht.
  - intros _. by apply erase_same.
Qed.

Lemma half_open_erased verbose env m ip tcp s p b syn ack :
  snd <$> dispatch_half_open_v verbose env m ip tcp s p b syn ack = dispatch_half_open env m ip tcp s p b syn ack.
Proof.
  unfold dispatch_half_open_v, dispatch_half_open. apply erase_bind; [|by intros o [? ?] _].
  destruct (syn && negb ack); [by destruct (tcp_null_syn_ack _ _ _ _ _ _) as [[? ?]|]|]. destruct (ack && negb syn); [|done].
  apply erase_same. intros a _. cbv zeta. destruct (_ =? _); [|done]. by apply erase_same.
Qed.

Lemma tcp_dispatch_erased verbose env m ip tcp s :
  (verbose = true -> results (tcp_dispatch env m ip tcp s) (fun r => printable r.2)) ->
  snd <$> tcp_dispatch_v verbose env m ip tcp s = tcp_dispatch env m ip tcp s.
Proof.
  intros Hp. unfold tcp_dispatch_v, tcp_dispatch in *.
  repeat (apply erase_same; let a := fresh "a" in let H := fresh "H" in intros a H; rewrite H in Hp; cbn [mbind option_bind] in Hp).
  destruct a4 as [p|]; [|by apply dispatch_new_erased]. destruct (truth (Z.land a3 RST)).
  - by apply erase_same; intros [? ?] _.
  - apply erase_same. intros n Hn. destruct (b_state (n_tcb n)); try done; [apply half_open_erased|apply erase_silently].
Qed.

(** ** What can be printed *)

(** No call touches a block's receive buffer. *)
Definition blocks_printable (M : gmap TCP_Connection_ID Block) : Prop := map_Forall (fun _ b => printable_block b) M.

Lemma fresh_printable id : printable_block (fresh_block id).
Proof. split; cbn; [by apply Forall_replicate|lia]. Qed.

Lemma open_printable env m offset b b' : open_spec env m offset b = Some b' -> printable_block b -> printable_block b'.
Proof. unfold open_spec, open_block. intros (x & _ & (y & _ & [= <-])%bind_Some)%bind_Some. done. Qed.

Lemma old_spec_printable env m offset o v m' b' :
  (forall b, o = Some b -> printable_block b) -> old_spec env m offset o = Some (v, m', Some b') -> printable_block b'.
Proof.
  intros Ho. unfold old_spec. destruct o as [b|].
  2:{ destruct (old_has m offset RST); [done|]. destruct (_ && _); [|done].
      intros (b & Hb & [= <- <- <-])%bind_Some. eapply open_printable; [exact Hb|apply fresh_printable]. }
  specialize (Ho b eq_refl). unfold block_spec. destruct (old_has m offset RST).
  { intros (inside & _ & H)%bind_Some. destruct inside; [done|]. by injection H as _ _ <-. }
  destruct (b_state b); try (intros [= _ _ <-]; done).
  - destruct (_ && _); [|intros [= _ _ <-]; by destruct (_ && _)].
    intros (b1 & Hb & [= <- <- <-])%bind_Some. by eapply open_printable.
  - destruct (old_has m offset FIN); [by intros [= _ _ <-]|]. unfold data_spec. cbv zeta.
    destruct (_ <=? 0); [by intros [= _ _ <-]|].
    intros ([r k] & _ & (nx & _ & (sx & _ & [= _ _ <-])%bind_Some)%bind_Some)%bind_Some. done.
Qed.

Lemma with_conn_printable M id env m offset v m' o :
  blocks_printable M -> old_spec env m offset (M !! id) = Some (v, m', o) -> blocks_printable (with_conn M id o).
Proof.
  intros HM H. destruct o as [b|]; cbn [with_conn].
  - apply map_Forall_insert_2; [|done]. eapply old_spec_printable; [|exact H]. apply HM.
  - by apply map_Forall_delete.
Qed.

(** A well-formed list of such blocks can be printed. *)
Lemma closed_printable s : closed s -> blocks_printable (conns s) -> printable s.
Proof.
  intros Hc HM. pose proof Hc as (ps & Hok & _).
  assert (exists blocks, Forall2 (fun q t => n_tcb <$> h_cells (s_heap s) !! q = Some t) ps blocks /\
    Forall printable_block blocks) as (blocks & H1 & H2).
  { assert (Forall (fun q => exists t, n_tcb <$> h_cells (s_heap s) !! q = Some t /\ printable_block t) ps) as H.
    - apply Forall_forall. intros q Hq. destruct (lseg_live _ _ _ _ _ (lo_seg _ _ Hok) Hq) as [n Hn].
      exists (n_tcb n). rewrite Hn. split; [done|]. apply (HM (b_id (n_tcb n))), conns_lookup; [done|].
      exists q. split; [|done]. change (inst_vals s !! q = Some (n_tcb n)). by rewrite inst_vals_lookup, Hn.
    - clear -H. induction H as [|q ps (t & Ht & Hp) _ (blocks & H1 & H2)]; [by exists []|].
      exists (t :: blocks). split; by constructor. }
  unfold printable. rewrite (print_server_lists s ps blocks Hok H1 H2). by eexists.
Qed.

(** ** The loop, erased *)

Lemma packet_debug_in m offset inbound :
  bytes_ok m -> offset = ihl_of m 0 -> 20 <= offset -> offset + 60 <= Z.of_nat (List.length m) ->
  claimed m <= Z.of_nat (List.length m) -> is_Some (packet_debug m 0 offset inbound).
Proof.
  intros Hb Ho Hi Hl Hc. pose proof (packet_debug_spec m offset inbound Hb Ho Hi Hl) as H. cbv zeta in H.
  destruct (claimed m <=? Z.of_nat (List.length m)) eqn:E; [|lia]. rewrite orb_true_r in H.
  destruct H as (head & lines & H & _). rewrite H. by eexists.
Qed.

Lemma deserialize_tcp m :
  bytes_ok m -> Z.of_nat (List.length m) = MTU_SIZE + 1 -> packet_deserialize m 0 = Some IPV4_TCP ->
  tcp_packet m (ihl_of m 0).
Proof.
  intros Hb Hs. unfold MTU_SIZE in Hs. unfold packet_deserialize. run. destruct (_ =? 6); [done|].
  destruct (Z.shiftr (getf m 0 ip_version_ihl) 4 =? 4) eqn:Hv; [|done]. cbn [negb].
  destruct (Z.land _ 15 <? 5) eqn:Hi; [done|]. destruct (_ =? 1); [done|].
  destruct (getf m 0 ip_proto =? 6) eqn:Hp; [|done]. intros _.
  split; try done; [lia|unfold ihl_of; lia|unfold IP_TCP_PROTO; lia].
Qed.

(** A call of the handler: without its output it is the call of [OldTcp.v], and what it
    leaves can be printed. *)
Lemma tcp_call verbose env m offset st :
  tcp_packet m offset -> closed st -> granting st -> Z.of_nat (size (conns st)) < TABLE_MAX ->
  response_fits env m offset -> blocks_printable (conns st) ->
  snd <$> tcp_dispatch_v verbose env m 0 offset st = tcp_dispatch env m 0 offset st /\
  results (tcp_dispatch env m 0 offset st) (fun '(v, m', st') =>
    blocks_printable (conns st') /\ (v = TCP_SILENT \/ is_Some (packet_debug m' 0 offset false))).
Proof.
  intros Hp Hc Hq Hmax Hfit Hpr. pose proof (old_dispatch_spec env m offset st Hp Hc Hq Hmax Hfit) as Hd.
  assert (results (tcp_dispatch env m 0 offset st) (fun '(v, m', st') =>
    closed st' /\ blocks_printable (conns st') /\ (v = TCP_SILENT \/ is_Some (packet_debug m' 0 offset false)))) as H.
  { intros [[v m'] st'] Hr. destruct (old_spec _ _ _ _) as [[[v1 m1] o]|] eqn:Hspec; cbn [implements] in Hd; [|congruence].
    destruct Hd as (st1 & Hd & Hc' & _ & Hcs). rewrite Hr in Hd. injection Hd as <- <- <-.
    split; [done|]. rewrite Hcs. split; [by eapply with_conn_printable|].
    pose proof (tcp_packet_range _ _ Hp) as (Hrange & Hs & _).
    destruct (old_spec_buffer _ _ _ _ _ _ _ Hp Hfit Hspec) as ((Hb' & Hl') & [->|[_ Ha]]); [by left|right].
    pose proof (answer_claimed _ _ _ (proj1 Hrange) Ha) as Hcl. unfold MTU_SIZE in Hcl.
    destruct Ha as (n & sq & ak & fl & Hn & Hlen & Hrep).
    apply packet_debug_in; [done|symmetry; apply Hrep|lia|lia|lia]. }
  split.
  - apply tcp_dispatch_erased. intros _ [[v m'] st'] Hr. destruct (H _ Hr) as (Hc' & Hpr' & _).
    by apply closed_printable.
  - intros [[v m'] st'] Hr. by destruct (H _ Hr) as (_ & H1 & H2).
Qed.

Lemma parse_packet_erased verbose env s :
  let m := os_tu s in
  old_ok s -> Z.of_nat (size (conns (os_states s))) < TABLE_MAX -> blocks_printable (conns (os_states s)) ->
  (getf m 0 ip_proto = 6 -> response_fits env m (ihl_of m 0) /\ claimed m <= MTU_SIZE + 1) ->
  snd <$> parse_packet_v verbose env s = parse_packet env s /\
  results (parse_packet env s) (fun '(_, _, s') => blocks_printable (conns (os_states s'))).
Proof.
  destruct s as [m st]. cbv zeta. cbn [os_tu os_states]. intros [Hb Hs Hc Hq] Hmax Hpr Htcp.
  cbn [os_tu os_states] in *. pose proof (ihl_of_range m 0) as Hr. unfold parse_packet_v, parse_packet. cbn [os_tu os_states].
  destruct (packet_deserialize m 0) as [op|] eqn:Hop; [|done]. cbn [mbind option_bind].
  rewrite get_in by (unfold MTU_SIZE in Hs; mem). cbn [mbind option_bind].
  replace (4 * Z.land (getf m 0 ip_version_ihl) 15) with (ihl_of m 0) by (unfold ihl_of; lia).
  destruct (op =? IPV4_ICMP).
  { split; [apply erase_same; intros m' _; by apply erase_same|].
    intros [[c out] s'] (m' & _ & (w & _ & [= _ _ <-])%bind_Some)%bind_Some. done. }
  destruct (op =? IPV4_TCP) eqn:Eop.
  2:{ by destruct (_ || _); split; try done; intros [[c out] s'] [= _ _ <-]. }
  apply Z.eqb_eq in Eop. subst op. pose proof (deserialize_tcp m Hb Hs Hop) as Hp.
  destruct (Htcp (tp_proto _ _ Hp)) as [Hfit Hcl].
  destruct (tcp_call verbose env m (ihl_of m 0) st Hp Hc Hq Hmax Hfit Hpr) as [He Hres].
  assert (exists before, (if verbose then packet_debug m 0 (ihl_of m 0) true else Some []) = Some before) as [before ->].
  { destruct verbose; [|by eexists]. unfold MTU_SIZE in *. destruct Hp. apply packet_debug_in; done || lia. }
  cbn [mbind option_bind]. split.
  - apply erase_bind; [exact He|]. intros o [[v m'] st'] Hd. destruct (Hres _ Hd) as [_ Hdebug].
    destruct (v =? TCP_FATAL); [done|]. destruct (v =? TCP_SILENT) eqn:Ev; [done|].
    destruct Hdebug as [->|[after Ha]]; [done|].
    assert (exists after, (if verbose then packet_debug m' 0 (ihl_of m 0) false else Some []) = Some after) as [after' ->]
      by (destruct verbose; by eexists).
    cbn [mbind option_bind]. by apply erase_same.
  - intros [[c out] s'] ([[v m'] st'] & Hd & H)%bind_Some. destruct (Hres _ Hd) as [Hpr' _].
    destruct (v =? TCP_FATAL); [by injection H as _ _ <-|]. destruct (v =? TCP_SILENT); [by injection H as _ _ <-|].
    by apply bind_Some in H as (w & _ & [= _ _ <-]).
Qed.

(** A TCP packet does not claim to be longer than the buffer. *)
Definition claim_fits (r : Old_Round) : Prop :=
  forall data, or_read r = Some data -> getf data 0 ip_proto = 6 -> claimed data <= MTU_SIZE + 1.

Lemma main_loop_erased verbose rs s :
  old_ok s -> Forall round_sane rs -> Forall claim_fits rs ->
  Z.of_nat (size (conns (os_states s)) + List.length rs) <= TABLE_MAX -> blocks_printable (conns (os_states s)) ->
  snd <$> main_loop_v verbose rs s = main_loop rs s.
Proof.
  revert s. induction rs as [|r rs IH]; intros s Hs Hrs Hcs Hmax Hpr; cbn [main_loop_v main_loop]; [done|].
  apply Forall_cons in Hrs as [Hr Hrs], Hcs as [Hcl Hcs]. cbn [List.length] in Hmax.
  destruct (or_read r) as [[|x data]|] eqn:Hread; [done| |done].
  assert (x :: data <> []) as Hne by discriminate. pose proof (Hr _ Hread Hne) as Hsane. clear Hne.
  specialize (Hcl _ Hread). set (d := x :: data) in *. destruct Hs as [Hb Hsz Hc Hq].
  destruct (sane_read _ _ _ Hsane Hb Hsz) as (-> & Hbm & Hlm & Hicmp & Htcp). cbn [mbind option_bind].
  destruct (sn_len _ _ Hsane) as [Hlo Hhi].
  assert (getf (upd (os_tu s) 0 d) 0 ip_proto = getf d 0 ip_proto /\ claimed (upd (os_tu s) 0 d) = claimed d)
    as [Hproto Hclaim] by (unfold MTU_SIZE, claimed in *; rewrite !getf_head by mem; done).
  set (m := upd (os_tu s) 0 d) in *. clearbody m. set (s1 := MkOldServer m (os_states s)).
  destruct (parse_packet_erased verbose (or_env r) s1) as [He Hres]; [by split|cbn; lia|exact Hpr| |].
  { cbn [os_tu s1]. intros Hp. split; [by apply Htcp|]. rewrite Hclaim. apply Hcl. congruence. }
  pose proof (parse_packet_spec (or_env r) s1 ltac:(by split) ltac:(cbn; lia) Hicmp Htcp) as Hturn.
  apply erase_bind; [exact He|]. intros o [[failed out] s2] Hd. rewrite Hd in Hturn.
  destruct (truth failed); [done|]. destruct (turn_spec _ _ _) as [[[out' m'] M']|] eqn:Hspec; [|done].
  destruct Hturn as (s3 & [= -> -> ->] & Hok & _ & HM). apply turn_size in Hspec. rewrite <- HM in Hspec.
  cbn [os_states s1] in Hspec. apply erase_bind.
  - apply IH; [done|done|done|lia|exact (Hres _ Hd)].
  - by intros o2 [[? ?] ?] _.
Qed.

(** ** [main], erased *)

Lemma tun_init_erased verbose env vd : snd <$> tun_init_v verbose env vd = tun_init env vd.
Proof.
  unfold tun_init_v. destruct (tun_init env vd) as [[code acts]|] eqn:E; [|done]. cbn [mbind option_bind].
  destruct (truth code || negb verbose); [done|]. unfold tun_init in E.
  destruct (c_chars (vd_ip vd)); [|done]. by destruct (c_chars (vd_dev vd)).
Qed.

(** What runs after the loop's packets are known to be printable. *)
Lemma main_serve_erased verbose env oom rs vd :
  snd <$> main_loop_v verbose rs (main_start oom) = main_loop rs (main_start oom) ->
  snd <$> main_serve_v verbose env oom rs vd = main_serve env oom rs vd.
Proof.
  intros Hl. unfold main_serve_v, main_serve. apply erase_bind; [apply tun_init_erased|].
  intros o [failed acts] _. destruct (truth failed); [done|]. destruct (negb (ve_tu env)); [done|].
  apply erase_bind; [exact Hl|]. intros o2 [[out status] s] _. by destruct status.
Qed.

Lemma main_open_erased verbose flags env oom rs name ip :
  snd <$> main_loop_v verbose rs (main_start oom) = main_loop rs (main_start oom) ->
  snd <$> main_open_v verbose flags env oom rs name ip = main_open flags env oom rs name ip.
Proof.
  intros Hl. unfold main_open_v, main_open. apply erase_same. intros [[fd dev] acts] _.
  destruct (fd <? 0); [done|]. set (vd := MkVd dev ip flags fd).
  pose proof (main_serve_erased verbose env oom rs vd Hl) as Hs.
  assert (is_Some (virtual_device_print vd) \/ main_serve env oom rs vd = None) as [Hprint|Hnone].
  { unfold virtual_device_print, main_serve, tun_init. destruct (c_chars (vd_ip vd)); [|by right].
    destruct (c_chars (vd_dev vd)); [|by right]. left. by eexists. }
  - assert (exists device, (if verbose then virtual_device_print vd else Some []) = Some device) as [device ->]
      by (destruct verbose; [exact Hprint|by eexists]).
    cbn [mbind option_bind]. apply erase_bind; [exact Hs|]. by intros o [[[? ?] ?] ?] _.
  - rewrite Hnone in Hs |- *. destruct (if verbose then virtual_device_print vd else Some []); [|done].
    cbn [mbind option_bind]. by destruct (main_serve_v verbose env oom rs vd).
Qed.

(** ** Properties *)

(** C29 Verbose mode changes nothing but the standard output: on packets whose lengths are
    true, and none of which claims more than the buffer holds, [main] with its calls that
    print is undefined when [main] without them is, and otherwise exits with the same
    status, takes the same actions on the system and writes the same packets, whatever the
    arguments. *)
Theorem verbose_only_prints flags env oom rs argv :
  (forall k, oom k = false) -> Forall round_sane rs -> Forall claim_fits rs ->
  Z.of_nat (List.length rs) <= TABLE_MAX ->
  snd <$> main_v flags env oom rs argv = main flags env oom rs argv.
Proof.
  intros Hoom Hrs Hcl Hmax.
  assert (forall verbose, snd <$> main_loop_v verbose rs (main_start oom) = main_loop rs (main_start oom)) as Hl.
  { intros verbose. pose proof (main_start_ok oom Hoom) as Hok.
    by apply main_loop_erased. }
  unfold main_v, main. destruct (_ <? 2); [done|]. destruct (ve_ip env); cbn [negb]; [|done].
  do 3 (apply erase_same; intros ? _). destruct (ve_dev env); cbn [negb]; [|done].
  apply erase_same. intros name _. apply erase_bind; [by apply main_open_erased|]. by intros o [[[? ?] ?] ?] _.
Qed.

Lemma verbose_only_prints_witness :
  let rs := [old_round SYN 7 0; old_round ACK 8 1001; MkOldRound None (old_env no_file)] in
  let argv := [chars "tcp"; chars "192.168.10.1/24" ++ [0]; replicate 16 0; chars "v"] in
  match main_v 4097 sample_vd (fun _ => false) rs argv with
  | Some (out, (status, _, packets, _)) =>
      status = Some 0 /\ List.length packets = 1%nat /\ take 7 out = chars "Debug ~" /\
      main 4097 sample_vd (fun _ => false) rs argv = snd <$> main_v 4097 sample_vd (fun _ => false) rs argv
  | None => False
  end.
Proof.
  intros rs argv.
  pose proof (verbose_only_prints 4097 sample_vd (fun _ => false) rs argv (fun _ => eq_refl)) as H.
  assert (match main_v 4097 sample_vd (fun _ => false) rs argv with
    | Some (out, (status, _, packets, _)) => status = Some 0 /\ List.length packets = 1%nat /\ take 7 out = chars "Debug ~"
    | None => False end) as Hrun by (vm_compute; repeat split).
  destruct (main_v 4097 sample_vd (fun _ => false) rs argv) as [[out [[[status acts] packets] states]]|]; [|exact Hrun].
  destruct Hrun as (H1 & H2 & H3). split; [exact H1|]. split; [exact H2|]. split; [exact H3|].
  symmetry. apply H.
  - apply Forall_cons. split; [apply old_round_sane; by_eval|]. apply Forall_cons.
    split; [apply old_round_sane; by_eval|]. apply Forall_cons. split; [intros d E; discriminate E|constructor].
  - apply Forall_cons. split; [intros d [= <-] _; vm_compute; discriminate|]. apply Forall_cons.
    split; [intros d [= <-] _; vm_compute; discriminate|]. apply Forall_cons. split; [intros d E; discriminate E|constructor].
  - unfold TABLE_MAX. cbn. lia.
Defined.
