(* ===== verification/ThreadPool.v ===== *)
(** * The thread pool

    [thread_pool/thread_pool.c]: a bounded queue of jobs behind a mutex and a condition
    variable, its worker threads, the callers of [job_enqueue] and the one caller of
    [thread_pool_destroy].  Threads interleave: a schedule is a list of choices of who
    takes the next step.  What a thread does while it holds the mutex is one step, since
    the queue is only touched under it.  [job_handle] is commented out in the source and
    does nothing.  Initialising and destroying the mutex and the condition variable, and
    errors of [pthread_join], are not modelled. *)
From S2P Require Import Prelude.

Definition LOAD_BOUND : Z := 1280.

Record Job := MkJob { host_fd : Z; client_fd : Z; kq : Z }.

(** The globals [operations], [job_count] and [shutdown]. *)
Record Pool := MkPool { operations : list Job; job_count : Z; shutdown : bool }.

#[export] Instance Job_eq_dec : EqDecision Job.
Proof. solve_decision. Defined.

(** ** Critical sections *)

(** [operations[i]], read and written. *)
Definition op_get (ops : list Job) (i : Z) : option Job :=
  if 0 <=? i then ops !! Z.to_nat i else None.
Definition op_set (ops : list Job) (i : Z) (op : Job) : option (list Job) :=
  if (0 <=? i) && (i <? Z.of_nat (length ops)) then Some (<[Z.to_nat i := op]> ops) else None.

(** [job_enqueue] while it holds the mutex: [busy] and the queue. *)
Definition enqueue_section (op : Job) (p : Pool) : option (bool * Pool) :=
  if job_count p <? LOAD_BOUND - 1 then
    ops ← op_set (operations p) (job_count p) op;
    Some (false, MkPool ops (job_count p + 1) (shutdown p))
  else Some (true, p).

(** [for (int i = 0; i < job_count - 1; i++) operations[i] = operations[i + 1];] with [n]
    turns left. *)
Fixpoint shift_down (n : nat) (i : Z) (ops : list Job) : option (list Job) :=
  match n with
  | O => Some ops
  | S n => x ← op_get ops (i + 1); ops ← op_set ops i x; shift_down n (i + 1) ops
  end.

(** What a worker does next: wait for the condition, unlock and handle [job] (unset when
    there was none), or leave the loop. *)
Inductive Verdict := Sleep | Handle (job : option Job) | Leave.

Definition worker_section (p : Pool) : option (Verdict * Pool) :=
  if (job_count p =? 0) && negb (shutdown p) then Some (Sleep, p)
  else if 0 <? job_count p then
    job ← op_get (operations p) 0;
    ops ← shift_down (Z.to_nat (job_count p - 1)) 0 (operations p);
    Some (Handle (Some job), MkPool ops (job_count p - 1) (shutdown p))
  else if shutdown p then Some (Leave, p)
  else Some (Handle None, p).

Definition job_handle (job : option Job) : Z := 0.

(** ** Threads *)

(** Where a worker is: about to lock, in the critical section, blocked on the condition,
    handling a job, returned. *)
Inductive WorkerPc := WLock | WIn | WWait | WHandle (job : option Job) | WExit.

(** A call of [job_enqueue]: about to lock, in the critical section, about to signal,
    returned. *)
Inductive CallerPc := CLock (op : Job) | CIn (op : Job) | CSignal (busy : bool) | CDone (busy : bool).

(** The call of [thread_pool_destroy]: not made, about to lock, in the critical section,
    joining thread [i], returned. *)
Inductive DestroyPc := DIdle | DLock | DIn | DJoin (i : nat) | DDone.

#[export] Instance WorkerPc_eq_dec : EqDecision WorkerPc.
Proof. solve_decision. Defined.

Inductive Who := Worker (i : nat) | Caller (i : nat) | Destroyer.

#[export] Instance Who_eq_dec : EqDecision Who.
Proof. solve_decision. Defined.

Record System := MkSystem {
  sy_pool : Pool;
  sy_mutex : option Who;
  sy_workers : list WorkerPc;
  sy_callers : list CallerPc;
  sy_destroy : DestroyPc;
}.

Inductive Event := Accepted (op : Job) | Refused (op : Job) | Taken (job : option Job).

(** The scheduler's choices: someone calls [job_enqueue], the call [i] takes its next step
    (waking the worker [wake], if any, when that is the signal), the worker [i] does, the
    system wakes the worker [i] from the condition with no signal, which it may and need
    not do, or the call that destroys the pool takes its next step. *)
Inductive Choice := Call (op : Job) | CallerStep (i : nat) (wake : option nat) | WorkerStep (i : nat)
  | Spurious (i : nat) | DestroyStep.

(** [pthread_cond_signal]: one blocked worker, if there is one, will lock again;
    [pthread_cond_broadcast]: all will. *)
Definition cond_signal (ws : list WorkerPc) (wake : option nat) : option (list WorkerPc) :=
  match wake with
  | Some i => if decide (ws !! i = Some WWait) then Some (<[i := WLock]> ws) else None
  | None => if decide (WWait ∈ ws) then None else Some ws
  end.
Definition cond_broadcast (ws : list WorkerPc) : list WorkerPc :=
  (fun pc => match pc with WWait => WLock | _ => pc end) <$> ws.

Definition with_worker (s : System) (p : Pool) (m : option Who) (i : nat) (pc : WorkerPc) : System :=
  MkSystem p m (<[i := pc]> (sy_workers s)) (sy_callers s) (sy_destroy s).
Definition with_caller (s : System) (p : Pool) (m : option Who) (i : nat) (pc : CallerPc) : System :=
  MkSystem p m (sy_workers s) (<[i := pc]> (sy_callers s)) (sy_destroy s).

Definition caller_step (s : System) (i : nat) (wake : option nat) : option (list Event * System) :=
  pc ← sy_callers s !! i;
  match pc, sy_mutex s with
  | CLock op, None => Some ([], with_caller s (sy_pool s) (Some (Caller i)) i (CIn op))
  | CIn op, _ =>
      '(busy, p) ← enqueue_section op (sy_pool s);
      Some ([if (busy : bool) then Refused op else Accepted op], with_caller s p None i (CSignal busy))
  | CSignal busy, _ =>
      ws ← cond_signal (sy_workers s) wake;
      Some ([], MkSystem (sy_pool s) (sy_mutex s) ws (<[i := CDone busy]> (sy_callers s)) (sy_destroy s))
  | _, _ => None
  end.

Definition worker_step (s : System) (i : nat) : option (list Event * System) :=
  pc ← sy_workers s !! i;
  match pc, sy_mutex s with
  | WLock, None => Some ([], with_worker s (sy_pool s) (Some (Worker i)) i WIn)
  | WIn, _ =>
      '(v, p) ← worker_section (sy_pool s);
      Some (match v with
            | Sleep => ([], with_worker s p None i WWait)
            | Handle job => ([Taken job], with_worker s p None i (WHandle job))
            | Leave => ([], with_worker s p None i WExit)
            end)
  | WHandle job, m => if job_handle job =? 0 then Some ([], with_worker s (sy_pool s) m i WLock) else None
  | _, _ => None
  end.

(** A return of [pthread_cond_wait] that nothing caused: the worker locks again. *)
Definition spurious_step (s : System) (i : nat) : option (list Event * System) :=
  if decide (sy_workers s !! i = Some WWait) then
    Some ([], with_worker s (sy_pool s) (sy_mutex s) i WLock)
  else None.

Definition with_destroy (s : System) (m : option Who) (pc : DestroyPc) : System :=
  MkSystem (sy_pool s) m (sy_workers s) (sy_callers s) pc.

Definition destroy_step (s : System) : option (list Event * System) :=
  match sy_destroy s, sy_mutex s with
  | DIdle, m => Some ([], with_destroy s m DLock)
  | DLock, None => Some ([], with_destroy s (Some Destroyer) DIn)
  | DIn, _ =>
      Some ([], MkSystem (MkPool (operations (sy_pool s)) (job_count (sy_pool s)) true) None
                  (cond_broadcast (sy_workers s)) (sy_callers s) (DJoin 0))
  | DJoin i, m =>
      match sy_workers s !! i with
      | Some WExit => Some ([], with_destroy s m (DJoin (S i)))
      | Some _ => None
      | None => Some ([], with_destroy s m DDone)
      end
  | _, _ => None
  end.

Definition sys_step (c : Choice) (s : System) : option (list Event * System) :=
  match c with
  | Call op =>
      Some ([], MkSystem (sy_pool s) (sy_mutex s) (sy_workers s) (sy_callers s ++ [CLock op]) (sy_destroy s))
  | CallerStep i wake => caller_step s i wake
  | WorkerStep i => worker_step s i
  | Spurious i => spurious_step s i
  | DestroyStep => destroy_step s
  end.

Fixpoint sys_run (cs : list Choice) (s : System) : option (list Event * System) :=
  match cs with
  | [] => Some ([], s)
  | c :: cs => '(ev, s) ← sys_step c s; '(ev', s) ← sys_run cs s; Some (ev ++ ev', s)
  end.

(** [thread_pool_init]: whether it returned the threads, and the system.  [memory] and
    [created] say what [malloc] and each [pthread_create] return; threads created before a
    failure run on. *)
Fixpoint create_threads (num_threads : nat) (created : list bool) (i : nat) : bool * nat :=
  match num_threads with
  | O => (true, i)
  | S n => if default false (created !! i) then create_threads n created (S i) else (false, i)
  end.

Definition thread_pool_init (memory : bool) (created : list bool) (num_threads : nat) : bool * System :=
  let pool := MkPool (replicate (Z.to_nat LOAD_BOUND) (MkJob 0 0 0)) 0 false in
  let '(ok, n) := if memory then create_threads num_threads created 0 else (false, 0%nat) in
  (ok, MkSystem pool None (replicate n WLock) [] DIdle).

(** ** Specification *)

(** The jobs in the queue, oldest first. *)
Definition queue (p : Pool) : list Job := take (Z.to_nat (job_count p)) (operations p).

Definition accepted (tr : list Event) : list Job :=
  omap (fun e => match e with Accepted j => Some j | _ => None end) tr.
Definition taken (tr : list Event) : list (option Job) :=
  omap (fun e => match e with Taken j => Some j | _ => None end) tr.

Record pool_ok (p : Pool) : Prop := {
  po_size : length (operations p) = Z.to_nat LOAD_BOUND;
  po_count : 0 <= job_count p <= LOAD_BOUND - 1;
}.

(** ** The queue *)

Lemma op_get_in ops i : 0 <= i -> op_get ops i = ops !! Z.to_nat i.
Proof. intros. unfold op_get. by destruct (0 <=? i) eqn:E; [|lia]. Qed.

Lemma op_set_in ops i x :
  0 <= i < Z.of_nat (length ops) -> op_set ops i x = Some (<[Z.to_nat i := x]> ops).
Proof. intros. unfold op_set. by destruct (_ && _) eqn:E; [|lia]. Qed.

(** The loop moves [n] elements one place down. *)
Lemma shift_down_spec n i ops :
  (i + n < length ops)%nat ->
  shift_down n (Z.of_nat i) ops
  = Some (take i ops ++ take n (drop (S i) ops) ++ drop (i + n) ops).
Proof.
  revert i ops. induction n as [|n IH]; intros i ops Hl; cbn [shift_down].
  { rewrite Nat.add_0_r. change (take 0 _) with (@nil Job). cbn [app]. by rewrite take_drop. }
  rewrite op_get_in by lia. replace (Z.to_nat (Z.of_nat i + 1)) with (S i) by lia.
  destruct (lookup_lt_is_Some_2 ops (S i)) as [x Hx]; [lia|]. rewrite Hx. cbn [mbind option_bind].
  rewrite op_set_in by lia. cbn [mbind option_bind]. rewrite Nat2Z.id.
  replace (Z.of_nat i + 1) with (Z.of_nat (S i)) by lia. rewrite IH by (rewrite length_insert; lia). f_equal.
  rewrite (drop_insert_lt ops (S (S i))), (drop_insert_lt ops (S i + n)) by lia.
  replace (S i + n)%nat with (i + S n)%nat by lia.
  rewrite (drop_S ops x (S i) Hx). cbn [take]. cbn [firstn].
  rewrite (take_S_r _ i x) by (apply list_lookup_insert_eq; lia).
  rewrite take_insert_ge by lia. by rewrite <- app_assoc.
Qed.

Lemma queue_length p : pool_ok p -> Z.of_nat (length (queue p)) = job_count p.
Proof. intros [Hl Hc]. unfold queue. rewrite length_take. unfold LOAD_BOUND in *. lia. Qed.

Lemma enqueue_section_spec op p :
  pool_ok p ->
  if job_count p <? LOAD_BOUND - 1 then
    exists p', enqueue_section op p = Some (false, p') /\ pool_ok p' /\ queue p' = queue p ++ [op] /\
      job_count p' = job_count p + 1 /\ shutdown p' = shutdown p
  else enqueue_section op p = Some (true, p).
Proof.
  intros [Hl Hc]. unfold enqueue_section. destruct (_ <? _) eqn:E; [|done].
  unfold LOAD_BOUND in *. rewrite op_set_in by lia. cbn [mbind option_bind].
  eexists. split; [done|]. split; [split; cbn [operations job_count]; [by rewrite length_insert|unfold LOAD_BOUND; lia]|].
  split; [|done]. unfold queue. cbn [job_count operations].
  replace (Z.to_nat (job_count p + 1)) with (S (Z.to_nat (job_count p))) by lia.
  rewrite (take_S_r _ _ op) by (apply list_lookup_insert_eq; lia). by rewrite take_insert_ge by lia.
Qed.

(** The oldest job is taken; a worker without one waits, or leaves after the shutdown. *)
Lemma worker_section_spec p :
  pool_ok p ->
  match queue p with
  | [] => job_count p = 0 /\ worker_section p = Some (if shutdown p then Leave else Sleep, p)
  | x :: q =>
      exists p', worker_section p = Some (Handle (Some x), p') /\ pool_ok p' /\ queue p' = q /\
        job_count p' = job_count p - 1 /\ shutdown p' = shutdown p
  end.
Proof.
  intros Hp. pose proof (queue_length p Hp) as Hq. destruct Hp as [Hl Hc]. unfold LOAD_BOUND in *.
  unfold worker_section. destruct (queue p) as [|x q] eqn:E; cbn [length] in Hq.
  { split; [lia|]. rewrite <- Hq. cbn. by destruct (shutdown p). }
  destruct (job_count p =? 0) eqn:E0; [lia|]. cbn [andb]. destruct (0 <? job_count p) eqn:E1; [|lia].
  unfold queue in E. destruct (operations p) as [|y ops] eqn:Eo; [by rewrite take_nil in E|].
  replace (Z.to_nat (job_count p)) with (S (Z.to_nat (job_count p - 1))) in E by lia.
  cbn [take firstn] in E. injection E as -> Hq'. cbn [length] in Hl.
  change (op_get (x :: ops) 0) with (Some x). cbn [mbind option_bind].
  pose proof (shift_down_spec (Z.to_nat (job_count p - 1)) 0 (x :: ops)) as Hs.
  change (Z.of_nat 0) with 0 in Hs. rewrite Hs by (cbn [length]; lia). cbn [mbind option_bind take app drop].
  set (n := Z.to_nat (job_count p - 1)) in *.
  rewrite drop_0. assert (length (take n ops) = n) as Hn by (rewrite length_take; lia).
  eexists. split; [done|]. split; [split; cbn [operations job_count]|].
  - rewrite length_app, Hn, length_drop. cbn [length]. unfold LOAD_BOUND. lia.
  - unfold LOAD_BOUND. lia.
  - split; [|done]. unfold queue. cbn [operations job_count]. fold n. rewrite take_app_le by lia.
    rewrite <- Hq'. apply take_ge. lia.
Qed.

(** ** The invariant *)

Implicit Types (s : System).

(** The thread is in its critical section. *)
Definition inside s (w : Who) : Prop :=
  match w with
  | Worker i => sy_workers s !! i = Some WIn
  | Caller i => exists op, sy_callers s !! i = Some (CIn op)
  | Destroyer => sy_destroy s = DIn
  end.

(** A worker that will look at the queue again without being woken. *)
Definition awake (pc : WorkerPc) : Prop := match pc with WWait | WExit => False | _ => True end.
Definition some_awake s : Prop := exists i pc, sy_workers s !! i = Some pc /\ awake pc.
Definition some_signal s : Prop := exists i busy, sy_callers s !! i = Some (CSignal busy).

Definition closing (d : DestroyPc) : Prop := match d with DJoin _ | DDone => True | _ => False end.

Definition joined s : Prop :=
  match sy_destroy s with
  | DJoin n => forall i, (i < n)%nat -> sy_workers s !! i = Some WExit
  | DDone => forall i pc, sy_workers s !! i = Some pc -> pc = WExit
  | _ => True
  end.

Record sys_ok s : Prop := {
  so_pool : pool_ok (sy_pool s);
  so_mutex : forall w, sy_mutex s = Some w <-> inside s w;
  so_job : forall i, sy_workers s !! i <> Some (WHandle None);
  so_shut : shutdown (sy_pool s) = true <-> closing (sy_destroy s);
  so_sleep : shutdown (sy_pool s) = true -> WWait ∉ sy_workers s;
  so_exit : WExit ∈ sy_workers s -> shutdown (sy_pool s) = true;
  so_joined : joined s;
  so_wake : queue (sy_pool s) <> [] -> WWait ∈ sy_workers s -> some_awake s \/ some_signal s;
}.

(** Only the threads' places change. *)
Lemma elem_of_insert (l : list WorkerPc) i pc pc' x :
  l !! i = Some pc -> x ∈ <[i := pc']> l -> x = pc' \/ x ∈ l.
Proof.
  intros Hi (j & Hj)%list_elem_of_lookup_1. destruct (decide (i = j)) as [->|].
  - rewrite list_lookup_insert_eq in Hj by (by eapply lookup_lt_Some). left. congruence.
  - rewrite list_lookup_insert_ne in Hj by done. right. by eapply list_elem_of_lookup_2.
Qed.

Lemma inside_worker s p m i pc w :
  is_Some (sy_workers s !! i) ->
  inside (with_worker s p m i pc) w <-> (if decide (w = Worker i) then pc = WIn else inside s w).
Proof.
  intros [x Hx]. destruct (decide _) as [-> |Hne]; cbn.
  - rewrite list_lookup_insert_eq by (by eapply lookup_lt_Some). naive_solver.
  - destruct w as [j|j|]; cbn; [|done|done]. rewrite list_lookup_insert_ne; [done|]. intros ->. done.
Qed.

Lemma inside_caller s p m i pc w :
  is_Some (sy_callers s !! i) ->
  inside (with_caller s p m i pc) w
  <-> (if decide (w = Caller i) then exists op, pc = CIn op else inside s w).
Proof.
  intros [x Hx]. destruct (decide _) as [-> |Hne]; cbn.
  - rewrite list_lookup_insert_eq by (by eapply lookup_lt_Some). naive_solver.
  - destruct w as [j|j|]; cbn; [done| |done]. rewrite list_lookup_insert_ne; [done|]. intros ->. done.
Qed.

(** A worker moves: what must hold of its new place. *)
Lemma worker_moves s p m i pc0 pc :
  sys_ok s -> sy_workers s !! i = Some pc0 -> pc0 <> WExit -> pool_ok p ->
  shutdown p = shutdown (sy_pool s) -> pc <> WHandle None ->
  (forall w, m = Some w <-> if decide (w = Worker i) then pc = WIn else inside s w) ->
  (pc = WExit -> shutdown p = true) -> (pc = WWait -> shutdown p = false /\ queue p = []) ->
  (queue p <> [] -> queue (sy_pool s) <> []) -> (pc = WExit -> queue p = []) ->
  sys_ok (with_worker s p m i pc).
Proof.
  intros [Hp Hm Hj Hs Hsl He Hjo Hw] Hi Hne Hp' Hsd Hjob Hin Hex Hwa Hq Hqe.
  pose proof (lookup_lt_Some _ _ _ Hi) as Hlt.
  assert (forall j, <[i := pc]> (sy_workers s) !! j = if decide (j = i) then Some pc else sy_workers s !! j) as Hl.
  { intros j. destruct (decide (j = i)) as [->|]; [by apply list_lookup_insert_eq|by apply list_lookup_insert_ne]. }
  split; cbn [with_worker sy_pool sy_mutex sy_workers sy_callers sy_destroy].
  - done.
  - intros w. rewrite inside_worker by eauto. apply Hin.
  - intros j. rewrite Hl. destruct (decide _); [congruence|apply Hj].
  - by rewrite Hsd.
  - intros Hd Hx. destruct (elem_of_insert _ _ _ _ _ Hi Hx) as [<-|Hx']; [destruct Hwa; congruence|].
    apply Hsl; congruence.
  - intros Hx. destruct (elem_of_insert _ _ _ _ _ Hi Hx) as [<-|Hx']; [by apply Hex|]. rewrite Hsd. auto.
  - unfold joined in *. cbn [with_worker sy_workers sy_destroy]. destruct (sy_destroy s) as [| | |n|]; try done.
    + intros j Hjn. rewrite Hl. destruct (decide _) as [->|]; [|auto]. specialize (Hjo i Hjn). congruence.
    + intros j x. rewrite Hl. destruct (decide _) as [->|]; [|eauto]. specialize (Hjo i pc0 Hi). congruence.
  - intros Hqn Hx. destruct (elem_of_insert _ _ _ _ _ Hi Hx) as [<-|Hx']; [destruct Hwa; congruence|].
    left. exists i, pc. cbn. rewrite Hl, decide_True by done. split; [done|].
    destruct pc; cbn; try done; [destruct Hwa|destruct Hqn]; auto.
Qed.

(** The jobs an event accounts for: what was queued and is accepted is what is taken and
    is queued now. *)
Definition conserves s (ev : list Event) s' : Prop :=
  Some <$> (queue (sy_pool s) ++ accepted ev) = taken ev ++ (Some <$> queue (sy_pool s')).

Lemma conserves_silent s s' : queue (sy_pool s') = queue (sy_pool s) -> conserves s [] s'.
Proof. unfold conserves. intros ->. cbn. by rewrite app_nil_r. Qed.

Lemma mutex_free s w : sys_ok s -> sy_mutex s = None -> ~ inside s w.
Proof. intros Hs Hn Hin%(so_mutex _ Hs). congruence. Qed.

Lemma mutex_held s w w' : sys_ok s -> inside s w -> inside s w' -> w = w'.
Proof. intros Hs H1%(so_mutex _ Hs) H2%(so_mutex _ Hs). congruence. Qed.

Lemma worker_step_ok s i ev s' :
  sys_ok s -> worker_step s i = Some (ev, s') -> sys_ok s' /\ conserves s ev s'.
Proof.
  intros Hs. unfold worker_step. destruct (sy_workers s !! i) as [pc|] eqn:Hi; [|done].
  cbn [mbind option_bind]. pose proof (so_pool _ Hs) as Hp.
  destruct pc as [| | |job|]; [destruct (sy_mutex s) eqn:Hm; [done|]| |done| |done].
  - intros [= <- <-]. split; [|by apply conserves_silent].
    apply (worker_moves s _ _ i WLock); try done.
    intros w. destruct (decide _) as [-> |Hne]; [done|].
    split; [congruence|]. intros Hin. by destruct (mutex_free s w Hs Hm).
  - assert (forall w pc, pc <> WIn -> None = Some w <-> (if decide (w = Worker i) then pc = WIn else inside s w)) as Hfree.
    { intros w pc Hpc. destruct (decide _) as [-> |Hne]; [done|]. split; [done|].
      intros Hin. destruct Hne. by apply (mutex_held s). }
    pose proof (worker_section_spec _ Hp) as Hw. pose proof (queue_length _ Hp) as Hq.
    destruct (queue (sy_pool s)) as [|x q] eqn:Eq.
    + destruct Hw as [_ ->]. cbn [mbind option_bind]. destruct (shutdown (sy_pool s)) eqn:Hsd.
      * intros [= <- <-]. split; [|by apply conserves_silent].
        apply (worker_moves s _ _ i WIn); try done. intros w. by apply Hfree.
      * intros [= <- <-]. split; [|by apply conserves_silent].
        apply (worker_moves s _ _ i WIn); try done. intros w. by apply Hfree.
    + destruct Hw as (p' & -> & Hp' & Hq' & _ & Hsd). cbn [mbind option_bind]. intros [= <- <-]. split.
      * apply (worker_moves s _ _ i WIn); try done; [intros w; by apply Hfree|by rewrite Eq].
      * unfold conserves. rewrite Eq. cbn. rewrite app_nil_r. by rewrite Hq'.
  - intros [= <- <-]. split; [|by apply conserves_silent].
    apply (worker_moves s _ _ i (WHandle job)); try done.
    intros w. rewrite (so_mutex _ Hs). destruct (decide _) as [-> |Hne]; [|done]. cbn. naive_solver.
Qed.

Lemma spurious_step_ok s i ev s' :
  sys_ok s -> spurious_step s i = Some (ev, s') -> sys_ok s' /\ conserves s ev s'.
Proof.
  intros Hs. unfold spurious_step. destruct (decide _) as [Hi|]; [|done].
  intros [= <- <-]. split; [|by apply conserves_silent].
  apply (worker_moves s _ _ i WWait); try done; [apply (so_pool _ Hs)|].
  intros w. rewrite (so_mutex _ Hs). destruct (decide _) as [-> |Hne]; [|done]. cbn. naive_solver.
Qed.

(** A call of [job_enqueue] moves. *)
Lemma caller_moves s p m ws i pc0 pc :
  sys_ok s -> sy_callers s !! i = Some pc0 -> pool_ok p -> shutdown p = shutdown (sy_pool s) ->
  (forall w, m = Some w <-> if decide (w = Caller i) then exists op, pc = CIn op else inside s w) ->
  (forall j x, ws !! j = Some x -> exists y, sy_workers s !! j = Some y /\ (x = y \/ y = WWait /\ x = WLock)) ->
  (forall j y, sy_workers s !! j = Some y -> exists x, ws !! j = Some x /\ (x = y \/ y = WWait /\ x = WLock)) ->
  (queue p <> [] -> WWait ∈ ws ->
   (exists j x, ws !! j = Some x /\ awake x) \/ exists j busy, <[i := pc]> (sy_callers s) !! j = Some (CSignal busy)) ->
  sys_ok (MkSystem p m ws (<[i := pc]> (sy_callers s)) (sy_destroy s)).
Proof.
  intros [Hp Hm Hj Hs Hsl He Hjo Hw] Hi Hp' Hsd Hin Hws Hws' Hwake.
  split; cbn [sy_pool sy_mutex sy_workers sy_callers sy_destroy]; try done.
  - intros w. rewrite Hin. destruct w as [j|j|].
    2:{ symmetry. apply (inside_caller s p m i pc (Caller j)). eauto. }
    2:{ by rewrite decide_False. }
    rewrite decide_False by done. cbn. split; intros H.
    + destruct (Hws' j _ H) as (x & Hx & [-> |[? _]]); [done|congruence].
    + destruct (Hws j _ H) as (x & Hx & [-> |[_ ?]]); [done|congruence].
  - intros j H. destruct (Hws j _ H) as (x & Hx & [<-|[_ ?]]); [by destruct (Hj j)|congruence].
  - by rewrite Hsd.
  - intros Hd (j & H)%list_elem_of_lookup_1. destruct (Hws j _ H) as (x & Hx & [<-|[_ ?]]); [|congruence].
    apply Hsl; [congruence|]. by eapply list_elem_of_lookup_2.
  - intros (j & H)%list_elem_of_lookup_1. destruct (Hws j _ H) as (x & Hx & [<-|[_ ?]]); [|congruence].
    rewrite Hsd. apply He. by eapply list_elem_of_lookup_2.
  - unfold joined in *. cbn. destruct (sy_destroy s) as [| | |n|]; try done.
    + intros j Hjn. destruct (Hws' j _ (Hjo j Hjn)) as (x & Hx & [-> |[? _]]); [done|congruence].
    + intros j x H. destruct (Hws j _ H) as (y & Hy & [-> |[-> _]]); [eauto|].
      specialize (Hjo j _ Hy). congruence.
Qed.

Lemma same_workers (ws : list WorkerPc) j x :
  ws !! j = Some x -> exists y, ws !! j = Some y /\ (x = y \/ y = WWait /\ x = WLock).
Proof. eauto. Qed.

(** The signal wakes a worker that waits, if there is one. *)
Lemma cond_signal_spec ws wake ws' :
  cond_signal ws wake = Some ws' ->
  (forall j x, ws' !! j = Some x -> exists y, ws !! j = Some y /\ (x = y \/ y = WWait /\ x = WLock)) /\
  (forall j y, ws !! j = Some y -> exists x, ws' !! j = Some x /\ (x = y \/ y = WWait /\ x = WLock)) /\
  (WWait ∈ ws -> exists j, ws' !! j = Some WLock).
Proof.
  unfold cond_signal. destruct wake as [i|].
  - destruct (decide _) as [Hi|]; [|done]. intros [= <-]. pose proof (lookup_lt_Some _ _ _ Hi) as Hlt.
    split; [|split].
    + intros j x H. destruct (decide (j = i)) as [-> |Hne].
      * rewrite list_lookup_insert_eq in H by done. exists WWait. naive_solver.
      * rewrite list_lookup_insert_ne in H by done. eauto.
    + intros j y H. destruct (decide (j = i)) as [-> |Hne].
      * exists WLock. rewrite list_lookup_insert_eq by done. naive_solver.
      * exists y. rewrite list_lookup_insert_ne by done. auto.
    + intros _. exists i. by apply list_lookup_insert_eq.
  - destruct (decide _); [done|]. intros [= <-]. split; [|split]; [apply same_workers| |done].
    intros j y H. eauto.
Qed.

Lemma caller_step_ok s i wake ev s' :
  sys_ok s -> caller_step s i wake = Some (ev, s') -> sys_ok s' /\ conserves s ev s'.
Proof.
  intros Hs. unfold caller_step. destruct (sy_callers s !! i) as [pc|] eqn:Hi; [|done].
  cbn [mbind option_bind]. pose proof (so_pool _ Hs) as Hp. pose proof (lookup_lt_Some _ _ _ Hi) as Hlt.
  destruct pc as [op|op|busy|busy]; [destruct (sy_mutex s) eqn:Hm; [done|]| | |by destruct (sy_mutex s)].
  - intros [= <- <-]. split; [|by apply conserves_silent].
    apply (caller_moves s (sy_pool s) (Some (Caller i)) (sy_workers s) i (CLock op)); try done.
    + intros w. destruct (decide _) as [-> |Hne]; [naive_solver|].
      split; [congruence|]. intros Hin. by destruct (mutex_free s w Hs Hm).
    + apply same_workers.
    + eauto.
    + intros Hq Hx. destruct (so_wake _ Hs Hq Hx) as [Ha|(j & b & Hj)]; [by left|]. right. exists j, b.
      rewrite list_lookup_insert_ne; [done|]. intros ->. congruence.
  - pose proof (enqueue_section_spec op _ Hp) as He. intros H.
    assert (exists busy p, enqueue_section op (sy_pool s) = Some (busy, p) /\ pool_ok p /\
      shutdown p = shutdown (sy_pool s) /\
      conserves s [if (busy : bool) then Refused op else Accepted op] (with_caller s p None i (CSignal busy)))
      as (busy & p & Hsec & Hp' & Hsd & Hcons).
    { unfold conserves. destruct (_ <? _).
      - destruct He as (p' & -> & H1 & H2 & _ & H4). exists false, p'. split; [done|]. split; [done|].
        split; [done|]. cbn. by rewrite H2.
      - rewrite He. exists true, (sy_pool s). split; [done|]. split; [done|]. split; [done|]. cbn. by rewrite app_nil_r. }
    rewrite Hsec in H. cbn [mbind option_bind] in H. injection H as <- <-. split; [|exact Hcons].
    apply (caller_moves s p None (sy_workers s) i (CIn op)); try done.
    + intros w. destruct (decide _) as [-> |Hne]; [naive_solver|]. split; [done|].
      intros Hin. destruct Hne. apply (mutex_held s); cbn; eauto.
    + apply same_workers.
    + eauto.
    + intros _ _. right. exists i, busy. by apply list_lookup_insert_eq.
  - intros (ws & Hws & [= <- <-])%bind_Some. split; [|by apply conserves_silent].
    destruct (cond_signal_spec _ _ _ Hws) as (H1 & H2 & H3).
    apply (caller_moves s (sy_pool s) (sy_mutex s) ws i (CSignal busy)); try done.
    + intros w. rewrite (so_mutex _ Hs). destruct (decide _) as [-> |Hne]; [cbn; naive_solver|done].
    + intros _ (j & Hx)%list_elem_of_lookup_1. left. destruct (H1 j _ Hx) as (y & Hy & [<-|[_ ?]]); [|congruence].
      destruct H3 as [k Hk]; [by eapply list_elem_of_lookup_2|]. by exists k, WLock.
Qed.

Lemma broadcast_lookup ws j :
  cond_broadcast ws !! j = (fun pc => match pc with WWait => WLock | _ => pc end) <$> ws !! j.
Proof. apply list_lookup_fmap. Qed.

Lemma destroy_step_ok s ev s' :
  sys_ok s -> destroy_step s = Some (ev, s') -> sys_ok s' /\ conserves s ev s'.
Proof.
  intros Hs. assert (forall w, inside s w <-> sy_mutex s = Some w) as Hm by (intros; symmetry; apply Hs).
  assert (forall m pc, (forall w, m = Some w <-> if decide (w = Destroyer) then pc = DIn else inside s w) ->
    (closing pc <-> closing (sy_destroy s)) -> joined (with_destroy s m pc) -> sys_ok (with_destroy s m pc)) as Hmove.
  { destruct Hs. intros m pc Hin Hcl Hjoin. split; cbn [with_destroy sy_pool sy_mutex sy_workers sy_callers sy_destroy]; try done.
    - intros w. rewrite Hin. by destruct w.
    - by rewrite Hcl. }
  unfold destroy_step. destruct (sy_destroy s) as [| | |n|] eqn:Hd; [| | | |done].
  - intros [= <- <-]. split; [|by apply conserves_silent]. apply Hmove; [|done|done].
    intros w. destruct (decide _) as [-> |]; [|by rewrite Hm]. rewrite <- Hm. cbn. split; congruence.
  - destruct (sy_mutex s) eqn:Hmu; [done|]. intros [= <- <-]. split; [|by apply conserves_silent].
    apply Hmove; [|done|done]. intros w. destruct (decide _) as [-> |Hne]; [done|].
    split; [congruence|]. intros Hin. by apply (mutex_free s w) in Hin.
  - intros [= <- <-]. split; [|by apply conserves_silent].
    assert (forall w, inside s w -> w = Destroyer) as Honly.
    { intros w Hin. apply (mutex_held s); [done|done|exact Hd]. }
    destruct Hs as [[Hl Hc] Hmx Hj Hsh Hsl He Hjo Hw].
    split; cbn [sy_pool sy_mutex sy_workers sy_callers sy_destroy shutdown]; try done.
    + intros w. split; [done|]. intros Hin. assert (w = Destroyer) as ->; [|done]. apply Honly.
      destruct w as [j|j|]; cbn in *; [|done|done]. rewrite broadcast_lookup in Hin.
      destruct (sy_workers s !! j) as [[]|]; done.
    + intros j. rewrite broadcast_lookup. specialize (Hj j). destruct (sy_workers s !! j) as [[]|]; naive_solver.
    + intros _ (j & Hx)%list_elem_of_lookup_1. rewrite broadcast_lookup in Hx.
      destruct (sy_workers s !! j) as [[]|]; done.
    + cbn. intros j Hj0. lia.
    + intros _ (j & Hx)%list_elem_of_lookup_1. rewrite broadcast_lookup in Hx.
      destruct (sy_workers s !! j) as [[]|]; done.
  - assert (forall pc, joined (with_destroy s (sy_mutex s) pc) -> closing pc -> pc <> DIn ->
      sys_ok (with_destroy s (sy_mutex s) pc)) as Hjoin.
    { intros pc Hj Hcl Hne. apply Hmove; [|done|done]. intros w. destruct (decide _) as [-> |]; [|by rewrite Hm].
      rewrite <- Hm. cbn. split; congruence. }
    pose proof (so_joined _ Hs) as Hjo. unfold joined in Hjo. rewrite Hd in Hjo.
    destruct (sy_workers s !! n) as [[]|] eqn:Hn; try done; intros [= <- <-];
      (split; [|by apply conserves_silent]); apply Hjoin; try done; cbn.
    + intros j Hjn. destruct (decide (j = n)) as [-> |]; [done|]. apply Hjo. lia.
    + intros j pc Hpc. assert (sy_workers s !! j = Some WExit); [|congruence]. apply Hjo.
      apply lookup_ge_None in Hn. apply lookup_lt_Some in Hpc. lia.
Qed.

Lemma sys_step_ok c s ev s' :
  sys_ok s -> sys_step c s = Some (ev, s') -> sys_ok s' /\ conserves s ev s'.
Proof.
  intros Hs. destruct c as [op|i wake|i|i|]; cbn [sys_step];
    [|by apply caller_step_ok|by apply worker_step_ok|by apply spurious_step_ok|by apply destroy_step_ok].
  intros [= <- <-]. split; [|by apply conserves_silent]. destruct Hs as [Hp Hm Hj Hs Hsl He Hjo Hw].
  split; cbn [sy_pool sy_mutex sy_workers sy_callers sy_destroy]; try done.
  - intros w. rewrite Hm. destruct w as [j|j|]; cbn; try done. split; intros [o Ho]; exists o.
    + by apply lookup_app_l_Some.
    + apply lookup_app_Some in Ho as [|[_ Ho]]; [done|]. apply list_lookup_singleton_Some in Ho as [_ Ho]. done.
  - intros Hq Hx. destruct (Hw Hq Hx) as [Ha|(j & b & Hb)]; [by left|]. right. exists j, b.
    by apply lookup_app_l_Some.
Qed.

Lemma sys_run_ok cs s tr s' :
  sys_ok s -> sys_run cs s = Some (tr, s') -> sys_ok s' /\ conserves s tr s'.
Proof.
  revert s tr. induction cs as [|c cs IH]; intros s tr Hs; cbn [sys_run].
  { intros [= <- <-]. split; [done|]. by apply conserves_silent. }
  intros ([ev s1] & Hc & ([ev' s2] & Hr & [= <- <-])%bind_Some)%bind_Some.
  destruct (sys_step_ok _ _ _ _ Hs Hc) as [Hs1 Hcons1]. destruct (IH _ _ Hs1 Hr) as [Hs2 Hcons2].
  split; [done|]. unfold conserves, accepted, taken in *. rewrite !omap_app.
  rewrite app_assoc, fmap_app, Hcons1, <- app_assoc, <- fmap_app, Hcons2. by rewrite app_assoc.
Qed.

Lemma thread_pool_init_ok memory created n : sys_ok (thread_pool_init memory created n).2.
Proof.
  unfold thread_pool_init. destruct (if memory then _ else _) as [ok k]. cbn [snd].
  assert (forall x, x ∈ replicate k WLock -> x = WLock) as Hr by (intros x [-> _]%elem_of_replicate; done).
  split; cbn [sy_pool sy_mutex sy_workers sy_callers sy_destroy shutdown]; try done.
  - intros [j|j|]; cbn; (split; [done|]); [|by intros []|done].
    intros Hx%list_elem_of_lookup_2%Hr. done.
  - intros j Hx%list_elem_of_lookup_2%Hr. done.
  - intros Hx%Hr. done.
Qed.

(** ** Progress *)

Lemma worker_section_total p : pool_ok p -> is_Some (worker_section p).
Proof.
  intros Hp. pose proof (worker_section_spec p Hp) as H.
  destruct (queue p); [destruct H as [_ ->]|destruct H as (p' & -> & _)]; eauto.
Qed.

Lemma enqueue_section_total op p : pool_ok p -> is_Some (enqueue_section op p).
Proof.
  intros Hp. pose proof (enqueue_section_spec op p Hp) as H.
  destruct (_ <? _); [destruct H as (p' & -> & _)|rewrite H]; eauto.
Qed.

(** Whoever holds the mutex can leave its critical section. *)
Lemma holder_steps s w :
  sys_ok s -> sy_mutex s = Some w ->
  is_Some (sys_step (match w with Worker i => WorkerStep i | Caller i => CallerStep i None
                     | Destroyer => DestroyStep end) s).
Proof.
  intros Hs Hm. pose proof (so_pool _ Hs) as Hp. pose proof (proj1 (so_mutex _ Hs w) Hm) as Hin.
  destruct w as [i|i|]; cbn [sys_step inside] in *.
  - unfold worker_step. rewrite Hin. cbn [mbind option_bind].
    destruct (worker_section_total _ Hp) as [[v p] ->]. cbn [mbind option_bind]. eauto.
  - destruct Hin as [op Hin]. unfold caller_step. rewrite Hin. cbn [mbind option_bind].
    destruct (enqueue_section_total op _ Hp) as [[b p] ->]. cbn [mbind option_bind]. eauto.
  - unfold destroy_step. rewrite Hin. eauto.
Qed.

(** With the mutex free, a worker that is awake moves. *)
Lemma awake_steps s i pc :
  sys_ok s -> sy_mutex s = None -> sy_workers s !! i = Some pc -> awake pc ->
  is_Some (sys_step (WorkerStep i) s).
Proof.
  intros Hs Hm Hi Ha. cbn [sys_step]. unfold worker_step. rewrite Hi, Hm. cbn [mbind option_bind].
  destruct pc; try done. by destruct (mutex_free s (Worker i) Hs Hm).
Qed.

(** Once the pool is closing, its threads run out of work: a bound on the steps left. *)
Definition pc_work (pc : WorkerPc) : nat :=
  match pc with WLock => 2 | WIn => 1 | WWait => 3 | WHandle _ => 3 | WExit => 0 end.
Definition destroy_work (n : nat) (d : DestroyPc) : nat :=
  match d with DJoin i => S (n - i) | DDone => 0 | _ => n + 5 end.
Definition work s : nat :=
  sum_list_with pc_work (sy_workers s) + 3 * Z.to_nat (job_count (sy_pool s))
  + destroy_work (length (sy_workers s)) (sy_destroy s).

Lemma sum_insert {A} (f : A -> nat) (l : list A) i x y :
  l !! i = Some x ->
  (sum_list_with f (<[i := y]> l) + f x = sum_list_with f l + f y)%nat.
Proof.
  revert i. induction l as [|z l IH]; intros i; [done|]. destruct i as [|i]; simpl.
  - intros [= ->]. clear IH. generalize (sum_list_with f l), (f x), (f y). lia.
  - intros Hi%IH. clear IH. revert Hi. 
    generalize (sum_list_with f l), (sum_list_with f (<[i := y]> l)), (f x), (f y), (f z). lia.
Qed.

(** A step of a worker or of the call that destroys the pool; and, of the pool's threads,
    those the system may make up as well. *)
Definition inner (c : Choice) : Prop := match c with WorkerStep _ | DestroyStep => True | _ => False end.
Definition of_pool (c : Choice) : Prop :=
  match c with WorkerStep _ | Spurious _ | DestroyStep => True | _ => False end.

(** A worker that has left saw an empty queue. *)
Definition drained s : Prop := WExit ∈ sy_workers s -> queue (sy_pool s) = [].

(** Less work is left, and the pool is still closing, with the same threads. *)
Definition winds_down s s' : Prop :=
  (work s' < work s)%nat /\ drained s' /\ sy_callers s' = sy_callers s /\
  shutdown (sy_pool s') = true /\ length (sy_workers s') = length (sy_workers s).

Lemma closing_worker_step s i ev s' :
  sys_ok s -> shutdown (sy_pool s) = true -> drained s -> worker_step s i = Some (ev, s') ->
  winds_down s s'.
Proof.
  intros Hs Hsd Hdr. unfold worker_step. destruct (sy_workers s !! i) as [pc|] eqn:Hi; [|done].
  cbn [mbind option_bind]. pose proof (so_pool _ Hs) as Hp.
  assert (forall p m pc', shutdown p = true -> (3 * Z.to_nat (job_count p) + pc_work pc' < 3 * Z.to_nat (job_count (sy_pool s)) + pc_work pc)%nat ->
    (pc' = WExit -> queue p = []) -> (queue (sy_pool s) = [] -> queue p = []) ->
    winds_down s (with_worker s p m i pc')) as Hmove.
  { intros p m pc' Hsd' Hlt Hx Hq. unfold winds_down, work, drained.
    cbn [with_worker sy_workers sy_pool sy_destroy sy_callers].
    rewrite length_insert. pose proof (sum_insert pc_work _ _ _ pc' Hi). split; [lia|]. split; [|done].
    intros [<-|H']%(elem_of_insert _ _ _ _ _ Hi); auto. }
  destruct pc as [| | |job|]; [destruct (sy_mutex s) eqn:Hm; [done|]| |done| |done].
  - intros [= <- <-]. apply Hmove; cbn [pc_work]; auto; [lia|done].
  - pose proof (worker_section_spec _ Hp) as Hw. pose proof (queue_length _ Hp) as Hq.
    destruct (queue (sy_pool s)) as [|x q] eqn:Eq; cbn [length] in Hq.
    + destruct Hw as [_ ->]. rewrite Hsd. cbn [mbind option_bind]. intros [= <- <-].
      apply Hmove; cbn [pc_work]; auto; lia.
    + destruct Hw as (p' & -> & Hp' & Hq' & Hc & Hsd'). cbn [mbind option_bind]. intros [= <- <-].
      apply Hmove; cbn [pc_work]; auto; [congruence|lia|done|done].
  - intros [= <- <-]. apply Hmove; cbn [pc_work]; auto; [lia|done].
Qed.

Lemma closing_step c s ev s' :
  sys_ok s -> shutdown (sy_pool s) = true -> drained s -> of_pool c -> sys_step c s = Some (ev, s') ->
  winds_down s s'.
Proof.
  intros Hs Hsd Hdr Hc. destruct c as [| |i|i|]; try done; cbn [sys_step]; [by apply closing_worker_step| |].
  { unfold spurious_step. destruct (decide _) as [Hi|]; [|done]. destruct (so_sleep _ Hs Hsd).
    by eapply list_elem_of_lookup_2. }
  pose proof (proj1 (so_shut _ Hs) Hsd) as Hcl. unfold destroy_step.
  destruct (sy_destroy s) as [| | |n|] eqn:Hd; try done.
  destruct (sy_workers s !! n) as [[]|] eqn:Hn; try done; intros [= <- <-]; (split; [|done]);
    unfold work; cbn [with_destroy sy_workers sy_pool sy_destroy]; rewrite Hd; cbn [destroy_work].
  - apply lookup_lt_Some in Hn. lia.
  - lia.
Qed.

Lemma closing_run cs s tr s' :
  sys_ok s -> shutdown (sy_pool s) = true -> drained s -> Forall of_pool cs -> sys_run cs s = Some (tr, s') ->
  (length cs + work s' <= work s)%nat /\ sys_ok s' /\ shutdown (sy_pool s') = true /\ drained s' /\
  sy_callers s' = sy_callers s /\ length (sy_workers s') = length (sy_workers s).
Proof.
  revert s tr. induction cs as [|c cs IH]; intros s tr Hs Hsd Hdr Hcs; cbn [sys_run].
  { intros [= <- <-]. cbn [length]. split; [lia|done]. }
  apply Forall_cons in Hcs as [Hc Hcs]. intros ([ev s1] & Hst & ([ev' s2] & Hr & [= <- <-])%bind_Some)%bind_Some.
  destruct (closing_step _ _ _ _ Hs Hsd Hdr Hc Hst) as (Hw & Hdr1 & Hca & Hsd1 & Hlen).
  destruct (sys_step_ok _ _ _ _ Hs Hst) as [Hs1 _].
  destruct (IH _ _ Hs1 Hsd1 Hdr1 Hcs Hr) as (Hw2 & H2 & H3 & H4 & H5 & H6). cbn [length].
  split; [lia|]. split; [done|]. split; [done|]. split; [done|]. split; congruence.
Qed.

Lemma sum_bound {A} (f : A -> nat) k (l : list A) :
  (forall x, (f x <= k)%nat) -> (sum_list_with f l <= k * length l)%nat.
Proof.
  intros Hf. induction l as [|x l IH]; simpl; [lia|]. specialize (Hf x). revert IH Hf.
  generalize (sum_list_with f l), (f x). lia.
Qed.

(** The step that sets the flag and wakes everyone. *)
Lemma begin_closing s ev s' :
  sys_ok s -> sy_destroy s = DIn -> destroy_step s = Some (ev, s') ->
  shutdown (sy_pool s') = true /\ drained s' /\ sy_callers s' = sy_callers s /\
  length (sy_workers s') = length (sy_workers s) /\
  (work s' <= 3 * length (sy_workers s) + 3 * length (queue (sy_pool s)) + S (length (sy_workers s)))%nat.
Proof.
  intros Hs Hd. unfold destroy_step. rewrite Hd. intros [= <- <-].
  assert (length (cond_broadcast (sy_workers s)) = length (sy_workers s)) as Hl by apply length_fmap.
  cbn [sy_pool sy_workers sy_callers shutdown]. split; [done|]. split; [|split; [done|split; [done|]]].
  - intros (j & Hx)%list_elem_of_lookup_1. cbn in Hx. rewrite broadcast_lookup in Hx.
    assert (shutdown (sy_pool s) = true) as Hsd.
    { apply (so_exit _ Hs). apply (list_elem_of_lookup_2 _ j).
      destruct (sy_workers s !! j) as [[]|]; done. }
    apply (so_shut _ Hs) in Hsd. by rewrite Hd in Hsd.
  - unfold work. cbn [sy_pool sy_workers sy_destroy job_count destroy_work]. rewrite Hl.
    pose proof (sum_bound pc_work 3 (cond_broadcast (sy_workers s))) as Hsum. rewrite Hl in Hsum.
    pose proof (queue_length _ (so_pool _ Hs)).
    specialize (Hsum ltac:(intros []; cbn; lia)). revert Hsum. generalize (sum_list_with pc_work (cond_broadcast (sy_workers s))).
    lia.
Qed.

(** Nothing left to do in a closing pool: every thread has returned. *)
Lemma stuck_finished s :
  sys_ok s -> shutdown (sy_pool s) = true ->
  (forall i pc, sy_callers s !! i = Some pc -> exists busy, pc = CDone busy) ->
  (forall c, inner c -> sys_step c s = None) ->
  sy_destroy s = DDone /\ forall i pc, sy_workers s !! i = Some pc -> pc = WExit.
Proof.
  intros Hs Hsd Hca Hstuck. assert (sy_mutex s = None) as Hm.
  { destruct (sy_mutex s) as [w|] eqn:Hm; [|done]. exfalso. pose proof (holder_steps s w Hs Hm) as [r Hr].
    destruct w as [i|i|]; [|destruct (proj1 (so_mutex _ Hs _) Hm) as [op Hop]; by destruct (Hca i _ Hop)|];
      rewrite Hstuck in Hr by done; done. }
  assert (forall i pc, sy_workers s !! i = Some pc -> pc = WExit) as Hall.
  { intros i pc Hi. destruct pc; try done; exfalso.
    3: { apply (so_sleep _ Hs Hsd). by eapply list_elem_of_lookup_2. }
    all: destruct (awake_steps s i _ Hs Hm Hi I) as [r Hr]; rewrite Hstuck in Hr by done; done. }
  split; [|exact Hall]. pose proof (proj1 (so_shut _ Hs) Hsd) as Hcl. specialize (Hstuck DestroyStep I).
  cbn [sys_step] in Hstuck. unfold destroy_step in Hstuck. destruct (sy_destroy s) as [| | |n|] eqn:Hd; try done.
  destruct (sy_workers s !! n) as [pc|] eqn:Hn; [|done]. rewrite (Hall _ _ Hn) in Hstuck. done.
Qed.

(** ** Properties *)

(** C31 First in, first out: under every interleaving, the jobs accepted are, in order, the
    jobs taken followed by the jobs still queued, of which there are never more than
    [LOAD_BOUND - 1]; no job is lost or handled twice, and no worker handles a job it has
    not got. *)
Theorem pool_fifo memory created n cs tr s :
  sys_run cs (thread_pool_init memory created n).2 = Some (tr, s) ->
  Some <$> accepted tr = taken tr ++ (Some <$> queue (sy_pool s)) /\
  Z.of_nat (length (queue (sy_pool s))) <= LOAD_BOUND - 1 /\
  forall i, sy_workers s !! i <> Some (WHandle None).
Proof.
  intros H. pose proof (thread_pool_init_ok memory created n) as H0.
  destruct (sys_run_ok _ _ _ _ H0 H) as [Hs Hc]. pose proof (so_pool _ Hs) as Hp.
  split; [|split; [rewrite queue_length by done; apply Hp|apply Hs]].
  unfold conserves in Hc. assert (queue (sy_pool (thread_pool_init memory created n).2) = []) as Hq.
  { unfold thread_pool_init. by destruct (if memory then _ else _). }
  rewrite Hq in Hc. exact Hc.
Qed.

(** C32 No wake-up is lost: as long as a job is queued and a worker has not returned, some
    thread other than a new caller can move, with no wake-up that nothing caused. *)
Theorem pool_never_stuck memory created n cs tr s i pc :
  sys_run cs (thread_pool_init memory created n).2 = Some (tr, s) ->
  queue (sy_pool s) <> [] -> sy_workers s !! i = Some pc -> pc <> WExit ->
  exists c, is_Some (sys_step c s) /\
    match c with
    | Call _ => False
    | CallerStep _ _ => True
    | WorkerStep _ => True
    | Spurious _ => False
    | DestroyStep => sy_destroy s = DIn
    end.
Proof.
  intros H Hq Hi Hpc. pose proof (thread_pool_init_ok memory created n) as H0.
  destruct (sys_run_ok _ _ _ _ H0 H) as [Hs _].
  destruct (sy_mutex s) as [w|] eqn:Hm.
  { eexists. split; [by apply holder_steps|]. pose proof (proj1 (so_mutex _ Hs w) Hm) as Hin.
    destruct w; cbn [inside] in Hin; [exact I|exact I|exact Hin]. }
  assert (forall j x, sy_workers s !! j = Some x -> awake x -> exists c, is_Some (sys_step c s) /\
    match c with
    | Call _ => False
    | CallerStep _ _ => True
    | WorkerStep _ => True
    | Spurious _ => False
    | DestroyStep => sy_destroy s = DIn
    end) as Hawake.
  { intros j x Hj Ha. exists (WorkerStep j). split; [by eapply awake_steps|done]. }
  destruct (decide (pc = WWait)) as [-> |Hne]; [|apply (Hawake i pc Hi); by destruct pc].
  assert (WWait ∈ sy_workers s) as Hw by (by eapply list_elem_of_lookup_2).
  destruct (so_wake _ Hs Hq Hw) as [(j & x & Hj & Ha)|(j & b & Hj)]; [by eapply Hawake|].
  exists (CallerStep j (Some i)). split; [|done]. cbn [sys_step]. unfold caller_step. rewrite Hj.
  cbn [mbind option_bind]. unfold cond_signal. rewrite decide_True by done. cbn [mbind option_bind]. eauto.
Qed.

(** C30 Shutting down drains the queue: once [thread_pool_destroy] sets the flag, with no
    call of [job_enqueue] under way and none made after, its threads take at most four
    steps for each worker and three for each job queued, in any order; when they can take
    none, with no wake-up that nothing caused, every worker has returned, the join loop is
    over and, if there was a worker, every job ever accepted has been taken.  So the
    broadcast reaches every worker asleep. *)
Theorem pool_shutdown_drains memory created n cs tr s cs' tr' s' :
  sys_run cs (thread_pool_init memory created n).2 = Some (tr, s) ->
  sy_destroy s = DIn -> (forall i pc, sy_callers s !! i = Some pc -> exists busy, pc = CDone busy) ->
  Forall of_pool cs' -> sys_run (DestroyStep :: cs') s = Some (tr', s') ->
  (length cs' <= 4 * length (sy_workers s) + 3 * length (queue (sy_pool s)) + 1)%nat /\
  ((forall c, inner c -> sys_step c s' = None) ->
   sy_destroy s' = DDone /\ (forall i pc, sy_workers s' !! i = Some pc -> pc = WExit) /\
   (sy_workers s <> [] -> taken (tr ++ tr') = Some <$> accepted (tr ++ tr'))).
Proof.
  intros H Hd Hca Hcs' H'. pose proof (thread_pool_init_ok memory created n) as H0.
  destruct (sys_run_ok _ _ _ _ H0 H) as [Hs Hc]. destruct (sys_run_ok _ _ _ _ Hs H') as [_ Hc'].
  cbn [sys_run] in H'. apply bind_Some in H' as ([ev s1] & Hst & ([ev' s2] & Hr & [= <- <-])%bind_Some).
  destruct (sys_step_ok DestroyStep _ _ _ Hs Hst) as [Hs1 _].
  destruct (begin_closing _ _ _ Hs Hd Hst) as (Hsd & Hdr & Hca1 & Hlen & Hwork).
  destruct (closing_run _ _ _ _ Hs1 Hsd Hdr Hcs' Hr) as (Hw & Hs2 & Hsd2 & Hdr2 & Hca2 & Hlen2).
  split; [lia|]. intros Hstuck. destruct (stuck_finished s2 Hs2 Hsd2) as [Hdone Hall]; [|done|].
  { rewrite Hca2, Hca1. exact Hca. }
  split; [done|]. split; [done|]. intros Hne.
  assert (queue (sy_pool s2) = []) as Hq2.
  { apply Hdr2. destruct (sy_workers s2) as [|pc ws] eqn:Ew.
    - cbn in Hlen2. rewrite Hlen in Hlen2. by destruct (sy_workers s).
    - rewrite (Hall 0%nat pc eq_refl). constructor. }
  assert (queue (sy_pool (thread_pool_init memory created n).2) = []) as Hq0.
  { unfold thread_pool_init. by destruct (if memory then _ else _). }
  unfold conserves in Hc, Hc'. rewrite Hq0 in Hc. rewrite Hq2 in Hc'. cbn [fmap list_fmap] in Hc'.
  rewrite app_nil_r in Hc'. rewrite fmap_app in Hc'. cbn [app] in Hc.
  unfold accepted, taken in *. rewrite !(omap_app _ tr), fmap_app, Hc, <- app_assoc. by rewrite Hc'.
Qed.

(** Two workers; one waits, two jobs are queued, the other worker takes the first. *)
Definition job_a : Job := MkJob 1 2 3.
Definition job_b : Job := MkJob 4 5 6.
Definition sample_schedule : list Choice :=
  [WorkerStep 0; WorkerStep 0; Call job_a; Call job_b; CallerStep 0 None; CallerStep 0 None;
   CallerStep 1 None; CallerStep 1 None; WorkerStep 1; WorkerStep 1; CallerStep 0 (Some 0%nat);
   CallerStep 1 None].

(** What a schedule on two workers gives. *)
Definition outcome (cs : list Choice) : option (list Event * System) :=
  sys_run cs (thread_pool_init true [true; true] 2).2.

Lemma pool_fifo_witness :
  exists tr s, outcome sample_schedule = Some (tr, s) /\
    accepted tr = [job_a; job_b] /\ taken tr = [Some job_a] /\ queue (sy_pool s) = [job_b].
Proof.
  assert (option_map (fun r => (accepted r.1, taken r.1)) (outcome sample_schedule)
    = Some ([job_a; job_b], [Some job_a])) as R by (vm_compute; reflexivity).
  destruct (outcome sample_schedule) as [[tr s]|] eqn:E; [|discriminate R].
  pose proof (pool_fifo true [true; true] 2 sample_schedule tr s E) as (H & _).
  cbn [option_map fst snd] in R. injection R as Ha Ht. rewrite Ha, Ht in H. injection H as H.
  exists tr, s. split; [reflexivity|]. split; [exact Ha|]. split; [exact Ht|].
  destruct (queue (sy_pool s)) as [|j [|? ?]]; cbn in H; congruence.
Defined.

Lemma pool_never_stuck_witness :
  exists tr s c, outcome sample_schedule = Some (tr, s) /\ is_Some (sys_step c s).
Proof.
  assert (option_map (fun r => (queue (sy_pool r.2), sy_workers r.2 !! 0%nat)) (outcome sample_schedule)
    = Some ([job_b], Some WLock)) as R by (vm_compute; reflexivity).
  destruct (outcome sample_schedule) as [[tr s]|] eqn:E; [|discriminate R].
  cbn [option_map fst snd] in R. injection R as Hq Hw.
  destruct (pool_never_stuck true [true; true] 2 sample_schedule tr s 0%nat WLock E) as (c & Hc & _).
  - rewrite Hq. discriminate.
  - exact Hw.
  - discriminate.
  - exists tr, s, c. split; [reflexivity|exact Hc].
Defined.

(** Two workers asleep; a job is queued and wakes the first; the pool is destroyed. *)
Definition asleep_schedule : list Choice :=
  [WorkerStep 0; WorkerStep 0; WorkerStep 1; WorkerStep 1; Call job_a; CallerStep 0 None;
   CallerStep 0 None; CallerStep 0 (Some 0%nat); DestroyStep; DestroyStep].
Definition closing_schedule : list Choice :=
  [WorkerStep 1; WorkerStep 1; WorkerStep 0; WorkerStep 0; WorkerStep 1; WorkerStep 1; WorkerStep 1;
   DestroyStep; DestroyStep; DestroyStep].

Lemma pool_shutdown_drains_witness :
  exists tr s tr' s',
    outcome asleep_schedule = Some (tr, s) /\ sy_workers s = [WLock; WWait] /\
    sys_run (DestroyStep :: closing_schedule) s = Some (tr', s') /\
    (length closing_schedule <= 12)%nat /\ sy_destroy s' = DDone /\
    taken (tr ++ tr') = [Some job_a].
Proof.
  assert (match outcome asleep_schedule with
    | Some (tr, s) =>
        sy_destroy s = DIn /\ sy_callers s = [CDone false] /\ sy_workers s = [WLock; WWait] /\
        queue (sy_pool s) = [job_a] /\
        match sys_run (DestroyStep :: closing_schedule) s with
        | Some (tr', s') => sy_workers s' = [WExit; WExit] /\ sy_destroy s' = DDone /\
            sy_mutex s' = None /\ accepted (tr ++ tr') = [job_a]
        | None => False
        end
    | None => False end) as R by (vm_compute; repeat split).
  destruct (outcome asleep_schedule) as [[tr s]|] eqn:E; [|destruct R].
  destruct R as (Hd & Hc & Hw & Hq & R).
  destruct (sys_run (DestroyStep :: closing_schedule) s) as [[tr' s']|] eqn:Hr; [|destruct R].
  destruct R as (Hw' & Hd' & Hm' & Ha).
  destruct (pool_shutdown_drains true [true; true] 2 _ tr s closing_schedule tr' s' E Hd) as [Hlen H].
  - rewrite Hc. intros [|i] pc Hpc; cbn in Hpc; [injection Hpc as <-; exists false; reflexivity|discriminate Hpc].
  - repeat constructor.
  - exact Hr.
  - destruct H as (H1 & _ & H3).
    { intros c Hin. destruct c as [| |i| |]; try destruct Hin; cbn [sys_step].
      - unfold worker_step. rewrite Hw', Hm'. destruct i as [|[|i]]; reflexivity.
      - unfold destroy_step. rewrite Hd'. reflexivity. }
    exists tr, s, tr', s'. split; [reflexivity|]. split; [exact Hw|]. split; [exact Hr|].
    split; [rewrite Hw, Hq in Hlen; exact Hlen|]. split; [exact H1|].
    rewrite H3, Ha; [reflexivity|rewrite Hw; discriminate].
Defined.
